(* ===== verification/_CoqProject ===== *)
-Q . S2P
Prelude.v
Js.v
ApiTypes.v
Models.v
Tags.v
SessionList.v
QuickKeys.v
Encoding.v
Memory.v
Crypto.v
Api.v
QuickKeysHook.v
SessionUpdates.v
Themes.v
FrostWire.v
Frost.v
FrostWorker.v
WorkerProtocol.v
FrostClient.v
Signing.v
SshClient.v
SshTerminal.v
TerminalView.v
Enrollment.v
Accounts.v
PasskeyAuth.v
Overlay.v
Chrome.v
SessionStore.v
DetailPage.v
Restart.v
SessionView.v
SessionCreate.v
Unlock.v
KeysView.v
Routes.v
TagWidgets.v
EnrollView.v
AccountViews.v
ServiceWorker.v
Devices.v
UnlockDialog.v
Lock.v
Idle.v
Creation.v
SessionPage.v
Opening.v
PageViews.v
Layout.v
