(* ===== verification/Prelude.v ===== *)
(** * Verification of the devsesh web client

    devsesh shows and controls terminal sessions that run on a user's hosts.  Its web client,
    under [src/web/src], is a React application in TypeScript: it signs the user in with a
    passkey, keeps the list of sessions live over a WebSocket, opens terminals over SSH (a Go
    program compiled to WebAssembly, driven from TypeScript) and takes part in a two-party
    FROST signature that certifies the SSH key of a connection, so that neither the server nor
    a stolen browser profile can sign alone.  This library models that client's logic.  The
    server, the Go program, the browser and the packages it uses are the environment.

    ** How the parts interact

    A page signs in through [lib/api.ts] and keeps the token in the local storage
    ([Api], [Accounts]).  The dashboard and the session page hold the session list, which
    [useSessionUpdates] feeds ([SessionUpdates], [SessionList], [SessionStore], [DetailPage],
    [SessionCreate]); tags filter it ([Tags]).  A session page mounts the terminal
    ([SshTerminal]) over the SSH wrapper ([SshClient]).  When a host asks for a certificate the
    terminal has the passkey unlock the master key (a blob sealed under the passkey's PRF
    output, [Crypto]), opens the client's key share with it, hands the share to the signing
    worker ([FrostWorker]) through its main-thread client ([FrostClient]) and runs the signing
    exchange with the server; the arithmetic and wire formats are [Frost], [FrostWire],
    [Encoding] and [Memory].  A second device gets the master key by the SPAKE2 enrollment
    between two pages ([PasskeyAuth], [Enrollment]).  Quick keys are macros sent to the
    terminal ([QuickKeys], [QuickKeysHook], [Overlay]); [Themes] and [Chrome] are the rest of
    the state of the interface.  What the pages show for their states, and what their controls
    do, is [SessionView], [KeysView], [TagWidgets], [EnrollView] and [AccountViews]; [Routes] is
    the way from an address to a page, and a service worker keeps the shell of the application
    for when there is no network ([ServiceWorker]).  Seven files run parts together:
    [Devices] (a registration, an enrollment, a terminal on the new device), [UnlockDialog] (the
    dialogs and the terminal that renders them), [Creation] (the button, the creation page, its
    creator and terminal, the session page), [SessionPage] (the session page and the terminals it
    mounts one after the other), [Opening] (from the dashboard through the routes to the first
    attachment), [Lock] (termination and logout) and [Idle] (the FROST provider, its client and
    worker while time passes, and the terminal that asks for a certificate).

    ** The files

    - [Prelude]: results, state computations, their notations, tactics, list lemmas, and [run],
      the state of a machine after a list of events, with its invariant rule.
    - [Js]: the run-time under the client: UTF-16 strings, UTF-8, numbers in decimal, base64,
      arrays and the stable sort, JSON values.  Case mapping, collation and JSON text are the
      interfaces [Locale] and [Json] with their laws; [Models] gives concrete instances, with
      which the witnesses run.
    - [ApiTypes]: [types/api.ts].
    - [Api]: [lib/api.ts] (every call as its request and the handling of its answer, with the
      URLs of the WebSockets) and [contexts/AuthContext.tsx].
    - [Accounts]: [LoginPage], [RegisterPage], [PairPage], [HostsPage], [HostForm],
      [PasskeyManagementPage] and the route guard of [App.tsx].
    - [Tags]: [lib/tags.ts], [useTagFilter], [TagEditor], [TagFilter].
    - [SessionList]: [lib/session.ts], [lib/clipboard.ts], [lib/utils.ts], the reductions of
      [DashboardPage] and [SessionDetailPage], and the two reordering hooks.
    - [SessionStore]: the interface [ListPage] both pages' lists keep, and the finite map it
      implements.
    - [DetailPage]: [SessionDetailPage.tsx] as a machine with requests in flight.
    - [Restart]: the restart intent of the dashboard and the session page, and the removal of
      stale sessions.
    - [SessionCreate]: [NewSessionButton], [SessionCreator], [NewSessionPage] and the
      dashboard's hidden creation.
    - [SessionUpdates]: [hooks/useSessionUpdates.ts] as a machine.
    - [QuickKeys], [QuickKeysHook], [Overlay]: [lib/quick-keys.ts], [useQuickKeys],
      [QuickKeysOverlay].
    - [Encoding], [Memory], [Crypto]: [lib/crypto/encoding.ts], [ssh.ts], [memory.ts], [aes.ts],
      [prf.ts], [spake2.ts], and the wrapping and unlocking of the master key of
      [RegisterPasskeyPage] and [SSHTerminal].
    - [FrostWire], [Frost], [FrostWorker], [FrostClient]: [lib/crypto/frost-encoding.ts],
      [frost.ts], [workers/frost-worker.ts], [lib/frost-client.ts], [FROSTContext.tsx].
    - [WorkerProtocol]: the worker's specification over values, and that it is implemented.
    - [Signing]: the signing client and its worker exchanging messages; [Unlock]: the same under
      the terminal's unlock and the liveness check of [FROSTContext.tsx].
    - [SshClient], [SshTerminal], [TerminalView]: [lib/ssh-client.ts] and the connection and the
      surface of [components/SSHTerminal.tsx].
    - [SessionView]: the rendered dashboard, side panel and session page, as data.
    - [KeysView]: the rendered [SessionTopBar] and [QuickKeysOverlay].
    - [TagWidgets]: [TagEditor] and [TagFilter], rendered and at work on the session page.
    - [EnrollView]: the screens of [RegisterPasskeyPage] and [AddPasskeyPage].
    - [AccountViews]: the screens of [HostsPage], [HostForm], [PairPage],
      [PasskeyManagementPage], [LoginPage], [RegisterPage], [SettingsPage] and the dialog of
      [NewSessionButton].
    - [Routes]: the routing table of [App.tsx].
    - [PageViews]: the dashboard's menu with what its entries do, the card of the CA key, the
      terminal with its dialogs, the sheet of the session page.
    - [Layout]: the measuring effects of [SessionTopBar], [useVisualViewport], and the surface of
      [SSHTerminal] under the viewport, the bar and the loading state.
    - [Creation]: [NewSessionButton], the navigation of [SessionDetailPage], [NewSessionPage],
      [SessionCreator] and its [SSHTerminal], together.
    - [UnlockDialog]: [WebAuthnDialog] and [PasswordDialog], rendered, with the terminal; the
      dialog primitive of Radix is an interface.
    - [Devices]: registration, enrollment and unlock over what the server keeps.
    - [Lock]: [terminate] of [frost-client.ts] and [FROSTContext.tsx] with the worker, and the
      tab of which [logout] changes a part.
    - [SessionPage]: [SessionDetailPage.tsx] with its [SSHTerminal]: what is rendered, moved and
      taken off the screen, the restart intent, the controls.
    - [Opening]: the way from a row of [DashboardPage.tsx] to the shell; no definitions of code.
    - [Idle]: [FROSTProvider] of [FROSTContext.tsx] with the client and the worker, and
      [handleCertificateRequest] of [SSHTerminal.tsx] through them.
    - [ServiceWorker]: [public/sw.js] with its caches.
    - [PasskeyAuth], [Enrollment]: [AddPasskeyPage] and [RegisterPasskeyPage].
    - [Themes]: [lib/themes.ts], [ThemeContext.tsx].
    - [Chrome]: [SessionTopBar], the dialogs, [CAPublicKeyDownload], [WorkerStatusIndicator],
      [useVisualViewport].

    ** How the code is modelled

    A function that only computes is a function; one that can throw returns a [result].  A
    handler that reads and writes shared state is a state computation ([SM]).  A component that
    lives over time is a machine: a record of its refs, its React state, its timers and what it
    has sent, with one definition per handler and a step function over an event type; what it
    promises is stated of [run], for every list of events.  An asynchronous function is cut at
    its [await]s where something else can happen in between, and otherwise takes the settled
    answers as arguments.  Sensitive buffers live in a store of addresses ([Memory]), because
    zeroing and aliasing are the point there.  The clock is a number of milliseconds; a timer is
    the time at which it fires.  Strings are lists of UTF-16 code units, byte arrays lists of
    byte values; a store into a byte array reduces modulo 256, the u16 and u32 fields of the
    wire formats are written out in bytes, and a [setTimeout] delay beyond 31 bits fires at
    once.

    ** What the theorems show

    - The worker: its reachable states are well formed; it implements a protocol over values, in
      which there are never more signature shares than commitments; leaving, by message or
      inactivity, zeroes what the state refers to; inactivity ends it in time.
    - The signing client: the protocol order holds on every run, no request hangs; terminal,
      client and worker together go from the passkey to the server's certificate; the liveness
      check is right, a worker found dead is replaced by the next unlock, and terminating leaves
      neither keys nor nonces; after a pause a request is served or, once the timeout is over,
      ends at the passkey dialog with the share gone.
    - The terminal: only the two session commands run, quoted, and on the session page only for
      the session on screen, a start only when one was asked for; going to another session of the
      same host runs one attachment on the open connection; a disconnect by the user is
      respected; reconnecting stops; leaving the page leaves nothing behind; the remote terminal
      has the size that fills what the page leaves it, and output arrives in order; an
      unlock is not interrupted by its dialog; a password is handed over once and not kept.
    - Accounts and enrollment: what registration stores is encrypted under keys the server does
      not have and lets the same device sign later; enrollment delivers exactly the master key
      to a device with the same code, and that device signs as the first one does;
      no enrollment socket opens without an accepted proof; the code shown on one device can be typed into the other.
    - The interface: a visitor who is not signed in sees only public pages; the bar
      shows the keys that fit; a pinned key is always in reach and types its steps; a tag is saved
      or the editor says why not; the page offers no deletion of an only passkey; the entries of the menu do what they say; the
      service worker stores nothing but the shell and static assets, and once installed answers
      every page without a network.
    - The list: the feed leaks no socket, replaces a silent one and is quiet after its end; a
      page's rows are a finite map's, and what the dashboard shows is that map through the tag
      filter, with links that open each session, down to the attachment or the start that its
      terminal runs; the session page shows the session of its address
      when answers come in time; a creation ends exactly once, and its terminal runs the start of
      its session before anything else; a reorder renumbers and loses nothing.
    - Formats: base64, base64url, commitments, xterm sequences and SSH key text are read back
      as written; the padding loop ends; the two fingerprint computations agree.
    - Behaviour that the model shows to be wrong is stated as theorems too (overlapping
      requests, a recovery that overrides a disconnect, late answers, a second creation that
      inherits the first one's timer and is never started, a logout that keeps the share, an
      error answer that the service worker serves for good, a restart that is run again for
      another session, a closed worker that is shown as active, and others).

    ** Bounds and fuel

    Three loops carry fuel.  [Encoding.pad_loop] has three rounds, shown to be enough for every
    text.  [Js.number_digits] takes one more than the binary logarithm of the number, which is
    more than its decimal digits.  [Routes.visit] follows three addresses, the one opened and
    two redirections, within which every address ends ([navigation_ends]).  Everything else is structural,
    or a machine driven by its events.

    ** What is not modelled

    - Layout, class names, fixed texts and xterm's rendering: no state of the program depends on
      them, except for the measures that the overflow, the pointer drag and
      the terminal's fit read, which are arguments.
    - [wasm_exec.js] and the Go program in [web/wasm]: third-party and another language.  The
      Go program is the environment of [SshClient]: what it reports is arbitrary.
    - The Go server and command line: another language; the server is an arbitrary function
      from requests to answers, and an arbitrary peer of the WebSockets, unless a theorem says
      what it answers.
    - The browser's cache storage is modelled from its documentation; the life of a service
      worker as the order in which the browser sends it its events.
    - The curve arithmetic of the noble packages, WebCrypto, WebAuthn: interfaces with the laws
      that the theorems name.  Secrecy and unforgeability are not stated: the model says which
      bytes are computed, stored and sent, not what an adversary can compute from them.
    - Logging to the console and the diagnostics sent to the server. *)

From stdpp Require Export base tactics decidable option list numbers gmap.
From Stdlib Require Export ZArith Lia ZifyNat.

#[export] Set Default Goal Selector "!".

(** ** Notations of the development *)

Declare Scope js_scope.
Delimit Scope js_scope with js.

(** A JavaScript string is a sequence of UTF-16 code units; a [Uint8Array] is a
    sequence of byte values.  Both are lists of [Z]. *)
Abbreviation jsstring := (list Z).
Abbreviation bytes := (list Z).

(** An [Error] object: its [name] and its [message]. *)
Record js_error := JsError { err_name : jsstring; err_message : jsstring }.

(** The completion of a JavaScript expression: a value or a thrown error. *)
Inductive result (A : Type) :=
| Ok (a : A)
| Throw (e : js_error).
Arguments Ok {A} a.
Arguments Throw {A} e.

Definition rbind {A B} (m : result A) (k : A → result B) : result B :=
  match m with
  | Ok a => k a
  | Throw e => Throw e
  end.

Notation "'let!' x := m 'in' k" := (rbind m (λ x, k))
  (at level 10, x pattern, m at level 100, k at level 200,
   format "'let!'  x  :=  m  'in' '//' k") : js_scope.

(** [try { m } catch { h }] on results. *)
Definition try_catch {A} (m : result A) (h : js_error → result A) : result A :=
  match m with
  | Ok a => Ok a
  | Throw e => h e
  end.

Definition is_ok {A} (m : result A) : bool :=
  match m with Ok _ => true | Throw _ => false end.

Definition ok_value {A} (m : result A) : option A :=
  match m with Ok a => Some a | Throw _ => None end.

(** Computations over a state of type [S] that may throw; what they did to the state
    before they threw stays done. *)
Definition SM (S A : Type) : Type := S → result A * S.

Definition sret {S A} (a : A) : SM S A := λ s, (Ok a, s).
Definition sthrow {S A} (e : js_error) : SM S A := λ s, (Throw e, s).
Definition slift {S A} (r : result A) : SM S A := λ s, (r, s).
Definition sget {S} : SM S S := λ s, (Ok s, s).
Definition sput {S} (s : S) : SM S unit := λ _, (Ok tt, s).

Definition sbind {S A B} (m : SM S A) (k : A → SM S B) : SM S B := λ s,
  match m s with
  | (Ok a, s') => k a s'
  | (Throw e, s') => (Throw e, s')
  end.

(** [try { m } catch (e) { h(e) }]. *)
Definition scatch {S A} (m : SM S A) (h : js_error → SM S A) : SM S A := λ s,
  match m s with
  | (Ok a, s') => (Ok a, s')
  | (Throw e, s') => h e s'
  end.

Notation "'let*' x := m 'in' k" := (sbind m (λ x, k))
  (at level 10, x pattern, m at level 100, k at level 200,
   format "'let*'  x  :=  m  'in' '//' k") : js_scope.

#[global] Instance js_error_eq_dec : EqDecision js_error.
Proof. solve_decision. Defined.

#[global] Instance result_eq_dec {A} `{EqDecision A} : EqDecision (result A).
Proof. solve_decision. Defined.

(** ** Tactics *)

(** Turns the boolean comparisons of [Z] and [nat] in the context and the goal into
    propositions. *)
Ltac zbool :=
  rewrite ?andb_true_iff, ?andb_false_iff, ?orb_true_iff, ?orb_false_iff,
    ?negb_true_iff, ?negb_false_iff,
    ?Z.ltb_lt, ?Z.ltb_ge, ?Z.leb_le, ?Z.leb_gt, ?Z.eqb_eq, ?Z.eqb_neq,
    ?Nat.ltb_lt, ?Nat.ltb_ge, ?Nat.leb_le, ?Nat.leb_gt, ?Nat.eqb_eq, ?Nat.eqb_neq in *.

(** Linear arithmetic with division and remainder by constants, on [Z] and [nat]. *)
Ltac solve_mod := zify; Z.to_euclidean_division_equations; lia.

(** Splits every [if] whose condition is a boolean comparison, keeping the equation. *)
Ltac case_if :=
  match goal with
  | |- context [if ?b then _ else _] =>
      lazymatch type of b with bool => destruct b eqn:? | _ => destruct b end
  | H : context [if ?b then _ else _] |- _ =>
      lazymatch type of b with bool => destruct b eqn:? | _ => destruct b end
  end.

Ltac case_ifs := repeat (case_if; simplify_eq/=).

(** Inverts a hypothesis that a [rbind] chain completed normally. *)
Ltac inv_bind :=
  repeat match goal with
  | H : rbind ?m _ = Ok _ |- _ =>
      let E := fresh "E" in destruct m eqn:E; simpl in H; [ | discriminate H ]
  | H : Ok _ = Ok _ |- _ => injection H as H; subst
  | H : Throw _ = Ok _ |- _ => discriminate H
  | H : Ok _ = Throw _ |- _ => discriminate H
  end.

(** Takes apart [Forall P (x :: l)] hypotheses without simplifying the goal. *)
Ltac inv_Forall :=
  repeat match goal with
  | H : Forall _ (_ :: _) |- _ =>
      let Hx := fresh "Hx" in apply Forall_cons_1 in H; destruct H as [Hx H]
  | H : Forall _ [] |- _ => clear H
  | H : Forall _ (_ ++ _) |- _ =>
      let H' := fresh "Hl" in apply Forall_app in H; destruct H as [H' H]
  end.

(** ** Lemmas on [result] *)

Lemma rbind_assoc {A B C} (m : result A) (f : A → result B) (g : B → result C) :
  rbind (rbind m f) g = rbind m (λ x, rbind (f x) g).
Proof. by destruct m. Qed.

Lemma rbind_ok_inv {A B} (m : result A) (k : A → result B) b :
  rbind m k = Ok b → ∃ a, m = Ok a ∧ k a = Ok b.
Proof. destruct m; simpl; [eauto | discriminate]. Qed.

Lemma sbind_ok_inv {S A B} (m : SM S A) (k : A → SM S B) s b s' :
  sbind m k s = (Ok b, s') → ∃ a s1, m s = (Ok a, s1) ∧ k a s1 = (Ok b, s').
Proof. unfold sbind. destruct (m s) as [[a|e] s1]; [eauto | done]. Qed.

(** ** Lemmas on lists *)

Section list_lemmas.
Context {A : Type}.
Implicit Types (l k : list A).

Lemma filter_all (P : A → Prop) `{∀ x, Decision (P x)} l :
  Forall P l → filter P l = l.
Proof. induction 1 as [|x l Hx _ IH]; [done|]. by rewrite filter_cons_True, IH. Qed.

Lemma filter_none (P : A → Prop) `{∀ x, Decision (P x)} l :
  Forall (λ x, ¬ P x) l → filter P l = [].
Proof. induction 1 as [|x l Hx _ IH]; [done|]. by rewrite filter_cons_False. Qed.

Lemma Forall_filter (P Q : A → Prop) `{∀ x, Decision (P x)} l :
  Forall Q l → Forall Q (filter P l).
Proof.
  rewrite !Forall_forall. intros HQ x [_ Hx]%list_elem_of_filter. by apply HQ.
Qed.

Lemma elem_of_concat (x : A) (ls : list (list A)) :
  x ∈ concat ls ↔ ∃ l, x ∈ l ∧ l ∈ ls.
Proof.
  rewrite list_elem_of_In, in_concat. setoid_rewrite list_elem_of_In. naive_solver.
Qed.

Lemma take_app_exact l k n : length l = n → take n (l ++ k) = l.
Proof. intros <-. by rewrite take_app_length. Qed.

Lemma drop_app_exact l k n : length l = n → drop n (l ++ k) = k.
Proof. intros <-. by rewrite drop_app_length. Qed.

Lemma take_replicate_app n (x : A) k : take n (replicate n x ++ k) = replicate n x.
Proof. apply take_app_exact, length_replicate. Qed.
End list_lemmas.

(** One step of a counter modulo [m]. *)
Lemma mod_add_1 n m k : (n mod m = k → k + 1 < m → (n + 1) mod m = k + 1)%nat.
Proof.
  intros <- Hk. symmetry. apply (Nat.mod_unique _ _ (n / m)); [done|].
  pose proof (Nat.div_mod_eq n m). lia.
Qed.

Lemma mod_add_1_wrap n m k : (n mod m = k → k + 1 = m → (n + 1) mod m = 0)%nat.
Proof.
  intros <- Hk. symmetry. apply (Nat.mod_unique _ _ (n / m + 1)); [lia|].
  pose proof (Nat.div_mod_eq n m). nia.
Qed.

(** Induction on a list three elements at a time, the shape of base64 groups. *)
Lemma list_ind3 {A} (P : list A → Prop) :
  P [] → (∀ a, P [a]) → (∀ a b, P [a; b]) →
  (∀ a b c l, P l → P (a :: b :: c :: l)) → ∀ l, P l.
Proof.
  intros H0 H1 H2 H3 l.
  enough (P l ∧ (∀ a, P (a :: l)) ∧ (∀ a b, P (a :: b :: l))) by tauto.
  induction l as [|x l (IH0 & IH1 & IH2)]; [auto|]. auto.
Qed.

(** ** Reachability in a deterministic machine driven by events *)

Section machine.
Context {S E : Type} (step : S → E → S).

(** The state after a sequence of events. *)
Definition run (s : S) (es : list E) : S := foldl step s es.

Lemma run_app s es es' : run s (es ++ es') = run (run s es) es'.
Proof. apply foldl_app. Qed.

(** Rule induction for an invariant of every reachable state. *)
Lemma run_invariant (I : S → Prop) s es :
  I s → (∀ s e, I s → I (step s e)) → I (run s es).
Proof.
  intros Hs Hstep. revert s Hs.
  induction es as [|e es IH]; intros s Hs; simpl; [done|]. apply IH, Hstep, Hs.
Qed.
End machine.
