(* ===== verification/Js.v ===== *)
(** * The JavaScript run-time functions the client uses

    Strings as UTF-16 code units, [TextEncoder], [btoa]/[atob], typed-array
    operations and the array operations [indexOf], [splice], [sort] of the
    language and of the web platform.  Nothing here maps to a file of the
    repository: it is the platform under it.  Case mapping, collation, JSON and
    date parsing are interfaces (type classes) with the laws the client relies on. *)

From Stdlib Require Import Ascii String.
From Stdlib Require Export Sorted.
Export StringSyntax.
From S2P Require Import Prelude.
#[local] Open Scope Z_scope.

(** ** String literals *)

Fixpoint js (s : string) : jsstring :=
  match s with
  | EmptyString => []
  | String c s' => Z.of_N (N_of_ascii c) :: js s'
  end.
Arguments js _%_string_scope.

Definition type_error (m : string) : js_error := JsError (js "TypeError") (js m).
Definition range_error (m : string) : js_error := JsError (js "RangeError") (js m).
Definition plain_error (m : jsstring) : js_error := JsError (js "Error") m.

(** ** Code units and code points *)

Definition is_code_unit (c : Z) : Prop := 0 <= c < 65536.
Definition is_high_surrogate (c : Z) : bool := (0xD800 <=? c) && (c <? 0xDC00).
Definition is_low_surrogate (c : Z) : bool := (0xDC00 <=? c) && (c <? 0xE000).

(** [[...s]]: the string iterator yields code points; an unpaired surrogate stays. *)
Fixpoint code_points (s : jsstring) : list Z :=
  match s with
  | [] => []
  | h :: t =>
      match t with
      | l :: t' =>
          if is_high_surrogate h && is_low_surrogate l
          then (0x10000 + (h - 0xD800) * 0x400 + (l - 0xDC00)) :: code_points t'
          else h :: code_points t
      | [] => [h]
      end
  end.

(** White space and line terminators, the characters [String.prototype.trim] removes. *)
Definition is_js_space (c : Z) : bool :=
  existsb (Z.eqb c)
    [9; 10; 11; 12; 13; 32; 160; 0x1680; 0x2000; 0x2001; 0x2002; 0x2003; 0x2004;
     0x2005; 0x2006; 0x2007; 0x2008; 0x2009; 0x200A; 0x2028; 0x2029; 0x202F;
     0x205F; 0x3000; 0xFEFF].

Fixpoint trim_start (s : jsstring) : jsstring :=
  match s with
  | [] => []
  | c :: s' => if is_js_space c then trim_start s' else s
  end.

Definition trim_end (s : jsstring) : jsstring := reverse (trim_start (reverse s)).

Definition trim (s : jsstring) : jsstring := trim_end (trim_start s).

(** [s.replace(/c/g, d)] for single characters. *)
Definition replace_all (c d : Z) (s : jsstring) : jsstring :=
  (λ x, if x =? c then d else x) <$> s.

(** [s.replace(/c+$/, "")]. *)
Fixpoint strip_start (c : Z) (s : jsstring) : jsstring :=
  match s with
  | [] => []
  | x :: s' => if x =? c then strip_start c s' else s
  end.

Definition strip_end (c : Z) (s : jsstring) : jsstring := reverse (strip_start c (reverse s)).

(** [String(n)] for a non-negative integer. *)
Fixpoint digits_fuel (base : Z) (fuel : nat) (n : Z) (acc : list Z) : list Z :=
  match fuel with
  | O => acc
  | S fuel =>
      let acc' := (n mod base) :: acc in
      if n <? base then acc' else digits_fuel base fuel (n / base) acc'
  end.

Definition digit_char (d : Z) : Z := if d <? 10 then 48 + d else 87 + d.

(** [Z.log2 n + 1] digits are enough in any base of at least two. *)
Definition number_digits (base n : Z) : list Z :=
  digits_fuel base (S (Z.to_nat (Z.log2 n))) n [].

Definition number_to_string (base n : Z) : jsstring :=
  if n <? 0 then 45 :: (digit_char <$> number_digits base (- n))
  else digit_char <$> number_digits base n.

Definition of_int (n : Z) : jsstring := number_to_string 10 n.

(** [s.padStart(n, c)]. *)
Definition pad_start (n : nat) (c : Z) (s : jsstring) : jsstring :=
  replicate (n - length s) c ++ s.

(** ** [TextEncoder.encode] *)

Definition is_byte (b : Z) : Prop := 0 <= b < 256.

(** The UTF-8 bytes of one code point; an unpaired surrogate becomes U+FFFD. *)
Definition utf8_char (c : Z) : bytes :=
  if c <? 0x80 then [c]
  else if c <? 0x800 then [0xC0 + c / 64; 0x80 + c mod 64]
  else if is_high_surrogate c || is_low_surrogate c then [0xEF; 0xBF; 0xBD]
  else if c <? 0x10000 then
    [0xE0 + c / 4096; 0x80 + (c / 64) mod 64; 0x80 + c mod 64]
  else
    [0xF0 + c / 262144; 0x80 + (c / 4096) mod 64; 0x80 + (c / 64) mod 64; 0x80 + c mod 64].

Definition text_encode (s : jsstring) : bytes := concat (utf8_char <$> code_points s).

(** ** [Uint8Array] *)

(** [new Uint8Array(n)]. *)
Definition u8_new (n : nat) : bytes := replicate n 0.

(** [new Uint8Array(values)]: each value is taken modulo 256. *)
Definition u8_from (l : list Z) : bytes := (λ v, v mod 256) <$> l.

(** [dst.set(src, off)] throws when [src] does not fit. *)
Definition u8_set (dst src : bytes) (off : nat) : result bytes :=
  if decide (off + length src ≤ length dst)%nat
  then Ok (take off dst ++ src ++ drop (off + length src) dst)
  else Throw (range_error "offset is out of bounds").

(** [a[i] = v]: a write outside the array is ignored. *)
Definition u8_store (a : bytes) (i : nat) (v : Z) : bytes := <[i := v mod 256]> a.

(** [a.slice(i, j)] and [a.slice(i)] for non-negative bounds. *)
Definition u8_slice (a : bytes) (i j : nat) : bytes := take (j - i) (drop i a).
Definition u8_slice_from (a : bytes) (i : nat) : bytes := drop i a.

(** [a.fill(0)]. *)
Definition u8_fill0 (a : bytes) : bytes := replicate (length a) 0.

(** [DataView.setUint32(0, n, false)] on a fresh four-byte buffer. *)
Definition uint32_be (n : Z) : bytes :=
  [Z.shiftr n 24 mod 256; Z.shiftr n 16 mod 256; Z.shiftr n 8 mod 256; n mod 256].

(** ** [btoa] and [atob] *)

Definition b64_char (i : Z) : Z :=
  if i <? 26 then 65 + i
  else if i <? 52 then 97 + (i - 26)
  else if i <? 62 then 48 + (i - 52)
  else if i =? 62 then 43 else 47.

Definition b64_value (c : Z) : option Z :=
  if (65 <=? c) && (c <=? 90) then Some (c - 65)
  else if (97 <=? c) && (c <=? 122) then Some (c - 97 + 26)
  else if (48 <=? c) && (c <=? 57) then Some (c - 48 + 52)
  else if c =? 43 then Some 62
  else if c =? 47 then Some 63
  else None.

(** The characters of the encoding without the padding, and the padding. *)
Fixpoint b64_body (bs : bytes) : jsstring :=
  match bs with
  | [] => []
  | [a] => [b64_char (a / 4); b64_char ((a mod 4) * 16)]
  | [a; b] =>
      [b64_char (a / 4); b64_char ((a mod 4) * 16 + b / 16); b64_char ((b mod 16) * 4)]
  | a :: b :: c :: bs' =>
      b64_char (a / 4) :: b64_char ((a mod 4) * 16 + b / 16)
      :: b64_char ((b mod 16) * 4 + c / 64) :: b64_char (c mod 64) :: b64_body bs'
  end.

Definition b64_padding (n : nat) : jsstring :=
  match (n mod 3)%nat with
  | 1%nat => [61; 61]
  | 2%nat => [61]
  | _ => []
  end.

Definition btoa (s : jsstring) : result jsstring :=
  if forallb (λ c, (0 <=? c) && (c <? 256)) s
  then Ok (b64_body s ++ b64_padding (length s))
  else Throw (JsError (js "InvalidCharacterError") (js "character out of range")).

Definition is_ascii_space (c : Z) : bool := existsb (Z.eqb c) [9; 10; 12; 13; 32].

(** The forgiving decoder: at most two [=] go when the length is a multiple of four. *)
Definition strip_padding (s : jsstring) : jsstring :=
  if (length s mod 4 =? 0)%nat then
    match reverse s with
    | x :: y :: r => if x =? 61 then if y =? 61 then reverse r else reverse (y :: r) else s
    | _ => s
    end
  else s.

Fixpoint b64_unpack (vs : list Z) : bytes :=
  match vs with
  | v0 :: v1 :: rest =>
      (v0 * 4 + v1 / 16) ::
      match rest with
      | [] => []
      | v2 :: rest' =>
          ((v1 mod 16) * 16 + v2 / 4) ::
          match rest' with
          | [] => []
          | v3 :: rest'' => ((v2 mod 4) * 64 + v3) :: b64_unpack rest''
          end
      end
  | _ => []
  end.

Fixpoint b64_values (s : jsstring) : option (list Z) :=
  match s with
  | [] => Some []
  | c :: s' =>
      match b64_value c, b64_values s' with
      | Some v, Some vs => Some (v :: vs)
      | _, _ => None
      end
  end.

Definition invalid_base64 : js_error :=
  JsError (js "InvalidCharacterError") (js "The string to be decoded is not correctly encoded.").

Definition atob (s : jsstring) : result bytes :=
  let s := strip_padding (filter (λ c, is_ascii_space c = false) s) in
  if (length s mod 4 =? 1)%nat then Throw invalid_base64
  else match b64_values s with
       | Some vs => Ok (b64_unpack vs)
       | None => Throw invalid_base64
       end.

(** ** Arrays *)

(** [l.indexOf(x)]; [None] for [-1]. *)
Fixpoint index_of {A} `{EqDecision A} (x : A) (l : list A) : option nat :=
  match l with
  | [] => None
  | y :: l' => if decide (y = x) then Some O else S <$> index_of x l'
  end.

(** [l.splice(to, 0, l.splice(from, 1)[0])]: the argument is evaluated first, so the
    element leaves before it is put back. *)
Definition splice_move {A} (l : list A) (from to : nat) : list A :=
  match l !! from with
  | Some x => let r := delete from l in take to r ++ x :: drop to r
  | None => l
  end.

(** [[...l].sort(cmp)]: the language requires the sort to be stable. *)
Section sort.
Context {A : Type} (cmp : A → A → Z).

Fixpoint sort_insert (x : A) (l : list A) : list A :=
  match l with
  | [] => [x]
  | y :: l' => if cmp x y <=? 0 then x :: l else y :: sort_insert x l'
  end.

Definition array_sort (l : list A) : list A := foldr sort_insert [] l.
End sort.

(** ** Interfaces of the run-time *)

(** Case mapping and collation depend on the Unicode tables of the engine. *)
Class Locale := {
  toLowerCase : jsstring → jsstring;
  toUpperCase : jsstring → jsstring;
  localeCompare : jsstring → jsstring → Z;
}.

(** ASCII case mapping. *)
Definition ascii_lower (s : jsstring) : jsstring :=
  (λ c, if (65 <=? c) && (c <=? 90) then c + 32 else c) <$> s.

Definition ascii_upper (s : jsstring) : jsstring :=
  (λ c, if (97 <=? c) && (c <=? 122) then c - 32 else c) <$> s.

(** What the client relies on: [localeCompare] orders the strings, and the case mappings
    are the usual ones on ASCII text. *)
Class LocaleLaws (L : Locale) := {
  toLowerCase_ascii s : Forall (λ c, 0 <= c < 128) s → toLowerCase s = ascii_lower s;
  toUpperCase_ascii s : Forall (λ c, 0 <= c < 128) s → toUpperCase s = ascii_upper s;
  localeCompare_total a b : localeCompare a b <= 0 ∨ localeCompare b a <= 0;
  localeCompare_trans a b c :
    localeCompare a b <= 0 → localeCompare b c <= 0 → localeCompare a c <= 0;
}.

#[local] Set Warnings "-register-all".

(** The values of [JSON.parse]; integers are kept apart from other numbers. *)
Inductive json :=
| JNull
| JBool (b : bool)
| JInt (n : Z)
| JFloat (bits : Z)
| JStr (s : jsstring)
| JArr (l : list json)
| JObj (fields : list (jsstring * json)).

Class Json := {
  JSON_parse : jsstring → option json;
  JSON_stringify : json → jsstring;
}.

Class JsonLaws (J : Json) := {
  JSON_parse_stringify j : JSON_parse (JSON_stringify j) = Some j;
  JSON_parse_empty : JSON_parse [] = None;
}.

(** Property access on a parsed value; [None] is [undefined]. *)
Fixpoint assoc_get {V} (k : jsstring) (l : list (jsstring * V)) : option V :=
  match l with
  | [] => None
  | (k', v) :: l' => if decide (k' = k) then Some v else assoc_get k l'
  end.

Definition json_get (k : jsstring) (j : json) : option json :=
  match j with JObj fs => assoc_get k fs | _ => None end.

(** [Array.prototype.map] with a callback that may throw. *)
Fixpoint array_map {A B} (f : A → result B) (l : list A) : result (list B) :=
  match l with
  | [] => Ok []
  | x :: l' => rbind (f x) (λ y, rbind (array_map f l') (λ ys, Ok (y :: ys)))
  end.

(** ** Facts: typed arrays *)

Create HintDb js discriminated.

Lemma array_map_ok {A B} (f : A → result B) (g : A → B) l :
  Forall (λ x, f x = Ok (g x)) l → array_map f l = Ok (g <$> l).
Proof. induction 1 as [|x l Hx _ IH]; simpl; [done|]. by rewrite Hx, IH. Qed.

Lemma u8_set_ok (dst src : bytes) off :
  (off + length src ≤ length dst)%nat →
  u8_set dst src off = Ok (take off dst ++ src ++ drop (off + length src) dst).
Proof. intros H. unfold u8_set. by rewrite decide_True. Qed.

Lemma u8_set_length (dst src r : bytes) off :
  u8_set dst src off = Ok r → length r = length dst.
Proof.
  unfold u8_set. case_decide as H; [|done]. intros [= <-].
  rewrite !length_app, length_take, length_drop. lia.
Qed.

(** Writing right after what was written, into a zeroed buffer. *)
Lemma u8_set_append (pre src : bytes) m :
  (length src ≤ m)%nat →
  u8_set (pre ++ replicate m 0) src (length pre)
  = Ok ((pre ++ src) ++ replicate (m - length src) 0).
Proof.
  intros H. rewrite u8_set_ok by (rewrite length_app, length_replicate; lia).
  rewrite take_app_length, drop_app_ge, drop_replicate by lia.
  rewrite <- app_assoc. repeat f_equal. lia.
Qed.

Lemma u8_fill0_length a : length (u8_fill0 a) = length a.
Proof. apply length_replicate. Qed.

Lemma u8_fill0_zero a i b : u8_fill0 a !! i = Some b → b = 0.
Proof. unfold u8_fill0. intros H. by apply lookup_replicate in H as [-> _]. Qed.

Lemma u8_from_bytes l : Forall is_byte (u8_from l).
Proof.
  unfold u8_from. apply Forall_fmap, Forall_forall. intros v _. simpl.
  unfold is_byte. pose proof (Z.mod_pos_bound v 256). lia.
Qed.

Lemma u8_from_id l : Forall is_byte l → u8_from l = l.
Proof.
  unfold u8_from. induction 1 as [|b l Hb _ IH]; [done|].
  rewrite fmap_cons, IH, Z.mod_small by exact Hb. done.
Qed.

Lemma uint32_be_length n : length (uint32_be n) = 4%nat.
Proof. done. Qed.

Lemma uint32_be_bytes n : Forall is_byte (uint32_be n).
Proof. repeat constructor; apply Z.mod_pos_bound; lia. Qed.

#[export] Hint Resolve u8_from_bytes uint32_be_bytes : js.

(** ** Facts: base64 *)

Definition b64_alphabet (c : Z) : Prop := is_Some (b64_value c).

Lemma b64_value_char i : 0 <= i < 64 → b64_value (b64_char i) = Some i.
Proof.
  intros Hi. unfold b64_char, b64_value.
  repeat case_if; zbool; try (f_equal; lia); exfalso; lia.
Qed.

(** The four sextets of a group are in range. *)
Ltac sextet :=
  unfold is_byte in *; Z.div_mod_to_equations; lia.

Lemma b64_values_cons c v s vs :
  b64_value c = Some v → b64_values s = Some vs → b64_values (c :: s) = Some (v :: vs).
Proof. intros Hc Hs. simpl. by rewrite Hc, Hs. Qed.

Lemma b64_values_alphabet s vs : b64_values s = Some vs → Forall b64_alphabet s.
Proof.
  revert vs. induction s as [|c s IH]; intros vs H; [by constructor|]. simpl in H.
  destruct (b64_value c) eqn:Hc; [|done].
  destruct (b64_values s); [|done]. constructor; [by eexists | by eapply IH].
Qed.

(** Reads back the characters of one group. *)
Ltac b64_group :=
  cbn [b64_body]; repeat apply b64_values_cons;
  first [done | apply b64_value_char; sextet].

Lemma b64_body_values bs :
  Forall is_byte bs → ∃ vs, b64_values (b64_body bs) = Some vs ∧ b64_unpack vs = bs.
Proof.
  induction bs as [|a|a b|a b c bs IH] using list_ind3; intros H; inv_Forall.
  - by exists [].
  - exists [a / 4; (a mod 4) * 16].
    split; [b64_group|].
    cbn [b64_unpack]. f_equal. sextet.
  - exists [a / 4; (a mod 4) * 16 + b / 16; (b mod 16) * 4].
    split; [b64_group|].
    cbn [b64_unpack]. repeat f_equal; sextet.
  - destruct IH as (vs & Hvs & Hun); [done|].
    exists (a / 4 :: (a mod 4) * 16 + b / 16 :: (b mod 16) * 4 + c / 64 :: c mod 64 :: vs).
    split; [b64_group|].
    cbn [b64_unpack]. rewrite Hun. repeat f_equal; sextet.
Qed.

Lemma b64_body_length bs :
  (3 * length (b64_body bs) = 4 * length bs + match length bs mod 3 with 0 => 0 | 1 => 2 | _ => 1 end)%nat.
Proof.
  induction bs as [|a|a b|a b c bs IH] using list_ind3; [done..|].
  cbn [b64_body length].
  replace (S (S (S (length bs))) mod 3)%nat with (length bs mod 3)%nat; [lia|].
  change (S (S (S (length bs)))) with (3 + length bs)%nat.
  rewrite <- (Nat.Div0.add_mod_idemp_l 3), Nat.Div0.mod_same. done.
Qed.

Lemma b64_body_alphabet bs : Forall is_byte bs → Forall b64_alphabet (b64_body bs).
Proof. intros H. destruct (b64_body_values bs H) as (vs & Hvs & _). by eapply b64_values_alphabet. Qed.

Lemma alphabet_not_padding c : b64_alphabet c → c ≠ 61.
Proof. intros [v Hv] ->. discriminate. Qed.

Lemma alphabet_not_space c : b64_alphabet c → is_ascii_space c = false.
Proof.
  intros [v Hv]. unfold is_ascii_space.
  destruct (existsb _ _) eqn:E; [|done]. exfalso.
  simpl in E. rewrite !orb_true_iff, !Z.eqb_eq in E.
  destruct_or?; subst; try discriminate.
Qed.

Lemma strip_padding_app s k :
  Forall b64_alphabet s → (k ≤ 2)%nat → ((length s + k) mod 4 = 0)%nat →
  strip_padding (s ++ replicate k 61) = s.
Proof.
  intros Hs Hk Hlen. unfold strip_padding.
  rewrite length_app, length_replicate, Hlen, Nat.eqb_refl, reverse_app, reverse_replicate.
  apply Forall_reverse in Hs.
  assert (Hrev : reverse (reverse s) = s) by apply reverse_involutive.
  destruct k as [|[|[|k]]]; [..|lia]; simpl; rewrite ?app_nil_r.
  - destruct (reverse s) as [|x [|y r]]; [done..|].
    inv_Forall. apply alphabet_not_padding in Hx. by rewrite (proj2 (Z.eqb_neq x 61)).
  - destruct (reverse s) as [|x r] eqn:E.
    { rewrite <- (length_reverse s), E in Hlen. done. }
    inv_Forall. apply alphabet_not_padding in Hx. by rewrite (proj2 (Z.eqb_neq x 61)).
  - done.
Qed.

Lemma strip_padding_unpadded s : Forall b64_alphabet s → strip_padding s = s.
Proof.
  intros Hs. destruct (decide (length s mod 4 = 0)%nat) as [E|E].
  - rewrite <- (app_nil_r s) at 1. apply (strip_padding_app s 0); [done|lia|].
    by rewrite Nat.add_0_r.
  - unfold strip_padding. by rewrite (proj2 (Nat.eqb_neq _ _)).
Qed.

Lemma padding_replicate n :
  b64_padding n = replicate (match n mod 3 with 0 => 0 | 1 => 2 | _ => 1 end)%nat 61.
Proof.
  unfold b64_padding. pose proof (Nat.mod_upper_bound n 3).
  destruct (n mod 3)%nat as [|[|[|k]]]; [done..|lia].
Qed.

(** The length of the body modulo four, by the length of the input modulo three. *)
Lemma b64_body_mod bs :
  (length (b64_body bs) mod 4 = match length bs mod 3 with 0 => 0 | 1 => 2 | _ => 3 end)%nat.
Proof.
  pose proof (b64_body_length bs) as H. pose proof (Nat.mod_upper_bound (length bs) 3).
  pose proof (Nat.div_mod_eq (length bs) 3).
  destruct (length bs mod 3)%nat as [|[|[|k]]] eqn:E; [| | |lia].
  - symmetry. apply (Nat.mod_unique _ 4 (length bs / 3)); lia.
  - symmetry. apply (Nat.mod_unique _ 4 (length bs / 3)); lia.
  - symmetry. apply (Nat.mod_unique _ 4 (length bs / 3)); lia.
Qed.

Lemma atob_body bs : Forall is_byte bs → atob (b64_body bs) = Ok bs.
Proof.
  intros H. pose proof (b64_body_alphabet bs H) as Ha. unfold atob.
  rewrite filter_all by (eapply Forall_impl; [done | apply alphabet_not_space]).
  rewrite strip_padding_unpadded by done.
  destruct (b64_body_values bs H) as (vs & -> & ->).
  rewrite b64_body_mod. destruct (length bs mod 3)%nat as [|[|]]; done.
Qed.

Lemma atob_padded bs :
  Forall is_byte bs → atob (b64_body bs ++ b64_padding (length bs)) = Ok bs.
Proof.
  intros H. pose proof (b64_body_alphabet bs H) as Ha. unfold atob.
  rewrite padding_replicate.
  rewrite filter_all; [|apply Forall_app; split;
    [eapply Forall_impl; [done | apply alphabet_not_space]
    | by apply Forall_replicate]].
  rewrite strip_padding_app; [| done | |].
  - rewrite <- (strip_padding_unpadded (b64_body bs)) at 1 by done.
    rewrite strip_padding_unpadded by done.
    destruct (b64_body_values bs H) as (vs & -> & ->).
    rewrite b64_body_mod. destruct (length bs mod 3)%nat as [|[|]]; done.
  - destruct (length bs mod 3)%nat as [|[|]]; lia.
  - rewrite <- Nat.Div0.add_mod_idemp_l, b64_body_mod.
    pose proof (Nat.mod_upper_bound (length bs) 3).
    destruct (length bs mod 3)%nat as [|[|[|]]]; [done..|lia].
Qed.

Lemma btoa_bytes bs :
  Forall is_byte bs → btoa bs = Ok (b64_body bs ++ b64_padding (length bs)).
Proof.
  intros H. unfold btoa. replace (forallb _ bs) with true; [done|].
  symmetry. induction H as [|b bs [? ?] _ IH]; simpl; [done|].
  rewrite IH. zbool. lia.
Qed.

(** ** Facts: [TextEncoder] *)

Lemma utf8_char_bytes c : 0 <= c < 0x110000 → Forall is_byte (utf8_char c).
Proof.
  intros Hc. unfold utf8_char.
  repeat case_if; zbool; repeat constructor; unfold is_byte; Z.div_mod_to_equations; lia.
Qed.

Lemma code_points_range s :
  Forall is_code_unit s → Forall (λ c, 0 <= c < 0x110000) (code_points s).
Proof.
  remember (length s) as n eqn:Hn. revert s Hn.
  induction n as [n IH] using lt_wf_ind. intros [|h [|l t]] -> Hs; [constructor| |].
  - inv_Forall. repeat constructor; destruct Hx; lia.
  - inv_Forall. destruct Hx as [? ?], Hx0 as [? ?]. simpl. case_if.
    + unfold is_high_surrogate, is_low_surrogate in *. zbool.
      constructor; [lia|]. eapply IH; [| done | done]. simpl. lia.
    + constructor; [lia|].
      apply (IH (S (length t)) ltac:(simpl; lia) (l :: t)); [done|].
      by constructor.
Qed.

Lemma text_encode_bytes s : Forall is_code_unit s → Forall is_byte (text_encode s).
Proof.
  intros Hs. apply Forall_concat, Forall_fmap.
  eapply Forall_impl; [by apply code_points_range | apply utf8_char_bytes].
Qed.

Lemma text_encode_app_ascii c s :
  0 <= c < 128 → text_encode (c :: s) = c :: text_encode s.
Proof.
  intros Hc. unfold text_encode.
  assert (E : code_points (c :: s) = c :: code_points s).
  { destruct s as [|l t]; [done|]. simpl.
    assert (is_high_surrogate c = false) as ->; [|done].
    unfold is_high_surrogate. zbool. left. lia. }
  rewrite E, fmap_cons. simpl. unfold utf8_char at 1.
  rewrite (proj2 (Z.ltb_lt c 0x80)) by lia. done.
Qed.

(** On ASCII text the encoder is the identity. *)
Lemma text_encode_ascii s : Forall (λ c, 0 <= c < 128) s → text_encode s = s.
Proof.
  induction 1 as [|c s Hc _ IH]; [done|]. by rewrite text_encode_app_ascii, IH.
Qed.

#[export] Hint Resolve text_encode_bytes : js.

(** ** Facts: arrays *)

Section array_facts.
Context {A : Type}.
Implicit Types (l : list A).

Lemma index_of_Some `{EqDecision A} (x : A) l i : index_of x l = Some i → l !! i = Some x.
Proof.
  revert i. induction l as [|y l IH]; intros i H; simpl in *; [done|].
  case_decide as E; [by simplify_eq/=|].
  destruct (index_of x l) as [j|] eqn:Hj; simplify_eq/=. by apply IH.
Qed.

Lemma index_of_is_Some `{EqDecision A} (x : A) l : x ∈ l → is_Some (index_of x l).
Proof.
  induction l as [|y l IH]; intros H; simpl; [by apply not_elem_of_nil in H|].
  case_decide as E; [by eexists|].
  apply elem_of_cons in H as [->|H]; [done|]. destruct (IH H) as [i ->]. by eexists.
Qed.

Lemma index_of_None `{EqDecision A} (x : A) l : index_of x l = None → x ∉ l.
Proof. intros H Hx. destruct (index_of_is_Some x l Hx) as [i Hi]. congruence. Qed.

Lemma splice_move_perm l from to : splice_move l from to ≡ₚ l.
Proof.
  unfold splice_move. destruct (l !! from) as [x|] eqn:E; [|done].
  rewrite <- Permutation_middle, take_drop. symmetry. by apply delete_Permutation.
Qed.

Lemma splice_move_length l from to : length (splice_move l from to) = length l.
Proof. by rewrite splice_move_perm. Qed.

(** The moved element ends at index [to]. *)
Lemma splice_move_target l from to x :
  l !! from = Some x → (to < length l)%nat → splice_move l from to !! to = Some x.
Proof.
  intros E Hto. unfold splice_move. rewrite E.
  assert (Hlen : length (delete from l) = (length l - 1)%nat).
  { apply length_delete. by eexists. }
  rewrite lookup_app_r; rewrite length_take, Nat.min_l by lia; [|done].
  by rewrite Nat.sub_diag.
Qed.

(** Apart from the moved element, the order is untouched. *)
Lemma splice_move_rest l from to x :
  l !! from = Some x → (to < length l)%nat →
  delete to (splice_move l from to) = delete from l.
Proof.
  intros E Hto. unfold splice_move. rewrite E.
  assert (Hlen : length (delete from l) = (length l - 1)%nat).
  { apply length_delete. by eexists. }
  rewrite <- (take_drop to (delete from l)) at 3.
  rewrite delete_take_drop.
  rewrite take_app_exact by (rewrite length_take; lia).
  f_equal. rewrite drop_app_ge; rewrite length_take, Nat.min_l by lia; [|lia].
  by replace (S to - to)%nat with 1%nat by lia.
Qed.
End array_facts.

Section sort_facts.
Context {A : Type} (cmp : A → A → Z).
Context (cmp_total : ∀ x y, cmp x y <= 0 ∨ cmp y x <= 0).
Context (cmp_trans : ∀ x y z, cmp x y <= 0 → cmp y z <= 0 → cmp x z <= 0).

Lemma sort_insert_perm x l : sort_insert cmp x l ≡ₚ x :: l.
Proof.
  induction l as [|y l IH]; simpl; [done|]. case_if; [done|].
  rewrite IH. apply Permutation_swap.
Qed.

Lemma array_sort_perm l : array_sort cmp l ≡ₚ l.
Proof. induction l as [|x l IH]; simpl; [done|]. by rewrite sort_insert_perm, IH. Qed.

Lemma array_sort_length l : length (array_sort cmp l) = length l.
Proof. by rewrite array_sort_perm. Qed.

Lemma sort_insert_sorted x l :
  StronglySorted (λ a b, cmp a b <= 0) l →
  StronglySorted (λ a b, cmp a b <= 0) (sort_insert cmp x l).
Proof using cmp_total cmp_trans.
  induction 1 as [|y l Hl IH Hy]; simpl; [by repeat constructor|].
  case_if; zbool.
  - constructor; [by constructor|]. constructor; [done|].
    eapply Forall_impl; [done|]. intros z Hz. by eapply cmp_trans.
  - constructor; [done|]. rewrite sort_insert_perm. constructor; [|done].
    destruct (cmp_total x y); [lia|done].
Qed.

Lemma array_sort_sorted l : StronglySorted (λ a b, cmp a b <= 0) (array_sort cmp l).
Proof using cmp_total cmp_trans.
  induction l as [|x l IH]; simpl; [constructor|]. by apply sort_insert_sorted.
Qed.

(** Stability: the elements of a class closed under [cmp _ _ = 0] keep their order. *)
Lemma sort_insert_stable (P : A → Prop) `{∀ x, Decision (P x)} x l :
  (∀ a b, P a → P b → cmp a b <= 0) →
  filter P (sort_insert cmp x l) = filter P (x :: l).
Proof.
  intros HP. induction l as [|y l IH]; simpl; [done|].
  case_if; [done|]. rewrite (filter_cons _ y), IH, !filter_cons.
  repeat case_decide; try done.
  zbool. assert (cmp x y <= 0) by by apply HP. lia.
Qed.

Lemma array_sort_stable (P : A → Prop) `{∀ x, Decision (P x)} l :
  (∀ a b, P a → P b → cmp a b <= 0) →
  filter P (array_sort cmp l) = filter P l.
Proof.
  intros HP. induction l as [|x l IH]; simpl; [done|].
  by rewrite sort_insert_stable, !filter_cons, IH.
Qed.
End sort_facts.

(** ** [localStorage] *)

(** [None] is a browser in which every access throws (storage disabled). *)
Abbreviation storage := (option (gmap jsstring jsstring)).

Definition security_error : js_error := JsError (js "SecurityError") (js "storage unavailable").

Definition storage_get (st : storage) (k : jsstring) : result (option jsstring) :=
  match st with Some m => Ok (m !! k) | None => Throw security_error end.

Definition storage_set (st : storage) (k v : jsstring) : result storage :=
  match st with Some m => Ok (Some (<[k := v]> m)) | None => Throw security_error end.

Definition storage_remove (st : storage) (k : jsstring) : result storage :=
  match st with Some m => Ok (Some (delete k m)) | None => Throw security_error end.

(** [JSON.parse] as an expression that may throw. *)
Definition json_parse `{Json} (s : jsstring) : result json :=
  match JSON_parse s with
  | Some j => Ok j
  | None => Throw (JsError (js "SyntaxError") (js "Unexpected token in JSON"))
  end.

(** ** Facts: [trim] *)

Lemma trim_start_suffix s : ∃ p, s = p ++ trim_start s.
Proof.
  induction s as [|c s [p IH]]; simpl; [by exists []|].
  case_if; [exists (c :: p); simpl; by f_equal | by exists []].
Qed.

Lemma trim_start_head s c s' : trim_start s = c :: s' → is_js_space c = false.
Proof. induction s as [|d s IH]; simpl; [done|]. case_if; [done|]. by intros [= <- <-]. Qed.

Lemma trim_start_id s c s' : s = c :: s' → is_js_space c = false → trim_start s = s.
Proof. intros -> Hc. simpl. by rewrite Hc. Qed.

Lemma trim_start_idemp s : trim_start (trim_start s) = trim_start s.
Proof.
  destruct (trim_start s) as [|c s'] eqn:E; [done|].
  eapply trim_start_id; [done|]. by eapply trim_start_head.
Qed.

(** Trimming the end leaves the first character in place. *)
Lemma trim_end_head s c s' :
  s = c :: s' → is_js_space c = false → ∃ s'', trim_end s = c :: s''.
Proof.
  intros -> Hc. unfold trim_end. rewrite reverse_cons.
  assert (H : ∀ r, ∃ q, trim_start (r ++ [c]) = q ++ [c]).
  { induction r as [|x r IH]; simpl; [rewrite Hc; by exists []|].
    case_if; [done|]. by exists (x :: r). }
  destruct (H (reverse s')) as [q ->]. rewrite reverse_app. simpl. eauto.
Qed.

Lemma trim_idemp s : trim (trim s) = trim s.
Proof.
  unfold trim.
  assert (He : ∀ r, trim_end (trim_end r) = trim_end r).
  { intros r. unfold trim_end. by rewrite reverse_involutive, trim_start_idemp. }
  destruct (trim_start s) as [|c s'] eqn:E; [done|].
  pose proof (trim_start_head s c s' E) as Hc.
  destruct (trim_end_head (c :: s') c s' eq_refl Hc) as [s'' E'].
  rewrite E'. rewrite (trim_start_id (c :: s'') c s'' eq_refl Hc), <- E'. apply He.
Qed.

(** ** Facts: association lists and JSON *)

Lemma assoc_get_None {V} k (l : list (jsstring * V)) : assoc_get k l = None ↔ k ∉ l.*1.
Proof.
  induction l as [|[k' v] l IH]; simpl; [split; [intros _; apply not_elem_of_nil | done]|].
  rewrite not_elem_of_cons. case_decide; naive_solver.
Qed.

Lemma JSON_stringify_cons {J : Json} {HJ : JsonLaws J} j : ∃ c r, JSON_stringify j = c :: r.
Proof.
  destruct (JSON_stringify j) as [|c r] eqn:E; [|eauto].
  pose proof (JSON_parse_stringify j) as Hp. rewrite E, JSON_parse_empty in Hp. done.
Qed.
