(* ===== verification/ApiTypes.v ===== *)
(** * The data exchanged with the server ([types/api.ts])

    Optional properties ([x?: T]) and nullable ones ([T | null]) are [option]. *)

From S2P Require Import Prelude Js.
#[local] Open Scope Z_scope.

Record Host := {
  host_id_ : Z;
  host_label : jsstring;
  host_hostname : jsstring;
  host_ssh_user : jsstring;
  host_ssh_port : Z;
  host_ssh_principal : jsstring;
  host_user_id : Z;
  host_created_at : jsstring;
  host_updated_at : jsstring;
}.

Record Session := {
  id : jsstring;
  user_id : Z;
  host_id : Z;
  host : option Host;
  name : jsstring;
  started_at : jsstring;
  last_ping_at : option jsstring;
  last_activity_at : option jsstring;
  ended_at : option jsstring;
  metadata : option jsstring;
  seq : option Z;
  tags : option (list jsstring);
}.

(** The [event] strings of the union type, and any other string the feed may carry
    (for instance the ["heartbeat"] the feed filters out and the ["delete"] the
    dashboard accepts). *)
Inductive SessionEvent :=
| EvStart | EvPing | EvActivity | EvEnd | EvMeta | EvTags | EvClipboard
| EvOther (s : jsstring).

(** [session] is absent on the messages that carry none. *)
Record SessionUpdate := {
  event : SessionEvent;
  session_id : jsstring;
  session : option Session;
  clipboard : option jsstring;
}.

Inductive ConnectionStatus :=
| disconnected | connecting | authenticating | connected | error_status.

Inductive QuickKeyStep :=
| QuickKeyComboStep (ctrl alt shift : bool) (key : jsstring)
| QuickKeyLiteralStep (text : jsstring) (enter : bool).

Record QuickKey := {
  qk_id : Z;
  qk_user_id : Z;
  qk_name : jsstring;
  qk_display_token : jsstring;
  qk_spec : jsstring;
  qk_pinned : bool;
  qk_sort_order : Z;
  qk_created_at : jsstring;
  qk_updated_at : jsstring;
}.

Record SSHCAConfig := {
  public_key : jsstring;
  client_share : jsstring;
  server_verifying_share : jsstring;
  client_verifying_share : jsstring;
}.

#[global] Instance Host_eq_dec : EqDecision Host.
Proof. solve_decision. Defined.
#[global] Instance Session_eq_dec : EqDecision Session.
Proof. solve_decision. Defined.
#[global] Instance SessionEvent_eq_dec : EqDecision SessionEvent.
Proof. solve_decision. Defined.
#[global] Instance ConnectionStatus_eq_dec : EqDecision ConnectionStatus.
Proof. solve_decision. Defined.
#[global] Instance QuickKeyStep_eq_dec : EqDecision QuickKeyStep.
Proof. solve_decision. Defined.
#[global] Instance QuickKey_eq_dec : EqDecision QuickKey.
Proof. solve_decision. Defined.

(** Object spread with one replaced property. *)
Definition with_seq (s : Session) (n : Z) : Session :=
  {| id := id s; user_id := user_id s; host_id := host_id s; host := host s;
     name := name s; started_at := started_at s; last_ping_at := last_ping_at s;
     last_activity_at := last_activity_at s; ended_at := ended_at s;
     metadata := metadata s; seq := Some n; tags := tags s |}.

Definition with_tags (s : Session) (t : option (list jsstring)) : Session :=
  {| id := id s; user_id := user_id s; host_id := host_id s; host := host s;
     name := name s; started_at := started_at s; last_ping_at := last_ping_at s;
     last_activity_at := last_activity_at s; ended_at := ended_at s;
     metadata := metadata s; seq := seq s; tags := t |}.

(** A session with the given id and nothing else set, for concrete examples. *)
Definition blank_session (i : jsstring) : Session :=
  {| id := i; user_id := 0; host_id := 0; host := None; name := []; started_at := [];
     last_ping_at := None; last_activity_at := None; ended_at := None;
     metadata := None; seq := None; tags := None |}.
