(* ===== verification/Models.v ===== *)
(** * Concrete instances of the run-time interfaces

    An ASCII locale and an injective JSON text, so that the hypotheses of the theorems
    about them can be shown to hold together at concrete inputs. *)

From S2P Require Import Prelude Js.
#[local] Open Scope Z_scope.

(** ** A locale: ASCII case mapping and code-unit order *)

Fixpoint code_unit_compare (a b : jsstring) : Z :=
  match a, b with
  | [], [] => 0
  | [], _ :: _ => -1
  | _ :: _, [] => 1
  | x :: a', y :: b' => if x =? y then code_unit_compare a' b' else x - y
  end.

#[export] Instance ascii_locale : Locale :=
  {| toLowerCase := ascii_lower; toUpperCase := ascii_upper;
     localeCompare := code_unit_compare |}.

Lemma code_unit_compare_total a b : code_unit_compare a b <= 0 ∨ code_unit_compare b a <= 0.
Proof.
  revert b. induction a as [|x a IH]; intros [|y b]; simpl; try lia.
  rewrite (Z.eqb_sym y x). case_if; zbool; [apply IH|]. lia.
Qed.

Lemma code_unit_compare_trans a b c :
  code_unit_compare a b <= 0 → code_unit_compare b c <= 0 → code_unit_compare a c <= 0.
Proof.
  revert b c. induction a as [|x a IH]; intros [|y b] [|z c]; simpl; try lia.
  destruct (Z.eqb_spec x y), (Z.eqb_spec y z), (Z.eqb_spec x z); subst; try lia; eauto.
Qed.

#[export] Instance ascii_locale_laws : LocaleLaws ascii_locale.
Proof.
  split; [done | done | apply code_unit_compare_total | apply code_unit_compare_trans].
Qed.

(** ** JSON text: one injective code per value *)

Fixpoint json_tree (j : json) : gen_tree (Z + list Z) :=
  match j with
  | JNull => GenNode 0 []
  | JBool b => GenNode 1 [GenLeaf (inl (if b then 1 else 0))]
  | JInt n => GenNode 2 [GenLeaf (inl n)]
  | JFloat n => GenNode 3 [GenLeaf (inl n)]
  | JStr s => GenNode 4 [GenLeaf (inr s)]
  | JArr l => GenNode 5 (json_tree <$> l)
  | JObj fs => GenNode 6 ((λ kv, GenNode 7 [GenLeaf (inr kv.1); json_tree kv.2]) <$> fs)
  end.

Fixpoint tree_json (t : gen_tree (Z + list Z)) : json :=
  match t with
  | GenNode 1 [GenLeaf (inl b)] => JBool (b =? 1)
  | GenNode 2 [GenLeaf (inl n)] => JInt n
  | GenNode 3 [GenLeaf (inl n)] => JFloat n
  | GenNode 4 [GenLeaf (inr s)] => JStr s
  | GenNode 5 l => JArr (tree_json <$> l)
  | GenNode 6 l =>
      JObj ((λ t, match t with
                  | GenNode _ [GenLeaf (inr k); v] => (k, tree_json v)
                  | _ => ([], JNull)
                  end) <$> l)
  | _ => JNull
  end.

Fixpoint tree_json_tree (j : json) : tree_json (json_tree j) = j.
Proof.
  destruct j as [|[]|n|n|s|l|fs]; try reflexivity.
  - simpl. f_equal. induction l as [|x l IH]; [reflexivity|].
    cbn [fmap list_fmap]. rewrite tree_json_tree. f_equal. exact IH.
  - simpl. f_equal. induction fs as [|[k v] fs IH]; [reflexivity|].
    cbn [fmap list_fmap fst snd]. rewrite tree_json_tree. f_equal. exact IH.
Qed.

#[export] Instance tree_json_text : Json :=
  {| JSON_parse s :=
       match s with
       | [Zpos p] => tree_json <$> decode (A := gen_tree (Z + list Z)) p
       | _ => None
       end;
     JSON_stringify j := [Zpos (encode (json_tree j))] |}.

#[export] Instance tree_json_laws : JsonLaws tree_json_text.
Proof.
  split; [|done]. intros j. simpl. rewrite decode_encode. simpl.
  by rewrite tree_json_tree.
Qed.
