(* ===== verification/Tags.v ===== *)
(** * Session tags: the tag filter and the reorder merge
    ([lib/tags.ts], [hooks/useTagFilter.ts], [components/TagEditor.tsx],
    [components/TagFilter.tsx])

    Case mapping and collation are the interface [Locale]; the stored selection is read and
    written through the interface [Json]. *)

From S2P Require Import Prelude Js ApiTypes Models.
#[local] Open Scope Z_scope.

Definition MAX_TAG_LENGTH : nat := 32.
Definition MAX_TAGS : nat := 20.
Definition FILTER_STORAGE_KEY : jsstring := js "tagFilter".

Definition sessionTags (s : Session) : list jsstring := default [] (tags s).

Inductive TagCheck :=
| TagOk (tag : jsstring)
| TagError (error : jsstring).

Section tags.
Context `{L : Locale}.

Definition same (a b : jsstring) : bool := bool_decide (toLowerCase a = toLowerCase b).

(** The [Map] from the lower-cased tag to its first spelling, in insertion order. *)
Definition add_tag (seen : list (jsstring * jsstring)) (t : jsstring) :
    list (jsstring * jsstring) :=
  match assoc_get (toLowerCase t) seen with
  | Some _ => seen
  | None => seen ++ [(toLowerCase t, t)]
  end.

Definition allTags (sessions : list Session) : list jsstring :=
  array_sort localeCompare (snd <$> foldl (λ seen s, foldl add_tag seen (sessionTags s)) [] sessions).

(** [ch.charCodeAt(0)] of a one-character string holding code point [cp]. *)
Definition char_code_at0 (cp : Z) : Z :=
  if cp <? 0x10000 then cp else 0xD800 + (cp - 0x10000) / 0x400.

Definition isControl (cp : Z) : bool := (char_code_at0 cp <? 32) || (char_code_at0 cp =? 127).

Definition checkNewTag (raw : jsstring) (existing : list jsstring) : TagCheck :=
  let tag := trim raw in
  if bool_decide (tag = []) then TagError (js "Type a tag first")
  else if (MAX_TAG_LENGTH <? length (code_points tag))%nat
  then TagError (js "Tags can be up to 32 characters")
  else if existsb (λ ch, (ch =? 44) || isControl ch) (code_points tag)
  then TagError (js "Tags cannot contain commas")
  else if existsb (λ t, same t tag) existing
  then TagError (js "That tag is already on this session")
  else if (MAX_TAGS <=? length existing)%nat
  then TagError (js "A session can have at most 20 tags")
  else TagOk tag.

Definition effectiveFilter (selected available : list jsstring) : list jsstring :=
  filter (λ a, existsb (λ s, same s a) selected) available.

Definition filterByTags (sessions : list Session) (selected : list jsstring) : list Session :=
  if (length selected =? 0)%nat then sessions
  else filter (λ s, existsb (λ t, existsb (λ f, same f t) selected) (sessionTags s)) sessions.

(** The loop of [mergeReorder]: [next] indexes [visibleNew]; reading past its end
    gives [undefined], here [None]. *)
Fixpoint merge_loop (visible : list jsstring) (result : list jsstring)
    (visibleNew : list jsstring) (next : nat) : list (option jsstring) :=
  match result with
  | [] => []
  | x :: rest =>
      if bool_decide (x ∈ visible)
      then visibleNew !! next :: merge_loop visible rest visibleNew (S next)
      else Some x :: merge_loop visible rest visibleNew next
  end.

Definition mergeReorder (fullIds visibleNew : list jsstring) : list (option jsstring) :=
  merge_loop visibleNew fullIds visibleNew 0.

Context `{J : Json}.

(** The string elements of a parsed array. *)
Definition json_strings (l : list json) : list jsstring :=
  omap (λ j, match j with JStr s => Some s | _ => None end) l.

Definition loadTagFilter (st : storage) : list jsstring :=
  match
    (let! raw := storage_get st FILTER_STORAGE_KEY in
     let! parsed :=
       match raw with
       | Some (c :: r) => json_parse (c :: r)
       | _ => Ok (JArr [])
       end in
     Ok (match parsed with JArr l => json_strings l | _ => [] end))%js
  with
  | Ok l => l
  | Throw _ => []
  end.

Definition saveTagFilter (selected : list jsstring) (st : storage) : storage :=
  match
    (if (length selected =? 0)%nat then storage_remove st FILTER_STORAGE_KEY
     else storage_set st FILTER_STORAGE_KEY (JSON_stringify (JArr (JStr <$> selected))))
  with
  | Ok st' => st'
  | Throw _ => st
  end.

(** ** The hook: its state is the stored selection and the browser storage. *)

Record TagFilterState := { stored : list jsstring; local_storage : storage }.

Record TagFilterView := {
  tf_tags : list jsstring;
  tf_selected : list jsstring;
  tf_visible : list Session;
}.

Definition useTagFilter_init (st : storage) : TagFilterState :=
  {| stored := loadTagFilter st; local_storage := st |}.

Definition useTagFilter (h : TagFilterState) (sessions : list Session) : TagFilterView :=
  let tags := allTags sessions in
  let selected := effectiveFilter (stored h) tags in
  {| tf_tags := tags; tf_selected := selected; tf_visible := filterByTags sessions selected |}.

Definition setSelected (next : list jsstring) (h : TagFilterState) : TagFilterState :=
  {| stored := next; local_storage := saveTagFilter next (local_storage h) |}.

Definition clear_filter (h : TagFilterState) : TagFilterState := setSelected [] h.

(** ** The tag editor's operations on one session's list ([TagEditor.tsx]) and the
    filter's toggle ([TagFilter.tsx]) *)

Definition TagEditor_add (draft : jsstring) (tags : list jsstring) :
    jsstring + list jsstring :=
  match checkNewTag draft tags with
  | TagError e => inl e
  | TagOk t => inr (tags ++ [t])
  end.

Definition TagEditor_remove (tag : jsstring) (tags : list jsstring) : list jsstring :=
  filter (λ t, t ≠ tag) tags.

Definition TagFilter_isOn (selected : list jsstring) (tag : jsstring) : bool :=
  existsb (λ s, same s tag) selected.

Definition TagFilter_toggle (selected : list jsstring) (tag : jsstring) : list jsstring :=
  if TagFilter_isOn selected tag then filter (λ s, same s tag = false) selected
  else selected ++ [tag].

End tags.

(** ** Reference definitions *)

(** What the merge promises: every hidden id keeps its slot, and the visible slots read
    from left to right give the new order. *)
Definition reorder_of (fullIds visibleNew r : list jsstring) : Prop :=
  r ≡ₚ fullIds ∧
  filter (.∈ visibleNew) r = visibleNew ∧
  (∀ i x, fullIds !! i = Some x → x ∉ visibleNew → r !! i = Some x).

Section tag_facts.
Context `{L : Locale}.

(** The first spelling of each tag of a stream, ignoring case. *)
Fixpoint first_spellings (ts : list jsstring) : list jsstring :=
  match ts with
  | [] => []
  | t :: ts' => t :: filter (λ u, toLowerCase u ≠ toLowerCase t) (first_spellings ts')
  end.

(** What the server's [NormalizeTags] and the editor agree on. *)
Record valid_tag (t : jsstring) : Prop := {
  vt_trimmed : trim t = t;
  vt_nonempty : t ≠ [];
  vt_short : (length (code_points t) ≤ MAX_TAG_LENGTH)%nat;
  vt_chars : Forall (λ cp, cp ≠ 44 ∧ isControl cp = false) (code_points t);
}.

Record valid_tags (ts : list jsstring) : Prop := {
  vts_each : Forall valid_tag ts;
  vts_count : (length ts ≤ MAX_TAGS)%nat;
  vts_distinct : NoDup (toLowerCase <$> ts);
}.

Lemma same_true a b : same a b = true ↔ toLowerCase a = toLowerCase b.
Proof. unfold same. by rewrite bool_decide_eq_true. Qed.

Lemma same_sym a b : same a b = same b a.
Proof. unfold same. apply bool_decide_ext. naive_solver. Qed.

Lemma existsb_same ts t :
  existsb (λ u, same u t) ts = true ↔ toLowerCase t ∈ toLowerCase <$> ts.
Proof.
  rewrite existsb_exists, list_elem_of_fmap. setoid_rewrite same_true.
  setoid_rewrite list_elem_of_In. naive_solver.
Qed.

Lemma existsb_same_false ts t :
  existsb (λ u, same u t) ts = false ↔ toLowerCase t ∉ toLowerCase <$> ts.
Proof. rewrite <- existsb_same, not_true_iff_false. done. Qed.

(** ** The reorder merge *)

Lemma merge_loop_spec vn full : ∀ next,
  (next + length (filter (.∈ vn) full) ≤ length vn)%nat →
  ∃ r, merge_loop vn full vn next = Some <$> r ∧
    filter (.∈ vn) r = take (length (filter (.∈ vn) full)) (drop next vn) ∧
    filter (.∉ vn) r = filter (.∉ vn) full ∧
    (∀ i x, full !! i = Some x → x ∉ vn → r !! i = Some x).
Proof.
  induction full as [|x full IH]; intros next Hlen; [by exists []|].
  rewrite filter_cons in Hlen. simpl.
  case_bool_decide as Hx; [rewrite decide_True in Hlen by done |
                           rewrite decide_False in Hlen by done].
  - simpl in Hlen. destruct (IH (S next)) as (r & Hr & Hv & Hh & Hi); [lia|].
    destruct (lookup_lt_is_Some_2 vn next) as [y Hy]; [lia|].
    assert (y ∈ vn) by (eapply list_elem_of_lookup_2; done).
    exists (y :: r). rewrite Hy, Hr, !filter_cons, !decide_True by done.
    rewrite !(decide_False (P := _ ∉ vn)) by (intros ?; done).
    rewrite (drop_S _ _ _ Hy). simpl. rewrite Hv. split_and!; try done.
    intros [|i] z; simpl; [intros [= ->] ?; done | apply Hi].
  - destruct (IH next) as (r & Hr & Hv & Hh & Hi); [lia|].
    exists (x :: r). rewrite Hr, !filter_cons, !(decide_False (P := _ ∈ vn)) by done.
    rewrite !(decide_True (P := _ ∉ vn)) by done. rewrite Hh. split_and!; try done.
    intros [|i] z; simpl; [done | apply Hi].
Qed.

(** The reorder merge: when the visible ids are a rearrangement of the listed ids
    they name, the merge never yields an undefined slot, permutes the full list, keeps
    every hidden id in its slot and shows the visible ids in their new order. *)
Theorem mergeReorder_correct fullIds visibleNew :
  visibleNew ≡ₚ filter (.∈ visibleNew) fullIds →
  ∃ r, mergeReorder fullIds visibleNew = Some <$> r ∧ reorder_of fullIds visibleNew r.
Proof.
  intros Hperm. pose proof (Permutation_length Hperm) as Hlen.
  destruct (merge_loop_spec visibleNew fullIds 0) as (r & Hr & Hv & Hh & Hi); [simpl; lia|].
  exists r. split; [done|]. rewrite drop_0, <- Hlen, firstn_all in Hv.
  split_and!; [|done|done].
  rewrite <- (filter_app_complement (.∈ visibleNew) r), Hv.
  rewrite <- (filter_app_complement (.∈ visibleNew) fullIds), <- Hperm.
  apply Permutation_app_head. by rewrite Hh.
Qed.

(** With no filter the merge returns the new order itself. *)
Lemma mergeReorder_unfiltered fullIds visibleNew :
  visibleNew ≡ₚ fullIds → mergeReorder fullIds visibleNew = Some <$> visibleNew.
Proof.
  intros Hperm.
  destruct (mergeReorder_correct fullIds visibleNew) as (r & -> & Hp & Hv & _).
  { rewrite filter_all; [done|]. apply Forall_forall. intros x Hx. by rewrite Hperm. }
  f_equal. rewrite <- Hv. symmetry. apply filter_all, Forall_forall.
  intros x Hx. by rewrite Hperm, <- Hp.
Qed.

(** ** The tag universe *)

Lemma foldl_add_tag ts : ∀ seen,
  foldl add_tag seen ts =
  seen ++ ((λ t, (toLowerCase t, t)) <$> filter (λ u, toLowerCase u ∉ seen.*1) (first_spellings ts)).
Proof.
  induction ts as [|t ts IH]; intros seen; simpl; [by rewrite app_nil_r|].
  unfold add_tag at 2. destruct (assoc_get (toLowerCase t) seen) eqn:E.
  - rewrite IH. f_equal. f_equal.
    assert (Hin : toLowerCase t ∈ seen.*1).
    { destruct (decide (toLowerCase t ∈ seen.*1)) as [H|H]; [done|].
      apply assoc_get_None in H. congruence. }
    rewrite filter_cons_False by naive_solver. rewrite list_filter_filter.
    apply list_filter_iff. intros u. split; [|naive_solver].
    intros Hu. split; [done|]. intros Heq. by rewrite Heq in Hu.
  - apply assoc_get_None in E. rewrite IH, filter_cons_True by done.
    rewrite fmap_cons, <- app_assoc. simpl. do 3 f_equal. rewrite list_filter_filter.
    apply list_filter_iff. intros u. rewrite fmap_app, elem_of_app. simpl.
    rewrite list_elem_of_singleton. naive_solver.
Qed.

Lemma allTags_stream sessions :
  allTags sessions =
  array_sort localeCompare (first_spellings (concat (sessionTags <$> sessions))).
Proof.
  unfold allTags. f_equal.
  assert (H : ∀ seen, foldl (λ seen s, foldl add_tag seen (sessionTags s)) seen sessions
    = foldl add_tag seen (concat (sessionTags <$> sessions))).
  { induction sessions as [|s ss IH]; intros seen; simpl; [done|]. by rewrite foldl_app, IH. }
  rewrite H, foldl_add_tag. simpl.
  rewrite filter_all by (apply Forall_forall; intros; apply not_elem_of_nil).
  rewrite <- list_fmap_compose. by rewrite list_fmap_id.
Qed.

Lemma first_spellings_sublist ts : first_spellings ts ⊆ ts.
Proof.
  induction ts as [|t ts IH]; simpl; [done|]. intros u Hu.
  apply elem_of_cons in Hu as [->|Hu]; [by left|]. right. apply IH.
  by apply list_elem_of_filter in Hu as [_ ?].
Qed.

Lemma first_spellings_complete ts t :
  t ∈ ts → ∃ u, u ∈ first_spellings ts ∧ same u t = true.
Proof.
  induction ts as [|x ts IH]; simpl; [by intros ?%not_elem_of_nil|].
  intros [->|Ht]%elem_of_cons; [exists x; split; [by left | by apply same_true]|].
  destruct (IH Ht) as (u & Hu & E).
  destruct (decide (toLowerCase u = toLowerCase x)) as [Ex|Ex].
  - exists x. split; [by left|]. rewrite same_true in *. congruence.
  - exists u. split; [|done]. right. by apply list_elem_of_filter.
Qed.

Lemma first_spellings_distinct ts : NoDup (toLowerCase <$> first_spellings ts).
Proof.
  induction ts as [|t ts IH]; [constructor|].
  change (first_spellings (t :: ts))
    with (t :: filter (λ u, toLowerCase u ≠ toLowerCase t) (first_spellings ts)).
  rewrite fmap_cons. apply NoDup_cons. split.
  - intros (u & E & Hu)%list_elem_of_fmap. apply list_elem_of_filter in Hu as [? _]. done.
  - eapply sublist_NoDup; [exact IH|]. apply fmap_sublist, sublist_filter.
Qed.

Lemma allTags_complete sessions s t :
  s ∈ sessions → t ∈ sessionTags s → ∃ u, u ∈ allTags sessions ∧ same u t = true.
Proof.
  intros Hs Ht. rewrite allTags_stream.
  destruct (first_spellings_complete (concat (sessionTags <$> sessions)) t) as (u & Hu & E).
  { apply elem_of_concat. exists (sessionTags s). split; [done|].
    by apply list_elem_of_fmap_2. }
  exists u. split; [|done]. by rewrite array_sort_perm.
Qed.

Lemma allTags_sound sessions t :
  t ∈ allTags sessions → ∃ s, s ∈ sessions ∧ t ∈ sessionTags s.
Proof.
  rewrite allTags_stream, array_sort_perm. intros Ht%first_spellings_sublist.
  apply elem_of_concat in Ht as (ts & Ht & Hts).
  apply list_elem_of_fmap in Hts as (s & -> & Hs). eauto.
Qed.

(** ** Theorems on the tag universe and the filter *)

(** The dropdown: the tags are ordered by the locale, no two agree up to case, every
    tag of every session is represented, and each shown spelling is used by a session. *)
Theorem allTags_spec `{!LocaleLaws L} sessions :
  StronglySorted (λ a b, localeCompare a b <= 0) (allTags sessions) ∧
  NoDup (toLowerCase <$> allTags sessions) ∧
  (∀ s t, s ∈ sessions → t ∈ sessionTags s → ∃ u, u ∈ allTags sessions ∧ same u t = true) ∧
  (∀ t, t ∈ allTags sessions → ∃ s, s ∈ sessions ∧ t ∈ sessionTags s).
Proof.
  split_and!.
  - apply array_sort_sorted; [apply localeCompare_total | apply localeCompare_trans].
  - rewrite allTags_stream, array_sort_perm. apply first_spellings_distinct.
  - apply allTags_complete.
  - apply allTags_sound.
Qed.

Lemma elem_of_effectiveFilter selected available t :
  t ∈ effectiveFilter selected available ↔
  t ∈ available ∧ toLowerCase t ∈ toLowerCase <$> selected.
Proof.
  unfold effectiveFilter. rewrite list_elem_of_filter, Is_true_true, existsb_same. naive_solver.
Qed.

Lemma elem_of_filterByTags sessions selected s :
  selected ≠ [] →
  s ∈ filterByTags sessions selected ↔
  s ∈ sessions ∧ ∃ t, t ∈ sessionTags s ∧ toLowerCase t ∈ toLowerCase <$> selected.
Proof.
  intros Hne. unfold filterByTags.
  destruct selected as [|f fs]; [done|]. simpl length. cbn [Nat.eqb].
  rewrite list_elem_of_filter, Is_true_true, existsb_exists.
  setoid_rewrite existsb_same. setoid_rewrite list_elem_of_In. naive_solver.
Qed.

(** The filtered view never goes empty: whatever selection is stored (tags that no
    longer exist included), a non-empty session list shows at least one session. *)
Theorem useTagFilter_nonempty h sessions :
  sessions ≠ [] → tf_visible (useTagFilter h sessions) ≠ [].
Proof.
  intros Hne. unfold useTagFilter. simpl.
  destruct (effectiveFilter (stored h) (allTags sessions)) as [|a sel] eqn:E; [done|].
  assert (Ha : a ∈ effectiveFilter (stored h) (allTags sessions)) by (rewrite E; by left).
  apply elem_of_effectiveFilter in Ha as [Ha _].
  destruct (allTags_sound _ _ Ha) as (s & Hs & Ht).
  intros Hnil. apply (not_elem_of_nil s). rewrite <- Hnil.
  apply elem_of_filterByTags; [done|]. split; [done|]. exists a. split; [done|].
  apply list_elem_of_fmap_2. by left.
Qed.

(** A session is visible exactly when it has one of the selected tags that exist. *)
Lemma useTagFilter_visible h sessions s :
  tf_selected (useTagFilter h sessions) ≠ [] →
  s ∈ tf_visible (useTagFilter h sessions) ↔
  s ∈ sessions ∧ ∃ t, t ∈ sessionTags s ∧ toLowerCase t ∈ toLowerCase <$> stored h.
Proof.
  intros Hne. simpl in *. rewrite elem_of_filterByTags by done.
  split; intros (Hs & t & Ht & Hl); (split; [done|]); exists t; split; try done.
  - apply list_elem_of_fmap in Hl as (u & -> & Hu).
    by apply elem_of_effectiveFilter in Hu as [_ ?].
  - destruct (allTags_complete sessions s t Hs Ht) as (u & Hu & E).
    apply same_true in E. rewrite <- E. apply list_elem_of_fmap_2.
    apply elem_of_effectiveFilter. by rewrite E.
Qed.

(** ** Theorems on the tag editor *)

Lemma existsb_false_forall {A} (f : A → bool) l :
  existsb f l = false ↔ Forall (λ x, f x = false) l.
Proof.
  induction l as [|x l IH]; simpl; [by split|].
  rewrite orb_false_iff, Forall_cons, IH. done.
Qed.

(** The check accepts exactly the trimmed tags the server accepts: non-empty, at most
    32 characters, no comma and no control character, new to the session ignoring case,
    and only while the session has fewer than 20 tags. *)
Theorem checkNewTag_spec raw existing t :
  checkNewTag raw existing = TagOk t ↔
  t = trim raw ∧ valid_tag t ∧ toLowerCase t ∉ toLowerCase <$> existing ∧
  (length existing < MAX_TAGS)%nat.
Proof.
  unfold checkNewTag. case_bool_decide as Hnil.
  { split; [done|]. intros (-> & [_ ? _ _] & _). done. }
  destruct (Nat.ltb_spec MAX_TAG_LENGTH (length (code_points (trim raw)))) as [Hlen|Hlen].
  { split; [done|]. intros (-> & [_ _ ? _] & _). lia. }
  destruct (existsb _ (code_points (trim raw))) eqn:Hch.
  { split; [done|]. intros (-> & [_ _ _ Hcs] & _).
    assert (existsb (λ ch, (ch =? 44) || isControl ch) (code_points (trim raw)) = false);
      [|congruence].
    apply existsb_false_forall. eapply Forall_impl; [done|]. simpl.
    intros c [? ->]. rewrite orb_false_r. by zbool. }
  destruct (existsb (λ u, same u (trim raw)) existing) eqn:Hdup.
  { apply existsb_same in Hdup. split; [done|]. by intros (-> & _ & ? & _). }
  apply existsb_same_false in Hdup.
  destruct (Nat.leb_spec MAX_TAGS (length existing)) as [Hmax|Hmax].
  { split; [done|]. intros (_ & _ & _ & ?). lia. }
  split; [|by intros (-> & _)]. intros [= <-]. split_and!; try done. split; try done.
  - apply trim_idemp.
  - apply existsb_false_forall in Hch. eapply Forall_impl; [done|].
    intros c Hc. simpl in Hc. by zbool.
Qed.


(** Ticking a tag flips exactly that tag, ignoring case. *)
Theorem TagFilter_toggle_spec selected tag tag' :
  TagFilter_isOn (TagFilter_toggle selected tag) tag' =
  if same tag' tag then negb (TagFilter_isOn selected tag) else TagFilter_isOn selected tag'.
Proof.
  apply Bool.eq_iff_eq_true. unfold TagFilter_toggle.
  destruct (TagFilter_isOn selected tag) eqn:Eon; unfold TagFilter_isOn in *.
  - rewrite existsb_same, list_elem_of_fmap. setoid_rewrite list_elem_of_filter.
    destruct (same tag' tag) eqn:E.
    + apply same_true in E. split; [|done]. intros (u & Hu & Hne & _).
      rewrite <- not_true_iff_false, same_true in Hne. congruence.
    + rewrite existsb_same, list_elem_of_fmap.
      rewrite <- not_true_iff_false, same_true in E.
      split; intros (u & Hu & Hin); exists u; [naive_solver|].
      split; [done|]. split; [|done]. rewrite <- not_true_iff_false, same_true. congruence.
  - rewrite existsb_app. cbn [existsb]. rewrite orb_false_r, (same_sym tag tag').
    destruct (same tag' tag) eqn:E; [by rewrite orb_true_r|]. by rewrite orb_false_r.
Qed.

(** ** Persistence *)

Context {J : Json}.

(** The saved selection survives a reload: reading the storage back gives the list
    that was saved, and no other key of the storage is touched. *)
Theorem tag_filter_persists `{!JsonLaws J} selected m :
  loadTagFilter (saveTagFilter selected (Some m)) = selected ∧
  ∃ m', saveTagFilter selected (Some m) = Some m' ∧
    ∀ k, k ≠ FILTER_STORAGE_KEY → m' !! k = m !! k.
Proof.
  unfold saveTagFilter, loadTagFilter.
  destruct selected as [|s ss].
  - simpl. rewrite lookup_delete_eq. split; [done|].
    eexists. split; [done|]. intros k Hk. by rewrite lookup_delete_ne.
  - cbn [length Nat.eqb storage_set storage_get rbind]. rewrite lookup_insert_eq.
    destruct (JSON_stringify_cons (JArr (JStr <$> s :: ss))) as (c & r & E).
    pose proof (JSON_parse_stringify (JArr (JStr <$> s :: ss))) as Hp.
    rewrite E in *. unfold json_parse. rewrite Hp. simpl. split.
    + f_equal. unfold json_strings. induction ss as [|x ss IH]; simpl; [done|].
      f_equal. clear -J. induction ss; simpl; [done|]. by f_equal.
    + eexists. split; [done|]. intros k Hk. by rewrite lookup_insert_ne.
Qed.

End tag_facts.

(** ** Witnesses *)

Lemma mergeReorder_witness :
  ∃ r, mergeReorder [js "a"; js "b"; js "c"] [js "c"; js "a"] = Some <$> r ∧
       reorder_of [js "a"; js "b"; js "c"] [js "c"; js "a"] r.
Proof. apply mergeReorder_correct. apply (perm_swap (js "a") (js "c") []). Defined.

Definition tagged (i : jsstring) (ts : list jsstring) : Session :=
  with_tags (blank_session i) (Some ts).

Definition demo_sessions : list Session :=
  [tagged (js "s1") [js "Web"; js "api"]; tagged (js "s2") [js "WEB"]].

Example allTags_demo : allTags demo_sessions = [js "Web"; js "api"].
Proof. reflexivity. Qed.

Lemma allTags_witness :
  StronglySorted (λ a b, localeCompare a b <= 0) (allTags demo_sessions) ∧
  NoDup (toLowerCase <$> allTags demo_sessions) ∧
  (∀ s t, s ∈ demo_sessions → t ∈ sessionTags s →
     ∃ u, u ∈ allTags demo_sessions ∧ same u t = true) ∧
  (∀ t, t ∈ allTags demo_sessions → ∃ s, s ∈ demo_sessions ∧ t ∈ sessionTags s).
Proof. exact (allTags_spec demo_sessions). Defined.

(** A stored selection naming a tag that is gone. *)
Lemma useTagFilter_witness :
  tf_visible (useTagFilter {| stored := [js "gone"]; local_storage := None |} demo_sessions) ≠ [].
Proof. apply useTagFilter_nonempty. done. Defined.


Lemma tag_filter_persists_witness :
  loadTagFilter (saveTagFilter [js "web"] (Some ∅)) = [js "web"] ∧
  ∃ m', saveTagFilter [js "web"] (Some ∅) = Some m' ∧
    ∀ k, k ≠ FILTER_STORAGE_KEY → m' !! k = (∅ : gmap jsstring jsstring) !! k.
Proof. exact (tag_filter_persists [js "web"] ∅). Defined.
