(* ===== verification/SessionList.v ===== *)
(** * The session list and its pages ([lib/session.ts], [lib/clipboard.ts], [lib/utils.ts],
    [hooks/useDragReorder.ts], [hooks/usePointerReorder.ts], [pages/DashboardPage.tsx],
    [pages/SessionDetailPage.tsx])

    The list a page shows is a value transformed by its handlers; a component that captured
    an older value keeps it. *)

From S2P Require Import Prelude Js Models ApiTypes Tags.
#[local] Open Scope Z_scope.
#[local] Open Scope js_scope.

(** ** [session.ts] *)

Definition by_seq (a b : Session) : Z := default 0 (seq a) - default 0 (seq b).

Definition sortBySeq (sessions : list Session) : list Session := array_sort by_seq sessions.

(** Truth of an optional string. *)
Definition truthy_string (s : option jsstring) : bool :=
  match s with Some (_ :: _) => true | _ => false end.

Section dates.
(** [new Date(s).getTime()], [None] for an invalid date, and [toLocaleString()]. *)
Context (parse_date : jsstring → option Z) (locale_date : jsstring → jsstring).

Definition isActive (now : Z) (session : Session) : bool :=
  if truthy_string (ended_at session) then false
  else match last_activity_at session with
  | Some (c :: t) =>
      match parse_date (c :: t) with
      | Some d => now - d <? 5000
      | None => false
      end
  | _ => false
  end.

Definition formatDate (dateStr : jsstring) : jsstring := locale_date dateStr.

Definition formatRelativeTime (now : Z) (dateStr : option jsstring) : jsstring :=
  match dateStr with
  | Some (c :: t) =>
      match parse_date (c :: t) with
      | Some d =>
          let diffMins := (now - d) / 60000 in
          if diffMins <? 1 then js "Just now"
          else if diffMins <? 60 then of_int diffMins ++ js "m ago"
          else
          let diffHours := diffMins / 60 in
          if diffHours <? 24 then of_int diffHours ++ js "h ago"
          else formatDate (c :: t)
      | None => formatDate (c :: t)
      end
  | _ => js "Never"
  end.
End dates.

Definition matchesNewSession (update : SessionUpdate) (hostId : Z) (nm : jsstring) : bool :=
  if bool_decide (event update = EvEnd) || bool_decide (event update = EvClipboard) then false
  else match session update with
  | Some s => (host_id s =? hostId) && bool_decide (name s = nm)
  | None => false
  end.

Section metadata.
Context {J : Json} (float_text : Z → jsstring).

(** [String(value)]; an array joins its elements, null ones as empty. *)
Fixpoint json_to_string (j : json) : jsstring :=
  match j with
  | JNull => js "null"
  | JBool b => if b then js "true" else js "false"
  | JInt n => of_int n
  | JFloat b => float_text b
  | JStr s => s
  | JArr l =>
      let text x := match x with JNull => [] | _ => json_to_string x end in
      match l with
      | [] => []
      | x :: l => text x ++ concat ((λ y, 44 :: text y) <$> l)
      end
  | JObj _ => js "[object Object]"
  end.

Definition statusMetadata (md : option jsstring) : option jsstring :=
  match md with
  | Some (c :: t) =>
      match JSON_parse (c :: t) with
      | Some parsed =>
          match json_get (js "status") parsed with
          | None | Some JNull | Some (JStr []) => None
          | Some s => Some (json_to_string s)
          end
      | None => None
      end
  | _ => None
  end.

(** [Object.keys] with the values: of an object its properties, of an array or a string its
    indices; [null] throws into the [catch], other primitives have none. *)
Definition object_entries (j : json) : option (list (jsstring * json)) :=
  match j with
  | JNull => None
  | JObj fs => Some fs
  | JArr l => Some (imap (λ i x, (of_int (Z.of_nat i), x)) l)
  | JStr s => Some (imap (λ i c, (of_int (Z.of_nat i), JStr [c])) s)
  | _ => Some []
  end.

Fixpoint join (sep : jsstring) (l : list jsstring) : jsstring :=
  match l with
  | [] => []
  | [x] => x
  | x :: l => x ++ sep ++ join sep l
  end.

Definition hidden_keys : list jsstring :=
  [js "session_id"; js "name"; js "start_time"; js "status"].

Definition parseMetadata (md : option jsstring) : jsstring :=
  match md with
  | Some (c :: t) =>
      match JSON_parse (c :: t) with
      | Some parsed =>
          match object_entries parsed with
          | Some entries =>
              let shown := filter (λ kv, kv.1 ∉ hidden_keys) entries in
              match join (js ", ") ((λ kv, kv.1 ++ js ": " ++ json_to_string kv.2) <$> shown) with
              | [] => js "-"
              | s => s
              end
          | None => js "-"
          end
      | None => js "-"
      end
  | _ => js "-"
  end.
End metadata.

(** ** [clipboard.ts] *)

Inductive ClipboardStatus := cb_ready | cb_copied | cb_error.

Record ClipboardBuffer := { cb_text : jsstring; cb_bytes : Z; cb_status : ClipboardStatus }.

Record KeyEvent := {
  ev_type : jsstring;
  code : jsstring;
  metaKey : bool;
  ctrlKey : bool;
  shiftKey : bool;
  altKey : bool;
}.

Inductive ClipboardAction := paste | flush.

Definition clipboardKeyAction (e : KeyEvent) (mac : bool) : option ClipboardAction :=
  if negb (bool_decide (ev_type e = js "keydown")) then None
  else if mac then
    if metaKey e && negb (ctrlKey e) && negb (altKey e) && negb (shiftKey e)
       && bool_decide (code e = js "KeyV") then Some paste
    else if metaKey e && shiftKey e && bool_decide (code e = js "KeyC") then Some flush
    else None
  else if ctrlKey e && shiftKey e && bool_decide (code e = js "KeyV") then Some paste
  else if ctrlKey e && shiftKey e && bool_decide (code e = js "KeyC") then Some flush
  else None.

Definition clipboardBufferFor (update : SessionUpdate) (currentId : jsstring)
    : option ClipboardBuffer :=
  if negb (bool_decide (event update = EvClipboard)) || negb (bool_decide (session_id update = currentId))
  then None
  else
  let text := default [] (clipboard update) in
  Some {| cb_text := text; cb_bytes := Z.of_nat (length (text_encode text)); cb_status := cb_ready |}.

(** ** [utils.ts]

    [matchMedia]: [None] when there is no window or no such function. *)

Definition isDesktopViewport (matchMedia : option (jsstring → bool)) : bool :=
  match matchMedia with Some m => m (js "(min-width: 768px)") | None => false end.

Definition isStandalone (has_window : bool) (matchMedia : option (jsstring → bool))
    (navigator_standalone : bool) : bool :=
  if negb has_window then false
  else
  let mm := match matchMedia with Some m => m (js "(display-mode: standalone)") | None => false end in
  mm || navigator_standalone.

Fixpoint is_prefix (p s : jsstring) : bool :=
  match p, s with
  | [], _ => true
  | x :: p, y :: s => (x =? y) && is_prefix p s
  | _ :: _, [] => false
  end.

Fixpoint contains (p s : jsstring) : bool :=
  is_prefix p s || match s with [] => false | _ :: s => contains p s end.

(** [navigator] is [None] where there is none; the pattern ignores the case of ASCII
    letters. *)
Definition isMac (navigator : option (jsstring * jsstring)) : bool :=
  match navigator with
  | None => false
  | Some (platform, userAgent) =>
      let s := ascii_lower (platform ++ js " " ++ userAgent) in
      existsb (λ p, contains p s) [js "mac"; js "iphone"; js "ipad"; js "ipod"]
  end.

(** ** The upsert of the pages *)

Definition ids_of (l : list Session) : list jsstring := ApiTypes.id <$> l.

Definition has_id (i : jsstring) (l : list Session) : bool := bool_decide (i ∈ ids_of l).

(** Replaces the row with the session's id, or puts it first. *)
Definition upsert (s : Session) (prev : list Session) : list Session :=
  if has_id (ApiTypes.id s) prev
  then (λ x, if decide (ApiTypes.id x = ApiTypes.id s) then s else x) <$> prev
  else s :: prev.

Definition remove_id (i : jsstring) (prev : list Session) : list Session :=
  filter (λ s, ApiTypes.id s ≠ i) prev.

(** [!update.session?.id]. *)
Definition update_session (update : SessionUpdate) : option Session :=
  match session update with
  | Some s => match ApiTypes.id s with [] => None | _ => Some s end
  | None => None
  end.

Definition Dashboard_handleUpdate (update : SessionUpdate) (prev : list Session) : list Session :=
  match update_session update with
  | None => prev
  | Some s =>
      if bool_decide (event update = EvEnd) || bool_decide (event update = EvOther (js "delete"))
      then remove_id (ApiTypes.id s) prev
      else upsert s prev
  end.

Definition Dashboard_deleted (sessionId : jsstring) (prev : list Session) : list Session :=
  remove_id sessionId prev.

(** The state of the session page that its feed handler touches. *)
Record Detail := {
  d_session : option Session;
  d_sessions : list Session;
  d_clipboard : option ClipboardBuffer;
}.

Definition Detail_handleUpdate (id : option jsstring) (update : SessionUpdate) (d : Detail) : Detail :=
  if bool_decide (event update = EvClipboard) then
    match clipboardBufferFor update (default [] id) with
    | Some buf => {| d_session := d_session d; d_sessions := d_sessions d; d_clipboard := Some buf |}
    | None => d
    end
  else
  match update_session update with
  | None => d
  | Some s =>
      {| d_session := if bool_decide (Some (session_id update) = id) then Some s else d_session d;
         d_sessions := if bool_decide (event update = EvEnd)
                       then remove_id (ApiTypes.id s) (d_sessions d)
                       else upsert s (d_sessions d);
         d_clipboard := d_clipboard d |}
  end.

(** [apply(next)] of [handleTagsChange]. *)
Definition apply_tags (i : jsstring) (next : option (list jsstring)) (d : Detail) : Detail :=
  {| d_session := (λ s, if decide (ApiTypes.id s = i) then with_tags s next else s) <$> d_session d;
     d_sessions := (λ s, if decide (ApiTypes.id s = i) then with_tags s next else s) <$> d_sessions d;
     d_clipboard := d_clipboard d |}.

(** The optimistic step, and the reconciliation with the server's answer: the stored list,
    or a failure that is passed on. *)
Definition handleTagsChange_begin (i : jsstring) (new : list jsstring) (d : Detail) : Detail :=
  apply_tags i (Some new) d.

Definition handleTagsChange_finish (i : jsstring) (currentTags : option (list jsstring))
    (answer : result (list jsstring)) (d : Detail) : result unit * Detail :=
  match answer with
  | Ok saved => (Ok tt, apply_tags i (Some saved) d)
  | Throw e => (Throw e, apply_tags i currentTags d)
  end.

(** [handleCopyClipboard]: the write's outcome, then the dismissal after 1.2 seconds. *)
Definition clipboard_written (ok : bool) (d : Detail) : Detail :=
  {| d_session := d_session d; d_sessions := d_sessions d;
     d_clipboard := (λ c, {| cb_text := cb_text c; cb_bytes := cb_bytes c;
                             cb_status := if ok then cb_copied else cb_error |}) <$> d_clipboard d |}.

Definition clipboard_dismiss (d : Detail) : Detail :=
  {| d_session := d_session d; d_sessions := d_sessions d; d_clipboard := None |}.

(** [togglePanel]: the new state, and the storage when it can be written. *)
Definition panel_key : jsstring := js "sessionPanelCollapsed".

Definition panel_init (st : storage) : bool :=
  match storage_get st panel_key with
  | Ok v => negb (bool_decide (v = Some (js "1")))
  | Throw _ => true
  end.

Definition togglePanel (isopen : bool) (st : storage) : bool * storage :=
  let next := negb isopen in
  (next, match storage_set st panel_key (if next then js "0" else js "1") with
         | Ok st => st | Throw _ => st end).

(** The Ctrl+1..9 shortcut: the session to navigate to. *)
Definition digit_target (e : KeyEvent) (visible : list Session) (id : option jsstring)
    : option jsstring :=
  if negb (ctrlKey e) || altKey e || metaKey e || shiftKey e then None
  else match drop 5 (code e) with
  | [d] =>
      if bool_decide (take 5 (code e) = js "Digit") && (49 <=? d) && (d <=? 57) then
        match visible !! Z.to_nat (d - 49) with
        | Some target => if decide (Some (ApiTypes.id target) = id) then None
                         else Some (ApiTypes.id target)
        | None => None
        end
      else None
  | _ => None
  end.

(** ** Reordering

    A row of the new list: a session with its new position, or, where the captured order
    names an id the list does not hold, an object with only a position. *)
Inductive Row :=
| Full (s : Session)
| SeqOnly (n : Z).

(** [ordered] is the order the handler was created with, [prev] the list when it runs.  The
    ids sent to the server are the first component. *)
Definition handleReorder (ordered visibleIds : list jsstring) (prev : list Session)
    : list (option jsstring) * list Row :=
  let ids := mergeReorder ordered visibleIds in
  let byId i := find (λ s, bool_decide (ApiTypes.id s = i)) (reverse prev) in
  (ids, imap (λ n i, match i with
                     | Some i => match byId i with
                                 | Some s => Full (with_seq s (Z.of_nat n))
                                 | None => SeqOnly (Z.of_nat n)
                                 end
                     | None => SeqOnly (Z.of_nat n)
                     end) ids).

(** ** [useDragReorder] *)

Record DragState := {
  draggingRef : option jsstring;
  draggingId : option jsstring;
  overId : option jsstring;
}.

Definition drag_idle : DragState := {| draggingRef := None; draggingId := None; overId := None |}.

(** The order handed to [onReorder], if it is called. *)
Definition finish (orderedIds : list jsstring) (targetId : option jsstring) (s : DragState)
    : option (list jsstring) * DragState :=
  let call :=
    match draggingRef s, targetId with
    | Some ((_ :: _) as dragId), Some ((_ :: _) as targetId) =>
        if decide (dragId = targetId) then None
        else match index_of dragId orderedIds, index_of targetId orderedIds with
        | Some from, Some to => Some (splice_move orderedIds from to)
        | _, _ => None
        end
    | _, _ => None
    end in
  (call, drag_idle).

Definition onDragStart (i : jsstring) (s : DragState) : DragState :=
  {| draggingRef := Some i; draggingId := Some i; overId := overId s |}.

Definition onDragEnd (orderedIds : list jsstring) (s : DragState) := finish orderedIds None s.

Definition onDragEnter (i : jsstring) (s : DragState) : DragState :=
  if truthy_string (draggingRef s) && negb (bool_decide (draggingRef s = Some i))
  then {| draggingRef := draggingRef s; draggingId := draggingId s; overId := Some i |} else s.

Definition onDrop (orderedIds : list jsstring) (i : jsstring) (s : DragState) :=
  finish orderedIds (Some i) s.

(** ** [usePointerReorder] *)

Section pointer.
(** The [onReorder] callbacks; a drag keeps the one of the render it started in. *)
Context {C : Type}.

Record Drag := { drag_id : jsstring; drag_callback : C }.

Record PointerState := {
  order : list jsstring;
  orderRef : list jsstring;
  idsRef : list jsstring;
  p_dragging : option jsstring;
  (** The drags whose window listeners are attached. *)
  drags : list Drag;
  (** The calls of [onReorder]: callback and order. *)
  commits : list (C * list jsstring);
}.

Definition ids_key (ids : list jsstring) : jsstring := join [124] ids.

(** A render with new [ids], and the effect that follows it. *)
Definition pointer_render (ids : list jsstring) (s : PointerState) : PointerState :=
  if bool_decide (p_dragging s = None) && negb (bool_decide (ids_key ids = ids_key (orderRef s)))
  then {| order := ids; orderRef := ids; idsRef := ids; p_dragging := p_dragging s;
          drags := drags s; commits := commits s |}
  else {| order := order s; orderRef := orderRef s; idsRef := ids; p_dragging := p_dragging s;
          drags := drags s; commits := commits s |}.

Definition onPointerDown (i : jsstring) (callback : C) (mouse : bool) (button : Z)
    (s : PointerState) : PointerState :=
  if mouse && negb (button =? 0) then s
  else {| order := idsRef s; orderRef := idsRef s; idsRef := idsRef s; p_dragging := Some i;
          drags := drags s ++ [{| drag_id := i; drag_callback := callback |}];
          commits := commits s |}.

(** The first row whose vertical midpoint is below the pointer, else the last one; rows are
    given by top and height, positions doubled to stay integral. *)
Fixpoint first_below (y : Z) (i : nat) (rows : list (Z * Z)) : option nat :=
  match rows with
  | [] => None
  | (top, height) :: rows =>
      if 2 * y <? 2 * top + height then Some i else first_below y (S i) rows
  end.

Definition drop_target (y : Z) (rows : list (Z * Z)) : nat :=
  default (length rows - 1)%nat (first_below y 0 rows).

Definition move_one (y : Z) (rows : list (Z * Z)) (s : PointerState) (d : Drag) : PointerState :=
  match rows with
  | [] => s
  | _ =>
      let target := drop_target y rows in
      match index_of (drag_id d) (orderRef s) with
      | None => s
      | Some from =>
          if decide (from = target) then s
          else
          let cur := splice_move (orderRef s) from target in
          {| order := cur; orderRef := cur; idsRef := idsRef s; p_dragging := p_dragging s;
             drags := drags s; commits := commits s |}
      end
  end.

Definition pointer_move (y : Z) (rows : list (Z * Z)) (s : PointerState) : PointerState :=
  foldl (move_one y rows) s (drags s).

Definition end_one (s : PointerState) (d : Drag) : PointerState :=
  {| order := order s; orderRef := orderRef s; idsRef := idsRef s; p_dragging := None;
     drags := drags s;
     commits := if bool_decide (ids_key (orderRef s) = ids_key (idsRef s)) then commits s
                else commits s ++ [(drag_callback d, orderRef s)] |}.

(** [pointerup] or [pointercancel]. *)
Definition pointer_end (s : PointerState) : PointerState :=
  let s' := foldl end_one s (drags s) in
  {| order := order s'; orderRef := orderRef s'; idsRef := idsRef s'; p_dragging := p_dragging s';
     drags := []; commits := commits s' |}.
End pointer.

(** ** Facts *)

Lemma ids_upsert s prev :
  ids_of (upsert s prev) =
  if has_id (ApiTypes.id s) prev then ids_of prev else ApiTypes.id s :: ids_of prev.
Proof.
  unfold upsert. destruct (has_id _ prev); [|done]. unfold ids_of.
  rewrite <- list_fmap_compose. apply list_fmap_ext. intros i x _. simpl. by case_decide.
Qed.

Lemma elem_of_ids i l : i ∈ ids_of l ↔ ∃ s, s ∈ l ∧ ApiTypes.id s = i.
Proof. unfold ids_of. rewrite list_elem_of_fmap. naive_solver. Qed.

Lemma upsert_elem s prev x :
  NoDup (ids_of prev) →
  x ∈ upsert s prev ↔ x = s ∨ (x ∈ prev ∧ ApiTypes.id x ≠ ApiTypes.id s).
Proof.
  intros Hn. unfold upsert, has_id. case_bool_decide as Hin.
  - rewrite list_elem_of_fmap. apply elem_of_ids in Hin as (y & Hy & Ey). split.
    + intros (z & -> & Hz). case_decide; [by left|by right].
    + intros [->|[Hx Hne]]; [|exists x; by rewrite decide_False].
      exists y. by rewrite decide_True.
  - rewrite elem_of_cons. split; [|naive_solver]. intros [->|Hx]; [by left|].
    right. split; [done|]. intros E. apply Hin, elem_of_ids. eauto.
Qed.

Lemma remove_id_elem i prev x : x ∈ remove_id i prev ↔ x ∈ prev ∧ ApiTypes.id x ≠ i.
Proof. unfold remove_id. rewrite list_elem_of_filter. tauto. Qed.

Lemma ids_remove i prev : ids_of (remove_id i prev) = filter (λ j, j ≠ i) (ids_of prev).
Proof.
  unfold ids_of, remove_id. induction prev as [|x l IH]; [done|].
  rewrite fmap_cons, !filter_cons, <- IH. by repeat case_decide.
Qed.

(** The dashboard applies every update exactly: an update without a session changes
    nothing; an ended or deleted session leaves the list; any other update leaves its session
    in the list once, in its old place or else first, and every other row as it was; no id
    ever appears twice. *)
Theorem Dashboard_handleUpdate_spec update prev :
  NoDup (ids_of prev) →
  let next := Dashboard_handleUpdate update prev in
  NoDup (ids_of next) ∧
  match update_session update with
  | None => next = prev
  | Some s =>
      if bool_decide (event update = EvEnd) || bool_decide (event update = EvOther (js "delete"))
      then (∀ x, x ∈ next ↔ x ∈ prev ∧ ApiTypes.id x ≠ ApiTypes.id s) ∧
           ids_of next = filter (λ j, j ≠ ApiTypes.id s) (ids_of prev)
      else (∀ x, x ∈ next ↔ x = s ∨ (x ∈ prev ∧ ApiTypes.id x ≠ ApiTypes.id s)) ∧
           ids_of next = if has_id (ApiTypes.id s) prev then ids_of prev
                         else ApiTypes.id s :: ids_of prev
  end.
Proof.
  intros Hn next. unfold next, Dashboard_handleUpdate.
  destruct (update_session update) as [s|]; [|done].
  destruct (bool_decide (event update = EvEnd) || _).
  - rewrite ids_remove. split; [by apply NoDup_filter|]. split; [apply remove_id_elem|done].
  - rewrite ids_upsert. split; [|split; [by intros; apply upsert_elem|done]].
    unfold has_id. destruct (bool_decide_reflect (ApiTypes.id s ∈ ids_of prev)); [done|].
    by apply NoDup_cons.
Qed.

Lemma by_seq_total x y : by_seq x y <= 0 ∨ by_seq y x <= 0.
Proof. unfold by_seq. lia. Qed.
Lemma by_seq_trans x y z : by_seq x y <= 0 → by_seq y z <= 0 → by_seq x z <= 0.
Proof. unfold by_seq. lia. Qed.

Lemma sort_seq_sorted sessions :
  sortBySeq sessions ≡ₚ sessions ∧
  StronglySorted (λ a b, default 0 (seq a) <= default 0 (seq b)) (sortBySeq sessions).
Proof.
  split; [apply array_sort_perm|].
  pose proof (array_sort_sorted by_seq by_seq_total by_seq_trans sessions) as H.
  unfold sortBySeq. induction H as [|x l _ IH Hx]; constructor; [done|].
  eapply Forall_impl; [exact Hx|]. intros y. unfold by_seq. lia.
Qed.

(** [sortBySeq] is a stable sort by position: the same sessions, in ascending [seq]
    (a missing one counting as zero), those of equal [seq] keeping their relative order. *)
Theorem sortBySeq_spec sessions :
  sortBySeq sessions ≡ₚ sessions ∧
  StronglySorted (λ a b, default 0 (seq a) <= default 0 (seq b)) (sortBySeq sessions) ∧
  (∀ n, filter (λ s, default 0 (seq s) = n) (sortBySeq sessions)
        = filter (λ s, default 0 (seq s) = n) sessions).
Proof.
  destruct (sort_seq_sorted sessions) as [Hp Hs]. split_and!; [done|done|].
  intros n. apply array_sort_stable. intros a b Ha Hb. unfold by_seq. lia.
Qed.

(** ** Reordering *)

Lemma find_id_last i (prev : list Session) s :
  NoDup (ids_of prev) → s ∈ prev → ApiTypes.id s = i →
  find (λ x, bool_decide (ApiTypes.id x = i)) (reverse prev) = Some s.
Proof.
  intros Hn Hs Hi.
  assert (Hn' : NoDup (ids_of (reverse prev))).
  { unfold ids_of. rewrite fmap_reverse. by rewrite reverse_Permutation. }
  assert (Hs' : s ∈ reverse prev) by (by apply elem_of_reverse).
  induction (reverse prev) as [|x l IH]; [by apply not_elem_of_nil in Hs'|].
  simpl. apply NoDup_cons in Hn' as [Hx Hl]. apply elem_of_cons in Hs' as [->|Hs'].
  - by rewrite bool_decide_eq_true_2.
  - rewrite bool_decide_eq_false_2; [by apply IH|]. intros Ex. apply Hx.
    rewrite Ex, <- Hi. apply elem_of_ids. eauto.
Qed.

Lemma find_id_none i (prev : list Session) :
  i ∉ ids_of prev → find (λ x, bool_decide (ApiTypes.id x = i)) (reverse prev) = None.
Proof.
  intros Hi. destruct (find _ _) as [s|] eqn:E; [|done]. apply find_some in E as [Hin Eq].
  apply bool_decide_eq_true_1 in Eq. destruct Hi. apply elem_of_ids. exists s.
  split; [|done]. by rewrite <- elem_of_reverse, list_elem_of_In.
Qed.

(** The position a row carries. *)
Definition row_seq (r : Row) : Z := match r with Full s => default 0 (seq s) | SeqOnly n => n end.

(** The rows of a reorder when every id is known. *)
Lemma reorder_rows prev r :
  NoDup (ids_of prev) → (∀ i, i ∈ r → i ∈ ids_of prev) →
  ∃ l, imap (λ n i, match i with
                    | Some i => match find (λ s, bool_decide (ApiTypes.id s = i)) (reverse prev) with
                                | Some s => Full (with_seq s (Z.of_nat n))
                                | None => SeqOnly (Z.of_nat n)
                                end
                    | None => SeqOnly (Z.of_nat n)
                    end) (Some <$> r) = imap (λ n s, Full (with_seq s (Z.of_nat n))) l ∧
    ids_of l = r ∧ Forall (.∈ prev) l.
Proof.
  intros Hn. induction r as [|i r IH] using rev_ind; intros Hr; [by exists []|].
  destruct IH as (l & Hl & Hi & Hp); [set_solver|].
  destruct (proj1 (elem_of_ids i prev)) as (s & Hs & Es); [set_solver|].
  exists (l ++ [s]). rewrite fmap_app, !imap_app, Hl. split_and!.
  - f_equal. simpl. rewrite (find_id_last i prev s) by done.
    rewrite length_fmap, <- Hi. unfold ids_of. by rewrite length_fmap.
  - unfold ids_of in *. rewrite fmap_app, Hi. simpl. by rewrite Es.
  - apply Forall_app. split; [done|]. by constructor.
Qed.

(** A reorder of the rows on screen: if the list has not changed since it was rendered,
    every row of the new list is a session of the old one renumbered to its new position, none
    is lost or repeated, the visible ones stand in the order chosen and every hidden one in
    its old slot; the same ids go to the server. *)
Theorem handleReorder_spec ordered visibleIds prev :
  NoDup (ids_of prev) → ids_of prev ≡ₚ ordered →
  visibleIds ≡ₚ filter (.∈ visibleIds) ordered →
  ∃ r l, handleReorder ordered visibleIds prev
         = (Some <$> r, imap (λ n s, Full (with_seq s (Z.of_nat n))) l) ∧
    reorder_of ordered visibleIds r ∧ ids_of l = r ∧ l ≡ₚ prev.
Proof.
  intros Hn Hp Hv. destruct (mergeReorder_correct ordered visibleIds Hv) as (r & Hr & Hro).
  assert (Hrp : r ≡ₚ ids_of prev) by (rewrite Hp; apply Hro).
  destruct (reorder_rows prev r Hn) as (l & Hl & Hi & Hin).
  { intros i Hi. by rewrite <- Hrp. }
  exists r, l. unfold handleReorder. rewrite Hr, Hl. split_and!; try done.
  assert (Hnl : NoDup (ids_of l)) by (by rewrite Hi, Hrp).
  apply NoDup_Permutation.
  - by eapply NoDup_fmap_1.
  - by eapply NoDup_fmap_1.
  - intros x. split; [rewrite Forall_forall in Hin; apply Hin|]. intros Hx.
    assert (Hxi : ApiTypes.id x ∈ ids_of l) by (rewrite Hi, Hrp; apply elem_of_ids; eauto).
    apply elem_of_ids in Hxi as (y & Hy & Ey). rewrite Forall_forall in Hin.
    assert (Hyp : y ∈ prev) by (by apply Hin).
    assert (y = x) as <-; [|done].
    pose proof (find_id_last (ApiTypes.id x) prev x Hn Hx eq_refl) as F1.
    pose proof (find_id_last (ApiTypes.id x) prev y Hn Hyp Ey) as F2. congruence.
Qed.

(** A reorder that was prepared from an older list loses what arrived since: a session
    whose id the captured order does not name is in no row of the new list, and an id it
    names that has left the list becomes a row with a position and nothing else. *)
Theorem handleReorder_stale ordered visibleIds prev :
  visibleIds ≡ₚ filter (.∈ visibleIds) ordered →
  (∀ s n, s ∈ prev → ApiTypes.id s ∉ ordered → Full (with_seq s n) ∉ (handleReorder ordered visibleIds prev).2) ∧
  (∀ i, i ∈ ordered → i ∉ ids_of prev → ∃ n, SeqOnly n ∈ (handleReorder ordered visibleIds prev).2).
Proof.
  intros Hv. destruct (mergeReorder_correct ordered visibleIds Hv) as (r & Hr & Hp & _).
  unfold handleReorder. rewrite Hr. cbn [snd]. split.
  - intros s n Hs Hi Hin. apply elem_of_lookup_imap_1 in Hin as (k & oi & Ek & Hk).
    rewrite list_lookup_fmap in Hk. destruct (r !! k) as [i|] eqn:Ei; simplify_eq/=.
    destruct (find _ _) as [s'|] eqn:Ef; simplify_eq/=.
    apply find_some in Ef as [_ Ef]. apply bool_decide_eq_true_1 in Ef.
    apply Hi. rewrite <- Hp. apply list_elem_of_lookup_2 in Ei.
    assert (ApiTypes.id s = ApiTypes.id s') as -> by congruence. by rewrite Ef.
  - intros i Hi Hn. rewrite <- Hp in Hi. apply list_elem_of_lookup in Hi as [k Hk].
    exists (Z.of_nat k). apply elem_of_lookup_imap. exists k, (Some i).
    split; [by rewrite find_id_none | by rewrite list_lookup_fmap, Hk].
Qed.

(** In a list without repetitions an element is where it is found, and deleting it is
    filtering it out. *)
Lemma index_of_NoDup (l : list jsstring) k x : NoDup l → l !! k = Some x → index_of x l = Some k.
Proof.
  intros Hn Hk. destruct (index_of x l) as [k'|] eqn:E.
  - apply index_of_Some in E. f_equal. by eapply NoDup_lookup.
  - apply index_of_None in E. destruct E. by eapply list_elem_of_lookup_2.
Qed.

Lemma filter_delete (l : list jsstring) k x :
  NoDup l → l !! k = Some x → delete k l = filter (λ i, i ≠ x) l.
Proof.
  revert k. induction l as [|y l IH]; intros [|k] Hn Hk; simplify_eq/=.
  - apply NoDup_cons in Hn as [Hx _]. rewrite filter_cons_False by tauto.
    symmetry. apply filter_all, Forall_forall. by intros z Hz ->.
  - apply NoDup_cons in Hn as [Hy Hn]. rewrite filter_cons_True.
    + f_equal. by apply IH.
    + intros ->. apply Hy. by eapply list_elem_of_lookup_2.
Qed.

(** Dropping a dragged row on another one hands over the same ids with the dragged one at
    the target's place and all others in their order; a drop on itself, outside, or of an
    unknown row hands over nothing; the drag state is reset in every case. *)
Theorem onDrop_spec orderedIds dragId target (s : DragState) :
  NoDup orderedIds → draggingRef s = Some dragId → dragId ≠ [] → target ≠ [] →
  (onDrop orderedIds target s).2 = drag_idle ∧
  match (onDrop orderedIds target s).1 with
  | Some ids =>
      dragId ≠ target ∧ dragId ∈ orderedIds ∧
      ids ≡ₚ orderedIds ∧ index_of target orderedIds = index_of dragId ids ∧
      filter (λ i, i ≠ dragId) ids = filter (λ i, i ≠ dragId) orderedIds
  | None => dragId = target ∨ dragId ∉ orderedIds ∨ target ∉ orderedIds
  end.
Proof.
  intros Hn Hd Hne Ht. unfold onDrop, finish. rewrite Hd.
  destruct dragId as [|c d]; [done|]. destruct target as [|c' t]; [done|]. cbn [fst snd].
  split; [done|]. set (dragId := c :: d) in *. set (target := c' :: t) in *.
  case_decide as Heq; [by left|].
  destruct (index_of dragId orderedIds) as [from|] eqn:Ef;
    [|right; left; by apply index_of_None].
  destruct (index_of target orderedIds) as [to|] eqn:Et;
    [|right; right; by apply index_of_None].
  apply index_of_Some in Ef as Lf. apply index_of_Some in Et as Lt.
  assert (Hlen : (to < length orderedIds)%nat) by (eapply lookup_lt_Some; exact Lt).
  assert (Hn' : NoDup (splice_move orderedIds from to)) by (by rewrite splice_move_perm).
  pose proof (splice_move_target orderedIds from to dragId Lf Hlen) as Hto.
  split_and!; [done | by eapply list_elem_of_lookup_2 | apply splice_move_perm | |].
  - symmetry. by apply index_of_NoDup.
  - pose proof (splice_move_rest orderedIds from to dragId Lf Hlen) as Hrest.
    rewrite <- (filter_delete (splice_move orderedIds from to) to dragId Hn' Hto).
    rewrite <- (filter_delete orderedIds from dragId Hn Lf). by rewrite Hrest.
Qed.

(** ** Tags *)

Lemma with_tags_twice s a b : with_tags (with_tags s a) b = with_tags s b.
Proof. done. Qed.

Lemma with_tags_same s : with_tags s (tags s) = s.
Proof. by destruct s. Qed.

(** A failed save of the tags restores the page: when the session and its row carried the
    tags the editor started from, the optimistic change followed by the failure's rollback is
    the original state, and the error is passed on; a success leaves the server's list. *)
Theorem handleTagsChange_rollback i new cur e saved d :
  (∀ s, d_session d = Some s → ApiTypes.id s = i → tags s = cur) →
  (∀ s, s ∈ d_sessions d → ApiTypes.id s = i → tags s = cur) →
  handleTagsChange_finish i cur (Throw e) (handleTagsChange_begin i new d) = (Throw e, d) ∧
  handleTagsChange_finish i cur (Ok saved) (handleTagsChange_begin i new d)
  = (Ok tt, apply_tags i (Some saved) d).
Proof.
  intros Hs Hl.
  assert (Hone : ∀ (s : Session) (a b : option (list jsstring)),
    (if decide (ApiTypes.id (if decide (ApiTypes.id s = i) then with_tags s a else s) = i)
     then with_tags (if decide (ApiTypes.id s = i) then with_tags s a else s) b
     else (if decide (ApiTypes.id s = i) then with_tags s a else s))
    = (if decide (ApiTypes.id s = i) then with_tags s b else s)).
  { intros s a b. destruct (decide (ApiTypes.id s = i)) as [E|E]; simpl.
    - rewrite decide_True by done. apply with_tags_twice.
    - by rewrite decide_False. }
  assert (Htwice : ∀ a b, apply_tags i b (apply_tags i a d) = apply_tags i b d).
  { intros a b. unfold apply_tags. cbn. f_equal.
    - destruct (d_session d) as [s|]; simpl; [|done]. by rewrite Hone.
    - rewrite <- list_fmap_compose. apply list_fmap_ext. intros k s _. apply Hone. }
  unfold handleTagsChange_finish, handleTagsChange_begin. rewrite !Htwice. split; [|done].
  f_equal. destruct d as [ds dl dc]. unfold apply_tags. cbn in *. f_equal.
  - destruct ds as [s|]; simpl; [|done]. case_decide as E; [|done].
    f_equal. rewrite <- (Hs s eq_refl E). apply with_tags_same.
  - rewrite <- (list_fmap_id dl) at 2. apply list_fmap_ext. intros k s Hk. simpl.
    case_decide as E; [|done]. apply list_elem_of_lookup_2 in Hk.
    rewrite <- (Hl s Hk E). apply with_tags_same.
Qed.

(** ** Pointer reordering *)

Inductive PointerInput := PI_render (ids : list jsstring) | PI_move (y : Z) (rows : list (Z * Z)).

Definition pointer_step {C} (s : PointerState (C := C)) (e : PointerInput) : PointerState (C := C) :=
  match e with
  | PI_render ids => pointer_render ids s
  | PI_move y rows => pointer_move y rows s
  end.

(** A pointer drag commits through the callback of the render it started in, whatever
    lists are rendered while it lasts: at its end that callback is called at most once, with a
    rearrangement of the ids shown when the drag began, and it is not called only if the order
    equals the one then on screen. *)
Theorem pointer_drag_commits {C} (s0 : PointerState (C := C)) i cb es :
  drags s0 = [] →
  let s := run pointer_step (onPointerDown i cb false 0 s0) es in
  let s' := pointer_end s in
  drags s' = [] ∧ p_dragging s' = None ∧
  (commits s' = commits s0 ∧ ids_key (orderRef s) = ids_key (idsRef s) ∨
   ∃ ids, commits s' = commits s0 ++ [(cb, ids)] ∧ ids ≡ₚ idsRef s0).
Proof.
  intros Hd s s'.
  assert (I : drags s = [{| drag_id := i; drag_callback := cb |}] ∧ commits s = commits s0 ∧
              p_dragging s = Some i ∧ orderRef s ≡ₚ idsRef s0).
  { unfold s. apply (run_invariant pointer_step (λ s,
      drags s = [{| drag_id := i; drag_callback := cb |}] ∧ commits s = commits s0 ∧
      p_dragging s = Some i ∧ orderRef s ≡ₚ idsRef s0)).
    - cbn. by rewrite Hd.
    - intros t [ids|y rows] (Htd & Htc & Htp & Hto); cbn [pointer_step].
      + unfold pointer_render. rewrite Htp. by cbn.
      + unfold pointer_move. rewrite Htd. cbn [foldl]. unfold move_one.
        destruct rows; [done|]. destruct (index_of _ _) as [from|]; [|done].
        case_decide; [done|]. cbn [orderRef drags commits p_dragging].
        by rewrite splice_move_perm. }
  destruct I as (Id & Ic & _ & Io). unfold s', pointer_end. rewrite Id.
  cbn [foldl end_one drags p_dragging commits drag_callback]. split_and!; try done.
  destruct (bool_decide_reflect (ids_key (orderRef s) = ids_key (idsRef s))) as [E|E].
  - by left.
  - right. exists (orderRef s). by rewrite Ic.
Qed.

(** ** Witnesses *)

Definition session_at (i : jsstring) (n : Z) : Session := with_seq (blank_session i) n.
Definition demo_list : list Session :=
  [session_at (js "a") 0; session_at (js "b") 1; session_at (js "c") 2].

Lemma demo_list_NoDup : NoDup (ids_of demo_list).
Proof.
  repeat (apply NoDup_cons; split; [rewrite ?not_elem_of_cons; auto using not_elem_of_nil|]).
  apply NoDup_nil. done.
Qed.

Definition demo_update : SessionUpdate :=
  {| event := EvStart; session_id := js "d"; session := Some (session_at (js "d") 0); clipboard := None |}.

Lemma Dashboard_handleUpdate_witness : NoDup (ids_of (Dashboard_handleUpdate demo_update demo_list)).
Proof. apply (Dashboard_handleUpdate_spec demo_update demo_list). apply demo_list_NoDup. Defined.

Lemma handleReorder_witness :
  ∃ r l, handleReorder [js "a"; js "b"; js "c"] [js "c"; js "a"] demo_list
         = (Some <$> r, imap (λ n s, Full (with_seq s (Z.of_nat n))) l) ∧
    reorder_of [js "a"; js "b"; js "c"] [js "c"; js "a"] r ∧ ids_of l = r ∧ l ≡ₚ demo_list.
Proof.
  apply handleReorder_spec.
  - apply demo_list_NoDup.
  - reflexivity.
  - apply (perm_swap (js "a") (js "c") []).
Defined.

Lemma handleReorder_stale_witness :
  Full (session_at (js "c") 9) ∉ (handleReorder [js "a"; js "b"] [js "b"; js "a"] demo_list).2.
Proof.
  refine (proj1 (handleReorder_stale [js "a"; js "b"] [js "b"; js "a"] demo_list _)
            (session_at (js "c") 2) 9 _ _).
  - apply (perm_swap (js "a") (js "b") []).
  - apply list_elem_of_further, list_elem_of_further, list_elem_of_here.
  - intros H. vm_compute in H. inversion H as [|? ? ? H1]; subst. inversion H1 as [|? ? ? H2]; subst.
    inversion H2.
Defined.

Lemma onDrop_witness :
  (onDrop [js "a"; js "b"; js "c"] (js "c") (onDragStart (js "a") drag_idle)).2 = drag_idle.
Proof.
  apply (onDrop_spec [js "a"; js "b"; js "c"] (js "a") (js "c")).
  - apply demo_list_NoDup.
  - reflexivity.
  - discriminate.
  - discriminate.
Defined.

Definition demo_detail : Detail :=
  {| d_session := Some (blank_session (js "a")); d_sessions := [blank_session (js "a")];
     d_clipboard := None |}.

Lemma handleTagsChange_witness :
  handleTagsChange_finish (js "a") None (Throw (plain_error []))
    (handleTagsChange_begin (js "a") [js "x"] demo_detail) = (Throw (plain_error []), demo_detail).
Proof.
  apply (handleTagsChange_rollback (js "a") [js "x"] None (plain_error []) [] demo_detail).
  - intros s [= <-] _. reflexivity.
  - intros s [->|H]%elem_of_cons _; [reflexivity|]. by apply not_elem_of_nil in H.
Defined.

Lemma pointer_drag_witness :
  let s0 := {| order := [js "a"; js "b"]; orderRef := [js "a"; js "b"]; idsRef := [js "a"; js "b"];
               p_dragging := None; drags := []; commits := [] |} in
  drags (pointer_end (run pointer_step (onPointerDown (js "a") 7 false 0 s0)
    [PI_render [js "a"; js "b"; js "c"]; PI_move 50 [(0, 10); (10, 10)]])) = [].
Proof.
  intros s0. apply (pointer_drag_commits s0 (js "a") 7
    [PI_render [js "a"; js "b"; js "c"]; PI_move 50 [(0, 10); (10, 10)]]). reflexivity.
Defined.
