(* ===== verification/QuickKeys.v ===== *)
(** * Quick keys: PTY byte sequences for key combinations ([lib/quick-keys.ts])

    The tables, the encoder of one step and of a macro, the preview and the stored form, with
    a reader of the xterm sequences against which the encoder is proved unambiguous. *)

From S2P Require Import Prelude Js ApiTypes Models.
#[local] Open Scope Z_scope.
#[local] Open Scope js_scope.

Definition ESC : Z := 0x1b.
Definition CSI : Z := 0x5b.
Definition SS3 : Z := 0x4f.

(** The tables are looked up by own property name. *)
Definition CSI_KEYS : list (jsstring * (option Z * Z)) :=
  [(js "up", (None, 0x41));
   (js "down", (None, 0x42));
   (js "right", (None, 0x43));
   (js "left", (None, 0x44));
   (js "home", (None, 0x48));
   (js "end", (None, 0x46));
   (js "page up", (Some 5, 0x7e));
   (js "page down", (Some 6, 0x7e));
   (js "f5", (Some 15, 0x7e));
   (js "f6", (Some 17, 0x7e));
   (js "f7", (Some 18, 0x7e));
   (js "f8", (Some 19, 0x7e));
   (js "f9", (Some 20, 0x7e));
   (js "f10", (Some 21, 0x7e));
   (js "f11", (Some 23, 0x7e));
   (js "f12", (Some 24, 0x7e))].

Definition SS3_KEYS : list (jsstring * Z) :=
  [(js "f1", 0x50); (js "f2", 0x51); (js "f3", 0x52); (js "f4", 0x53)].

Definition modifierCode (ctrl alt shift : bool) : Z :=
  1 + (if shift then 1 else 0) + (if alt then 2 else 0) + (if ctrl then 4 else 0).

Definition asciiDigits (n : Z) : list Z := of_int n.

Definition prefixEsc (bs : bytes) : result bytes :=
  let out := u8_new (length bs + 1) in
  let out := u8_store out 0 ESC in
  u8_set out bs 1.

Record PresetQuickKey := {
  preset_name : jsstring;
  preset_display_token : jsstring;
  preset_spec : list QuickKeyStep;
}.

Definition preset (n t : jsstring) (ctrl : bool) (key : jsstring) : PresetQuickKey :=
  {| preset_name := n; preset_display_token := t;
     preset_spec := [QuickKeyComboStep ctrl false false key] |}.

Definition PRESET_QUICK_KEYS : list PresetQuickKey :=
  [preset (js "Ctrl+C") (js "^C") true (js "c");
   preset (js "Ctrl+D") (js "^D") true (js "d");
   preset (js "Ctrl+Z") (js "^Z") true (js "z");
   preset (js "Ctrl+L") (js "^L") true (js "l");
   preset (js "Ctrl+A") (js "^A") true (js "a");
   preset (js "Ctrl+E") (js "^E") true (js "e");
   preset (js "Esc") (js "Esc") false (js "escape");
   preset (js "Tab") (js "Tab") false (js "tab");
   preset (js "Up") [0x2191] false (js "up");
   preset (js "Down") [0x2193] false (js "down");
   preset (js "Left") [0x2190] false (js "left");
   preset (js "Right") [0x2192] false (js "right");
   preset (js "F1") (js "F1") false (js "f1");
   preset (js "F2") (js "F2") false (js "f2");
   preset (js "F3") (js "F3") false (js "f3");
   preset (js "F4") (js "F4") false (js "f4");
   preset (js "F5") (js "F5") false (js "f5");
   preset (js "F6") (js "F6") false (js "f6");
   preset (js "F7") (js "F7") false (js "f7");
   preset (js "F8") (js "F8") false (js "f8");
   preset (js "F9") (js "F9") false (js "f9");
   preset (js "F10") (js "F10") false (js "f10");
   preset (js "F11") (js "F11") false (js "f11");
   preset (js "F12") (js "F12") false (js "f12");
   preset (js "Home") (js "Home") false (js "home");
   preset (js "End") (js "End") false (js "end");
   preset (js "PgUp") (js "PgUp") false (js "page up");
   preset (js "PgDn") (js "PgDn") false (js "page down")].

(** [/^[a-z]$/] and [/^[a-z0-9]$/]. *)
Definition is_lower_letter (key : jsstring) : bool :=
  match key with [c] => (97 <=? c) && (c <=? 122) | _ => false end.

Definition is_lower_alnum (key : jsstring) : bool :=
  match key with
  | [c] => ((97 <=? c) && (c <=? 122)) || ((48 <=? c) && (c <=? 57))
  | _ => false
  end.

Section quick_keys.
Context {L : Locale}.

(** The combo branch of [encodeStep]; [key] is already lower-cased. *)
Definition encodeCombo (ctrl alt shift : bool) (key : jsstring) : result bytes :=
  let mod' := modifierCode ctrl alt shift in
  if bool_decide (key = js "escape")
  then Ok (if alt then u8_from [ESC; ESC] else u8_from [ESC])
  else if bool_decide (key = js "tab")
  then Ok (if shift then u8_from [ESC; CSI; 0x5a]
           else if alt then u8_from [ESC; 0x09] else u8_from [0x09])
  else match assoc_get key CSI_KEYS with
  | Some (num, final) =>
      if mod' =? 1 then
        Ok (match num with
            | None => u8_from [ESC; CSI; final]
            | Some n => u8_from ([ESC; CSI] ++ asciiDigits n ++ [final])
            end)
      else
        let n := default 1 num in
        Ok (u8_from ([ESC; CSI] ++ asciiDigits n ++ [0x3b] ++ asciiDigits mod' ++ [final]))
  | None =>
  match assoc_get key SS3_KEYS with
  | Some final =>
      if mod' =? 1 then Ok (u8_from [ESC; SS3; final])
      else Ok (u8_from ([ESC; CSI; 0x31; 0x3b] ++ asciiDigits mod' ++ [final]))
  | None =>
  if ctrl && is_lower_letter key then
    let code := default 0 (toUpperCase key !! 0%nat) - 64 in
    let bs := u8_from [code] in
    if alt then prefixEsc bs else Ok bs
  else if is_lower_alnum key then
    let c := if shift then toUpperCase key else key in
    let bs := text_encode c in
    if alt then prefixEsc bs else Ok bs
  else if alt then prefixEsc (text_encode key) else Ok (text_encode key)
  end end.

Definition encodeStep (step : QuickKeyStep) : result bytes :=
  match step with
  | QuickKeyLiteralStep text enter =>
      let bs := text_encode text in
      if enter then
        let result := u8_new (length bs + 1) in
        let! result := u8_set result bs 0 in
        Ok (u8_store result (length bs) 0x0d)
      else Ok bs
  | QuickKeyComboStep ctrl alt shift key => encodeCombo ctrl alt shift (toLowerCase key)
  end.

(** The loop of [encodeSpec] over the encoded parts. *)
Fixpoint set_parts (result : bytes) (parts : list bytes) (offset : nat) : Prelude.result bytes :=
  match parts with
  | [] => Ok result
  | part :: parts' =>
      let! result := u8_set result part offset in
      set_parts result parts' (offset + length part)
  end.

Definition encodeSpec (spec : list QuickKeyStep) : result bytes :=
  let! parts := array_map encodeStep spec in
  let totalLength := foldl (λ sum p, (sum + length p)%nat) 0%nat parts in
  set_parts (u8_new totalLength) parts 0.

Definition preview_byte (b : Z) : jsstring :=
  if (0x20 <=? b) && (b <=? 0x7e) then [b]
  else js "\x" ++ pad_start 2 48 (number_to_string 16 b).

Definition previewSpec (spec : list QuickKeyStep) : result jsstring :=
  let! bs := encodeSpec spec in
  Ok (concat (preview_byte <$> bs)).

Context {J : Json}.

(** [JSON.parse] is not validated: the value is used as it comes. *)
Definition parseSpec (specStr : jsstring) : json :=
  match JSON_parse specStr with
  | Some j => j
  | None => JArr []
  end.

End quick_keys.

(** The JSON form of a step, as [JSON.stringify] sees it, and back. *)
Definition step_json (s : QuickKeyStep) : json :=
  match s with
  | QuickKeyComboStep ctrl alt shift key =>
      JObj [(js "type", JStr (js "combo")); (js "ctrl", JBool ctrl); (js "alt", JBool alt);
            (js "shift", JBool shift); (js "key", JStr key)]
  | QuickKeyLiteralStep text enter =>
      JObj [(js "type", JStr (js "literal")); (js "text", JStr text); (js "enter", JBool enter)]
  end.

Definition json_step (j : json) : option QuickKeyStep :=
  match json_get (js "type") j with
  | Some (JStr t) =>
      if bool_decide (t = js "literal") then
        match json_get (js "text") j, json_get (js "enter") j with
        | Some (JStr text), Some (JBool enter) => Some (QuickKeyLiteralStep text enter)
        | _, _ => None
        end
      else
        match json_get (js "ctrl") j, json_get (js "alt") j, json_get (js "shift") j,
              json_get (js "key") j with
        | Some (JBool c), Some (JBool a), Some (JBool s), Some (JStr k) =>
            Some (QuickKeyComboStep c a s k)
        | _, _, _, _ => None
        end
  | _ => None
  end.

(** ** Reference definitions *)

(** Reads an xterm key sequence back: [ESC O f] and [ESC \[ n ; m f]. *)
Fixpoint parse_csi (bs : bytes) (cur : Z) (params : list Z) : option (list Z * Z) :=
  match bs with
  | [] => None
  | c :: r =>
      if (48 <=? c) && (c <=? 57) then parse_csi r (cur * 10 + (c - 48)) params
      else if c =? 0x3b then parse_csi r 0 (params ++ [cur])
      else match r with [] => Some (params ++ [cur], c) | _ => None end
  end.

Definition xterm_key (num final : Z) : option jsstring :=
  if final =? 0x7e then
    fst <$> (snd <$> list_find (λ e, e.2.1 = Some num) CSI_KEYS)
  else match list_find (λ e, e.2 = (None, final)) CSI_KEYS with
  | Some (_, (k, _)) => Some k
  | None => fst <$> (snd <$> list_find (λ e, e.2 = final) SS3_KEYS)
  end.

(** The key and whether ctrl, alt and shift were held. *)
Definition xterm_decode (bs : bytes) : option (jsstring * (bool * bool * bool)) :=
  match bs with
  | 27 :: 79 :: [f] => (λ k, (k, (false, false, false))) <$> xterm_key 1 f
  | 27 :: 91 :: r =>
      match parse_csi r 0 [] with
      | Some ([n], f) => (λ k, (k, (false, false, false))) <$> xterm_key n f
      | Some ([n; m], f) =>
          (λ k, (k, (Z.testbit (m - 1) 2, Z.testbit (m - 1) 1, Z.testbit (m - 1) 0)))
            <$> xterm_key n f
      | _ => None
      end
  | _ => None
  end.

Lemma json_step_json s : json_step (step_json s) = Some s.
Proof. by destruct s. Qed.

(** The navigation and function keys. *)
Definition xterm_keys : list jsstring := CSI_KEYS.*1 ++ SS3_KEYS.*1.

Definition printable (c : Z) : Prop := 0x20 <= c <= 0x7e.

Section quick_key_facts.
Context {L : Locale}.

(** Every string of a step is made of code units, also after case mapping. *)
Definition step_wf (s : QuickKeyStep) : Prop :=
  match s with
  | QuickKeyLiteralStep text _ => Forall is_code_unit text
  | QuickKeyComboStep _ _ _ key => Forall is_code_unit (toLowerCase key)
  end.

Lemma prefixEsc_ok bs : prefixEsc bs = Ok (ESC :: bs).
Proof.
  unfold prefixEsc, u8_new, u8_store. rewrite Nat.add_comm. simpl.
  rewrite u8_set_ok by (simpl; rewrite length_replicate; lia). simpl.
  rewrite drop_replicate, Nat.sub_diag, app_nil_r. done.
Qed.

Lemma encodeStep_literal text enter :
  encodeStep (QuickKeyLiteralStep text enter) =
  Ok (text_encode text ++ (if enter then [0x0d] else [])).
Proof.
  simpl. destruct enter; [|by rewrite app_nil_r].
  unfold u8_new. rewrite u8_set_ok by (rewrite length_replicate; lia). simpl.
  rewrite drop_replicate. replace (_ + 1 - _)%nat with 1%nat by lia. simpl.
  unfold u8_store. rewrite insert_app_r_alt by lia. by rewrite Nat.sub_diag.
Qed.

Lemma lower_letter_ascii key :
  is_lower_alnum key = true → ∃ c, key = [c] ∧ 48 <= c <= 122.
Proof. destruct key as [|c [|]]; simpl; try done. intros. zbool. exists c. split; [done|lia]. Qed.

Lemma ascii_upper_single c : 48 <= c <= 122 → Forall is_code_unit (ascii_upper [c]).
Proof.
  intros Hc. unfold ascii_upper. rewrite fmap_cons. repeat constructor;
  case_if; zbool; lia.
Qed.

Ltac combo_branch :=
  first [ case_bool_decide | case_match | case_if ].

Lemma encodeCombo_total `{!LocaleLaws L} ctrl alt shift key :
  Forall is_code_unit key →
  ∃ bs, encodeCombo ctrl alt shift key = Ok bs ∧ Forall is_byte bs.
Proof.
  intros Hk.
  assert (Hesc : is_byte ESC) by (unfold is_byte, ESC; lia).
  unfold encodeCombo. rewrite !prefixEsc_ok.
  repeat combo_branch; (eexists; split; [reflexivity|]);
    try apply u8_from_bytes; try (constructor; [done|]);
    try apply u8_from_bytes; try by apply text_encode_bytes.
  all: match goal with H : is_lower_alnum _ = true |- _ =>
      destruct (lower_letter_ascii _ H) as (c & -> & Hc) end;
    rewrite toUpperCase_ascii by (repeat constructor; lia);
    by apply text_encode_bytes, ascii_upper_single.
Qed.

Lemma encodeStep_total `{!LocaleLaws L} s :
  step_wf s → ∃ bs, encodeStep s = Ok bs ∧ Forall is_byte bs.
Proof.
  destruct s as [ctrl alt shift key|text enter]; intros Hwf; [by apply encodeCombo_total|].
  rewrite encodeStep_literal. eexists. split; [done|].
  apply Forall_app. split; [by apply text_encode_bytes|].
  destruct enter; repeat constructor; lia.
Qed.

Lemma set_parts_concat parts pre :
  set_parts (pre ++ replicate (length (concat parts)) 0) parts (length pre)
  = Ok (pre ++ concat parts).
Proof.
  revert pre. induction parts as [|p parts IH]; intros pre; simpl; [done|].
  rewrite u8_set_append by (rewrite length_app; lia). simpl.
  rewrite length_app, Nat.add_comm, Nat.add_sub, <- length_app.
  by rewrite IH, <- app_assoc.
Qed.

Lemma foldl_length_concat (parts : list bytes) n :
  foldl (λ sum p, (sum + length p)%nat) n parts = (n + length (concat parts))%nat.
Proof.
  revert n. induction parts as [|p parts IH]; intros n; simpl; [lia|].
  rewrite IH, length_app. lia.
Qed.

Lemma encodeSpec_parts spec parts :
  array_map encodeStep spec = Ok parts → encodeSpec spec = Ok (concat parts).
Proof.
  intros H. unfold encodeSpec. rewrite H. simpl.
  rewrite foldl_length_concat. apply (set_parts_concat parts []).
Qed.

(** A macro is sent whole and in order: on well-formed steps [encodeSpec] never throws
    and its bytes are the encodings of the steps, one after the other. *)
Theorem encodeSpec_concat `{!LocaleLaws L} spec :
  Forall step_wf spec →
  ∃ parts, Forall2 (λ s p, encodeStep s = Ok p) spec parts ∧
    encodeSpec spec = Ok (concat parts) ∧ Forall is_byte (concat parts).
Proof.
  intros Hwf.
  assert (∃ parts, array_map encodeStep spec = Ok parts ∧
    Forall2 (λ s p, encodeStep s = Ok p) spec parts ∧ Forall is_byte (concat parts))
    as (parts & Hm & H2 & Hb).
  { induction Hwf as [|s spec Hs _ (parts & Hm & H2 & Hb)]; [by exists []|].
    destruct (encodeStep_total s Hs) as (bs & E & Hbs).
    exists (bs :: parts). simpl. rewrite E, Hm. split_and!; [done|by constructor|].
    simpl. by apply Forall_app. }
  exists parts. split_and!; [done| by apply encodeSpec_parts |done].
Qed.

(** Macros compose. *)
Lemma encodeSpec_app `{!LocaleLaws L} s1 s2 :
  Forall step_wf s1 → Forall step_wf s2 →
  ∃ b1 b2, encodeSpec s1 = Ok b1 ∧ encodeSpec s2 = Ok b2 ∧ encodeSpec (s1 ++ s2) = Ok (b1 ++ b2).
Proof.
  intros H1 H2.
  destruct (encodeSpec_concat s1 H1) as (p1 & F1 & E1 & _).
  destruct (encodeSpec_concat s2 H2) as (p2 & F2 & E2 & _).
  exists (concat p1), (concat p2). split_and!; [done..|].
  rewrite <- concat_app. apply encodeSpec_parts.
  clear E1 E2. induction F1 as [|s p s1 p1 E _ IH]; simpl.
  - induction F2 as [|s p s2 p2 E _ IH]; simpl; [done|]. inv_Forall. by rewrite E, IH.
  - inv_Forall. by rewrite E, IH.
Qed.

Lemma encodeCombo_xterm key ctrl alt shift :
  key ∈ xterm_keys →
  ∃ bs, encodeCombo ctrl alt shift key = Ok bs ∧
    xterm_decode bs = Some (key, (ctrl, alt, shift)).
Proof.
  intros Hk. unfold xterm_keys in Hk. simpl in Hk. rewrite !elem_of_cons in Hk.
  destruct_or?; subst; [..|by apply not_elem_of_nil in Hk];
    destruct ctrl, alt, shift; (eexists; split; [vm_compute; reflexivity|]); vm_compute; done.
Qed.


(** Control combinations: ctrl with a letter sends the control code 1 to 26 of the
    letter, after an ESC byte when alt is held; shift makes no difference. *)
Theorem encodeStep_ctrl_letter `{!LocaleLaws L} key ch alt shift :
  toLowerCase key = [ch] → 97 <= ch <= 122 →
  encodeStep (QuickKeyComboStep true alt shift key) =
  Ok ((if alt then [ESC] else []) ++ [ch - 96]).
Proof.
  intros Hk Hc. simpl. rewrite Hk. unfold encodeCombo.
  assert (Hne : ∀ c s, s ≠ [] → [ch] ≠ c :: s) by (intros c s Hs [= _ E]; done).
  rewrite !bool_decide_false by (apply Hne; done).
  assert (assoc_get [ch] CSI_KEYS = None) as ->.
  { apply assoc_get_None. simpl. rewrite !not_elem_of_cons.
    split_and!; try (apply Hne; done). apply not_elem_of_nil. }
  assert (assoc_get [ch] SS3_KEYS = None) as ->.
  { apply assoc_get_None. simpl. rewrite !not_elem_of_cons.
    split_and!; try (apply Hne; done). apply not_elem_of_nil. }
  assert (is_lower_letter [ch] = true) as -> by (simpl; zbool; lia).
  rewrite toUpperCase_ascii by (repeat constructor; lia).
  change (ascii_upper [ch]) with [if (97 <=? ch) && (ch <=? 122) then ch - 32 else ch].
  replace ((97 <=? ch) && (ch <=? 122)) with true by (symmetry; zbool; lia).
  cbn [lookup list_lookup default andb from_option Datatypes.id].
  rewrite prefixEsc_ok. replace (ch - 32 - 64) with (ch - 96) by lia.
  rewrite u8_from_id by (apply Forall_singleton; unfold is_byte; lia).
  by destruct alt.
Qed.

Lemma preview_byte_printable b : is_byte b → Forall printable (preview_byte b).
Proof.
  intros Hb. unfold is_byte in Hb.
  assert (H : forallb (λ b, forallb (λ c, (0x20 <=? c) && (c <=? 0x7e)) (preview_byte b))
    (seqZ 0 256) = true) by (vm_compute; reflexivity).
  rewrite forallb_forall in H. specialize (H b).
  rewrite <- list_elem_of_In, elem_of_seqZ, forallb_forall in H.
  specialize (H ltac:(lia)). apply Forall_forall. intros c Hc.
  specialize (H c). rewrite <- list_elem_of_In in H. specialize (H Hc). zbool. done.
Qed.

(** The builder's preview never fails and shows printable ASCII only, whatever bytes
    the macro sends. *)
Theorem previewSpec_printable `{!LocaleLaws L} spec :
  Forall step_wf spec → ∃ s, previewSpec spec = Ok s ∧ Forall printable s.
Proof.
  intros Hwf. destruct (encodeSpec_concat spec Hwf) as (parts & _ & E & Hb).
  unfold previewSpec. rewrite E. simpl. eexists. split; [done|].
  apply Forall_concat, Forall_fmap. eapply Forall_impl; [done|]. apply preview_byte_printable.
Qed.

Context {J : Json}.

(** A stored quick key gives back the steps it was saved from; malformed text gives no
    step at all. *)
Theorem parseSpec_roundtrip `{!JsonLaws J} spec :
  parseSpec (JSON_stringify (JArr (step_json <$> spec))) = JArr (step_json <$> spec) ∧
  omap json_step (step_json <$> spec) = spec ∧
  (∀ s, JSON_parse s = None → parseSpec s = JArr []).
Proof.
  unfold parseSpec. rewrite JSON_parse_stringify. split_and!; [done| |by intros s ->].
  induction spec as [|s spec IH]; [done|].
  rewrite fmap_cons. cbn [omap list_omap]. by rewrite json_step_json, IH.
Qed.

End quick_key_facts.

(** Every built-in preset encodes to at least one byte. *)
Example presets_nonempty :
  forallb (λ p, match encodeSpec (preset_spec p) with Ok (_ :: _) => true | _ => false end)
    PRESET_QUICK_KEYS = true.
Proof. vm_compute. reflexivity. Qed.

(** ** Witnesses *)

Example encode_ctrl_right :
  encodeStep (QuickKeyComboStep true false false (js "Right")) = Ok [27; 91; 49; 59; 53; 67].
Proof. reflexivity. Qed.

Definition demo_macro : list QuickKeyStep :=
  [QuickKeyComboStep true false false (js "b"); QuickKeyLiteralStep (js "d") true].

Lemma demo_macro_wf : Forall step_wf demo_macro.
Proof. repeat constructor; simpl; unfold is_code_unit; lia. Qed.

Lemma encodeSpec_witness :
  ∃ parts, Forall2 (λ s p, encodeStep s = Ok p) demo_macro parts ∧
    encodeSpec demo_macro = Ok (concat parts) ∧ Forall is_byte (concat parts).
Proof. apply encodeSpec_concat, demo_macro_wf. Defined.


Lemma encodeStep_ctrl_letter_witness :
  encodeStep (QuickKeyComboStep true true false (js "C")) = Ok [ESC; 3].
Proof. apply (encodeStep_ctrl_letter (js "C") 99 true false); [done | lia]. Defined.

Lemma previewSpec_witness :
  ∃ s, previewSpec demo_macro = Ok s ∧ Forall printable s.
Proof. apply previewSpec_printable, demo_macro_wf. Defined.

Lemma parseSpec_witness :
  parseSpec (JSON_stringify (JArr (step_json <$> demo_macro))) = JArr (step_json <$> demo_macro) ∧
  omap json_step (step_json <$> demo_macro) = demo_macro ∧
  (∀ s, JSON_parse s = None → parseSpec s = JArr []).
Proof. exact (parseSpec_roundtrip demo_macro). Defined.
