(* ===== verification/Encoding.v ===== *)
(** * Base64 and SSH key text ([lib/crypto/encoding.ts], [lib/crypto/ssh.ts])

    The functions over byte strings, with their round trips and the wire format of a public
    key; SHA-256 is a parameter. *)

From S2P Require Import Prelude Js.
#[local] Open Scope Z_scope.
#[local] Open Scope js_scope.

(** [String.fromCharCode(...data)] maps each byte to the code unit of the same value. *)
Definition encodeBase64 (data : bytes) : result jsstring := btoa data.

Definition decodeBase64 (encoded : jsstring) : result bytes :=
  let! binary := atob encoded in
  Ok (u8_from binary).

Definition encodeBase64URL (data : bytes) : result jsstring :=
  let! base64 := btoa data in
  Ok (strip_end 61 (replace_all 47 95 (replace_all 43 45 base64))).

(** [while (base64.length % 4) base64 += '=']: three rounds are enough for
    every text, as the facts below show. *)
Fixpoint pad_loop (fuel : nat) (base64 : jsstring) : jsstring :=
  match fuel with
  | O => base64
  | S fuel =>
      if (length base64 mod 4 =? 0)%nat then base64 else pad_loop fuel (base64 ++ [61])
  end.

Definition decodeBase64URL (encoded : jsstring) : result bytes :=
  let base64 := pad_loop 3 (replace_all 95 47 (replace_all 45 43 encoded)) in
  let! binary := atob base64 in
  Ok (u8_from binary).

(** The loop [for (i = 0; i < binary.length; i++) bytes[i] = binary.charCodeAt(i)]. *)
Fixpoint store_chars (bs : bytes) (i : nat) (binary : jsstring) : bytes :=
  match binary with
  | [] => bs
  | c :: binary' => store_chars (u8_store bs i c) (S i) binary'
  end.

Definition base64ToArrayBuffer (base64 : jsstring) : result bytes :=
  let! binary := atob base64 in
  Ok (store_chars (u8_new (length binary)) 0 binary).

(** ** OpenSSH key text *)

Definition formatOpenSSHWire (publicKeyBytes : bytes) : result bytes :=
  let keyType := text_encode (js "ssh-ed25519") in
  let keyTypeLen := uint32_be (Z.of_nat (length keyType)) in
  let keyLen := uint32_be (Z.of_nat (length publicKeyBytes)) in
  let wireFormat :=
    u8_new (length keyTypeLen + length keyType + length keyLen + length publicKeyBytes) in
  let offset := 0%nat in
  let! wireFormat := u8_set wireFormat keyTypeLen offset in
  let offset := (offset + length keyTypeLen)%nat in
  let! wireFormat := u8_set wireFormat keyType offset in
  let offset := (offset + length keyType)%nat in
  let! wireFormat := u8_set wireFormat keyLen offset in
  let offset := (offset + length keyLen)%nat in
  u8_set wireFormat publicKeyBytes offset.

Definition formatOpenSSHKey (publicKeyBytes : bytes) (comment : jsstring) : result jsstring :=
  let! wireFormat := formatOpenSSHWire publicKeyBytes in
  let! base64 := btoa wireFormat in
  Ok (js "ssh-ed25519 " ++ base64 ++ js " " ++ comment).

Section fingerprint.
(** [crypto.subtle.digest('SHA-256', _)]. *)
Context (sha256 : bytes → bytes).

Definition computeFingerprint (publicKeyBytes : bytes) : result jsstring :=
  let! wireFormat := formatOpenSSHWire publicKeyBytes in
  let hashArray := sha256 wireFormat in
  let! base64 := btoa hashArray in
  Ok (js "SHA256:" ++ strip_end 61 base64).
End fingerprint.

(** ** Reference definitions *)

(** A reader of the SSH wire format: the length-prefixed fields of a byte string. *)
Definition read_uint32 (bs : bytes) : option (Z * bytes) :=
  match bs with
  | a :: b :: c :: d :: r => Some (((a * 256 + b) * 256 + c) * 256 + d, r)
  | _ => None
  end.

Definition read_field (bs : bytes) : option (bytes * bytes) :=
  match read_uint32 bs with
  | Some (n, r) =>
      if decide (n <= Z.of_nat (length r))
      then Some (take (Z.to_nat n) r, drop (Z.to_nat n) r) else None
  | None => None
  end.

Definition url_safe (c : Z) : Prop :=
  65 <= c <= 90 ∨ 97 <= c <= 122 ∨ 48 <= c <= 57 ∨ c = 45 ∨ c = 95.

(** ** Base64 facts *)

Lemma strip_start_app c k s :
  (∀ x s', s = x :: s' → x ≠ c) → strip_start c (replicate k c ++ s) = s.
Proof.
  intros Hs. induction k as [|k IH]; simpl.
  - destruct s as [|x s']; [done|]. simpl.
    by rewrite (proj2 (Z.eqb_neq x c)) by (by eapply Hs).
  - by rewrite Z.eqb_refl.
Qed.

Lemma strip_end_app c k s : Forall (λ x, x ≠ c) s → strip_end c (s ++ replicate k c) = s.
Proof.
  intros Hs. unfold strip_end. rewrite reverse_app, reverse_replicate, strip_start_app.
  - apply reverse_involutive.
  - intros x s' E. apply Forall_reverse in Hs. rewrite E in Hs. by inv_Forall.
Qed.

Lemma replace_all_app c d s t : replace_all c d (s ++ t) = replace_all c d s ++ replace_all c d t.
Proof. apply fmap_app. Qed.

Lemma replace_all_replicate c d x k :
  x ≠ c → replace_all c d (replicate k x) = replicate k x.
Proof.
  intros Hx. unfold replace_all. rewrite fmap_replicate.
  by rewrite (proj2 (Z.eqb_neq x c)).
Qed.

Lemma replace_all_length c d s : length (replace_all c d s) = length s.
Proof. apply length_fmap. Qed.

(** The two substitutions of the URL alphabet, as one map. *)
Definition to_url (s : jsstring) : jsstring := replace_all 47 95 (replace_all 43 45 s).
Definition from_url (s : jsstring) : jsstring := replace_all 95 47 (replace_all 45 43 s).

Lemma alphabet_cases c :
  b64_alphabet c → 65 <= c <= 90 ∨ 97 <= c <= 122 ∨ 48 <= c <= 57 ∨ c = 43 ∨ c = 47.
Proof.
  intros [v Hv]. unfold b64_value in Hv. repeat case_if; zbool; try lia. done.
Qed.

Lemma from_to_url s : Forall b64_alphabet s → from_url (to_url s) = s.
Proof.
  unfold from_url, to_url, replace_all. induction 1 as [|c s Hc _ IH]; [done|].
  rewrite !fmap_cons, IH. f_equal. apply alphabet_cases in Hc.
  repeat case_if; zbool; lia.
Qed.

Lemma to_url_safe s : Forall b64_alphabet s → Forall url_safe (to_url s).
Proof.
  unfold to_url, replace_all. induction 1 as [|c s Hc _ IH]; [constructor|].
  rewrite !fmap_cons. constructor; [|done]. apply alphabet_cases in Hc.
  unfold url_safe. repeat case_if; zbool; lia.
Qed.

Lemma encodeBase64_ok bs :
  Forall is_byte bs → encodeBase64 bs = Ok (b64_body bs ++ b64_padding (length bs)).
Proof. apply btoa_bytes. Qed.

Lemma encodeBase64URL_ok bs :
  Forall is_byte bs → encodeBase64URL bs = Ok (to_url (b64_body bs)).
Proof.
  intros Hb. unfold encodeBase64URL. rewrite btoa_bytes by done. simpl.
  rewrite padding_replicate. rewrite !replace_all_app, !replace_all_replicate by done.
  rewrite strip_end_app; [done|].
  eapply Forall_impl; [by apply to_url_safe, b64_body_alphabet|].
  intros c Hc ->. unfold url_safe in Hc. lia.
Qed.

Lemma pad_loop_body bs :
  pad_loop 3 (b64_body bs) = b64_body bs ++ b64_padding (length bs).
Proof.
  pose proof (b64_body_mod bs) as Hm. unfold b64_padding.
  pose proof (Nat.mod_upper_bound (length bs) 3).
  destruct (length bs mod 3)%nat as [|[|[|]]]; [| | |lia]; cbn [pad_loop].
  - by rewrite Hm, app_nil_r.
  - pose proof (mod_add_1 _ 4 2 Hm ltac:(lia)) as Hm1.
    pose proof (mod_add_1_wrap _ 4 3 Hm1 eq_refl) as Hm2.
    rewrite Hm. cbn [Nat.eqb]. rewrite !length_app. cbn [length].
    rewrite Hm1. cbn [Nat.eqb Nat.add]. rewrite Hm2. cbn. by rewrite <- app_assoc.
  - rewrite Hm. cbn [Nat.eqb]. rewrite length_app. cbn [length].
    by rewrite (mod_add_1_wrap _ 4 3 Hm).
Qed.

(** One round of the loop below a multiple of four advances the remainder. *)
Lemma pad_loop_step fuel s :
  (length s mod 4)%nat ≠ 0%nat → pad_loop (S fuel) s = pad_loop fuel (s ++ [61]).
Proof. intros Hs. cbn [pad_loop]. by rewrite (proj2 (Nat.eqb_neq _ _) Hs). Qed.

Lemma pad_loop_stop fuel s : (length s mod 4 = 0)%nat → pad_loop fuel s = s.
Proof. intros Hs. destruct fuel; cbn [pad_loop]; [done|]. by rewrite Hs. Qed.

(** How many rounds a text needs. *)
Definition missing_pad (s : jsstring) : nat := ((4 - length s mod 4) mod 4)%nat.

Lemma pad_loop_rounds n fuel s :
  missing_pad s = n → (n <= fuel)%nat → pad_loop fuel s = s ++ replicate n 61.
Proof.
  unfold missing_pad. revert fuel s. induction n as [|n IH]; intros fuel s Hn Hf.
  - rewrite app_nil_r. apply pad_loop_stop. solve_mod.
  - destruct fuel as [|fuel]; [lia|].
    rewrite pad_loop_step by solve_mod. rewrite IH; [|clear IH|lia].
    + by rewrite <- app_assoc.
    + rewrite length_app. cbn [length]. solve_mod.
Qed.

(** The padding loop of [decodeBase64URL] ends for every text: it appends the fewest signs
    that make the length a multiple of four, which are at most three, so that more rounds than
    the three the model allows would change nothing. *)
Theorem pad_loop_terminates s :
  ∃ k, (k <= 3)%nat ∧ ((length s + k) mod 4 = 0)%nat ∧
    (∀ j, (j < k)%nat → ((length s + j) mod 4 ≠ 0)%nat) ∧
    ∀ fuel, (3 <= fuel)%nat → pad_loop fuel s = s ++ replicate k 61.
Proof.
  exists (missing_pad s). assert (H3 : (missing_pad s <= 3)%nat).
  { unfold missing_pad. solve_mod. }
  split_and!; [done| | |intros fuel Hf; apply pad_loop_rounds; [done|lia]].
  - unfold missing_pad. solve_mod.
  - unfold missing_pad. intros j Hj. solve_mod.
Qed.

Lemma decode_base64_body bs :
  Forall is_byte bs → decodeBase64 (b64_body bs ++ b64_padding (length bs)) = Ok bs.
Proof. intros Hb. unfold decodeBase64. rewrite atob_padded by done. simpl. by rewrite u8_from_id. Qed.

(** Base64 round trip: decoding what was encoded gives back the same bytes. *)
Theorem decode_encodeBase64 bs :
  Forall is_byte bs → rbind (encodeBase64 bs) decodeBase64 = Ok bs.
Proof.
  intros Hb. rewrite encodeBase64_ok by done. by apply decode_base64_body.
Qed.

Lemma encodeBase64_decodes bs :
  Forall is_byte bs → ∃ s, encodeBase64 bs = Ok s ∧ decodeBase64 s = Ok bs.
Proof.
  intros H. rewrite encodeBase64_ok by done. eexists. split; [done|]. by apply decode_base64_body.
Qed.

Lemma encodeBase64URL_decodes bs :
  Forall is_byte bs → ∃ s, encodeBase64URL bs = Ok s ∧ Forall url_safe s ∧ decodeBase64URL s = Ok bs.
Proof.
  intros Hb. exists (to_url (b64_body bs)).
  pose proof (b64_body_alphabet bs Hb) as Ha.
  split_and!; [by apply encodeBase64URL_ok | by apply to_url_safe|].
  unfold decodeBase64URL. fold (from_url (to_url (b64_body bs))).
  rewrite from_to_url, pad_loop_body, atob_padded by done. simpl. by rewrite u8_from_id.
Qed.

(** Base64url round trip: every byte string is encoded to URL-safe characters only,
    without padding, and decoding restores it. *)
Theorem decode_encodeBase64URL bs :
  Forall is_byte bs →
  ∃ s, encodeBase64URL bs = Ok s ∧ Forall url_safe s ∧ decodeBase64URL s = Ok bs.
Proof. apply encodeBase64URL_decodes. Qed.

(** Different byte strings have different base64url names. *)
Lemma encodeBase64URL_inj b1 b2 :
  Forall is_byte b1 → Forall is_byte b2 → encodeBase64URL b1 = encodeBase64URL b2 → b1 = b2.
Proof.
  intros H1 H2. rewrite !encodeBase64URL_ok by done. intros [= E].
  apply (f_equal from_url) in E.
  rewrite !from_to_url in E by (by apply b64_body_alphabet).
  pose proof (atob_body b1 H1) as A1. pose proof (atob_body b2 H2) as A2. congruence.
Qed.

Lemma store_chars_spec pre binary :
  store_chars (pre ++ replicate (length binary) 0) (length pre) binary = pre ++ u8_from binary.
Proof.
  revert pre. induction binary as [|c binary IH]; intros pre; simpl; [done|].
  unfold u8_store. rewrite insert_app_r_alt, Nat.sub_diag by lia. simpl.
  replace (S (length pre)) with (length (pre ++ [c mod 256])) by (rewrite length_app; simpl; lia).
  replace (pre ++ c mod 256 :: replicate (length binary) 0)
    with ((pre ++ [c mod 256]) ++ replicate (length binary) 0) by (by rewrite <- app_assoc).
  rewrite IH, <- app_assoc. done.
Qed.

(** The index loop is the functional decoder. *)
Lemma base64ToArrayBuffer_decode s : base64ToArrayBuffer s = decodeBase64 s.
Proof.
  unfold base64ToArrayBuffer, decodeBase64. destruct (atob s) as [binary|]; simpl; [|done].
  f_equal. apply (store_chars_spec [] binary).
Qed.

(** ** OpenSSH facts *)

Lemma formatOpenSSHWire_ok pk :
  formatOpenSSHWire pk =
  Ok (uint32_be 11 ++ text_encode (js "ssh-ed25519") ++ uint32_be (Z.of_nat (length pk)) ++ pk).
Proof.
  unfold formatOpenSSHWire.
  set (kt := text_encode (js "ssh-ed25519")).
  assert (Hkt : length kt = 11%nat) by reflexivity. clearbody kt.
  rewrite Hkt. change (Z.of_nat 11) with 11.
  set (l0 := uint32_be 11). assert (Hl0 : length l0 = 4%nat) by reflexivity. clearbody l0.
  set (kl := uint32_be _). assert (Hkl : length kl = 4%nat) by reflexivity. clearbody kl.
  rewrite Hl0, Hkl. unfold u8_new.
  pose proof (u8_set_append [] l0 (4 + 11 + 4 + length pk)) as E.
  cbn [app length] in E. rewrite E by lia. clear E. cbn [rbind].
  replace (0 + 4)%nat with (length l0) by lia.
  rewrite (u8_set_append l0 kt) by lia. cbn [rbind].
  replace (length l0 + 11)%nat with (length (l0 ++ kt)) by (rewrite length_app; lia).
  rewrite (u8_set_append _ kl) by lia. cbn [rbind].
  replace (length (l0 ++ kt) + 4)%nat with (length ((l0 ++ kt) ++ kl))
    by (rewrite !length_app; lia).
  rewrite (u8_set_append _ pk) by lia.
  replace (_ - length pk)%nat with 0%nat by lia.
  cbn [replicate]. by rewrite app_nil_r, <- !app_assoc.
Qed.

Lemma read_uint32_be n r : 0 <= n < 2 ^ 32 → read_uint32 (uint32_be n ++ r) = Some (n, r).
Proof.
  intros Hn. unfold uint32_be. cbn [app read_uint32]. f_equal. f_equal.
  rewrite !Z.shiftr_div_pow2 by lia.
  change (2 ^ 24) with 16777216. change (2 ^ 16) with 65536. change (2 ^ 8) with 256.
  change (2 ^ 32) with 4294967296 in Hn. Z.div_mod_to_equations. lia.
Qed.

Lemma read_field_be (f r : bytes) :
  Z.of_nat (length f) < 2 ^ 32 →
  read_field (uint32_be (Z.of_nat (length f)) ++ f ++ r) = Some (f, r).
Proof.
  intros Hf. unfold read_field. rewrite read_uint32_be by lia.
  rewrite decide_True by (rewrite length_app; lia).
  by rewrite Nat2Z.id, take_app_length, drop_app_length.
Qed.

(** The wire form of a public key is the SSH encoding of the pair (key type, key): a
    reader of length-prefixed fields recovers ["ssh-ed25519"] and the key, and nothing
    follows. *)
Theorem formatOpenSSHWire_fields pk :
  Z.of_nat (length pk) < 2 ^ 32 →
  ∃ w, formatOpenSSHWire pk = Ok w ∧
    ∃ r, read_field w = Some (text_encode (js "ssh-ed25519"), r) ∧
         read_field r = Some (pk, []).
Proof.
  intros Hpk. rewrite formatOpenSSHWire_ok. eexists. split; [done|].
  exists (uint32_be (Z.of_nat (length pk)) ++ pk). split.
  - apply (read_field_be (text_encode (js "ssh-ed25519"))). done.
  - rewrite <- (app_nil_r pk) at 2. by apply read_field_be.
Qed.

(** ** Witnesses *)

Example encodeBase64URL_demo : encodeBase64URL [251; 239; 255] = Ok (js "--__").
Proof. reflexivity. Qed.

Lemma decode_encodeBase64_witness : rbind (encodeBase64 [0; 255; 7; 9]) decodeBase64 = Ok [0; 255; 7; 9].
Proof. apply decode_encodeBase64. repeat constructor; unfold is_byte; lia. Defined.

Lemma decode_encodeBase64URL_witness :
  ∃ s, encodeBase64URL [251; 255] = Ok s ∧ Forall url_safe s ∧ decodeBase64URL s = Ok [251; 255].
Proof. apply decode_encodeBase64URL. repeat constructor; unfold is_byte; lia. Defined.

Lemma formatOpenSSHWire_witness :
  ∃ w, formatOpenSSHWire (replicate 32 7) = Ok w ∧
    ∃ r, read_field w = Some (text_encode (js "ssh-ed25519"), r) ∧
         read_field r = Some (replicate 32 7, []).
Proof. apply formatOpenSSHWire_fields. reflexivity. Defined.
