(* ===== verification/Memory.v ===== *)
(** * Sensitive buffers in a shared store ([lib/crypto/memory.ts])

    A [Uint8Array] is a reference: the store maps addresses to contents, so that zeroing
    through one reference is seen through every other one. *)

From S2P Require Import Prelude Js.
#[local] Open Scope Z_scope.

Abbreviation addr := nat.
Abbreviation heap := (gmap nat bytes).

(** [data.fill(0)]. *)
Definition zeroMemory (h : heap) (data : addr) : heap := alter u8_fill0 data h.

Definition zeroAll (h : heap) (arrays : list (option addr)) : heap :=
  foldl (λ h arr, match arr with Some a => zeroMemory h a | None => h end) h arrays.

(** The buffer at [a], if there is one, holds only zero bytes. *)
Definition zeroed (h : heap) (a : addr) : Prop :=
  ∀ bs, h !! a = Some bs → Forall (λ b, b = 0) bs.

(** ** Computations over the store

    A computation reads and changes the store and may throw; what it did to the store
    before it threw stays done. *)

Abbreviation HM := (SM heap).

(** A new buffer, at an address that no other buffer has. *)
Definition heap_fresh (h : heap) : addr := fresh (C := gset nat) (dom h).
Definition halloc (bs : bytes) : HM addr := λ h,
  (Ok (heap_fresh h), <[heap_fresh h := bs]> h).
Definition hload (a : addr) : HM bytes := λ h, (Ok (default [] (h !! a)), h).
Definition hstore (a : addr) (bs : bytes) : HM unit := λ h, (Ok tt, <[a := bs]> h).
Definition hzero (a : addr) : HM unit := λ h, (Ok tt, zeroMemory h a).

(** The buffers of [h] are in [h'] with the same contents, outside the addresses [X]. *)
Definition frame (X : addr → Prop) (h h' : heap) : Prop :=
  ∀ a, is_Some (h !! a) → ¬ X a → h' !! a = h !! a.

(** ** Facts *)

Lemma u8_fill0_Forall bs : Forall (λ b, b = 0) (u8_fill0 bs).
Proof. unfold u8_fill0. by apply Forall_replicate. Qed.

Lemma u8_fill0_id bs : Forall (λ b, b = 0) bs → u8_fill0 bs = bs.
Proof. unfold u8_fill0. induction 1 as [|x l -> _ IH]; simpl; [done|]. by rewrite IH. Qed.

Lemma zeroMemory_zeroed h a : zeroed (zeroMemory h a) a.
Proof.
  intros bs. unfold zeroMemory. rewrite lookup_alter_eq.
  destruct (h !! a); simpl; [|done]. intros [= <-]. apply u8_fill0_Forall.
Qed.

Lemma zeroMemory_mono h a b : zeroed h b → zeroed (zeroMemory h a) b.
Proof.
  intros Hb bs. destruct (decide (a = b)) as [->|Hab]; [apply zeroMemory_zeroed|].
  unfold zeroMemory. rewrite lookup_alter_ne by done. apply Hb.
Qed.

Lemma zeroMemory_frame h a b : a ≠ b → zeroMemory h a !! b = h !! b.
Proof. intros. unfold zeroMemory. by apply lookup_alter_ne. Qed.

Lemma zeroMemory_length h a b : length <$> (zeroMemory h a !! b) = length <$> h !! b.
Proof.
  destruct (decide (a = b)) as [->|Hab]; [|by rewrite zeroMemory_frame].
  unfold zeroMemory. rewrite lookup_alter_eq. destruct (h !! b); simpl; [|done].
  by rewrite u8_fill0_length.
Qed.

Lemma zeroAll_app h l k : zeroAll h (l ++ k) = zeroAll (zeroAll h l) k.
Proof. apply foldl_app. Qed.

Lemma zeroAll_mono h l b : zeroed h b → zeroed (zeroAll h l) b.
Proof.
  revert h. induction l as [|[a|] l IH]; intros h Hb; simpl; [done| |by apply IH].
  by apply IH, zeroMemory_mono.
Qed.

Lemma zeroAll_zeroed h l a : Some a ∈ l → zeroed (zeroAll h l) a.
Proof.
  intros [l1 [l2 ->]]%list_elem_of_split. rewrite zeroAll_app. simpl.
  apply zeroAll_mono, zeroMemory_zeroed.
Qed.

Lemma zeroAll_frame h l b : Some b ∉ l → zeroAll h l !! b = h !! b.
Proof.
  revert h. induction l as [|[a|] l IH]; intros h Hb; simpl; [done| |].
  - rewrite IH by set_solver. apply zeroMemory_frame. set_solver.
  - apply IH. set_solver.
Qed.

Lemma zeroAll_length h l b : length <$> (zeroAll h l !! b) = length <$> h !! b.
Proof.
  revert h. induction l as [|[a|] l IH]; intros h; simpl; [done| |done].
  by rewrite IH, zeroMemory_length.
Qed.

Lemma heap_fresh_notin h : h !! heap_fresh h = None.
Proof.
  apply (not_elem_of_dom (D := gset nat)). unfold heap_fresh.
  pose proof (is_fresh (C := gset nat) (A := nat) (dom h)) as E. exact E.
Qed.

(** A later allocation is not at an address of an earlier store. *)
Lemma heap_fresh_insert h a bs :
  h !! heap_fresh (<[a := bs]> h) = None ∧ heap_fresh (<[a := bs]> h) ≠ a.
Proof.
  pose proof (heap_fresh_notin (<[a := bs]> h)) as E.
  by apply lookup_insert_None in E as [? ?].
Qed.

Lemma frame_refl X h : frame X h h.
Proof. by intros a. Qed.

Lemma frame_trans X h1 h2 h3 : frame X h1 h2 → frame X h2 h3 → frame X h1 h3.
Proof. intros H12 H23 a Ha HX. by rewrite H23, H12 by (rewrite ?H12; done). Qed.

Lemma frame_mono (X Y : addr → Prop) h h' : (∀ a, X a → Y a) → frame X h h' → frame Y h h'.
Proof. intros HXY Hf a Ha HY. apply Hf; [done|]. by intros ?%HXY. Qed.

Lemma frame_alloc X h bs : frame X h (<[heap_fresh h := bs]> h).
Proof.
  intros a Ha _. apply lookup_insert_ne. intros <-.
  rewrite heap_fresh_notin in Ha. by destruct Ha.
Qed.

Lemma frame_zero (X : addr → Prop) h a : X a → frame X h (zeroMemory h a).
Proof. intros HX b Hb Hn. apply zeroMemory_frame. by intros ->. Qed.

#[export] Hint Resolve frame_refl frame_alloc frame_zero : js.

(** A computation that changes no existing buffer outside [X], however it ends. *)
Definition framed {A} (X : addr → Prop) (m : HM A) : Prop := ∀ h, frame X h (m h).2.

Section framed.
Context {A B : Type} (X : addr → Prop).

Lemma framed_ret (a : A) : framed X (sret a).
Proof. intros h. apply frame_refl. Qed.
Lemma framed_throw e : framed X (sthrow (A := A) e).
Proof. intros h. apply frame_refl. Qed.
Lemma framed_lift (r : result A) : framed X (slift r).
Proof. intros h. apply frame_refl. Qed.
Lemma framed_load a : framed X (hload a).
Proof. intros h. apply frame_refl. Qed.
Lemma framed_alloc bs : framed X (halloc bs).
Proof. intros h. apply frame_alloc. Qed.
Lemma framed_zero a : X a → framed X (hzero a).
Proof. intros HX h. by apply frame_zero. Qed.
Lemma framed_store a bs : X a → framed X (hstore a bs).
Proof. intros HX h b _ Hb. apply lookup_insert_ne. by intros ->. Qed.

Lemma framed_bind (m : HM A) (k : A → HM B) :
  framed X m → (∀ a, framed X (k a)) → framed X (sbind m k).
Proof.
  intros Hm Hk h. unfold sbind. specialize (Hm h).
  destruct (m h) as [[a|e] h1]; simpl in *; [|done].
  eapply frame_trans; [exact Hm | apply Hk].
Qed.
End framed.

#[export] Hint Resolve framed_ret framed_throw framed_lift framed_load framed_alloc
  framed_zero framed_store framed_bind : js.

(** Takes apart the run of a computation that completed normally. *)
Ltac hinv H :=
  repeat match type of H with
  | sbind _ _ _ = (Ok _, _) =>
      let E := fresh "E" in apply sbind_ok_inv in H as (? & ? & E & H);
      first [ unfold slift, hload, halloc, hstore, hzero, sret, sthrow in E;
              simplify_eq | idtac ]
  | (if ?b then _ else _) _ = (Ok _, _) => destruct b eqn:?; try discriminate H
  | (match ?m with _ => _ end) _ = (Ok _, _) => destruct m as [? [? ?]] eqn:?
  end; unfold slift, sret, sthrow in H; simplify_eq.

(** Follows the binds of a computation. *)
Ltac framed_steps :=
  repeat first
    [ apply framed_bind; [|intros ?]
    | case_match
    | solve [eauto with js] ].

(** [zeroAll] clears exactly the buffers it is given: each one is all zeros, at its old
    length, and every other buffer keeps its contents. *)
Theorem zeroAll_spec (h : heap) (arrays : list (option addr)) (a : addr) :
  (Some a ∈ arrays → zeroAll h arrays !! a = u8_fill0 <$> h !! a) ∧
  (Some a ∉ arrays → zeroAll h arrays !! a = h !! a).
Proof.
  split; [|apply zeroAll_frame]. intros Ha.
  pose proof (zeroAll_zeroed h arrays a Ha) as Hz.
  pose proof (zeroAll_length h arrays a) as Hl. unfold zeroed in Hz.
  destruct (zeroAll h arrays !! a) as [bs|], (h !! a) as [bs0|]; simpl in *; try done.
  injection Hl as Hl. f_equal. rewrite <- (u8_fill0_id bs) by eauto.
  unfold u8_fill0. by rewrite Hl.
Qed.

#[export] Hint Resolve zeroMemory_zeroed zeroMemory_mono zeroAll_zeroed zeroAll_mono : js.

Lemma zeroAll_witness :
  zeroAll {[ 1%nat := [5; 6]; 2%nat := [7] ]} [Some 1%nat; None] !! 1%nat = Some [0; 0].
Proof.
  rewrite (proj1 (zeroAll_spec {[ 1%nat := [5; 6]; 2%nat := [7] ]} [Some 1%nat; None] 1%nat)).
  - reflexivity.
  - apply list_elem_of_here.
Defined.
