(* ===== verification/Crypto.v ===== *)
(** * Symmetric encryption, key derivation and the enrollment key agreement
    ([lib/crypto/aes.ts], [lib/crypto/prf.ts], [lib/crypto/spake2.ts])

    The WebCrypto operations and the hash and HKDF functions of the noble library are the
    interface [WebCrypto]; what the code relies on is stated in [WebCryptoLaws].  Random
    values (the nonce, the key pair) are arguments. *)

From S2P Require Import Prelude Js Models Encoding.
#[local] Open Scope Z_scope.
#[local] Open Scope js_scope.

Class WebCrypto := {
  AesKey : Type;
  PrivateKey : Type;
  PublicKey : Type;
  (** [crypto.subtle.importKey('raw', _, AES-GCM)]: rejects a key of a wrong size. *)
  import_aes : bytes → result AesKey;
  gcm_encrypt : AesKey → bytes → bytes → result bytes;
  gcm_decrypt : AesKey → bytes → bytes → result bytes;
  (** [deriveBits] with HKDF over SHA-256: key material, salt, info, bits. *)
  hkdf_bits : bytes → bytes → bytes → Z → result bytes;
  (** [hkdf(sha256, ikm, salt, info, length)] of the noble library. *)
  hkdf : bytes → bytes → bytes → Z → bytes;
  sha256 : bytes → bytes;
  (** The raw form of the public half of an ECDH P-256 key pair. *)
  export_public : PrivateKey → bytes;
  import_public : bytes → result PublicKey;
  ecdh_bits : PrivateKey → PublicKey → bytes;
}.

Class WebCryptoLaws (W : WebCrypto) := {
  import_aes_256 key : length key = 32%nat → ∃ k, import_aes key = Ok k;
  gcm_roundtrip k iv p :
    length iv = 12%nat → Forall is_byte p →
    ∃ c, gcm_encrypt k iv p = Ok c ∧ Forall is_byte c ∧ gcm_decrypt k iv c = Ok p;
  hkdf_bits_length ikm salt info n :
    0 < n <= 255 * 32 →
    ∃ out, hkdf_bits ikm salt info (n * 8) = Ok out ∧
      length out = Z.to_nat n ∧ Forall is_byte out;
  hkdf_bytes ikm salt info n : Forall is_byte (hkdf ikm salt info n);
  sha256_length m : length (sha256 m) = 32%nat;
  sha256_bytes m : Forall is_byte (sha256 m);
  export_public_uncompressed a : ∃ r, export_public a = 4 :: r ∧ length r = 64%nat;
  export_public_bytes a : Forall is_byte (export_public a);
  import_export a : ∃ p, import_public (export_public a) = Ok p;
  ecdh_agree a b pa pb :
    import_public (export_public a) = Ok pa → import_public (export_public b) = Ok pb →
    ecdh_bits a pb = ecdh_bits b pa;
  ecdh_bits_length a p : length (ecdh_bits a p) = 32%nat;
  ecdh_bits_bytes a p : Forall is_byte (ecdh_bits a p);
}.

Section crypto.
Context {W : WebCrypto} {L : Locale}.

(** ** [aes.ts] *)

Record EncryptResult := { nonce : bytes; ciphertext : bytes }.

(** [rnd] is what [crypto.getRandomValues] put into the twelve bytes of the nonce. *)
Definition encrypt (rnd key plaintext : bytes) : result EncryptResult :=
  let nonce := rnd in
  let! aesKey := import_aes key in
  let! ciphertext := gcm_encrypt aesKey nonce plaintext in
  Ok {| nonce := nonce; ciphertext := ciphertext |}.

Definition decrypt (key nonce ciphertext : bytes) : result bytes :=
  let! aesKey := import_aes key in
  gcm_decrypt aesKey nonce ciphertext.

Definition ENROLLMENT_HKDF_SALT : bytes := text_encode (js "devsesh-enrollment-v1").

Definition deriveKey (sharedSecret : bytes) (info : jsstring) (len : Z) : result bytes :=
  hkdf_bits sharedSecret ENROLLMENT_HKDF_SALT (text_encode info) (len * 8).

(** ** [prf.ts] *)

Definition PRF_SALT : jsstring := js "devsesh-master-key-v1".

Definition getPrfSalt : bytes := text_encode PRF_SALT.

Definition getPrfSaltArrayBuffer : bytes := getPrfSalt.

Definition getPrfSaltBase64 : result jsstring := btoa getPrfSalt.

(** The [prf] extension: [eval] with one salt, or [evalByCredential], an object keyed by
    the base64url credential ids (a later assignment to a key replaces the former). *)
Inductive PrfExtension :=
| Prf_eval (first : bytes)
| Prf_evalByCredential (table : gmap jsstring bytes).

Fixpoint evalByCredential_loop (ids : list bytes) (salt : bytes) (table : gmap jsstring bytes)
    : result (gmap jsstring bytes) :=
  match ids with
  | [] => Ok table
  | id :: ids =>
      let! k := encodeBase64URL id in
      evalByCredential_loop ids salt (<[k := salt]> table)
  end.

Definition buildPrfGetExtension (allowCredentialIds : list bytes) (salt : bytes)
    : result PrfExtension :=
  if (0 <? length allowCredentialIds)%nat then
    let! table := evalByCredential_loop allowCredentialIds salt ∅ in
    Ok (Prf_evalByCredential table)
  else Ok (Prf_eval salt).

Definition deriveMasterKeyFromPrf (prfOutput : bytes) : result bytes :=
  hkdf_bits prfOutput getPrfSalt (text_encode (js "master-key-derivation")) 256.

(** [rnd] is what [crypto.getRandomValues] produced for the 32 bytes. *)
Definition generateMasterKey (rnd : bytes) : bytes := rnd.

Definition MASTER_KEY_VERSION_ENCRYPTED : Z := 1.

Definition formatEncryptedMasterKey (encryptedData : bytes) : result bytes :=
  let result := u8_new (1 + length encryptedData) in
  let result := u8_store result 0 MASTER_KEY_VERSION_ENCRYPTED in
  u8_set result encryptedData 1.

(** A parsed master key; [isEncrypted] is [true] whenever parsing succeeds. *)
Record ParsedMasterKey := { version : Z; mk_data : bytes; isEncrypted : bool }.

Definition parseEncryptedMasterKey (data : bytes) : result ParsedMasterKey :=
  match data with
  | [] => Throw (plain_error (js "Empty master key data"))
  | version :: content =>
      if version =? MASTER_KEY_VERSION_ENCRYPTED
      then Ok {| version := version; mk_data := content; isEncrypted := true |}
      else Throw (plain_error (js "Invalid master key format"))
  end.

(** ** Wrapping and unwrapping the master key (the pages and the terminal)

    [new Uint8Array(12 + ciphertext.length)] filled with the nonce and the ciphertext. *)
Definition combineNonce (enc : EncryptResult) : result bytes :=
  let combined := u8_new (12 + length (ciphertext enc)) in
  let! combined := u8_set combined (nonce enc) 0 in
  u8_set combined (ciphertext enc) 12.

Definition wrapMasterKey (rnd prfKey masterKey : bytes) : result jsstring :=
  let! enc := encrypt rnd prfKey masterKey in
  let! combined := combineNonce enc in
  let! formatted := formatEncryptedMasterKey combined in
  encodeBase64 formatted.

(** The body of the [for (const blob of blobs)] loop. *)
Definition openBlob (prfKey : bytes) (blob : jsstring) : result bytes :=
  let! raw := decodeBase64 blob in
  let! p := parseEncryptedMasterKey raw in
  decrypt prfKey (u8_slice (mk_data p) 0 12) (u8_slice_from (mk_data p) 12).

(** [try { ...; break } catch {}] over the blobs: [None] leaves [decryptedMasterKey] null. *)
Fixpoint unlockMasterKey (prfKey : bytes) (blobs : list jsstring) : option bytes :=
  match blobs with
  | [] => None
  | blob :: blobs =>
      match openBlob prfKey blob with
      | Ok mk => Some mk
      | Throw _ => unlockMasterKey prfKey blobs
      end
  end.

(** ** [spake2.ts] *)

Record Spake2State := {
  privateKey : PrivateKey;
  password : jsstring;
  isPartyA : bool;
  publicKeyBytes : bytes;
  blindedPublicKey : bytes;
}.

Definition derivePasswordPoint (password : jsstring) (suffix : Z) : bytes :=
  let passwordBytes := text_encode (toUpperCase password) in
  sha256 (passwordBytes ++ [suffix]).

(** [a[i] ^ b[i % b.length]]; an index outside [b] reads [undefined], and [x ^ undefined]
    is [x]. *)
Definition xorArrays (a b : bytes) : bytes :=
  imap (λ i x, match b !! (i mod length b)%nat with
               | Some y => Z.lxor x y
               | None => x
               end) a.

Definition spake2Init (keyPair : PrivateKey) (pw : jsstring) (partyA : bool)
    : Spake2State * bytes :=
  let publicKeyBytes := export_public keyPair in
  let blindingFactor := derivePasswordPoint pw (if partyA then 0 else 1) in
  let blindedPublicKey := xorArrays publicKeyBytes blindingFactor in
  ({| privateKey := keyPair; password := toUpperCase pw; isPartyA := partyA;
      publicKeyBytes := publicKeyBytes; blindedPublicKey := blindedPublicKey |},
   blindedPublicKey).

Definition spake2InitB (keyPair : PrivateKey) (pw : jsstring) : Spake2State * bytes :=
  let publicKeyBytes := export_public keyPair in
  let blindingFactor := derivePasswordPoint pw 1 in
  let blindedPublicKey := xorArrays publicKeyBytes blindingFactor in
  ({| privateKey := keyPair; password := toUpperCase pw; isPartyA := false;
      publicKeyBytes := publicKeyBytes; blindedPublicKey := blindedPublicKey |},
   blindedPublicKey).

Definition spake2_transcript (state : Spake2State) (other sharedBits : bytes) : result bytes :=
  let mine := blindedPublicKey state in
  let transcript := u8_new (length mine + length other + 32) in
  let! transcript :=
    if isPartyA state then
      let! t := u8_set transcript mine 0 in u8_set t other (length mine)
    else
      let! t := u8_set transcript other 0 in u8_set t mine (length other) in
  u8_set transcript sharedBits (length mine + length other).

Definition spake2Finish (state : Spake2State) (otherBlindedPublicKey : bytes) : result bytes :=
  let otherBlindingFactor := derivePasswordPoint (password state) (if isPartyA state then 1 else 0) in
  let otherPublicKeyBytes := xorArrays otherBlindedPublicKey otherBlindingFactor in
  let! otherPublicKey := import_public otherPublicKeyBytes in
  let sharedBits := ecdh_bits (privateKey state) otherPublicKey in
  let! transcript := spake2_transcript state otherBlindedPublicKey sharedBits in
  let passwordHash := sha256 (text_encode (password state)) in
  let info := text_encode (js "SPAKE2 shared secret") in
  Ok (hkdf transcript passwordHash info 32).

Definition encodeMessage (data : bytes) : result jsstring := encodeBase64 data.

Definition decodeMessage (encoded : jsstring) : result bytes := decodeBase64 encoded.
End crypto.

Arguments EncryptResult : clear implicits.

(** ** Facts *)

Section crypto_theory.
Context {W : WebCrypto} {HW : WebCryptoLaws W} {L : Locale} {HL : LocaleLaws L}.

Lemma combineNonce_ok n c :
  length n = 12%nat → combineNonce {| nonce := n; ciphertext := c |} = Ok (n ++ c).
Proof.
  intros Hn. unfold combineNonce. cbn [nonce ciphertext]. unfold u8_new.
  pose proof (u8_set_append [] n (12 + length c)) as E. cbn [app length] in E.
  rewrite E by lia. clear E. cbn [rbind]. rewrite <- Hn.
  rewrite u8_set_append by lia.
  replace (_ - length c)%nat with 0%nat by lia. cbn [replicate]. by rewrite app_nil_r.
Qed.

Lemma formatEncryptedMasterKey_ok d : formatEncryptedMasterKey d = Ok (1 :: d).
Proof.
  unfold formatEncryptedMasterKey, u8_new, u8_store. cbn [replicate Nat.add].
  change (<[0%nat := MASTER_KEY_VERSION_ENCRYPTED mod 256]> (0 :: replicate (length d) 0))
    with ([1] ++ replicate (length d) 0).
  change 1%nat with (length [1]). rewrite u8_set_append by done.
  by rewrite Nat.sub_diag, app_nil_r.
Qed.

(** Master key framing: formatting then parsing gives back the encrypted data, and the
    parser accepts nothing but a version 1 frame, so an unencrypted (version 0), unknown or
    empty frame is always refused. *)
Theorem parse_formatEncryptedMasterKey :
  (∀ d, rbind (formatEncryptedMasterKey d) parseEncryptedMasterKey =
        Ok {| version := 1; mk_data := d; isEncrypted := true |}) ∧
  (∀ data p, parseEncryptedMasterKey data = Ok p →
     isEncrypted p = true ∧ formatEncryptedMasterKey (mk_data p) = Ok data).
Proof.
  split; [intros d; by rewrite formatEncryptedMasterKey_ok|].
  intros [|v content] p; simpl; [done|]. unfold MASTER_KEY_VERSION_ENCRYPTED.
  case_if; [|done]. zbool. subst v. intros [= <-]. simpl.
  split; [done|apply formatEncryptedMasterKey_ok].
Qed.

Lemma encrypt_ok rnd key p :
  length key = 32%nat → length rnd = 12%nat → Forall is_byte p →
  ∃ c, encrypt rnd key p = Ok {| nonce := rnd; ciphertext := c |} ∧
    Forall is_byte c ∧ decrypt key rnd c = Ok p.
Proof.
  intros Hk Hr Hp. destruct (import_aes_256 key Hk) as [k Ek].
  destruct (gcm_roundtrip k rnd p Hr Hp) as (c & Ec & Hc & Ed).
  exists c. unfold encrypt, decrypt. rewrite Ek. simpl. by rewrite Ec.
Qed.

Lemma openBlob_wrap rnd prfKey mk :
  length prfKey = 32%nat → length rnd = 12%nat → Forall is_byte rnd → Forall is_byte mk →
  ∃ blob, wrapMasterKey rnd prfKey mk = Ok blob ∧ openBlob prfKey blob = Ok mk.
Proof.
  intros Hk Hr Hb Hm. destruct (encrypt_ok rnd prfKey mk Hk Hr Hm) as (c & Ee & Hc & Ed).
  assert (Hf : Forall is_byte (1 :: rnd ++ c)).
  { constructor; [unfold is_byte; lia|]. by apply Forall_app. }
  unfold wrapMasterKey. rewrite Ee. simpl. rewrite combineNonce_ok by done. simpl.
  rewrite formatEncryptedMasterKey_ok. simpl. rewrite encodeBase64_ok by done.
  eexists. split; [done|].
  pose proof (decode_base64_body (1 :: rnd ++ c) Hf) as Edec.
  unfold openBlob. rewrite Edec. cbn [rbind parseEncryptedMasterKey].
  change (1 =? MASTER_KEY_VERSION_ENCRYPTED) with true. cbn [rbind mk_data].
  unfold u8_slice, u8_slice_from.
  rewrite drop_0, Nat.sub_0_r, take_app_exact, drop_app_exact by done. exact Ed.
Qed.

(** The loop stops at the first blob that opens. *)
Lemma unlockMasterKey_first prfKey blobs mk :
  unlockMasterKey prfKey blobs = Some mk ↔
  ∃ pre blob post, blobs = pre ++ blob :: post ∧ openBlob prfKey blob = Ok mk ∧
    Forall (λ b, is_ok (openBlob prfKey b) = false) pre.
Proof.
  split.
  - induction blobs as [|b blobs IH]; simpl; [done|].
    destruct (openBlob prfKey b) as [mk'|e] eqn:E.
    + intros [= ->]. by exists [], b, blobs.
    + intros (pre & b' & post & -> & Eb & Hp)%IH. exists (b :: pre), b', post.
      split_and!; [done|done|]. constructor; [by rewrite E|done].
  - intros (pre & b & post & -> & Eb & Hp). induction Hp as [|x pre Hx _ IH]; simpl.
    + by rewrite Eb.
    + destruct (openBlob prfKey x); [done|]. exact IH.
Qed.

(** Unlocking finds the master key wrapped for this device: if the server's list holds
    the blob wrapped under this device's PRF key, and no blob opens to something else under
    that key, the loop returns the master key, wherever the blob stands in the list and
    whatever the other (undecodable or foreign) entries are. *)
Theorem unlockMasterKey_wrapped rnd prfKey mk blob blobs :
  length prfKey = 32%nat → length rnd = 12%nat → Forall is_byte rnd → Forall is_byte mk →
  wrapMasterKey rnd prfKey mk = Ok blob → blob ∈ blobs →
  (∀ b mk', b ∈ blobs → openBlob prfKey b = Ok mk' → mk' = mk) →
  unlockMasterKey prfKey blobs = Some mk.
Proof.
  intros Hk Hr Hb Hm Hw Hin Hauth.
  destruct (openBlob_wrap rnd prfKey mk Hk Hr Hb Hm) as (blob' & Hw' & Ho).
  assert (blob' = blob) as -> by congruence. clear Hw Hw'.
  induction blobs as [|b blobs IH]; [by apply not_elem_of_nil in Hin|]. simpl.
  destruct (openBlob prfKey b) as [mk'|e] eqn:E.
  - f_equal. apply (Hauth b); [apply list_elem_of_here|done].
  - apply elem_of_cons in Hin as [->|Hin]; [congruence|].
    apply IH; [done|]. intros b' mk' Hb'. apply Hauth. by apply list_elem_of_further.
Qed.

(** ** The PRF extension *)

Lemma evalByCredential_loop_ok ids salt table :
  Forall (Forall is_byte) ids →
  ∃ t, evalByCredential_loop ids salt table = Ok t ∧
    ∀ k, t !! k = Some salt ↔
         table !! k = Some salt ∨ ∃ i, i ∈ ids ∧ encodeBase64URL i = Ok k.
Proof.
  intros Hi. revert table. induction Hi as [|i ids Hb _ IH]; intros table; simpl.
  - exists table. split; [done|]. intros k. split; [tauto|].
    intros [?|(i & Hi & _)]; [done|]. by apply not_elem_of_nil in Hi.
  - rewrite encodeBase64URL_ok by done. simpl.
    destruct (IH (<[to_url (b64_body i) := salt]> table)) as (t & Et & Ht).
    exists t. split; [done|]. intros k. rewrite Ht.
    setoid_rewrite elem_of_cons. destruct (decide (to_url (b64_body i) = k)) as [<-|Hk].
    + rewrite lookup_insert_eq. split; [|tauto]. intros _. right. exists i.
      split; [tauto|]. by apply encodeBase64URL_ok.
    + rewrite lookup_insert_ne by done. split; [naive_solver|].
      intros [?|(j & [->|Hj] & Ej)]; [tauto| |by right; eauto].
      rewrite encodeBase64URL_ok in Ej by done. congruence.
Qed.

(** The PRF request: with allowed credentials the extension is keyed per credential, the
    salt being found under exactly the base64url names of those credentials, and never a bare
    [eval]; without any it is the bare [eval]. *)
Theorem buildPrfGetExtension_spec ids salt :
  Forall (Forall is_byte) ids →
  match ids with
  | [] => buildPrfGetExtension ids salt = Ok (Prf_eval salt)
  | _ => ∃ table, buildPrfGetExtension ids salt = Ok (Prf_evalByCredential table) ∧
           ∀ k, table !! k = Some salt ↔ ∃ i, i ∈ ids ∧ encodeBase64URL i = Ok k
  end.
Proof.
  intros Hi. destruct ids as [|i ids]; [done|].
  destruct (evalByCredential_loop_ok (i :: ids) salt ∅ Hi) as (t & Et & Ht).
  exists t. unfold buildPrfGetExtension. cbn [length Nat.ltb Nat.leb]. rewrite Et.
  split; [done|]. intros k. rewrite Ht, lookup_empty. naive_solver.
Qed.

(** ** The key agreement *)

Lemma xorArrays_length a b : length (xorArrays a b) = length a.
Proof. apply length_imap. Qed.

Lemma xorArrays_cons x a y b : ∃ r, xorArrays (x :: a) (y :: b) = Z.lxor x y :: r.
Proof. unfold xorArrays. cbn [imap]. rewrite Nat.Div0.mod_0_l. by eexists. Qed.

Lemma xorArrays_head x a y b : head (xorArrays (x :: a) (y :: b)) = Some (Z.lxor x y).
Proof. by destruct (xorArrays_cons x a y b) as [r ->]. Qed.

(** Unblinding with the same factor undoes the blinding. *)
Lemma xorArrays_involutive a b : xorArrays (xorArrays a b) b = a.
Proof.
  apply list_eq. intros i. unfold xorArrays. rewrite !list_lookup_imap.
  destruct (a !! i) as [x|]; simpl; [|done]. f_equal.
  destruct (b !! _) as [y|]; [|done]. by rewrite Z.lxor_assoc, Z.lxor_nilpotent, Z.lxor_0_r.
Qed.

Lemma toUpperCase_idemp p :
  Forall (λ c, 0 <= c < 128) p → toUpperCase (toUpperCase p) = toUpperCase p.
Proof.
  intros Hp. rewrite (toUpperCase_ascii p Hp). rewrite toUpperCase_ascii.
  - unfold ascii_upper. rewrite <- list_fmap_compose. apply list_fmap_ext.
    intros i c Hc. unfold compose.
    destruct (Z.leb_spec 97 c), (Z.leb_spec c 122); cbn [andb];
      repeat match goal with |- context [?a <=? ?b] => destruct (Z.leb_spec a b) end;
      cbn [andb]; lia.
  - unfold ascii_upper. apply Forall_fmap. eapply Forall_impl; [exact Hp|].
    intros c Hc. unfold compose. cbn beta in Hc |- *.
    destruct (Z.leb_spec 97 c), (Z.leb_spec c 122); cbn [andb]; lia.
Qed.

Lemma derivePasswordPoint_upper p q s :
  toUpperCase p = toUpperCase q → derivePasswordPoint p s = derivePasswordPoint q s.
Proof. unfold derivePasswordPoint. by intros ->. Qed.

Lemma spake2InitB_Init k pw : spake2InitB k pw = spake2Init k pw false.
Proof. done. Qed.

Lemma spake2_transcript_ok st other shared :
  length shared = 32%nat →
  spake2_transcript st other shared =
  Ok ((if isPartyA st then blindedPublicKey st ++ other else other ++ blindedPublicKey st)
      ++ shared).
Proof.
  intros Hs. unfold spake2_transcript, u8_new.
  set (m := blindedPublicKey st).
  assert (Htwo : ∀ x y : bytes, (length x + length y = length m + length other)%nat →
    rbind (u8_set (replicate (length m + length other + 32) 0) x 0)
          (λ t, u8_set t y (length x)) = Ok ((x ++ y) ++ replicate 32 0)).
  { intros x y Hxy.
    pose proof (u8_set_append [] x (length m + length other + 32)) as E. cbn [app length] in E.
    rewrite E by lia. clear E. cbn [rbind]. rewrite u8_set_append by lia.
    do 3 f_equal. lia. }
  assert (Hlast : ∀ x y : bytes, (length x + length y = length m + length other)%nat →
    u8_set ((x ++ y) ++ replicate 32 0) shared (length m + length other)
    = Ok ((x ++ y) ++ shared)).
  { intros x y Hxy. rewrite <- Hxy, <- length_app.
    rewrite u8_set_append by lia. by rewrite Hs, app_nil_r. }
  destruct (isPartyA st); rewrite Htwo by lia; cbn [rbind]; apply Hlast; lia.
Qed.

(** The view of one party that received the other's blinded key. *)
Lemma spake2Finish_ok a b p q partyA pb :
  Forall (λ c, 0 <= c < 128) p → toUpperCase q = toUpperCase p →
  import_public (export_public b) = Ok pb →
  let st := (spake2Init a p partyA).1 in
  let other := (spake2Init b q (negb partyA)).2 in
  spake2Finish st other =
  Ok (hkdf ((if partyA then blindedPublicKey st ++ other else other ++ blindedPublicKey st)
            ++ ecdh_bits a pb)
           (sha256 (text_encode (toUpperCase p))) (text_encode (js "SPAKE2 shared secret")) 32).
Proof.
  intros Hp Hq Hb st other. unfold spake2Finish, st, other, spake2Init.
  cbn [fst snd password isPartyA privateKey].
  rewrite (derivePasswordPoint_upper (toUpperCase p) p) by (by apply toUpperCase_idemp).
  rewrite (derivePasswordPoint_upper q p) by done.
  replace (if negb partyA then 0 else 1) with (if partyA then 1 else 0) by (by destruct partyA).
  rewrite xorArrays_involutive, Hb. cbn [rbind].
  rewrite spake2_transcript_ok by apply ecdh_bits_length. cbn [rbind isPartyA].
  by destruct partyA.
Qed.

(** Key agreement: two devices that type the same code (up to case) and exchange their
    blinded keys both finish without an error and with the same shared secret. *)
Theorem spake2_agreement a b p q :
  Forall (λ c, 0 <= c < 128) p → toUpperCase q = toUpperCase p →
  Forall (λ c, 0 <= c < 128) q →
  let A := spake2Init a p true in
  let B := spake2InitB b q in
  ∃ secret, spake2Finish A.1 B.2 = Ok secret ∧ spake2Finish B.1 A.2 = Ok secret.
Proof.
  intros Hp Hpq Hq A B. subst A B. rewrite spake2InitB_Init.
  destruct (import_export a) as [pa Ea], (import_export b) as [pb Eb].
  pose proof (spake2Finish_ok a b p q true pb Hp Hpq Eb) as E'. cbn [negb] in E'.
  rewrite E'. clear E'. pose proof (spake2Finish_ok b a q p false pa Hq (eq_sym Hpq) Ea) as E. cbn [negb] in E.
  rewrite E. eexists. split; [done|]. rewrite Hpq. by rewrite (ecdh_agree a b pa pb).
Qed.

(** One blinded key is a test for password guesses without the other device: unblinding
    party A's message with a guess gives the first byte of an uncompressed point only for the
    guesses whose seed starts like the real one, so an eavesdropper discards the others
    offline. *)
Theorem spake2_message_reveals a p q (partyA : bool) :
  let suffix := if partyA then 0 else 1 in
  let m := (spake2Init a p partyA).2 in
  head (xorArrays m (derivePasswordPoint q suffix)) = Some 4 ↔
  head (derivePasswordPoint q suffix) = head (derivePasswordPoint p suffix).
Proof.
  intros suffix m. unfold m, spake2Init. cbn [snd]. fold suffix.
  pose proof (sha256_length (text_encode (toUpperCase p) ++ [suffix])) as Lp.
  pose proof (sha256_length (text_encode (toUpperCase q) ++ [suffix])) as Lq.
  fold (derivePasswordPoint p suffix) in Lp. fold (derivePasswordPoint q suffix) in Lq.
  destruct (export_public_uncompressed a) as (r & -> & _).
  destruct (derivePasswordPoint p suffix) as [|x xs]; [done|].
  destruct (derivePasswordPoint q suffix) as [|y ys]; [done|].
  destruct (xorArrays_cons 4 r x xs) as [r' ->]. rewrite xorArrays_head. simpl. split.
  - intros [= E]. f_equal. apply Z.lxor_eq.
    rewrite <- (Z.lxor_nilpotent 4), <- E at 1.
    apply Z.bits_inj'. intros n _. rewrite !Z.lxor_spec.
    destruct (Z.testbit y n), (Z.testbit x n), (Z.testbit 4 n); done.
  - intros [= ->]. by rewrite Z.lxor_assoc, Z.lxor_nilpotent, Z.lxor_0_r.
Qed.
End crypto_theory.

(** ** A concrete instance

    Not secure, but it satisfies the laws: keys and tags are compared bytewise, the key
    agreement is multiplication modulo 256. *)

Definition toy_tag (key : bytes) : bytes := replicate 16 (foldr Z.add 0 key mod 256).

#[export] Instance toy_crypto : WebCrypto :=
  {| AesKey := bytes; PrivateKey := Z; PublicKey := Z;
     import_aes key :=
       if (length key =? 32)%nat then Ok key else Throw (JsError (js "DataError") []);
     gcm_encrypt key iv p := Ok (p ++ toy_tag key);
     gcm_decrypt key iv c :=
       if decide (drop (length c - 16) c = toy_tag key) then Ok (take (length c - 16) c)
       else Throw (JsError (js "OperationError") []);
     hkdf_bits ikm salt info n := Ok (replicate (Z.to_nat (n / 8)) (foldr Z.add 0 ikm mod 256));
     hkdf ikm salt info n := replicate (Z.to_nat n) (foldr Z.add 0 ikm mod 256);
     sha256 m := replicate 32 (foldr Z.add 0 m mod 256);
     export_public a := 4 :: a mod 256 :: replicate 63 0;
     import_public bs := match bs with _ :: x :: _ => Ok x | _ => Throw (JsError (js "DataError") []) end;
     ecdh_bits a p := replicate 32 ((a * p) mod 256) |}.

#[export] Instance toy_crypto_laws : WebCryptoLaws toy_crypto.
Proof.
  assert (Hb : ∀ x, is_byte (x mod 256)) by (intros x; apply Z.mod_pos_bound; lia).
  split; cbn [toy_crypto import_aes gcm_encrypt gcm_decrypt hkdf_bits hkdf sha256
    export_public import_public ecdh_bits AesKey PrivateKey PublicKey].
  - intros key Hk. exists key. by rewrite Hk.
  - intros k iv p _ Hp. eexists. split; [done|]. split.
    + apply Forall_app. split; [done|]. by apply Forall_replicate.
    + assert (Hl : (length (p ++ toy_tag k) - 16 = length p)%nat) by (rewrite length_app; simpl; lia).
      rewrite Hl, drop_app_length, take_app_length. by rewrite decide_True.
  - intros ikm salt info n Hn. eexists. split; [done|].
    rewrite Z.div_mul, length_replicate by lia. split; [done|]. by apply Forall_replicate.
  - intros. by apply Forall_replicate.
  - done.
  - intros. by apply Forall_replicate.
  - intros a. by eexists.
  - intros a. constructor; [unfold is_byte; lia|]. constructor; [done|].
    apply Forall_replicate. unfold is_byte. lia.
  - intros a. by eexists.
  - intros a b pa pb [= <-] [= <-].
    f_equal. rewrite Zmult_mod_idemp_r, Zmult_mod_idemp_r. f_equal. lia.
  - done.
  - intros. by apply Forall_replicate.
Qed.

(** ** Witnesses *)

Definition demo_prf : bytes := replicate 32 9.
Definition demo_blob : jsstring :=
  match wrapMasterKey (replicate 12 1) demo_prf (replicate 4 5) with Ok b => b | _ => [] end.

Lemma unlockMasterKey_witness :
  unlockMasterKey demo_prf [js "AAAA"; demo_blob; js "!"] = Some (replicate 4 5).
Proof.
  apply (unlockMasterKey_wrapped (replicate 12 1) demo_prf (replicate 4 5) demo_blob).
  - reflexivity.
  - reflexivity.
  - apply Forall_replicate. unfold is_byte. lia.
  - apply Forall_replicate. unfold is_byte. lia.
  - reflexivity.
  - set_solver.
  - intros b mk' Hb. rewrite !elem_of_cons in Hb.
    destruct Hb as [->|[->|[->|Hb]]]; [vm_compute; congruence..|].
    by apply not_elem_of_nil in Hb.
Defined.

Lemma buildPrfGetExtension_witness :
  ∃ table, buildPrfGetExtension [[1; 2]; [3]] getPrfSalt = Ok (Prf_evalByCredential table) ∧
    ∀ k, table !! k = Some getPrfSalt ↔ ∃ i, i ∈ [[1; 2]; [3]] ∧ encodeBase64URL i = Ok k.
Proof.
  apply (buildPrfGetExtension_spec [[1; 2]; [3]] getPrfSalt).
  repeat constructor; unfold is_byte; lia.
Defined.

Lemma spake2_message_reveals_witness :
  head (xorArrays (spake2Init (L := ascii_locale) (W := toy_crypto) 7 (js "AB") true).2
          (derivePasswordPoint (js "BA") 0)) = Some 4.
Proof. apply (spake2_message_reveals (HW := toy_crypto_laws) 7 (js "AB") (js "BA") true). reflexivity. Defined.

Lemma spake2_agreement_witness :
  ∃ secret,
    spake2Finish (spake2Init (L := ascii_locale) (W := toy_crypto) 7 (js "ABCD1234") true).1
                 (spake2InitB (W := toy_crypto) 13 (js "abcd1234")).2 = Ok secret ∧
    spake2Finish (spake2InitB (W := toy_crypto) 13 (js "abcd1234")).1
                 (spake2Init (L := ascii_locale) (W := toy_crypto) 7 (js "ABCD1234") true).2 = Ok secret.
Proof.
  apply (spake2_agreement (HW := toy_crypto_laws) (HL := ascii_locale_laws) 7 13
           (js "ABCD1234") (js "abcd1234")).
  - repeat constructor; lia.
  - reflexivity.
  - repeat constructor; lia.
Defined.
