(* ===== verification/Api.v ===== *)
(** * The HTTP client and the authentication context ([lib/api.ts], [contexts/AuthContext.tsx])

    A call is a computation over the browser (local storage and location); the server is
    the function [net], which answers a request or fails. *)

From S2P Require Import Prelude Js Models ApiTypes.
#[local] Open Scope Z_scope.
#[local] Open Scope js_scope.

Record Request := {
  rq_url : jsstring;
  rq_method : jsstring;
  rq_headers : list (jsstring * jsstring);
  rq_body : option jsstring;
}.

(** [text] is the body; [content_length] the header of that name. *)
Record Response := {
  status : Z;
  content_length : option jsstring;
  text : jsstring;
}.

Definition response_ok (r : Response) : bool := (200 <=? status r) && (status r <=? 299).

Record Browser := {
  has_window : bool;
  localStorage : storage;
  location_protocol : jsstring;
  location_host : jsstring;
  location_href : jsstring;
}.

Definition set_storage (s : storage) (b : Browser) : Browser :=
  {| has_window := has_window b; localStorage := s; location_protocol := location_protocol b;
     location_host := location_host b; location_href := location_href b |}.

Definition set_href (h : jsstring) (b : Browser) : Browser :=
  {| has_window := has_window b; localStorage := localStorage b;
     location_protocol := location_protocol b; location_host := location_host b;
     location_href := h |}.

Abbreviation BM := (SM Browser).

(** [RequestInit]: the method ([GET] when absent), extra headers, the body. *)
Record RequestInit := {
  o_method : option jsstring;
  o_headers : list (jsstring * jsstring);
  o_body : option jsstring;
}.

Definition no_options : RequestInit := {| o_method := None; o_headers := []; o_body := None |}.
Definition bare (m : jsstring) : RequestInit :=
  {| o_method := Some m; o_headers := []; o_body := None |}.

(** [o[k] = v] on an object kept as an ordered property list. *)
Fixpoint obj_set {V} (k : jsstring) (v : V) (o : list (jsstring * V)) : list (jsstring * V) :=
  match o with
  | [] => [(k, v)]
  | (k', v') :: o' => if decide (k' = k) then (k, v) :: o' else (k', v') :: obj_set k v o'
  end.

(** [{...o, ...extra}]. *)
Definition obj_spread {V} (o extra : list (jsstring * V)) : list (jsstring * V) :=
  foldl (λ o kv, obj_set kv.1 kv.2 o) o extra.

(** An optional property of a JSON body: [JSON.stringify] leaves out [undefined]. *)
Definition opt_field (k : jsstring) (v : option json) : list (jsstring * json) :=
  match v with Some j => [(k, j)] | None => [] end.

(** ** [encodeURIComponent] (a language function) *)

Definition uri_unreserved (c : Z) : bool :=
  ((65 <=? c) && (c <=? 90)) || ((97 <=? c) && (c <=? 122)) || ((48 <=? c) && (c <=? 57)) ||
  existsb (Z.eqb c) (js "-_.!~*'()").

Definition percent_byte (b : Z) : jsstring :=
  let hex d := if d <? 10 then 48 + d else 55 + d in
  [37; hex (b / 16); hex (b mod 16)].

Definition encodeURIComponent (s : jsstring) : result jsstring :=
  let cps := code_points s in
  if existsb (λ c, is_high_surrogate c || is_low_surrogate c) cps
  then Throw (JsError (js "URIError") (js "URI malformed"))
  else Ok (concat ((λ c, if uri_unreserved c then [c]
                         else concat (percent_byte <$> utf8_char c)) <$> cps)).

Section api.
Context {J : Json} (net : Request → result Response).

Definition stringify (fields : list (jsstring * json)) : option jsstring :=
  Some (JSON_stringify (JObj fields)).

(** [{ method, body: JSON.stringify(fields) }]. *)
Definition with_body (m : jsstring) (fields : list (jsstring * json)) : RequestInit :=
  {| o_method := Some m; o_headers := []; o_body := stringify fields |}.

Definition getToken : BM (option jsstring) := λ b,
  if negb (has_window b) then (Ok None, b)
  else (storage_get (localStorage b) (js "token"), b).

Definition removeItem (k : jsstring) : BM unit := λ b,
  match storage_remove (localStorage b) k with
  | Ok st => (Ok tt, set_storage st b)
  | Throw e => (Throw e, b)
  end.

Definition setItem (k v : jsstring) : BM unit := λ b,
  match storage_set (localStorage b) k v with
  | Ok st => (Ok tt, set_storage st b)
  | Throw e => (Throw e, b)
  end.

Definition getItem (k : jsstring) : BM (option jsstring) := λ b,
  (storage_get (localStorage b) k, b).

Definition navigate (url : jsstring) : BM unit := λ b, (Ok tt, set_href url b).

(** A string is truthy when it is there and not empty. *)
Definition truthy (s : option jsstring) : option jsstring :=
  match s with Some (_ :: _) => s | _ => None end.

Definition json_headers : list (jsstring * jsstring) :=
  [(js "Content-Type", js "application/json")].

Definition fetchApi_request (endpoint : jsstring) (options : RequestInit)
    (token : option jsstring) : Request :=
  let headers := obj_spread json_headers (o_headers options) in
  let headers :=
    match truthy token with
    | Some t => obj_set (js "Authorization") (js "Bearer " ++ t) headers
    | None => headers
    end in
  {| rq_url := js "/api/v1" ++ endpoint; rq_method := default (js "GET") (o_method options);
     rq_headers := headers; rq_body := o_body options |}.

Definition fetchApi_response (response : Response) : BM json :=
  if status response =? 401 then
    let* _ := removeItem (js "token") in
    let* _ := removeItem (js "user") in
    let* _ := navigate (js "/login") in
    sthrow (plain_error (js "Unauthorized"))
  else if negb (response_ok response) then
    let error := text response in
    sthrow (plain_error (match error with
                         | [] => js "HTTP error " ++ of_int (status response)
                         | _ => error
                         end))
  else
    let contentLength := content_length response in
    if (status response =? 204) || bool_decide (contentLength = Some (js "0"))
       || bool_decide (contentLength = None) then
      match text response with
      | [] => sret (JObj [])
      | t => slift (json_parse t)
      end
    else slift (json_parse (text response)).

Definition fetchApi (endpoint : jsstring) (options : RequestInit) : BM json :=
  let* token := getToken in
  let* response := slift (net (fetchApi_request endpoint options token)) in
  fetchApi_response response.

(** A direct [fetch] with the headers given. *)
Definition fetch_raw (url : jsstring) (headers : list (jsstring * jsstring))
    (body : option jsstring) : BM Response :=
  slift (net {| rq_url := url; rq_method := js "POST"; rq_headers := headers; rq_body := body |}).

(** [if (!response.ok) throw new Error(await response.text() || message)]. *)
Definition check_ok (message : jsstring) (response : Response) : BM unit :=
  if response_ok response then sret tt
  else sthrow (plain_error (match text response with [] => message | t => t end)).

(** ** Authentication *)

Definition checkUsersExist : BM json := fetchApi (js "/auth/status") no_options.

Definition clientLog (data : json) : BM unit :=
  scatch (let* _ := fetch_raw (js "/api/v1/client-log") json_headers
                      (Some (JSON_stringify data)) in sret tt)
         (λ _, sret tt).

Definition loginBegin (email : jsstring) : BM json :=
  fetchApi (js "/auth/login/begin") (with_body (js "POST") [(js "email", JStr email)]).

Definition loginFinish (email : jsstring) (credential : json) : BM json :=
  let* response := fetch_raw (js "/api/v1/auth/login/finish") json_headers
                     (stringify [(js "email", JStr email); (js "credential", credential)]) in
  let* _ := check_ok (js "Login failed") response in
  slift (json_parse (text response)).

Definition registerBegin (email : jsstring) : BM json :=
  fetchApi (js "/auth/register/begin") (with_body (js "POST") [(js "email", JStr email)]).

Definition registerFinish (email : jsstring) (credential : json)
    (encryptedMasterKey : option jsstring) : BM json :=
  let* response := fetch_raw (js "/api/v1/auth/register/finish") json_headers
    (stringify [(js "email", JStr email); (js "credential", credential);
                (js "encrypted_master_key", JStr (default [] encryptedMasterKey))]) in
  let* _ := check_ok (js "Registration failed") response in
  match text response with
  | [] => sret (JObj [])
  | t => slift (json_parse t)
  end.

Definition pairStart (email : jsstring) : BM json :=
  fetchApi (js "/auth/pair/start") (with_body (js "POST") [(js "email", JStr email)]).

Definition pairComplete (code : jsstring) : BM json :=
  fetchApi (js "/auth/pair/complete") (with_body (js "POST") [(js "code", JStr code)]).

(** ** Settings and sessions *)

Definition getSettings : BM json := fetchApi (js "/settings") no_options.

Definition updateSettings (theme : option jsstring) : BM json :=
  fetchApi (js "/settings") (with_body (js "PUT") (opt_field (js "theme") (JStr <$> theme))).

Definition listSessions : BM json := fetchApi (js "/sessions") no_options.

Definition getSession (id : jsstring) : BM json := fetchApi (js "/sessions/" ++ id) no_options.

Definition deleteStaleSessions : BM json := fetchApi (js "/sessions/stale") (bare (js "DELETE")).

Definition deleteSession (id : jsstring) : BM unit :=
  let* _ := fetchApi (js "/sessions/" ++ id) (bare (js "DELETE")) in sret tt.

Definition reorderSessions (sessionIds : list jsstring) : BM unit :=
  let* _ := fetchApi (js "/sessions/reorder")
    (with_body (js "POST") [(js "session_ids", JArr (JStr <$> sessionIds))]) in sret tt.

Definition updateSessionTags (id : jsstring) (tags : list jsstring) : BM json :=
  fetchApi (js "/sessions/" ++ id ++ js "/tags")
    (with_body (js "PUT") [(js "tags", JArr (JStr <$> tags))]).

(** ** Passkeys and enrollment *)

Definition listPasskeys : BM json := fetchApi (js "/auth/passkeys") no_options.

Definition addPasskeyBegin : BM json := fetchApi (js "/auth/passkeys/begin") (bare (js "POST")).

(** The template prints a missing token as ["null"]. *)
Definition addPasskeyFinish (credential : json) : BM unit :=
  let* token := getToken in
  let* response := fetch_raw (js "/api/v1/auth/passkeys/finish")
    [(js "Content-Type", js "application/json");
     (js "Authorization", js "Bearer " ++ default (js "null") token)]
    (stringify [(js "credential", credential)]) in
  check_ok (js "Failed to add passkey") response.

Definition deletePasskey (id : jsstring) : BM json :=
  fetchApi (js "/auth/passkeys/" ++ id) (bare (js "DELETE")).

Definition createPasskeyEnrollment : BM json :=
  fetchApi (js "/auth/passkeys/enrollment") (bare (js "POST")).

Definition enrollmentBegin (code : jsstring) : BM json :=
  fetchApi (js "/auth/passkeys/enrollment/" ++ code ++ js "/begin") (bare (js "POST")).

Definition enrollmentComplete (code : jsstring) (credential : json)
    (encryptedMasterKey : jsstring) : BM json :=
  fetchApi (js "/auth/passkeys/enrollment/" ++ code ++ js "/complete")
    (with_body (js "POST") [(js "credential", credential);
                            (js "encrypted_master_key", JStr encryptedMasterKey)]).

(** The strings of the [blobs] array; anything else does not count as a non-empty array. *)
Definition json_strings (j : option json) : list jsstring :=
  match j with
  | Some (JArr l) => omap (λ x, match x with JStr s => Some s | _ => None end) l
  | _ => []
  end.

Definition json_string (j : option json) : option jsstring :=
  match j with Some (JStr s) => Some s | _ => None end.

Record MasterKeyBlobs := { blobs : list jsstring; encrypted_master_key : option jsstring }.

Definition getMasterKey (credentialId : option jsstring) : BM MasterKeyBlobs :=
  let* query := match truthy credentialId with
                | Some c => slift (rbind (encodeURIComponent c)
                                     (λ e, Ok (js "?credential_id=" ++ e)))
                | None => sret []
                end in
  let* resp := fetchApi (js "/auth/master-key" ++ query) no_options in
  let single := json_string (json_get (js "encrypted_master_key") resp) in
  let list := json_strings (json_get (js "blobs") resp) in
  sret {| blobs := match list with
                   | _ :: _ => list
                   | [] => match truthy single with Some s => [s] | None => [] end
                   end;
          encrypted_master_key := single |}.

Definition addMasterKeyBlob (credentialId wrappedMasterKey : jsstring) : BM unit :=
  let* _ := fetchApi (js "/auth/master-key")
    (with_body (js "POST") [(js "credential_id", JStr credentialId);
                            (js "wrapped_master_key", JStr wrappedMasterKey)]) in sret tt.

(** ** WebSocket addresses *)

Definition ws_protocol (b : Browser) : jsstring :=
  if decide (location_protocol b = js "https:") then js "wss:" else js "ws:".

Definition getEnrollmentWebSocketURL (code : jsstring) (token : option jsstring)
    (b : Browser) : result jsstring :=
  let base := ws_protocol b ++ js "//" ++ location_host b ++
              js "/api/v1/auth/passkeys/enrollment/" ++ code in
  match truthy token with
  | Some t => let! e := encodeURIComponent t in Ok (base ++ js "?token=" ++ e)
  | None => Ok base
  end.

Definition getWsEndpoint (b : Browser) : jsstring :=
  ws_protocol b ++ js "//" ++ location_host b ++ js "/api/v1/sessions/updates".

Definition getSSHWebSocketURL (hostId : Z) (b : Browser) : jsstring :=
  ws_protocol b ++ js "//" ++ location_host b ++ js "/api/v1/hosts/" ++ of_int hostId ++ js "/ssh".

Definition getSSHCASigningWebSocketURL (b : Browser) : jsstring :=
  ws_protocol b ++ js "//" ++ location_host b ++ js "/api/v1/sshca/sign".

(** ** Hosts *)

(** The host of a create or an update; an update may leave any field out. *)
Record HostInput := {
  hi_label : option jsstring;
  hi_hostname : option jsstring;
  hi_ssh_user : option jsstring;
  hi_ssh_port : option Z;
  hi_ssh_principal : option jsstring;
}.

Definition host_fields (h : HostInput) : list (jsstring * json) :=
  opt_field (js "label") (JStr <$> hi_label h) ++
  opt_field (js "hostname") (JStr <$> hi_hostname h) ++
  opt_field (js "ssh_user") (JStr <$> hi_ssh_user h) ++
  opt_field (js "ssh_port") (JInt <$> hi_ssh_port h) ++
  opt_field (js "ssh_principal") (JStr <$> hi_ssh_principal h).

Definition listHosts : BM json := fetchApi (js "/hosts") no_options.

Definition createHost (h : HostInput) : BM json :=
  fetchApi (js "/hosts") (with_body (js "POST") (host_fields h)).

Definition getHost (id : Z) : BM json := fetchApi (js "/hosts/" ++ of_int id) no_options.

Definition updateHost (id : Z) (h : HostInput) : BM json :=
  fetchApi (js "/hosts/" ++ of_int id) (with_body (js "PUT") (host_fields h)).

Definition deleteHost (id : Z) : BM json :=
  fetchApi (js "/hosts/" ++ of_int id) (bare (js "DELETE")).

Definition pairExchange (code : jsstring) (hostId : option Z)
    (newHost : option (jsstring * jsstring)) : BM json :=
  fetchApi (js "/auth/pair/exchange")
    (with_body (js "POST")
       ([(js "code", JStr code)] ++ opt_field (js "host_id") (JInt <$> hostId) ++
        opt_field (js "new_host")
          ((λ h, JObj [(js "label", JStr h.1); (js "hostname", JStr h.2)]) <$> newHost))).

(** ** The SSH certificate authority *)

Definition getSSHCAConfig : BM json := fetchApi (js "/sshca/config") no_options.

Definition getSSHCAPublicKey : BM json := fetchApi (js "/sshca/public-key") no_options.

Definition updateSSHCAClientShare (encryptedShare : jsstring) : BM unit :=
  let* _ := fetchApi (js "/sshca/client-share")
    (with_body (js "PUT") [(js "encrypted_share", JStr encryptedShare)]) in sret tt.

(** ** Quick keys *)

Record QuickKeyPatch := {
  qp_name : option jsstring;
  qp_display_token : option jsstring;
  qp_spec : option jsstring;
  qp_pinned : option bool;
  qp_sort_order : option Z;
}.

Definition quick_key_fields (q : QuickKeyPatch) : list (jsstring * json) :=
  opt_field (js "name") (JStr <$> qp_name q) ++
  opt_field (js "display_token") (JStr <$> qp_display_token q) ++
  opt_field (js "spec") (JStr <$> qp_spec q) ++
  opt_field (js "pinned") (JBool <$> qp_pinned q) ++
  opt_field (js "sort_order") (JInt <$> qp_sort_order q).

Definition listQuickKeys : BM json := fetchApi (js "/quick-keys") no_options.

Definition createQuickKey (q : QuickKeyPatch) : BM json :=
  fetchApi (js "/quick-keys") (with_body (js "POST") (quick_key_fields q)).

Definition updateQuickKey (id : Z) (q : QuickKeyPatch) : BM json :=
  fetchApi (js "/quick-keys/" ++ of_int id) (with_body (js "PUT") (quick_key_fields q)).

Definition deleteQuickKey (id : Z) : BM json :=
  fetchApi (js "/quick-keys/" ++ of_int id) (bare (js "DELETE")).

(** ** The authentication context *)

(** The React state of the provider. *)
Record AuthState := { auth_user : option json; auth_token : option jsstring }.

Definition isAuthenticated (s : AuthState) : bool := bool_decide (is_Some (truthy (auth_token s))).

(** The mount effect; a stored user that does not parse throws. *)
Definition auth_mount (s : AuthState) : BM AuthState :=
  let* storedToken := getItem (js "token") in
  let* storedUser := getItem (js "user") in
  match truthy storedToken, truthy storedUser with
  | Some t, Some u =>
      let* user := slift (json_parse u) in
      sret {| auth_user := Some user; auth_token := Some t |}
  | _, _ => sret s
  end.

Definition auth_login (newToken : jsstring) (newUser : json) : BM AuthState :=
  let* _ := setItem (js "token") newToken in
  let* _ := setItem (js "user") (JSON_stringify newUser) in
  sret {| auth_user := Some newUser; auth_token := Some newToken |}.

Definition auth_logout : BM AuthState :=
  let* _ := removeItem (js "token") in
  let* _ := removeItem (js "user") in
  sret {| auth_user := None; auth_token := None |}.
End api.

(** ** Facts *)

Lemma assoc_get_obj_set {V} k k' (v : V) o :
  assoc_get k (obj_set k' v o) = if decide (k' = k) then Some v else assoc_get k o.
Proof.
  induction o as [|[q w] o IH]; simpl; [done|].
  destruct (decide (q = k')) as [->|Hq]; simpl; [by repeat case_decide|].
  rewrite IH. repeat case_decide; congruence.
Qed.

Section api_theory.
Context {J : Json} {HJ : JsonLaws J} (net : Request → result Response).

(** Every request through [fetchApi] carries [Authorization: Bearer <token>] exactly
    when a non-empty token is stored, and a JSON content type unless the caller set one. *)
Theorem fetchApi_request_headers endpoint options token :
  let r := fetchApi_request endpoint options token in
  assoc_get (js "Authorization") (o_headers options) = None →
  NoDup (o_headers options).*1 →
  assoc_get (js "Authorization") (rq_headers r) = (λ t, js "Bearer " ++ t) <$> truthy token ∧
  assoc_get (js "Content-Type") (rq_headers r) =
    Some (default (js "application/json") (assoc_get (js "Content-Type") (o_headers options))) ∧
  rq_url r = js "/api/v1" ++ endpoint ∧ rq_body r = o_body options.
Proof.
  assert (Hsp : ∀ k (l o : list (jsstring * jsstring)), NoDup l.*1 →
    assoc_get k (obj_spread o l) =
    match assoc_get k l with Some v => Some v | None => assoc_get k o end).
  { intros k l. unfold obj_spread. induction l as [|[q w] l IH]; intros o Hn; simpl; [done|].
    apply NoDup_cons in Hn as [Hq Hn]. rewrite IH by done. rewrite assoc_get_obj_set.
    destruct (decide (q = k)) as [<-|]; [|done]. apply assoc_get_None in Hq. cbn [fst] in Hq. by rewrite Hq. }
  intros r Ha Hn. unfold r, fetchApi_request. cbn [rq_headers rq_url rq_body].
  assert (Hc : ∀ v, js "Authorization" ≠ js "Content-Type" ∧ v = v) by (intros v; done).
  destruct (truthy token) as [t|]; cbn [fmap option_fmap option_map];
    rewrite ?assoc_get_obj_set, !Hsp, Ha by done; cbn [assoc_get json_headers];
    (split_and!; [done | | done | done]);
    by destruct (assoc_get (js "Content-Type") (o_headers options)).
Qed.

(** The browser after a 401: signed out and sent to the login page. *)
Definition signed_out (m : gmap jsstring jsstring) (b : Browser) : Browser :=
  set_href (js "/login") (set_storage (Some (delete (js "user") (delete (js "token") m))) b).

(** C40: The completion of [fetchApi] on every answer: a 401 signs the user out and redirects
    to the login page; any other failure throws the server's text (or the status) and a
    success yields the parsed body (the empty object for an empty one), both leaving the
    browser as it was. *)
Theorem fetchApi_spec (endpoint : jsstring) (options : RequestInit) (b : Browser) (m : gmap jsstring jsstring) :
  has_window b = true → localStorage b = Some m →
  let req := fetchApi_request endpoint options (m !! js "token") in
  fetchApi net endpoint options b =
  match net req with
  | Throw e => (Throw e, b)
  | Ok r =>
      if status r =? 401 then (Throw (plain_error (js "Unauthorized")), signed_out m b)
      else if negb (response_ok r) then
        (Throw (plain_error (match text r with
                             | [] => js "HTTP error " ++ of_int (status r) | t => t end)), b)
      else match text r with
           | [] => if (status r =? 204) || bool_decide (content_length r = Some (js "0"))
                      || bool_decide (content_length r = None)
                   then (Ok (JObj []), b) else (json_parse [], b)
           | t => (json_parse t, b)
           end
  end.
Proof.
  intros Hw Hm req. unfold fetchApi, getToken, sbind. rewrite Hw, Hm. cbn [negb storage_get].
  fold req. unfold slift at 1. destruct (net req) as [r|e]; [|done].
  unfold fetchApi_response. destruct (status r =? 401).
  - unfold removeItem, navigate, sbind, sthrow. by rewrite Hm.
  - destruct (response_ok r); cbn [negb]; [|by destruct (text r)].
    destruct (text r) as [|c t];
      destruct ((status r =? 204) || bool_decide (content_length r = Some (js "0"))
                || bool_decide (content_length r = None)); done.
Qed.

(** Signing in survives a reload: after [login], a freshly mounted provider restores the
    same user and token and is authenticated; after [logout] it stays signed out. *)
Theorem auth_persists (b : Browser) (m : gmap jsstring jsstring) (t : jsstring) (u : json) :
  localStorage b = Some m → t ≠ [] →
  let fresh := {| auth_user := None; auth_token := None |} in
  (∃ b', auth_login t u b = (Ok {| auth_user := Some u; auth_token := Some t |}, b') ∧
     auth_mount fresh b' = (Ok {| auth_user := Some u; auth_token := Some t |}, b') ∧
     isAuthenticated {| auth_user := Some u; auth_token := Some t |} = true) ∧
  (∃ b', auth_logout b = (Ok fresh, b') ∧ auth_mount fresh b' = (Ok fresh, b') ∧
     isAuthenticated fresh = false).
Proof.
  intros Hm Ht fresh. destruct t as [|c t]; [done|].
  destruct (JSON_stringify_cons u) as (d & rest & Eu).
  split; eexists; (split; [|split; [|reflexivity]]).
  - unfold auth_login, setItem, sbind. rewrite Hm. reflexivity.
  - unfold auth_mount, getItem, sbind. cbn [localStorage set_storage storage_get].
    rewrite lookup_insert_ne, !lookup_insert_eq by done. rewrite Eu. cbn [truthy].
    unfold slift, json_parse. rewrite <- Eu, JSON_parse_stringify. done.
  - unfold auth_logout, removeItem, sbind. rewrite Hm. reflexivity.
  - unfold auth_mount, getItem, sbind. cbn [localStorage set_storage storage_get].
    rewrite lookup_delete_ne, lookup_delete_eq by done. done.
Qed.
End api_theory.

(** ** Witnesses *)

Definition demo_browser : Browser :=
  {| has_window := true; localStorage := Some {[ js "token" := js "t0"; js "theme" := js "dark" ]};
     location_protocol := js "https:"; location_host := js "h"; location_href := js "/" |}.

Lemma fetchApi_request_headers_witness :
  assoc_get (js "Authorization")
    (rq_headers (fetchApi_request (js "/hosts") no_options (Some (js "t0")))) = Some (js "Bearer t0").
Proof.
  apply (fetchApi_request_headers (js "/hosts") no_options (Some (js "t0"))).
  - reflexivity.
  - constructor.
Defined.

Lemma fetchApi_witness :
  fetchApi (J := tree_json_text) (λ _, Ok {| status := 401; content_length := None; text := [] |})
    (js "/hosts") no_options demo_browser
  = (Throw (plain_error (js "Unauthorized")),
     signed_out {[ js "token" := js "t0"; js "theme" := js "dark" ]} demo_browser).
Proof.
  rewrite (fetchApi_spec (J := tree_json_text) _ (js "/hosts") no_options demo_browser
             {[ js "token" := js "t0"; js "theme" := js "dark" ]}); reflexivity.
Defined.

Lemma auth_persists_witness :
  ∃ b', auth_logout demo_browser = (Ok {| auth_user := None; auth_token := None |}, b') ∧
    auth_mount (J := tree_json_text) {| auth_user := None; auth_token := None |} b'
    = (Ok {| auth_user := None; auth_token := None |}, b') ∧
    isAuthenticated {| auth_user := None; auth_token := None |} = false.
Proof.
  apply (auth_persists (HJ := tree_json_laws) demo_browser
           {[ js "token" := js "t0"; js "theme" := js "dark" ]} (js "x") JNull).
  - reflexivity.
  - discriminate.
Defined.
