(* ===== verification/QuickKeysHook.v ===== *)
(** * The user's quick keys ([hooks/useQuickKeys.ts])

    Each asynchronous helper is its optimistic step, the request it makes and its completion.
    The list a helper captured when the component rendered is the argument [captured]; the
    list at the time of an update is the argument [cur]. *)

From S2P Require Import Prelude Js Models ApiTypes Api QuickKeys.
#[local] Open Scope Z_scope.
#[local] Open Scope js_scope.

Definition key_ids (l : list QuickKey) : list Z := qk_id <$> l.

Record HookState := { quickKeys : list QuickKey; loading : bool }.

Definition hook_initial : HookState := {| quickKeys := []; loading := true |}.

(** The answer to the load on mount; nothing after the cleanup. *)
Definition load_finish (cancelled : bool) (answer : result (list QuickKey)) (s : HookState) : HookState :=
  if cancelled then s
  else {| quickKeys := match answer with Ok keys => keys | Throw _ => [] end; loading := false |}.

Section hook.
Context {J : Json}.

(** [JSON.stringify(spec)]. *)
Definition stringify_spec (spec : list QuickKeyStep) : jsstring :=
  JSON_stringify (JArr (step_json <$> spec)).

(** [now] is [Date.now()], [iso] the two time stamps. *)
Definition create_temp (now : Z) (iso : jsstring) (nm token : jsstring) (spec : list QuickKeyStep)
    (pinned : bool) (captured : list QuickKey) : QuickKey :=
  {| qk_id := - now; qk_user_id := 0; qk_name := nm; qk_display_token := token;
     qk_spec := stringify_spec spec; qk_pinned := pinned;
     qk_sort_order := Z.of_nat (length captured); qk_created_at := iso; qk_updated_at := iso |}.

Definition create_begin (temp : QuickKey) (cur : list QuickKey) : list QuickKey := cur ++ [temp].

Definition create_request (temp : QuickKey) : QuickKeyPatch :=
  {| qp_name := Some (qk_name temp); qp_display_token := Some (qk_display_token temp);
     qp_spec := Some (qk_spec temp); qp_pinned := Some (qk_pinned temp);
     qp_sort_order := Some (qk_sort_order temp) |}.

Definition create_finish (tempId : Z) (answer : result QuickKey) (cur : list QuickKey)
    : result QuickKey * list QuickKey :=
  match answer with
  | Ok created => (Ok created, (λ k, if qk_id k =? tempId then created else k) <$> cur)
  | Throw e => (Throw e, filter (λ k, qk_id k ≠ tempId) cur)
  end.

(** [{ ...k, ...fields, spec: fields.spec ?? k.spec }]. *)
Definition merge_fields (f : QuickKeyPatch) (k : QuickKey) : QuickKey :=
  {| qk_id := qk_id k; qk_user_id := qk_user_id k;
     qk_name := default (qk_name k) (qp_name f);
     qk_display_token := default (qk_display_token k) (qp_display_token f);
     qk_spec := default (qk_spec k) (qp_spec f);
     qk_pinned := default (qk_pinned k) (qp_pinned f);
     qk_sort_order := default (qk_sort_order k) (qp_sort_order f);
     qk_created_at := qk_created_at k; qk_updated_at := qk_updated_at k |}.

Definition update_begin (id : Z) (f : QuickKeyPatch) (cur : list QuickKey) : list QuickKey :=
  (λ k, if qk_id k =? id then merge_fields f k else k) <$> cur.

(** The completion: the server's key, or the captured list and the error. *)
Definition update_finish (id : Z) (captured : list QuickKey) (answer : result QuickKey)
    (cur : list QuickKey) : result unit * list QuickKey :=
  match answer with
  | Ok updated => (Ok tt, (λ k, if qk_id k =? id then updated else k) <$> cur)
  | Throw e => (Throw e, captured)
  end.

Definition remove_begin (id : Z) (cur : list QuickKey) : list QuickKey :=
  filter (λ k, qk_id k ≠ id) cur.

Definition remove_finish (captured : list QuickKey) (answer : result unit) (cur : list QuickKey)
    : result unit * list QuickKey :=
  match answer with
  | Ok _ => (Ok tt, cur)
  | Throw e => (Throw e, captured)
  end.

(** [new Map(quickKeys.map((k) => [k.id, k])).get(id)]: the last key of that id. *)
Definition keyMap_get (captured : list QuickKey) (id : Z) : option QuickKey :=
  find (λ k, qk_id k =? id) (reverse captured).

Definition with_order (k : QuickKey) (i : Z) : QuickKey :=
  merge_fields {| qp_name := None; qp_display_token := None; qp_spec := None; qp_pinned := None;
                  qp_sort_order := Some i |} k.

Definition reorder_begin (ids : list Z) (captured : list QuickKey) : list QuickKey :=
  let reordered :=
    omap Datatypes.id (imap (λ i id, (λ k, with_order k (Z.of_nat i)) <$> keyMap_get captured id) ids) in
  let remaining := filter (λ k, qk_id k ∉ ids) captured in
  reordered ++ remaining.

(** The updates sent: key and position. *)
Definition reorder_requests (ids : list Z) (captured : list QuickKey) : list (Z * Z) :=
  imap (λ i id, (id, Z.of_nat i)) (filter (λ id, is_Some (keyMap_get captured id)) ids).

Definition reorder_finish (captured : list QuickKey) (answer : result unit) (cur : list QuickKey)
    : result unit * list QuickKey := remove_finish captured answer cur.

(** The field [togglePin] changes; [None] when there is no such key. *)
Definition togglePin_fields (id : Z) (captured : list QuickKey) : option QuickKeyPatch :=
  match find (λ k, qk_id k =? id) captured with
  | Some k => Some {| qp_name := None; qp_display_token := None; qp_spec := None;
                      qp_pinned := Some (negb (qk_pinned k)); qp_sort_order := None |}
  | None => None
  end.

(** The keys of the top bar: display token and parsed spec. *)
Definition pinned_keys (l : list QuickKey) : list (jsstring * json) :=
  (λ k, (qk_display_token k, parseSpec (qk_spec k))) <$>
    array_sort (λ a b, qk_sort_order a - qk_sort_order b) (filter (λ k, qk_pinned k = true) l).
End hook.

(** ** Facts *)

Lemma keyMap_get_Some captured id k :
  keyMap_get captured id = Some k → k ∈ captured ∧ qk_id k = id.
Proof.
  unfold keyMap_get. intros H. apply find_some in H as [Hin E]. zbool.
  split; [|done]. by rewrite <- elem_of_reverse, list_elem_of_In.
Qed.

Lemma keyMap_get_is_Some captured id : is_Some (keyMap_get captured id) ↔ id ∈ key_ids captured.
Proof.
  unfold key_ids. rewrite list_elem_of_fmap. split.
  - intros [k Hk]. apply keyMap_get_Some in Hk as [? <-]. eauto.
  - intros (k & -> & Hk). unfold keyMap_get. destruct (find _ _) eqn:E; [by eexists|].
    assert (Hin : In k (reverse captured)) by (by rewrite <- list_elem_of_In, elem_of_reverse).
    apply (find_none _ _ E) in Hin. zbool. done.
Qed.

Lemma key_ids_map (f : QuickKey → QuickKey) l :
  (∀ k, k ∈ l → qk_id (f k) = qk_id k) → key_ids (f <$> l) = key_ids l.
Proof.
  intros Hf. unfold key_ids. rewrite <- list_fmap_compose. apply list_fmap_ext.
  intros i k Hk. simpl. apply Hf. by eapply list_elem_of_lookup_2.
Qed.

Section hook_theory.
Context {J : Json}.

(** Creating a key, with any other changes to the list in between: as long as the temporary
    entry is the only one of its id, a success leaves the server's key in its place and every
    other key as it was, and a failure takes exactly the temporary entry out again. *)
Theorem create_reconciles temp l1 l2 created e :
  qk_id temp ∉ key_ids (l1 ++ l2) →
  create_finish (qk_id temp) (Ok created) (l1 ++ temp :: l2) = (Ok created, l1 ++ created :: l2) ∧
  create_finish (qk_id temp) (Throw e) (l1 ++ temp :: l2) = (Throw e, l1 ++ l2) ∧
  (l2 = [] → create_begin temp l1 = l1 ++ temp :: l2).
Proof.
  intros Hn. unfold key_ids in Hn. rewrite fmap_app, elem_of_app in Hn.
  assert (Hsame : ∀ l : list QuickKey, qk_id temp ∉ qk_id <$> l →
    ((λ k, if qk_id k =? qk_id temp then created else k) <$> l) = l ∧
    filter (λ k, qk_id k ≠ qk_id temp) l = l).
  { intros l Hl. assert (HF : Forall (λ k, qk_id k ≠ qk_id temp) l).
    { apply Forall_forall. intros k Hk E. apply Hl, list_elem_of_fmap. eauto. }
    split; [|by apply filter_all]. induction HF as [|k l Hk _ IH]; [done|].
    rewrite fmap_cons, (proj2 (Z.eqb_neq _ _) Hk). f_equal. apply IH. set_solver. }
  destruct (Hsame l1) as [M1 F1]; [tauto|]. destruct (Hsame l2) as [M2 F2]; [tauto|].
  unfold create_finish. rewrite fmap_app, fmap_cons, Z.eqb_refl, filter_app, filter_cons_False
    by (by intros ?). rewrite M1, M2, F1, F2. split_and!; [done..|]. by intros ->.
Qed.

(** Two keys created within one millisecond share a temporary id, and the first answer
    replaces both entries: the list then shows the same key twice and has lost the other. *)
Theorem create_same_millisecond t1 t2 l created :
  qk_id t1 = qk_id t2 → qk_id t1 ∉ key_ids l →
  (create_finish (qk_id t1) (Ok created) (create_begin t2 (create_begin t1 l))).2
  = l ++ [created; created].
Proof.
  intros He Hn. unfold create_finish, create_begin. cbn [snd]. rewrite !fmap_app.
  assert (Hl : ((λ k, if qk_id k =? qk_id t1 then created else k) <$> l) = l).
  { clear He. induction l as [|k l IH]; [done|]. unfold key_ids in Hn. rewrite fmap_cons in *.
    apply not_elem_of_cons in Hn as [H1 H2]. rewrite (proj2 (Z.eqb_neq _ _)) by congruence.
    f_equal. by apply IH. }
  rewrite Hl. simpl. rewrite <- He, Z.eqb_refl. by rewrite <- app_assoc.
Qed.

(** The ids after a reordering, in order. *)
Lemma reorder_begin_ids ids captured :
  key_ids (reorder_begin ids captured)
  = filter (.∈ key_ids captured) ids ++ filter (.∉ ids) (key_ids captured).
Proof.
  assert (Ho : ∀ n, key_ids (omap Datatypes.id
      (imap (λ i id, (λ k, with_order k (Z.of_nat (n + i))) <$> keyMap_get captured id) ids))
      = filter (.∈ key_ids captured) ids).
  { induction ids as [|i ids IH]; intros n; [done|]. cbn [imap omap list_omap].
    pose proof (keyMap_get_is_Some captured i) as Hk. rewrite filter_cons.
    rewrite <- (IH (S n)).
    destruct (keyMap_get captured i) as [k|] eqn:E; cbn [fmap option_fmap option_map Datatypes.id].
    - rewrite decide_True by (by apply Hk; eexists).
      apply keyMap_get_Some in E as [_ E]. cbn [key_ids fmap list_fmap]. f_equal; [exact E|].
      f_equal. f_equal. apply imap_ext. intros j x _. simpl. by rewrite Nat.add_succ_r.
    - rewrite decide_False by (intros H; apply Hk in H; by destruct H).
      f_equal. f_equal. apply imap_ext. intros j x _. simpl. by rewrite Nat.add_succ_r. }
  assert (Hr : key_ids (filter (λ k, qk_id k ∉ ids) captured) = filter (.∉ ids) (key_ids captured)).
  { clear. unfold key_ids. induction captured as [|k l IH]; [done|].
    rewrite fmap_cons, !filter_cons, <- IH. by repeat case_decide. }
  unfold reorder_begin. rewrite <- Hr, <- (Ho 0%nat). unfold key_ids. by rewrite fmap_app.
Qed.

(** Reordering keeps every key: whatever list of distinct ids is given, the new list has
    exactly the old ids, those named first, in the order given, then the others in their order. *)
Theorem reorder_keeps_keys ids captured :
  NoDup (key_ids captured) → NoDup ids →
  key_ids (reorder_begin ids captured)
  = filter (.∈ key_ids captured) ids ++ filter (.∉ ids) (key_ids captured) ∧
  key_ids (reorder_begin ids captured) ≡ₚ key_ids captured.
Proof.
  intros Hn Hi.
  pose proof (reorder_begin_ids ids captured) as E.
  split; [done|]. rewrite E.
  transitivity (filter (.∈ ids) (key_ids captured) ++ filter (.∉ ids) (key_ids captured));
    [|apply filter_app_complement].
  apply Permutation_app_tail. apply NoDup_Permutation.
  - by apply NoDup_filter.
  - by apply NoDup_filter.
  - intros x. rewrite !list_elem_of_filter. tauto.
Qed.

(** The positions sent to the server are those shown, when every id given is known. *)
Theorem reorder_requests_agree ids captured :
  (∀ i, i ∈ ids → i ∈ key_ids captured) →
  reorder_requests ids captured = imap (λ i id, (id, Z.of_nat i)) ids ∧
  ∀ n i, ids !! n = Some i → ∃ k, k ∈ reorder_begin ids captured ∧ qk_id k = i ∧
    qk_sort_order k = Z.of_nat n.
Proof.
  intros Hk. split.
  - unfold reorder_requests. f_equal. apply filter_all, Forall_forall. intros i Hi.
    by apply keyMap_get_is_Some, Hk.
  - intros n i Hn. assert (Hi : i ∈ key_ids captured) by (eapply Hk, list_elem_of_lookup_2, Hn).
    apply keyMap_get_is_Some in Hi as [k Ek]. exists (with_order k (Z.of_nat n)).
    apply keyMap_get_Some in Ek as E. split_and!; [|apply E|done].
    unfold reorder_begin. apply elem_of_app. left. apply list_elem_of_omap.
    exists (Some (with_order k (Z.of_nat n))). split; [|done].
    apply elem_of_lookup_imap. exists n, i. by rewrite Ek.
Qed.

(** A failed update, removal or reordering puts back the list its closure captured: alone
    that is the list before the optimistic step, but a key added meanwhile is lost. *)
Theorem rollback_loses_concurrent id f e captured added :
  update_finish id captured (Throw e) (update_begin id f captured) = (Throw e, captured) ∧
  (update_finish id captured (Throw e) (create_begin added (update_begin id f captured))).2 = captured ∧
  (update_finish id captured (Throw e) (create_begin added (update_begin id f captured))).2
    ≠ create_begin added captured.
Proof.
  split_and!; [done|done|]. simpl. unfold create_begin. intros H.
  apply (f_equal length) in H. rewrite length_app in H. simpl in H. lia.
Qed.
End hook_theory.

(** ** Witnesses *)

Definition demo_key (i : Z) : QuickKey :=
  {| qk_id := i; qk_user_id := 1; qk_name := []; qk_display_token := []; qk_spec := [];
     qk_pinned := true; qk_sort_order := i; qk_created_at := []; qk_updated_at := [] |}.

Lemma create_reconciles_witness :
  create_finish (-5) (Ok (demo_key 9)) [demo_key 1; demo_key (-5); demo_key 2]
  = (Ok (demo_key 9), [demo_key 1; demo_key 9; demo_key 2]).
Proof.
  apply (create_reconciles (demo_key (-5)) [demo_key 1] [demo_key 2] (demo_key 9) (plain_error [])).
  apply not_elem_of_cons. split; [discriminate|]. apply not_elem_of_cons.
  split; [discriminate|]. apply not_elem_of_nil.
Defined.

Lemma create_same_millisecond_witness :
  (create_finish (-5) (Ok (demo_key 9)) (create_begin (demo_key (-5)) (create_begin (demo_key (-5)) []))).2
  = [demo_key 9; demo_key 9].
Proof.
  apply (create_same_millisecond (demo_key (-5)) (demo_key (-5)) []).
  - reflexivity.
  - apply not_elem_of_nil.
Defined.

Lemma reorder_keeps_keys_witness :
  key_ids (reorder_begin [3; 7; 1] (demo_key <$> [1; 2; 3])) = [3; 1; 2].
Proof.
  pose proof (reorder_keeps_keys [3; 7; 1] (demo_key <$> [1; 2; 3])) as H.
  destruct H as [E _]; [apply (bool_decide_unpack (NoDup [1; 2; 3])), I
                       |apply (bool_decide_unpack (NoDup [3; 7; 1])), I|].
  rewrite E. reflexivity.
Defined.

Lemma reorder_requests_agree_witness :
  reorder_requests [2; 1] (demo_key <$> [1; 2]) = [(2, 0); (1, 1)].
Proof.
  apply (reorder_requests_agree [2; 1] (demo_key <$> [1; 2])).
  intros i Hi. apply elem_of_cons in Hi as [->|Hi].
  - apply (bool_decide_unpack (2 ∈ [1; 2])), I.
  - apply list_elem_of_singleton in Hi as ->. apply (bool_decide_unpack (1 ∈ [1; 2])), I.
Defined.
