(* ===== verification/SessionUpdates.v ===== *)
(** * The live feed of session updates ([hooks/useSessionUpdates.ts])

    The hook is a machine over its refs, the sockets it has opened and its timers; its inputs
    are the browser's events.  Sockets and timers are numbered. *)

From S2P Require Import Prelude Js Models ApiTypes Api.
#[local] Open Scope Z_scope.
#[local] Open Scope js_scope.

Definition STALE_MS : Z := 45000.
Definition STALE_CHECK_MS : Z := 5000.
Definition BACKOFF_BASE_MS : Z := 1000.
Definition BACKOFF_MAX_MS : Z := 15000.

Inductive readyState := CONNECTING | OPEN | CLOSING | CLOSED.

#[global] Instance readyState_eq_dec : EqDecision readyState.
Proof. solve_decision. Defined.

(** A socket: its state and the token its [onopen] closure captured. *)
Record Socket := { ready_state : readyState; sock_token : option jsstring }.

Record Feed := {
  sockets : gmap Z Socket;
  wsRef : option Z;
  lastMessageAt : Z;
  retryTimer : option Z;
  attempt : Z;
  mounted : bool;
  (** Pending timeouts, whose callback is [connect], and their deadlines. *)
  timeouts : gmap Z Z;
  next_id : Z;
  now : Z;
  (** The token in local storage. *)
  token : option jsstring;
  (** The tokens sent, by socket, and the updates handed to [onUpdate]. *)
  sent_tokens : list (Z * jsstring);
  delivered : list json;
}.

Definition set_refs (ws retry : option Z) (last att : Z) (f : Feed) : Feed :=
  {| sockets := sockets f; wsRef := ws; lastMessageAt := last; retryTimer := retry;
     attempt := att; mounted := mounted f; timeouts := timeouts f; next_id := next_id f;
     now := now f; token := token f; sent_tokens := sent_tokens f; delivered := delivered f |}.

Definition set_sockets (s : gmap Z Socket) (f : Feed) : Feed :=
  {| sockets := s; wsRef := wsRef f; lastMessageAt := lastMessageAt f; retryTimer := retryTimer f;
     attempt := attempt f; mounted := mounted f; timeouts := timeouts f; next_id := next_id f;
     now := now f; token := token f; sent_tokens := sent_tokens f; delivered := delivered f |}.

Definition set_timeouts (t : gmap Z Z) (n : Z) (f : Feed) : Feed :=
  {| sockets := sockets f; wsRef := wsRef f; lastMessageAt := lastMessageAt f;
     retryTimer := retryTimer f; attempt := attempt f; mounted := mounted f; timeouts := t;
     next_id := n; now := now f; token := token f; sent_tokens := sent_tokens f;
     delivered := delivered f |}.

Definition set_env (m : bool) (t : Z) (tok : option jsstring) (f : Feed) : Feed :=
  {| sockets := sockets f; wsRef := wsRef f; lastMessageAt := lastMessageAt f;
     retryTimer := retryTimer f; attempt := attempt f; mounted := m; timeouts := timeouts f;
     next_id := next_id f; now := t; token := tok; sent_tokens := sent_tokens f;
     delivered := delivered f |}.

Definition emit (s : list (Z * jsstring)) (d : list json) (f : Feed) : Feed :=
  {| sockets := sockets f; wsRef := wsRef f; lastMessageAt := lastMessageAt f;
     retryTimer := retryTimer f; attempt := attempt f; mounted := mounted f;
     timeouts := timeouts f; next_id := next_id f; now := now f; token := token f;
     sent_tokens := sent_tokens f ++ s; delivered := delivered f ++ d |}.

(** [ws.close()]: nothing on a socket already closing or closed. *)
Definition close_socket (i : Z) (f : Feed) : Feed :=
  match sockets f !! i with
  | Some s =>
      match ready_state s with
      | CONNECTING | OPEN =>
          set_sockets (<[i := {| ready_state := CLOSING; sock_token := sock_token s |}]>
                         (sockets f)) f
      | _ => f
      end
  | None => f
  end.

Definition connect (f : Feed) : Feed :=
  if negb (mounted f) then f else
  let f := match retryTimer f with
           | Some t => set_refs (wsRef f) None (lastMessageAt f) (attempt f)
                         (set_timeouts (delete t (timeouts f)) (next_id f) f)
           | None => f
           end in
  let i := next_id f in
  let f := set_sockets (<[i := {| ready_state := CONNECTING; sock_token := token f |}]>
                          (sockets f)) (set_timeouts (timeouts f) (i + 1) f) in
  set_refs (Some i) (retryTimer f) (now f) (attempt f) f.

Definition forceReconnect (f : Feed) : Feed :=
  if negb (mounted f) then f else
  let ws := wsRef f in
  let f := set_refs None (retryTimer f) (lastMessageAt f) (attempt f) f in
  let f := match ws with Some i => close_socket i f | None => f end in
  let f := set_refs (wsRef f) (retryTimer f) (lastMessageAt f) 0 f in
  connect f.

Definition checkLiveness (f : Feed) : Feed :=
  if negb (mounted f) then f else
  match wsRef f with
  | None => match retryTimer f with None => connect f | Some _ => f end
  | Some i =>
      match ready_state <$> sockets f !! i with
      | Some CLOSED | Some CLOSING => f
      | _ => if STALE_MS <? now f - lastMessageAt f then forceReconnect f else f
      end
  end.

(** ** Socket handlers *)

Definition onopen (i : Z) (f : Feed) : Feed :=
  let f := set_refs (wsRef f) (retryTimer f) (now f) 0 f in
  match sockets f !! i with
  | Some s => match truthy (sock_token s) with Some t => emit [(i, t)] [] f | None => f end
  | None => f
  end.

(** Truth of a JSON value. *)
Definition json_truthy (j : json) : bool :=
  match j with
  | JNull => false
  | JBool b => b
  | JInt n => negb (n =? 0)
  | JFloat _ => true
  | JStr s => match s with [] => false | _ => true end
  | JArr _ | JObj _ => true
  end.

Inductive message_kind := MK_unparsable | MK_error | MK_heartbeat | MK_update (j : json).

(** Reading a property of [null] throws into the [catch]. *)
Definition classify `{Json} (data : jsstring) : message_kind :=
  match JSON_parse data with
  | None | Some JNull => MK_unparsable
  | Some j =>
      if match json_get (js "error") j with Some e => json_truthy e | None => false end
      then MK_error
      else if bool_decide (json_string (json_get (js "event") j) = Some (js "heartbeat"))
      then MK_heartbeat else MK_update j
  end.

Definition onmessage `{Json} (i : Z) (data : jsstring) (f : Feed) : Feed :=
  let f := set_refs (wsRef f) (retryTimer f) (now f) (attempt f) f in
  match classify data with
  | MK_unparsable | MK_heartbeat => f
  | MK_error => close_socket i f
  | MK_update j => emit [] [j] f
  end.

Definition backoff (n : Z) : Z := Z.min (BACKOFF_BASE_MS * 2 ^ n) BACKOFF_MAX_MS.

Definition onclose (i : Z) (f : Feed) : Feed :=
  if negb (bool_decide (wsRef f = Some i)) then f else
  let f := set_refs None (retryTimer f) (lastMessageAt f) (attempt f) f in
  if negb (mounted f) then f else
  let delay := backoff (attempt f) in
  let t := next_id f in
  let f := set_timeouts (<[t := now f + delay]> (timeouts f)) (t + 1) f in
  set_refs (wsRef f) (Some t) (lastMessageAt f) (attempt f + 1) f.

(** ** Mounting *)

Definition mount (f : Feed) : Feed := connect (set_env true (now f) (token f) f).

Definition unmount (f : Feed) : Feed :=
  let f := set_env false (now f) (token f) f in
  let f := match retryTimer f with
           | Some t => set_refs (wsRef f) None (lastMessageAt f) (attempt f)
                         (set_timeouts (delete t (timeouts f)) (next_id f) f)
           | None => f
           end in
  let ws := wsRef f in
  let f := set_refs None (retryTimer f) (lastMessageAt f) (attempt f) f in
  match ws with Some i => close_socket i f | None => f end.

(** ** The machine *)

Inductive Event :=
| E_open (i : Z)
| E_message (i : Z) (data : jsstring)
| E_close (i : Z)
| E_timeout (t : Z)
| E_time (ms : Z)
| E_interval
| E_online
| E_visibility (visible : bool)
| E_reconnect
| E_token (t : option jsstring)
| E_mount
| E_unmount.

(** The browser fires [open] once on a connecting socket, messages on an open one only, and
    [close] once; the interval and the listeners exist while mounted. *)
Definition step `{Json} (f : Feed) (e : Event) : Feed :=
  match e with
  | E_open i =>
      match sockets f !! i with
      | Some s => if decide (ready_state s = CONNECTING)
                  then onopen i (set_sockets (<[i := {| ready_state := OPEN;
                                   sock_token := sock_token s |}]> (sockets f)) f)
                  else f
      | None => f
      end
  | E_message i data =>
      match sockets f !! i with
      | Some s => if decide (ready_state s = OPEN) then onmessage i data f else f
      | None => f
      end
  | E_close i =>
      match sockets f !! i with
      | Some s => if decide (ready_state s = CLOSED) then f
                  else onclose i (set_sockets (<[i := {| ready_state := CLOSED;
                                   sock_token := sock_token s |}]> (sockets f)) f)
      | None => f
      end
  | E_timeout t =>
      match timeouts f !! t with
      | Some due => if due <=? now f
                    then connect (set_timeouts (delete t (timeouts f)) (next_id f) f) else f
      | None => f
      end
  | E_time ms => set_env (mounted f) (now f + Z.max 0 ms) (token f) f
  | E_interval => if mounted f then checkLiveness f else f
  | E_online => if mounted f then forceReconnect f else f
  | E_visibility v => if mounted f && v then checkLiveness f else f
  | E_reconnect => forceReconnect f
  | E_token t => set_env (mounted f) (now f) t f
  | E_mount => if mounted f then f else mount f
  | E_unmount => if mounted f then unmount f else f
  end.

(** Before the first mount. *)
Definition initial_feed (t0 : Z) (tok : option jsstring) : Feed :=
  {| sockets := ∅; wsRef := None; lastMessageAt := t0; retryTimer := None; attempt := 0;
     mounted := false; timeouts := ∅; next_id := 1; now := t0; token := tok;
     sent_tokens := []; delivered := [] |}.

(** ** Facts *)

Lemma backoff_bounds n : 0 <= n → 1000 <= backoff n <= 15000.
Proof.
  intros Hn. unfold backoff, BACKOFF_BASE_MS, BACKOFF_MAX_MS.
  pose proof (Z.pow_pos_nonneg 2 n ltac:(lia) Hn). lia.
Qed.

Lemma backoff_doubles n : 0 <= n → backoff (n + 1) = Z.min (2 * backoff n) BACKOFF_MAX_MS.
Proof.
  intros Hn. unfold backoff, BACKOFF_BASE_MS, BACKOFF_MAX_MS.
  rewrite Z.pow_add_r by lia. change (2 ^ 1) with 2.
  pose proof (Z.pow_pos_nonneg 2 n ltac:(lia) Hn). lia.
Qed.

Definition shut (r : readyState) : Prop := r = CLOSING ∨ r = CLOSED.

(** At most the current socket is alive, and it has not closed; a retry is pending only
    without a current socket, is the only timeout, and is due within the backoff cap; a
    mounted hook has one of the two, an unmounted one none. *)
Record feed_inv (f : Feed) : Prop := {
  iv_others i s : sockets f !! i = Some s → wsRef f ≠ Some i → shut (ready_state s);
  iv_current i : wsRef f = Some i → ∃ s, sockets f !! i = Some s ∧ ready_state s ≠ CLOSED;
  iv_retry :
    match retryTimer f with
    | Some t => wsRef f = None ∧ ∃ due, timeouts f = {[ t := due ]} ∧ due <= now f + BACKOFF_MAX_MS
    | None => timeouts f = ∅
    end;
  iv_mounted :
    if mounted f then is_Some (wsRef f) ∨ is_Some (retryTimer f)
    else wsRef f = None ∧ retryTimer f = None;
  iv_fresh i : is_Some (sockets f !! i) → i < next_id f;
  iv_attempt : 0 <= attempt f;
}.

(** The states from which [connect] is called. *)
Record quiet (f : Feed) : Prop := {
  q_ws : wsRef f = None;
  q_shut i s : sockets f !! i = Some s → shut (ready_state s);
  q_timer :
    match retryTimer f with
    | Some t => delete t (timeouts f) = ∅
    | None => timeouts f = ∅
    end;
  q_fresh i : is_Some (sockets f !! i) → i < next_id f;
  q_attempt : 0 <= attempt f;
}.

Lemma connect_inv f : mounted f = true → quiet f → feed_inv (connect f).
Proof.
  intros Hm [Hw Hs Ht Hf Ha]. unfold connect. rewrite Hm. cbn [negb].
  destruct (retryTimer f) as [t|] eqn:Er.
  all: split; cbn; rewrite ?Er; try done.
  all: try (intros i s Hi Hne; apply (Hs i); rewrite lookup_insert_ne in Hi by congruence; exact Hi).
  all: try (intros i [= <-]; eexists; split; [apply lookup_insert_eq|done]).
  all: try (rewrite Hm; left; by eexists).
  all: intros i Hi; destruct (decide (i = next_id f)) as [->|Hne]; [lia|];
    rewrite lookup_insert_ne in Hi by congruence; apply Hf in Hi; lia.
Qed.

(** Clearing [wsRef] and closing its socket leaves nothing alive. *)
Lemma close_socket_lookup i f j s :
  sockets (close_socket i f) !! j = Some s →
  (j = i ∧ shut (ready_state s)) ∨ (j ≠ i ∧ sockets f !! j = Some s).
Proof.
  unfold close_socket. intros Hj. destruct (decide (j = i)) as [->|Hne].
  - left. split; [done|]. destruct (sockets f !! i) as [s0|] eqn:Ei; [|congruence].
    destruct (ready_state s0) eqn:Er; cbn [set_sockets sockets] in Hj;
      rewrite ?lookup_insert_eq in Hj; simplify_eq; rewrite ?Er; unfold shut; cbn; tauto.
  - right. split; [done|]. destruct (sockets f !! i) as [s0|]; [|done].
    destruct (ready_state s0); cbn [set_sockets sockets] in Hj;
      rewrite ?lookup_insert_ne in Hj by congruence; done.
Qed.

Lemma close_socket_dom i f j :
  is_Some (sockets (close_socket i f) !! j) → is_Some (sockets f !! j).
Proof.
  unfold close_socket. destruct (sockets f !! i) as [s0|] eqn:Ei; [|done].
  destruct (ready_state s0); try done; cbn [set_sockets sockets];
    rewrite lookup_insert_is_Some'; intros [<-|?]; rewrite ?Ei; done || by eexists.
Qed.

Lemma close_socket_fields i f :
  wsRef (close_socket i f) = wsRef f ∧ retryTimer (close_socket i f) = retryTimer f ∧
  timeouts (close_socket i f) = timeouts f ∧ next_id (close_socket i f) = next_id f ∧
  mounted (close_socket i f) = mounted f ∧ now (close_socket i f) = now f ∧
  attempt (close_socket i f) = attempt f ∧ lastMessageAt (close_socket i f) = lastMessageAt f ∧
  delivered (close_socket i f) = delivered f.
Proof.
  unfold close_socket. destruct (sockets f !! i) as [s|]; [|done]. by destruct (ready_state s).
Qed.

(** The part common to [forceReconnect] and [unmount]: let go of the current socket. *)
Definition drop_socket (f : Feed) : Feed :=
  let f' := set_refs None (retryTimer f) (lastMessageAt f) (attempt f) f in
  match wsRef f with Some i => close_socket i f' | None => f' end.

Lemma drop_socket_shut f j s :
  feed_inv f → sockets (drop_socket f) !! j = Some s → shut (ready_state s).
Proof.
  intros I Hj. unfold drop_socket in Hj. destruct (wsRef f) as [i|] eqn:Ew.
  - apply close_socket_lookup in Hj as [[_ Hs]|[Hne Hj]]; [done|].
    apply (iv_others f I j s Hj). congruence.
  - apply (iv_others f I j s Hj). congruence.
Qed.

Lemma drop_socket_fields f :
  wsRef (drop_socket f) = None ∧ retryTimer (drop_socket f) = retryTimer f ∧
  timeouts (drop_socket f) = timeouts f ∧ next_id (drop_socket f) = next_id f ∧
  mounted (drop_socket f) = mounted f ∧ now (drop_socket f) = now f ∧
  attempt (drop_socket f) = attempt f ∧
  (∀ j, is_Some (sockets (drop_socket f) !! j) → is_Some (sockets f !! j)).
Proof.
  unfold drop_socket. destruct (wsRef f) as [i|]; [|done].
  set (f' := set_refs _ _ _ _ f). destruct (close_socket_fields i f') as (-> & -> & -> & -> & -> & -> & -> & _).
  split_and!; try done. intros j Hj. by apply close_socket_dom in Hj.
Qed.

Lemma forceReconnect_eq f :
  mounted f = true →
  forceReconnect f =
  connect (set_refs None (retryTimer f) (lastMessageAt f) 0 (drop_socket f)).
Proof.
  intros Hm. unfold forceReconnect, drop_socket. rewrite Hm. cbn [negb].
  destruct (wsRef f) as [i|]; [|done].
  set (f' := set_refs _ _ _ _ f).
  destruct (close_socket_fields i f') as (-> & -> & _ & _ & _ & _ & _ & -> & _). done.
Qed.

Lemma forceReconnect_inv f : feed_inv f → feed_inv (forceReconnect f).
Proof.
  intros I. destruct (mounted f) eqn:Hm; [|unfold forceReconnect; by rewrite Hm].
  rewrite forceReconnect_eq by done.
  destruct (drop_socket_fields f) as (_ & Hr & Ht & Hn & Hmm & _ & _ & Hd).
  apply connect_inv; [cbn; by rewrite Hmm|]. split; cbn; try done.
  - intros i s Hi. by apply (drop_socket_shut f i s I).
  - rewrite Ht. pose proof (iv_retry f I) as Hrt. destruct (retryTimer f); [|done].
    destruct Hrt as (_ & due & -> & _). apply delete_singleton_eq.
  - intros i Hi. rewrite Hn. by apply (iv_fresh f I), Hd.
Qed.

Lemma unmount_eq f :
  unmount f =
  let g := drop_socket f in
  set_env false (now f) (token f)
    match retryTimer f with
    | Some t => set_refs None None (lastMessageAt f) (attempt f)
                  (set_timeouts (delete t (timeouts f)) (next_id f) g)
    | None => g
    end.
Proof.
  destruct f as [so [i|] la [t|] att m ti ni nw tok se de]; try reflexivity;
    unfold unmount, drop_socket, close_socket; cbn;
    destruct (so !! i) as [[[] tok']|]; reflexivity.
Qed.

Lemma unmount_inv f : feed_inv f → mounted f = true → feed_inv (unmount f).
Proof.
  intros I Hm. rewrite unmount_eq. cbn zeta.
  destruct (drop_socket_fields f) as (Hw & Hr & Ht & Hn & _ & _ & Ha & Hd).
  pose proof (iv_retry f I) as Hrt. destruct (retryTimer f) as [t|] eqn:Er.
  - destruct Hrt as (_ & due & Hdue & _). split; cbn; try done.
    + intros i s Hi _. by apply (drop_socket_shut f i s I).
    + rewrite Hdue. apply delete_singleton_eq.
    + intros i Hi. by apply (iv_fresh f I), Hd.
    + apply I.
  - split; cbn; rewrite ?Hw, ?Hr, ?Ht, ?Hn, ?Ha; try done.
    + intros i s Hi _. by apply (drop_socket_shut f i s I).
    + intros i Hi. by apply (iv_fresh f I), Hd.
    + apply I.
Qed.

Lemma checkLiveness_inv f : feed_inv f → feed_inv (checkLiveness f).
Proof.
  intros I. unfold checkLiveness. destruct (mounted f) eqn:Hm; [|done]. cbn [negb].
  destruct (wsRef f) as [i|] eqn:Ew.
  - assert (Hfr : feed_inv (if STALE_MS <? now f - lastMessageAt f then forceReconnect f else f))
      by (case_if; [by apply forceReconnect_inv | done]).
    destruct (ready_state <$> sockets f !! i) as [[]|]; done.
  - destruct (retryTimer f) eqn:Er; [done|]. pose proof (iv_mounted f I) as H.
    rewrite Hm, Ew, Er in H. by destruct H as [[? ?]|[? ?]].
Qed.

(** Replacing the state of a socket that exists. *)
Lemma set_ready_lookup f i s0 r j s :
  sockets f !! i = Some s0 →
  sockets (set_sockets (<[i := {| ready_state := r; sock_token := sock_token s0 |}]> (sockets f)) f) !! j
    = Some s →
  (j = i ∧ ready_state s = r) ∨ (j ≠ i ∧ sockets f !! j = Some s).
Proof.
  intros Hi. cbn. destruct (decide (j = i)) as [->|Hne].
  - rewrite lookup_insert_eq. intros [= <-]. by left.
  - rewrite lookup_insert_ne by congruence. by right.
Qed.

Lemma emit_inv a b f : feed_inv f → feed_inv (emit a b f).
Proof. intros []. by split. Qed.

Lemma set_refs_inv last att f :
  0 <= att → feed_inv f → feed_inv (set_refs (wsRef f) (retryTimer f) last att f).
Proof. intros ? []. by split. Qed.

Lemma close_socket_inv i f :
  feed_inv f → feed_inv (close_socket i f).
Proof.
  intros I. destruct (close_socket_fields i f) as (Hw & Hr & Ht & Hn & Hm & Hnow & Ha & _ & _).
  split; rewrite ?Hw, ?Hr, ?Ht, ?Hn, ?Hm, ?Hnow, ?Ha; try apply I.
  - intros j s Hj Hne. apply close_socket_lookup in Hj as [[_ ?]|[_ Hj]]; [done|].
    by apply (iv_others f I j s).
  - intros j Hj. destruct (iv_current f I j Hj) as (s & Hs & Hc). unfold close_socket.
    destruct (sockets f !! i) as [s0|] eqn:Ei; [|by eauto].
    destruct (decide (i = j)) as [->|Hij].
    + destruct (ready_state s0) eqn:Er; cbn; rewrite ?lookup_insert_eq; eauto.
    + destruct (ready_state s0); cbn; rewrite ?lookup_insert_ne by done; eauto.
  - intros j Hj. by apply (iv_fresh f I), (close_socket_dom i).
Qed.

Lemma onclose_inv i s0 f :
  feed_inv f → sockets f !! i = Some s0 →
  feed_inv (onclose i (set_sockets (<[i := {| ready_state := CLOSED;
                                        sock_token := sock_token s0 |}]> (sockets f)) f)).
Proof.
  intros I Hi. set (g := set_sockets _ f).
  assert (Hg : ∀ j s, sockets g !! j = Some s → wsRef f ≠ Some j ∨ j = i → shut (ready_state s)).
  { intros j s Hj Hne. apply (set_ready_lookup f i s0 CLOSED j s Hi) in Hj as [[_ ->]|[Hji Hj]];
      [by right|]. apply (iv_others f I j s Hj). tauto. }
  assert (Hgf : ∀ j, is_Some (sockets g !! j) → j < next_id f).
  { intros j [s Hj]. apply (iv_fresh f I).
    apply (set_ready_lookup f i s0 CLOSED j s Hi) in Hj as [[-> _]|[_ Hj]]; by eexists. }
  unfold onclose. cbn [wsRef g set_sockets].
  destruct (bool_decide_reflect (wsRef f = Some i)) as [Hw|Hw]; cbn [negb].
  - pose proof (iv_mounted f I) as Hmo. pose proof (iv_retry f I) as Hrt.
    change (mounted (set_refs _ _ _ _ _)) with (mounted f).
    destruct (mounted f) eqn:Hm; cbn [negb]; [|by destruct Hmo; congruence].
    destruct (retryTimer f) as [t|] eqn:Er; [destruct Hrt; congruence|].
    split; cbn; try done.
    + intros j s Hj _. destruct (decide (j = i)); [by apply (Hg j s Hj); right|].
      apply (Hg j s Hj). left. congruence.
    + split; [done|]. exists (now f + backoff (attempt f)). rewrite Hrt, insert_empty.
      split; [done|]. pose proof (backoff_bounds _ (iv_attempt f I)). unfold BACKOFF_MAX_MS. lia.
    + rewrite Hm. right. by eexists.
    + intros j Hj. apply Hgf in Hj. lia.
    + pose proof (iv_attempt f I). lia.
  - split; cbn; try apply I.
    + intros j s Hj Hne. apply (Hg j s Hj). by left.
    + intros j Hj. rewrite lookup_insert_ne by congruence. by apply (iv_current f I).
    + exact Hgf.
Qed.

Lemma open_event_inv `{Json} f i : feed_inv f → feed_inv (step f (E_open i)).
Proof.
  intros I. cbn [step].
  destruct (sockets f !! i) as [s0|] eqn:Hi; [|done]. case_decide as Hc; [|done].
  assert (Hcur : wsRef f = Some i).
  { destruct (decide (wsRef f = Some i)); [done|].
    destruct (iv_others f I i s0 Hi); [done|congruence..]. }
  set (g := set_sockets _ f).
  assert (Ig : feed_inv g).
  { split; cbn; try apply I.
    - intros j s Hj Hne. apply (set_ready_lookup f i s0 OPEN j s Hi) in Hj as [[-> _]|[_ Hj]];
        [done|]. by apply (iv_others f I j s).
    - intros j Hj. rewrite Hcur in Hj. simplify_eq. rewrite lookup_insert_eq. by eexists.
    - intros j Hj. apply (iv_fresh f I). apply lookup_insert_is_Some' in Hj as [<-|Hj]; [|done].
      by rewrite Hi. }
  unfold onopen. set (g' := set_refs _ _ _ _ g).
  assert (Ig' : feed_inv g') by (by apply (set_refs_inv _ 0 g)).
  destruct (sockets g' !! i) as [s|]; [|done]. destruct (truthy (sock_token s)); [|done].
  by apply emit_inv.
Qed.

Lemma timeout_event_inv `{Json} f t : feed_inv f → feed_inv (step f (E_timeout t)).
Proof.
  intros I. cbn [step].
  destruct (timeouts f !! t) as [due|] eqn:Et; [|done]. case_if; [|done].
  pose proof (iv_retry f I) as Hrt. destruct (retryTimer f) as [t'|] eqn:Er.
  + destruct Hrt as (Hw & d & Hd & _). rewrite Hd in Et. apply lookup_singleton_Some in Et as [-> _].
    assert (Hm : mounted f = true).
    { pose proof (iv_mounted f I) as Hmo. destruct (mounted f); [done|]. destruct Hmo. congruence. }
    apply connect_inv; [done|]. split; cbn; try apply I; try done.
    * intros i s Hi. apply (iv_others f I i s Hi). congruence.
    * rewrite Er, Hd. by rewrite delete_singleton_eq, delete_empty.
  + rewrite Hrt in Et. by rewrite lookup_empty in Et.
Qed.

Lemma mount_event_inv `{Json} f : feed_inv f → feed_inv (step f E_mount).
Proof.
  intros I. cbn [step].
  destruct (mounted f) eqn:Hm; [done|]. unfold mount.
  pose proof (iv_mounted f I) as Hmo. rewrite Hm in Hmo. destruct Hmo as [Hw Hr].
  apply connect_inv; [done|]. split; cbn; try apply I; try done.
  + intros i s Hi. apply (iv_others f I i s Hi). congruence.
  + pose proof (iv_retry f I) as Hrt. rewrite Hr in *. done.
Qed.

Lemma feed_step_inv `{Json} f e : feed_inv f → feed_inv (step f e).
Proof.
  intros I. destruct e as [i|i data|i|t|ms| | |v| |tok| |].
  - by apply open_event_inv.
  - cbn [step]. destruct (sockets f !! i) as [s0|]; [|done]. case_decide; [|done]. unfold onmessage.
    set (g := set_refs _ _ _ _ f).
    assert (Ig : feed_inv g) by (apply (set_refs_inv _ (attempt f) f); [apply I|done]).
    destruct (classify data); try done; [by apply close_socket_inv | by apply emit_inv].
  - cbn [step]. destruct (sockets f !! i) as [s0|] eqn:Hi; [|done]. case_decide; [done|]. by apply onclose_inv.
  - by apply timeout_event_inv.
  - cbn [step]. destruct I as [Io Ic Ir Im If Ia]. split; cbn; try done.
    destruct (retryTimer f); [|done]. destruct Ir as (? & due & ? & ?). split; [done|].
    exists due. split; [done|]. lia.
  - cbn [step]. destruct (mounted f); [by apply checkLiveness_inv|done].
  - cbn [step]. destruct (mounted f); [by apply forceReconnect_inv|done].
  - cbn [step]. destruct (mounted f && v); [by apply checkLiveness_inv|done].
  - by apply forceReconnect_inv.
  - destruct I. by split.
  - by apply mount_event_inv.
  - cbn [step]. destruct (mounted f) eqn:Hm; [by apply unmount_inv|done].
Qed.

Lemma initial_feed_inv t0 tok : feed_inv (initial_feed t0 tok).
Proof.
  split; cbn; try done.
  - intros i. rewrite lookup_empty. by intros [? ?].
Qed.

Lemma feed_reachable_inv `{Json} t0 tok es : feed_inv (run step (initial_feed t0 tok) es).
Proof. apply run_invariant; [apply initial_feed_inv | intros; by apply feed_step_inv]. Qed.

(** C28: Whatever the browser, the server and the clock do, the feed never leaks a socket or
    falls through a crack: every socket but the current one is closing or closed; while
    mounted there is either a current socket that has not closed, or one retry, the only
    timeout, due within 15 seconds, and never both; unmounted, nothing is pending or alive. *)
Theorem feed_reachable `{Json} t0 tok es :
  let f := run step (initial_feed t0 tok) es in
  (∀ i s, sockets f !! i = Some s → wsRef f ≠ Some i → shut (ready_state s)) ∧
  (if mounted f then
     (∃ i s, wsRef f = Some i ∧ sockets f !! i = Some s ∧ ready_state s ≠ CLOSED ∧
        retryTimer f = None ∧ timeouts f = ∅) ∨
     (∃ t due, wsRef f = None ∧ retryTimer f = Some t ∧ timeouts f = {[ t := due ]} ∧
        due <= now f + 15000)
   else wsRef f = None ∧ timeouts f = ∅).
Proof.
  intros f. pose proof (feed_reachable_inv t0 tok es) as I. fold f in I. clearbody f.
  pose proof I as [Io Ic Ir Im _ _]. split; [exact Io|].
  destruct (mounted f).
  - destruct (wsRef f) as [i|] eqn:Ew.
    + left. destruct (Ic i eq_refl) as (s & Hs & Hn).
      destruct (retryTimer f); [by destruct Ir|]. eauto 10.
    + right. destruct (retryTimer f) as [t|]; [|by destruct Im as [[? ?]|[? ?]]].
      destruct Ir as (_ & due & Hd & Hle). exists t, due. by rewrite Hd.
  - destruct Im as [Hw Hr]. by rewrite Hr in Ir.
Qed.


(** The sockets opened so far. *)
Definition opened (f : Feed) : gset Z := dom (sockets f).

Lemma feed_step_unmounted `{Json} f e :
  feed_inv f → mounted f = false → e ≠ E_mount →
  mounted (step f e) = false ∧ delivered (step f e) = delivered f ∧
  sent_tokens (step f e) = sent_tokens f ∧ opened (step f e) = opened f.
Proof.
  intros I Hm He. pose proof (iv_mounted f I) as Hmo. rewrite Hm in Hmo. destruct Hmo as [Hw Hr].
  pose proof (iv_retry f I) as Ht. rewrite Hr in Ht.
  assert (Hsh : ∀ j s, sockets f !! j = Some s → shut (ready_state s)).
  { intros j s Hj. apply (iv_others f I j s Hj). congruence. }
  destruct e as [i|i data|i|t|ms| | |v| |tk| |]; cbn [step]; rewrite ?Hm; try done.
  - destruct (sockets f !! i) as [s|] eqn:Hi; [|done]. case_decide; [|done].
    destruct (Hsh i s Hi); congruence.
  - destruct (sockets f !! i) as [s|] eqn:Hi; [|done]. case_decide; [|done].
    destruct (Hsh i s Hi); congruence.
  - destruct (sockets f !! i) as [s|] eqn:Hi; [|done]. case_decide; [done|].
    unfold onclose. cbn [wsRef set_sockets]. rewrite Hw, bool_decide_eq_false_2 by done.
    cbn [negb]. split_and!; try done.
    unfold opened. cbn [set_sockets sockets]. rewrite dom_insert_L.
    apply elem_of_dom_2 in Hi. set_solver.
  - by rewrite Ht, lookup_empty.
  - unfold forceReconnect. by rewrite Hm.
Qed.

(** An unmounted feed is silent: until it is mounted again it hands over no update, opens
    no socket and sends nothing, whatever still happens to its old sockets and timers. *)
Theorem unmounted_silent `{Json} t0 tok es es' :
  let f := step (run step (initial_feed t0 tok) es) E_unmount in
  Forall (λ e, e ≠ E_mount) es' →
  let f' := run step f es' in
  delivered f' = delivered f ∧ sent_tokens f' = sent_tokens f ∧ opened f' = opened f ∧
  timeouts f' = ∅.
Proof.
  intros f Hes. assert (I : feed_inv f) by apply feed_step_inv, feed_reachable_inv.
  assert (Hm : mounted f = false).
  { unfold f. set (g := run step _ es). cbn [step].
    destruct (mounted g) eqn:E; [|exact E]. by rewrite unmount_eq. }
  clearbody f.
  assert (Hall : feed_inv (run step f es') ∧ mounted (run step f es') = false ∧
    delivered (run step f es') = delivered f ∧ sent_tokens (run step f es') = sent_tokens f ∧
    opened (run step f es') = opened f).
  { revert f I Hm. induction Hes as [|e es' He _ IH]; intros f I Hm; [done|]. cbn [run foldl].
    destruct (feed_step_unmounted f e I Hm He) as (Hm' & Hd & Hs & Ho).
    destruct (IH (step f e) (feed_step_inv f e I) Hm') as (? & ? & ? & ? & ?).
    split_and!; try done; etrans; eauto. }
  destruct Hall as (I' & Hm' & ? & ? & ?). split_and!; try done.
  pose proof (iv_mounted _ I') as Hmo. rewrite Hm' in Hmo. destruct Hmo as [_ Hr].
  pose proof (iv_retry _ I') as Hrt. by rewrite Hr in Hrt.
Qed.

(** Backoff: when the current socket closes, one reconnection is scheduled, one second
    after the first failure, twice as long after each further one and at most 15 seconds; when
    it is due a new socket is opened. *)
Theorem close_schedules_retry `{Json} t0 tok es i s :
  let f := run step (initial_feed t0 tok) es in
  mounted f = true → wsRef f = Some i → sockets f !! i = Some s →
  let f' := step f (E_close i) in
  let delay := Z.min (1000 * 2 ^ attempt f) 15000 in
  retryTimer f' = Some (next_id f) ∧ timeouts f' = {[ next_id f := now f + delay ]} ∧
  attempt f' = attempt f + 1 ∧
  (∀ ms, delay <= ms →
     wsRef (step (step f' (E_time ms)) (E_timeout (next_id f))) = Some (next_id f + 1)).
Proof.
  intros f Hm Hw Hi. pose proof (feed_reachable_inv t0 tok es) as I. fold f in I. clearbody f.
  destruct (iv_current f I i Hw) as (s' & Hi' & Hnc). simplify_eq.
  pose proof (iv_retry f I) as Hrt.
  destruct (retryTimer f) eqn:Er; [destruct Hrt; congruence|].
  pose proof (backoff_bounds _ (iv_attempt f I)) as Hb.
  cbn [step]. rewrite Hi. rewrite decide_False by done.
  unfold onclose. cbn [wsRef set_sockets]. rewrite Hw, bool_decide_eq_true_2 by done. cbn [negb].
  change (mounted (set_refs _ _ _ _ _)) with (mounted f). rewrite Hm. cbn [negb].
  cbn [set_refs set_timeouts set_sockets retryTimer timeouts attempt next_id now].
  fold (backoff (attempt f)). rewrite Hrt, insert_empty. split_and!; try done.
  intros ms Hms. cbn [step set_env set_refs timeouts now mounted token set_timeouts].
  rewrite lookup_singleton_eq.
  destruct (Z.leb_spec (now f + backoff (attempt f)) (now f + Z.max 0 ms)).
  - unfold connect. cbn. by rewrite Hm.
  - unfold backoff, BACKOFF_BASE_MS, BACKOFF_MAX_MS in *. lia.
Qed.

(** ** Witnesses *)

Definition demo_events : list Event := [E_mount; E_open 1; E_time 45001].


Lemma unmounted_silent_witness :
  let f := step (H := tree_json_text)
             (run (step (H := tree_json_text)) (initial_feed 0 None) demo_events) E_unmount in
  opened (run (step (H := tree_json_text)) f [E_close 1; E_reconnect]) = opened f.
Proof.
  apply (unmounted_silent (H := tree_json_text) 0 None demo_events [E_close 1; E_reconnect]).
  repeat constructor; discriminate.
Defined.

Lemma close_schedules_retry_witness :
  let f := run (step (H := tree_json_text)) (initial_feed 0 None) demo_events in
  retryTimer (step (H := tree_json_text) f (E_close 1)) = Some 2.
Proof.
  apply (close_schedules_retry (H := tree_json_text) 0 None demo_events 1
           {| ready_state := OPEN; sock_token := None |}).
  - reflexivity.
  - reflexivity.
  - reflexivity.
Defined.
