(* ===== verification/Themes.v ===== *)
(** * Themes ([lib/themes.ts], [contexts/ThemeContext.tsx])

    The document is its root style, the data attribute, the colour scheme and the theme
    colour tag.  A property test with [in] and an index also find what an object inherits. *)

From S2P Require Import Prelude Js Models ApiTypes Api.
#[local] Open Scope Z_scope.
#[local] Open Scope js_scope.

Record ThemeDef := {
  theme_id : jsstring;
  label : jsstring;
  swatch : list jsstring;
  themeColor : jsstring;
  colorScheme : jsstring;
  cssVars : list (jsstring * jsstring);
  terminal : list (jsstring * jsstring);
}.

Definition DEFAULT_THEME_ID : jsstring := js "dark-blue".

Definition theme_dark_blue : ThemeDef :=
  {| theme_id := js "dark-blue"; label := js "Dark Blue";
     swatch := [js "#0b1120"; js "#3b82f6"; js "#f8fafc"];
     themeColor := js "#0f172a"; colorScheme := js "dark";
     cssVars :=
    [ (js "--background", js "222.2 84% 4.9%");
      (js "--foreground", js "210 40% 98%");
      (js "--card", js "222.2 84% 4.9%");
      (js "--card-foreground", js "210 40% 98%");
      (js "--popover", js "222.2 84% 4.9%");
      (js "--popover-foreground", js "210 40% 98%");
      (js "--primary", js "217.2 91.2% 59.8%");
      (js "--primary-foreground", js "222.2 47.4% 11.2%");
      (js "--secondary", js "217.2 32.6% 17.5%");
      (js "--secondary-foreground", js "210 40% 98%");
      (js "--muted", js "217.2 32.6% 17.5%");
      (js "--muted-foreground", js "215 20.2% 65.1%");
      (js "--accent", js "217.2 32.6% 17.5%");
      (js "--accent-foreground", js "210 40% 98%");
      (js "--destructive", js "0 62.8% 30.6%");
      (js "--destructive-foreground", js "210 40% 98%");
      (js "--border", js "217.2 32.6% 17.5%");
      (js "--input", js "217.2 32.6% 17.5%");
      (js "--ring", js "224.3 76.3% 48%") ];
     terminal :=
    [ (js "background", js "#1a1a1a");
      (js "foreground", js "#ffffff");
      (js "cursor", js "#ffffff") ] |}.

Definition theme_one_dark : ThemeDef :=
  {| theme_id := js "one-dark"; label := js "One Dark";
     swatch := [js "#282c34"; js "#61afef"; js "#abb2bf"];
     themeColor := js "#282c34"; colorScheme := js "dark";
     cssVars :=
    [ (js "--background", js "220 13% 18%");
      (js "--foreground", js "219 14% 71%");
      (js "--card", js "220 13% 18%");
      (js "--card-foreground", js "219 14% 71%");
      (js "--popover", js "220 13% 18%");
      (js "--popover-foreground", js "219 14% 71%");
      (js "--primary", js "207 82% 66%");
      (js "--primary-foreground", js "220 13% 18%");
      (js "--secondary", js "220 13% 26%");
      (js "--secondary-foreground", js "219 14% 71%");
      (js "--muted", js "220 13% 26%");
      (js "--muted-foreground", js "220 9% 60%");
      (js "--accent", js "220 13% 26%");
      (js "--accent-foreground", js "219 14% 71%");
      (js "--destructive", js "355 65% 55%");
      (js "--destructive-foreground", js "0 0% 98%");
      (js "--border", js "220 13% 26%");
      (js "--input", js "220 13% 26%");
      (js "--ring", js "207 82% 66%") ];
     terminal :=
    [ (js "background", js "#282c34");
      (js "foreground", js "#abb2bf");
      (js "cursor", js "#528bff");
      (js "cursorAccent", js "#282c34");
      (js "selectionBackground", js "#3e4451");
      (js "black", js "#282c34");
      (js "red", js "#e06c75");
      (js "green", js "#98c379");
      (js "yellow", js "#d19a66");
      (js "blue", js "#61afef");
      (js "magenta", js "#c678dd");
      (js "cyan", js "#56b6c2");
      (js "white", js "#abb2bf");
      (js "brightBlack", js "#5c6370");
      (js "brightRed", js "#e06c75");
      (js "brightGreen", js "#98c379");
      (js "brightYellow", js "#e5c07b");
      (js "brightBlue", js "#61afef");
      (js "brightMagenta", js "#c678dd");
      (js "brightCyan", js "#56b6c2");
      (js "brightWhite", js "#ffffff") ] |}.

Definition theme_scifi_rts : ThemeDef :=
  {| theme_id := js "scifi-rts"; label := js "SciFi RTS";
     swatch := [js "#050a14"; js "#3cb4ff"; js "#eaf4ff"];
     themeColor := js "#050a14"; colorScheme := js "dark";
     cssVars :=
    [ (js "--background", js "220 60% 4.9%");
      (js "--foreground", js "211.4 100% 95.9%");
      (js "--card", js "219.5 65.5% 11.4%");
      (js "--card-foreground", js "211.4 100% 95.9%");
      (js "--popover", js "219.5 65.5% 11.4%");
      (js "--popover-foreground", js "211.4 100% 95.9%");
      (js "--primary", js "203.1 100% 61.8%");
      (js "--primary-foreground", js "213.3 77.1% 6.9%");
      (js "--secondary", js "217.4 62.9% 19%");
      (js "--secondary-foreground", js "214.3 94.6% 92.7%");
      (js "--muted", js "217.4 62.9% 19%");
      (js "--muted-foreground", js "213 36.1% 67.5%");
      (js "--accent", js "218.6 64.6% 25.5%");
      (js "--accent-foreground", js "0 0% 100%");
      (js "--destructive", js "356.6 65% 42.5%");
      (js "--destructive-foreground", js "0 0% 100%");
      (js "--border", js "215.3 67.3% 31.2%");
      (js "--input", js "210.9 72.7% 55.5%");
      (js "--ring", js "200.2 100% 68%");
      (js "--radius", js "0.25rem");
      (js "--glow", js "203.1 100% 61.8%");
      (js "--cta", js "32.6 100% 61.4%");
      (js "--cta-foreground", js "39.5 100% 92%");
      (js "--cta-top", js "28.7 82.5% 26.9%");
      (js "--cta-bottom", js "26.9 82.7% 15.9%");
      (js "--button-top", js "215.3 72.9% 26.1%");
      (js "--button-bottom", js "218.9 73% 14.5%");
      (js "--success", js "139.8 76.9% 74.5%");
      (js "--success-surface", js "151.3 63.9% 14.1%");
      (js "--success-edge", js "144.8 50.4% 49.8%");
      (js "--warning", js "42.1 100% 77.1%");
      (js "--warning-surface", js "40.9 80.5% 16.1%");
      (js "--warning-edge", js "42.6 77.9% 47.8%") ];
     terminal :=
    [ (js "background", js "#111d2f");
      (js "foreground", js "#9db0c8");
      (js "cursor", js "#e3b468");
      (js "cursorAccent", js "#111d2f");
      (js "selectionBackground", js "#213a5e");
      (js "black", js "#172740");
      (js "red", js "#e0808b");
      (js "green", js "#8fcf9f");
      (js "yellow", js "#e3c581");
      (js "blue", js "#7aaae0");
      (js "magenta", js "#b99ee0");
      (js "cyan", js "#86cfe0");
      (js "white", js "#9db0c8");
      (js "brightBlack", js "#8699b3");
      (js "brightRed", js "#ea9ea7");
      (js "brightGreen", js "#acdfb8");
      (js "brightYellow", js "#ecd8a2");
      (js "brightBlue", js "#9dc3ea");
      (js "brightMagenta", js "#cdb8ea");
      (js "brightCyan", js "#a6dcea");
      (js "brightWhite", js "#b9c8dc") ] |}.

Definition THEMES : list (jsstring * ThemeDef) :=
  [ (js "dark-blue", theme_dark_blue);
    (js "one-dark", theme_one_dark);
    (js "scifi-rts", theme_scifi_rts) ].

(** [Object.values(THEMES)]. *)
Definition THEME_LIST : list ThemeDef := THEMES.*2.

(** The properties every object inherits. *)
Definition inherited : list jsstring :=
  [js "constructor"; js "__defineGetter__"; js "__defineSetter__"; js "hasOwnProperty";
   js "__lookupGetter__"; js "__lookupSetter__"; js "isPrototypeOf"; js "propertyIsEnumerable";
   js "toString"; js "valueOf"; js "__proto__"; js "toLocaleString"].

Definition isThemeId (v : option jsstring) : bool :=
  match truthy v with
  | Some v => bool_decide (v ∈ THEMES.*1) || bool_decide (v ∈ inherited)
  | None => false
  end.

(** [THEMES[id] ?? THEMES[DEFAULT_THEME_ID]]: [None] is an inherited value, which has no
    [cssVars]. *)
Definition default_theme : ThemeDef :=
  default {| theme_id := []; label := []; swatch := []; themeColor := []; colorScheme := [];
             cssVars := []; terminal := [] |} (assoc_get DEFAULT_THEME_ID THEMES).

Definition theme_at (i : jsstring) : option ThemeDef :=
  match assoc_get i THEMES with
  | Some t => Some t
  | None => if bool_decide (i ∈ inherited) then None else Some default_theme
  end.

Record Document := {
  style : gmap jsstring jsstring;
  data_theme : option jsstring;
  style_colorScheme : jsstring;
  meta_theme_color : option jsstring;
}.

Definition set_style (s : gmap jsstring jsstring) (d : Document) : Document :=
  {| style := s; data_theme := data_theme d; style_colorScheme := style_colorScheme d;
     meta_theme_color := meta_theme_color d |}.

(** Drops what the other themes set and this one does not. *)
Definition remove_vars (t : ThemeDef) (s : gmap jsstring jsstring) : gmap jsstring jsstring :=
  foldl (λ s theme,
    foldl (λ s k, if bool_decide (k ∈ (cssVars t).*1) then s else delete k s) s (cssVars theme).*1)
    s THEME_LIST.

Definition set_vars (t : ThemeDef) (s : gmap jsstring jsstring) : gmap jsstring jsstring :=
  foldl (λ s kv, <[kv.1 := kv.2]> s) s (cssVars t).

(** [None]: there is no document. *)
Definition applyTheme (i : jsstring) (d : option Document) : result unit * option Document :=
  match d with
  | None => (Ok tt, None)
  | Some d =>
      match theme_at i with
      | None => (Throw (type_error "Cannot use 'in' operator to search for '--background' in undefined"), Some d)
      | Some t =>
          (Ok tt, Some {| style := set_vars t (remove_vars t (style d));
                          data_theme := Some (theme_id t);
                          style_colorScheme := colorScheme t;
                          meta_theme_color := Some (themeColor t) |})
      end
  end.

(** ** The context *)

Definition STORAGE_KEY : jsstring := js "theme".

Definition initialThemeId (st : storage) : result jsstring :=
  let! saved := storage_get st STORAGE_KEY in
  Ok (match saved with
      | Some s => if isThemeId (Some s) then s else DEFAULT_THEME_ID
      | None => DEFAULT_THEME_ID
      end).

Record ThemeState := { themeId : jsstring; cancelled : bool; theme_storage : storage }.

(** Whether the reconciling request is made on mount. *)
Definition reconcile_wanted (st : storage) : result bool :=
  let! t := storage_get st (js "token") in
  Ok (bool_decide (is_Some (truthy t))).

(** The answer of [getSettings]: the theme it names, or a failure.  A failing write rejects
    into the same [catch], after the state has changed. *)
Definition reconcile (answer : result (option jsstring)) (s : ThemeState) : ThemeState :=
  match answer with
  | Ok (Some t) =>
      if cancelled s || negb (isThemeId (Some t)) then s
      else {| themeId := t; cancelled := cancelled s;
              theme_storage := match storage_set (theme_storage s) STORAGE_KEY t with
                               | Ok st => st | Throw _ => theme_storage s end |}
  | _ => s
  end.

(** The state is set first; the write to storage may throw. *)
Definition setTheme (i : jsstring) (s : ThemeState) : result unit * ThemeState :=
  match storage_set (theme_storage s) STORAGE_KEY i with
  | Ok st => (Ok tt, {| themeId := i; cancelled := cancelled s; theme_storage := st |})
  | Throw e => (Throw e, {| themeId := i; cancelled := cancelled s;
                            theme_storage := theme_storage s |})
  end.

(** [useTheme]: the provider's value, or the default outside one. *)
Definition useTheme (ctx : option ThemeState) : jsstring * option ThemeDef :=
  match ctx with
  | Some s => (themeId s, assoc_get (themeId s) THEMES)
  | None => (DEFAULT_THEME_ID, assoc_get DEFAULT_THEME_ID THEMES)
  end.

(** ** Facts *)

(** The variables some theme sets. *)
Definition theme_keys : list jsstring := concat ((λ t, (cssVars t).*1) <$> THEME_LIST).

Lemma delete_loop_lookup (P : jsstring → bool) (ks : list jsstring) (s : gmap jsstring jsstring) (k : jsstring) :
  foldl (λ s k, if P k then s else delete k s) s ks !! k
  = if bool_decide (k ∈ ks) && negb (P k) then None else s !! k.
Proof.
  revert s. induction ks as [|k' ks IH]; intros s; simpl; [done|].
  rewrite IH. destruct (decide (k = k')) as [->|Hk].
  - rewrite (bool_decide_eq_true_2 (k' ∈ k' :: ks)) by apply list_elem_of_here. cbn [andb].
    destruct (P k'); cbn [negb]; [by rewrite andb_false_r|].
    rewrite lookup_delete_eq. by case_if.
  - assert (E : bool_decide (k ∈ k' :: ks) = bool_decide (k ∈ ks)).
    { apply bool_decide_ext. rewrite elem_of_cons. naive_solver. }
    rewrite E. case_if; [done|]. destruct (P k'); [done|]. by rewrite lookup_delete_ne.
Qed.

Lemma remove_loop_lookup (P : jsstring → bool) (ts : list ThemeDef) (s : gmap jsstring jsstring) (k : jsstring) :
  foldl (λ s theme, foldl (λ s k, if P k then s else delete k s) s (cssVars theme).*1) s ts !! k
  = if bool_decide (k ∈ concat ((λ t, (cssVars t).*1) <$> ts)) && negb (P k) then None else s !! k.
Proof.
  revert s. induction ts as [|t ts IH]; intros s; [done|].
  cbn [foldl fmap list_fmap concat]. rewrite IH, delete_loop_lookup.
  set (A := (cssVars t).*1). set (B := concat _).
  assert (E : bool_decide (k ∈ A ++ B) = bool_decide (k ∈ A) || bool_decide (k ∈ B)).
  { destruct (bool_decide_reflect (k ∈ A)), (bool_decide_reflect (k ∈ B)); cbn;
      [apply bool_decide_eq_true_2 | apply bool_decide_eq_true_2 | apply bool_decide_eq_true_2
      | apply bool_decide_eq_false_2]; rewrite elem_of_app; tauto. }
  rewrite E. destruct (bool_decide (k ∈ A)), (bool_decide (k ∈ B)), (P k); done.
Qed.

Lemma remove_vars_lookup t s (k : jsstring) :
  remove_vars t s !! k =
  if bool_decide (k ∈ theme_keys) && negb (bool_decide (k ∈ (cssVars t).*1)) then None else s !! k.
Proof. apply (remove_loop_lookup (λ k, bool_decide (k ∈ (cssVars t).*1))). Qed.

Lemma set_vars_lookup (vs : list (jsstring * jsstring)) (s : gmap jsstring jsstring) (k : jsstring) :
  NoDup vs.*1 →
  foldl (λ s kv, <[kv.1 := kv.2]> s) s vs !! k
  = match assoc_get k vs with Some v => Some v | None => s !! k end.
Proof.
  revert s. induction vs as [|[k' v] vs IH]; intros s Hn; simpl; [done|].
  apply NoDup_cons in Hn as [Hk Hn]. rewrite IH by done.
  case_decide as E.
  - subst k'. apply assoc_get_None in Hk. cbn [fst] in Hk. by rewrite Hk, lookup_insert_eq.
  - by rewrite lookup_insert_ne.
Qed.

Lemma THEMES_wf i t :
  assoc_get i THEMES = Some t →
  theme_id t = i ∧ NoDup (cssVars t).*1 ∧ (∀ k, k ∈ (cssVars t).*1 → k ∈ theme_keys).
Proof.
  intros Hi.
  assert (Hall : forallb (λ kt, bool_decide (theme_id kt.2 = kt.1) &&
                    bool_decide (NoDup (cssVars kt.2).*1)) THEMES = true) by (vm_compute; reflexivity).
  rewrite forallb_forall in Hall.
  assert (Hin : In (i, t) THEMES).
  { clear Hall. induction THEMES as [|[k' t'] l IH]; [done|]. simpl in *.
    destruct (decide (k' = i)) as [->|]; [left; congruence | right; by apply IH]. }
  specialize (Hall _ Hin). apply andb_true_iff in Hall as [H1 H2].
  apply bool_decide_eq_true_1 in H1, H2. split_and!; [done|done|].
  intros k Hk. unfold theme_keys. apply elem_of_concat. exists (cssVars t).*1.
  split; [done|]. apply list_elem_of_fmap. exists t. split; [done|].
  apply list_elem_of_fmap. exists (i, t). by rewrite list_elem_of_In.
Qed.

Lemma theme_style (i : jsstring) (t : ThemeDef) (s : gmap jsstring jsstring) (k : jsstring) :
  assoc_get i THEMES = Some t →
  set_vars t (remove_vars t s) !! k =
  match assoc_get k (cssVars t) with
  | Some v => Some v
  | None => if bool_decide (k ∈ theme_keys) then None else s !! k
  end.
Proof.
  intros Hi. destruct (THEMES_wf i t Hi) as (_ & Hn & _).
  unfold set_vars. rewrite set_vars_lookup by done.
  destruct (assoc_get k (cssVars t)) as [v|] eqn:E; [done|].
  apply assoc_get_None in E. rewrite remove_vars_lookup.
  rewrite (bool_decide_eq_false_2 (k ∈ (cssVars t).*1)) by done. by rewrite andb_true_r.
Qed.

Lemma theme_foreign_key i t (k : jsstring) :
  assoc_get i THEMES = Some t → k ∉ theme_keys → assoc_get k (cssVars t) = None.
Proof.
  intros Hi Hk. destruct (THEMES_wf i t Hi) as (_ & _ & Hin).
  apply assoc_get_None. intros H. by apply Hk, Hin.
Qed.

(** Switching to a theme leaves on the root exactly its variables: each has the theme's
    value, every variable of another theme that this one does not set is gone, anything else
    on the root is untouched; the data attribute, the colour scheme and the title colour are
    the theme's.  So the result does not depend on the themes applied before. *)
Theorem applyTheme_exact i t d :
  assoc_get i THEMES = Some t →
  ∃ d', applyTheme i (Some d) = (Ok tt, Some d') ∧
    (∀ k, style d' !! k =
       match assoc_get k (cssVars t) with
       | Some v => Some v
       | None => if bool_decide (k ∈ theme_keys) then None else style d !! k
       end) ∧
    data_theme d' = Some i ∧ style_colorScheme d' = colorScheme t ∧
    meta_theme_color d' = Some (themeColor t) ∧
    (∀ j, is_Some (assoc_get j THEMES) →
       applyTheme i ((applyTheme j (Some d)).2) = (Ok tt, Some d')).
Proof.
  intros Hi. destruct (THEMES_wf i t Hi) as (Hid & _).
  unfold applyTheme, theme_at. rewrite Hi. eexists. split; [done|].
  cbn [style data_theme style_colorScheme meta_theme_color].
  split_and!; [intros k; by apply (theme_style i) | by rewrite Hid | done | done |].
  intros j [t' Hj]. rewrite Hj. cbn [snd style].
  assert (E : set_vars t (remove_vars t (set_vars t' (remove_vars t' (style d))))
              = set_vars t (remove_vars t (style d))); [|by rewrite E].
  apply map_eq. intros k. rewrite !(theme_style i t) by done.
  destruct (assoc_get k (cssVars t)); [reflexivity|].
  destruct (bool_decide_reflect (k ∈ theme_keys)) as [|Hnk]; [reflexivity|].
  rewrite (theme_style j t' _ k Hj), (theme_foreign_key j t' k Hj Hnk).
  by rewrite bool_decide_eq_false_2.
Qed.

(** The name of any inherited property passes for a theme: it is accepted from storage and
    from the server, and applying it throws. *)
Theorem inherited_theme_accepted i st m d :
  i ∈ inherited → st = Some m → m !! STORAGE_KEY = Some i →
  initialThemeId st = Ok i ∧
  (∀ s, cancelled s = false → themeId (reconcile (Ok (Some i)) s) = i) ∧
  (∃ e, applyTheme i (Some d) = (Throw e, Some d)).
Proof.
  intros Hi -> Hm.
  assert (Hne : truthy (Some i) = Some i ∧ assoc_get i THEMES = None).
  { assert (H : forallb (λ i, bool_decide (truthy (Some i) = Some i ∧ i ∉ THEMES.*1)) inherited = true)
      by (vm_compute; reflexivity).
    rewrite forallb_forall in H. rewrite list_elem_of_In in Hi. specialize (H i Hi).
    apply bool_decide_eq_true_1 in H as [H1 H2]. split; [done|]. by apply assoc_get_None. }
  destruct Hne as [Ht Ha].
  assert (His : isThemeId (Some i) = true).
  { unfold isThemeId. rewrite Ht, (bool_decide_eq_true_2 (i ∈ inherited)) by done.
    apply orb_true_r. }
  split_and!.
  - unfold initialThemeId, storage_get. rewrite Hm. cbn [rbind]. by rewrite His.
  - intros s Hc. unfold reconcile. by rewrite Hc, His.
  - unfold applyTheme, theme_at. rewrite Ha, bool_decide_eq_true_2 by done. by eexists.
Qed.

(** ** Witnesses *)

Definition demo_document : Document :=
  {| style := {[ js "--glow" := js "x"; js "--other" := js "y" ]}; data_theme := None;
     style_colorScheme := []; meta_theme_color := None |}.

Lemma applyTheme_witness :
  ∃ d', applyTheme (js "dark-blue") (Some demo_document) = (Ok tt, Some d') ∧
    style d' !! js "--glow" = None ∧ style d' !! js "--other" = Some (js "y").
Proof.
  destruct (applyTheme_exact (js "dark-blue") theme_dark_blue demo_document eq_refl)
    as (d' & E & Hs & _).
  exists d'. rewrite !Hs. split; [exact E|]. split; vm_compute; reflexivity.
Defined.

Lemma inherited_theme_witness :
  initialThemeId (Some {[ js "theme" := js "constructor" ]}) = Ok (js "constructor").
Proof.
  apply (inherited_theme_accepted (js "constructor") _ {[ js "theme" := js "constructor" ]} demo_document).
  - apply list_elem_of_here.
  - reflexivity.
  - reflexivity.
Defined.
