(* ===== verification/FrostWire.v ===== *)
(** * The wire format of the threshold signing messages ([lib/crypto/frost-encoding.ts])

    The curve library is the interface [NobleFrost]: no law of it is needed here beyond
    what each theorem names. *)

From S2P Require Import Prelude Js.
#[local] Open Scope Z_scope.
#[local] Open Scope js_scope.

Definition ED25519_GROUP_ID : Z := 6.
Definition SCALAR_SIZE : nat := 32.
Definition ELEMENT_SIZE : nat := 32.

(** [a[i]] at an index known to be in range. *)
Definition u8_get (a : bytes) (i : nat) : Z := nth i a 0.

Record FROSTShare := {
  identifier : bytes;
  secretShare : bytes;
  groupPublicKey : bytes;
  verifyingShare : bytes;
}.

Record FROSTCommitment := { signerId : Z; hiding : bytes; binding : bytes }.

(** An entry of the commitment list handed to the curve library. *)
Record ListedCommitment := {
  lc_identifier : jsstring;
  lc_hiding : bytes;
  lc_binding : bytes;
}.

(** What [ed25519_FROST.commit] returns. *)
Record CommitOutput := {
  nonce_hiding : bytes;
  nonce_binding : bytes;
  commit_identifier : jsstring;
  commit_hiding : bytes;
  commit_binding : bytes;
}.

(** The public configuration handed to [signShare]. *)
Record FrostPublic := {
  pub_commitments : list bytes;
  pub_verifyingShares : list (jsstring * bytes);
}.

Class NobleFrost := {
  (** [ed25519_FROST.Identifier.fromNumber]. *)
  Identifier_fromNumber : Z → result jsstring;
  (** [ed25519_FROST.commit], with its random input: identifier and signing share. *)
  frost_commit : bytes → jsstring → bytes → result CommitOutput;
  (** [ed25519_FROST.signShare]: identifier and signing share, public configuration, the
      contents of the two nonce buffers, commitments, message.  It may overwrite the nonce
      buffers: their contents afterwards are returned with the completion. *)
  frost_signShare : jsstring → bytes → FrostPublic → bytes → bytes →
    list ListedCommitment → bytes → result bytes * (bytes * bytes);
  (** The compressed encoding of a multiple of the base point. *)
  base_multiply : Z → result bytes;
}.

Section wire.
Context {NF : NobleFrost}.

Definition deserializeShare (data : bytes) : result FROSTShare :=
  if (length data <? 1 + 8 + SCALAR_SIZE)%nat then
    Throw (plain_error (js "Invalid share length: " ++ of_int (Z.of_nat (length data))))
  else
  let groupId := u8_get data 0 in
  if negb (groupId =? ED25519_GROUP_ID) then
    Throw (plain_error (js "Unexpected group identifier: " ++ of_int groupId ++
                        js ", expected " ++ of_int ED25519_GROUP_ID))
  else
  let offset := 1%nat in
  let identifierBytes := u8_slice data offset (offset + 8) in
  let offset := (offset + 8)%nat in
  let secretShare := u8_slice data offset (offset + SCALAR_SIZE) in
  let offset := (offset + SCALAR_SIZE)%nat in
  let groupPublicKey :=
    if (offset + ELEMENT_SIZE <=? length data)%nat
    then u8_slice data offset (offset + ELEMENT_SIZE) else u8_new ELEMENT_SIZE in
  let verifyingShare := u8_slice_from data 1 in
  Ok {| identifier := identifierBytes; secretShare := secretShare;
        groupPublicKey := groupPublicKey; verifyingShare := verifyingShare |}.

Definition extractVerifyingKey (publicKeyShare : bytes) : result bytes :=
  let VERIFYING_KEY_OFFSET := 7%nat in
  if (length publicKeyShare <? VERIFYING_KEY_OFFSET + ELEMENT_SIZE)%nat then
    Throw (plain_error (js "Invalid public key share length: " ++
                        of_int (Z.of_nat (length publicKeyShare))))
  else Ok (u8_slice publicKeyShare VERIFYING_KEY_OFFSET (VERIFYING_KEY_OFFSET + ELEMENT_SIZE)).

Definition extractCommitments (serverVerifyingShare : bytes) : list bytes :=
  let GROUP_KEY_OFFSET := 39%nat in
  let SECOND_COMMITMENT_OFFSET := 71%nat in
  if (GROUP_KEY_OFFSET + ELEMENT_SIZE <=? length serverVerifyingShare)%nat then
    u8_slice serverVerifyingShare GROUP_KEY_OFFSET (GROUP_KEY_OFFSET + ELEMENT_SIZE) ::
    (if (SECOND_COMMITMENT_OFFSET + ELEMENT_SIZE <=? length serverVerifyingShare)%nat then
       [u8_slice serverVerifyingShare SECOND_COMMITMENT_OFFSET
          (SECOND_COMMITMENT_OFFSET + ELEMENT_SIZE)]
     else [])
  else [].

Definition decodeCommitment (encoded : bytes) : result FROSTCommitment :=
  if (length encoded <? 1 + 8 + 2 + ELEMENT_SIZE + ELEMENT_SIZE)%nat then
    Throw (plain_error (js "Invalid commitment length: " ++ of_int (Z.of_nat (length encoded))))
  else if negb (u8_get encoded 0 =? ED25519_GROUP_ID) then
    Throw (plain_error (js "Unexpected group ID: " ++ of_int (u8_get encoded 0)))
  else
  let signerId := Z.lor (u8_get encoded 9) (Z.shiftl (u8_get encoded 10) 8) in
  let hiding := u8_slice encoded 11 (11 + ELEMENT_SIZE) in
  let binding := u8_slice encoded (11 + ELEMENT_SIZE) (11 + 2 * ELEMENT_SIZE) in
  Ok {| signerId := signerId; hiding := hiding; binding := binding |}.

Definition encodeCommitment (signerId : Z) (hiding binding : bytes) : result bytes :=
  let commitment := u8_new (1 + 8 + 2 + ELEMENT_SIZE + ELEMENT_SIZE) in
  let offset := 0%nat in
  let commitment := u8_store commitment offset ED25519_GROUP_ID in
  let offset := S offset in
  let offset := (offset + 8)%nat in
  let commitment := u8_store commitment offset (Z.land signerId 0xff) in
  let offset := S offset in
  let commitment := u8_store commitment offset (Z.land (Z.shiftr signerId 8) 0xff) in
  let offset := S offset in
  let! commitment := u8_set commitment hiding offset in
  let offset := (offset + ELEMENT_SIZE)%nat in
  u8_set commitment binding offset.

Definition decodeSignatureShare (encoded : bytes) : result (Z * bytes) :=
  if (length encoded <? 1 + 2 + SCALAR_SIZE)%nat then
    Throw (plain_error (js "Invalid signature share length: " ++
                        of_int (Z.of_nat (length encoded))))
  else if negb (u8_get encoded 0 =? ED25519_GROUP_ID) then
    Throw (plain_error (js "Unexpected group ID: " ++ of_int (u8_get encoded 0)))
  else
  let signerId := Z.lor (u8_get encoded 1) (Z.shiftl (u8_get encoded 2) 8) in
  Ok (signerId, u8_slice encoded 3 (3 + SCALAR_SIZE)).

Definition encodeSignatureShare (signerId : Z) (sigShare : bytes) : result bytes :=
  let encoded := u8_new (1 + 2 + SCALAR_SIZE) in
  let encoded := u8_store encoded 0 ED25519_GROUP_ID in
  let encoded := u8_store encoded 1 (Z.land signerId 0xff) in
  let encoded := u8_store encoded 2 (Z.land (Z.shiftr signerId 8) 0xff) in
  u8_set encoded sigShare 3.

(** The comparator [(a, b) => a.signerId - b.signerId]. *)
Definition by_signer (a b : FROSTCommitment) : Z := signerId a - signerId b.

Definition buildCommitmentList (serverCommitment clientCommitment : bytes)
    : result (list ListedCommitment) :=
  let! serverDecoded := decodeCommitment serverCommitment in
  let! clientDecoded := decodeCommitment clientCommitment in
  let sorted := array_sort by_signer [serverDecoded; clientDecoded] in
  array_map (λ c,
    let! i := Identifier_fromNumber (signerId c) in
    Ok {| lc_identifier := i; lc_hiding := hiding c; lc_binding := binding c |}) sorted.
End wire.

(** ** Facts *)

(** Little-endian split and join of a 16-bit number. *)
Lemma uint16_join s :
  0 <= s < 65536 → Z.lor (Z.land s 255) (Z.shiftl (Z.land (Z.shiftr s 8) 255) 8) = s.
Proof.
  intros Hs. apply Z.bits_inj'. intros n Hn.
  rewrite Z.lor_spec, Z.shiftl_spec, !Z.land_spec by done.
  change 255 with (Z.ones 8).
  destruct (Z.ltb_spec n 8).
  - rewrite Z.ones_spec_low, andb_true_r by lia.
    rewrite (Z.testbit_neg_r (Z.shiftr s 8) (n - 8)) by lia. by rewrite orb_false_r.
  - rewrite Z.ones_spec_high, andb_false_r by lia. simpl.
    rewrite Z.shiftr_spec by lia. replace (n - 8 + 8) with n by lia.
    destruct (Z.ltb_spec n 16).
    + by rewrite Z.ones_spec_low, andb_true_r by lia.
    + rewrite Z.ones_spec_high, andb_false_r by lia. symmetry.
      destruct (decide (s = 0)) as [->|]; [apply Z.bits_0|].
      apply Z.bits_above_log2; [lia|]. apply Z.lt_le_trans with 16; [|lia].
      apply Z.log2_lt_pow2; lia.
Qed.

Lemma uint16_bytes s :
  Z.land s 255 mod 256 = Z.land s 255 ∧
  Z.land (Z.shiftr s 8) 255 mod 256 = Z.land (Z.shiftr s 8) 255.
Proof.
  change 255 with (Z.ones 8). rewrite !Z.land_ones by lia.
  change (2 ^ 8) with 256. by rewrite !Zmod_mod.
Qed.

Lemma encodeCommitment_ok s h b :
  length h = 32%nat → length b = 32%nat →
  encodeCommitment s h b =
  Ok (([6] ++ replicate 8 0 ++ [Z.land s 255; Z.land (Z.shiftr s 8) 255]) ++ h ++ b).
Proof.
  intros Hh Hb. unfold encodeCommitment, u8_store.
  destruct (uint16_bytes s) as [-> ->].
  set (x := Z.land s 255). set (y := Z.land (Z.shiftr s 8) 255).
  set (pre := [6] ++ replicate 8 0 ++ [x; y]).
  change (u8_new _) with (replicate 11 0 ++ replicate 64 0).
  change (<[_ := y]> _) with (pre ++ replicate 64 0).
  change (S (S (S 0 + 8))) with (length pre). clearbody pre.
  rewrite u8_set_append by lia. cbn [rbind]. unfold ELEMENT_SIZE.
  replace (length pre + 32)%nat with (length (pre ++ h)) by (rewrite length_app; lia).
  rewrite u8_set_append by lia. rewrite Hh, Hb.
  cbn [replicate Nat.sub]. by rewrite app_nil_r, <- app_assoc.
Qed.

Lemma encodeSignatureShare_ok s b :
  length b = 32%nat →
  encodeSignatureShare s b = Ok ([6; Z.land s 255; Z.land (Z.shiftr s 8) 255] ++ b).
Proof.
  intros Hb. unfold encodeSignatureShare, u8_store.
  destruct (uint16_bytes s) as [-> ->].
  set (x := Z.land s 255). set (y := Z.land (Z.shiftr s 8) 255).
  change (<[_ := y]> _) with ([6; x; y] ++ replicate 32 0).
  etrans; [apply (u8_set_append [6; x; y] b 32); lia|].
  rewrite Hb. cbn [replicate Nat.sub]. by rewrite app_nil_r.
Qed.

(** The middle of three concatenated parts. *)
Lemma u8_slice_mid (p h r : bytes) i j :
  length p = i → (i + length h)%nat = j → u8_slice (p ++ h ++ r) i j = h.
Proof.
  intros Hp <-. unfold u8_slice. rewrite drop_app_exact by done.
  apply take_app_exact. lia.
Qed.

Lemma u8_slice_end (p h : bytes) i j :
  length p = i → (i + length h)%nat = j → u8_slice (p ++ h) i j = h.
Proof. intros Hp Hj. rewrite <- (app_nil_r h) at 1. by apply u8_slice_mid. Qed.

Lemma u8_get_app (p r : bytes) i : (i < length p)%nat → u8_get (p ++ r) i = u8_get p i.
Proof. intros. unfold u8_get. by apply app_nth1. Qed.

(** A commitment survives the wire: it is encoded to the 75 bytes of the format and
    decoded to the same signer and the same two points. *)
Theorem decode_encodeCommitment s h b :
  0 <= s < 65536 → length h = 32%nat → length b = 32%nat →
  ∃ w, encodeCommitment s h b = Ok w ∧ length w = 75%nat ∧
    decodeCommitment w = Ok {| signerId := s; hiding := h; binding := b |}.
Proof.
  intros Hs Hh Hb. rewrite encodeCommitment_ok by done. eexists. split; [done|].
  set (pre := [6] ++ _). assert (Hp : length pre = 11%nat) by done.
  assert (Hl : length (pre ++ h ++ b) = 75%nat) by (rewrite !length_app; lia).
  split; [done|]. unfold decodeCommitment. rewrite Hl, !u8_get_app by lia.
  change (u8_get pre 0) with ED25519_GROUP_ID.
  change (u8_get pre 9) with (Z.land s 255).
  change (u8_get pre 10) with (Z.land (Z.shiftr s 8) 255).
  rewrite uint16_join, u8_slice_mid by (done || (unfold ELEMENT_SIZE; lia)).
  pose proof (u8_slice_end (pre ++ h) b 43 75 ltac:(rewrite length_app; lia) ltac:(lia)) as E.
  rewrite <- app_assoc in E. unfold ELEMENT_SIZE. cbn [Nat.add Nat.mul]. by rewrite E.
Qed.

(** A signature share survives the wire: 35 bytes that decode to the same signer and
    scalar, and only a frame of that group and size is decoded. *)
Theorem decode_encodeSignatureShare :
  (∀ s x, 0 <= s < 65536 → length x = 32%nat →
     ∃ w, encodeSignatureShare s x = Ok w ∧ length w = 35%nat ∧
       decodeSignatureShare w = Ok (s, x)) ∧
  (∀ w r, decodeSignatureShare w = Ok r → (35 <= length w)%nat ∧ head w = Some 6).
Proof.
  split.
  - intros s x Hs Hx. rewrite encodeSignatureShare_ok by done. eexists. split; [done|].
    set (pre := [6; _; _]). assert (Hp : length pre = 3%nat) by done.
    assert (Hl : length (pre ++ x) = 35%nat) by (rewrite length_app; lia).
    split; [done|]. unfold decodeSignatureShare. rewrite Hl, !u8_get_app by lia.
    change (u8_get pre 0) with ED25519_GROUP_ID.
    change (u8_get pre 1) with (Z.land s 255).
    change (u8_get pre 2) with (Z.land (Z.shiftr s 8) 255).
    by rewrite uint16_join, u8_slice_end by (done || (unfold SCALAR_SIZE; lia)).
  - intros w r. unfold decodeSignatureShare, SCALAR_SIZE, ED25519_GROUP_ID.
    destruct (Nat.ltb_spec (length w) (1 + 2 + 32)); [done|].
    destruct w as [|g w]; [simpl in *; lia|]. cbn [u8_get nth head].
    destruct (Z.eqb_spec g 6) as [->|]; [|done]. intros _. split; [lia|done].
Qed.

Lemma decodeCommitment_ok_inv w c :
  decodeCommitment w = Ok c →
  (75 <= length w)%nat ∧ head w = Some 6 ∧
  length (hiding c) = 32%nat ∧ length (binding c) = 32%nat.
Proof.
  unfold decodeCommitment, ELEMENT_SIZE, ED25519_GROUP_ID.
  destruct (Nat.ltb_spec (length w) (1 + 8 + 2 + 32 + 32)) as [|Hw]; [done|].
  destruct (negb _) eqn:E; [done|]. intros [= <-]. cbn [hiding binding].
  unfold u8_slice. rewrite !length_take, !length_drop. zbool.
  split_and!; [lia| |lia|lia].
  destruct w as [|g w]; [simpl in *; lia|]. by rewrite <- E.
Qed.

(** The commitment list handed to the curve library holds the two parties' commitments
    and nothing else, in the order of their signer numbers, whatever the order of the
    arguments; it is built exactly when both decode and both numbers are identifiers. *)
Theorem buildCommitmentList_sorted {NF : NobleFrost} server client sd cd si ci :
  decodeCommitment server = Ok sd → decodeCommitment client = Ok cd →
  Identifier_fromNumber (signerId sd) = Ok si → Identifier_fromNumber (signerId cd) = Ok ci →
  let item c i := {| lc_identifier := i; lc_hiding := hiding c; lc_binding := binding c |} in
  buildCommitmentList server client =
  Ok (if signerId sd <=? signerId cd then [item sd si; item cd ci] else [item cd ci; item sd si]).
Proof.
  intros Hsd Hcd Hsi Hci item. unfold buildCommitmentList. rewrite Hsd, Hcd.
  cbn [rbind array_sort foldr sort_insert]. unfold by_signer.
  replace (signerId sd - signerId cd <=? 0) with (signerId sd <=? signerId cd)
    by (destruct (Z.leb_spec (signerId sd) (signerId cd)),
          (Z.leb_spec (signerId sd - signerId cd) 0); (done || lia)).
  case_if; cbn [array_map]; rewrite Hsi, Hci; done.
Qed.

(** ** A concrete curve interface *)

(** Identifiers are 32-byte little-endian hexadecimal strings; the "commitments" repeat the
    nonces; [signShare] zeroes the nonces it consumed, and refuses a single commitment. *)
#[export] Instance toy_noble : NobleFrost :=
  {| Identifier_fromNumber n :=
       if (n <=? 0) || (255 <? n) then Throw (plain_error (js "invalid scalar"))
       else Ok (pad_start 2 48 (number_to_string 16 n) ++ replicate 62 48);
     frost_commit rnd i share :=
       Ok {| nonce_hiding := replicate 32 (nth 0 rnd 7); nonce_binding := replicate 32 (nth 1 rnd 8);
             commit_identifier := i;
             commit_hiding := replicate 32 3; commit_binding := replicate 32 4 |};
     frost_signShare i share pub h b l m :=
       if (length l =? 2)%nat
       then (Ok (replicate 32 (nth 0 h 0)), (u8_fill0 h, u8_fill0 b))
       else (Throw (plain_error (js "bad commitments")), (h, b));
     base_multiply n := if n =? 0 then Throw (plain_error (js "invalid scalar"))
                        else Ok (replicate 32 (n mod 256)) |}.

(** ** Witnesses *)

Lemma decode_encodeCommitment_witness :
  ∃ w, encodeCommitment 258 (replicate 32 1) (replicate 32 2) = Ok w ∧ length w = 75%nat ∧
    decodeCommitment w =
    Ok {| signerId := 258; hiding := replicate 32 1; binding := replicate 32 2 |}.
Proof. apply decode_encodeCommitment; [lia | reflexivity | reflexivity]. Defined.

Definition demo_commitment (s : Z) : bytes :=
  match encodeCommitment s (replicate 32 s) (replicate 32 9) with Ok w => w | _ => [] end.

Lemma buildCommitmentList_witness :
  let item s := {| lc_identifier := match Identifier_fromNumber s with Ok i => i | _ => [] end;
                   lc_hiding := replicate 32 s; lc_binding := replicate 32 9 |} in
  buildCommitmentList (demo_commitment 2) (demo_commitment 1) = Ok [item 1; item 2].
Proof.
  apply (buildCommitmentList_sorted (demo_commitment 2) (demo_commitment 1)
           {| signerId := 2; hiding := replicate 32 2; binding := replicate 32 9 |}
           {| signerId := 1; hiding := replicate 32 1; binding := replicate 32 9 |});
    reflexivity.
Defined.
