(* ===== verification/Frost.v ===== *)
(** * The client's side of threshold signing ([lib/crypto/frost.ts])

    Secret material lives in buffers of the store: the share, the nonces, and the copies
    of the signing scalar that [slice] makes.  Public values are plain byte strings. *)

From S2P Require Import Prelude Js Memory FrostWire.
#[local] Open Scope Z_scope.
#[local] Open Scope js_scope.

(** [FrostNonces]: two buffers. *)
Record FrostNonces := { n_hiding : addr; n_binding : addr }.

Record FrostSigningState := {
  nonces : FrostNonces;
  fs_commitment : bytes;
  fs_message : bytes;
  clientId : jsstring;
}.

Record GeneratedNonces := {
  gn_nonces : FrostNonces;
  gn_identifier : jsstring;
  gn_hiding : bytes;
  gn_binding : bytes;
  gn_clientId : jsstring;
}.

Section frost.
Context {NF : NobleFrost}.

(** [for (i = length - 1; i >= 0; i--) result = (result << 8n) | BigInt(bytes[i])]. *)
Definition bytesToScalar (bs : bytes) : Z :=
  foldr (λ b result, Z.lor (Z.shiftl result 8) b) 0 bs.

Definition scalarMultiplyBase (scalar : bytes) : result bytes :=
  if negb (length scalar =? SCALAR_SIZE)%nat then
    Throw (plain_error (js "Invalid scalar length: " ++ of_int (Z.of_nat (length scalar))))
  else base_multiply (bytesToScalar scalar).

Definition computeCommitment (identifier : Z) (n : FrostNonces) : HM bytes :=
  let* h := hload (n_hiding n) in
  let* hidingCommitment := slift (scalarMultiplyBase h) in
  let* b := hload (n_binding n) in
  let* bindingCommitment := slift (scalarMultiplyBase b) in
  slift (encodeCommitment identifier hidingCommitment bindingCommitment).

Definition expectedScalarOffset : nat := 103.

(** The validation at the head of [generateNonces]: the participant number. *)
Definition checkClientShare (clientShare : bytes) : result Z :=
  if (length clientShare <? 100)%nat then
    Throw (plain_error (js "Invalid client share length: " ++
                        of_int (Z.of_nat (length clientShare))))
  else if negb (u8_get clientShare 0 =? ED25519_GROUP_ID) then
    Throw (plain_error (js "Invalid client share: group ID " ++ of_int (u8_get clientShare 0) ++
             js ", expected " ++ of_int ED25519_GROUP_ID ++
             js ". Data may be corrupted or incorrectly decrypted."))
  else
  let clientIdNum := u8_get clientShare 1 in
  if (clientIdNum <=? 0) || (2 <? clientIdNum) then
    Throw (plain_error (js "Invalid client identifier: " ++ of_int clientIdNum ++
             js ". Expected 1 or 2 for 2-of-2 scheme."))
  else Ok clientIdNum.

(** [rnd] is the randomness [commit] draws.  The slice is a new buffer, and so are the
    nonces the library returns. *)
Definition generateNonces (rnd : bytes) (clientShare : addr) : HM GeneratedNonces :=
  let* share := hload clientShare in
  let* clientIdNum := slift (checkClientShare share) in
  let* clientId := slift (Identifier_fromNumber clientIdNum) in
  let* signingShare :=
    halloc (u8_slice share expectedScalarOffset (expectedScalarOffset + SCALAR_SIZE)) in
  let* secret := hload signingShare in
  if (length secret <? SCALAR_SIZE)%nat then
    sthrow (plain_error (js "Invalid secret share: expected " ++
              of_int (Z.of_nat SCALAR_SIZE) ++ js " bytes, got " ++
              of_int (Z.of_nat (length secret))))
  else
  let* result := slift (frost_commit rnd clientId secret) in
  let* hidingNonce := halloc (nonce_hiding result) in
  let* bindingNonce := halloc (nonce_binding result) in
  sret {| gn_nonces := {| n_hiding := hidingNonce; n_binding := bindingNonce |};
          gn_identifier := commit_identifier result;
          gn_hiding := commit_hiding result; gn_binding := commit_binding result;
          gn_clientId := clientId |}.

(** [verifyingShares] is an object: the computed key of the client overrides the server's
    when they are equal. *)
Definition verifyingShares_object (serverId clientId : jsstring) (server client : bytes)
    : list (jsstring * bytes) :=
  if decide (serverId = clientId) then [(clientId, client)]
  else [(serverId, server); (clientId, client)].

Definition computePartialSignature
    (clientShare serverVerifyingShare clientVerifyingShare : addr) (n : FrostNonces)
    (commitmentList : list ListedCommitment) (message : bytes) (clientId : jsstring)
    : HM bytes :=
  let* serverId := slift (Identifier_fromNumber 1) in
  let* share := hload clientShare in
  let* signingShare :=
    halloc (u8_slice share expectedScalarOffset (expectedScalarOffset + SCALAR_SIZE)) in
  let* server := hload serverVerifyingShare in
  let* client := hload clientVerifyingShare in
  let* serverVerifyingKey := slift (extractVerifyingKey server) in
  let* clientVerifyingKey := slift (extractVerifyingKey client) in
  let commitments := extractCommitments server in
  let pub := {| pub_commitments := commitments;
                pub_verifyingShares := verifyingShares_object serverId clientId
                                         serverVerifyingKey clientVerifyingKey |} in
  let* secret := hload signingShare in
  let* hidingNonce := hload (n_hiding n) in
  let* bindingNonce := hload (n_binding n) in
  let '(sigShare, (h', b')) :=
    frost_signShare clientId secret pub hidingNonce bindingNonce commitmentList message in
  let* _ := hstore (n_hiding n) h' in
  let* _ := hstore (n_binding n) b' in
  let* sigShareBytes := slift sigShare in
  let signerId := u8_get share 1 in
  slift (encodeSignatureShare signerId sigShareBytes).

Definition clientRound1 (rnd : bytes) (clientShare : addr) (message : bytes)
    : HM (bytes * FrostSigningState) :=
  let* g := generateNonces rnd clientShare in
  let* commitment := slift (encodeCommitment 2 (gn_hiding g) (gn_binding g)) in
  sret (commitment, {| nonces := gn_nonces g; fs_commitment := commitment;
                       fs_message := message; clientId := gn_clientId g |}).

Definition clientRound2 (clientShare serverVerifyingShare clientVerifyingShare : addr)
    (state : FrostSigningState) (serverCommitment : bytes) : HM bytes :=
  let* commitmentList := slift (buildCommitmentList serverCommitment (fs_commitment state)) in
  let* partialSig :=
    computePartialSignature clientShare serverVerifyingShare clientVerifyingShare
      (nonces state) commitmentList (fs_message state) (clientId state) in
  let* _ := hzero (n_hiding (nonces state)) in
  let* _ := hzero (n_binding (nonces state)) in
  sret partialSig.
End frost.

(** ** Facts *)

(** The value of a little-endian byte string. *)
Fixpoint le_value (bs : bytes) : Z :=
  match bs with
  | [] => 0
  | b :: bs => b + 256 * le_value bs
  end.

Lemma lor_shift_byte v b : 0 <= b < 256 → Z.lor (Z.shiftl v 8) b = b + 256 * v.
Proof.
  intros Hb.
  assert (Hland : Z.land (Z.shiftl v 8) b = 0).
  { apply Z.bits_inj'. intros n Hn. rewrite Z.land_spec, Z.shiftl_spec, Z.bits_0 by lia.
    destruct (Z.ltb_spec n 8); [by rewrite Z.testbit_neg_r by lia|].
    rewrite andb_comm. apply andb_false_intro1.
    destruct (decide (b = 0)) as [->|]; [apply Z.bits_0|].
    apply Z.bits_above_log2; [lia|]. apply Z.lt_le_trans with 8; [|lia].
    apply Z.log2_lt_pow2; lia. }
  rewrite <- Z.lxor_lor, <- Z.add_nocarry_lxor, Z.shiftl_mul_pow2 by (done || lia).
  change (2 ^ 8) with 256. lia.
Qed.

(** The scalar read from a byte string is its little-endian value, and is below
    256 to the power of its length. *)
Theorem bytesToScalar_value bs :
  Forall is_byte bs →
  bytesToScalar bs = le_value bs ∧ 0 <= bytesToScalar bs < 256 ^ Z.of_nat (length bs).
Proof.
  induction 1 as [|b bs Hb _ [IH Hr]]; [by cbn|]. unfold is_byte in Hb.
  assert (E : bytesToScalar (b :: bs) = b + 256 * bytesToScalar bs) by
    (by apply lor_shift_byte).
  rewrite E. cbn [le_value]. rewrite IH in *. split; [done|].
  cbn [length]. rewrite Nat2Z.inj_succ, Z.pow_succ_r by lia. lia.
Qed.

Section frost_theory.
Context {NF : NobleFrost}.

Lemma generateNonces_framed rnd share : framed (λ _, False) (generateNonces rnd share).
Proof. unfold generateNonces. framed_steps. Qed.

#[local] Hint Resolve generateNonces_framed : js.

Lemma clientRound1_framed rnd share message : framed (λ _, False) (clientRound1 rnd share message).
Proof. unfold clientRound1. framed_steps. Qed.

Definition is_nonce (n : FrostNonces) (a : addr) : Prop := a = n_hiding n ∨ a = n_binding n.

Lemma is_nonce_hiding n : is_nonce n (n_hiding n).
Proof. by left. Qed.
Lemma is_nonce_binding n : is_nonce n (n_binding n).
Proof. by right. Qed.

#[local] Hint Resolve is_nonce_hiding is_nonce_binding : js.

Lemma computePartialSignature_framed share sv cv n l m c :
  framed (is_nonce n) (computePartialSignature share sv cv n l m c).
Proof. unfold computePartialSignature. framed_steps. Qed.

#[local] Hint Resolve computePartialSignature_framed : js.

Lemma clientRound2_framed share sv cv st sc :
  framed (is_nonce (nonces st)) (clientRound2 share sv cv st sc).
Proof.
  unfold clientRound2. framed_steps.
Qed.

(** The nonces of a successful round 1 are new buffers, not shared with each other. *)
Lemma generateNonces_fresh rnd share h g h' :
  generateNonces rnd share h = (Ok g, h') →
  let n := gn_nonces g in
  h !! n_hiding n = None ∧ h !! n_binding n = None ∧ n_hiding n ≠ n_binding n ∧
  is_Some (h' !! n_hiding n) ∧ is_Some (h' !! n_binding n).
Proof.
  unfold generateNonces. intros H. hinv H. cbn [gn_nonces n_hiding n_binding].
  match goal with |- context [<[heap_fresh ?h := ?b]> ?h] => set (h1 := <[heap_fresh h := b]> h) end.
  pose proof (heap_fresh_notin h1) as E1. apply lookup_insert_None in E1 as [E1 _].
  match goal with |- context [<[heap_fresh h1 := ?b]> h1] => set (h2 := <[heap_fresh h1 := b]> h1) end.
  destruct (heap_fresh_insert h1 (heap_fresh h1) (nonce_hiding x1)) as [E2 E3].
  fold h2 in E2, E3. apply lookup_insert_None in E2 as [E2 _].
  split_and!; [done | done | congruence | |].
  - rewrite lookup_insert_ne by done. unfold h2. rewrite lookup_insert_eq. by eexists.
  - rewrite lookup_insert_eq. by eexists.
Qed.

(** The slice of the share that holds the signing scalar stays behind in a buffer of its
    own: nothing refers to it any more. *)
Lemma generateNonces_scalar rnd share h g h' :
  generateNonces rnd share h = (Ok g, h') →
  ∃ a, h !! a = None ∧ ¬ is_nonce (gn_nonces g) a ∧
    h' !! a = Some (u8_slice (default [] (h !! share)) expectedScalarOffset
                      (expectedScalarOffset + SCALAR_SIZE)).
Proof.
  unfold generateNonces. intros H. hinv H. unfold is_nonce. cbn [gn_nonces n_hiding n_binding].
  exists (heap_fresh x2). rewrite lookup_insert_eq in *. cbn [default] in *.
  set (h1 := <[heap_fresh x2 := _]> x2).
  pose proof (heap_fresh_notin h1) as E1. apply lookup_insert_None in E1 as [_ E1].
  set (h2 := <[heap_fresh h1 := _]> h1).
  pose proof (heap_fresh_notin h2) as E2. apply lookup_insert_None in E2 as [E2 _].
  apply lookup_insert_None in E2 as [_ E2].
  split_and!; [apply heap_fresh_notin | by intros [?|?] |].
  rewrite (lookup_insert_ne h2) by done. unfold h2. rewrite (lookup_insert_ne h1) by done.
  unfold h1. by rewrite lookup_insert_eq.
Qed.

(** Round 1 touches no existing buffer, and a completed round 1 leaves in the signing
    state two new nonce buffers, distinct, together with the commitment sent to the server
    (signer 2) and the message to be signed. *)
Theorem clientRound1_spec rnd share message h :
  (∀ a, is_Some (h !! a) → (clientRound1 rnd share message h).2 !! a = h !! a) ∧
  (∀ c st h', clientRound1 rnd share message h = (Ok (c, st), h') →
     let n := nonces st in
     fs_commitment st = c ∧ fs_message st = message ∧
     h !! n_hiding n = None ∧ h !! n_binding n = None ∧ n_hiding n ≠ n_binding n).
Proof.
  split.
  - intros a Ha. apply (clientRound1_framed rnd share message h a Ha). tauto.
  - intros c st h' H. unfold clientRound1 in H. hinv H. cbn [nonces fs_commitment fs_message].
    match goal with E : generateNonces _ _ _ = _ |- _ => apply generateNonces_fresh in E end.
    naive_solver.
Qed.

Lemma clientRound1_nonces rnd share message h c st h' :
  clientRound1 rnd share message h = (Ok (c, st), h') →
  is_Some (h' !! n_hiding (nonces st)) ∧ is_Some (h' !! n_binding (nonces st)).
Proof.
  intros H. unfold clientRound1 in H. hinv H. cbn [nonces].
  match goal with E : generateNonces _ _ _ = _ |- _ => apply generateNonces_fresh in E end.
  naive_solver.
Qed.

Lemma clientRound1_scalar rnd share message h c st h' :
  clientRound1 rnd share message h = (Ok (c, st), h') →
  ∃ a, h !! a = None ∧ ¬ is_nonce (nonces st) a ∧
    h' !! a = Some (u8_slice (default [] (h !! share)) expectedScalarOffset
                      (expectedScalarOffset + SCALAR_SIZE)).
Proof. intros H. unfold clientRound1 in H. hinv H. by eapply generateNonces_scalar. Qed.

(** Round 2 changes nothing but the nonces of its signing state, and when it delivers a
    signature share both nonce buffers hold only zeros. *)
Theorem clientRound2_zeroes share sv cv st sc h :
  (∀ a, is_Some (h !! a) → ¬ is_nonce (nonces st) a →
     (clientRound2 share sv cv st sc h).2 !! a = h !! a) ∧
  (∀ p h', clientRound2 share sv cv st sc h = (Ok p, h') →
     zeroed h' (n_hiding (nonces st)) ∧ zeroed h' (n_binding (nonces st))).
Proof.
  split.
  - apply clientRound2_framed.
  - intros p h' H. unfold clientRound2 in H. hinv H. auto with js.
Qed.

(** A completed run of [clientRound2] leaves the nonce buffers zeroed. *)
Lemma clientRound2_ok_zeroed share sv cv st sc h p h' :
  clientRound2 share sv cv st sc h = (Ok p, h') →
  zeroed h' (n_hiding (nonces st)) ∧ zeroed h' (n_binding (nonces st)).
Proof. intros H. unfold clientRound2 in H. hinv H. auto with js. Qed.
End frost_theory.
