(* ===== verification/FrostWorker.v ===== *)
(** * The signing worker ([workers/frost-worker.ts], [types/sshca.ts])

    The worker is a machine: its module-level [state] object, its own store of buffers, its
    timers and the responses it has posted.  Its inputs are the messages of the main thread,
    the passing of time and the firing of a timer. *)

From S2P Require Import Prelude Js Memory FrostWire Frost.
#[local] Open Scope Z_scope.
#[local] Open Scope js_scope.

Definition DEFAULT_TIMEOUT_MS : Z := 30 * 60 * 1000.

(** The delay [setTimeout] uses: its argument as a 32-bit integer, negative delays being
    zero. *)
Definition timer_delay (ms : Z) : Z :=
  let n := ms mod 2 ^ 32 in if n <? 2 ^ 31 then n else 0.

Inductive Round := idle | round1 | round2 | complete.

Record SigningSessionState := {
  sessionId : jsstring;
  round : Round;
  sess_commitment : option bytes;
  partialSignature : option bytes;
}.

Record WorkerState := WS {
  share : option addr;
  groupPublicKey : option addr;
  serverVerifyingShare : option addr;
  clientVerifyingShare : option addr;
  signingState : option FrostSigningState;
  session : option SigningSessionState;
  inactivityTimer : option Z;
  initTimestamp : option Z;
  timeoutMs : Z;
}.

Definition initial_state : WorkerState :=
  WS None None None None None None None None DEFAULT_TIMEOUT_MS.

Inductive WorkerResponse :=
| ready
| commitment_response (commitment : bytes)
| partial_sig (partialSignature : bytes)
| error_response (message : jsstring)
| terminated
| status_response (isActive : bool) (remainingTime : option Z)
    (currentSession : option SigningSessionState).

Record World := {
  ws : WorkerState;
  store : heap;
  now : Z;
  (** Pending timers and the time they are due; every callback is [handleTerminate]. *)
  timers : gmap Z Z;
  next_timer : Z;
  posted : list WorkerResponse;
  closed : bool;
}.

(** [InitPayload] after the structured clone: [None] is anything but a [Uint8Array]; for
    [timeoutMs], anything but a number. *)
Record InitPayload := {
  p_share : option addr;
  p_groupPublicKey : option addr;
  p_server : option addr;
  p_client : option addr;
  p_timeoutMs : option Z;
}.

(** ** State updates *)

Definition upd (f : WorkerState → WorkerState) (w : World) : World :=
  {| ws := f (ws w); store := store w; now := now w; timers := timers w;
     next_timer := next_timer w; posted := posted w; closed := closed w |}.

Definition set_store (h : heap) (w : World) : World :=
  {| ws := ws w; store := h; now := now w; timers := timers w;
     next_timer := next_timer w; posted := posted w; closed := closed w |}.

Definition set_timers (t : gmap Z Z) (n : Z) (w : World) : World :=
  {| ws := ws w; store := store w; now := now w; timers := t;
     next_timer := n; posted := posted w; closed := closed w |}.

Definition set_keys (a b c d : option addr) (s : WorkerState) : WorkerState :=
  WS a b c d (signingState s) (session s) (inactivityTimer s) (initTimestamp s) (timeoutMs s).

Definition set_signing (x : option FrostSigningState) (s : WorkerState) : WorkerState :=
  WS (share s) (groupPublicKey s) (serverVerifyingShare s) (clientVerifyingShare s)
     x (session s) (inactivityTimer s) (initTimestamp s) (timeoutMs s).

Definition set_session (x : option SigningSessionState) (s : WorkerState) : WorkerState :=
  WS (share s) (groupPublicKey s) (serverVerifyingShare s) (clientVerifyingShare s)
     (signingState s) x (inactivityTimer s) (initTimestamp s) (timeoutMs s).

Definition set_timer (t ts : option Z) (s : WorkerState) : WorkerState :=
  WS (share s) (groupPublicKey s) (serverVerifyingShare s) (clientVerifyingShare s)
     (signingState s) (session s) t ts (timeoutMs s).

Definition set_timeout (x : Z) (s : WorkerState) : WorkerState :=
  WS (share s) (groupPublicKey s) (serverVerifyingShare s) (clientVerifyingShare s)
     (signingState s) (session s) (inactivityTimer s) (initTimestamp s) x.

Definition zero_opt (o : option addr) (w : World) : World :=
  match o with Some a => set_store (zeroMemory (store w) a) w | None => w end.

(** Runs a computation of [frost.ts] in the worker's store. *)
Definition run_hm {A} (m : HM A) (w : World) : result A * World :=
  let '(r, h) := m (store w) in (r, set_store h w).

(** ** Timers *)

Definition clearInactivityTimer (w : World) : World :=
  match inactivityTimer (ws w) with
  | Some t =>
      upd (λ s, set_timer None (initTimestamp s) s)
          (set_timers (delete t (timers w)) (next_timer w) w)
  | None => w
  end.

Definition resetInactivityTimer (w : World) : World :=
  let w := clearInactivityTimer w in
  let t := next_timer w in
  upd (set_timer (Some t) (Some (now w)))
      (set_timers (<[t := now w + timer_delay (timeoutMs (ws w))]> (timers w)) (t + 1) w).

(** ** Clearing *)

Definition clearState (w : World) : World :=
  let w := zero_opt (share (ws w)) w in
  let w := upd (λ s, set_keys None (groupPublicKey s) (serverVerifyingShare s)
                       (clientVerifyingShare s) s) w in
  let w := zero_opt (groupPublicKey (ws w)) w in
  let w := upd (λ s, set_keys (share s) None (serverVerifyingShare s)
                       (clientVerifyingShare s) s) w in
  let w := zero_opt (serverVerifyingShare (ws w)) w in
  let w := upd (λ s, set_keys (share s) (groupPublicKey s) None
                       (clientVerifyingShare s) s) w in
  let w := zero_opt (clientVerifyingShare (ws w)) w in
  let w := upd (λ s, set_keys (share s) (groupPublicKey s) (serverVerifyingShare s)
                       None s) w in
  let w :=
    match signingState (ws w) with
    | Some ss =>
        let w := zero_opt (Some (n_hiding (nonces ss))) w in
        let w := zero_opt (Some (n_binding (nonces ss))) w in
        upd (set_signing None) w
    | None => w
    end in
  let w := upd (set_session None) w in
  let w := upd (λ s, set_timer (inactivityTimer s) None s) w in
  clearInactivityTimer w.

(** ** Responses *)

Definition postResponse (r : WorkerResponse) (w : World) : World :=
  {| ws := ws w; store := store w; now := now w; timers := timers w;
     next_timer := next_timer w; posted := posted w ++ [r]; closed := closed w |}.

Definition postError (message : jsstring) (w : World) : World :=
  postResponse (error_response message) w.

(** [self.close()]. *)
Definition close (w : World) : World :=
  {| ws := ws w; store := store w; now := now w; timers := timers w;
     next_timer := next_timer w; posted := posted w; closed := true |}.

Section handlers.
Context {NF : NobleFrost}.

(** [new Uint8Array(a)]: a copy in a new buffer. *)
Definition copy_buffer (a : addr) (w : World) : addr * World :=
  let h := store w in
  (heap_fresh h, set_store (<[heap_fresh h := default [] (h !! a)]> h) w).

Definition handleInit (payload : InitPayload) (w : World) : World :=
  let w := clearState w in
  match p_share payload, p_groupPublicKey payload, p_server payload, p_client payload with
  | None, _, _, _ => postError (js "Invalid share: must be Uint8Array") w
  | _, None, _, _ => postError (js "Invalid groupPublicKey: must be Uint8Array") w
  | _, _, None, _ => postError (js "Invalid verifyingShares.server: must be Uint8Array") w
  | _, _, _, None => postError (js "Invalid verifyingShares.client: must be Uint8Array") w
  | Some sh, Some gpk, Some srv, Some cli =>
      let '(a, w) := copy_buffer sh w in
      let '(b, w) := copy_buffer gpk w in
      let '(c, w) := copy_buffer srv w in
      let '(d, w) := copy_buffer cli w in
      let w := upd (set_keys (Some a) (Some b) (Some c) (Some d)) w in
      let w := match p_timeoutMs payload with
               | Some t => if 0 <? t then upd (set_timeout t) w else w
               | None => w
               end in
      let w := resetInactivityTimer w in
      postResponse ready w
  end.

(** The four keys, when all are set. *)
Definition worker_keys (s : WorkerState) : option (addr * addr * addr * addr) :=
  match share s, groupPublicKey s, serverVerifyingShare s, clientVerifyingShare s with
  | Some a, Some b, Some c, Some d => Some (a, b, c, d)
  | _, _, _, _ => None
  end.

(** [rnd] is the randomness of the nonces. *)
Definition handleRound1 (message : option bytes) (rnd : bytes) (w : World) : World :=
  match worker_keys (ws w) with
  | None => postError (js "Worker not initialized") w
  | Some (sh, _, _, _) =>
      match message with
      | None => postError (js "Invalid message: must be Uint8Array") w
      | Some message =>
          let w := resetInactivityTimer w in
          let '(r, w) := run_hm (clientRound1 rnd sh message) w in
          match r with
          | Ok (commitment, st) =>
              let w := upd (set_signing (Some st)) w in
              let w := upd (set_session (Some
                         {| sessionId := []; round := round1;
                            sess_commitment := Some commitment; partialSignature := None |})) w in
              postResponse (commitment_response commitment) w
          | Throw err => postError (err_message err) w
          end
      end
  end.

Definition handleRound2 (serverCommitment : option bytes) (w : World) : World :=
  match worker_keys (ws w) with
  | None => postError (js "Worker not initialized") w
  | Some (sh, _, srv, cli) =>
      match signingState (ws w) with
      | None => postError (js "No active signing session (call round1 first)") w
      | Some st =>
          match serverCommitment with
          | None => postError (js "Invalid serverCommitment: must be Uint8Array") w
          | Some sc =>
              let w := resetInactivityTimer w in
              let '(r, w) := run_hm (clientRound2 sh srv cli st sc) w in
              match r with
              | Ok p =>
                  let w := upd (set_signing None) w in
                  let w := upd (λ s, set_session
                    ((λ x, {| sessionId := sessionId x; round := round2;
                              sess_commitment := sess_commitment x;
                              partialSignature := Some p |}) <$> session s) s) w in
                  let w := postResponse (partial_sig p) w in
                  upd (set_session None) w
              | Throw err =>
                  let w := upd (set_signing None) w in
                  let w := upd (set_session None) w in
                  postError (err_message err) w
              end
          end
      end
  end.

Definition handleStatus (w : World) : World :=
  let isActive := bool_decide (is_Some (share (ws w))) in
  let remainingTime :=
    match initTimestamp (ws w) with
    | Some ts =>
        if isActive then Some (Z.max 0 (timeoutMs (ws w) - (now w - ts))) else None
    | None => None
    end in
  postResponse (status_response isActive remainingTime (session (ws w))) w.

Definition handleTerminate (w : World) : World :=
  close (postResponse terminated (clearState w)).

(** ** The message handler *)

(** The payloads as sent: contents; the structured clone puts each in a new buffer. *)
Inductive WorkerMessage :=
| M_init (share gpk server client : option bytes) (timeout : option Z)
| M_round1 (message : option bytes) (rnd : bytes)
| M_round2 (serverCommitment : option bytes)
| M_status
| M_terminate
| M_unknown (type : jsstring).

Definition clone_buffer (o : option bytes) (w : World) : option addr * World :=
  match o with
  | Some bs => let h := store w in
               (Some (heap_fresh h), set_store (<[heap_fresh h := bs]> h) w)
  | None => (None, w)
  end.

Definition onmessage (m : WorkerMessage) (w : World) : World :=
  match m with
  | M_init s g v c t =>
      let '(s, w) := clone_buffer s w in
      let '(g, w) := clone_buffer g w in
      let '(v, w) := clone_buffer v w in
      let '(c, w) := clone_buffer c w in
      handleInit {| p_share := s; p_groupPublicKey := g; p_server := v; p_client := c;
                    p_timeoutMs := t |} w
  | M_round1 msg rnd => handleRound1 msg rnd w
  | M_round2 sc => handleRound2 sc w
  | M_status => handleStatus w
  | M_terminate => handleTerminate w
  | M_unknown ty => postError (js "Unknown message type: " ++ ty) w
  end.

Inductive Event :=
| E_message (m : WorkerMessage)
| E_time (ms : Z)
| E_timer (t : Z).

(** A closed worker runs nothing any more; a timer runs once, not before it is due. *)
Definition step (w : World) (e : Event) : World :=
  if closed w then w else
  match e with
  | E_message m => onmessage m w
  | E_time ms =>
      {| ws := ws w; store := store w; now := now w + Z.max 0 ms; timers := timers w;
         next_timer := next_timer w; posted := posted w; closed := closed w |}
  | E_timer t =>
      match timers w !! t with
      | Some due =>
          if due <=? now w
          then handleTerminate (set_timers (delete t (timers w)) (next_timer w) w)
          else w
      | None => w
      end
  end.

Definition initial_world (t0 : Z) : World :=
  {| ws := initial_state; store := ∅; now := t0; timers := ∅; next_timer := 1;
     posted := []; closed := false |}.
End handlers.

(** ** Facts *)

(** The buffers the state refers to. *)
Definition refs (s : WorkerState) : list (option addr) :=
  [share s; groupPublicKey s; serverVerifyingShare s; clientVerifyingShare s;
   (λ x, n_hiding (nonces x)) <$> signingState s; (λ x, n_binding (nonces x)) <$> signingState s].

Lemma clearState_eq w :
  clearState w =
  {| ws := WS None None None None None None None None (timeoutMs (ws w));
     store := zeroAll (store w) (refs (ws w)); now := now w;
     timers := match inactivityTimer (ws w) with
               | Some t => delete t (timers w) | None => timers w end;
     next_timer := next_timer w; posted := posted w; closed := closed w |}.
Proof.
  destruct w as [[[a|] [b|] [c|] [d|] [[[n1 n2] ? ? ?]|] e [t|] ts tm] h nw tmrs nt p cl];
    reflexivity.
Qed.

Section worker_theory.
Context {NF : NobleFrost}.

Lemma handleTerminate_zeroes w a :
  Some a ∈ refs (ws w) → zeroed (store (handleTerminate w)) a.
Proof. unfold handleTerminate. rewrite clearState_eq. apply zeroAll_zeroed. Qed.

Lemma handleTerminate_others w a :
  Some a ∉ refs (ws w) → store (handleTerminate w) !! a = store w !! a.
Proof. unfold handleTerminate. rewrite clearState_eq. apply zeroAll_frame. Qed.

Lemma handleTerminate_ws w :
  ws (handleTerminate w) = WS None None None None None None None None (timeoutMs (ws w)) ∧
  closed (handleTerminate w) = true.
Proof. unfold handleTerminate. by rewrite clearState_eq. Qed.

(** Termination (by message or by the inactivity timer) clears the worker: every buffer
    the state referred to (the share, the public keys, the nonces of an open signing session)
    is all zeros, no other buffer changed, nothing is referred to any more, the inactivity
    timer is cancelled and the worker is closed after posting one [terminated]. *)
Theorem handleTerminate_clears (w : World) :
  let w' := handleTerminate w in
  (∀ a, Some a ∈ refs (ws w) → zeroed (store w') a) ∧
  (∀ a, Some a ∉ refs (ws w) → store w' !! a = store w !! a) ∧
  ws w' = WS None None None None None None None None (timeoutMs (ws w)) ∧
  (∀ t, inactivityTimer (ws w) = Some t → timers w' !! t = None) ∧
  posted w' = posted w ++ [terminated] ∧ closed w' = true.
Proof.
  destruct (handleTerminate_ws w) as [Ews Ec].
  split_and!; [apply handleTerminate_zeroes | apply handleTerminate_others | exact Ews | | | exact Ec];
    unfold handleTerminate; rewrite clearState_eq; [|done].
  cbn [close postResponse timers]. intros t ->. by rewrite lookup_delete_eq.
Qed.

(** ** The invariant of every reachable world *)

Definition owned (s : WorkerState) : list addr := omap Datatypes.id (refs s).

(** The session between the two rounds. *)
Definition round1_session (commitment : bytes) : SigningSessionState :=
  {| sessionId := []; round := round1; sess_commitment := Some commitment;
     partialSignature := None |}.

(** The inactivity timer is the only pending timer and is due one timeout after the last
    operation; the four keys are set together; the state's buffers are distinct and
    allocated; nonces are held only under the keys; there is a signing session exactly when
    there are nonces, and it is then in round 1 with the same commitment. *)
Record worker_wf (s : WorkerState) (h : heap) (nw : Z) (tm : gmap Z Z) (nt : Z) : Prop := {
  wf_timer :
    match inactivityTimer s, initTimestamp s with
    | Some t, Some ts => tm = {[ t := ts + timer_delay (timeoutMs s) ]}
                         ∧ 0 < t < nt ∧ ts <= nw
    | None, None => tm = ∅
    | _, _ => False
    end;
  wf_next : 0 < nt;
  wf_share : is_Some (share s) → is_Some (worker_keys s);
  wf_signing : is_Some (signingState s) → is_Some (worker_keys s);
  wf_alloc : Forall (λ a, is_Some (h !! a)) (owned s);
  wf_distinct : NoDup (owned s);
  wf_session :
    match session s, signingState s with
    | Some x, Some st => x = round1_session (fs_commitment st)
    | None, None => True
    | _, _ => False
    end;
}.

Definition wf (w : World) : Prop :=
  worker_wf (ws w) (store w) (now w) (timers w) (next_timer w).

(** The timer runs exactly while the worker is initialised. *)
Definition worker_inv (w : World) : Prop :=
  wf w ∧ (is_Some (worker_keys (ws w)) ↔ is_Some (inactivityTimer (ws w))).

Lemma initial_world_inv t0 : worker_inv (initial_world t0).
Proof.
  split; [|by split; intros [? ?]].
  split; simpl; try done; try lia; try (by constructor); by intros [? ?].
Qed.

Lemma clearState_inv w : wf w → worker_inv (clearState w).
Proof.
  intros [It In _ _ _ _ _]. rewrite clearState_eq. split; [|by split; intros [? ?]].
  split; cbn [ws store now timers next_timer inactivityTimer initTimestamp share
              signingState session]; try done; try (by constructor); try (by intros [? ?]).
  destruct (inactivityTimer (ws w)), (initTimestamp (ws w)); try done.
  destruct It as [-> _]. apply delete_singleton_eq.
Qed.

Lemma resetInactivityTimer_eq w :
  resetInactivityTimer w =
  {| ws := set_timer (Some (next_timer w)) (Some (now w)) (ws w); store := store w;
     now := now w;
     timers := <[next_timer w := now w + timer_delay (timeoutMs (ws w))]>
                 (match inactivityTimer (ws w) with
                  | Some t => delete t (timers w) | None => timers w end);
     next_timer := next_timer w + 1; posted := posted w; closed := closed w |}.
Proof.
  destruct w as [[a b c d e f [t|] ts tm] h nw tmrs nt p cl]; reflexivity.
Qed.

Lemma resetInactivityTimer_inv w :
  wf w → is_Some (worker_keys (ws w)) → worker_inv (resetInactivityTimer w).
Proof.
  intros [It In Is Ig Ia Id Ix] Hk. rewrite resetInactivityTimer_eq.
  split; [|split; intros _; [by eexists|exact Hk]].
  split; cbn [ws store now timers next_timer]; try done; [|lia].
  cbn [set_timer inactivityTimer initTimestamp timeoutMs]. split; [|lia].
  destruct (inactivityTimer (ws w)), (initTimestamp (ws w)); try done.
  - destruct It as [-> _]. by rewrite delete_singleton_eq, insert_empty.
  - by rewrite It, insert_empty.
Qed.

(** New contents of the store that keep the state's buffers. *)
Lemma set_store_wf h w :
  wf w → Forall (λ a, is_Some (h !! a)) (owned (ws w)) → wf (set_store h w).
Proof. intros [] ?. by split. Qed.

Lemma set_store_inv h w :
  worker_inv w → (∀ a, is_Some (store w !! a) → is_Some (h !! a)) → worker_inv (set_store h w).
Proof.
  intros [Hw Ha] Hh. split; [|done]. apply set_store_wf; [done|].
  eapply Forall_impl; [apply Hw|]. intros a. apply Hh.
Qed.

Lemma alloc_keeps (h : heap) bs a : is_Some (h !! a) → is_Some (<[heap_fresh h := bs]> h !! a).
Proof. intros. by rewrite (frame_alloc (λ _, False) h bs a) by tauto. Qed.

Lemma clone_buffer_inv o w : worker_inv w → worker_inv (clone_buffer o w).2.
Proof.
  intros. destruct o as [bs|]; simpl; [|done].
  apply set_store_inv; [done|]. intros a. apply alloc_keeps.
Qed.

(** Four copies made one after the other: distinct, and allocated in the final store. *)
Lemma copy_buffer4 w a1 a2 a3 a4 :
  let '(a, w1) := copy_buffer a1 w in
  let '(b, w2) := copy_buffer a2 w1 in
  let '(c, w3) := copy_buffer a3 w2 in
  let '(d, w4) := copy_buffer a4 w3 in
  NoDup [a; b; c; d] ∧ Forall (λ x, is_Some (store w4 !! x)) [a; b; c; d] ∧
  Forall (λ x, store w !! x = None) [a; b; c; d] ∧
  (∀ x, is_Some (store w !! x) → store w4 !! x = store w !! x) ∧
  w4 = set_store (store w4) w.
Proof.
  unfold copy_buffer. cbn [set_store store].
  set (h := store w). set (h1 := <[heap_fresh h := _]> h).
  set (h2 := <[heap_fresh h1 := _]> h1). set (h3 := <[heap_fresh h2 := _]> h2).
  pose proof (heap_fresh_notin h) as E0. pose proof (heap_fresh_notin h1) as E1.
  pose proof (heap_fresh_notin h2) as E2. pose proof (heap_fresh_notin h3) as E3.
  apply lookup_insert_None in E1 as [E1 N1].
  apply lookup_insert_None in E2 as [E2 N2]. apply lookup_insert_None in E2 as [E2 N2'].
  apply lookup_insert_None in E3 as [E3 N3]. apply lookup_insert_None in E3 as [E3 N3'].
  apply lookup_insert_None in E3 as [E3 N3''].
  set (a := heap_fresh h) in *. set (b := heap_fresh h1) in *. set (c := heap_fresh h2) in *.
  set (d := heap_fresh h3) in *.
  assert (Hs : ∀ x, d = x ∨ c = x ∨ b = x ∨ a = x ∨ is_Some (h !! x) →
            ∀ bs, is_Some (<[d := bs]> h3 !! x)).
  { intros x Hx bs. unfold h3, h2, h1. rewrite !lookup_insert_is_Some'. tauto. }
  split_and!.
  - repeat (apply NoDup_cons; split; [rewrite ?not_elem_of_cons; auto using not_elem_of_nil|]).
    constructor.
  - repeat (apply Forall_cons; split; [apply Hs; tauto|]). constructor.
  - repeat (apply Forall_cons; split; [done|]). constructor.
  - intros x [y Hx]. unfold h3, h2, h1. rewrite !lookup_insert_ne; [done|congruence..].
  - by destruct w.
Qed.

Lemma handleInit_inv p w : wf w → worker_inv (handleInit p w).
Proof.
  intros Hw. apply clearState_inv in Hw. unfold handleInit.
  pose proof (f_equal ws (clearState_eq w)) as Ews. set (w0 := clearState w) in *. clearbody w0.
  destruct w0 as [s0 h0 nw tm nt po cl]. cbn [ws] in Ews. subst s0.
  set (w0 := Build_World _ _ _ _ _ _ _) in *.
  destruct (p_share p) as [a1|], (p_groupPublicKey p) as [a2|], (p_server p) as [a3|],
    (p_client p) as [a4|]; try exact Hw.
  pose proof (copy_buffer4 w0 a1 a2 a3 a4) as Hc.
  destruct (copy_buffer a1 w0) as [a w1]. destruct (copy_buffer a2 w1) as [b w2].
  destruct (copy_buffer a3 w2) as [c w3]. destruct (copy_buffer a4 w3) as [d w4].
  destruct Hc as (Hd & Ha & _ & Hk & ->). set (h4 := store w4) in *. clearbody h4. clear w1 w2 w3 w4.
  set (w5 := upd _ (set_store h4 w0)).
  assert (Hw5 : ∀ t, wf (upd (set_timeout t) w5) ∧ is_Some (worker_keys (ws (upd (set_timeout t) w5)))).
  { intros t. destruct Hw as [[It In _ _ _ _ Ix] _]. split; [|by eexists].
    split; cbn in *; try done; by eexists. }
  assert (Hw5' : upd (set_timeout (timeoutMs (ws w5))) w5 = w5).
  { reflexivity. }
  destruct (p_timeoutMs p) as [t|]; [case_if|].
  - apply (resetInactivityTimer_inv (upd (set_timeout t) w5)); apply Hw5.
  - apply (resetInactivityTimer_inv w5); rewrite <- Hw5'; apply Hw5.
  - apply (resetInactivityTimer_inv w5); rewrite <- Hw5'; apply Hw5.
Qed.

Definition nonce_addrs (o : option FrostSigningState) : list addr :=
  match o with
  | Some st => [n_hiding (nonces st); n_binding (nonces st)]
  | None => []
  end.

Lemma owned_keys s a b c d :
  worker_keys s = Some (a, b, c, d) → owned s = [a; b; c; d] ++ nonce_addrs (signingState s).
Proof.
  destruct s as [[] [] [] [] [] e f g t];
    unfold worker_keys; cbn [share groupPublicKey serverVerifyingShare clientVerifyingShare];
    intros H; simplify_eq; reflexivity.
Qed.

(** Replacing the nonces and the session of an initialised worker, over a store that kept
    the keys. *)
Lemma set_signing_inv w a b c d h o x :
  worker_inv w → worker_keys (ws w) = Some (a, b, c, d) →
  Forall (λ k, is_Some (h !! k)) ([a; b; c; d] ++ nonce_addrs o) →
  NoDup ([a; b; c; d] ++ nonce_addrs o) →
  match x, o with
  | Some x, Some st => x = round1_session (fs_commitment st)
  | None, None => True
  | _, _ => False
  end →
  worker_inv (upd (set_session x) (upd (set_signing o) (set_store h w))).
Proof.
  intros [[It In Is Ig _ _ _] Ha] Hk Hal Hnd Hx.
  split; [|exact Ha]. split; try done.
  - cbn [upd set_store ws store]. rewrite (owned_keys _ a b c d) by exact Hk. exact Hal.
  - cbn [upd set_store ws]. rewrite (owned_keys _ a b c d) by exact Hk. exact Hnd.
Qed.

Lemma run_hm_eq {A} (m : HM A) w : run_hm m w = ((m (store w)).1, set_store (m (store w)).2 w).
Proof. unfold run_hm. by destruct (m (store w)). Qed.

(** The keys of a reachable worker: allocated, and not among the nonces. *)
Lemma wf_keys w a b c d :
  wf w → worker_keys (ws w) = Some (a, b, c, d) →
  NoDup [a; b; c; d] ∧ Forall (λ k, is_Some (store w !! k)) [a; b; c; d] ∧
  ∀ k st, k ∈ [a; b; c; d] → signingState (ws w) = Some st → ¬ is_nonce (nonces st) k.
Proof.
  intros [_ _ _ _ Ia Id _] Hk. rewrite (owned_keys _ _ _ _ _ Hk) in Ia, Id.
  apply NoDup_app in Id as (Hn & Hdisj & _). apply Forall_app in Ia as [Ha _].
  split_and!; [done..|]. intros k st Hin Est Hno. apply (Hdisj k Hin). rewrite Est.
  simpl. destruct Hno as [->| ->]; set_solver.
Qed.

Lemma handleRound1_inv m rnd w : worker_inv w → worker_inv (handleRound1 m rnd w).
Proof.
  intros Hw. unfold handleRound1.
  destruct (worker_keys (ws w)) as [[[[a b] c] d]|] eqn:Hk; [|exact Hw].
  destruct m as [m|]; [|exact Hw].
  assert (Hk0 : is_Some (worker_keys (ws w))) by (rewrite Hk; by eexists).
  pose proof (resetInactivityTimer_inv w (proj1 Hw) Hk0) as Hr.
  assert (Hkr : worker_keys (ws (resetInactivityTimer w)) = Some (a, b, c, d))
    by (rewrite resetInactivityTimer_eq; exact Hk).
  set (w1 := resetInactivityTimer w) in *. clearbody w1. rewrite run_hm_eq.
  destruct (clientRound1_spec rnd a m (store w1)) as [Hframe Hok].
  destruct (clientRound1 rnd a m (store w1)) as [[[cm st]|e] h'] eqn:E; cbn [fst snd] in *.
  - destruct (Hok cm st h' eq_refl) as (Hc & _ & Hh & Hb & Hne).
    destruct (wf_keys _ _ _ _ _ (proj1 Hr) Hkr) as (Hnd & Hal & _).
    destruct (clientRound1_nonces rnd a m (store w1) cm st h' E) as [Sh Sb].
    apply (set_signing_inv w1 a b c d h' (Some st)); try done.
    + apply Forall_app. split; [|by repeat constructor].
      eapply Forall_impl; [exact Hal|]. intros k Hkk. cbn beta. by rewrite Hframe.
    + apply NoDup_app. split; [done|]. split.
      * intros k Hkin Hno. rewrite Forall_forall in Hal. destruct (Hal k Hkin) as [? Hkk].
        simpl in Hno. rewrite !elem_of_cons, elem_of_nil in Hno. naive_solver congruence.
      * repeat constructor; [|apply not_elem_of_nil]. by rewrite list_elem_of_singleton.
    + by rewrite Hc.
  - apply set_store_inv; [exact Hr|]. intros k Hkk. by rewrite Hframe.
Qed.

Lemma handleRound2_inv sc w : worker_inv w → worker_inv (handleRound2 sc w).
Proof.
  intros Hw. unfold handleRound2.
  destruct (worker_keys (ws w)) as [[[[a b] c] d]|] eqn:Hk; [|exact Hw].
  destruct (signingState (ws w)) as [st|] eqn:Hst; [|exact Hw].
  destruct sc as [sc|]; [|exact Hw].
  assert (Hk0 : is_Some (worker_keys (ws w))) by (rewrite Hk; by eexists).
  pose proof (resetInactivityTimer_inv w (proj1 Hw) Hk0) as Hr.
  assert (Hkr : worker_keys (ws (resetInactivityTimer w)) = Some (a, b, c, d))
    by (rewrite resetInactivityTimer_eq; exact Hk).
  assert (Hsr : signingState (ws (resetInactivityTimer w)) = Some st)
    by (rewrite resetInactivityTimer_eq; exact Hst).
  set (w1 := resetInactivityTimer w) in *. clearbody w1. rewrite run_hm_eq.
  destruct (wf_keys _ _ _ _ _ (proj1 Hr) Hkr) as (Hnd & Hal & Hnon).
  pose proof (clientRound2_framed a c d st sc (store w1)) as Hframe.
  destruct (clientRound2 a c d st sc (store w1)) as [r h']; cbn [fst snd] in *.
  assert (Hdone : worker_inv (upd (set_session None) (upd (set_signing None) (set_store h' w1)))).
  { apply (set_signing_inv w1 a b c d); rewrite ?app_nil_r; try done.
    apply Forall_forall. intros k Hkin. rewrite Forall_forall in Hal.
    rewrite Hframe by eauto. by apply Hal. }
  destruct r as [p|e]; exact Hdone.
Qed.

Lemma close_post_inv r w : worker_inv w → worker_inv (close (postResponse r w)).
Proof. done. Qed.

Lemma handleTerminate_inv w : wf w → worker_inv (handleTerminate w).
Proof. intros Hw. unfold handleTerminate. by apply close_post_inv, clearState_inv. Qed.

Lemma onmessage_inv m w : worker_inv w → worker_inv (onmessage m w).
Proof.
  intros Hw. destruct m as [s g v c t|m rnd|sc| | |ty]; simpl.
  - pose proof (clone_buffer_inv s w Hw) as H1. destruct (clone_buffer s w) as [? w1].
    pose proof (clone_buffer_inv g w1 H1) as H2. destruct (clone_buffer g w1) as [? w2].
    pose proof (clone_buffer_inv v w2 H2) as H3. destruct (clone_buffer v w2) as [? w3].
    pose proof (clone_buffer_inv c w3 H3) as H4. destruct (clone_buffer c w3) as [? w4].
    apply handleInit_inv, H4.
  - by apply handleRound1_inv.
  - by apply handleRound2_inv.
  - exact Hw.
  - apply handleTerminate_inv, Hw.
  - exact Hw.
Qed.

Lemma worker_step_inv w e : worker_inv w → worker_inv (step w e).
Proof.
  intros Hw. unfold step. destruct (closed w); [done|].
  destruct e as [m|ms|t]; [by apply onmessage_inv| |].
  - destruct Hw as [[It In Is Ig Ia Id Ix] Ha]. split; [|done]. split; try done.
    cbn. destruct (inactivityTimer (ws w)), (initTimestamp (ws w)); try done.
    destruct It as (? & ? & ?). split_and!; try done; lia.
  - destruct (timers w !! t) as [due|] eqn:E; [|done]. case_if; [|done].
    unfold handleTerminate. destruct Hw as [Hwf Ha]. pose proof (wf_timer _ _ _ _ _ Hwf) as It.
    destruct (inactivityTimer (ws w)) as [t'|] eqn:Et, (initTimestamp (ws w)) as [ts|] eqn:Ets;
      try done.
    + destruct It as (Htm & Hr & _). rewrite Htm in E. apply lookup_singleton_Some in E as [-> _].
      assert (Hcl : clearState (set_timers (delete t (timers w)) (next_timer w) w) = clearState w).
      { rewrite !clearState_eq. cbn [set_timers ws timers store now next_timer posted closed].
        by rewrite Et, delete_delete_eq. }
      rewrite Hcl. by apply close_post_inv, clearState_inv.
    + rewrite It in E. by rewrite lookup_empty in E.
Qed.

Lemma reachable_inv t0 es : worker_inv (run step (initial_world t0) es).
Proof. apply run_invariant; [apply initial_world_inv | intros; by apply worker_step_inv]. Qed.

(** Every state the worker can reach, whatever the messages, delays and timers, is well
    formed: initialised exactly while its single inactivity timer is pending, that timer due
    one timeout after the last operation; its buffers distinct and allocated; nonces held
    exactly during a round-1 session, which records their commitment. *)
Theorem worker_reachable_wf t0 es :
  let w := run step (initial_world t0) es in
  (is_Some (share (ws w)) ↔ is_Some (inactivityTimer (ws w))) ∧
  match inactivityTimer (ws w), initTimestamp (ws w) with
  | Some t, Some ts => timers w = {[ t := ts + timer_delay (timeoutMs (ws w)) ]}
  | None, None => timers w = ∅
  | _, _ => False
  end ∧
  NoDup (owned (ws w)) ∧ Forall (λ a, is_Some (store w !! a)) (owned (ws w)) ∧
  match session (ws w), signingState (ws w) with
  | Some x, Some st => x = round1_session (fs_commitment st)
  | None, None => True
  | _, _ => False
  end.
Proof.
  intros w. pose proof (reachable_inv t0 es) as Hw. fold w in Hw. clearbody w.
  destruct Hw as [[It In Is Ig Ia Id Ix] Ha].
  split_and!; try done.
  - rewrite <- Ha. split; [exact Is|]. unfold worker_keys. destruct (share (ws w)); [by eexists|].
    by intros [? ?].
  - destruct (inactivityTimer (ws w)), (initTimestamp (ws w)); try done. by destruct It.
Qed.

(** An initialised worker left alone: before one timeout has passed since its last operation
    nothing happens; from then on its timer clears and closes it, and it says so. *)
Lemma inactivity_expiry w :
  worker_inv w → closed w = false → is_Some (share (ws w)) →
  ∃ t ts, inactivityTimer (ws w) = Some t ∧ initTimestamp (ws w) = Some ts ∧
    ∀ ms, 0 <= ms →
      let w1 := step w (E_time ms) in
      let w' := step w1 (E_timer t) in
      inactivityTimer (ws w1) = Some t ∧ posted w1 = posted w ∧
      if ts + timer_delay (timeoutMs (ws w)) <=? now w + ms
      then closed w' = true ∧ Forall (λ r, r = None) (refs (ws w')) ∧
           (∀ a, Some a ∈ refs (ws w) → zeroed (store w') a) ∧ posted w' = posted w ++ [terminated]
      else w' = w1 ∧ ws w1 = ws w ∧ store w1 = store w ∧ closed w1 = false.
Proof.
  intros [[It _ Is _ _ _ _] Ha] Hc Hs.
  destruct (proj1 Ha (Is Hs)) as [t Et]. rewrite Et in It.
  destruct (initTimestamp (ws w)) as [ts|] eqn:Ets; [|done]. destruct It as (Htm & _ & _).
  exists t, ts. split_and!; [done..|]. intros ms Hms w1 w'.
  assert (E1 : w1 =
    {| ws := ws w; store := store w; now := now w + ms; timers := timers w;
       next_timer := next_timer w; posted := posted w; closed := false |}).
  { unfold w1, step. by rewrite Hc, Z.max_r by done. }
  split; [by rewrite E1|]. split; [by rewrite E1|].
  unfold w', step. rewrite E1. cbn [closed timers now ws store posted next_timer].
  rewrite Htm, lookup_singleton_eq. case_if; [|done].
  set (w2 := set_timers _ _ _). destruct (handleTerminate_ws w2) as [Ews Ec].
  pose proof (handleTerminate_zeroes w2) as Hz.
  rewrite Ews. split_and!; [exact Ec | by repeat constructor | exact Hz|].
  unfold handleTerminate. by rewrite clearState_eq.
Qed.


(** Termination leaves a buffer that is neither a key nor a nonce. *)
Lemma handleTerminate_frame w k b c d x :
  worker_keys (ws w) = Some (k, b, c, d) → x ∉ [k; b; c; d] →
  x ∉ nonce_addrs (signingState (ws w)) →
  store (handleTerminate w) !! x = store w !! x.
Proof.
  intros Hk Hx Hn. apply handleTerminate_others. intros Hin.
  assert (Hin' : x ∈ owned (ws w)) by (unfold owned; apply list_elem_of_omap; by exists (Some x)).
  rewrite (owned_keys _ _ _ _ _ Hk) in Hin'. by apply elem_of_app in Hin' as [?|?].
Qed.

Lemma handleRound2_eq w a b c d st sc :
  worker_keys (ws w) = Some (a, b, c, d) → signingState (ws w) = Some st →
  let r := clientRound2 a c d st sc (store w) in
  let w1 := upd (set_session None) (upd (set_signing None) (set_store r.2 (resetInactivityTimer w))) in
  handleRound2 (Some sc) w =
  postResponse (match r.1 with Ok p => partial_sig p | Throw e => error_response (err_message e) end) w1.
Proof.
  intros Hk Hst r w1. unfold handleRound2. rewrite Hk, Hst, run_hm_eq.
  assert (Es : store (resetInactivityTimer w) = store w) by (by rewrite resetInactivityTimer_eq).
  rewrite Es. fold r. by destruct r as [[p|e] h'].
Qed.

(** C6: A nonce pair is used at most once: after a round 2 the worker holds no nonces, if it
    delivered a signature share the nonce buffers are zeroed, and a second round 2 is refused
    without any effect but the error response. *)
Theorem nonces_single_use w st sc :
  is_Some (worker_keys (ws w)) → signingState (ws w) = Some st →
  let w1 := handleRound2 (Some sc) w in
  signingState (ws w1) = None ∧ session (ws w1) = None ∧
  (∀ p, posted w1 = posted w ++ [partial_sig p] →
     zeroed (store w1) (n_hiding (nonces st)) ∧ zeroed (store w1) (n_binding (nonces st))) ∧
  (∀ sc', handleRound2 sc' w1 =
     postError (js "No active signing session (call round1 first)") w1).
Proof.
  intros [[[[a b] c] d] Hk] Hst. cbn zeta. rewrite (handleRound2_eq w a b c d st sc Hk Hst).
  set (r := clientRound2 _ _ _ _ _ _). rewrite resetInactivityTimer_eq.
  split_and!; [done | done | |].
  - intros p. cbn [postResponse upd set_store posted store]. intros [_ Hp]%app_inj_2; [|done].
    destruct r as [[p'|e] h'] eqn:E; cbn [fst snd] in *; [|done].
    by apply clientRound2_ok_zeroed in E.
  - intros sc'. unfold handleRound2. cbn [postResponse upd set_store ws].
    change (worker_keys _) with (worker_keys (ws w)). by rewrite Hk.
Qed.

(** A round 2 that fails on the server's commitment drops its nonces without zeroing
    them: they stay readable in the store even after the worker has been terminated. *)
Theorem failed_round2_keeps_nonces t0 es st sc e a :
  let w := run step (initial_world t0) es in
  signingState (ws w) = Some st → decodeCommitment sc = Throw e →
  is_nonce (nonces st) a →
  store (handleTerminate (handleRound2 (Some sc) w)) !! a = store w !! a.
Proof.
  intros w Hst Hsc Ha. pose proof (reachable_inv t0 es) as Hw. fold w in Hw.
  destruct (wf_signing _ _ _ _ _ (proj1 Hw)) as [[[[k b] c] d] Hk]; [by rewrite Hst|].
  destruct (wf_keys _ _ _ _ _ (proj1 Hw) Hk) as (_ & _ & Hno).
  assert (Hr : clientRound2 k c d st sc (store w) = (Throw e, store w)).
  { unfold clientRound2, buildCommitmentList, sbind, slift. by rewrite Hsc. }
  rewrite (handleRound2_eq w k b c d st sc Hk Hst), Hr. cbn [fst snd].
  rewrite resetInactivityTimer_eq.
  rewrite (handleTerminate_frame _ k b c d);
    [done | exact Hk | intros Hin; by apply (Hno a st Hin) | apply not_elem_of_nil].
Qed.

Lemma handleRound1_eq w a b c d m rnd :
  worker_keys (ws w) = Some (a, b, c, d) →
  let r := clientRound1 rnd a m (store w) in
  let w1 := set_store r.2 (resetInactivityTimer w) in
  handleRound1 (Some m) rnd w =
  match r.1 with
  | Ok (cm, st) =>
      postResponse (commitment_response cm)
        (upd (set_session (Some {| sessionId := []; round := round1;
                                   sess_commitment := Some cm; partialSignature := None |}))
             (upd (set_signing (Some st)) w1))
  | Throw e => postError (err_message e) w1
  end.
Proof.
  intros Hk r w1. unfold handleRound1. rewrite Hk, run_hm_eq.
  assert (Es : store (resetInactivityTimer w) = store w) by (by rewrite resetInactivityTimer_eq).
  rewrite Es. fold r. by destruct r as [[[p st]|e] h'].
Qed.

(** The copy of the secret scalar that a round 1 slices out of the share is not cleared:
    its 32 bytes are still in the store, in a buffer nothing refers to, after the worker has
    been terminated. *)
Theorem terminate_keeps_scalar t0 es k m rnd cm :
  let w := run step (initial_world t0) es in
  share (ws w) = Some k →
  posted (handleRound1 (Some m) rnd w) = posted w ++ [commitment_response cm] →
  ∃ a, store w !! a = None ∧
    store (handleTerminate (handleRound1 (Some m) rnd w)) !! a =
    Some (u8_slice (default [] (store w !! k)) expectedScalarOffset
            (expectedScalarOffset + SCALAR_SIZE)).
Proof.
  intros w Hs. pose proof (reachable_inv t0 es) as Hw. fold w in Hw. clearbody w.
  destruct (wf_share _ _ _ _ _ (proj1 Hw)) as [[[[k' b] c] d] Hk]; [by rewrite Hs|].
  assert (k' = k) as -> by (unfold worker_keys in Hk; rewrite Hs in Hk; repeat case_match; congruence).
  destruct (wf_keys _ _ _ _ _ (proj1 Hw) Hk) as (_ & Hal & _).
  rewrite (handleRound1_eq w k b c d m rnd Hk), resetInactivityTimer_eq.
  destruct (clientRound1 rnd k m (store w)) as [[[cm' st]|e] h'] eqn:E; cbn [fst snd];
    [intros _ | intros [_ ?]%app_inj_2; done].
  apply clientRound1_scalar in E as (a & Ha & Hno & Hh). exists a. split; [done|].
  rewrite (handleTerminate_frame _ k b c d); [exact Hh | exact Hk | |].
  - intros Hin. rewrite Forall_forall in Hal. destruct (Hal a Hin). congruence.
  - intros Hin. apply Hno. unfold is_nonce. simpl in Hin. set_solver.
Qed.
End worker_theory.

(** ** Witnesses *)

Definition demo_share : bytes := 6 :: 2 :: replicate 133 9.
Definition demo_init : WorkerMessage :=
  M_init (Some demo_share) (Some (replicate 32 1)) (Some (replicate 103 2))
         (Some (replicate 103 3)) (Some 60000).
Definition demo_events : list Event :=
  [E_message demo_init; E_time 500; E_message (M_round1 (Some [1; 2; 3]) [])].
Abbreviation demo_world := (run step (initial_world 1000) demo_events).
Definition demo_signing : FrostSigningState :=
  match signingState (ws demo_world) with
  | Some st => st
  | None => {| nonces := {| n_hiding := 0; n_binding := 0 |}; fs_commitment := [];
               fs_message := []; clientId := [] |}
  end.


Lemma nonces_single_use_witness :
  signingState (ws (handleRound2 (Some (demo_commitment 1)) demo_world)) = None.
Proof.
  apply (nonces_single_use demo_world demo_signing (demo_commitment 1)).
  - vm_compute. eexists. reflexivity.
  - vm_compute. reflexivity.
Defined.

Lemma failed_round2_keeps_nonces_witness :
  store (handleTerminate (handleRound2 (Some []) demo_world)) !! n_hiding (nonces demo_signing)
  = store demo_world !! n_hiding (nonces demo_signing).
Proof.
  eapply (failed_round2_keeps_nonces 1000 demo_events demo_signing []).
  - vm_compute. reflexivity.
  - vm_compute. reflexivity.
  - left. reflexivity.
Defined.

Abbreviation demo_ready := (run step (initial_world 1000) [E_message demo_init]).

Lemma terminate_keeps_scalar_witness :
  ∃ a, store demo_ready !! a = None ∧
    store (handleTerminate (handleRound1 (Some [1]) [] demo_ready)) !! a =
    Some (u8_slice (default [] (store demo_ready !! default 0%nat (share (ws demo_ready))))
            expectedScalarOffset (expectedScalarOffset + SCALAR_SIZE)).
Proof.
  eapply (terminate_keeps_scalar 1000 [E_message demo_init]).
  - vm_compute. reflexivity.
  - vm_compute. reflexivity.
Defined.
