(* ===== verification/WorkerProtocol.v ===== *)
(** * The signing worker as a protocol over values

    The specification of [workers/frost-worker.ts]: no buffers, no timers and no copies, only
    what the worker knows (the keys it was given, the time of the last operation, the nonces
    and the commitment of an open round 1) and what it answers.  [worker_refines_protocol]
    shows that the worker with its store, its aliases and its zeroing implements it. *)

From S2P Require Import Prelude Js Memory FrostWire Frost FrostWorker.
#[local] Open Scope Z_scope.
#[local] Open Scope js_scope.

(** ** The rounds of [frost.ts] as functions of values *)

Record Round1 := {
  r1_hiding : bytes;
  r1_binding : bytes;
  r1_commitment : bytes;
  r1_message : bytes;
  r1_clientId : jsstring;
}.

Record Keys := { k_share : bytes; k_group : bytes; k_server : bytes; k_client : bytes }.

Section values.
Context {NF : NobleFrost}.

Definition signing_scalar (share : bytes) : bytes :=
  u8_slice share expectedScalarOffset (expectedScalarOffset + SCALAR_SIZE).

Definition round1_value (rnd share message : bytes) : result Round1 :=
  let! number := checkClientShare share in
  let! clientId := Identifier_fromNumber number in
  if (length (signing_scalar share) <? SCALAR_SIZE)%nat then
    Throw (plain_error (js "Invalid secret share: expected " ++
             of_int (Z.of_nat SCALAR_SIZE) ++ js " bytes, got " ++
             of_int (Z.of_nat (length (signing_scalar share)))))
  else
  let! out := frost_commit rnd clientId (signing_scalar share) in
  let! commitment := encodeCommitment 2 (commit_hiding out) (commit_binding out) in
  Ok {| r1_hiding := nonce_hiding out; r1_binding := nonce_binding out;
        r1_commitment := commitment; r1_message := message; r1_clientId := clientId |}.

Definition round2_value (k : Keys) (r : Round1) (serverCommitment : bytes) : result bytes :=
  let! listed := buildCommitmentList serverCommitment (r1_commitment r) in
  let! serverId := Identifier_fromNumber 1 in
  let! serverKey := extractVerifyingKey (k_server k) in
  let! clientKey := extractVerifyingKey (k_client k) in
  let pub := {| pub_commitments := extractCommitments (k_server k);
                pub_verifyingShares :=
                  verifyingShares_object serverId (r1_clientId r) serverKey clientKey |} in
  let! sig := (frost_signShare (r1_clientId r) (signing_scalar (k_share k)) pub (r1_hiding r)
                 (r1_binding r) listed (r1_message r)).1 in
  encodeSignatureShare (u8_get (k_share k) 1) sig.

(** ** The protocol *)

(** An initialised worker: its keys, the time of the last operation, the open round 1. *)
Record Signer := { sg_keys : Keys; sg_since : Z; sg_round1 : option Round1 }.

Record Protocol := {
  pr_signer : option Signer;
  pr_timeout : Z;
  pr_now : Z;
  pr_closed : bool;
}.

Definition with_signer (g : option Signer) (p : Protocol) : Protocol :=
  {| pr_signer := g; pr_timeout := pr_timeout p; pr_now := pr_now p; pr_closed := pr_closed p |}.

Definition finished (p : Protocol) : Protocol :=
  {| pr_signer := None; pr_timeout := pr_timeout p; pr_now := pr_now p; pr_closed := true |}.

(** An operation at the present time that leaves [r] as the open round 1. *)
Definition operate (g : Signer) (r : option Round1) (p : Protocol) : Protocol :=
  with_signer (Some {| sg_keys := sg_keys g; sg_since := pr_now p; sg_round1 := r |}) p.

Definition answer_init (s g v c : option bytes) (t : option Z) (p : Protocol)
    : Protocol * WorkerResponse :=
  let refuse m := (with_signer None p, error_response m) in
  match s, g, v, c with
  | None, _, _, _ => refuse (js "Invalid share: must be Uint8Array")
  | _, None, _, _ => refuse (js "Invalid groupPublicKey: must be Uint8Array")
  | _, _, None, _ => refuse (js "Invalid verifyingShares.server: must be Uint8Array")
  | _, _, _, None => refuse (js "Invalid verifyingShares.client: must be Uint8Array")
  | Some s, Some g, Some v, Some c =>
      let keys := {| k_share := s; k_group := g; k_server := v; k_client := c |} in
      ({| pr_signer := Some {| sg_keys := keys; sg_since := pr_now p; sg_round1 := None |};
          pr_timeout := match t with
                        | Some t => if 0 <? t then t else pr_timeout p
                        | None => pr_timeout p
                        end;
          pr_now := pr_now p; pr_closed := pr_closed p |}, ready)
  end.

Definition answer_round1 (m : option bytes) (rnd : bytes) (p : Protocol)
    : Protocol * WorkerResponse :=
  match pr_signer p, m with
  | None, _ => (p, error_response (js "Worker not initialized"))
  | _, None => (p, error_response (js "Invalid message: must be Uint8Array"))
  | Some g, Some m =>
      match round1_value rnd (k_share (sg_keys g)) m with
      | Ok r => (operate g (Some r) p, commitment_response (r1_commitment r))
      | Throw e => (operate g (sg_round1 g) p, error_response (err_message e))
      end
  end.

Definition answer_round2 (sc : option bytes) (p : Protocol) : Protocol * WorkerResponse :=
  match pr_signer p with
  | None => (p, error_response (js "Worker not initialized"))
  | Some g =>
      match sg_round1 g, sc with
      | None, _ => (p, error_response (js "No active signing session (call round1 first)"))
      | _, None => (p, error_response (js "Invalid serverCommitment: must be Uint8Array"))
      | Some r, Some sc =>
          (operate g None p,
           match round2_value (sg_keys g) r sc with
           | Ok s => partial_sig s
           | Throw e => error_response (err_message e)
           end)
      end
  end.

Definition answer_status (p : Protocol) : WorkerResponse :=
  match pr_signer p with
  | Some g => status_response true (Some (Z.max 0 (pr_timeout p - (pr_now p - sg_since g))))
                ((λ r, round1_session (r1_commitment r)) <$> sg_round1 g)
  | None => status_response false None None
  end.

Definition answer (m : WorkerMessage) (p : Protocol) : Protocol * WorkerResponse :=
  match m with
  | M_init s g v c t => answer_init s g v c t p
  | M_round1 m rnd => answer_round1 m rnd p
  | M_round2 sc => answer_round2 sc p
  | M_status => (p, answer_status p)
  | M_terminate => (finished p, terminated)
  | M_unknown ty => (p, error_response (js "Unknown message type: " ++ ty))
  end.

Definition pass (ms : Z) (p : Protocol) : Protocol :=
  {| pr_signer := pr_signer p; pr_timeout := pr_timeout p; pr_now := pr_now p + Z.max 0 ms;
     pr_closed := pr_closed p |}.

Definition expired (p : Protocol) (g : Signer) : Prop :=
  sg_since g + timer_delay (pr_timeout p) <= pr_now p.

(** One event and the answers it brings.  The expiry may come at any timer event once the
    signer has been idle for the timeout. *)
Inductive protocol_step : Protocol → Event → list WorkerResponse → Protocol → Prop :=
| PS_closed p e : pr_closed p = true → protocol_step p e [] p
| PS_message p m :
    pr_closed p = false → protocol_step p (E_message m) [(answer m p).2] (answer m p).1
| PS_time p ms : pr_closed p = false → protocol_step p (E_time ms) [] (pass ms p)
| PS_expire p g t :
    pr_closed p = false → pr_signer p = Some g → expired p g →
    protocol_step p (E_timer t) [terminated] (finished p)
| PS_idle p t : protocol_step p (E_timer t) [] p.

Inductive protocol_run (p : Protocol) : list Event → list WorkerResponse → Protocol → Prop :=
| PR_start : protocol_run p [] [] p
| PR_step es out q e out' q' :
    protocol_run p es out q → protocol_step q e out' q' →
    protocol_run p (es ++ [e]) (out ++ out') q'.

Definition initial_protocol (t0 : Z) : Protocol :=
  {| pr_signer := None; pr_timeout := DEFAULT_TIMEOUT_MS; pr_now := t0; pr_closed := false |}.
End values.

(** ** What a worker with its store stands for *)

Definition contents (h : heap) (a : addr) : bytes := default [] (h !! a).

Definition keys_of (h : heap) (k : addr * addr * addr * addr) : Keys :=
  let '(a, b, c, d) := k in
  {| k_share := contents h a; k_group := contents h b; k_server := contents h c;
     k_client := contents h d |}.

Definition round1_of (h : heap) (st : FrostSigningState) : Round1 :=
  {| r1_hiding := contents h (n_hiding (nonces st));
     r1_binding := contents h (n_binding (nonces st));
     r1_commitment := fs_commitment st; r1_message := fs_message st;
     r1_clientId := clientId st |}.

Definition signer_of (s : WorkerState) (h : heap) : option Signer :=
  match worker_keys s, initTimestamp s with
  | Some k, Some ts => Some {| sg_keys := keys_of h k; sg_since := ts;
                               sg_round1 := round1_of h <$> signingState s |}
  | _, _ => None
  end.

Definition protocol_of (w : World) : Protocol :=
  {| pr_signer := signer_of (ws w) (store w); pr_timeout := timeoutMs (ws w); pr_now := now w;
     pr_closed := closed w |}.

(** ** Facts: the rounds *)

Section rounds.
Context {NF : NobleFrost}.

Lemma contents_alloc h bs : contents (<[heap_fresh h := bs]> h) (heap_fresh h) = bs.
Proof. unfold contents. by rewrite lookup_insert_eq. Qed.

Lemma contents_insert_ne h a b bs : a ≠ b → contents (<[a := bs]> h) b = contents h b.
Proof. intros. unfold contents. by rewrite lookup_insert_ne. Qed.

Lemma contents_frame (X : addr → Prop) h h' a :
  frame X h h' → is_Some (h !! a) → ¬ X a → contents h' a = contents h a.
Proof. intros Hf Ha HX. unfold contents. by rewrite Hf. Qed.

(** Round 1 over the store computes [round1_value] of the share's contents. *)
Lemma clientRound1_value rnd a m h :
  match clientRound1 rnd a m h with
  | (Ok (c, st), h') =>
      ∃ r, round1_value rnd (contents h a) m = Ok r ∧ c = r1_commitment r ∧ round1_of h' st = r
  | (Throw e, _) => round1_value rnd (contents h a) m = Throw e
  end.
Proof.
  unfold clientRound1, generateNonces, round1_value, sbind, slift, hload, halloc, sret, sthrow.
  fold (contents h a). set (share := contents h a).
  destruct (checkClientShare share) as [k|e]; cbn [rbind]; [|done].
  destruct (Identifier_fromNumber k) as [cid|e]; cbn [rbind]; [|done].
  rewrite lookup_insert_eq. cbn [from_option id]. fold (signing_scalar share).
  destruct (length (signing_scalar share) <? SCALAR_SIZE)%nat; [done|].
  set (h1 := <[heap_fresh h := _]> h).
  destruct (frost_commit rnd cid (signing_scalar share)) as [o|e]; cbn [rbind]; [|done].
  set (h2 := <[heap_fresh h1 := _]> h1). cbn [gn_hiding gn_binding gn_nonces gn_clientId].
  destruct (encodeCommitment 2 _ _) as [c|e]; cbn [rbind]; [|done].
  eexists. split; [done|]. split; [done|].
  unfold round1_of. cbn [nonces n_hiding n_binding fs_commitment fs_message clientId].
  rewrite contents_alloc, contents_insert_ne; [by unfold h2; rewrite contents_alloc|].
  unfold h2. intros E. pose proof (heap_fresh_notin (<[heap_fresh h1 := nonce_hiding o]> h1)) as F.
  rewrite E, lookup_insert_eq in F. done.
Qed.

(** Round 2 over the store computes [round2_value] of the contents, when its buffers are
    allocated. *)
Lemma clientRound2_value k g s c st sc h :
  Forall (λ x, is_Some (h !! x)) [k; s; c; n_hiding (nonces st); n_binding (nonces st)] →
  (clientRound2 k s c st sc h).1 = round2_value (keys_of h (k, g, s, c)) (round1_of h st) sc.
Proof.
  intros Hall. rewrite !Forall_cons in Hall. destruct Hall as (Hk & Hs & Hc & Hh & Hb & _).
  assert (Hn : ∀ bs x, is_Some (h !! x) → contents (<[heap_fresh h := bs]> h) x = contents h x).
  { intros bs x Hx. apply (contents_frame (λ _, False)); [apply frame_alloc | done | tauto]. }
  unfold clientRound2, computePartialSignature, round2_value, sbind, slift, hload, halloc,
    hstore, hzero, sret.
  cbn [keys_of round1_of k_share k_server k_client r1_hiding r1_binding r1_commitment r1_message
       r1_clientId].
  destruct (buildCommitmentList sc (fs_commitment st)) as [l|e]; cbn [rbind]; [|done].
  destruct (Identifier_fromNumber 1) as [sid|e]; cbn [rbind]; [|done].
  change (default [] (h !! k)) with (contents h k). fold (signing_scalar (contents h k)).
  set (h1 := <[heap_fresh h := _]> h). specialize (Hn (signing_scalar (contents h k))).
  fold h1 in Hn.
  change (default [] (h1 !! s)) with (contents h1 s). rewrite (Hn s Hs).
  change (default [] (h1 !! c)) with (contents h1 c). rewrite (Hn c Hc).
  destruct (extractVerifyingKey (contents h s)) as [sk|e]; cbn [rbind]; [|done].
  destruct (extractVerifyingKey (contents h c)) as [ck|e]; cbn [rbind]; [|done].
  change (default [] (h1 !! heap_fresh h)) with (contents h1 (heap_fresh h)).
  unfold h1 at 1 2. rewrite contents_alloc. fold h1.
  change (default [] (h1 !! n_hiding (nonces st))) with (contents h1 (n_hiding (nonces st))).
  change (default [] (h1 !! n_binding (nonces st))) with (contents h1 (n_binding (nonces st))).
  rewrite (Hn _ Hh), (Hn _ Hb).
  destruct (frost_signShare _ _ _ _ _ _ _) as [[sig|e] [h' b']]; cbn [fst rbind]; [|done].
  by destruct (encodeSignatureShare _ _).
Qed.
End rounds.

(** ** Facts: the simulation *)

Section simulation.
Context {NF : NobleFrost}.

(** The world after a message stands for the protocol's state after it, and the worker has
    posted the protocol's answer. *)
Definition simulates (m : WorkerMessage) (w w' : World) : Prop :=
  protocol_of w' = (answer m (protocol_of w)).1 ∧
  posted w' = posted w ++ [(answer m (protocol_of w)).2].

Lemma signer_of_none s h : worker_keys s = None → signer_of s h = None.
Proof. intros H. unfold signer_of. by rewrite H. Qed.

(** An initialised worker in a reachable state stands for a signer. *)
Lemma signer_of_some w k :
  worker_inv w → worker_keys (ws w) = Some k →
  ∃ ts, initTimestamp (ws w) = Some ts ∧
    signer_of (ws w) (store w) =
    Some {| sg_keys := keys_of (store w) k; sg_since := ts;
            sg_round1 := round1_of (store w) <$> signingState (ws w) |}.
Proof.
  intros [[It _ _ _ _ _ _] Ha] Hk. destruct (proj1 Ha) as [t Et]; [by rewrite Hk|].
  rewrite Et in It. unfold signer_of. rewrite Hk.
  destruct (initTimestamp (ws w)) as [ts|]; [|done]. by exists ts.
Qed.

Lemma keys_of_frame (X : addr → Prop) h h' a b c d :
  frame X h h' → Forall (λ x, is_Some (h !! x)) [a; b; c; d] →
  (∀ x, x ∈ [a; b; c; d] → ¬ X x) → keys_of h' (a, b, c, d) = keys_of h (a, b, c, d).
Proof.
  intros Hf Ha HX. rewrite Forall_forall in Ha. unfold keys_of.
  by rewrite !(contents_frame X h h') by (done || (apply Ha; set_solver) || (apply HX; set_solver)).
Qed.

(** The buffers of a reachable worker that holds nonces. *)
Lemma nonces_allocated w a b c d st :
  worker_inv w → worker_keys (ws w) = Some (a, b, c, d) → signingState (ws w) = Some st →
  Forall (λ x, is_Some (store w !! x)) [a; c; d; n_hiding (nonces st); n_binding (nonces st)].
Proof.
  intros [Hw _] Hk Hst. pose proof (wf_alloc _ _ _ _ _ Hw) as Hal.
  rewrite (owned_keys _ _ _ _ _ Hk), Hst in Hal. rewrite Forall_forall in Hal |- *.
  intros x Hx. apply Hal. simpl. set_solver.
Qed.

Lemma round1_of_frame h h' st :
  frame (λ _, False) h h' → Forall (λ x, is_Some (h !! x)) (nonce_addrs (Some st)) →
  round1_of h' st = round1_of h st.
Proof.
  intros Hf Hal. simpl in Hal. rewrite !Forall_cons in Hal. destruct Hal as (Hh & Hb & _).
  unfold round1_of. rewrite !(contents_frame (λ _, False) h h') by tauto. done.
Qed.

Lemma round1_simulates m rnd w :
  worker_inv w → simulates (M_round1 m rnd) w (handleRound1 m rnd w).
Proof.
  intros Hw. unfold simulates. cbn [answer]. unfold answer_round1.
  destruct (worker_keys (ws w)) as [[[[a b] c] d]|] eqn:Hk.
  2: { cbn [protocol_of pr_signer]. rewrite signer_of_none by done.
       unfold handleRound1. by rewrite Hk. }
  destruct (signer_of_some w _ Hw Hk) as (ts & Ets & Esg). cbn [protocol_of pr_signer].
  rewrite Esg. destruct m as [m|].
  2: { unfold handleRound1. by rewrite Hk. }
  rewrite (handleRound1_eq w a b c d m rnd Hk), resetInactivityTimer_eq.
  pose proof (clientRound1_value rnd a m (store w)) as Hv.
  pose proof (clientRound1_framed rnd a m (store w)) as Hf.
  destruct (wf_keys _ _ _ _ _ (proj1 Hw) Hk) as (_ & Hal & _).
  assert (Hks : keys_of (clientRound1 rnd a m (store w)).2 (a, b, c, d)
                = keys_of (store w) (a, b, c, d)).
  { by apply (keys_of_frame (λ _, False)); [| |tauto]. }
  destruct (clientRound1 rnd a m (store w)) as [[[cm st]|e] h']; cbn [fst snd] in *.
  - destruct Hv as (r & Hr & -> & Hst). cbn [sg_keys keys_of k_share]. rewrite Hr.
    split; [|done]. unfold operate, with_signer, protocol_of. cbn [fst]. f_equal.
    cbn [upd set_store postResponse ws store]. unfold signer_of.
    change (worker_keys _) with (worker_keys (ws w)). rewrite Hk.
    cbn [initTimestamp set_timer set_session set_signing signingState fmap option_fmap option_map].
    by rewrite Hks, Hst.
  - cbn [sg_keys keys_of k_share]. rewrite Hv. split; [|done].
    unfold operate, with_signer, protocol_of. cbn [fst]. f_equal.
    cbn [upd set_store postError postResponse ws store]. unfold signer_of.
    change (worker_keys _) with (worker_keys (ws w)). rewrite Hk.
    cbn [initTimestamp set_timer signingState sg_round1]. rewrite Hks.
    destruct (signingState (ws w)) as [st|] eqn:Est; [|done]. cbn [fmap option_fmap option_map].
    do 3 f_equal. apply round1_of_frame; [done|].
    pose proof (nonces_allocated w a b c d st Hw Hk Est) as Hn.
    rewrite !Forall_cons in Hn. simpl. rewrite !Forall_cons. tauto.
Qed.

Lemma round2_simulates sc w : worker_inv w → simulates (M_round2 sc) w (handleRound2 sc w).
Proof.
  intros Hw. unfold simulates. cbn [answer]. unfold answer_round2.
  destruct (worker_keys (ws w)) as [[[[a b] c] d]|] eqn:Hk.
  2: { cbn [protocol_of pr_signer]. rewrite signer_of_none by done.
       unfold handleRound2. by rewrite Hk. }
  destruct (signer_of_some w _ Hw Hk) as (ts & Ets & Esg). cbn [protocol_of pr_signer].
  rewrite Esg. cbn [sg_round1].
  destruct (signingState (ws w)) as [st|] eqn:Est; cbn [fmap option_fmap option_map].
  2: { unfold handleRound2. by rewrite Hk, Est. }
  destruct sc as [sc|].
  2: { unfold handleRound2. by rewrite Hk, Est. }
  rewrite (handleRound2_eq w a b c d st sc Hk Est), resetInactivityTimer_eq.
  pose proof (clientRound2_value a b c d st sc (store w) (nonces_allocated w a b c d st Hw Hk Est))
    as Hv.
  pose proof (clientRound2_framed a c d st sc (store w)) as Hf.
  destruct (wf_keys _ _ _ _ _ (proj1 Hw) Hk) as (_ & Hal & Hno).
  assert (Hks : keys_of (clientRound2 a c d st sc (store w)).2 (a, b, c, d)
                = keys_of (store w) (a, b, c, d)).
  { apply (keys_of_frame (is_nonce (nonces st))); eauto. }
  cbn [sg_keys]. rewrite <- Hv. split; [|done].
  unfold operate, with_signer, protocol_of. cbn [fst]. f_equal.
  cbn [upd set_store postResponse ws store]. unfold signer_of.
  change (worker_keys _) with (worker_keys (ws w)). rewrite Hk.
  cbn [initTimestamp set_timer set_session set_signing signingState sg_keys]. by rewrite Hks.
Qed.

Lemma status_simulates w : worker_inv w → simulates M_status w (handleStatus w).
Proof.
  intros Hw. split; [done|]. cbn [answer]. unfold answer_status, handleStatus.
  cbn [postResponse posted snd protocol_of pr_signer]. do 2 f_equal.
  destruct (worker_keys (ws w)) as [k|] eqn:Hk.
  - destruct (signer_of_some w k Hw Hk) as (ts & -> & ->).
    assert (Hs : is_Some (share (ws w))).
    { unfold worker_keys in Hk. destruct (share (ws w)); [by eexists | done]. }
    rewrite bool_decide_eq_true_2 by done. cbn [sg_since sg_round1 pr_timeout pr_now].
    f_equal. pose proof (wf_session _ _ _ _ _ (proj1 Hw)) as Hx.
    destruct (session (ws w)), (signingState (ws w)); try done. by rewrite Hx.
  - rewrite signer_of_none by done.
    assert (Hs : ¬ is_Some (share (ws w))).
    { intros H. apply (wf_share _ _ _ _ _ (proj1 Hw)) in H. rewrite Hk in H. by destruct H. }
    rewrite bool_decide_eq_false_2 by done.
    assert (Hn : signingState (ws w) = None).
    { pose proof (wf_signing _ _ _ _ _ (proj1 Hw)) as H. rewrite Hk in H.
      destruct (signingState (ws w)); [|done]. destruct H; [by eexists | done]. }
    pose proof (wf_session _ _ _ _ _ (proj1 Hw)) as Hx. rewrite Hn in Hx.
    destruct (session (ws w)); [done|]. by destruct (initTimestamp (ws w)).
Qed.

Lemma terminate_finished w : protocol_of (handleTerminate w) = finished (protocol_of w).
Proof. unfold handleTerminate. by rewrite clearState_eq. Qed.

Lemma terminate_simulates w : simulates M_terminate w (handleTerminate w).
Proof.
  split; [apply terminate_finished|]. unfold handleTerminate. by rewrite clearState_eq.
Qed.

(** Four allocations in a row. *)
Lemma alloc4 h b1 b2 b3 b4 :
  let h1 := <[heap_fresh h := b1]> h in
  let h2 := <[heap_fresh h1 := b2]> h1 in
  let h3 := <[heap_fresh h2 := b3]> h2 in
  let h4 := <[heap_fresh h3 := b4]> h3 in
  let new := (heap_fresh h, heap_fresh h1, heap_fresh h2, heap_fresh h3) in
  keys_of h4 new = {| k_share := b1; k_group := b2; k_server := b3; k_client := b4 |} ∧
  frame (λ _, False) h h1 ∧ frame (λ _, False) h h2 ∧ frame (λ _, False) h h3 ∧
  frame (λ _, False) h h4 ∧
  Forall (λ x, h !! x = None ∧ is_Some (h4 !! x))
    [heap_fresh h; heap_fresh h1; heap_fresh h2; heap_fresh h3].
Proof.
  intros h1 h2 h3 h4.
  assert (F1 : frame (λ _, False) h h1) by apply frame_alloc.
  assert (F2 : frame (λ _, False) h1 h2) by apply frame_alloc.
  assert (F3 : frame (λ _, False) h2 h3) by apply frame_alloc.
  assert (F4 : frame (λ _, False) h3 h4) by apply frame_alloc.
  assert (F34 := frame_trans _ _ _ _ F3 F4). assert (F24 := frame_trans _ _ _ _ F2 F34).
  assert (F02 := frame_trans _ _ _ _ F1 F2). assert (F03 := frame_trans _ _ _ _ F02 F3).
  assert (N : ∀ k bs, <[heap_fresh k := bs]> k !! heap_fresh k = Some bs)
    by (intros; apply lookup_insert_eq).
  assert (E1 : h4 !! heap_fresh h = Some b1) by (rewrite F24; [apply N | eexists; apply N | tauto]).
  assert (E2 : h4 !! heap_fresh h1 = Some b2) by (rewrite F34; [apply N | eexists; apply N | tauto]).
  assert (E3 : h4 !! heap_fresh h2 = Some b3) by (rewrite F4; [apply N | eexists; apply N | tauto]).
  assert (E4 : h4 !! heap_fresh h3 = Some b4) by apply N.
  assert (Fr : ∀ k, frame (λ _, False) h k → h !! heap_fresh k = None).
  { intros k Hk. destruct (h !! heap_fresh k) as [bs|] eqn:E; [|done].
    pose proof (heap_fresh_notin k) as Hn. rewrite Hk in Hn; [congruence | by rewrite E | tauto]. }
  intros new. unfold new, keys_of, contents. rewrite E1, E2, E3, E4.
  split_and!; try done; [by apply (frame_trans _ _ _ _ F03)|].
  repeat (apply Forall_cons; split; [split; [by apply Fr|eauto]|]). constructor.
Qed.

(** A complete payload: the worker's copies hold what its buffers held, if clearing the old
    state left them alone. *)
Lemma handleInit_complete w a b c d t :
  wf w →
  Forall (λ x, is_Some (store w !! x) ∧ Some x ∉ refs (ws w)) [a; b; c; d] →
  let w' := handleInit {| p_share := Some a; p_groupPublicKey := Some b; p_server := Some c;
                          p_client := Some d; p_timeoutMs := t |} w in
  protocol_of w' =
  {| pr_signer := Some {| sg_keys := keys_of (store w) (a, b, c, d); sg_since := now w;
                          sg_round1 := None |};
     pr_timeout := match t with
                   | Some t => if 0 <? t then t else timeoutMs (ws w)
                   | None => timeoutMs (ws w)
                   end;
     pr_now := now w; pr_closed := closed w |} ∧
  posted w' = posted w ++ [ready].
Proof.
  intros Hw Hal. rewrite !Forall_cons in Hal.
  destruct Hal as ([Ha Na] & [Hb Nb] & [Hc Nc] & [Hd Nd] & _).
  intros w'. set (h0 := zeroAll (store w) (refs (ws w))).
  assert (Hz : ∀ x, is_Some (store w !! x) → Some x ∉ refs (ws w) →
                 is_Some (h0 !! x) ∧ contents h0 x = contents (store w) x).
  { intros x Hx Hn. unfold contents, h0. by rewrite zeroAll_frame. }
  destruct (Hz a Ha Na) as [Ia Ca], (Hz b Hb Nb) as [Ib Cb], (Hz c Hc Nc) as [Ic Cc],
    (Hz d Hd Nd) as [Id Cd].
  pose proof (alloc4 h0 (contents (store w) a) (contents (store w) b) (contents (store w) c)
                (contents (store w) d)) as (Hk & F1 & F2 & F3 & F4 & _). cbn zeta in *.
  unfold keys_of at 1. rewrite <- Hk. unfold w', handleInit, copy_buffer.
  rewrite clearState_eq. cbn [p_share p_groupPublicKey p_server p_client p_timeoutMs store
    set_store]. fold h0.
  assert (C : ∀ k x, frame (λ _, False) h0 k → is_Some (h0 !! x) →
                contents k x = contents h0 x) by (intros; apply (contents_frame (λ _, False)); tauto).
  change (default [] (h0 !! a)) with (contents h0 a). rewrite Ca.
  set (h1 := <[heap_fresh h0 := _]> h0) in *.
  change (default [] (h1 !! b)) with (contents h1 b). rewrite (C h1 b F1 Ib), Cb.
  set (h2 := <[heap_fresh h1 := _]> h1) in *.
  change (default [] (h2 !! c)) with (contents h2 c). rewrite (C h2 c F2 Ic), Cc.
  set (h3 := <[heap_fresh h2 := _]> h2) in *.
  change (default [] (h3 !! d)) with (contents h3 d). rewrite (C h3 d F3 Id), Cd.
  rewrite resetInactivityTimer_eq.
  destruct t as [t|]; [destruct (0 <? t)|]; done.
Qed.

Lemma init_simulates s g v c t w :
  worker_inv w → simulates (M_init s g v c t) w (onmessage (M_init s g v c t) w).
Proof.
  intros Hw. unfold simulates. cbn [answer onmessage]. unfold answer_init.
  destruct s as [s|], g as [g|], v as [v|], c as [c|];
    try (split; unfold handleInit; cbn [clone_buffer]; rewrite clearState_eq; reflexivity).
  cbn [clone_buffer set_store store].
  pose proof (alloc4 (store w) s g v c) as (Hk & _ & _ & _ & F & Hal). cbn zeta in *.
  rewrite <- Hk.
  match goal with
  | |- context [handleInit {| p_share := Some ?a; p_groupPublicKey := Some ?b;
                              p_server := Some ?c; p_client := Some ?d; p_timeoutMs := _ |} ?x] =>
      destruct (handleInit_complete x a b c d t) as [Hp Hq]
  end; [| |split; [exact Hp | exact Hq]].
  - apply (set_store_wf _ w); [apply Hw|].
    eapply Forall_impl; [apply (wf_alloc _ _ _ _ _ (proj1 Hw))|]. intros x Hx.
    cbn beta. rewrite F by tauto. exact Hx.
  - eapply Forall_impl; [exact Hal|]. intros x [Hx Hy]. split; [exact Hy|]. intros Hin.
    pose proof (wf_alloc _ _ _ _ _ (proj1 Hw)) as Ho. rewrite Forall_forall in Ho.
    destruct (Ho x) as [? E]; [|congruence]. unfold owned. apply list_elem_of_omap.
    by exists (Some x).
Qed.

Lemma onmessage_simulates m w : worker_inv w → simulates m w (onmessage m w).
Proof.
  intros Hw. destruct m.
  - by apply init_simulates.
  - by apply round1_simulates.
  - by apply round2_simulates.
  - by apply status_simulates.
  - apply terminate_simulates.
  - done.
Qed.

(** A timer that is due belongs to a signer whose timeout has passed. *)
Lemma due_timer_expired w t due :
  worker_inv w → timers w !! t = Some due → due <= now w →
  ∃ g, pr_signer (protocol_of w) = Some g ∧ expired (protocol_of w) g.
Proof.
  intros Hw Ht Hd. pose proof (wf_timer _ _ _ _ _ (proj1 Hw)) as It.
  destruct (inactivityTimer (ws w)) as [t'|] eqn:Et, (initTimestamp (ws w)) as [ts|] eqn:Ets;
    try done; [|by rewrite It, lookup_empty in Ht].
  destruct (proj2 (proj2 Hw)) as [k Hk]; [by rewrite Et|].
  destruct (signer_of_some w k Hw Hk) as (ts' & Ets' & Esg). eexists. split; [exact Esg|].
  unfold expired. cbn [sg_since protocol_of pr_timeout pr_now].
  destruct It as (Htm & _ & _). rewrite Htm in Ht.
  apply lookup_singleton_Some in Ht as [_ <-]. assert (ts' = ts) as -> by congruence. exact Hd.
Qed.

(** One step of the worker is one step of the protocol. *)
Lemma step_simulates e w :
  worker_inv w →
  ∃ out, protocol_step (protocol_of w) e out (protocol_of (step w e)) ∧
    posted (step w e) = posted w ++ out.
Proof.
  intros Hw. unfold step. destruct (closed w) eqn:Hc.
  { exists []. rewrite app_nil_r. split; [by apply PS_closed | done]. }
  destruct e as [m|ms|t].
  - destruct (onmessage_simulates m w Hw) as [-> Hp]. eexists. split; [by apply PS_message | exact Hp].
  - exists []. rewrite app_nil_r. split; [|done].
    pose proof (PS_time (protocol_of w) ms Hc) as H. unfold pass, protocol_of in *.
    cbn in *. by rewrite Hc in *.
  - assert (Hi : ∃ out, protocol_step (protocol_of w) (E_timer t) out (protocol_of w) ∧
                        posted w = posted w ++ out).
    { exists []. rewrite app_nil_r. split; [apply PS_idle | done]. }
    destruct (timers w !! t) as [due|] eqn:Et; [|exact Hi].
    destruct (Z.leb_spec due (now w)) as [Hd|]; [|exact Hi].
    destruct (due_timer_expired w t due Hw Et Hd) as (g & Hg & He).
    exists [terminated]. rewrite terminate_finished.
    split; [by apply (PS_expire _ g) | unfold handleTerminate; by rewrite clearState_eq].
Qed.

Lemma worker_run_refines t0 es :
  let w := run step (initial_world t0) es in
  protocol_run (initial_protocol t0) es (posted w) (protocol_of w).
Proof.
  induction es as [|e es IH] using rev_ind; [apply PR_start|]. cbn zeta in *.
  rewrite run_app. set (w := run step (initial_world t0) es) in *.
  destruct (step_simulates e w (reachable_inv t0 es)) as (out & Hs & Hp).
  change (run step w [e]) with (step w e). rewrite Hp. by eapply PR_step.
Qed.

(** C4: The worker implements the protocol over values: for every list of messages, delays
    and timer events, the responses it posts are the answers of a protocol run on the same
    events, and its buffers hold what that run's state knows.  Buffers, copies, aliasing and
    zeroing, and the handling of timers, never show in an answer. *)
Theorem worker_refines_protocol t0 es :
  let w := run step (initial_world t0) es in
  protocol_run (initial_protocol t0) es (posted w) (protocol_of w).
Proof. apply worker_run_refines. Qed.

(** ** What the protocol promises *)

Definition is_share (r : WorkerResponse) : bool := match r with partial_sig _ => true | _ => false end.
Definition is_commitment (r : WorkerResponse) : bool :=
  match r with commitment_response _ => true | _ => false end.

Fixpoint count (P : WorkerResponse → bool) (l : list WorkerResponse) : nat :=
  match l with
  | [] => 0
  | r :: l => if P r then S (count P l) else count P l
  end.

Lemma count_app P l k : count P (l ++ k) = (count P l + count P k)%nat.
Proof. induction l as [|r l IH]; simpl; [done|]. rewrite IH. by destruct (P r). Qed.

Definition open_round (p : Protocol) : nat :=
  match pr_signer p with
  | Some g => match sg_round1 g with Some _ => 1 | None => 0 end
  | None => 0
  end.

(** An answer opens at most as many rounds as it brings commitments, and a signature share
    closes one. *)
Lemma answer_rounds m p :
  let '(p', r) := answer m p in
  (count is_share [r] + open_round p' <= count is_commitment [r] + open_round p)%nat.
Proof.
  destruct p as [sg tm nw cl]. destruct m as [s g v c t|m rnd|sc| | |ty]; cbn [answer].
  - destruct s, g, v, c; cbn; lia.
  - unfold answer_round1. cbn [pr_signer]. destruct sg as [g|], m as [m|]; try (cbn; lia).
    destruct (round1_value _ _ _); cbn; lia.
  - unfold answer_round2. cbn [pr_signer]. destruct sg as [g|]; [|cbn; lia].
    unfold open_round. destruct (sg_round1 g) as [r|] eqn:Er, sc as [sc|]; cbn [pr_signer];
      try destruct (round2_value _ _ _); cbn; rewrite ?Er; lia.
  - unfold answer_status. destruct sg; cbn; lia.
  - cbn. lia.
  - cbn. lia.
Qed.

Lemma protocol_rounds t0 es out p :
  protocol_run (initial_protocol t0) es out p →
  (count is_share out + open_round p <= count is_commitment out)%nat.
Proof.
  induction 1 as [|es out q e out' q' Hrun IH Hstep]; [cbn; lia|]. rewrite !count_app.
  destruct Hstep as [q e Hc|q m Hc|q ms Hc|q g t Hc Hg He|q t];
    try (unfold open_round in *; cbn in *; lia).
  pose proof (answer_rounds m q) as Ha. destruct (answer m q) as [q' r]. cbn [fst snd] in *. lia.
Qed.

(** C7: Over the whole life of a worker every signature share it delivers is paid for by a
    commitment of its own: there are never more shares than commitments, so no nonce pair
    signs twice. *)
Theorem one_share_per_commitment t0 es :
  let w := run step (initial_world t0) es in
  (count is_share (posted w) + open_round (protocol_of w) <= count is_commitment (posted w))%nat.
Proof. apply (protocol_rounds t0 es). apply worker_run_refines. Qed.
End simulation.
