(* ===== verification/FrostClient.v ===== *)
(** * The signing client of the main thread ([lib/frost-client.ts], [contexts/FROSTContext.tsx])

    The class is a machine: its fields, the promises of [sendToWorker] with their timers, and
    the messages posted to the worker.  An asynchronous method is split at its [await]s.
    The signing exchange over the WebSocket is a small program of sends and receives. *)

From S2P Require Import Prelude Js Models ApiTypes Encoding Memory Crypto Api FrostWire Frost FrostWorker.
#[local] Open Scope Z_scope.
#[local] Open Scope js_scope.

(** The promise of one request to the worker. *)
Inductive ReqState :=
| R_pending
| R_resolved (r : WorkerResponse)
| R_rejected (e : js_error).

Record Client := {
  worker : option Z;
  isInitialized : bool;
  initTime : option Z;
  c_timeoutMs : Z;
  (** The request whose closures [pendingResolve] and [pendingReject] are. *)
  pendingResolve : option Z;
  pendingReject : option Z;
  (** The certificate request in progress. *)
  certRequestPromise : option Z;
  (** Promises made so far, the pending timers with their deadlines. *)
  reqs : gmap Z ReqState;
  req_timers : gmap Z Z;
  next_id : Z;
  (** The messages posted, with the worker they went to. *)
  sent : list (Z * WorkerMessage);
  c_now : Z;
}.

Definition set_worker (w : option Z) (i : bool) (t : option Z) (c : Client) : Client :=
  {| worker := w; isInitialized := i; initTime := t; c_timeoutMs := c_timeoutMs c;
     pendingResolve := pendingResolve c; pendingReject := pendingReject c;
     certRequestPromise := certRequestPromise c; reqs := reqs c; req_timers := req_timers c;
     next_id := next_id c; sent := sent c; c_now := c_now c |}.

Definition set_pending (res rej : option Z) (c : Client) : Client :=
  {| worker := worker c; isInitialized := isInitialized c; initTime := initTime c;
     c_timeoutMs := c_timeoutMs c; pendingResolve := res; pendingReject := rej;
     certRequestPromise := certRequestPromise c; reqs := reqs c; req_timers := req_timers c;
     next_id := next_id c; sent := sent c; c_now := c_now c |}.

Definition set_reqs (r : gmap Z ReqState) (t : gmap Z Z) (c : Client) : Client :=
  {| worker := worker c; isInitialized := isInitialized c; initTime := initTime c;
     c_timeoutMs := c_timeoutMs c; pendingResolve := pendingResolve c;
     pendingReject := pendingReject c; certRequestPromise := certRequestPromise c;
     reqs := r; req_timers := t; next_id := next_id c; sent := sent c; c_now := c_now c |}.

Definition fresh_id (c : Client) : Client :=
  {| worker := worker c; isInitialized := isInitialized c; initTime := initTime c;
     c_timeoutMs := c_timeoutMs c; pendingResolve := pendingResolve c;
     pendingReject := pendingReject c; certRequestPromise := certRequestPromise c;
     reqs := reqs c; req_timers := req_timers c; next_id := next_id c + 1; sent := sent c;
     c_now := c_now c |}.

Definition postMessage (w : Z) (m : WorkerMessage) (c : Client) : Client :=
  {| worker := worker c; isInitialized := isInitialized c; initTime := initTime c;
     c_timeoutMs := c_timeoutMs c; pendingResolve := pendingResolve c;
     pendingReject := pendingReject c; certRequestPromise := certRequestPromise c;
     reqs := reqs c; req_timers := req_timers c; next_id := next_id c;
     sent := sent c ++ [(w, m)]; c_now := c_now c |}.

Definition set_cert (p : option Z) (c : Client) : Client :=
  {| worker := worker c; isInitialized := isInitialized c; initTime := initTime c;
     c_timeoutMs := c_timeoutMs c; pendingResolve := pendingResolve c;
     pendingReject := pendingReject c; certRequestPromise := p;
     reqs := reqs c; req_timers := req_timers c; next_id := next_id c; sent := sent c;
     c_now := c_now c |}.

Definition setTimeoutMs (ms : Z) (c : Client) : Client :=
  {| worker := worker c; isInitialized := isInitialized c; initTime := initTime c;
     c_timeoutMs := ms; pendingResolve := pendingResolve c;
     pendingReject := pendingReject c; certRequestPromise := certRequestPromise c;
     reqs := reqs c; req_timers := req_timers c; next_id := next_id c; sent := sent c;
     c_now := c_now c |}.

Definition set_now (t : Z) (c : Client) : Client :=
  {| worker := worker c; isInitialized := isInitialized c; initTime := initTime c;
     c_timeoutMs := c_timeoutMs c; pendingResolve := pendingResolve c;
     pendingReject := pendingReject c; certRequestPromise := certRequestPromise c;
     reqs := reqs c; req_timers := req_timers c; next_id := next_id c; sent := sent c;
     c_now := t |}.

(** ** Requests to the worker *)

(** [resolve] and [reject] of a promise: the first settlement counts. *)
Definition settle (r : Z) (s : ReqState) (c : Client) : Client :=
  match reqs c !! r with
  | Some R_pending => set_reqs (<[r := s]> (reqs c)) (req_timers c) c
  | _ => c
  end.

Definition clearTimeout (r : Z) (c : Client) : Client :=
  set_reqs (reqs c) (delete r (req_timers c)) c.

(** The worker instances are numbered from the same counter. *)
Definition spawnWorker (c : Client) : Client :=
  fresh_id (set_worker (Some (next_id c)) (isInitialized c) (initTime c) c).

Definition initial_client (t0 : Z) : Client :=
  spawnWorker
    {| worker := None; isInitialized := false; initTime := None; c_timeoutMs := 30 * 60 * 1000;
       pendingResolve := None; pendingReject := None; certRequestPromise := None;
       reqs := ∅; req_timers := ∅; next_id := 1; sent := []; c_now := t0 |}.

(** [worker.onerror]. *)
Definition worker_onerror (c : Client) : Client := set_worker None false (initTime c) c.

Definition worker_message_text (m : jsstring) : jsstring :=
  match m with [] => js "Worker error" | _ => m end.

Definition handleWorkerMessage (response : WorkerResponse) (c : Client) : Client :=
  match response, pendingReject c with
  | error_response m, Some r =>
      let c := settle r (R_rejected (plain_error (worker_message_text m))) (clearTimeout r c) in
      set_pending None None c
  | _, _ =>
      match pendingResolve c with
      | Some r =>
          let c := settle r (R_resolved response) (clearTimeout r c) in
          set_pending None None c
      | None => c
      end
  end.

Definition not_running : js_error := plain_error (js "Worker not running").
Definition timed_out : js_error := plain_error (js "Worker request timed out").

(** Returns the identity of the promise. *)
Definition sendToWorker (message : WorkerMessage) (timeout : Z) (c : Client) : Z * Client :=
  let r := next_id c in
  match worker c with
  | None => (r, fresh_id (set_reqs (<[r := R_rejected not_running]> (reqs c)) (req_timers c) c))
  | Some w =>
      let c := set_reqs (<[r := R_pending]> (reqs c))
                        (<[r := c_now c + timer_delay timeout]> (req_timers c)) c in
      let c := set_pending (Some r) (Some r) (fresh_id c) in
      (r, postMessage w message c)
  end.

(** The callback of a request's timer. *)
Definition request_timeout (r : Z) (c : Client) : Client :=
  match req_timers c !! r with
  | Some due =>
      if due <=? c_now c then
        settle r (R_rejected timed_out) (set_pending None None (clearTimeout r c))
      else c
  | None => c
  end.

(** ** Initialisation *)

Section init.
Context {W : WebCrypto}.

(** Up to the [await] of the configuration. *)
Definition initWithShare_begin (c : Client) : Client :=
  match worker c with None => spawnWorker c | Some _ => c end.

(** Up to the [await] of the worker's answer. *)
Definition initWithConfig_begin (config : SSHCAConfig) (shareBytes : bytes) (c : Client)
    : result Z * Client :=
  match worker c with
  | None => (Throw (plain_error (js "Worker not spawned")), c)
  | Some _ =>
      match decodeBase64 (public_key config), decodeBase64 (server_verifying_share config),
            decodeBase64 (client_verifying_share config) with
      | Ok groupPublicKey, Ok server, Ok client =>
          let '(r, c) := sendToWorker (M_init (Some shareBytes) (Some groupPublicKey)
                           (Some server) (Some client) (Some (c_timeoutMs c))) 30000 c in
          (Ok r, c)
      | Throw e, _, _ | Ok _, Throw e, _ | Ok _, Ok _, Throw e => (Throw e, c)
      end
  end.

(** After the configuration arrived: the share is decrypted here, on the main thread. *)
Definition initWithShare_config (encryptedShare masterKey : bytes) (config : SSHCAConfig)
    (c : Client) : result Z * Client :=
  let nonce := u8_slice encryptedShare 0 12 in
  let ciphertext := u8_slice_from encryptedShare 12 in
  match decrypt masterKey nonce ciphertext with
  | Throw e => (Throw e, c)
  | Ok shareBytes => initWithConfig_begin config shareBytes c
  end.

(** After the worker answered with anything but an error. *)
Definition initWithConfig_finish (response : WorkerResponse) (c : Client) : result unit * Client :=
  match response with
  | ready => (Ok tt, set_worker (worker c) true (Some (c_now c)) c)
  | _ => (Throw (plain_error (js "Worker init failed: unknown error")), c)
  end.
End init.

(** ** Liveness and termination *)

Definition isActive (c : Client) : bool :=
  isInitialized c && bool_decide (is_Some (worker c)).

Definition getRemainingTime (c : Client) : Z :=
  match initTime c with
  | Some t => if isActive c then Z.max 0 (c_timeoutMs c - (c_now c - t)) else 0
  | None => 0
  end.

Definition getTimeoutMs (c : Client) : Z := c_timeoutMs c.

(** [None]: not initialised, answers [false] at once; otherwise the status request. *)
Definition ensureAlive_begin (c : Client) : option Z * Client :=
  if isActive c then
    let '(r, c) := sendToWorker M_status 2500 c in (Some r, c)
  else (None, c).

(** How the request settled decides; [true] is alive. *)
Definition ensureAlive_finish (answer : ReqState) (c : Client) : bool * Client :=
  match answer with
  | R_rejected _ => (false, set_worker None false None c)
  | _ => (true, c)
  end.

Definition terminate_begin (c : Client) : option Z * Client :=
  match worker c with
  | Some _ => let '(r, c) := sendToWorker M_terminate 5000 c in (Some r, c)
  | None => (None, set_worker None false None c)
  end.

(** After the request settled, either way.  [this.worker.terminate()] on a worker dropped
    meanwhile throws. *)
Definition terminate_finish (c : Client) : result unit * Client :=
  match worker c with
  | Some _ => (Ok tt, set_worker None false None c)
  | None => (Throw (type_error "Cannot read properties of null (reading 'terminate')"), c)
  end.

(** ** Requesting a certificate *)

(** A promise, new or shared, or an exception. *)
Definition requestCertificate (token : option jsstring) (c : Client) : result (Z * bool) * Client :=
  if negb (isActive c) then (Throw (plain_error (js "FROST client not initialized")), c)
  else match certRequestPromise c with
  | Some p => (Ok (p, false), c)
  | None =>
      match truthy token with
      | None => (Throw (plain_error (js "Not authenticated")), c)
      | Some _ =>
          let p := next_id c in
          let c := set_worker (worker c) (isInitialized c) (Some (c_now c)) c in
          (Ok (p, true), set_cert (Some p) (fresh_id c))
      end
  end.

(** The [finally] of the promise. *)
Definition certificate_settled (c : Client) : Client := set_cert None c.

Definition buildWebSocketURL (baseUrl token : jsstring) : result jsstring :=
  let separator := if existsb (Z.eqb 63) baseUrl then js "&" else js "?" in
  let! e := encodeURIComponent token in
  Ok (baseUrl ++ separator ++ js "token=" ++ e).

(** The promise body: [settled], what it settled to, and the closing of the socket. *)
Record CertificateResult := {
  certificate : jsstring;
  serial : Z;
  userPrivateKey : bytes;
  userPublicKey : bytes;
}.

Record CertPromise := {
  settled : option (result CertificateResult);
  flow_started : bool;
  ws_closed : bool;
}.

Inductive CertEvent :=
| CE_construct_failed (e : js_error)
| CE_open
| CE_flow_done (r : CertificateResult)
| CE_flow_failed (e : js_error)
| CE_error (type : jsstring)
| CE_close (reason : jsstring) (code : Z).

Definition cert_start : CertPromise :=
  {| settled := None; flow_started := false; ws_closed := false |}.

Definition settle_cert (r : result CertificateResult) (close : bool) (p : CertPromise) : CertPromise :=
  match settled p with
  | Some _ => p
  | None => {| settled := Some r; flow_started := flow_started p;
               ws_closed := ws_closed p || close |}
  end.

Definition cert_step (p : CertPromise) (e : CertEvent) : CertPromise :=
  match e with
  | CE_construct_failed err => settle_cert (Throw err) false p
  | CE_open => {| settled := settled p; flow_started := true; ws_closed := ws_closed p |}
  | CE_flow_done r => settle_cert (Ok r) false p
  | CE_flow_failed err => settle_cert (Throw err) true p
  | CE_error type => settle_cert (Throw (plain_error (js "WebSocket connection error: " ++ type))) false p
  | CE_close reason code =>
      let reason := match reason with [] => js "code " ++ of_int code | _ => reason end in
      settle_cert (Throw (plain_error (js "WebSocket closed unexpectedly: " ++ reason))) false p
  end.

(** ** The signing exchange *)

(** A message of the signing server. *)
Record WSResponse := {
  wr_type : jsstring;
  wr_session : option jsstring;
  wr_payload : option jsstring;
  wr_serial : option Z;
  wr_error : option jsstring;
}.

(** A program of the signing flow, cut at its sends and its [await]s. *)
Inductive flow :=
| F_return (r : CertificateResult)
| F_throw (e : js_error)
| F_send (message : json) (k : flow)
| F_receive (k : WSResponse → flow)
| F_worker (message : WorkerMessage) (k : WorkerResponse → flow)
| F_stamp (k : flow).

Definition flow_lift {A} (r : result A) (k : A → flow) : flow :=
  match r with Ok a => k a | Throw e => F_throw e end.

(** [decodeBase64(x!)] on an absent field reads the string ["undefined"]. *)
Definition payload_text (p : option jsstring) : jsstring := default (js "undefined") p.

Definition session_field (s : option jsstring) : list (jsstring * json) :=
  opt_field (js "session") (JStr <$> s).

Definition expected (what got : jsstring) : flow :=
  F_throw (plain_error (js "Expected " ++ what ++ js ", got " ++ got)).

Definition handleSigningFlow (hostId : Z) (userPrivateKey userPublicKey : bytes) : flow :=
  flow_lift (encodeBase64 userPublicKey) (λ pub,
  F_send (JObj [(js "type", JStr (js "request_cert")); (js "host_id", JInt hostId);
                (js "user_public_key", JStr pub)]) (
  F_receive (λ sessionResp,
  if negb (bool_decide (wr_type sessionResp = js "session")) then expected (js "session") (wr_type sessionResp)
  else
  let sessionId := wr_session sessionResp in
  flow_lift (decodeBase64 (payload_text (wr_payload sessionResp))) (λ tbsData,
  F_worker (M_round1 (Some tbsData) []) (λ round1Resp,
  match round1Resp with
  | commitment_response clientCommitment =>
      F_stamp (
      flow_lift (encodeBase64 clientCommitment) (λ c64,
      F_send (JObj ([(js "type", JStr (js "round1"))] ++ session_field sessionId ++
                    [(js "payload", JStr c64)])) (
      F_receive (λ commitmentResp,
      if negb (bool_decide (wr_type commitmentResp = js "commitment"))
      then expected (js "commitment") (wr_type commitmentResp)
      else
      flow_lift (decodeBase64 (payload_text (wr_payload commitmentResp))) (λ serverCommitment,
      F_worker (M_round2 (Some serverCommitment)) (λ round2Resp,
      match round2Resp with
      | partial_sig partialSignature =>
          F_stamp (
          flow_lift (encodeBase64 partialSignature) (λ p64,
          F_send (JObj ([(js "type", JStr (js "round2"))] ++ session_field sessionId ++
                        [(js "payload", JStr p64)])) (
          F_receive (λ certResp,
          if negb (bool_decide (wr_type certResp = js "certificate"))
          then expected (js "certificate") (wr_type certResp)
          else
          flow_lift (decodeBase64 (payload_text (wr_payload certResp))) (λ _,
          F_return {| certificate := payload_text (wr_payload certResp);
                      serial := default 0 (wr_serial certResp);
                      userPrivateKey := userPrivateKey; userPublicKey := userPublicKey |})))))
      | _ => F_throw (plain_error (js "Worker failed to compute partial signature"))
      end))))))
  | _ => F_throw (plain_error (js "Worker failed to generate commitment"))
  end))))).

(** What the environment answers at each [await]. *)
Inductive reply :=
| RP_ws (r : result WSResponse)
| RP_worker (r : result WorkerResponse).

(** What the flow does to the outside. *)
Inductive action :=
| A_send (message : json)
| A_worker (message : WorkerMessage)
| A_close.

(** The run of the flow inside [try ... finally { ws.close() }]: its actions and, when it
    has not been left waiting, its completion.  A reply of the wrong kind cannot happen and
    leaves it waiting. *)
Fixpoint run_flow (f : flow) (rs : list reply) : list action * option (result CertificateResult) :=
  match f with
  | F_return r => ([A_close], Some (Ok r))
  | F_throw e => ([A_close], Some (Throw e))
  | F_send m k => let '(a, o) := run_flow k rs in (A_send m :: a, o)
  | F_stamp k => run_flow k rs
  | F_receive k =>
      match rs with
      | RP_ws (Ok r) :: rs => run_flow (k r) rs
      | RP_ws (Throw e) :: _ => ([A_close], Some (Throw e))
      | _ => ([], None)
      end
  | F_worker m k =>
      match rs with
      | RP_worker (Ok r) :: rs => let '(a, o) := run_flow (k r) rs in (A_worker m :: a, o)
      | RP_worker (Throw e) :: _ => ([A_worker m; A_close], Some (Throw e))
      | _ => ([A_worker m], None)
      end
  end.

(** [receiveWS]'s handler on the text of a message. *)
Definition receiveWS_message `{Json} (data : jsstring) : result WSResponse :=
  let! j := json_parse data in
  let type := default (js "undefined") (json_string (json_get (js "type") j)) in
  let err := json_string (json_get (js "error") j) in
  if bool_decide (type = js "error") then
    Throw (plain_error (default (js "Server error") (truthy err)))
  else Ok {| wr_type := type; wr_session := json_string (json_get (js "session") j);
             wr_payload := json_string (json_get (js "payload") j);
             wr_serial := match json_get (js "serial") j with Some (JInt n) => Some n | _ => None end;
             wr_error := err |}.

(** ** The context ([FROSTContext.tsx]) *)

Record FrostContext := { fc_client : option Client; fc_isActive : bool; fc_remainingTime : Z }.

Definition context_poll (x : FrostContext) : FrostContext :=
  match fc_client x with
  | Some c => {| fc_client := Some c; fc_isActive := isActive c;
                 fc_remainingTime := getRemainingTime c |}
  | None => x
  end.

(** [initWorker] after the configuration arrived, up to the worker's answer. *)
Definition context_initWorker {W : WebCrypto} (config config' : SSHCAConfig) (masterKey : bytes)
    (x : FrostContext) : result Z * FrostContext :=
  match fc_client x with
  | None => (Throw (plain_error (js "Client not initialized")), x)
  | Some c =>
      match decodeBase64 (client_share config) with
      | Throw e => (Throw e, x)
      | Ok encryptedShare =>
          let '(r, c) := initWithShare_config encryptedShare masterKey config'
                           (initWithShare_begin c) in
          (r, {| fc_client := Some c; fc_isActive := fc_isActive x;
                 fc_remainingTime := fc_remainingTime x |})
      end
  end.

Definition context_ensureAlive_finish (alive : bool) (x : FrostContext) : FrostContext :=
  {| fc_client := fc_client x; fc_isActive := alive; fc_remainingTime := fc_remainingTime x |}.

Definition context_terminate_finish (x : FrostContext) : FrostContext :=
  {| fc_client := fc_client x; fc_isActive := false;
     fc_remainingTime := match fc_client x with Some _ => 0 | None => fc_remainingTime x end |}.

(** ** Facts: the request machine *)

Inductive RpcEvent :=
| RE_send (m : WorkerMessage) (timeout : Z)
| RE_response (r : WorkerResponse)
| RE_timeout (r : Z)
| RE_time (ms : Z)
| RE_onerror
| RE_spawn.

Definition rpc_step (c : Client) (e : RpcEvent) : Client :=
  match e with
  | RE_send m t => (sendToWorker m t c).2
  | RE_response r => handleWorkerMessage r c
  | RE_timeout r => request_timeout r c
  | RE_time ms => set_now (c_now c + Z.max 0 ms) c
  | RE_onerror => worker_onerror c
  | RE_spawn => initWithShare_begin c
  end.

(** The two closures belong to one request, which is pending; a request is pending exactly
    while its timer runs; identities are not reused. *)
Record rpc_inv (c : Client) : Prop := {
  rpc_same : pendingReject c = pendingResolve c;
  rpc_pending r : pendingResolve c = Some r → reqs c !! r = Some R_pending;
  rpc_timer r : reqs c !! r = Some R_pending ↔ is_Some (req_timers c !! r);
  rpc_fresh r : is_Some (reqs c !! r) → r < next_id c;
}.

Lemma initial_client_inv t0 : rpc_inv (initial_client t0).
Proof.
  split; simpl; try done.
  - intros r. rewrite !lookup_empty. split; [done | by intros [? ?]].
  - intros r. rewrite lookup_empty. by intros [? ?].
Qed.

(** Settling a pending request and dropping its timer and the closures. *)
Lemma settle_inv c r s :
  rpc_inv c → reqs c !! r = Some R_pending → s ≠ R_pending →
  rpc_inv (set_pending None None (settle r s (clearTimeout r c))).
Proof.
  intros [Hs Hp Ht Hf] Hr Hns. unfold settle, clearTimeout, set_reqs. cbn [reqs]. rewrite Hr.
  split; cbn; try done.
  - intros q. destruct (decide (q = r)) as [->|Hq].
    + rewrite lookup_insert_eq, lookup_delete_eq. split; [congruence | by intros [? ?]].
    + rewrite lookup_insert_ne, lookup_delete_ne by done. apply Ht.
  - intros q Hq. apply Hf. destruct (decide (q = r)) as [->|]; [by rewrite Hr|].
    by rewrite lookup_insert_ne in Hq.
Qed.

Lemma request_timeout_fire c r due :
  req_timers c !! r = Some due → due <= c_now c → reqs c !! r = Some R_pending →
  request_timeout r c = set_pending None None (settle r (R_rejected timed_out) (clearTimeout r c)).
Proof.
  intros Hd Hn Hr. unfold request_timeout. rewrite Hd, (proj2 (Z.leb_le _ _) Hn).
  unfold settle, clearTimeout, set_reqs, set_pending. cbn [reqs]. by rewrite Hr.
Qed.

Lemma rpc_step_inv c e : rpc_inv c → rpc_inv (rpc_step c e).
Proof.
  intros I. pose proof I as [Hs Hp Ht Hf]. destruct e as [m t|r|r|ms| |]; cbn [rpc_step].
  - unfold sendToWorker. set (r := next_id c).
    assert (Hr : reqs c !! r = None).
    { apply eq_None_not_Some. intros Hr. apply Hf in Hr. unfold r in Hr. lia. }
    destruct (worker c) as [w|]; split; cbn; try done.
    + intros q [= <-]. by rewrite lookup_insert_eq.
    + intros q. destruct (decide (q = r)) as [->|Hq].
      * rewrite !lookup_insert_eq. split; intros; [by eexists|done].
      * rewrite !lookup_insert_ne by done. apply Ht.
    + intros q Hq. destruct (decide (q = r)) as [->|]; [unfold r; lia|].
      rewrite lookup_insert_ne in Hq by done. apply Hf in Hq. lia.
    + intros q Hq. rewrite lookup_insert_ne; [by apply Hp|]. intros <-.
      apply Hp in Hq. congruence.
    + intros q. destruct (decide (q = r)) as [->|Hq].
      * rewrite lookup_insert_eq. split; [done|]. intros H. apply Ht in H. congruence.
      * rewrite lookup_insert_ne by done. apply Ht.
    + intros q Hq. destruct (decide (q = r)) as [->|]; [unfold r; lia|].
      rewrite lookup_insert_ne in Hq by done. apply Hf in Hq. lia.
  - unfold handleWorkerMessage. rewrite Hs.
    destruct (pendingResolve c) as [q|] eqn:Eq; [|by destruct r].
    specialize (Hp q eq_refl). destruct r; by apply settle_inv.
  - destruct (req_timers c !! r) as [due|] eqn:Ed.
    + destruct (Z.leb_spec due (c_now c)).
      * assert (Hr : reqs c !! r = Some R_pending) by (apply Ht; by rewrite Ed).
        rewrite (request_timeout_fire c r due) by done. by apply settle_inv.
      * unfold request_timeout. rewrite Ed. case_if; [zbool; lia|done].
    + unfold request_timeout. by rewrite Ed.
  - by split.
  - by split.
  - unfold initWithShare_begin. destruct (worker c); [done|]. split; cbn; try done.
    intros r Hr. apply Hf in Hr. lia.
Qed.

Lemma rpc_reachable_inv t0 es : rpc_inv (run rpc_step (initial_client t0) es).
Proof. apply run_invariant; [apply initial_client_inv | intros; by apply rpc_step_inv]. Qed.

Lemma settle_lookup c r s :
  reqs c !! r = Some R_pending →
  reqs (set_pending None None (settle r s (clearTimeout r c))) !! r = Some s.
Proof.
  intros Hr. unfold settle, clearTimeout. cbn [reqs set_reqs set_pending]. rewrite Hr.
  apply lookup_insert_eq.
Qed.

(** A settled promise never changes. *)
Lemma settle_stable c r s q st :
  reqs c !! q = Some st → st ≠ R_pending → reqs (settle r s c) !! q = Some st.
Proof.
  intros Hq Hn. unfold settle. destruct (reqs c !! r) as [[]|] eqn:Er; try done.
  cbn. rewrite lookup_insert_ne; [done|congruence].
Qed.

Lemma rpc_step_stable c e q st :
  rpc_inv c → reqs c !! q = Some st → st ≠ R_pending → reqs (rpc_step c e) !! q = Some st.
Proof.
  intros [_ _ _ Hf] Hq Hn. destruct e as [m t|r|r|ms| |]; cbn [rpc_step]; try done.
  - assert (Hlt : q < next_id c) by (apply Hf; by rewrite Hq).
    unfold sendToWorker. destruct (worker c); cbn; rewrite lookup_insert_ne; (done || lia).
  - unfold handleWorkerMessage.
    destruct r, (pendingReject c), (pendingResolve c); try done; cbn [set_pending reqs];
      by apply settle_stable.
  - unfold request_timeout. destruct (req_timers c !! r); [|done]. case_if; [|done].
    by apply settle_stable.
  - unfold initWithShare_begin. by destruct (worker c).
Qed.

(** C12: No request to the worker hangs: in every reachable state a pending request has a
    running timer, whose firing when due rejects it; and a promise once settled keeps its
    settlement whatever happens next. *)
Theorem requests_settle t0 es :
  let c := run rpc_step (initial_client t0) es in
  (∀ r, reqs c !! r = Some R_pending →
     ∃ due, req_timers c !! r = Some due ∧
       ∀ ms, 0 <= ms → due <= c_now c + ms →
         reqs (rpc_step (rpc_step c (RE_time ms)) (RE_timeout r)) !! r
         = Some (R_rejected timed_out)) ∧
  (∀ r st es', reqs c !! r = Some st → st ≠ R_pending →
     reqs (run rpc_step c es') !! r = Some st).
Proof.
  intros c. pose proof (rpc_reachable_inv t0 es) as I. fold c in I. clearbody c. split.
  - intros r Hr. destruct (proj1 (rpc_timer c I r) Hr) as [due Hd]. exists due.
    split; [done|]. intros ms Hms Hle. cbn [rpc_step].
    rewrite (request_timeout_fire _ r due); [|done|cbn; lia|done].
    by apply settle_lookup.
  - intros r st es' Hr Hn. revert c I Hr.
    induction es' as [|e es' IH]; intros c I Hr; [done|].
    apply (IH (rpc_step c e)); [by apply rpc_step_inv | by apply rpc_step_stable].
Qed.

Lemma sendToWorker_spec c w m t :
  worker c = Some w →
  let r := (sendToWorker m t c).1 in
  let c1 := (sendToWorker m t c).2 in
  r = next_id c ∧ worker c1 = Some w ∧ next_id c1 = next_id c + 1 ∧
  reqs c1 = <[next_id c := R_pending]> (reqs c) ∧
  req_timers c1 = <[next_id c := c_now c + timer_delay t]> (req_timers c) ∧
  pendingResolve c1 = Some (next_id c) ∧ pendingReject c1 = Some (next_id c).
Proof. intros Hw. unfold sendToWorker. by rewrite Hw. Qed.

(** The settlement a response gives. *)
Definition settlement (r : WorkerResponse) : ReqState :=
  match r with
  | error_response m => R_rejected (plain_error (worker_message_text m))
  | _ => R_resolved r
  end.

(** The response that follows a request settles exactly that request. *)
Lemma response_settles c m t resp w :
  worker c = Some w →
  let r := (sendToWorker m t c).1 in
  let c1 := (sendToWorker m t c).2 in
  let c' := handleWorkerMessage resp c1 in
  reqs c' !! r = Some (settlement resp) ∧ req_timers c' !! r = None ∧
  pendingResolve c' = None ∧ (∀ q, q ≠ r → reqs c' !! q = reqs c !! q) ∧
  sent c' = sent c ++ [(w, m)] ∧ sent c1 = sent c ++ [(w, m)].
Proof.
  intros Hw. unfold sendToWorker. rewrite Hw. cbn [fst snd].
  set (r := next_id c).
  assert (E : ∀ s c0, reqs c0 !! r = Some R_pending → s ≠ R_pending →
    let c1 := set_pending None None (settle r s (clearTimeout r c0)) in
    reqs c1 !! r = Some s ∧ req_timers c1 !! r = None ∧ pendingResolve c1 = None ∧
    (∀ q, q ≠ r → reqs c1 !! q = reqs c0 !! q) ∧ sent c1 = sent c0).
  { intros s c0 Hr Hn. unfold settle, clearTimeout, set_reqs. cbn [reqs]. rewrite Hr. cbn.
    rewrite lookup_insert_eq, lookup_delete_eq. split_and!; try done.
    intros q Hq. by rewrite lookup_insert_ne. }
  set (c0 := postMessage w m _).
  assert (Hr0 : reqs c0 !! r = Some R_pending) by (apply lookup_insert_eq).
  assert (Hq0 : ∀ q, q ≠ r → reqs c0 !! q = reqs c !! q)
    by (intros q Hq; cbn; by rewrite lookup_insert_ne).
  destruct (E (settlement resp) c0 Hr0) as (H1 & H2 & H3 & H4 & H5); [by destruct resp|].
  assert (Ec : handleWorkerMessage resp c0 =
               set_pending None None (settle r (settlement resp) (clearTimeout r c0)))
    by (unfold handleWorkerMessage; by destruct resp).
  rewrite Ec. split_and!; try done. intros q Hq. by rewrite H4, Hq0.
Qed.

(** One request at a time is answered correctly: when the worker is up, the response
    that follows a request settles exactly that request, clears its timer and leaves no
    closure behind. *)
Theorem request_response t0 es m t resp w :
  let c := run rpc_step (initial_client t0) es in
  worker c = Some w →
  let r := (sendToWorker m t c).1 in
  let c' := rpc_step (rpc_step c (RE_send m t)) (RE_response resp) in
  reqs c' !! r = Some (settlement resp) ∧ req_timers c' !! r = None ∧
  pendingResolve c' = None ∧ (∀ q, q ≠ r → reqs c' !! q = reqs c !! q) ∧
  sent c' = sent c ++ [(w, m)].
Proof.
  intros c Hw. destruct (response_settles c m t resp w Hw) as (H1 & H2 & H3 & H4 & H5 & _). eauto.
Qed.

(** Overlapping requests are misdelivered: with two requests outstanding the worker's
    first answer settles the second request, its second answer is dropped, and the first
    request can only time out. *)
Theorem overlapping_requests c w m1 t1 m2 t2 a1 a2 :
  worker c = Some w → (∀ m, a1 ≠ error_response m) →
  let c1 := (sendToWorker m1 t1 c).2 in
  let r1 := (sendToWorker m1 t1 c).1 in
  let r2 := (sendToWorker m2 t2 c1).1 in
  let c2 := (sendToWorker m2 t2 c1).2 in
  let c' := handleWorkerMessage a2 (handleWorkerMessage a1 c2) in
  reqs c' !! r2 = Some (R_resolved a1) ∧ reqs c' !! r1 = Some R_pending ∧
  is_Some (req_timers c' !! r1) ∧ handleWorkerMessage a2 (handleWorkerMessage a1 c2) = handleWorkerMessage a1 c2.
Proof.
  intros Hw Ha c1 r1 r2 c2 c'. unfold c', r1, r2.
  destruct (sendToWorker_spec c w m1 t1 Hw) as (Er1 & Hw1 & Hn1 & Hq1 & Ht1 & _ & _).
  fold c1 in Hw1, Hn1, Hq1, Ht1.
  destruct (sendToWorker_spec c1 w m2 t2 Hw1) as (Er2 & _ & _ & Hq2 & Ht2 & Hp2 & Hj2).
  fold c2 in Hq2, Ht2, Hp2, Hj2. rewrite Er1, Er2, Hn1. clearbody c1 c2. clear r1 r2 c' Er1 Er2.
  rewrite Hn1 in Hq2, Ht2, Hp2, Hj2.
  assert (Hr2 : reqs c2 !! (next_id c + 1) = Some R_pending)
    by (rewrite Hq2; apply lookup_insert_eq).
  assert (Hr1 : reqs c2 !! next_id c = Some R_pending)
    by (rewrite Hq2, lookup_insert_ne, Hq1 by lia; apply lookup_insert_eq).
  assert (Ht : is_Some (req_timers c2 !! next_id c)).
  { rewrite Ht2, lookup_insert_ne, Ht1, lookup_insert_eq by lia. by eexists. }
  assert (Ec : handleWorkerMessage a1 c2 =
    set_pending None None (settle (next_id c + 1) (R_resolved a1) (clearTimeout (next_id c + 1) c2))).
  { unfold handleWorkerMessage. rewrite Hp2, Hj2. destruct a1; try done. by destruct (Ha message). }
  assert (Hd : ∀ c0, pendingResolve c0 = None → pendingReject c0 = None →
                handleWorkerMessage a2 c0 = c0).
  { intros c0 H1 H2. unfold handleWorkerMessage. rewrite H1, H2. by destruct a2. }
  rewrite Ec, Hd by done.
  split_and!; [by apply settle_lookup | | | done].
  - unfold settle, clearTimeout. cbn [reqs set_reqs set_pending]. rewrite Hr2.
    cbn [reqs set_reqs set_pending]. by rewrite lookup_insert_ne by lia.
  - unfold settle, clearTimeout. cbn [reqs set_reqs set_pending]. rewrite Hr2.
    cbn [req_timers set_reqs set_pending]. by rewrite lookup_delete_ne by lia.
Qed.

(** ** Facts: the signing exchange *)

Inductive action_kind := K_request_cert | K_worker_round1 | K_round1 | K_worker_round2 | K_round2
| K_close | K_other.

Definition kind (a : action) : action_kind :=
  match a with
  | A_close => K_close
  | A_worker (M_round1 _ _) => K_worker_round1
  | A_worker (M_round2 _) => K_worker_round2
  | A_worker _ => K_other
  | A_send j =>
      match json_string (json_get (js "type") j) with
      | Some t => if decide (t = js "request_cert") then K_request_cert
                  else if decide (t = js "round1") then K_round1
                  else if decide (t = js "round2") then K_round2 else K_other
      | None => K_other
      end
  end.

(** Every run of [f] performs the actions of [stages] in order, up to some point, then
    closes the socket if it ended; it returns normally only after all of them. *)
Definition follows (stages : list action_kind) (f : flow) : Prop :=
  ∀ rs, ∃ n, (n <= length stages)%nat ∧
    kind <$> (run_flow f rs).1 =
      take n stages ++ (match (run_flow f rs).2 with Some _ => [K_close] | None => [] end) ∧
    (∀ r, (run_flow f rs).2 = Some (Ok r) → n = length stages).

Lemma follows_return r : follows [] (F_return r).
Proof. intros rs. by exists 0%nat. Qed.

Lemma follows_throw s e : follows s (F_throw e).
Proof. intros rs. exists 0%nat. split_and!; [lia | done | done]. Qed.

Lemma follows_send k s m f : kind (A_send m) = k → follows s f → follows (k :: s) (F_send m f).
Proof.
  intros Hk Hf rs. destruct (Hf rs) as (n & Hn & Ha & Hr). cbn [run_flow].
  destruct (run_flow f rs) as [a o]. exists (S n). cbn [fst snd length] in *.
  split_and!; [lia | | intros r Er; f_equal; by apply (Hr r)].
  rewrite fmap_cons, Hk. cbn [take app]. by rewrite Ha.
Qed.

Lemma follows_stamp s f : follows s f → follows s (F_stamp f).
Proof. intros Hf rs. apply Hf. Qed.

Lemma follows_receive s k : (∀ r, follows s (k r)) → follows s (F_receive k).
Proof.
  intros Hk rs. cbn [run_flow].
  destruct rs as [|[[r|e]|[r|e]] rs]; try apply Hk; exists 0%nat; split_and!; (done || lia).
Qed.

Lemma follows_worker k s m f :
  kind (A_worker m) = k → (∀ r, follows s (f r)) → follows (k :: s) (F_worker m f).
Proof.
  intros Hk Hf rs. cbn [run_flow].
  destruct rs as [|[[r|e]|[r|e]] rs];
    try (exists 1%nat; cbn [fst snd length]; rewrite ?fmap_cons, Hk;
         split_and!; (done || lia)).
  destruct (Hf r rs) as (n & Hn & Ha & Hr). destruct (run_flow (f r) rs) as [a o].
  exists (S n). cbn [fst snd length] in *.
  split_and!; [lia | | intros x Ex; f_equal; by apply (Hr x)].
  rewrite fmap_cons, Hk. cbn [take app]. by rewrite Ha.
Qed.

Lemma follows_lift {A} s (r : result A) k : (∀ a, follows s (k a)) → follows s (flow_lift r k).
Proof. intros Hk. destruct r as [a|e]; simpl; [apply Hk | apply follows_throw]. Qed.

Ltac follow :=
  repeat lazymatch goal with
  | |- follows _ (F_return _) => apply follows_return
  | |- follows _ (F_throw _) => apply follows_throw
  | |- follows _ (F_stamp _) => apply follows_stamp
  | |- follows _ (flow_lift _ _) => apply follows_lift; intros ?
  | |- follows _ (F_send _ _) => apply follows_send; [reflexivity|]
  | |- follows _ (F_receive _) => apply follows_receive; intros ?
  | |- follows _ (F_worker _ _) => apply follows_worker; [reflexivity|]; intros ?
  | |- follows _ (if ?b then _ else _) => destruct b
  | |- follows _ (match ?x with _ => _ end) => destruct x
  end.

(** C11: The signing flow keeps the protocol order on every run, whatever the server and the
    worker answer and wherever it stops: the request, the worker's round 1, the client's
    commitment, the worker's round 2, the partial signature, each at most once and only after
    its predecessors; the socket is closed exactly when the flow ends, as the last action, and
    a certificate is returned only after all five. *)
Theorem signing_flow_order hostId sk pk rs :
  let '(acts, out) := run_flow (handleSigningFlow hostId sk pk) rs in
  let stages := [K_request_cert; K_worker_round1; K_round1; K_worker_round2; K_round2] in
  ∃ n, kind <$> acts = take n stages ++ (match out with Some _ => [K_close] | None => [] end) ∧
    (∀ r, out = Some (Ok r) → n = 5%nat).
Proof.
  assert (Hf : follows [K_request_cert; K_worker_round1; K_round1; K_worker_round2; K_round2]
                 (handleSigningFlow hostId sk pk)).
  { unfold handleSigningFlow, expected. follow. }
  destruct (Hf rs) as (n & _ & Ha & Hr).
  destruct (run_flow (handleSigningFlow hostId sk pk) rs) as [acts out].
  exists n. split; [done|]. exact Hr.
Qed.

(** A server message with the given type and payload. *)
Definition server_message (type : jsstring) (session payload : option jsstring) (ser : option Z)
    : WSResponse :=
  {| wr_type := type; wr_session := session; wr_payload := payload; wr_serial := ser;
     wr_error := None |}.

(** ** Witnesses *)

Lemma request_response_witness :
  let c := run rpc_step (initial_client 5) [RE_time 10] in
  reqs (rpc_step (rpc_step c (RE_send M_status 2500)) (RE_response (error_response (js "x"))))
    !! (sendToWorker M_status 2500 c).1 = Some (R_rejected (plain_error (js "x"))).
Proof.
  intros c. apply (request_response 5 [RE_time 10] M_status 2500 (error_response (js "x")) 1).
  reflexivity.
Defined.

Lemma overlapping_requests_witness :
  let c1 := (sendToWorker M_status 2500 (initial_client 0)).2 in
  let c2 := (sendToWorker (M_round1 (Some [1]) []) 30000 c1).2 in
  reqs (handleWorkerMessage (commitment_response [2])
          (handleWorkerMessage (status_response true None None) c2)) !! 3
  = Some (R_resolved (status_response true None None)).
Proof.
  apply (overlapping_requests (initial_client 0) 1 M_status 2500 (M_round1 (Some [1]) []) 30000
           (status_response true None None) (commitment_response [2])).
  - reflexivity.
  - discriminate.
Defined.
