(* ===== verification/Signing.v ===== *)
(** * The signing client and its worker together

    [lib/frost-client.ts] on the main thread and [workers/frost-worker.ts] exchange messages:
    what the one posts the other handles, in order.  Here the two machines of [FrostClient]
    and [FrostWorker] are composed, with the signing server as the third party, and the
    composition is shown to sign. *)

From S2P Require Import Prelude Js Memory ApiTypes Encoding Crypto FrostWire Frost FrostWorker WorkerProtocol FrostClient.
#[local] Open Scope Z_scope.
#[local] Open Scope js_scope.

Abbreviation System := (Client * World)%type.

Section system.
Context {NF : NobleFrost} {W : WebCrypto}.

(** The messages the client posted since [c0] reach the worker, and the responses they
    bring reach the client. *)
Definition pump (c0 c1 : Client) (w : World) : System :=
  let messages := drop (length (sent c0)) (sent c1) in
  let w' := run step w (E_message <$> messages.*2) in
  (foldl (λ c r, handleWorkerMessage r c) c1 (drop (length (posted w)) (posted w')), w').

(** [await this.sendToWorker(m, timeout)]: how the promise stands afterwards. *)
Definition exchange (m : WorkerMessage) (timeout : Z) (s : System) : ReqState * System :=
  let '(r, c) := sendToWorker m timeout (fst s) in
  let s := pump (fst s) c (snd s) in
  (default R_pending (reqs (fst s) !! r), s).

(** [initWithShare] once the configuration has arrived; [None]: still waiting. *)
Definition initWithShare (encryptedShare masterKey : bytes) (config : SSHCAConfig) (s : System)
    : option (result unit) * System :=
  let c0 := initWithShare_begin (fst s) in
  match initWithShare_config encryptedShare masterKey config c0 with
  | (Throw e, c1) => (Some (Throw e), (c1, snd s))
  | (Ok r, c1) =>
      let s := pump c0 c1 (snd s) in
      match reqs (fst s) !! r with
      | Some (R_resolved a) =>
          let '(x, c) := initWithConfig_finish a (fst s) in (Some x, (c, snd s))
      | Some (R_rejected e) => (Some (Throw e), s)
      | _ => (None, s)
      end
  end.

(** The randomness of the worker's nonces is drawn when it handles the message. *)
Definition draw (rnd : bytes) (m : WorkerMessage) : WorkerMessage :=
  match m with M_round1 msg _ => M_round1 msg rnd | _ => m end.

(** [this.initTime = Date.now()]. *)
Definition stamp (c : Client) : Client :=
  set_worker (worker c) (isInitialized c) (Some (c_now c)) c.

(** The run of a flow against the worker, with the messages the server sends. *)
Fixpoint sign (rnd : bytes) (f : flow) (rs : list WSResponse) (s : System)
    : list action * option (result CertificateResult) * System :=
  match f with
  | F_return r => ([A_close], Some (Ok r), s)
  | F_throw e => ([A_close], Some (Throw e), s)
  | F_send m k => let '(a, o, s) := sign rnd k rs s in (A_send m :: a, o, s)
  | F_stamp k => sign rnd k rs (stamp (fst s), snd s)
  | F_receive k =>
      match rs with
      | r :: rs => sign rnd (k r) rs s
      | [] => ([], None, s)
      end
  | F_worker m k =>
      match exchange (draw rnd m) 30000 s with
      | (R_resolved a, s) => let '(acts, o, s) := sign rnd (k a) rs s in (A_worker m :: acts, o, s)
      | (R_rejected e, s) => ([A_worker m; A_close], Some (Throw e), s)
      | (R_pending, s) => ([A_worker m], None, s)
      end
  end.

(** ** Facts *)

(** A world the worker can be in, still open. *)
Definition live (w : World) : Prop := worker_inv w ∧ closed w = false.

Lemma pump_one c0 c1 i m w :
  sent c1 = sent c0 ++ [(i, m)] → live w →
  let a := answer m (protocol_of w) in
  pump c0 c1 w = (handleWorkerMessage a.2 c1, step w (E_message m)) ∧
  protocol_of (step w (E_message m)) = a.1 ∧
  worker_inv (step w (E_message m)).
Proof.
  intros Hs [Hw Hc] a. unfold pump. rewrite Hs, drop_app_length. cbn [fmap list_fmap snd].
  change (run step w [E_message m]) with (step w (E_message m)).
  assert (E : step w (E_message m) = onmessage m w) by (unfold step; by rewrite Hc).
  destruct (onmessage_simulates m w Hw) as [Hp Hq]. rewrite E, Hq, drop_app_length.
  split_and!; [done | exact Hp | by apply onmessage_inv].
Qed.

(** One request answered by the worker: the promise takes the protocol's answer. *)
Lemma exchange_answer m t c w i :
  worker c = Some i → live w →
  let a := answer m (protocol_of w) in
  ∃ c', exchange m t (c, w) = (settlement a.2, (c', step w (E_message m))) ∧
    worker c' = Some i ∧ isInitialized c' = isInitialized c ∧ c_now c' = c_now c ∧
    protocol_of (step w (E_message m)) = a.1 ∧ worker_inv (step w (E_message m)).
Proof.
  intros Hi Hw a. unfold exchange. cbn [fst snd].
  destruct (response_settles c m t a.2 i Hi) as (Hr & _ & _ & _ & _ & Hs).
  destruct (pump_one c (sendToWorker m t c).2 i m w Hs Hw) as (Ep & Hp & Hv). fold a in Ep, Hp.
  assert (Hk : ∀ r c1, worker (handleWorkerMessage r c1) = worker c1 ∧
            isInitialized (handleWorkerMessage r c1) = isInitialized c1 ∧
            c_now (handleWorkerMessage r c1) = c_now c1).
  { intros r c1. unfold handleWorkerMessage, settle, clearTimeout. repeat case_match; done. }
  destruct (Hk a.2 (sendToWorker m t c).2) as (K1 & K2 & K3).
  assert (Hkeep : worker (sendToWorker m t c).2 = Some i ∧
            isInitialized (sendToWorker m t c).2 = isInitialized c ∧
            c_now (sendToWorker m t c).2 = c_now c).
  { unfold sendToWorker. by rewrite Hi. }
  destruct Hkeep as (L1 & L2 & L3).
  destruct (sendToWorker m t c) as [r c1]. cbn [fst snd] in *. rewrite Ep. cbn [fst].
  rewrite Hr. eexists. split; [reflexivity|]. split_and!; [congruence.. | exact Hp | exact Hv].
Qed.

(** The worker does not close while it answers anything but a [terminate]. *)
Lemma answer_open m p : m ≠ M_terminate → pr_closed (answer m p).1 = pr_closed p.
Proof.
  intros Hm. destruct m; cbn [answer]; try done;
    unfold answer_init, answer_round1, answer_round2; by repeat case_match.
Qed.

(** A message answered with something else than an error, seen from the flow. *)
Lemma exchange_open m t c w i q r :
  worker c = Some i → live w → m ≠ M_terminate →
  answer m (protocol_of w) = (q, r) → (∀ e, r ≠ error_response e) →
  ∃ c' w', exchange m t (c, w) = (R_resolved r, (c', w')) ∧ worker c' = Some i ∧
    isInitialized c' = isInitialized c ∧ c_now c' = c_now c ∧ protocol_of w' = q ∧ live w'.
Proof.
  intros Hi Hw Hm Ha Hr.
  destruct (exchange_answer m t c w i Hi Hw) as (c' & E & Hi' & Hn & Ht & Hp & Hv).
  rewrite Ha in E, Hp. cbn [fst snd] in E, Hp. exists c', (step w (E_message m)). split_and!; try done.
  - rewrite E. destruct r; try done. by destruct (Hr message).
  - split; [exact Hv|].
    change (pr_closed (protocol_of (step w (E_message m))) = false).
    rewrite Hp. pose proof (answer_open m (protocol_of w) Hm) as Ho. rewrite Ha in Ho.
    cbn [fst] in Ho. rewrite Ho. apply Hw.
Qed.

(** *** Unlocking *)

(** The master key opens the encrypted share, and with the texts of the configuration it
    gives these keys. *)
Record opens (masterKey encryptedShare : bytes) (config : SSHCAConfig) (keys : Keys) : Prop := {
  op_share :
    decrypt masterKey (u8_slice encryptedShare 0 12) (u8_slice_from encryptedShare 12)
    = Ok (k_share keys);
  op_group : decodeBase64 (public_key config) = Ok (k_group keys);
  op_server : decodeBase64 (server_verifying_share config) = Ok (k_server keys);
  op_client : decodeBase64 (client_verifying_share config) = Ok (k_client keys);
}.

Lemma initWithShare_ok encryptedShare masterKey config keys c w i :
  opens masterKey encryptedShare config keys → worker c = Some i → live w →
  ∃ c' w', initWithShare encryptedShare masterKey config (c, w) = (Some (Ok tt), (c', w')) ∧
    worker c' = Some i ∧ isActive c' = true ∧ live w' ∧
    pr_signer (protocol_of w') = Some {| sg_keys := keys; sg_since := now w; sg_round1 := None |}.
Proof.
  intros [Hshare Hgroup Hserver Hclient] Hi Hw.
  unfold initWithShare, initWithShare_begin, initWithShare_config, initWithConfig_begin.
  cbn [fst snd]. rewrite Hi, Hshare, Hi, Hgroup, Hserver, Hclient.
  set (m := M_init _ _ _ _ _).
  assert (Ha : (answer m (protocol_of w)).2 = ready) by done.
  destruct (exchange_open m 30000 c w i (answer m (protocol_of w)).1 ready Hi Hw)
    as (c1 & w1 & E & Hi1 & Hn1 & Ht1 & Hp1 & Hw1); [done | reflexivity | done |].
  unfold exchange in E. cbn [fst snd] in E.
  destruct (sendToWorker m 30000 c) as [q c0]. set (s := pump c c0 w) in *. clearbody s.
  assert (Er : reqs (fst s) !! q = Some (R_resolved ready)).
  { destruct (reqs (fst s) !! q) as [x|]; cbn in E; congruence. }
  assert (Es : s = (c1, w1)) by congruence. rewrite Er, Es.
  cbn [initWithConfig_finish fst snd]. eexists _, w1. split; [reflexivity|].
  split_and!; [exact Hi1 | | exact Hw1 | by rewrite Hp1; destruct keys].
  unfold isActive. cbn [set_worker isInitialized worker]. by rewrite Hi1.
Qed.

(** *** The exchange with an honest server *)

(** The values of one exchange and the texts that carry them. *)
Record Exchange := {
  ex_random : bytes;
  ex_privateKey : bytes;
  ex_publicKey : bytes;
  ex_message : bytes;
  ex_serverCommitment : bytes;
  ex_certificate : bytes;
  ex_round1 : Round1;
  ex_partial : bytes;
  tx_session : jsstring;
  tx_publicKey : jsstring;
  tx_message : jsstring;
  tx_commitment : jsstring;
  tx_serverCommitment : jsstring;
  tx_partial : jsstring;
  tx_certificate : jsstring;
  ex_serial : Z;
}.

(** The texts stand for the values, and the two rounds compute them from the keys. *)
Record honest (keys : Keys) (x : Exchange) : Prop := {
  hn_publicKey : encodeBase64 (ex_publicKey x) = Ok (tx_publicKey x);
  hn_commitment : encodeBase64 (r1_commitment (ex_round1 x)) = Ok (tx_commitment x);
  hn_partial : encodeBase64 (ex_partial x) = Ok (tx_partial x);
  hn_message : decodeBase64 (tx_message x) = Ok (ex_message x);
  hn_server : decodeBase64 (tx_serverCommitment x) = Ok (ex_serverCommitment x);
  hn_certificate : decodeBase64 (tx_certificate x) = Ok (ex_certificate x);
  hn_round1 : round1_value (ex_random x) (k_share keys) (ex_message x) = Ok (ex_round1 x);
  hn_round2 : round2_value keys (ex_round1 x) (ex_serverCommitment x) = Ok (ex_partial x);
}.

Definition honest_server (x : Exchange) : list WSResponse :=
  [server_message (js "session") (Some (tx_session x)) (Some (tx_message x)) None;
   server_message (js "commitment") (Some (tx_session x)) (Some (tx_serverCommitment x)) None;
   server_message (js "certificate") None (Some (tx_certificate x)) (Some (ex_serial x))].

Definition honest_actions (hostId : Z) (x : Exchange) : list action :=
  [A_send (JObj [(js "type", JStr (js "request_cert")); (js "host_id", JInt hostId);
                 (js "user_public_key", JStr (tx_publicKey x))]);
   A_worker (M_round1 (Some (ex_message x)) []);
   A_send (JObj [(js "type", JStr (js "round1")); (js "session", JStr (tx_session x));
                 (js "payload", JStr (tx_commitment x))]);
   A_worker (M_round2 (Some (ex_serverCommitment x)));
   A_send (JObj [(js "type", JStr (js "round2")); (js "session", JStr (tx_session x));
                 (js "payload", JStr (tx_partial x))]);
   A_close].

Definition issued (x : Exchange) : CertificateResult :=
  {| certificate := tx_certificate x; serial := ex_serial x; userPrivateKey := ex_privateKey x;
     userPublicKey := ex_publicKey x |}.

Lemma sign_honest hostId keys x c w i g :
  honest keys x → worker c = Some i → live w → pr_signer (protocol_of w) = Some g →
  sg_keys g = keys →
  ∃ c' w', sign (ex_random x) (handleSigningFlow hostId (ex_privateKey x) (ex_publicKey x))
             (honest_server x) (c, w) =
    (honest_actions hostId x, Some (Ok (issued x)), (c', w')) ∧
    pr_signer (protocol_of w') = Some {| sg_keys := keys; sg_since := now w; sg_round1 := None |} ∧
    initTime c' = Some (c_now c) ∧ live w'.
Proof.
  intros [Hpk Hcm Hps Htbs Hsc Hcert Hr1 Hr2] Hi Hw Hg Hk.
  unfold handleSigningFlow, honest_server, honest_actions.
  rewrite Hpk. cbn [flow_lift sign server_message wr_type wr_session wr_payload].
  rewrite (bool_decide_eq_true_2 (js "session" = js "session")) by done. cbn [negb].
  change (payload_text (Some ?x)) with x. rewrite Htbs. cbn [flow_lift sign draw].
  destruct (exchange_open (M_round1 (Some (ex_message x)) (ex_random x)) 30000 c w i
              (operate g (Some (ex_round1 x)) (protocol_of w))
              (commitment_response (r1_commitment (ex_round1 x))) Hi Hw)
    as (c1 & w1 & E1 & Hi1 & Hn1 & Ht1 & Hp1 & Hw1); [done | | done | ].
  { cbn [answer]. unfold answer_round1. by rewrite Hg, Hk, Hr1. }
  rewrite E1, Hcm. cbn [flow_lift sign fst snd server_message wr_type wr_payload].
  rewrite (bool_decide_eq_true_2 (js "commitment" = js "commitment")) by done. cbn [negb].
  change (payload_text (Some ?x)) with x. rewrite Hsc. cbn [flow_lift sign draw].
  destruct (exchange_open (M_round2 (Some (ex_serverCommitment x))) 30000 (stamp c1) w1 i
              (operate {| sg_keys := keys; sg_since := now w; sg_round1 := Some (ex_round1 x) |}
                 None (protocol_of w1))
              (partial_sig (ex_partial x))) as (c2 & w2 & E2 & Hi2 & Hn2 & Ht2 & Hp2 & Hw2);
    [done | done | done | | done | ].
  { cbn [answer]. unfold answer_round2. rewrite Hp1. unfold operate, with_signer.
    cbn [pr_signer sg_keys sg_round1]. by rewrite Hk, Hr2. }
  rewrite E2, Hps. cbn [flow_lift sign fst snd server_message wr_type wr_payload wr_serial].
  rewrite (bool_decide_eq_true_2 (js "certificate" = js "certificate")) by done. cbn [negb].
  change (payload_text (Some ?x)) with x. rewrite Hcert. cbn [flow_lift sign fst snd default].
  exists (stamp c2), w2. split_and!; [done | | | exact Hw2].
  - rewrite Hp2, Hp1. reflexivity.
  - cbn in *. congruence.
Qed.

(** From the encrypted share to the certificate: given the master key that opens it, the
    client hands the share to its worker and becomes active; the signing flow then gets from
    that worker the commitment and the signature share which the two rounds compute from the
    share's bytes, sends them to the server under its session, and returns the server's
    certificate with the key pair; the worker keeps its keys and no nonces.  The client and
    the worker may have been in any state before, unless the worker is closed. *)
Theorem unlocked_share_signs cs es t0 t1 i hostId keys x encryptedShare masterKey config :
  let c := run rpc_step (initial_client t0) cs in
  let w := run step (initial_world t1) es in
  worker c = Some i → closed w = false →
  opens masterKey encryptedShare config keys → honest keys x →
  let '(done, s) := initWithShare encryptedShare masterKey config (c, w) in
  done = Some (Ok tt) ∧ isActive (fst s) = true ∧
  ∃ s', sign (ex_random x) (handleSigningFlow hostId (ex_privateKey x) (ex_publicKey x))
          (honest_server x) s = (honest_actions hostId x, Some (Ok (issued x)), s') ∧
    ∃ since, pr_signer (protocol_of (snd s')) =
             Some {| sg_keys := keys; sg_since := since; sg_round1 := None |}.
Proof.
  intros c w Hi Hc Ho Hh.
  assert (Hw : live w) by (split; [apply reachable_inv | exact Hc]).
  destruct (initWithShare_ok encryptedShare masterKey config keys c w i Ho Hi Hw)
    as (c' & w' & -> & Hi' & Ha & Hw' & Hsg).
  split_and!; [done | exact Ha |].
  destruct (sign_honest hostId keys x c' w' i _ Hh Hi' Hw' Hsg eq_refl) as (c2 & w2 & E & Hsg2 & _).
  exists (c2, w2). split; [exact E|]. eauto.
Qed.
End system.

(** ** Witness *)

Definition text_of (bs : bytes) : jsstring :=
  match encodeBase64 bs with Ok s => s | Throw _ => [] end.

Definition demo_keys : Keys :=
  {| k_share := demo_share; k_group := [0; 0; 0]; k_server := replicate 39 0;
     k_client := replicate 39 0 |}.
Definition demo_config : SSHCAConfig :=
  {| public_key := js "AAAA"; client_share := [];
     server_verifying_share := text_of (replicate 39 0);
     client_verifying_share := text_of (replicate 39 0) |}.
Definition demo_master : bytes := replicate 32 5.
Definition demo_encrypted : bytes := replicate 12 0 ++ demo_share ++ toy_tag demo_master.
Definition demo_round1 : Round1 :=
  match round1_value [] demo_share [7] with
  | Ok r => r
  | Throw _ => {| r1_hiding := []; r1_binding := []; r1_commitment := []; r1_message := [];
                  r1_clientId := [] |}
  end.
Definition demo_exchange : Exchange :=
  let p := match round2_value demo_keys demo_round1 (demo_commitment 1) with
           | Ok p => p | Throw _ => [] end in
  {| ex_random := []; ex_privateKey := [1]; ex_publicKey := [2]; ex_message := [7];
     ex_serverCommitment := demo_commitment 1; ex_certificate := [0; 0; 0];
     ex_round1 := demo_round1; ex_partial := p; tx_session := js "s"; tx_publicKey := js "Ag==";
     tx_message := js "Bw=="; tx_commitment := text_of (r1_commitment demo_round1);
     tx_serverCommitment := text_of (demo_commitment 1); tx_partial := text_of p;
     tx_certificate := js "AAAA"; ex_serial := 9 |}.

Lemma demo_opens : opens demo_master demo_encrypted demo_config demo_keys.
Proof. split; vm_compute; reflexivity. Qed.

Lemma demo_honest : honest demo_keys demo_exchange.
Proof. split; vm_compute; reflexivity. Qed.

Lemma unlocked_share_signs_witness :
  let '(done, s) := initWithShare demo_encrypted demo_master demo_config
                      (initial_client 0, initial_world 0) in
  done = Some (Ok tt) ∧
  (sign [] (handleSigningFlow 3 [1] [2]) (honest_server demo_exchange) s).1.2
  = Some (Ok (issued demo_exchange)).
Proof.
  pose proof (unlocked_share_signs [] [] 0 0 1 3 demo_keys demo_exchange demo_encrypted
    demo_master demo_config eq_refl eq_refl demo_opens demo_honest) as H.
  change (run rpc_step (initial_client 0) []) with (initial_client 0) in H.
  change (run step (initial_world 0) []) with (initial_world 0) in H.
  destruct (initWithShare _ _ _ _) as [d s]. destruct H as (Hd & _ & s' & E & _).
  split; [exact Hd|].
  change (sign (ex_random demo_exchange) (handleSigningFlow 3 (ex_privateKey demo_exchange)
    (ex_publicKey demo_exchange)) (honest_server demo_exchange) s)
    with (sign [] (handleSigningFlow 3 [1] [2]) (honest_server demo_exchange) s) in E.
  by rewrite E.
Defined.
