(* ===== verification/SshClient.v ===== *)
(** * The SSH client ([lib/ssh-client.ts])

    [SSHClient] is a thin layer over the functions the Go program sets on [window].  The
    page has one such program, shared by all instances: [Window] is that shared state, with
    the calls made to the program in order.  Which status reports a call provokes before it
    returns is the program's choice. *)

From S2P Require Import Prelude Js Models ApiTypes Api.
#[local] Open Scope Z_scope.
#[local] Open Scope js_scope.

(** ** [EventEmitter] *)

Section emitter.
Context {cb : Type} `{EqDecision cb}.

(** [events]: the callbacks of each event, in the order of their registration. *)
Abbreviation Listeners := (gmap jsstring (list cb)).

Definition callbacks (event : jsstring) (l : Listeners) : list cb := default [] (l !! event).

Definition on (event : jsstring) (callback : cb) (l : Listeners) : Listeners :=
  <[event := callbacks event l ++ [callback]]> l.

Definition off (event : jsstring) (callback : cb) (l : Listeners) : Listeners :=
  match l !! event with
  | None => l
  | Some cbs => <[event := filter (.≠ callback) cbs]> l
  end.

(** [forEach]: an exception of a callback skips the callbacks after it. *)
Fixpoint for_each {S} (call : cb → SM S unit) (cbs : list cb) : SM S unit :=
  match cbs with
  | [] => sret tt
  | c :: cbs => let* _ := call c in for_each call cbs
  end.

Definition emit {S} (call : cb → SM S unit) (event : jsstring) (l : Listeners) : SM S unit :=
  for_each call (callbacks event l).
End emitter.

(** ** The shared program *)

Inductive WasmCall :=
| sshConnect (hostKey wsURL user token : jsstring)
| sshDisconnect (hostKey : jsstring)
| sshDisconnectAll
| sshDisconnectPending
| sshExec (hostKey command : jsstring)
| sshSendInput (data : bytes)
| sshResize (rows cols : Z)
| sshResolvePassword (password : jsstring)
| sshRejectPassword
| sshResolveCertificate (certificate privateKey : jsstring)
| sshRejectCertificate.

Record Window := {
  (** The module variable of that name. *)
  goInstance : bool;
  (** The program runs, so [window.sshSet...Callback] and the others are functions. *)
  functions : bool;
  (** The instance whose callbacks the program has; [None] are the ones of [detach]. *)
  registered : option nat;
  calls : list WasmCall;
}.

Definition initial_window : Window :=
  {| goInstance := false; functions := false; registered := None; calls := [] |}.

Definition log_call (c : WasmCall) (w : Window) : Window :=
  {| goInstance := goInstance w; functions := functions w; registered := registered w;
     calls := calls w ++ [c] |}.

(** ** [SSHClient] *)

Record SSHClient := {
  instance : nat;
  wasmReady : bool;
  client_status : ConnectionStatus;
}.

Definition new_client (i : nat) : SSHClient :=
  {| instance := i; wasmReady := false; client_status := disconnected |}.

Definition set_client_status (s : ConnectionStatus) (c : SSHClient) : SSHClient :=
  {| instance := instance c; wasmReady := wasmReady c; client_status := s |}.

Definition set_wasmReady (r : bool) (c : SSHClient) : SSHClient :=
  {| instance := instance c; wasmReady := r; client_status := client_status c |}.

Definition not_a_function : js_error :=
  type_error "window.sshSetPasswordCallback is not a function".

Definition setupCallbacks (c : SSHClient) (w : Window) : result unit * Window :=
  if functions w then
    (Ok tt, {| goInstance := goInstance w; functions := true; registered := Some (instance c);
               calls := calls w |})
  else (Throw not_a_function, w).

(** What loading the program came to: the two scripts, then fetching and instantiating. *)
Record Loading := {
  l_wasm_exec : result unit;
  l_sshclient : result unit;
  l_wasm : result unit;
}.

Definition init (l : Loading) (c : SSHClient) (w : Window) : result unit * SSHClient * Window :=
  if goInstance w then
    let c := set_wasmReady true c in
    let '(r, w) := setupCallbacks c w in (r, c, w)
  else
    match l_wasm_exec l with
    | Throw e => (Throw e, c, w)
    | Ok _ =>
        match l_sshclient l with
        | Throw e => (Throw e, c, w)
        | Ok _ =>
            let w := {| goInstance := true; functions := functions w;
                        registered := registered w; calls := calls w |} in
            match l_wasm l with
            | Throw e => (Throw e, c, w)
            | Ok _ =>
                let w := {| goInstance := true; functions := true;
                            registered := registered w; calls := calls w |} in
                let c := set_wasmReady true c in
                let '(r, w) := setupCallbacks c w in (r, c, w)
            end
        end
    end.

(** [runPromise] settles: the program has exited or crashed. *)
Definition wasm_exited (c : SSHClient) : SSHClient := set_wasmReady false c.

Definition detach (w : Window) : Window :=
  if functions w then {| goInstance := goInstance w; functions := true; registered := None;
                         calls := calls w |}
  else w.

(** The call to make, or the exception. *)
Definition connect (b : Browser) (hostKey : jsstring) (hostId : Z) (user : jsstring)
    (c : SSHClient) : result WasmCall * SSHClient :=
  if negb (wasmReady c) then (Throw (plain_error (js "WASM not initialized")), c)
  else
    match (getToken b).1 with
    | Throw e => (Throw e, c)
    | Ok token =>
        match truthy token with
        | None => (Throw (plain_error (js "Not authenticated")), c)
        | Some token =>
            (Ok (sshConnect hostKey (getSSHWebSocketURL hostId b) user token),
             set_client_status connecting c)
        end
    end.

(** [disconnect]: the call, then the status after it. *)
Definition disconnect (hostKey : jsstring) : WasmCall := sshDisconnect hostKey.
Definition disconnected_status (c : SSHClient) : SSHClient := set_client_status disconnected c.

Definition disconnectPending (w : Window) : Window :=
  if functions w then log_call sshDisconnectPending w else w.

Definition sendInput (data : bytes) (w : Window) : Window :=
  if functions w then log_call (sshSendInput data) w else w.

Definition resize (rows cols : Z) (w : Window) : Window :=
  if functions w then log_call (sshResize rows cols) w else w.

(** A status report of the program: the instance whose listeners are called. *)
Definition status_report (s : ConnectionStatus) (w : Window) (c : SSHClient) : SSHClient * bool :=
  if bool_decide (registered w = Some (instance c)) then (set_client_status s c, true)
  else (c, false).

(** ** Facts *)

Lemma for_each_app {cb S} (call : cb → SM S unit) l1 l2 s :
  for_each call (l1 ++ l2) s = (let* _ := for_each call l1 in for_each call l2) s.
Proof.
  revert s. induction l1 as [|c l1 IH]; intros s; [done|]. cbn [app for_each].
  unfold sbind in *. destruct (call c s) as [[[]|e] s']; [apply IH|done].
Qed.

Lemma callbacks_on {cb} `{EqDecision cb} event event' (c : cb) l :
  callbacks event' (on event c l)
  = if decide (event = event') then callbacks event' l ++ [c] else callbacks event' l.
Proof.
  unfold on, callbacks. destruct (decide (event = event')) as [<-|Hne].
  - by rewrite lookup_insert_eq.
  - by rewrite lookup_insert_ne.
Qed.

Lemma callbacks_off {cb} `{EqDecision cb} event event' (c : cb) l :
  callbacks event' (off event c l)
  = if decide (event = event') then filter (.≠ c) (callbacks event' l) else callbacks event' l.
Proof.
  unfold off, callbacks. destruct (l !! event) as [cbs|] eqn:E.
  - destruct (decide (event = event')) as [<-|Hne].
    + by rewrite lookup_insert_eq, E.
    + by rewrite lookup_insert_ne.
  - destruct (decide (event = event')) as [<-|Hne]; [by rewrite E|done].
Qed.

(** The emitter calls the listeners of an event, and no others, in the order of their
    registration, stopping at the first that throws; [off] silences exactly the one listener,
    for that event only. *)
Theorem emitter_spec {cb S} `{EqDecision cb} (call : cb → SM S unit) event event' c l s :
  emit call event (on event c l) s = (let* _ := emit call event l in call c) s ∧
  (event' ≠ event → emit call event' (on event c l) s = emit call event' l s) ∧
  emit call event (off event c l) s = for_each call (filter (.≠ c) (callbacks event l)) s ∧
  (event' ≠ event → emit call event' (off event c l) s = emit call event' l s).
Proof.
  unfold emit. rewrite !callbacks_on, !callbacks_off. split_and!.
  - rewrite decide_True, for_each_app by done. cbn [for_each]. unfold sbind, sret.
    destruct (for_each call (callbacks event l) s) as [[[]|e] s']; [|done].
    by destruct (call c s') as [[[]|e] s''].
  - intros Hne. by rewrite decide_False.
  - by rewrite decide_True.
  - intros Hne. by rewrite decide_False.
Qed.

(** A failed download of the program is permanent: once the scripts loaded and fetching or
    instantiating the program failed, every later [init], of this or another terminal, takes
    the program for loaded and fails; a script that failed to load is loaded again instead. *)
Theorem init_failure_sticks l c w :
  goInstance w = false → functions w = false → l_wasm_exec l = Ok tt →
  let '(r, _, w') := init l c w in
  match l_sshclient l, l_wasm l with
  | Throw _, _ => w' = w
  | Ok _, Throw e => r = Throw e ∧ ∀ l' c', (init l' c' w').1.1 = Throw not_a_function
  | Ok _, Ok _ => r = Ok tt ∧ registered w' = Some (instance c)
  end.
Proof.
  intros Hg Hf Hw. unfold init. rewrite Hg, Hw. destruct (l_sshclient l) as [[]|e1]; [|done].
  destruct (l_wasm l) as [[]|e2]; cbn; [done|]. split; [done|]. intros l' c'.
  unfold setupCallbacks. cbn. by rewrite Hf.
Qed.

(** ** Witnesses *)

Lemma emitter_witness :
  emit (λ (n : nat) (log : list nat), (Ok tt, log ++ [n])) (js "output")
    (off (js "output") 7%nat (on (js "status") 7%nat (on (js "output") 7%nat ∅))) [] = (Ok tt, []).
Proof.
  rewrite (proj1 (proj2 (proj2 (emitter_spec _ (js "output") (js "status") 7%nat _ [])))).
  reflexivity.
Defined.

Lemma init_failure_sticks_witness :
  let broken := {| l_wasm_exec := Ok tt; l_sshclient := Ok tt; l_wasm := Throw not_a_function |} in
  let fine := {| l_wasm_exec := Ok tt; l_sshclient := Ok tt; l_wasm := Ok tt |} in
  (init fine (new_client 1) (init broken (new_client 0) initial_window).2).1.1
  = Throw not_a_function.
Proof.
  exact (proj2 (init_failure_sticks
    {| l_wasm_exec := Ok tt; l_sshclient := Ok tt; l_wasm := Throw not_a_function |}
    (new_client 0) initial_window eq_refl eq_refl eq_refl) _ _).
Defined.
