(* ===== verification/SshTerminal.v ===== *)
(** * The terminal ([components/SSHTerminal.tsx])

    The component is a machine: its refs, its React state, its instance of [SSHClient] and
    the page's shared program.  An input is an event of the browser, the user, the parent or
    the program; what the program reports synchronously during a call is the oracle of the
    step.  [commit] is React running the effects whose dependencies changed. *)

From S2P Require Import Prelude Js Models ApiTypes SessionList QuickKeys Encoding Crypto Api FrostClient SshClient.
#[local] Open Scope Z_scope.
#[local] Open Scope js_scope.

(** [`'${s.replace(/'/g, `'\\''`)}'`]. *)
Definition shellQuote (s : jsstring) : jsstring :=
  js "'" ++ flat_map (λ c, if c =? 39 then js "'\''" else [c]) s ++ js "'".

Definition MAX_RECONNECT_ATTEMPTS : Z := 8.

(** ** State *)

Record Refs := {
  statusRef : ConnectionStatus;
  userDisconnected : bool;
  (** The pending timeout: its deadline and the host its callback captured. *)
  reconnectTimeout : option (Z * option Host);
  reconnectAttempt : Z;
  hasExecuted : bool;
  pendingRestart : bool;
  mountedRef : bool;
  (** The host of the closures the last effects installed: [maybeReconnectRef.current],
      [handleCertificateRequestRef.current] and the listeners of [recover]. *)
  closure_host : option Host;
}.

Record UI := {
  status : ConnectionStatus;
  statusError : option jsstring;
  ready : bool;
  showPasswordDialog : bool;
  showWebAuthnDialog : bool;
  webAuthnAuthenticating : bool;
  webAuthnError : option jsstring;
  loading : bool;
}.

(** The dependencies of the connect effect and of the attach effect. *)
Record Deps := {
  d_ready : bool;
  d_host : option Z;
  d_user : option jsstring;
  d_status : ConnectionStatus;
  d_session : jsstring;
  d_hostKey : jsstring;
}.

#[global] Instance Deps_eq_dec : EqDecision Deps.
Proof. solve_decision. Defined.

Record Term := {
  host : option Host;
  sessionName : jsstring;
  refs : Refs;
  ui : UI;
  client : SSHClient;
  window : Window;
  browser : Browser;
  committed : Deps;
  (** The calls of [recover] waiting for [ensureAlive], with the host of their closure. *)
  recovering : list (option Host);
  now : Z;
}.

Definition set_refs (r : Refs) (t : Term) : Term :=
  {| host := host t; sessionName := sessionName t; refs := r; ui := ui t; client := client t;
     window := window t; browser := browser t; committed := committed t;
     recovering := recovering t; now := now t |}.

Definition set_ui (u : UI) (t : Term) : Term :=
  {| host := host t; sessionName := sessionName t; refs := refs t; ui := u; client := client t;
     window := window t; browser := browser t; committed := committed t;
     recovering := recovering t; now := now t |}.

Definition set_client (c : SSHClient) (w : Window) (t : Term) : Term :=
  {| host := host t; sessionName := sessionName t; refs := refs t; ui := ui t; client := c;
     window := w; browser := browser t; committed := committed t;
     recovering := recovering t; now := now t |}.

Definition set_props (h : option Host) (s : jsstring) (t : Term) : Term :=
  {| host := h; sessionName := s; refs := refs t; ui := ui t; client := client t;
     window := window t; browser := browser t; committed := committed t;
     recovering := recovering t; now := now t |}.

Definition set_env (b : Browser) (d : Deps) (n : Z) (t : Term) : Term :=
  {| host := host t; sessionName := sessionName t; refs := refs t; ui := ui t; client := client t;
     window := window t; browser := b; committed := d;
     recovering := recovering t; now := n |}.

Definition set_recovering (l : list (option Host)) (t : Term) : Term :=
  {| host := host t; sessionName := sessionName t; refs := refs t; ui := ui t; client := client t;
     window := window t; browser := browser t; committed := committed t; recovering := l;
     now := now t |}.

(** [statusRef.current = s; userDisconnectedRef.current = u; reconnectAttemptRef.current = a]. *)
Definition with_link (s : ConnectionStatus) (u : bool) (a : Z) (r : Refs) : Refs :=
  {| statusRef := s; userDisconnected := u; reconnectTimeout := reconnectTimeout r;
     reconnectAttempt := a; hasExecuted := hasExecuted r; pendingRestart := pendingRestart r;
     mountedRef := mountedRef r; closure_host := closure_host r |}.

Definition with_timer (p : option (Z * option Host)) (r : Refs) : Refs :=
  {| statusRef := statusRef r; userDisconnected := userDisconnected r; reconnectTimeout := p;
     reconnectAttempt := reconnectAttempt r; hasExecuted := hasExecuted r;
     pendingRestart := pendingRestart r; mountedRef := mountedRef r;
     closure_host := closure_host r |}.

Definition with_exec (e p : bool) (r : Refs) : Refs :=
  {| statusRef := statusRef r; userDisconnected := userDisconnected r;
     reconnectTimeout := reconnectTimeout r; reconnectAttempt := reconnectAttempt r;
     hasExecuted := e; pendingRestart := p; mountedRef := mountedRef r;
     closure_host := closure_host r |}.

Definition with_life (m : bool) (h : option Host) (r : Refs) : Refs :=
  {| statusRef := statusRef r; userDisconnected := userDisconnected r;
     reconnectTimeout := reconnectTimeout r; reconnectAttempt := reconnectAttempt r;
     hasExecuted := hasExecuted r; pendingRestart := pendingRestart r; mountedRef := m;
     closure_host := h |}.

Definition setStatus (s : ConnectionStatus) (e : option jsstring) (u : UI) : UI :=
  {| status := s; statusError := e; ready := ready u; showPasswordDialog := showPasswordDialog u;
     showWebAuthnDialog := showWebAuthnDialog u;
     webAuthnAuthenticating := webAuthnAuthenticating u; webAuthnError := webAuthnError u;
     loading := loading u |}.

Definition set_loaded (l r : bool) (u : UI) : UI :=
  {| status := status u; statusError := statusError u; ready := r;
     showPasswordDialog := showPasswordDialog u; showWebAuthnDialog := showWebAuthnDialog u;
     webAuthnAuthenticating := webAuthnAuthenticating u; webAuthnError := webAuthnError u;
     loading := l |}.

Definition set_dialogs (p w a : bool) (e : option jsstring) (u : UI) : UI :=
  {| status := status u; statusError := statusError u; ready := ready u; showPasswordDialog := p;
     showWebAuthnDialog := w; webAuthnAuthenticating := a; webAuthnError := e;
     loading := loading u |}.

Definition setShowPasswordDialog (b : bool) (u : UI) : UI :=
  set_dialogs b (showWebAuthnDialog u) (webAuthnAuthenticating u) (webAuthnError u) u.
Definition setShowWebAuthnDialog (b : bool) (u : UI) : UI :=
  set_dialogs (showPasswordDialog u) b (webAuthnAuthenticating u) (webAuthnError u) u.

Definition put_link (s : ConnectionStatus) (user : bool) (a : Z) (t : Term) : Term :=
  set_refs (with_link s user a (refs t)) t.
Definition put_status (s : ConnectionStatus) (t : Term) : Term :=
  set_ui (setStatus s (statusError (ui t)) (ui t)) t.

(** [host ? String(host.id) : ""]. *)
Definition key_of (h : option Host) : jsstring :=
  match h with Some h => of_int (host_id_ h) | None => [] end.
Definition hostKey (t : Term) : jsstring := key_of (host t).

(** ** Reconnecting *)

(** [Math.min(1000 * Math.pow(2, attempt), 10000)]. *)
Definition backoff (attempt : Z) : Z := Z.min (1000 * 2 ^ attempt) 10000.

(** The callback of [maybeReconnectRef], with the host of its closure. *)
Definition maybeReconnect (t : Term) : Term :=
  let r := refs t in
  if userDisconnected r || negb (mountedRef r) then t
  else if MAX_RECONNECT_ATTEMPTS <=? reconnectAttempt r then
    put_status error_status (put_link error_status (userDisconnected r) (reconnectAttempt r) t)
  else
    set_refs (with_timer (Some (now t + backoff (reconnectAttempt r), closure_host r)) r) t.

(** The status listener. *)
Definition on_status (newStatus : ConnectionStatus) (err : option jsstring) (t : Term) : Term :=
  let t := put_link newStatus (userDisconnected (refs t)) (reconnectAttempt (refs t)) t in
  let e := match newStatus with
           | error_status => Some (default (js "Connection error") (truthy err))
           | connected => None
           | _ => statusError (ui t)
           end in
  let t := set_ui (setStatus newStatus e (ui t)) t in
  match newStatus with
  | disconnected | error_status => if userDisconnected (refs t) then t else maybeReconnect t
  | connected => put_link (statusRef (refs t)) (userDisconnected (refs t)) 0 t
  | _ => t
  end.

Definition Report : Type := ConnectionStatus * option jsstring.

(** A report of the program reaches the instance whose callbacks it has. *)
Definition report (t : Term) (r : Report) : Term :=
  let '(c, heard) := status_report r.1 (window t) (client t) in
  let t := set_client c (window t) t in
  if heard then on_status r.1 r.2 t else t.

(** What the program reports before a call returns. *)
Definition Oracle : Type := WasmCall → list Report.

Definition wasm_call (o : Oracle) (c : WasmCall) (t : Term) : Term :=
  fold_left report (o c) (set_client (client t) (log_call c (window t)) t).

(** ** Connecting and disconnecting *)

(** [doConnect] of a render whose host was [h]. *)
Definition doConnect (o : Oracle) (h : option Host) (t : Term) : result unit * Term :=
  match h with
  | Some h =>
      if negb (mountedRef (refs t)) then (Ok tt, t) else
      let sshUser := default (js "root") (truthy (Some (host_ssh_user h))) in
      let t := put_status connecting (put_link connecting false (reconnectAttempt (refs t)) t) in
      let '(r, c) := connect (browser t) (of_int (host_id_ h)) (host_id_ h) sshUser (client t) in
      let t := set_client c (window t) t in
      match r with
      | Ok call => (Ok tt, wasm_call o call t)
      | Throw e => (Throw e, t)
      end
  | None => (Ok tt, t)
  end.

(** [try { sshClientRef.current.disconnect(hostKey) } catch {}], skipped for an empty key. *)
Definition client_disconnect (o : Oracle) (k : jsstring) (t : Term) : Term :=
  match k with
  | [] => t
  | _ => if functions (window t) then
           let t := wasm_call o (disconnect k) t in
           set_client (disconnected_status (client t)) (window t) t
         else t
  end.

Definition doDisconnect (o : Oracle) (t : Term) : Term :=
  let t := put_link (statusRef (refs t)) true (reconnectAttempt (refs t)) t in
  let t := client_disconnect o (hostKey t) t in
  let t := put_status disconnected
             (put_link disconnected (userDisconnected (refs t)) (reconnectAttempt (refs t)) t) in
  set_refs (with_exec false (pendingRestart (refs t)) (refs t)) t.

(** The callback of the reconnect timeout. *)
Definition retry_fires (o : Oracle) (h : option Host) (t : Term) : result unit * Term :=
  let r := refs t in
  if userDisconnected r || negb (mountedRef r) then (Ok tt, t)
  else doConnect o h (put_link (statusRef r) (userDisconnected r) (reconnectAttempt r + 1) t).

(** [recover] up to its [await]. *)
Definition recover_begin (t : Term) : Term :=
  let r := refs t in
  if negb (mountedRef r) || bool_decide (closure_host r = None) || userDisconnected r then t
  else set_recovering (recovering t ++ [closure_host r]) t.

(** [recover] after it, in the closure of host [h]; a rejection counts as [false]. *)
Definition recover_finish (o : Oracle) (h : option Host) (workerAlive : bool) (t : Term)
    : result unit * Term :=
  if negb (mountedRef (refs t)) then (Ok tt, t)
  else if workerAlive && bool_decide (statusRef (refs t) = connected) then (Ok tt, t)
  else
    let t := if workerAlive then t else set_ui (setShowWebAuthnDialog true (ui t)) t in
    let t := client_disconnect o (key_of h) t in
    let t := put_link (statusRef (refs t)) (userDisconnected (refs t)) 0 t in
    doConnect o h t.

Definition recoverOnFocus (t : Term) : Term :=
  if decide (statusRef (refs t) = connected) then t else recover_begin t.

Definition startCommand (s : jsstring) : jsstring := js "devsesh start " ++ shellQuote s.
Definition attachCommand (s : jsstring) : jsstring := js "tmux attach -t " ++ shellQuote s.

Definition doRestart (o : Oracle) (t : Term) : result unit * Term :=
  match hostKey t with
  | [] => (Ok tt, t)
  | k =>
      if decide (statusRef (refs t) = connected) then
        let t := set_refs (with_exec true (pendingRestart (refs t)) (refs t)) t in
        (Ok tt, wasm_call o (sshExec k (startCommand (sessionName t))) t)
      else
        let t := set_refs (with_exec (hasExecuted (refs t)) true (refs t)) t in
        doConnect o (host t) (put_link (statusRef (refs t)) false 0 t)
  end.

(** ** Effects *)

(** The connect effect: its [doConnect] is that of the current host. *)
Definition connect_effect (o : Oracle) (t : Term) : result unit * Term :=
  if negb (ready (ui t)) then (Ok tt, t) else doConnect o (host t) t.

(** The attach effect, without the deferred fit. *)
Definition attach_effect (o : Oracle) (t : Term) : Term :=
  match hostKey t with
  | [] => t
  | k =>
      if decide (statusRef (refs t) = connected) then
        let restart := pendingRestart (refs t) in
        let t := set_refs (with_exec true false (refs t)) t in
        let cmd := if restart then startCommand (sessionName t) else attachCommand (sessionName t) in
        wasm_call o (sshExec k cmd) t
      else t
  end.

Definition deps (t : Term) : Deps :=
  {| d_ready := ready (ui t); d_host := host_id_ <$> host t; d_user := host_ssh_user <$> host t;
     d_status := status (ui t); d_session := sessionName t; d_hostKey := hostKey t |}.

Definition connect_deps_changed (d d' : Deps) : bool :=
  negb (bool_decide ((d_ready d, d_host d, d_user d) = (d_ready d', d_host d', d_user d'))).
Definition attach_deps_changed (d d' : Deps) : bool :=
  negb (bool_decide ((d_status d, d_session d, d_hostKey d)
                     = (d_status d', d_session d', d_hostKey d'))).

(** The cleanup of the mount effects. *)
Definition unmount (t : Term) : Term :=
  let r := refs t in
  let r := with_life false (closure_host r) (with_link (statusRef r) true (reconnectAttempt r) r) in
  let t := set_refs (with_timer None r) t in
  set_client (client t) (disconnectPending (detach (window t))) t.

(** The effects of a committed render, in their order; an exception of an effect unmounts
    the tree. *)
Definition commit (o : Oracle) (t : Term) : Term :=
  if negb (mountedRef (refs t)) then t else
  let before := committed t in
  let d := deps t in
  let t := set_env (browser t) d (now t) t in
  let t := set_refs (with_life true (host t) (refs t)) t in
  let '(r, t) := if connect_deps_changed before d then connect_effect o t else (Ok tt, t) in
  match r with
  | Throw _ => unmount t
  | Ok _ => if attach_deps_changed before d then attach_effect o t else t
  end.

(** ** Authentication *)

Definition on_password_request (t : Term) : Term :=
  set_ui (setShowPasswordDialog true (setStatus authenticating (statusError (ui t)) (ui t))) t.

(** The certificate listener sets the status and starts [handleCertificateRequest]. *)
Definition on_certificate_request (t : Term) : Term := put_status authenticating t.

(** [handleCertificateRequest] after [ensureAlive]: [true] when it goes on to ask for a
    certificate. *)
Definition certificate_alive (answer : result bool) (t : Term) : Term * bool :=
  match answer with
  | Ok true => (t, true)
  | _ => (set_ui (setShowWebAuthnDialog true (ui t)) t, false)
  end.

(** After [requestCert]; the client was read before the [await]. *)
Definition certificate_finish (o : Oracle) (answer : result CertificateResult) (t : Term) : Term :=
  let sent := let! result := answer in
              let! privateKeyBase64 := encodeBase64 (userPrivateKey result) in
              Ok (sshResolveCertificate (certificate result) privateKeyBase64) in
  match sent with
  | Ok call => wasm_call o call t
  | Throw _ => set_ui (setShowWebAuthnDialog true (ui t)) t
  end.

Definition handleWebAuthnCancel (o : Oracle) (t : Term) : Term :=
  let t := set_ui (set_dialogs (showPasswordDialog (ui t)) false
                     (webAuthnAuthenticating (ui t)) None (ui t)) t in
  wasm_call o sshRejectCertificate t.

Definition handlePasswordSubmit (o : Oracle) (password : jsstring) (t : Term) : Term :=
  let t := wasm_call o (sshResolvePassword password) t in
  set_ui (setShowPasswordDialog false (setStatus connecting (statusError (ui t)) (ui t))) t.

Definition handlePasswordCancel (o : Oracle) (t : Term) : Term :=
  let t := put_link (statusRef (refs t)) true (reconnectAttempt (refs t)) t in
  let t := set_refs (with_exec false (pendingRestart (refs t)) (refs t)) t in
  let t := wasm_call o sshRejectPassword t in
  let t := client_disconnect o (hostKey t) t in
  let t := set_ui (setShowPasswordDialog false (ui t)) t in
  put_status disconnected
    (put_link disconnected (userDisconnected (refs t)) (reconnectAttempt (refs t)) t).

(** *** Unlocking with a passkey ([handleWebAuthnAuth]) *)

(** What the authenticator is asked for, and what it asserts. *)
Record AssertionRequest := {
  ar_challenge : bytes;
  ar_allowCredentials : list bytes;
  ar_prf : PrfExtension;
}.

Record Assertion := { rawId : bytes; prf_first : option bytes }.

(** What each [await] of the handler answers. *)
Record Awaits := {
  aw_user : result (option jsstring);
  aw_loginBegin : option json → result json;
  aw_get : AssertionRequest → result (option Assertion);
  aw_getMasterKey : jsstring → result (list jsstring);
  aw_initWorker : bytes → result unit;
  aw_requestCert : Z → result CertificateResult;
}.

Inductive Stage :=
| S_init | S_login_begin | S_webauthn_get | S_prf_extract | S_fetch_master_key
| S_derive_decrypt | S_init_worker | S_request_cert.

Inductive UnlockOutcome :=
| U_resolved (certificate privateKey : jsstring)
| U_needs_provision
| U_failed (stage : Stage) (e : js_error).

Definition at_stage {A} (s : Stage) (r : result A) (k : A → UnlockOutcome) : UnlockOutcome :=
  match r with Ok a => k a | Throw e => U_failed s e end.

(** [xs?.map(f)] on a property that should be an array. *)
Definition optional_map {A} (f : json → result A) (j : option json) : result (list A) :=
  match j with
  | None | Some JNull => Ok []
  | Some (JArr l) => array_map f l
  | Some _ => Throw (type_error "map is not a function")
  end.

Definition string_property (k : jsstring) (j : json) : result jsstring :=
  match json_string (json_get k j) with
  | Some s => Ok s
  | None => Throw (type_error "Cannot read properties of undefined")
  end.

Section unlock.
Context {W : WebCrypto} {J : Json}.

Definition request_of (options : json) : result AssertionRequest :=
  match json_get (js "publicKey") options with
  | None => Throw (type_error "Cannot read properties of undefined (reading 'challenge')")
  | Some pk =>
      let! challenge := string_property (js "challenge") pk in
      let! challengeBuffer := decodeBase64URL challenge in
      let! allow := optional_map (λ cred, let! i := string_property (js "id") cred in
                                          decodeBase64URL i)
                                 (json_get (js "allowCredentials") pk) in
      let! prf := buildPrfGetExtension allow getPrfSalt in
      Ok {| ar_challenge := challengeBuffer; ar_allowCredentials := allow; ar_prf := prf |}
  end.

(** [localStorage.getItem("user")], present and not empty, parsed. *)
Definition stored_user (u : option jsstring) : result json :=
  match truthy u with
  | None => Throw (plain_error (js "No user found. Please log in again."))
  | Some userStr => json_parse userStr
  end.

Definition prf_of (credential : Assertion) : result bytes :=
  match prf_first credential with
  | None => Throw (plain_error (js "WebAuthn PRF extension required but not available"))
  | Some p => Ok p
  end.

Definition handleWebAuthnAuth (aw : Awaits) (hostId : Z) : UnlockOutcome :=
  at_stage S_init (let! u := aw_user aw in stored_user u) (λ user,
  at_stage S_login_begin
    (match user with
     | JNull => Throw (type_error "Cannot read properties of null (reading 'email')")
     | _ => let! options := aw_loginBegin aw (json_get (js "email") user) in request_of options
     end) (λ request,
  at_stage S_webauthn_get
    (let! credential := aw_get aw request in
     match credential with
     | None => Throw (plain_error (js "WebAuthn authentication cancelled"))
     | Some c => Ok c
     end) (λ credential,
  at_stage S_prf_extract (prf_of credential) (λ prfOutput,
  at_stage S_fetch_master_key
    (let! credentialId := encodeBase64URL (rawId credential) in
     aw_getMasterKey aw credentialId) (λ blobs,
  at_stage S_derive_decrypt (deriveMasterKeyFromPrf prfOutput) (λ prfKey,
  match unlockMasterKey prfKey blobs with
  | None => U_needs_provision
  | Some masterKey =>
      at_stage S_init_worker (aw_initWorker aw masterKey) (λ _,
      at_stage S_request_cert
        (let! result := aw_requestCert aw hostId in
         let! privateKeyBase64 := encodeBase64 (userPrivateKey result) in
         Ok (certificate result, privateKeyBase64)) (λ r, U_resolved r.1 r.2))
  end)))))).
End unlock.

Definition unlock_begin (t : Term) : Term :=
  set_ui (set_dialogs (showPasswordDialog (ui t)) (showWebAuthnDialog (ui t)) true None (ui t)) t.

Definition cannot_unlock_here : jsstring :=
  js "This passkey can't unlock SSH on this device (it was set up on another device). " ++
  js "Tap Authenticate again and choose a passkey created on this device, or enroll one here.".

(** The [catch] and the [finally]; the diagnostics sent to the server are left out. *)
Definition unlock_finish (o : Oracle) (u : UnlockOutcome) (t : Term) : Term :=
  let dialogs (t : Term) (show : bool) (e : option jsstring) :=
    set_ui (set_dialogs (showPasswordDialog (ui t)) show false e (ui t)) t in
  match u with
  | U_resolved certificate privateKey =>
      let t := wasm_call o (sshResolveCertificate certificate privateKey) t in
      dialogs t false (webAuthnError (ui t))
  | U_needs_provision =>
      let t := set_env (set_href (js "/passkeys/enroll?reason=ssh-provision") (browser t))
                       (committed t) (now t) t in
      dialogs t false (webAuthnError (ui t))
  | U_failed stage e =>
      let message :=
        match stage, bool_decide (err_name e = js "OperationError") with
        | S_derive_decrypt, true => cannot_unlock_here
        | _, _ => match err_name e with
                  | [] => err_message e
                  | n => n ++ js ": " ++ err_message e
                  end
        end in
      dialogs t (showWebAuthnDialog (ui t)) (Some message)
  end.

(** ** Input *)

Section input.
Context {L : Locale}.

Definition sendKeys (spec : list QuickKeyStep) (t : Term) : result unit * Term :=
  match encodeSpec spec with
  | Ok bs => (Ok tt, set_client (client t) (sendInput bs (window t)) t)
  | Throw e => (Throw e, t)
  end.
End input.

(** The custom key handler: whether xterm goes on with the key, and what it starts. *)
Definition key_handler (e : KeyEvent) (mac : bool) : bool * option ClipboardAction :=
  match clipboardKeyAction e mac with
  | None => (true, None)
  | Some a => (false, Some a)
  end.

(** ** The machine *)

Inductive Event :=
| E_init (l : Loading)
| E_report (s : ConnectionStatus) (err : option jsstring)
| E_render (h : option Host) (session : jsstring)
| E_commit
| E_time (ms : Z)
| E_timeout
| E_online
| E_visibility (visible : bool)
| E_pageshow (persisted : bool)
| E_focus
| E_alive (i : nat) (alive : bool)
| E_connect
| E_disconnect
| E_restart
| E_password_request
| E_password_submit (password : jsstring)
| E_password_cancel
| E_certificate_request
| E_certificate_alive (answer : result bool)
| E_certificate (answer : result CertificateResult)
| E_webauthn_cancel
| E_unlock_start
| E_unlock (outcome : UnlockOutcome)
| E_browser (b : Browser)
| E_unmount.

Definition step (t : Term) (oe : Oracle * Event) : Term :=
  let '(o, e) := oe in
  match e with
  | E_init l =>
      let '(r, c, w) := init l (client t) (window t) in
      let t := set_client c w t in
      match r with
      | Ok _ => set_ui (set_loaded false true (ui t)) t
      | Throw _ => set_ui (set_loaded false (ready (ui t))
                            (setStatus error_status (statusError (ui t)) (ui t))) t
      end
  | E_report s err => report t (s, err)
  | E_render h s => if mountedRef (refs t) then set_props h s t else t
  | E_commit => commit o t
  | E_time ms => set_env (browser t) (committed t) (now t + Z.max 0 ms) t
  | E_timeout =>
      match reconnectTimeout (refs t) with
      | Some (due, h) =>
          if due <=? now t then (retry_fires o h (set_refs (with_timer None (refs t)) t)).2 else t
      | None => t
      end
  | E_online => if mountedRef (refs t) then recover_begin t else t
  | E_visibility v => if mountedRef (refs t) && v then recover_begin t else t
  | E_pageshow p => if mountedRef (refs t) && p then recover_begin t else t
  | E_focus => if mountedRef (refs t) then recoverOnFocus t else t
  | E_alive i a =>
      match recovering t !! i with
      | Some h => (recover_finish o h a (set_recovering (delete i (recovering t)) t)).2
      | None => t
      end
  | E_connect => (doConnect o (host t) t).2
  | E_disconnect => if mountedRef (refs t) then doDisconnect o t else t
  | E_restart => if mountedRef (refs t) then (doRestart o t).2 else t
  | E_password_request => if bool_decide (registered (window t) = Some (instance (client t)))
                          then on_password_request t else t
  | E_password_submit p => if mountedRef (refs t) then handlePasswordSubmit o p t else t
  | E_password_cancel => if mountedRef (refs t) then handlePasswordCancel o t else t
  | E_certificate_request => if bool_decide (registered (window t) = Some (instance (client t)))
                             then on_certificate_request t else t
  | E_certificate_alive a => (certificate_alive a t).1
  | E_certificate a => certificate_finish o a t
  | E_webauthn_cancel => if mountedRef (refs t) then handleWebAuthnCancel o t else t
  | E_unlock_start => if mountedRef (refs t) then unlock_begin t else t
  | E_unlock u => unlock_finish o u t
  | E_browser b => set_env b (committed t) (now t) t
  | E_unmount => if mountedRef (refs t) then unmount t else t
  end.

(** The component after its mount effects, before the first connect. *)
Definition mounted_term (i : nat) (h : option Host) (session : jsstring) (autoRestart : bool)
    (b : Browser) (w : Window) (t0 : Z) : Term :=
  {| host := h; sessionName := session;
     refs := {| statusRef := disconnected; userDisconnected := false; reconnectTimeout := None;
                reconnectAttempt := 0; hasExecuted := false; pendingRestart := autoRestart;
                mountedRef := true; closure_host := h |};
     ui := {| status := disconnected; statusError := None; ready := false;
              showPasswordDialog := false; showWebAuthnDialog := false;
              webAuthnAuthenticating := false; webAuthnError := None; loading := true |};
     client := new_client i; window := w; browser := b;
     committed := {| d_ready := false; d_host := host_id_ <$> h; d_user := host_ssh_user <$> h;
                     d_status := disconnected; d_session := session; d_hostKey := key_of h |};
     recovering := []; now := t0 |}.

(** ** Facts *)

(** *** Quoting *)

(** How a POSIX shell reads a command of words, single quotes and backslashes; [None] where
    an unquoted character would make it do anything else. *)
Inductive sh_mode := M_plain | M_single | M_escape.

Definition sh_special (c : Z) : bool :=
  existsb (Z.eqb c) (js "|&;<>()$`*?[]#~=%{}!" ++ [34; 9; 10]).

Fixpoint sh_read (m : sh_mode) (word : option jsstring) (s : jsstring) : option (list jsstring) :=
  match s with
  | [] => match m with
          | M_plain => Some (match word with Some w => [w] | None => [] end)
          | _ => None
          end
  | c :: s =>
      let grow := Some (default [] word ++ [c]) in
      match m with
      | M_single => if c =? 39 then sh_read M_plain (Some (default [] word)) s
                    else sh_read M_single grow s
      | M_escape => sh_read M_plain grow s
      | M_plain =>
          if c =? 39 then sh_read M_single (Some (default [] word)) s
          else if c =? 92 then sh_read M_escape word s
          else if c =? 32 then
            match word with
            | Some w => (λ ws, w :: ws) <$> sh_read M_plain None s
            | None => sh_read M_plain None s
            end
          else if sh_special c then None
          else sh_read M_plain grow s
      end
  end.

Definition sh_words (command : jsstring) : option (list jsstring) := sh_read M_plain None command.

Lemma sh_read_quoted w s rest :
  sh_read M_single (Some w) (flat_map (λ c, if c =? 39 then js "'\''" else [c]) s ++ rest)
  = sh_read M_single (Some (w ++ s)) rest.
Proof.
  assert (Q : js "'\''" = [39; 92; 39; 39]) by reflexivity. rewrite Q.
  revert w. induction s as [|c s IH]; intros w; [by rewrite app_nil_r|].
  cbn [flat_map]. destruct (c =? 39) eqn:E.
  - apply Z.eqb_eq in E as ->. rewrite <- app_assoc.
    change (sh_read M_single (Some (w ++ [39]))
              (flat_map (λ c, if c =? 39 then [39; 92; 39; 39] else [c]) s ++ rest)
            = sh_read M_single (Some (w ++ 39 :: s)) rest).
    rewrite IH. by rewrite <- app_assoc.
  - cbn [app sh_read]. rewrite E. cbn [default]. rewrite IH. by rewrite <- app_assoc.
Qed.

Lemma sh_read_shellQuote s : sh_read M_plain None (shellQuote s) = Some [s].
Proof.
  unfold shellQuote. assert (Q : js "'" = [39]) by reflexivity. rewrite Q.
  change ([39] ++ ?x) with (39 :: x). cbn [sh_read Z.eqb Pos.eqb default].
  by rewrite sh_read_quoted.
Qed.

(** A character that stands for itself. *)
Definition sh_plain (c : Z) : bool :=
  negb (c =? 39) && negb (c =? 92) && negb (c =? 32) && negb (sh_special c).

Lemma sh_read_plain w p s :
  forallb sh_plain p = true → sh_read M_plain (Some w) (p ++ s) = sh_read M_plain (Some (w ++ p)) s.
Proof.
  revert w. induction p as [|c p IH]; intros w; [by rewrite app_nil_r|].
  cbn [forallb]. rewrite andb_true_iff. intros [Hc Hp]. unfold sh_plain in Hc.
  rewrite !andb_true_iff, !negb_true_iff in Hc. destruct Hc as [[[H1 H2] H3] H4].
  cbn [app sh_read default]. rewrite H1, H2, H3, H4, IH by done. by rewrite <- app_assoc.
Qed.

(** Unquoted words, each followed by a space, then a quoted argument. *)
Lemma sh_words_quoted ws s :
  forallb (λ w, forallb sh_plain w && bool_decide (w ≠ [])) ws = true →
  sh_words (flat_map (λ w, w ++ [32]) ws ++ shellQuote s) = Some (ws ++ [s]).
Proof.
  unfold sh_words. induction ws as [|w ws IH]; [intros _; apply sh_read_shellQuote|].
  cbn [forallb flat_map]. rewrite !andb_true_iff, bool_decide_eq_true. intros [[Hp Hn] Hws].
  destruct w as [|c w]; [done|]. cbn [forallb] in Hp. rewrite andb_true_iff in Hp.
  destruct Hp as [Hc Hp]. rewrite <- !app_assoc. cbn [app]. unfold sh_plain in Hc.
  rewrite !andb_true_iff, !negb_true_iff in Hc. destruct Hc as [[[H1 H2] H3] H4].
  cbn [sh_read default]. rewrite H1, H2, H3, H4, sh_read_plain by done.
  cbn [app sh_read Z.eqb Pos.eqb]. by rewrite IH.
Qed.

(** The session name cannot break out of the command: whatever characters it has, the remote
    shell reads the attach command and the start command as the program, its fixed arguments
    and the name as one word, unchanged. *)
Theorem commands_quote_name s :
  sh_words (attachCommand s) = Some [js "tmux"; js "attach"; js "-t"; s] ∧
  sh_words (startCommand s) = Some [js "devsesh"; js "start"; s].
Proof.
  split.
  - apply (sh_words_quoted [js "tmux"; js "attach"; js "-t"]). reflexivity.
  - apply (sh_words_quoted [js "devsesh"; js "start"]). reflexivity.
Qed.

(** *** What a report of the program can change *)

Definition core (t : Term) :=
  (host t, sessionName t, window t, browser t, committed t, recovering t, now t,
   (instance (client t), wasmReady (client t)), userDisconnected (refs t),
   (hasExecuted (refs t), pendingRestart (refs t), mountedRef (refs t), closure_host (refs t)),
   ready (ui t)).

Lemma on_status_core s e t : core (on_status s e t) = core t.
Proof.
  unfold on_status, maybeReconnect, put_link, put_status.
  destruct s; repeat case_match; unfold core; cbn in *; congruence.
Qed.

Lemma report_core t r : core (report t r) = core t.
Proof.
  unfold report, status_report. case_bool_decide; [|done]. by rewrite on_status_core.
Qed.

Lemma reports_core l t : core (fold_left report l t) = core t.
Proof.
  revert t. induction l as [|r l IH]; intros t; [done|]. cbn. by rewrite IH, report_core.
Qed.

Lemma wasm_call_core o c t :
  core (wasm_call o c t) = core (set_client (client t) (log_call c (window t)) t).
Proof. apply reports_core. Qed.

(** *** The calls a step can make *)

(** [t'] has the calls of [t] and then some that satisfy [Q]. *)
Definition adds (Q : WasmCall → Prop) (t t' : Term) : Prop :=
  ∃ l, calls (window t') = calls (window t) ++ l ∧ Forall Q l.

Lemma adds_same Q t t' : window t' = window t → adds Q t t'.
Proof. intros E. exists []. by rewrite E, app_nil_r. Qed.

Lemma init_calls l c w : calls (init l c w).2 = calls w.
Proof. unfold init, setupCallbacks. repeat case_match; simplify_eq; done. Qed.

Lemma init_adds (Q : WasmCall → Prop) o t l : adds Q t (step t (o, E_init l)).
Proof.
  exists []. rewrite app_nil_r. split; [|done]. cbn [step].
  pose proof (init_calls l (client t) (window t)) as H.
  destruct (init l (client t) (window t)) as [[r c] w]. by destruct r.
Qed.

Lemma init_refs o t l : refs (step t (o, E_init l)) = refs t.
Proof. cbn [step]. destruct (init _ _ _) as [[r c] w]. by destruct r. Qed.

Lemma adds_trans Q t1 t2 t3 : adds Q t1 t2 → adds Q t2 t3 → adds Q t1 t3.
Proof.
  intros (l1 & E1 & F1) (l2 & E2 & F2). exists (l1 ++ l2).
  rewrite E2, E1, app_assoc. split; [done|]. by apply Forall_app.
Qed.

Lemma core_window t t' : core t = core t' → window t = window t'.
Proof. unfold core. congruence. Qed.

Lemma wasm_call_window o c t : window (wasm_call o c t) = log_call c (window t).
Proof. rewrite (core_window _ _ (wasm_call_core o c t)). done. Qed.

Lemma adds_call (Q : WasmCall → Prop) o c t : Q c → adds Q t (wasm_call o c t).
Proof. intros HQ. exists [c]. rewrite wasm_call_window. cbn. auto. Qed.

Definition is_connect (c : WasmCall) : Prop := match c with sshConnect _ _ _ _ => True | _ => False end.
Definition is_disconnect (c : WasmCall) : Prop := match c with sshDisconnect _ => True | _ => False end.

Lemma connect_is_connect b k i u c c' call :
  connect b k i u c = (Ok call, c') → is_connect call ∧ instance c' = instance c.
Proof.
  unfold connect. destruct (negb (wasmReady c)); [congruence|].
  destruct (getToken b).1 as [tok|e]; [|congruence].
  destruct (truthy tok); [|congruence]. intros [= <- <-]. done.
Qed.

Lemma doConnect_adds (Q : WasmCall → Prop) o h t :
  (∀ c, is_connect c → Q c) → adds Q t (doConnect o h t).2.
Proof.
  intros HQ. unfold doConnect. destruct h as [h|]; [|by apply adds_same].
  destruct (negb (mountedRef (refs t))); [by apply adds_same|].
  destruct (connect _ _ _ _ _) as [r c] eqn:E. cbn zeta. destruct r as [call|e]; [|by apply adds_same].
  apply connect_is_connect in E as [Hc _]. cbn [snd].
  eapply adds_trans; [|by apply adds_call, HQ]. by apply adds_same.
Qed.

Lemma client_disconnect_adds (Q : WasmCall → Prop) o k t :
  (∀ c, is_disconnect c → Q c) → adds Q t (client_disconnect o k t).
Proof.
  intros HQ. unfold client_disconnect. destruct k as [|c k]; [by apply adds_same|].
  destruct (functions (window t)); [|by apply adds_same].
  eapply adds_trans; [by apply (adds_call _ o (disconnect (c :: k))), HQ|]. by apply adds_same.
Qed.

(** What each input may make the component ask the program for. *)
Definition may_call (e : Event) (c : WasmCall) : Prop :=
  match c with
  | sshConnect _ _ _ _ =>
      match e with E_timeout | E_alive _ _ | E_connect | E_restart | E_commit => True | _ => False end
  | sshExec _ cmd =>
      match e with
      | E_commit => ∃ s, cmd = attachCommand s ∨ cmd = startCommand s
      | E_restart => ∃ s, cmd = startCommand s
      | _ => False
      end
  | sshDisconnect _ =>
      match e with E_disconnect | E_alive _ _ | E_password_cancel => True | _ => False end
  | sshDisconnectPending => match e with E_unmount | E_commit => True | _ => False end
  | sshResolvePassword p => e = E_password_submit p
  | sshRejectPassword => e = E_password_cancel
  | sshResolveCertificate _ _ => match e with E_certificate _ | E_unlock _ => True | _ => False end
  | sshRejectCertificate => e = E_webauthn_cancel
  | sshDisconnectAll | sshSendInput _ | sshResize _ _ => False
  end.

Lemma unmount_adds (Q : WasmCall → Prop) t : Q sshDisconnectPending → adds Q t (unmount t).
Proof.
  intros HQ. unfold unmount, adds, disconnectPending, detach. cbn.
  destruct (functions (window t)) eqn:E; cbn; [|rewrite E; exists []; by rewrite app_nil_r].
  exists [sshDisconnectPending]. auto.
Qed.

Lemma attach_effect_adds o t : adds (may_call E_commit) t (attach_effect o t).
Proof.
  unfold attach_effect. destruct (hostKey t) as [|c k]; [by apply adds_same|].
  case_decide; [|by apply adds_same]. cbn zeta.
  eapply adds_trans; [|apply adds_call]; [by apply adds_same|]. cbn.
  destruct (pendingRestart _); eauto.
Qed.

Lemma commit_adds o t : adds (may_call E_commit) t (commit o t).
Proof.
  unfold commit. destruct (negb _); [by apply adds_same|]. cbn zeta.
  set (t1 := set_refs _ _). assert (H1 : adds (may_call E_commit) t t1) by by apply adds_same.
  eapply adds_trans; [exact H1|]. clear H1.
  assert (H : ∀ b : bool, let p := if b then connect_effect o t1 else (Ok tt, t1) in
    adds (may_call E_commit) t1 p.2).
  { intros []; [|by apply adds_same]. cbn zeta. unfold connect_effect.
    destruct (negb _); [by apply adds_same|]. by apply doConnect_adds; intros []. }
  specialize (H (connect_deps_changed (committed t) (deps t))). cbn zeta in H.
  destruct (if connect_deps_changed _ _ then _ else _) as [r t2]. cbn [snd] in H.
  destruct r.
  - destruct (attach_deps_changed _ _); [|done]. eapply adds_trans; [exact H|]. apply attach_effect_adds.
  - eapply adds_trans; [exact H|]. by apply unmount_adds.
Qed.

(** The events whose handler may connect. *)
Lemma connect_may_call e' c :
  (e' = E_timeout ∨ e' = E_connect ∨ e' = E_restart ∨ ∃ i a, e' = E_alive i a) →
  is_connect c → may_call e' c.
Proof.
  intros He. destruct c; try done. intros _. cbn. destruct He as [->|[->|[->|(? & ? & ->)]]]; done.
Qed.

Lemma timeout_adds o t : adds (may_call E_timeout) t (step t (o, E_timeout)).
Proof.
  cbn [step]. destruct (reconnectTimeout _) as [[due h]|]; [|by apply adds_same].
  destruct (due <=? _); [|by apply adds_same]. unfold retry_fires.
  destruct (_ || _); [by apply adds_same|]. eapply adds_trans; [|apply doConnect_adds; intros c; apply connect_may_call; auto].
  by apply adds_same.
Qed.

Lemma recover_finish_adds o h i alive t : adds (may_call (E_alive i alive)) t (recover_finish o h alive t).2.
Proof.
  unfold recover_finish. destruct (negb _); [by apply adds_same|].
  destruct (_ && _); [by apply adds_same|]. cbn zeta.
  eapply adds_trans; [|apply doConnect_adds; intros c; apply connect_may_call; eauto 6].
  eapply adds_trans; [|by apply adds_same].
  eapply adds_trans; [|by apply client_disconnect_adds; intros []].
  destruct alive; by apply adds_same.
Qed.

Lemma doDisconnect_adds o t : adds (may_call E_disconnect) t (doDisconnect o t).
Proof.
  unfold doDisconnect. cbn zeta. eapply adds_trans; [|by apply adds_same].
  eapply adds_trans; [|by apply client_disconnect_adds; intros []]. by apply adds_same.
Qed.

Lemma doRestart_adds o t : adds (may_call E_restart) t (doRestart o t).2.
Proof.
  unfold doRestart. destruct (hostKey t); [by apply adds_same|]. case_decide; cbn zeta.
  - eapply adds_trans; [|apply adds_call; cbn; eauto]. by apply adds_same.
  - eapply adds_trans; [|apply doConnect_adds; intros c'; apply connect_may_call; auto].
    by apply adds_same.
Qed.

Lemma handlePasswordCancel_adds o t : adds (may_call E_password_cancel) t (handlePasswordCancel o t).
Proof.
  unfold handlePasswordCancel. cbn zeta. eapply adds_trans; [|by apply adds_same].
  eapply adds_trans; [|by apply client_disconnect_adds; intros []].
  eapply adds_trans; [|by apply (adds_call _ o sshRejectPassword)]. by apply adds_same.
Qed.

Lemma step_adds t o e : adds (may_call e) t (step t (o, e)).
Proof.
  destruct e; try apply timeout_adds; cbn [step];
    try (by apply adds_same); try (by repeat case_match; apply adds_same);
    try (by unfold recoverOnFocus, recover_begin; repeat case_match; apply adds_same).
  - apply (init_adds _ o t l).
  - (* E_report *)
    apply adds_same. symmetry. apply core_window. by rewrite report_core.
  - apply commit_adds.
  - (* E_alive *)
    destruct (recovering t !! i) as [h|]; [|by apply adds_same].
    eapply adds_trans; [|apply recover_finish_adds]. by apply adds_same.
  - apply doConnect_adds. intros c. apply connect_may_call. auto.
  - destruct (mountedRef _); [apply doDisconnect_adds|by apply adds_same].
  - destruct (mountedRef _); [apply doRestart_adds|by apply adds_same].
  - destruct (mountedRef _); [|by apply adds_same]. unfold handlePasswordSubmit. cbn zeta.
    eapply adds_trans; [apply (adds_call _ o (sshResolvePassword password)); done|].
    by apply adds_same.
  - destruct (mountedRef _); [apply handlePasswordCancel_adds|by apply adds_same].
  - unfold certificate_alive. repeat case_match; by apply adds_same.
  - (* E_certificate *)
    unfold certificate_finish, rbind. repeat case_match; simplify_eq; try (by apply adds_same).
    by apply adds_call.
  - destruct (mountedRef _); [|by apply adds_same]. unfold handleWebAuthnCancel. cbn zeta.
    eapply adds_trans; [|by apply (adds_call _ o sshRejectCertificate)]. by apply adds_same.
  - (* E_unlock *)
    unfold unlock_finish. destruct outcome as [cert key| |]; [|by apply adds_same..]. cbn zeta.
    eapply adds_trans; [by apply (adds_call _ o (sshResolveCertificate cert key))|].
    by apply adds_same.
  - destruct (mountedRef _); [|by apply adds_same]. by apply unmount_adds.
Qed.

Lemma run_adds (Q : WasmCall → Prop) t es :
  (∀ oe c, oe ∈ es → may_call oe.2 c → Q c) → adds Q t (run step t es).
Proof.
  revert t. induction es as [|[o e] es IH]; intros t HQ; [by apply adds_same|].
  eapply adds_trans; [|apply IH].
  - destruct (step_adds t o e) as (l & E & F). exists l. split; [exact E|].
    eapply Forall_impl; [exact F|]. intros c. apply (HQ (o, e)). left.
  - intros oe c Hin. apply HQ. by right.
Qed.

(** Whatever the program, the browser, the user and the page do, the only commands the
    terminal ever runs on a host are attaching to a session and starting one, each read by the
    remote shell as exactly that program with one session name as its argument. *)
Theorem exec_only_session_commands t es :
  ∃ l, calls (window (run step t es)) = calls (window t) ++ l ∧
  ∀ k cmd, sshExec k cmd ∈ l →
    ∃ s, sh_words cmd = Some [js "tmux"; js "attach"; js "-t"; s] ∨
         sh_words cmd = Some [js "devsesh"; js "start"; s].
Proof.
  destruct (run_adds (λ c, ∀ k cmd, c = sshExec k cmd →
      ∃ s, cmd = attachCommand s ∨ cmd = startCommand s) t es) as (l & E & F).
  - intros [o e] c _ Hc k cmd ->. cbn in Hc. destruct e; try done.
    destruct Hc as [s ->]. eauto.
  - exists l. split; [exact E|]. intros k cmd Hin. rewrite Forall_forall in F.
    destruct (F _ Hin k cmd eq_refl) as [s Hs]. exists s.
    destruct (commands_quote_name s) as [Ha Hb].
    destruct Hs as [->| ->]; [left; exact Ha|right; exact Hb].
Qed.

(** *** After the unmount *)

Definition is_certificate (c : WasmCall) : Prop :=
  match c with sshResolveCertificate _ _ => True | _ => False end.

Lemma mounted_core t t' : core t = core t' → mountedRef (refs t) = mountedRef (refs t').
Proof. unfold core. congruence. Qed.

Lemma wasm_call_mounted o c t : mountedRef (refs (wasm_call o c t)) = mountedRef (refs t).
Proof. rewrite (mounted_core _ _ (wasm_call_core o c t)). done. Qed.

#[local] Ltac stays := split; [done|by apply adds_same].

Lemma term_step_unmounted t o e :
  mountedRef (refs t) = false →
  mountedRef (refs (step t (o, e))) = false ∧ adds is_certificate t (step t (o, e)).
Proof.
  intros Hm.
  assert (Hl : ∀ l, mountedRef (refs (step t (o, E_init l))) = false ∧
                    adds is_certificate t (step t (o, E_init l))).
  { intros l. rewrite init_refs. split; [done|apply init_adds]. }
  destruct e; try apply Hl; clear Hl; cbn [step]; rewrite ?Hm; try stays.
  - split; [by rewrite (mounted_core _ _ (report_core _ _))|].
    apply adds_same. symmetry. apply core_window. by rewrite report_core.
  - unfold commit. rewrite Hm. cbn [negb]. stays.
  - destruct (reconnectTimeout _) as [[due h]|]; [|stays].
    destruct (due <=? _); [|stays]. unfold retry_fires. cbn.
    rewrite Hm, orb_true_r. stays.
  - destruct (recovering t !! i); [|stays].
    unfold recover_finish. cbn. rewrite Hm. stays.
  - unfold doConnect. destruct (host t); rewrite ?Hm; stays.
  - case_bool_decide; stays.
  - case_bool_decide; stays.
  - destruct answer as [[]|]; stays.
  - unfold certificate_finish, rbind. repeat case_match; simplify_eq;
      try stays.
    split; [by rewrite wasm_call_mounted|by apply adds_call].
  - unfold unlock_finish. destruct outcome as [cert key| |]; [|stays..].
    cbn zeta. split; [cbn; by rewrite wasm_call_mounted|].
    eapply adds_trans; [by apply (adds_call _ o (sshResolveCertificate cert key))|].
    by apply adds_same.
Qed.


(** *** An intentional disconnect *)

(** The user disconnected, no recovery is waiting and no render changes the host. *)
Record down (t : Term) : Prop := {
  dn_user : userDisconnected (refs t) = true;
  dn_recovering : recovering t = [];
  dn_deps : connect_deps_changed (committed t) (deps t) = false;
}.

Lemma down_core t t' : core t = core t' → down t → down t'.
Proof.
  intros E [H1 H2 H3]. unfold core in E. split; [congruence|congruence|].
  unfold connect_deps_changed, deps in *. cbn in *.
  assert (committed t = committed t' ∧ ready (ui t) = ready (ui t') ∧ host t = host t')
    as (<- & <- & <-) by (split_and!; congruence). exact H3.
Qed.

Lemma down_wasm o c t : down t → down (wasm_call o c t).
Proof.
  intros H. eapply down_core; [symmetry; apply wasm_call_core|]. by destruct H; split.
Qed.

Lemma down_client_disconnect o k t : down t → down (client_disconnect o k t).
Proof.
  intros H. unfold client_disconnect. destruct k as [|c k]; [done|].
  destruct (functions _); [|done]. pose proof (down_wasm o (disconnect (c :: k)) t H) as H'.
  by destruct H'; split.
Qed.

(** The inputs that do not ask for a connection. *)
Definition hands_off (e : Event) : bool :=
  match e with E_connect | E_restart | E_render _ _ | E_init _ => false | _ => true end.

Lemma down_commit o t : down t → down (commit o t) ∧ adds (λ c, ¬ is_connect c) t (commit o t).
Proof.
  intros H. destruct (commit_adds o t) as (l & E & F).
  unfold commit in *. destruct (mountedRef (refs t)) eqn:Em; cbn [negb] in *; [|split; [done|by apply adds_same]].
  rewrite (dn_deps t H) in *. cbn zeta in *.
  set (t1 := set_refs _ _) in *.
  assert (H1 : down t1).
  { destruct H as [H1 H2 H3]. split; [exact H1|exact H2|]. unfold connect_deps_changed. cbn.
    rewrite bool_decide_eq_true_2; done. }
  destruct (attach_deps_changed _ _); [|split; [done|by apply adds_same]].
  unfold attach_effect in *. destruct (hostKey t1) as [|c k]; [split; [done|by apply adds_same]|].
  case_decide; [|split; [done|by apply adds_same]]. cbn zeta. split.
  - apply down_wasm. by destruct H1; split.
  - eapply adds_trans; [|apply adds_call; intros []]. by apply adds_same.
Qed.

Lemma down_set_ui u t : down t → ready u = ready (ui t) → down (set_ui u t).
Proof.
  intros [H1 H2 H3] Hu. split; [done|done|].
  unfold connect_deps_changed, deps in *. cbn in *. by rewrite Hu.
Qed.

Lemma down_put_link s t : down t → down (put_link s true (reconnectAttempt (refs t)) t).
Proof. by intros []; split. Qed.

Lemma recover_begin_down t : down t → recover_begin t = t.
Proof. intros H. unfold recover_begin. by rewrite (dn_user t H), orb_true_r. Qed.

Lemma timeout_down o t : down t → down (step t (o, E_timeout)) ∧ window (step t (o, E_timeout)) = window t.
Proof.
  intros H. cbn [step]. destruct (reconnectTimeout _) as [[due h]|]; [|done].
  destruct (due <=? _); [|done]. unfold retry_fires. cbn. rewrite (dn_user t H).
  split; [by destruct H; split|done].
Qed.

Lemma doDisconnect_down o t : down t → down (doDisconnect o t).
Proof.
  intros H. unfold doDisconnect. cbn zeta.
  pose proof (down_client_disconnect o (hostKey t) _ (down_put_link (statusRef (refs t)) t H)) as [D1 D2 D3].
  by split.
Qed.

Lemma handlePasswordCancel_down o t : down t → down (handlePasswordCancel o t).
Proof.
  intros H. unfold handlePasswordCancel. cbn zeta. set (t1 := set_refs (with_exec _ _ _) _).
  assert (D : down t1) by by destruct (down_put_link (statusRef (refs t)) t H); split.
  apply (down_wasm o sshRejectPassword) in D.
  apply (down_client_disconnect o (hostKey (wasm_call o sshRejectPassword t1))) in D.
  destruct D as [D1 D2 D3]. by split.
Qed.

Lemma down_step_state t o e : hands_off e = true → e ≠ E_commit → down t → down (step t (o, e)).
Proof.
  intros He Hn H. pose proof (recover_begin_down t H) as Hr.
  assert (Hs : ∀ u, ready u = ready (ui t) → down (set_ui u t)) by (intros u; by apply down_set_ui).
  destruct e; try (by apply timeout_down); cbn [step] in *; try done; try congruence;
    unfold recoverOnFocus; rewrite ?Hr; try (by repeat case_match).
  - eapply down_core; [symmetry; apply report_core|done].
  - by destruct H; split.
  - by rewrite (dn_recovering t H).
  - destruct (mountedRef _); [by apply doDisconnect_down|done].
  - case_bool_decide; [|done]. by apply Hs.
  - destruct (mountedRef _); [|done]. unfold handlePasswordSubmit. cbn zeta.
    destruct (down_wasm o (sshResolvePassword password) t H) as [D1 D2 D3]. by split.
  - destruct (mountedRef _); [by apply handlePasswordCancel_down|done].
  - case_bool_decide; [|done]. by apply Hs.
  - unfold certificate_alive. destruct answer as [[]|]; cbn; by try apply Hs.
  - unfold certificate_finish, rbind. repeat case_match; simplify_eq; try by apply Hs.
    by apply down_wasm.
  - destruct (mountedRef _); [|done]. unfold handleWebAuthnCancel. cbn zeta.
    by apply down_wasm, Hs.
  - destruct (mountedRef _); [|done]. by apply Hs.
  - unfold unlock_finish. destruct outcome as [cert key| |]; cbn zeta; [|by destruct H; split|by apply Hs].
    destruct (down_wasm o (sshResolveCertificate cert key) t H) as [D1 D2 D3]. by split.
  - by destruct H; split.
  - destruct (mountedRef _); [|done]. unfold unmount. by destruct H; split.
Qed.

Lemma down_step t o e :
  hands_off e = true → down t → down (step t (o, e)) ∧ adds (λ c, ¬ is_connect c) t (step t (o, e)).
Proof.
  intros He H.
  assert (e = E_commit ∨ e ≠ E_commit) as [->|Hn] by (destruct e; auto); [by apply down_commit|].
  split; [by apply down_step_state|].
  assert (Hw : (∀ c, may_call e c → ¬ is_connect c) ∨ window (step t (o, e)) = window t).
  { destruct e; try (left; intros []; cbn; tauto); right;
      [by apply timeout_down|cbn [step]; by rewrite (dn_recovering t H)|done|done]. }
  destruct Hw as [Hw|Hw]; [|by apply adds_same].
  destruct (step_adds t o e) as (l & E & F). exists l. split; [exact E|].
  eapply Forall_impl; [exact F|exact Hw].
Qed.

Lemma down_run t es :
  (∀ oe, oe ∈ es → hands_off oe.2 = true) → down t →
  down (run step t es) ∧ adds (λ c, ¬ is_connect c) t (run step t es).
Proof.
  revert t. induction es as [|[o e] es IH]; intros t He H; [split; [done|by apply adds_same]|].
  destruct (down_step t o e) as [H1 A1]; [apply (He (o, e)); by left|done|].
  destruct (IH (step t (o, e))) as [H2 A2]; [intros oe Hoe; apply He; by right|done|].
  split; [exact H2|]. by eapply adds_trans.
Qed.


(** The connection to a host: the call [doConnect] makes when the client can connect. *)
Definition connect_call (b : Browser) (h : Host) (token : jsstring) : WasmCall :=
  sshConnect (of_int (host_id_ h)) (getSSHWebSocketURL (host_id_ h) b)
    (default (js "root") (truthy (Some (host_ssh_user h)))) token.

(** The client is able to connect. *)
Definition connectable (t : Term) (token : jsstring) : Prop :=
  mountedRef (refs t) = true ∧ wasmReady (client t) = true ∧
  (getToken (browser t)).1 = Ok (Some token) ∧ token ≠ [].

Lemma connectable_core t t' token : core t = core t' → connectable t token → connectable t' token.
Proof.
  intros E (H1 & H2 & H3 & H4). unfold core in E.
  assert (mountedRef (refs t) = mountedRef (refs t') ∧ wasmReady (client t) = wasmReady (client t')
    ∧ browser t = browser t') as (E1 & E2 & E3) by (split_and!; congruence).
  by rewrite E1, E2, E3 in *.
Qed.

(** The state just before the program is called. *)
Definition connecting_state (o : Oracle) (h : Host) (token : jsstring) (t : Term) : Term :=
  let t' := put_status connecting (put_link connecting false (reconnectAttempt (refs t)) t) in
  set_client (set_client_status connecting (client t')) (window t') t'.

Lemma doConnect_connectable o h token t :
  connectable t token →
  doConnect o (Some h) t
  = (Ok tt, wasm_call o (connect_call (browser t) h token) (connecting_state o h token t)).
Proof.
  intros (Hm & Hw & Ht & Hn). unfold doConnect. rewrite Hm. cbn [negb].
  unfold connect. cbn -[truthy wasm_call getToken]. rewrite Hw. cbn [negb].
  rewrite Ht. destruct token as [|x token]; [done|]. reflexivity.
Qed.

Lemma doConnect_result o h token t :
  connectable t token →
  let t' := (doConnect o (Some h) t).2 in
  calls (window t') = calls (window t) ++ [connect_call (browser t) h token] ∧
  userDisconnected (refs t') = false ∧ host t' = host t ∧ connectable t' token.
Proof.
  intros H. rewrite (doConnect_connectable o h token t H). cbn zeta. cbn [snd].
  set (s := connecting_state o h token t). pose proof (wasm_call_core o (connect_call (browser t) h token) s) as E.
  split_and!.
  - by rewrite wasm_call_window.
  - unfold core in E. assert (userDisconnected (refs s) = false) by done. cbn in E. congruence.
  - unfold core in E. assert (host s = host t) by done. cbn in E. congruence.
  - eapply connectable_core; [symmetry; exact E|]. exact H.
Qed.

Lemma client_disconnect_core o k t :
  ∃ t', core (client_disconnect o k t) = core t' ∧ host t' = host t ∧ browser t' = browser t ∧
    (∀ tok, connectable t tok → connectable t' tok) ∧
    userDisconnected (refs t') = userDisconnected (refs t) ∧ recovering t' = recovering t.
Proof.
  unfold client_disconnect. destruct k as [|c k]; [by exists t|].
  destruct (functions (window t)); [|by exists t].
  exists (set_client (client t) (log_call (disconnect (c :: k)) (window t)) t).
  split_and!; try done. rewrite <- (wasm_call_core o (disconnect (c :: k)) t).
  unfold core. cbn. done.
Qed.

Lemma connectable_client_disconnect o k t token :
  connectable t token → connectable (client_disconnect o k t) token.
Proof.
  intros H. destruct (client_disconnect_core o k t) as (t' & E & _ & _ & Hc & _).
  eapply connectable_core; [symmetry; exact E|by apply Hc].
Qed.

Lemma recovering_core t t' : core t = core t' → recovering t = recovering t'.
Proof. unfold core. congruence. Qed.
Lemma browser_core t t' : core t = core t' → browser t = browser t'.
Proof. unfold core. congruence. Qed.
Lemma host_core t t' : core t = core t' → host t = host t'.
Proof. unfold core. congruence. Qed.

(** A disconnect during a recovery is overridden: [recover] looks at the user's intent before
    it waits for the worker but not after, so when the user disconnects in between, the answer
    of the worker makes the terminal connect again and forget that the user disconnected. *)
Theorem recovery_overrides_disconnect o o' h rest alive t token :
  connectable t token → recovering t = Some h :: rest →
  let t1 := step t (o, E_disconnect) in
  let t2 := step t1 (o', E_alive 0 alive) in
  userDisconnected (refs t1) = true ∧ statusRef (refs t1) = disconnected ∧
  userDisconnected (refs t2) = false ∧
  ∃ l, calls (window t2) = calls (window t1) ++ l ++ [connect_call (browser t) h token].
Proof.
  intros Hc Hr. pose proof (proj1 Hc) as Hm. cbn zeta.
  set (t1 := step t (o, E_disconnect)).
  assert (H1 : userDisconnected (refs t1) = true ∧ statusRef (refs t1) = disconnected ∧
    connectable t1 token ∧ recovering t1 = Some h :: rest ∧ browser t1 = browser t).
  { subst t1. cbn [step]. rewrite Hm. unfold doDisconnect. cbn zeta.
    set (t0 := put_link _ true _ t). assert (Hc0 : connectable t0 token) by done.
    destruct (client_disconnect_core o (hostKey t0) t0) as (t' & E & _ & Eb & Hk & Eu & Er).
    apply (connectable_client_disconnect o (hostKey t0)) in Hc0.
    pose proof (recovering_core _ _ E) as R. pose proof (browser_core _ _ E) as B.
    assert (U : userDisconnected (refs (client_disconnect o (hostKey t0) t0)) = true).
    { assert (userDisconnected (refs (client_disconnect o (hostKey t0) t0))
              = userDisconnected (refs t')) by (unfold core in E; congruence). by rewrite H, Eu. }
    split_and!; [exact U|done|exact Hc0|cbn; by rewrite R, Er|cbn; by rewrite B, Eb]. }
  destruct H1 as (U1 & S1 & C1 & R1 & B1). clearbody t1. split; [done|]. split; [done|].
  cbn [step]. rewrite R1. cbn [lookup list_lookup]. unfold recover_finish.
  set (ta := set_recovering _ t1). change (mountedRef (refs ta)) with (mountedRef (refs t1)).
  rewrite (proj1 C1). cbn [negb]. change (statusRef (refs ta)) with (statusRef (refs t1)).
  rewrite S1, bool_decide_eq_false_2, andb_false_r by done. cbn zeta.
  set (tb := if alive then ta else _). set (td := client_disconnect o' _ tb).
  assert (Cb : connectable tb token) by by destruct alive.
  assert (Bd : browser td = browser t).
  { destruct (client_disconnect_core o' (key_of (Some h)) tb) as (t' & E & _ & Eb & _).
    rewrite (browser_core _ _ E : browser td = _), Eb. by destruct alive. }
  assert (Cd : connectable td token) by by apply connectable_client_disconnect.
  assert (Ad : adds is_disconnect t1 td).
  { eapply adds_trans; [|by apply client_disconnect_adds]. by destruct alive; apply adds_same. }
  set (te := put_link _ _ _ td). assert (Ce : connectable te token) by exact Cd.
  destruct (doConnect_result o' h token te Ce) as (Ec & Eu & _). split; [exact Eu|].
  destruct Ad as (l & El & _). exists l. rewrite Ec. change (window te) with (window td).
  rewrite El, <- app_assoc. change (browser te) with (browser td). by rewrite Bd.
Qed.

(** *** The ceiling on reconnection attempts *)

(** A retry is scheduled below the ceiling only. *)
Definition retry_inv (t : Term) : Prop :=
  0 <= reconnectAttempt (refs t) <= MAX_RECONNECT_ATTEMPTS ∧
  (is_Some (reconnectTimeout (refs t)) → reconnectAttempt (refs t) < MAX_RECONNECT_ATTEMPTS).

Lemma retry_inv_refs t t' :
  reconnectAttempt (refs t') = reconnectAttempt (refs t) →
  reconnectTimeout (refs t') = reconnectTimeout (refs t) → retry_inv t → retry_inv t'.
Proof. unfold retry_inv. by intros -> ->. Qed.

Lemma retry_inv_put s u a t :
  a = reconnectAttempt (refs t) ∨ a = 0 → retry_inv t → retry_inv (put_link s u a t).
Proof. unfold retry_inv, MAX_RECONNECT_ATTEMPTS. cbn. intros [->| ->]; [done|lia]. Qed.

Lemma report_retry t r :
  (r.1 ≠ connected → reconnectAttempt (refs (report t r)) = reconnectAttempt (refs t)) ∧
  (retry_inv t → retry_inv (report t r)).
Proof.
  destruct r as [s e]. unfold report, status_report. cbn [fst snd].
  case_bool_decide; [|split; [done|by apply retry_inv_refs]].
  unfold on_status, maybeReconnect, retry_inv, MAX_RECONNECT_ATTEMPTS, put_link, put_status.
  destruct s; repeat case_match; cbn in *; try done; (split; [done|]); intros [Ha Hb];
    try done; try (split; [lia|]); intros; zbool; auto; lia.
Qed.

Lemma reports_retry l t :
  ((∀ r, r ∈ l → r.1 ≠ connected) →
   reconnectAttempt (refs (fold_left report l t)) = reconnectAttempt (refs t)) ∧
  (retry_inv t → retry_inv (fold_left report l t)).
Proof.
  revert t. induction l as [|r l IH]; intros t; [done|]. cbn [fold_left].
  destruct (IH (report t r)) as [I1 I2]. destruct (report_retry t r) as [R1 R2]. split.
  - intros Hl. rewrite I1; [apply R1, Hl; by left|]. intros r' Hr. apply Hl. by right.
  - auto.
Qed.

Lemma wasm_call_retry o c t : retry_inv t → retry_inv (wasm_call o c t).
Proof. intros H. apply reports_retry. exact H. Qed.

Lemma doConnect_retry o h t : retry_inv t → retry_inv (doConnect o h t).2.
Proof.
  intros H. unfold doConnect. destruct h as [h|]; [|done].
  destruct (negb _); [done|]. destruct (connect _ _ _ _ _) as [r c]. cbn zeta.
  destruct r; [apply wasm_call_retry|]; exact H.
Qed.

Lemma client_disconnect_retry o k t : retry_inv t → retry_inv (client_disconnect o k t).
Proof.
  intros H. unfold client_disconnect. destruct k as [|c k]; [done|].
  destruct (functions _); [|done]. exact (wasm_call_retry o (disconnect (c :: k)) t H).
Qed.

Lemma retry_inv_timerless t a :
  0 <= a <= MAX_RECONNECT_ATTEMPTS → reconnectTimeout (refs t) = None →
  reconnectAttempt (refs t) = a → retry_inv t.
Proof. intros Ha Ht <-. split; [done|]. rewrite Ht. by intros []. Qed.

Lemma unmount_retry t : retry_inv t → retry_inv (unmount t).
Proof. intros [H _]. by eapply retry_inv_timerless. Qed.

Lemma commit_retry o t : retry_inv t → retry_inv (commit o t).
Proof.
  intros H. unfold commit. destruct (negb _); [done|]. cbn zeta.
  set (t1 := set_refs _ _). assert (H1 : retry_inv t1) by exact H.
  destruct (if connect_deps_changed _ _ then _ else _) as [r t2] eqn:E.
  assert (H2 : retry_inv t2).
  { destruct (connect_deps_changed _ _); [|congruence]. unfold connect_effect in E.
    destruct (negb _); [congruence|]. replace t2 with (doConnect o (host t1) t1).2 by by rewrite E.
    by apply doConnect_retry. }
  destruct r; [|by apply unmount_retry]. destruct (attach_deps_changed _ _); [|done].
  unfold attach_effect. destruct (hostKey t2); [done|]. case_decide; [|done].
  by apply wasm_call_retry.
Qed.

Lemma step_retry t oe : retry_inv t → retry_inv (step t oe).
Proof.
  intros H. destruct oe as [o e]. pose proof H as [Ha Hb].
  assert (Hr : retry_inv (recover_begin t)) by (unfold recover_begin; by repeat case_match).
  assert (Hl : ∀ l, retry_inv (step t (o, E_init l))) by (intros l; unfold retry_inv; by rewrite init_refs).
  destruct e; try apply Hl; clear Hl; cbn [step]; try exact H; try (by repeat case_match).
  - by apply report_retry.
  - by apply commit_retry.
  - destruct (reconnectTimeout (refs t)) as [[due h]|] eqn:E; [|done].
    destruct (due <=? _); [|done].
    assert (Hlt : reconnectAttempt (refs t) < MAX_RECONNECT_ATTEMPTS) by (apply Hb; eauto).
    unfold retry_fires. destruct (_ || _); [by apply (retry_inv_timerless _ (reconnectAttempt (refs t)))|].
    apply doConnect_retry, (retry_inv_timerless _ (reconnectAttempt (refs t) + 1)); [lia|done|done].
  - destruct (mountedRef _); [|done]. unfold recoverOnFocus. by case_decide.
  - destruct (recovering t !! i) as [h|]; [|done]. unfold recover_finish.
    destruct (negb _); [done|]. destruct (_ && _); [done|]. cbn zeta.
    apply doConnect_retry, retry_inv_put; [by right|].
    apply client_disconnect_retry. by destruct alive.
  - by apply doConnect_retry.
  - destruct (mountedRef _); [|done]. unfold doDisconnect. cbn zeta.
    set (t1 := client_disconnect _ _ _). assert (H1 : retry_inv t1) by by apply client_disconnect_retry.
    by eapply retry_inv_refs; [| |exact H1].
  - destruct (mountedRef _); [|done]. unfold doRestart. destruct (hostKey t); [done|].
    case_decide; [by apply wasm_call_retry|]. apply doConnect_retry, retry_inv_put; [by right|done].
  - destruct (mountedRef _); [|done]. exact (wasm_call_retry o (sshResolvePassword password) t H).
  - destruct (mountedRef _); [|done]. unfold handlePasswordCancel. cbn zeta.
    set (t1 := client_disconnect _ _ _).
    assert (H1 : retry_inv t1) by by apply client_disconnect_retry, wasm_call_retry.
    by eapply retry_inv_refs; [| |exact H1].
  - by destruct answer as [[]|].
  - unfold certificate_finish, rbind. repeat case_match; simplify_eq; try done.
    by apply wasm_call_retry.
  - destruct (mountedRef _); [|done]. by apply wasm_call_retry.
  - unfold unlock_finish. destruct outcome as [cert key| |]; [|done..].
    exact (wasm_call_retry o (sshResolveCertificate cert key) t H).
  - destruct (mountedRef _); [|done]. by apply unmount_retry.
Qed.

(** The inputs of a terminal left alone with a host that never gets connected: reports of
    failure, the clock and the authentication requests. *)
Definition left_alone (oe : Oracle * Event) : Prop :=
  (∀ c r, r ∈ oe.1 c → r.1 ≠ connected) ∧
  match oe.2 with
  | E_report s _ => s ≠ connected
  | E_time _ | E_timeout | E_password_request | E_certificate_request | E_certificate_alive _ => True
  | _ => False
  end.

Lemma step_left_alone t oe :
  left_alone oe → retry_inv t →
  ∃ l, calls (window (step t oe)) = calls (window t) ++ l ∧
    reconnectAttempt (refs t) + Z.of_nat (length l) <= reconnectAttempt (refs (step t oe)).
Proof.
  destruct oe as [o e]. intros [Ho He] [Ha Hb]. cbn [fst snd] in *.
  assert (Hsame : ∀ t', window t' = window t →
    reconnectAttempt (refs t') = reconnectAttempt (refs t) →
    ∃ l, calls (window t') = calls (window t) ++ l ∧
      reconnectAttempt (refs t) + Z.of_nat (length l) <= reconnectAttempt (refs t')).
  { intros t' Hw Ht. exists []. rewrite Hw, Ht, app_nil_r. split; [done|]. cbn. lia. }
  destruct e; try done; cbn [step].
  - apply Hsame; [symmetry; apply core_window; by rewrite report_core|by apply report_retry].
  - by apply Hsame.
  - destruct (reconnectTimeout (refs t)) as [[due h]|] eqn:E; [|by apply Hsame].
    destruct (due <=? _); [|by apply Hsame].
    unfold retry_fires. destruct (_ || _); [by apply Hsame|]. set (t1 := put_link _ _ _ _).
    unfold doConnect. destruct h as [h|]; [|exists []; rewrite app_nil_r; split; [done|]; cbn; lia].
    destruct (negb _); [exists []; rewrite app_nil_r; split; [done|]; cbn; lia|].
    destruct (connect _ _ _ _ _) as [[call|e] c]; cbn zeta; cbn [snd].
    + exists [call]. rewrite wasm_call_window. split; [done|]. unfold wasm_call.
      rewrite (proj1 (reports_retry _ _)) by apply Ho. cbn. lia.
    + exists []. rewrite app_nil_r. split; [done|]. cbn. lia.
  - case_bool_decide; by apply Hsame.
  - case_bool_decide; by apply Hsame.
  - destruct answer as [[]|]; by apply Hsame.
Qed.


(** *** A retry that outlives its host *)

(** A retry goes to the host it was scheduled for: its callback closes over that host, and
    nothing cancels it when the page moves to another host, so when it fires the terminal of the
    new host connects to the old one. *)
Theorem retry_connects_old_host o a b due t token :
  connectable t token → userDisconnected (refs t) = false →
  reconnectTimeout (refs t) = Some (due, Some a) → due <= now t → host t = Some b →
  let t' := step t (o, E_timeout) in
  calls (window t') = calls (window t) ++ [connect_call (browser t) a token] ∧
  hostKey t' = of_int (host_id_ b).
Proof.
  intros Hc Hu Ht Hd Hh. cbn zeta. cbn [step]. rewrite Ht, (proj2 (Z.leb_le _ _) Hd).
  unfold retry_fires. cbn -[doConnect]. rewrite Hu, (proj1 Hc). cbn -[doConnect].
  set (t1 := put_link _ _ _ _). assert (H1 : connectable t1 token) by exact Hc.
  destruct (doConnect_result o a token t1 H1) as (E & _ & Eh & _). split; [exact E|].
  unfold hostKey. rewrite Eh. cbn. by rewrite Hh.
Qed.

(** *** Switching sessions *)

Lemma digits_fuel_nonempty base fuel n acc : acc ≠ [] → digits_fuel base fuel n acc ≠ [].
Proof.
  revert n acc. induction fuel as [|fuel IH]; intros n acc H; [done|]. cbn.
  destruct (n <? base); [done|]. by apply IH.
Qed.

Lemma of_int_nonempty n : of_int n ≠ [].
Proof.
  unfold of_int, number_to_string. destruct (n <? 0); [done|]. intros E.
  apply fmap_nil_inv in E. revert E. unfold number_digits. cbn [digits_fuel].
  destruct (n <? 10); [done|]. by apply digits_fuel_nonempty.
Qed.

Lemma attach_effect_connected o t h :
  host t = Some h → statusRef (refs t) = connected → pendingRestart (refs t) = false →
  calls (window (attach_effect o t))
  = calls (window t) ++ [sshExec (of_int (host_id_ h)) (attachCommand (sessionName t))].
Proof.
  intros Hh Hs Hp. unfold attach_effect, hostKey. rewrite Hh. cbn [key_of].
  destruct (of_int (host_id_ h)) as [|c k] eqn:E; [by apply of_int_nonempty in E|].
  rewrite decide_True by done. cbn zeta. rewrite wasm_call_window, Hp. done.
Qed.

(** The terminal shows a connected session and React has nothing left to run. *)
Record settled (t : Term) (h : Host) (token : jsstring) : Prop := {
  st_connectable : connectable t token;
  st_registered : registered (window t) = Some (instance (client t));
  st_ready : ready (ui t) = true;
  st_host : host t = Some h;
  st_connected : statusRef (refs t) = connected;
  st_restart : pendingRestart (refs t) = false;
  st_committed : committed t = deps t;
}.

(** A report of the connection reaches the refs and the state, and nothing else of the page. *)
Lemma report_connected_fields t w :
  registered w = Some (instance (client t)) →
  let u := report (set_client (client t) w t) (connected, None) in
  statusRef (refs u) = connected ∧ status (ui u) = connected ∧ host u = host t ∧
  sessionName u = sessionName t ∧ pendingRestart (refs u) = pendingRestart (refs t) ∧
  calls (window u) = calls w.
Proof.
  intros Hw. unfold report, status_report. cbn.
  rewrite bool_decide_eq_true_2 by exact Hw. done.
Qed.

(** The attach of a connected terminal, when the program reports nothing. *)
Lemma attach_effect_silent o u h s :
  host u = Some h → statusRef (refs u) = connected → pendingRestart (refs u) = false →
  sessionName u = s → o (sshExec (of_int (host_id_ h)) (attachCommand s)) = [] →
  attach_effect o u = set_client (client u)
    (log_call (sshExec (of_int (host_id_ h)) (attachCommand s)) (window u))
    (set_refs (with_exec true false (refs u)) u).
Proof.
  intros R3 R1 R5 <- Ho. unfold attach_effect, hostKey. rewrite R3. cbn [key_of].
  destruct (of_int (host_id_ h)) as [|d k] eqn:Ek; [by apply of_int_nonempty in Ek|].
  rewrite decide_True by done. rewrite R5. cbn zeta. unfold wasm_call.
  change (sessionName (set_refs (with_exec true false (refs u)) u)) with (sessionName u).
  by rewrite Ho.
Qed.

(** Switching sessions: showing another session of the same host runs one attach for it on the
    open connection and does not connect again; showing a session of another host the program
    is still connected to activates that connection, attaches to the session there, and leaves
    the terminal connected, although the program reports it during the call. *)
Theorem switch_session o o' h h' s t token :
  settled t h token → s ≠ sessionName t →
  let t' := run step t [(o, E_render (Some h') s); (o', E_commit)] in
  let attach := sshExec (of_int (host_id_ h')) (attachCommand s) in
  (host_id_ h' = host_id_ h → host_ssh_user h' = host_ssh_user h →
     calls (window t') = calls (window t) ++ [attach]) ∧
  (host_id_ h' ≠ host_id_ h → o' (connect_call (browser t) h' token) = [(connected, None)] →
     o' attach = [] →
     calls (window t') = calls (window t) ++ [connect_call (browser t) h' token; attach] ∧
     statusRef (refs t') = connected ∧ status (ui t') = connected).
Proof.
  intros [Hc Hr Hy Hh Hs Hp Hd] Hn. cbn zeta. unfold run. cbn [foldl step].
  rewrite (proj1 Hc). set (t1 := set_props (Some h') s t).
  unfold commit. change (mountedRef (refs t1)) with (mountedRef (refs t)). rewrite (proj1 Hc).
  cbn [negb]. set (t2 := set_refs _ _).
  assert (Ha : attach_deps_changed (committed t1) (deps t1) = true).
  { unfold attach_deps_changed. change (committed t1) with (committed t). rewrite Hd. cbn.
    rewrite bool_decide_eq_false_2; [done|]. congruence. }
  rewrite Ha. split.
  - intros E1 E2.
    assert (Hk : connect_deps_changed (committed t1) (deps t1) = false).
    { unfold connect_deps_changed. change (committed t1) with (committed t). rewrite Hd. cbn.
      rewrite Hh. cbn. rewrite E1, E2. rewrite bool_decide_eq_true_2; done. }
    rewrite Hk. cbn iota. rewrite (attach_effect_connected o' t2 h'); done.
  - intros Hi Ho Ho'.
    assert (Hk : connect_deps_changed (committed t1) (deps t1) = true).
    { unfold connect_deps_changed. change (committed t1) with (committed t). rewrite Hd. cbn.
      rewrite Hh. cbn. rewrite bool_decide_eq_false_2; [done|]. congruence. }
    rewrite Hk. unfold connect_effect. change (ready (ui t2)) with (ready (ui t)). rewrite Hy.
    cbn [negb]. change (host t2) with (Some h').
    assert (H2 : connectable t2 token) by by destruct Hc as (? & ? & ? & ?).
    rewrite (doConnect_connectable o' h' token t2 H2). set (t3 := connecting_state _ _ _ _).
    change (browser t2) with (browser t). set (c := connect_call (browser t) h' token) in *.
    assert (Hw : window (wasm_call o' c t3) = log_call c (window t)) by by rewrite wasm_call_window.
    assert (E : wasm_call o' c t3 = report (set_client (client t3) (log_call c (window t3)) t3)
                  (connected, None)).
    { unfold wasm_call. by rewrite Ho. }
    pose proof (report_connected_fields t3 (log_call c (window t3)) Hr) as Hreg.
    cbn zeta in Hreg. rewrite <- E in Hreg.
    set (u := wasm_call o' c t3) in *. destruct Hreg as (R1 & R2 & R3 & R4 & R5 & _).
    change (pendingRestart (refs t3)) with (pendingRestart (refs t)) in R5. rewrite Hp in R5.
    cbn iota. rewrite (attach_effect_connected o' u h' R3 R1 R5), R4, Hw. cbn [log_call calls].
    rewrite <- app_assoc. split; [done|].
    rewrite (attach_effect_silent o' u h' s R3 R1 R5 R4 Ho'). done.
Qed.

(** *** Unlocking *)

Section unlock_theory.
Context {W : WebCrypto} {HW : WebCryptoLaws W} {J : Json}.

(** The authenticator asserted a passkey with a PRF output, from which [prfKey] derives, and the
    server sent the blobs of that passkey. *)
Definition reaches_blobs (aw : Awaits) (prfKey : bytes) (blobs : list jsstring) : Prop :=
  ∃ u us user options request credential prfOutput credentialId,
    aw_user aw = Ok u ∧ truthy u = Some us ∧ json_parse us = Ok user ∧ user ≠ JNull ∧
    aw_loginBegin aw (json_get (js "email") user) = Ok options ∧
    request_of options = Ok request ∧ aw_get aw request = Ok (Some credential) ∧
    prf_first credential = Some prfOutput ∧ encodeBase64URL (rawId credential) = Ok credentialId ∧
    aw_getMasterKey aw credentialId = Ok blobs ∧ deriveMasterKeyFromPrf prfOutput = Ok prfKey.

Lemma handleWebAuthnAuth_reaches aw hostId prfKey blobs :
  reaches_blobs aw prfKey blobs →
  handleWebAuthnAuth aw hostId
  = match unlockMasterKey prfKey blobs with
    | None => U_needs_provision
    | Some masterKey =>
        at_stage S_init_worker (aw_initWorker aw masterKey) (λ _,
        at_stage S_request_cert
          (let! result := aw_requestCert aw hostId in
           let! privateKeyBase64 := encodeBase64 (userPrivateKey result) in
           Ok (certificate result, privateKeyBase64)) (λ r, U_resolved r.1 r.2))
    end.
Proof.
  intros (u & us & user & options & request & credential & prfOutput & cid &
          E1 & E2 & E3 & E4 & E5 & E6 & E7 & E8 & E9 & E10 & E11).
  unfold handleWebAuthnAuth, stored_user, prf_of.
  rewrite E1. cbn [rbind]. rewrite E2, E3. cbn [at_stage].
  assert (E12 : match user with
                | JNull => Throw (type_error "Cannot read properties of null (reading 'email')")
                | _ => let! options := aw_loginBegin aw (json_get (js "email") user) in
                       request_of options
                end = Ok request).
  { destruct user; try done; rewrite E5; exact E6. }
  rewrite E12. cbn [at_stage]. rewrite E7. cbn [rbind at_stage]. rewrite E8. cbn [at_stage].
  rewrite E9. cbn [rbind]. rewrite E10. cbn [at_stage]. rewrite E11. done.
Qed.

Lemma unlockMasterKey_None prfKey blobs :
  unlockMasterKey prfKey blobs = None ↔ ∀ b, b ∈ blobs → is_ok (openBlob prfKey b) = false.
Proof.
  induction blobs as [|b blobs IH]; cbn [unlockMasterKey].
  - split; [|done]. intros _ b Hb. by apply not_elem_of_nil in Hb.
  - destruct (openBlob prfKey b) as [mk|e] eqn:E.
    + split; [done|]. intros H. specialize (H b ltac:(left)). by rewrite E in H.
    + rewrite IH. split; intros H b' Hb'.
      * apply elem_of_cons in Hb' as [->|Hb']; [by rewrite E|by apply H].
      * apply H. by right.
Qed.

Lemma at_stage_not_provision {A} s (r : result A) k :
  at_stage s r k = U_needs_provision → ∃ a, r = Ok a ∧ k a = U_needs_provision.
Proof. destruct r as [a|e]; [|done]. intros H. by exists a. Qed.

(** The page sends a device to be set up for SSH exactly when the user proved a passkey with a
    PRF output and no blob of that passkey opens with it; every other failure stays in the
    unlock dialog. *)
Theorem provisioning_exact aw hostId :
  handleWebAuthnAuth aw hostId = U_needs_provision ↔
  ∃ prfKey blobs, reaches_blobs aw prfKey blobs ∧
    ∀ b, b ∈ blobs → is_ok (openBlob prfKey b) = false.
Proof.
  split.
  - intros H. unfold handleWebAuthnAuth in H.
    apply at_stage_not_provision in H as (user & E1 & H).
    apply at_stage_not_provision in H as (request & E2 & H).
    apply at_stage_not_provision in H as (credential & E3 & H).
    apply at_stage_not_provision in H as (prfOutput & E4 & H).
    apply at_stage_not_provision in H as (blobs & E5 & H).
    apply at_stage_not_provision in H as (prfKey & E6 & H).
    exists prfKey, blobs. split.
    + destruct (aw_user aw) as [u|] eqn:Eu; [|done]. cbn [rbind] in E1. unfold stored_user in E1.
      destruct (truthy u) as [us|] eqn:Et; [|done].
      destruct (aw_get aw request) as [[c|]|] eqn:Eg; [|done|done]. simplify_eq/=.
      unfold prf_of in E4. destruct (prf_first credential) as [p|] eqn:Ep; [|done]. simplify_eq.
      destruct (encodeBase64URL (rawId credential)) as [cid|] eqn:Ec; [|done]. cbn [rbind] in E5.
      destruct user; try done;
        (destruct (aw_loginBegin aw _) as [options|] eqn:El; [|done]; cbn [rbind] in E2;
         eexists u, us, _, options, request, credential, prfOutput, cid;
         split_and!; [done|exact Et|exact E1|done|exact El|done..]).
    + apply unlockMasterKey_None. destruct (unlockMasterKey prfKey blobs) as [mk|]; [|done].
      apply at_stage_not_provision in H as (_ & _ & H).
      by apply at_stage_not_provision in H as (r & _ & H).
  - intros (prfKey & blobs & Hr & Hb).
    rewrite (handleWebAuthnAuth_reaches aw hostId prfKey blobs Hr).
    apply unlockMasterKey_None in Hb. by rewrite Hb.
Qed.

(** A device that was set up unlocks: when one of the passkey's blobs holds the master key
    wrapped under this device's PRF key, wherever it stands among the blobs of the other devices,
    the worker is given that master key, and the certificate it obtains reaches the SSH client. *)
Theorem provisioned_device_unlocks aw hostId prfKey rnd masterKey blob blobs cert :
  reaches_blobs aw prfKey blobs →
  length prfKey = 32%nat → length rnd = 12%nat → Forall is_byte rnd → Forall is_byte masterKey →
  wrapMasterKey rnd prfKey masterKey = Ok blob → blob ∈ blobs →
  (∀ b mk, b ∈ blobs → openBlob prfKey b = Ok mk → mk = masterKey) →
  aw_initWorker aw masterKey = Ok tt → aw_requestCert aw hostId = Ok cert →
  Forall is_byte (userPrivateKey cert) →
  ∃ key, decodeBase64 key = Ok (userPrivateKey cert) ∧
         handleWebAuthnAuth aw hostId = U_resolved (certificate cert) key.
Proof.
  intros Hr Hk Hn Hb Hm Hw Hin Hauth Hi Hc Hp.
  rewrite (handleWebAuthnAuth_reaches aw hostId prfKey blobs Hr).
  rewrite (unlockMasterKey_wrapped rnd prfKey masterKey blob blobs) by done.
  rewrite Hi. cbn [at_stage]. rewrite Hc. cbn [rbind].
  rewrite encodeBase64_ok by done. cbn [rbind at_stage].
  eexists. split; [by apply decode_base64_body|done].
Qed.
End unlock_theory.

(** ** Witnesses *)

Definition demo_host (i : Z) : Host :=
  {| host_id_ := i; host_label := []; host_hostname := []; host_ssh_user := js "me";
     host_ssh_port := 22; host_ssh_principal := []; host_user_id := 1; host_created_at := [];
     host_updated_at := [] |}.

Definition loaded : Loading :=
  {| l_wasm_exec := Ok tt; l_sshclient := Ok tt; l_wasm := Ok tt |}.

(** A program that reports nothing during a call, and one that reports a pooled connection. *)
Definition no_reports : Oracle := λ _, [].
Definition pooled : Oracle := λ c, match c with sshConnect _ _ _ _ => [(connected, None)] | _ => [] end.

Abbreviation demo_mounted :=
  (mounted_term 0 (Some (demo_host 1)) (js "a") false demo_browser initial_window 0).

(** Loaded, connected to the first host and attached. *)
Abbreviation demo_open :=
  (run step demo_mounted
    [(no_reports, E_init loaded); (no_reports, E_commit); (no_reports, E_report connected None);
     (no_reports, E_commit)]).

(** The connection broke, a retry is pending, and the page has moved to the second host. *)
Abbreviation demo_moved :=
  (run step demo_open
    [(no_reports, E_report error_status None); (no_reports, E_render (Some (demo_host 2)) (js "b"));
     (no_reports, E_commit); (no_reports, E_time 1000)]).



Lemma recovery_overrides_disconnect_witness :
  let t1 := run step demo_open [(no_reports, E_online); (no_reports, E_disconnect)] in
  userDisconnected (refs t1) = true ∧
  userDisconnected (refs (step t1 (no_reports, E_alive 0 true))) = false.
Proof.
  assert (Hc : connectable (step demo_open (no_reports, E_online)) (js "t0"))
    by (split_and!; [reflexivity..|discriminate]).
  pose proof (recovery_overrides_disconnect no_reports no_reports (demo_host 1) [] true
    (step demo_open (no_reports, E_online)) (js "t0") Hc eq_refl) as (H1 & _ & H2 & _).
  split; [exact H1|exact H2].
Defined.


Lemma retry_connects_old_host_witness :
  calls (window (step demo_moved (no_reports, E_timeout)))
  = calls (window demo_moved) ++ [connect_call demo_browser (demo_host 1) (js "t0")] ∧
  hostKey (step demo_moved (no_reports, E_timeout)) = js "2".
Proof.
  apply (retry_connects_old_host no_reports (demo_host 1) (demo_host 2) 1000 demo_moved (js "t0")).
  - split_and!; [reflexivity..|discriminate].
  - reflexivity.
  - reflexivity.
  - by vm_compute.
  - reflexivity.
Defined.

Lemma switch_session_witness :
  calls (window (run step demo_open
    [(no_reports, E_render (Some (demo_host 2)) (js "b")); (pooled, E_commit)]))
  = calls (window demo_open) ++ [connect_call demo_browser (demo_host 2) (js "t0");
                                 sshExec (js "2") (js "tmux attach -t 'b'")].
Proof.
  assert (Hs : settled demo_open (demo_host 1) (js "t0")).
  { split; try reflexivity. split_and!; [reflexivity..|discriminate]. }
  pose proof (switch_session no_reports pooled (demo_host 1) (demo_host 2) (js "b") demo_open (js "t0")
    Hs ltac:(discriminate)) as [_ H].
  exact (proj1 (H ltac:(discriminate) eq_refl eq_refl)).
Defined.

#[local] Existing Instance toy_crypto.
#[local] Existing Instance tree_json_text.

Abbreviation demo_prf_key := (match deriveMasterKeyFromPrf (replicate 32 5) with Ok k => k | Throw _ => [] end).
Abbreviation demo_master_key := (replicate 32 9).
Abbreviation demo_wrapped :=
  (match wrapMasterKey (replicate 12 3) demo_prf_key demo_master_key with Ok b => b | Throw _ => [] end).
Abbreviation demo_certificate :=
  {| certificate := js "cert"; serial := 1; userPrivateKey := [1; 2; 3]; userPublicKey := [4] |}.
Abbreviation demo_awaits :=
  {| aw_user := Ok (Some (JSON_stringify (JObj [(js "email", JStr (js "a@b"))])));
     aw_loginBegin := λ _, Ok (JObj [(js "publicKey", JObj [(js "challenge", JStr (js "AAAA"))])]);
     aw_get := λ _, Ok (Some {| rawId := [1; 2; 3]; prf_first := Some (replicate 32 5) |});
     aw_getMasterKey := λ _, Ok [js "AQ=="; demo_wrapped];
     aw_initWorker := λ _, Ok tt;
     aw_requestCert := λ _, Ok demo_certificate |}.

Lemma provisioned_device_unlocks_witness :
  ∃ key, decodeBase64 key = Ok [1; 2; 3] ∧
         handleWebAuthnAuth demo_awaits 7 = U_resolved (js "cert") key.
Proof.
  apply (provisioned_device_unlocks (HW := toy_crypto_laws) demo_awaits 7 demo_prf_key
    (replicate 12 3) demo_master_key demo_wrapped [js "AQ=="; demo_wrapped] demo_certificate).
  - exists (Some (JSON_stringify (JObj [(js "email", JStr (js "a@b"))]))).
    do 7 eexists. split_and!; try (vm_compute; reflexivity). discriminate.
  - vm_compute. reflexivity.
  - reflexivity.
  - by apply Forall_replicate.
  - by apply Forall_replicate.
  - vm_compute. reflexivity.
  - right. left.
  - intros b mk Hb. apply elem_of_cons in Hb as [->|Hb].
    + vm_compute. discriminate.
    + apply list_elem_of_singleton in Hb as ->. vm_compute. congruence.
  - reflexivity.
  - reflexivity.
  - repeat constructor; lia.
Defined.
