(* ===== verification/TerminalView.v ===== *)
(** * The terminal's surface ([components/SSHTerminal.tsx], [lib/ssh-client.ts])

    The part of the component that keeps xterm's grid, the size of the remote terminal and the
    page's layout together, and that carries bytes both ways.  A machine of its own: the fit
    timers, the deferred output and the calls made to the Go program.  The connection is
    [SshTerminal]. *)

From S2P Require Import Prelude Js SshClient.
#[local] Open Scope Z_scope.

(** The delay of both re-fits. *)
Definition FIT_DELAY : Z := 50.

(** The style of the container: its height in pixels, or the whole of its parent. *)
Definition container_height (viewportHeight topBarHeight : Z) : option Z :=
  if 0 <? viewportHeight then Some (viewportHeight - topBarHeight) else None.

(** Rows and columns. *)
Abbreviation Grid := (Z * Z)%type.

Definition initial_grid : Grid := (24, 80).

Record Size := { width : Z; height : Z }.

Record View := {
  v_instance : nat;
  v_mounted : bool;
  (** The size of the container; [None] when it has left the page. *)
  container : option Size;
  grid : Grid;
  (** The deadlines of the pending timers of the two effects. *)
  effect_timer : option Z;
  observer_timer : option Z;
  program : Window;
  (** Output waiting for its [setTimeout(..., 0)], and what xterm was given. *)
  deferred : list jsstring;
  written : list jsstring;
  v_now : Z;
}.

Definition set_fit (c : option Size) (g : Grid) (p : Window) (v : View) : View :=
  {| v_instance := v_instance v; v_mounted := v_mounted v; container := c; grid := g;
     effect_timer := effect_timer v; observer_timer := observer_timer v; program := p;
     deferred := deferred v; written := written v; v_now := v_now v |}.

Definition set_fit_timers (e o : option Z) (v : View) : View :=
  {| v_instance := v_instance v; v_mounted := v_mounted v; container := container v;
     grid := grid v; effect_timer := e; observer_timer := o; program := program v;
     deferred := deferred v; written := written v; v_now := v_now v |}.

Definition set_output (d w : list jsstring) (v : View) : View :=
  {| v_instance := v_instance v; v_mounted := v_mounted v; container := container v;
     grid := grid v; effect_timer := effect_timer v; observer_timer := observer_timer v;
     program := program v; deferred := d; written := w; v_now := v_now v |}.

Definition pass_time (ms : Z) (v : View) : View :=
  {| v_instance := v_instance v; v_mounted := v_mounted v; container := container v;
     grid := grid v; effect_timer := effect_timer v; observer_timer := observer_timer v;
     program := program v; deferred := deferred v; written := written v;
     v_now := v_now v + Z.max 0 ms |}.

Section view.
(** What xterm's fit addon measures: the grid that fills the container, or nothing. *)
Context (propose : option Size → option Grid).

Definition fit (v : View) : View :=
  match propose (container v) with
  | Some g => set_fit (container v) g (program v) v
  | None => v
  end.

(** [fit()], then the program is told the grid. *)
Definition refit (v : View) : View :=
  let v := fit v in
  set_fit (container v) (grid v) (resize (grid v).1 (grid v).2 (program v)) v.

Definition initial_view (i : nat) (c : Size) (w : Window) (t0 : Z) : View :=
  fit {| v_instance := i; v_mounted := true; container := Some c; grid := initial_grid;
         effect_timer := Some (t0 + FIT_DELAY); observer_timer := None; program := w;
         deferred := []; written := []; v_now := t0 |}.

(** The effect keyed on the viewport, the top bar and the loading state runs again. *)
Definition layout_effect (v : View) : View :=
  set_fit_timers (Some (v_now v + FIT_DELAY)) (observer_timer v) v.

Definition resize_observed (v : View) : View :=
  set_fit_timers (effect_timer v) (Some (v_now v + FIT_DELAY)) v.

(** The output callback the program was given: it only schedules the [emit]. *)
Definition output_callback (data : jsstring) (v : View) : View :=
  if bool_decide (registered (program v) = Some (v_instance v))
  then set_output (deferred v ++ [data]) (written v) v else v.

(** The next scheduled [emit]: the listener writes to xterm; to a disposed one it does not
    get through. *)
Definition emit_output (v : View) : View :=
  match deferred v with
  | [] => v
  | data :: rest =>
      set_output rest (if v_mounted v then written v ++ [data] else written v) v
  end.

(** [term.onData]. *)
Definition on_data (data : bytes) (v : View) : View :=
  set_fit (container v) (grid v) (sendInput data (program v)) v.

Definition view_unmount (v : View) : View :=
  {| v_instance := v_instance v; v_mounted := false; container := None; grid := grid v;
     effect_timer := None; observer_timer := None;
     program := disconnectPending (detach (program v)); deferred := deferred v;
     written := written v; v_now := v_now v |}.

Inductive ViewEvent :=
(** The container's size changed, which the observer reports. *)
| VE_container (c : Size)
| VE_layout
| VE_fonts
| VE_time (ms : Z)
| VE_effect_timer
| VE_observer_timer
| VE_output (data : jsstring)
| VE_emit
| VE_data (data : bytes)
(** The program starts, or exits. *)
| VE_program (up : bool)
| VE_unmount.

Definition due (t : option Z) (v : View) : bool :=
  match t with Some d => d <=? v_now v | None => false end.

Definition program_up (up : bool) (w : Window) : Window :=
  {| goInstance := goInstance w; functions := up; registered := registered w;
     calls := calls w |}.

Definition view_step (v : View) (e : ViewEvent) : View :=
  match e with
  | VE_container c =>
      if v_mounted v then resize_observed (set_fit (Some c) (grid v) (program v) v) else v
  | VE_layout => if v_mounted v then layout_effect v else v
  | VE_fonts => refit v
  | VE_time ms => pass_time ms v
  | VE_effect_timer =>
      if due (effect_timer v) v
      then refit (set_fit_timers None (observer_timer v) v) else v
  | VE_observer_timer =>
      if due (observer_timer v) v
      then refit (set_fit_timers (effect_timer v) None v) else v
  | VE_output data => output_callback data v
  | VE_emit => emit_output v
  | VE_data data => if v_mounted v then on_data data v else v
  | VE_program up => set_fit (container v) (grid v) (program_up up (program v)) v
  | VE_unmount => if v_mounted v then view_unmount v else v
  end.

(** ** Facts *)

(** The sizes the program was told, in order. *)
Definition resizes (l : list WasmCall) : list Grid :=
  omap (λ c, match c with sshResize r k => Some (r, k) | _ => None end) l.

Definition inputs (l : list WasmCall) : list bytes :=
  omap (λ c, match c with sshSendInput d => Some d | _ => None end) l.

Definition told (v : View) : list Grid := resizes (calls (program v)).

Lemma resizes_app l k : resizes (l ++ k) = resizes l ++ resizes k.
Proof. apply omap_app. Qed.

Lemma fit_program v : program (fit v) = program v.
Proof. unfold fit. by destruct (propose (container v)). Qed.

Lemma fit_container v : container (fit v) = container v.
Proof. unfold fit. by destruct (propose (container v)). Qed.

Lemma fit_grid v :
  grid (fit v) = match propose (container v) with Some g => g | None => grid v end.
Proof. unfold fit. by destruct (propose (container v)). Qed.

(** With the program up, a re-fit tells it the grid. *)
Lemma refit_told v :
  functions (program v) = true →
  grid (refit v) = grid (fit v) ∧ told (refit v) = told v ++ [grid (fit v)].
Proof.
  intros Hf. split; [done|]. unfold told, refit. cbn [set_fit program].
  unfold resize. rewrite fit_program, Hf. cbn [log_call calls]. rewrite resizes_app.
  by destruct (grid (fit v)).
Qed.

(** What a step leaves alone. *)
Lemma step_functions v e :
  functions (program v) = true → e ≠ VE_program false →
  functions (program (view_step v e)) = true.
Proof.
  assert (Hr : ∀ v, functions (program v) = true → functions (program (refit v)) = true).
  { intros v' H. unfold refit. cbn [set_fit program]. unfold resize. by rewrite fit_program, H. }
  intros H He. destruct e as [c| | |ms| | |d| |d|up|]; cbn [view_step].
  - by destruct (v_mounted v).
  - by destruct (v_mounted v).
  - by apply Hr.
  - done.
  - case_if; [by apply Hr | done].
  - case_if; [by apply Hr | done].
  - unfold output_callback. by case_if.
  - unfold emit_output. by destruct (deferred v).
  - destruct (v_mounted v); [|done]. unfold on_data, sendInput. cbn. by rewrite H.
  - by destruct up.
  - destruct (v_mounted v); [|done]. cbn. unfold disconnectPending, detach. by rewrite H.
Qed.

(** The grid and the sizes told do not change, or the grid has just been told. *)
Lemma step_agrees v e :
  functions (program v) = true →
  (grid (view_step v e) = grid v ∧ told (view_step v e) = told v) ∨
  told (view_step v e) = told v ++ [grid (view_step v e)].
Proof.
  assert (Hr : ∀ v, functions (program v) = true → told (refit v) = told v ++ [grid (refit v)]).
  { intros v' H. destruct (refit_told v' H) as [-> ->]. done. }
  intros H. destruct e as [c| | |ms| | |d| |d|up|]; cbn [view_step];
    try (left; by destruct (v_mounted v)); try (by left).
  - right. by apply Hr.
  - case_if; [right; by apply (Hr (set_fit_timers _ _ v)) | by left].
  - case_if; [right; by apply (Hr (set_fit_timers _ _ v)) | by left].
  - left. unfold output_callback. by case_if.
  - left. unfold emit_output. by destruct (deferred v).
  - left. destruct (v_mounted v); [|done]. unfold told, on_data, sendInput. cbn. rewrite H.
    cbn [log_call calls]. rewrite resizes_app. by rewrite app_nil_r.
  - left. destruct (v_mounted v); [|done]. unfold told. cbn.
    unfold disconnectPending, detach. rewrite H. cbn. rewrite resizes_app. by rewrite app_nil_r.
Qed.

(** The remote terminal has the size of the grid: as long as the program runs, from any
    state on and whatever happens, either neither the grid nor what the program was told has
    changed, or the last size it was told is the present grid. *)
Theorem grid_is_told v es :
  functions (program v) = true → VE_program false ∉ es →
  let v' := run view_step v es in
  (grid v' = grid v ∧ told v' = told v) ∨ last (told v') = Some (grid v').
Proof.
  intros Hf Hes. cbn zeta. induction es as [|e es IH] using rev_ind; [by left|].
  rewrite not_elem_of_app, list_elem_of_singleton in Hes. destruct Hes as [Hes He].
  rewrite run_app. change (run view_step ?x [e]) with (view_step x e).
  assert (Hv : functions (program (run view_step v es)) = true).
  { clear IH He. induction es as [|x es IH] using rev_ind; [done|].
    rewrite not_elem_of_app, list_elem_of_singleton in Hes. destruct Hes as [Hes Hx].
    rewrite run_app. apply step_functions; [by apply IH | congruence]. }
  set (v1 := run view_step v es) in *.
  destruct (step_agrees v1 e Hv) as [[Hg Ht]|Ht].
  - destruct (IH Hes) as [[Hg' Ht']|Hl]; [left; split; congruence | right; congruence].
  - right. by rewrite Ht, last_snoc.
Qed.

(** An event that neither resizes the container nor restarts or runs the timer [t] selects. *)
Definition quiet (e : ViewEvent) : bool :=
  match e with
  | VE_container _ | VE_observer_timer | VE_unmount => false
  | _ => true
  end.

Lemma quiet_step v e :
  quiet e = true →
  container (view_step v e) = container v ∧ observer_timer (view_step v e) = observer_timer v ∧
  v_mounted (view_step v e) = v_mounted v.
Proof.
  intros He. destruct e as [c| | |ms| | |d| |d|up|]; try done; cbn [view_step].
  - destruct (v_mounted v) eqn:E; by rewrite ?E.
  - unfold refit, fit. by destruct (propose _).
  - case_if; [|done]. unfold refit, fit. cbn. by destruct (propose _).
  - unfold output_callback. by case_if.
  - unfold emit_output. by destruct (deferred v).
  - destruct (v_mounted v) eqn:E; by rewrite ?E.
Qed.

Lemma quiet_run v es :
  Forall (λ e, quiet e = true) es →
  container (run view_step v es) = container v ∧
  observer_timer (run view_step v es) = observer_timer v ∧
  v_mounted (run view_step v es) = v_mounted v.
Proof.
  revert v. induction es as [|e es IH]; intros v Hes; [done|].
  apply Forall_cons in Hes as [He Hes]. cbn [run foldl].
  destruct (IH (view_step v e) Hes) as (C & O & M).
  destruct (quiet_step v e He) as (C' & O' & M').
  unfold run in C, O, M. split_and!; congruence.
Qed.

(** A change of the container reaches the remote terminal: whatever happened before, once
    the container has kept its new size for the delay, the observer's timer fits the grid to
    exactly that size and tells the program, once. *)
Theorem container_change_settles v c es g :
  v_mounted v = true → propose (Some c) = Some g →
  Forall (λ e, quiet e = true) es →
  let v1 := run view_step (view_step v (VE_container c)) es in
  functions (program v1) = true → v_now v + FIT_DELAY <= v_now v1 →
  let v2 := view_step v1 VE_observer_timer in
  grid v2 = g ∧ told v2 = told v1 ++ [g] ∧ observer_timer v2 = None ∧
  view_step v2 VE_observer_timer = v2.
Proof.
  intros Hm Hp Hes v1 Hf Hd v2.
  destruct (quiet_run (view_step v (VE_container c)) es Hes) as (C & O & M). fold v1 in C, O, M.
  cbn [view_step] in C, O, M. rewrite Hm in C, O, M. cbn in C, O, M.
  assert (E : v2 = refit (set_fit_timers (effect_timer v1) None v1)).
  { unfold v2. cbn [view_step]. unfold due. rewrite O.
    by apply Z.leb_le in Hd as ->. }
  assert (Eg : grid v2 = g).
  { rewrite E. unfold refit. cbn [set_fit grid]. rewrite fit_grid. cbn [set_fit_timers container].
    by rewrite C, Hp. }
  assert (Et : observer_timer v2 = None).
  { rewrite E. unfold refit, fit. by case_match. }
  split_and!; [exact Eg | | exact Et | ].
  - rewrite <- Eg, E.
    destruct (refit_told (set_fit_timers (effect_timer v1) None v1) Hf) as [-> ->]. done.
  - cbn [view_step]. unfold due. by rewrite Et.
Qed.

(** A burst of changes asks for nothing until its last timer: each one only replaces the
    deadline of the one before. *)
Theorem burst_is_quiet v cs :
  v_mounted v = true → cs ≠ [] →
  let v' := run view_step v (VE_container <$> cs) in
  grid v' = grid v ∧ told v' = told v ∧ container v' = last cs ∧
  observer_timer v' = Some (v_now v + FIT_DELAY).
Proof.
  intros Hm Hcs.
  assert (H : ∀ cs, let v' := run view_step v (VE_container <$> cs) in
    v_mounted v' = true ∧ v_now v' = v_now v ∧ grid v' = grid v ∧ told v' = told v ∧
    (cs ≠ [] → container v' = last cs ∧ observer_timer v' = Some (v_now v + FIT_DELAY))).
  { clear cs Hcs. intros cs. induction cs as [|c cs IH] using rev_ind; [done|]. cbn zeta in *.
    rewrite fmap_app, run_app. set (w := run view_step v (VE_container <$> cs)) in *.
    cbn [fmap list_fmap]. change (run view_step w [VE_container c]) with (view_step w (VE_container c)).
    destruct IH as (M & N & G & T & _). cbn [view_step]. rewrite M.
    split_and!; try done. intros _. cbn. rewrite last_snoc, N. done. }
  destruct (H cs) as (_ & _ & G & T & C). cbn zeta. destruct (C Hcs). done.
Qed.

(** Until the program runs nothing is told, and once it runs and the page has left its
    loading state the next fit of the effect tells the whole size: what was measured too early
    is not lost. *)
Theorem early_fits_made_up v es g :
  v_mounted v = true → propose (container v) = Some g →
  let started := view_step (view_step v (VE_program true)) VE_layout in
  Forall (λ e, quiet e = true ∧ e ≠ VE_layout ∧ e ≠ VE_effect_timer ∧ e ≠ VE_program false) es →
  let v1 := run view_step started es in
  v_now v + FIT_DELAY <= v_now v1 →
  let v2 := view_step v1 VE_effect_timer in
  grid v2 = g ∧ last (told v2) = Some g.
Proof.
  intros Hm Hp started Hes v1 Hd v2.
  assert (Hstart : functions (program started) = true ∧ container started = container v ∧
            effect_timer started = Some (v_now v + FIT_DELAY) ∧ v_mounted started = true).
  { unfold started. cbn [view_step]. cbn [set_fit v_mounted]. rewrite Hm. cbn. by rewrite Hm. }
  destruct Hstart as (F & C & T & M).
  assert (Hrun : functions (program v1) = true ∧ container v1 = container v ∧
            effect_timer v1 = Some (v_now v + FIT_DELAY)).
  { unfold v1. clear v2 Hd v1 Hp Hm. revert F C T Hes. generalize started. clear.
    induction es as [|e es IH]; intros w F C T Hes; [done|].
    apply Forall_cons in Hes as [(Hq & Hl & He & Hx) Hes]. cbn [run foldl].
    apply IH; [by apply step_functions | | | exact Hes].
    - by rewrite (proj1 (quiet_step w e Hq)).
    - rewrite <- T. destruct e as [c| | |ms| | |d| |d|up|]; try done; cbn [view_step].
      + unfold refit, fit. by case_match.
      + unfold output_callback. by case_if.
      + unfold emit_output. by destruct (deferred w).
      + by destruct (v_mounted w). }
  destruct Hrun as (F1 & C1 & T1).
  assert (E : v2 = refit (set_fit_timers None (observer_timer v1) v1)).
  { unfold v2. cbn [view_step]. unfold due. rewrite T1. by apply Z.leb_le in Hd as ->. }
  assert (Eg : grid v2 = g).
  { rewrite E. unfold refit. cbn [set_fit grid]. rewrite fit_grid. cbn [set_fit_timers container].
    by rewrite C1, Hp. }
  split; [exact Eg|]. rewrite <- Eg, E.
  destruct (refit_told (set_fit_timers None (observer_timer v1) v1) F1) as [-> ->].
  by rewrite last_snoc.
Qed.

(** *** Output and input *)

Definition outputs (es : list ViewEvent) : list jsstring :=
  omap (λ e, match e with VE_output d => Some d | _ => None end) es.

Lemma step_output v e :
  v_mounted v = true → registered (program v) = Some (v_instance v) → e ≠ VE_unmount →
  let v' := view_step v e in
  v_mounted v' = true ∧ v_instance v' = v_instance v ∧ registered (program v') = registered (program v) ∧
  written v' ++ deferred v' = (written v ++ deferred v) ++ outputs [e].
Proof.
  assert (Hr : ∀ v, v_mounted (refit v) = v_mounted v ∧ v_instance (refit v) = v_instance v ∧
            registered (program (refit v)) = registered (program v) ∧
            written (refit v) = written v ∧ deferred (refit v) = deferred v).
  { intros v'. unfold refit, fit, resize. case_match; cbn; by case_if. }
  intros Hm Hi He v'. unfold v'.
  destruct e as [c| | |ms| | |d| |d|up|]; try done; cbn [view_step outputs omap list_omap];
    rewrite ?Hm, ?app_nil_r.
  - done.
  - done.
  - destruct (Hr v) as (-> & -> & -> & -> & ->). done.
  - done.
  - case_if; [|done].
    destruct (Hr (set_fit_timers None (observer_timer v) v)) as (-> & -> & -> & -> & ->). done.
  - case_if; [|done].
    destruct (Hr (set_fit_timers (effect_timer v) None v)) as (-> & -> & -> & -> & ->). done.
  - unfold output_callback. rewrite bool_decide_eq_true_2 by done. cbn. by rewrite app_assoc.
  - unfold emit_output. destruct (deferred v) as [|d rest] eqn:E; [by rewrite E|].
    cbn. rewrite Hm. by rewrite <- app_assoc.
  - unfold on_data, sendInput. cbn. by case_if.
  - done.
Qed.

(** What the remote side prints appears in order and complete: while the terminal is on
    the page, what xterm was given followed by what is scheduled is exactly the output the
    program delivered; when the scheduled calls have run, xterm was given all of it. *)
Theorem output_in_order v es :
  v_mounted v = true → registered (program v) = Some (v_instance v) → VE_unmount ∉ es →
  let v' := run view_step v es in
  written v' ++ deferred v' = (written v ++ deferred v) ++ outputs es ∧
  let flushed := run view_step v' (replicate (length (deferred v')) VE_emit) in
  deferred flushed = [] ∧ written flushed = (written v ++ deferred v) ++ outputs es.
Proof.
  intros Hm Hi Hes v'.
  assert (H : v_mounted v' = true ∧ registered (program v') = Some (v_instance v') ∧
            written v' ++ deferred v' = (written v ++ deferred v) ++ outputs es).
  { unfold v'. clear v'. induction es as [|e es IH] using rev_ind.
    { split_and!; try done. by rewrite app_nil_r. }
    rewrite not_elem_of_app, list_elem_of_singleton in Hes. destruct Hes as [Hes He].
    destruct (IH Hes) as (M & R & W). rewrite run_app.
    change (run view_step ?x [e]) with (view_step x e).
    destruct (step_output _ e M R) as (M' & I' & R' & W'); [congruence|].
    split_and!; [exact M' | congruence |]. rewrite W', W.
    assert (Ho : outputs (es ++ [e]) = outputs es ++ outputs [e]) by apply omap_app.
    by rewrite Ho, <- app_assoc. }
  destruct H as (M & _ & W). split; [exact W|]. cbn zeta. rewrite <- W. clear W Hm Hi Hes.
  generalize dependent v'. clear. intros v' M. remember (deferred v') as d eqn:E.
  revert v' M E. induction d as [|x d IH]; intros v' M E; cbn [length replicate].
  { cbn. by rewrite <- E, app_nil_r. }
  change (run view_step v' (VE_emit :: ?l)) with (run view_step (view_step v' VE_emit) l).
  assert (S : view_step v' VE_emit = set_output d (written v' ++ [x]) v').
  { cbn [view_step]. unfold emit_output. by rewrite <- E, M. }
  rewrite S. destruct (IH (set_output d (written v' ++ [x]) v')) as [D W]; [exact M | done |].
  split; [exact D|]. rewrite W. cbn. by rewrite <- app_assoc.
Qed.

(** After the terminal left the page the fonts' promise still re-fits: the program, which
    the next terminal shares, is told the old grid. *)
Theorem late_fonts_resize v :
  functions (program v) = true → v_mounted v = true → propose None = None →
  let gone := view_step v VE_unmount in
  told (view_step gone VE_fonts) = told v ++ [grid v].
Proof.
  intros Hf Hm Hp gone. unfold gone. cbn [view_step]. rewrite Hm.
  assert (Hf' : functions (program (view_unmount v)) = true).
  { cbn. unfold disconnectPending, detach. by rewrite Hf. }
  destruct (refit_told (view_unmount v) Hf') as [_ ->].
  rewrite fit_grid. cbn [view_unmount container]. rewrite Hp. f_equal.
  unfold told. cbn. unfold disconnectPending, detach. rewrite Hf. cbn. rewrite resizes_app.
  by rewrite app_nil_r.
Qed.
End view.

(** ** Witnesses *)

(** Cells of ten by twenty pixels. *)
Definition cells (c : option Size) : option Grid :=
  match c with Some c => Some (height c / 20, width c / 10) | None => None end.

Definition demo_window : Window :=
  {| goInstance := true; functions := true; registered := Some 3%nat; calls := [] |}.
Definition demo_view : View := initial_view cells 3 {| width := 800; height := 400 |} demo_window 0.

Lemma grid_is_told_witness :
  let v' := run (view_step cells) demo_view
              [VE_container {| width := 600; height := 400 |}; VE_time 60; VE_observer_timer] in
  last (told v') = Some (grid v').
Proof.
  destruct (grid_is_told cells demo_view
    [VE_container {| width := 600; height := 400 |}; VE_time 60; VE_observer_timer])
    as [[Hg _]|Hl].
  - reflexivity.
  - intros H. rewrite !elem_of_cons, elem_of_nil in H. naive_solver.
  - discriminate Hg.
  - exact Hl.
Defined.

Lemma container_change_settles_witness :
  let v1 := run (view_step cells) (view_step cells demo_view (VE_container {| width := 600; height := 400 |}))
              [VE_data [97]; VE_time 50] in
  grid (view_step cells v1 VE_observer_timer) = (20, 60).
Proof.
  apply (container_change_settles cells demo_view {| width := 600; height := 400 |}
           [VE_data [97]; VE_time 50] (20, 60)).
  - reflexivity.
  - reflexivity.
  - repeat constructor.
  - reflexivity.
  - vm_compute. discriminate.
Defined.

Lemma output_in_order_witness :
  written (run (view_step cells) demo_view
             [VE_output [97]; VE_output [98]; VE_emit; VE_emit]) = [[97]; [98]].
Proof.
  pose proof (output_in_order cells demo_view [VE_output [97]; VE_output [98]; VE_emit; VE_emit])
    as H.
  cbn zeta in H. destruct H as [E _].
  - reflexivity.
  - reflexivity.
  - intros H. rewrite !elem_of_cons, elem_of_nil in H. naive_solver.
  - etransitivity; [|exact E]. symmetry. apply app_nil_r.
Defined.
