(* ===== verification/Enrollment.v ===== *)
(** * Enrolling a passkey from another device ([pages/AddPasskeyPage.tsx],
      [pages/RegisterPasskeyPage.tsx])

    Machine A holds the master key, Machine B registers a passkey.  The server relays their
    messages.  Each page is a state with its handlers; what a handler awaits (the key pair, the
    random values, the answers of the server and of the authenticator) is an argument, and a
    handler runs to its end in one step, except that B's derivation of the session key and its
    request for the options are steps of their own, since they decide which handler is
    installed. *)

From S2P Require Import Prelude Js Models Encoding Crypto Api.
#[local] Open Scope Z_scope.
#[local] Open Scope js_scope.

Inductive Status :=
| St_idle | St_authenticating | St_connecting | St_handshaking | St_transferring
| St_waiting | St_ready | St_registering | St_success | St_error.

#[global] Instance Status_eq_dec : EqDecision Status.
Proof. solve_decision. Defined.

(** ** The code *)

(** [input.replace(/-/g, "").toUpperCase()], with a dash after four characters. *)
Definition formatCode {L : Locale} (input : jsstring) : jsstring :=
  let cleaned := toUpperCase (filter (λ c, c ≠ 45) input) in
  if (4 <? length cleaned)%nat then take 4 cleaned ++ js "-" ++ drop 4 cleaned else cleaned.

Definition cleanCode (code : jsstring) : jsstring := filter (λ c, c ≠ 45) code.

Definition code_char (c : Z) : bool :=
  ((65 <=? c) && (c <=? 90)) || ((48 <=? c) && (c <=? 57)).

(** [/^[A-Z0-9]{8}$/.test(cleanCode)]. *)
Definition valid_code (code : jsstring) : bool :=
  (length (cleanCode code) =? 8)%nat && forallb code_char (cleanCode code).

(** [`${mins}:${secs.toString().padStart(2, "0")}`]. *)
Definition formatTime (seconds : Z) : jsstring :=
  of_int (seconds / 60) ++ js ":" ++ pad_start 2 48 (of_int (seconds mod 60)).

(** ** Messages *)

(** A property that should be a string. *)
Definition string_field (k : jsstring) (j : json) : result jsstring :=
  match json_string (json_get k j) with
  | Some s => Ok s
  | None => Throw (JsError (js "InvalidCharacterError") [])
  end.

Definition type_of (j : json) : result (option jsstring) :=
  match j with
  | JNull => Throw (type_error "Cannot read properties of null (reading 'type')")
  | _ => Ok (json_string (json_get (js "type") j))
  end.

Definition error_message (j : json) : jsstring :=
  default (js "The other device reported an error") (truthy (json_string (json_get (js "message") j))).

Definition M_error (message : jsstring) : json :=
  JObj [(js "type", JStr (js "error")); (js "message", JStr message)].
Definition M_handshake (type message : jsstring) : json :=
  JObj [(js "type", JStr type); (js "message", JStr message)].
Definition M_payload (nonce ciphertext : jsstring) : json :=
  JObj [(js "type", JStr (js "encrypted_payload")); (js "nonce", JStr nonce);
        (js "ciphertext", JStr ciphertext)].

(** ** Machine A *)

Record DeviceA := {
  a_status : Status;
  a_error : jsstring;
  a_sessionKey : option bytes;
  a_completed : bool;
  (** The socket is open; [a_sent] is what was sent on it. *)
  a_open : bool;
  a_sent : list json;
}.

Definition a_update (s : Status) (e : jsstring) (a : DeviceA) : DeviceA :=
  {| a_status := s; a_error := e; a_sessionKey := a_sessionKey a; a_completed := a_completed a;
     a_open := a_open a; a_sent := a_sent a |}.

Definition a_refs (k : option bytes) (c : bool) (a : DeviceA) : DeviceA :=
  {| a_status := a_status a; a_error := a_error a; a_sessionKey := k; a_completed := c;
     a_open := a_open a; a_sent := a_sent a |}.

Definition a_socket (o : bool) (s : list json) (a : DeviceA) : DeviceA :=
  {| a_status := a_status a; a_error := a_error a; a_sessionKey := a_sessionKey a;
     a_completed := a_completed a; a_open := o; a_sent := s |}.

(** [ws.send] on a socket that is not open sends nothing. *)
Definition a_send (m : json) (a : DeviceA) : DeviceA :=
  if a_open a then a_socket true (a_sent a ++ [m]) a else a.
Definition a_close (a : DeviceA) : DeviceA := a_socket false (a_sent a) a.
Definition a_sendPeerError (message : jsstring) (a : DeviceA) : DeviceA := a_send (M_error message) a.

(** The start of [handleSubmit]: the refusals, or the code and the token to go on with. *)
Definition handleSubmit_begin (code : jsstring) (supported : bool) (token : option jsstring)
    (a : DeviceA) : option (jsstring * jsstring) * DeviceA :=
  let a := a_refs (a_sessionKey a) false (a_update (a_status a) [] a) in
  if negb (valid_code code) then
    (None, a_update (a_status a) (js "Please enter a valid 8-character code (letters and numbers only)") a)
  else if negb supported then (None, a_update (a_status a) (js "WebAuthn is not supported") a)
  else match truthy token with
       | None => (None, a_update St_error (js "You must be logged in to add a passkey") a)
       | Some t => (Some (cleanCode code, t), a_update St_authenticating (a_error a) a)
       end.

Section pages.
Context {W : WebCrypto} {L : Locale} {J : Json}.

(** What the handler's closure holds and what it awaits: the code, the key pair it generates,
    the PRF key of the passkey, the blobs of the passkey, the random nonce. *)
Record EnvA := {
  ea_code : jsstring;
  ea_keyPair : PrivateKey;
  ea_prfKey : option bytes;
  ea_rawId : bytes;
  ea_getMasterKey : jsstring → result (list jsstring);
  ea_rnd : bytes;
}.

(** The inner [try]: the payload to send. *)
Definition transfer (env : EnvA) (key : bytes) : result json :=
  match ea_prfKey env with
  | None => Throw (plain_error (js "No PRF key available for decrypting master key"))
  | Some prfKey =>
      let! credentialId := encodeBase64URL (ea_rawId env) in
      let! blobs := ea_getMasterKey env credentialId in
      match unlockMasterKey prfKey blobs with
      | None => Throw (plain_error (js "This device can't unlock the master key with this passkey."))
      | Some masterKey =>
          let! enc := encrypt (ea_rnd env) key masterKey in
          let! n := encodeBase64 (nonce enc) in
          let! c := encodeBase64 (ciphertext enc) in
          Ok (M_payload n c)
      end
  end.

(** The handling of [spake2_b]. *)
Definition a_handshake (env : EnvA) (msg : json) (a : DeviceA) : result unit * DeviceA :=
  let begun :=
    let! m := string_field (js "message") msg in
    let! otherMsg := decodeMessage m in
    let '(state, spake2Msg) := spake2Init (ea_keyPair env) (ea_code env) true in
    let! sharedSecret := spake2Finish state otherMsg in
    let! key := deriveKey sharedSecret (js "encryption-key") 32 in
    Ok (key, spake2Msg) in
  match begun with
  | Throw e => (Throw e, a)
  | Ok (key, spake2Msg) =>
      let a := a_refs (Some key) (a_completed a) a in
      match encodeMessage spake2Msg with
      | Throw e => (Throw e, a)
      | Ok text =>
          let a := a_send (M_handshake (js "spake2_a") text) a in
          let a := a_update St_transferring (a_error a) a in
          match transfer env key with
          | Ok payload => (Ok tt, a_send payload a)
          | Throw e =>
              let a := a_update St_error (err_message e) a in
              (Ok tt, a_close (a_sendPeerError (err_message e) a))
          end
      end
  end.

(** [new TextDecoder().decode(bs) === "received"]; the decoder drops a byte order mark. *)
Definition decodes_received (bs : bytes) : bool :=
  let bs := if decide (take 3 bs = [239; 187; 191]) then drop 3 bs else bs in
  bool_decide (bs = text_encode (js "received")).

Definition open_payload (sessionKey : option bytes) (msg : json) : result bytes :=
  match sessionKey with
  | None => Throw (plain_error (js "Session key not available"))
  | Some key =>
      let! n := string_field (js "nonce") msg in
      let! nonce := decodeBase64 n in
      let! c := string_field (js "ciphertext") msg in
      let! ciphertext := decodeBase64 c in
      decrypt key nonce ciphertext
  end.

Definition a_onmessage (env : EnvA) (data : jsstring) (a : DeviceA) : DeviceA :=
  let '(r, a) :=
    match let! msg := json_parse data in let! t := type_of msg in Ok (msg, t) with
    | Throw e => (Throw e, a)
    | Ok (msg, t) =>
        if decide (t = Some (js "error")) then
          (Ok tt, a_close (a_update St_error (error_message msg) a))
        else if decide (t = Some (js "spake2_b")) then a_handshake env msg a
        else if decide (t = Some (js "encrypted_payload")) then
          match open_payload (a_sessionKey a) msg with
          | Throw e => (Throw e, a)
          | Ok decrypted =>
              if decodes_received decrypted then
                (Ok tt, a_close (a_update St_success (a_error a) (a_refs (a_sessionKey a) true a)))
              else (Ok tt, a)
          end
        else (Ok tt, a)
    end in
  match r with
  | Ok _ => a
  | Throw _ => a_update St_error (js "Connection error") a
  end.

Definition a_onopen (a : DeviceA) : DeviceA := a_update St_handshaking (a_error a) (a_socket true (a_sent a) a).
Definition a_onerror (a : DeviceA) : DeviceA := a_update St_error (js "Connection failed") a.
Definition a_onclose (a : DeviceA) : DeviceA :=
  let a := a_close a in
  if negb (a_completed a) && negb (bool_decide (a_status a = St_error))
  then a_update St_error (js "Connection closed unexpectedly") a else a.

Definition a_handleCancel (a : DeviceA) : DeviceA :=
  a_refs None false (a_update St_idle (a_error a) (a_close a)).

(** ** Machine B *)

Record DeviceB := {
  b_code : jsstring;
  b_status : Status;
  b_error : jsstring;
  b_expiresAt : option Z;
  b_timeLeft : Z;
  b_sessionKey : option bytes;
  b_masterKey : option bytes;
  b_options : option json;
  b_cancelling : bool;
  (** The handler of the first phase is installed, or that of the second. *)
  b_second : bool;
  (** The derivation of the session key under way: the other side's message. *)
  b_deriving : option bytes;
  b_open : bool;
  b_sent : list json;
}.

Definition initial_b : DeviceB :=
  {| b_code := []; b_status := St_idle; b_error := []; b_expiresAt := None; b_timeLeft := 300;
     b_sessionKey := None; b_masterKey := None; b_options := None; b_cancelling := false;
     b_second := false; b_deriving := None; b_open := false; b_sent := [] |}.

Definition b_update (s : Status) (e : jsstring) (b : DeviceB) : DeviceB :=
  {| b_code := b_code b; b_status := s; b_error := e; b_expiresAt := b_expiresAt b;
     b_timeLeft := b_timeLeft b; b_sessionKey := b_sessionKey b; b_masterKey := b_masterKey b;
     b_options := b_options b; b_cancelling := b_cancelling b; b_second := b_second b;
     b_deriving := b_deriving b; b_open := b_open b; b_sent := b_sent b |}.

Definition b_clock (c : jsstring) (e : option Z) (l : Z) (x : bool) (b : DeviceB) : DeviceB :=
  {| b_code := c; b_status := b_status b; b_error := b_error b; b_expiresAt := e;
     b_timeLeft := l; b_sessionKey := b_sessionKey b; b_masterKey := b_masterKey b;
     b_options := b_options b; b_cancelling := x; b_second := b_second b;
     b_deriving := b_deriving b; b_open := b_open b; b_sent := b_sent b |}.

Definition b_keys (k m : option bytes) (o : option json) (b : DeviceB) : DeviceB :=
  {| b_code := b_code b; b_status := b_status b; b_error := b_error b;
     b_expiresAt := b_expiresAt b; b_timeLeft := b_timeLeft b; b_sessionKey := k;
     b_masterKey := m; b_options := o; b_cancelling := b_cancelling b; b_second := b_second b;
     b_deriving := b_deriving b; b_open := b_open b; b_sent := b_sent b |}.

Definition b_phase (second : bool) (d : option bytes) (b : DeviceB) : DeviceB :=
  {| b_code := b_code b; b_status := b_status b; b_error := b_error b;
     b_expiresAt := b_expiresAt b; b_timeLeft := b_timeLeft b; b_sessionKey := b_sessionKey b;
     b_masterKey := b_masterKey b; b_options := b_options b; b_cancelling := b_cancelling b;
     b_second := second; b_deriving := d; b_open := b_open b; b_sent := b_sent b |}.

Definition b_socket (o : bool) (s : list json) (b : DeviceB) : DeviceB :=
  {| b_code := b_code b; b_status := b_status b; b_error := b_error b;
     b_expiresAt := b_expiresAt b; b_timeLeft := b_timeLeft b; b_sessionKey := b_sessionKey b;
     b_masterKey := b_masterKey b; b_options := b_options b; b_cancelling := b_cancelling b;
     b_second := b_second b; b_deriving := b_deriving b; b_open := o; b_sent := s |}.

Definition b_send (m : json) (b : DeviceB) : DeviceB :=
  if b_open b then b_socket true (b_sent b ++ [m]) b else b.
Definition b_close (b : DeviceB) : DeviceB := b_socket false (b_sent b) b.

(** A failure: shown, and told to the peer. *)
Definition b_fail (message : jsstring) (b : DeviceB) : DeviceB :=
  b_send (M_error message) (b_update St_error message b).

(** [handleStart] once the server gave the code, with the socket being opened. *)
Definition handleStart (now : Z) (enrollmentCode : jsstring) (b : DeviceB) : DeviceB :=
  let b := b_clock enrollmentCode (Some (now + 5 * 60 * 1000)) (b_timeLeft b) false b in
  b_phase false None (b_socket false [] (b_update St_waiting (b_error b) b)).

(** What the handlers of the socket close over. *)
Record EnvB := { eb_code : jsstring; eb_keyPair : PrivateKey }.

Definition b_onopen (b : DeviceB) : DeviceB :=
  b_update St_waiting (b_error b) (b_socket true (b_sent b) b).

(** The first handler; [spake2_a] starts the derivation of the session key. *)
Definition b_onmessage_first (env : EnvB) (data : jsstring) (b : DeviceB) : DeviceB :=
  match let! msg := json_parse data in let! t := type_of msg in Ok (msg, t) with
  | Throw e => b_fail (err_message e) b
  | Ok (msg, t) =>
      if decide (t = Some (js "error")) then b_update St_error (error_message msg) b
      else if decide (t = Some (js "peer_connected")) then
        let b := b_update St_handshaking (b_error b) b in
        match encodeMessage (spake2InitB (eb_keyPair env) (eb_code env)).2 with
        | Ok text => b_send (M_handshake (js "spake2_b") text) b
        | Throw e => b_fail (err_message e) b
        end
      else if decide (t = Some (js "spake2_a")) then
        match let! m := string_field (js "message") msg in decodeMessage m with
        | Ok otherMsg => b_phase (b_second b) (Some otherMsg) b
        | Throw e => b_fail (err_message e) b
        end
      else b
  end.

(** The derivation completes and installs the second handler. *)
Definition b_derived (env : EnvB) (b : DeviceB) : DeviceB :=
  match b_deriving b with
  | None => b
  | Some otherMsg =>
      let b := b_phase (b_second b) None b in
      match let! s := spake2Finish (spake2InitB (eb_keyPair env) (eb_code env)).1 otherMsg in
            deriveKey s (js "encryption-key") 32 with
      | Throw e => b_fail (err_message e) b
      | Ok key =>
          let b := b_keys (Some key) (b_masterKey b) (b_options b) b in
          b_phase true None (b_update St_waiting (b_error b) b)
      end
  end.

(** The second handler, up to the request for the options. *)
Definition b_onmessage_second (data : jsstring) (b : DeviceB) : DeviceB :=
  match let! msg := json_parse data in let! t := type_of msg in Ok (msg, t) with
  | Throw e => b_fail (err_message e) b
  | Ok (msg, t) =>
      if decide (t = Some (js "error")) then b_update St_error (error_message msg) b
      else if decide (t = Some (js "encrypted_payload")) then
        match open_payload (b_sessionKey b) msg with
        | Ok decrypted => b_keys (b_sessionKey b) (Some decrypted) (b_options b) b
        | Throw e => b_fail (err_message e) b
        end
      else b
  end.

Definition b_onmessage (env : EnvB) (data : jsstring) (b : DeviceB) : DeviceB :=
  if b_second b then b_onmessage_second data b else b_onmessage_first env data b.

(** The answer of [enrollmentBegin]. *)
Definition b_prefetched (answer : result json) (b : DeviceB) : DeviceB :=
  match answer with
  | Throw e => b_fail (err_message e) b
  | Ok JNull => b_fail (js "Cannot read properties of null (reading 'publicKey')") b
  | Ok beginResp =>
      b_update St_ready (b_error b)
        (b_keys (b_sessionKey b) (b_masterKey b) (json_get (js "publicKey") beginResp) b)
  end.

Definition b_onerror (b : DeviceB) : DeviceB := b_update St_error (js "Connection error") b.

Definition b_onclose (b : DeviceB) : DeviceB :=
  let b := b_close b in
  if negb (b_cancelling b) && negb (bool_decide (b_status b = St_success))
     && negb (bool_decide (b_status b = St_error))
  then b_update St_error (b_error b) b else b.

(** A tick of the countdown at the time [now]. *)
Definition b_tick (now : Z) (b : DeviceB) : DeviceB :=
  match b_expiresAt b with
  | None => b
  | Some expiresAt =>
      let remaining := Z.max 0 ((expiresAt - now) / 1000) in
      let b := b_clock (b_code b) (b_expiresAt b) remaining (b_cancelling b) b in
      if remaining =? 0 then b_close (b_update St_error (js "Code expired") b) else b
  end.

Definition b_handleCancel (b : DeviceB) : DeviceB :=
  let b := b_clock [] None 300 true b in
  let b := b_keys None None None (b_update St_idle [] b) in
  b_close b.

(** *** Registering *)

Record Created := { c_rawId : bytes; c_prf_enabled : bool; c_prf : option bytes }.

(** What [completeRegistration] awaits: the assertion of an existing passkey, adding a blob to
    it, the new passkey, its PRF on request, the completion, and the random nonces. *)
Record EnvRegister := {
  er_existing : result (option (bytes * option bytes));
  er_addBlob : jsstring → jsstring → result unit;
  er_create : json → result (option Created);
  er_get : PrfExtension → result (option (option bytes));
  er_complete : jsstring → jsstring → result unit;
  er_rnd : bytes;
  er_confirm_rnd : bytes;
}.

(** The encrypted ["received"]. *)
Definition confirmation (rnd sessionKey : bytes) : result json :=
  let! enc := encrypt rnd sessionKey (text_encode (js "received")) in
  let! n := encodeBase64 (nonce enc) in
  let! c := encodeBase64 (ciphertext enc) in
  Ok (M_payload n c).

(** The inner [try]: [Ok (Some m)] added a blob to an existing passkey, [m] confirms it. *)
Definition existing_passkey (env : EnvRegister) (masterKey sessionKey : bytes)
    : result (option json) :=
  let! assertion := er_existing env in
  match assertion with
  | Some (rawId, Some prfOut) =>
      let! prfKey := deriveMasterKeyFromPrf prfOut in
      let! blob := wrapMasterKey (er_rnd env) prfKey masterKey in
      let! credentialId := encodeBase64URL rawId in
      let! _ := er_addBlob env credentialId blob in
      let! m := confirmation (er_confirm_rnd env) sessionKey in
      Ok (Some m)
  | _ => Ok None
  end.

(** The PRF output of the passkey just created. *)
Definition created_prf (env : EnvRegister) (credential : Created) : result bytes :=
  let! prfOutput :=
    match c_prf credential with
    | Some p => Ok (Some p)
    | None =>
        if c_prf_enabled credential then
          let! ext := buildPrfGetExtension [c_rawId credential] getPrfSalt in
          let! assertion := er_get env ext in
          match assertion with
          | None => Throw (plain_error (js "Failed to get PRF output from authenticator"))
          | Some p => Ok p
          end
        else Ok None
    end in
  match prfOutput with
  | None => Throw (plain_error (js "WebAuthn PRF extension is required for passkey registration. Your authenticator must support the PRF/hmac-secret extension."))
  | Some p => Ok p
  end.

Definition new_passkey (env : EnvRegister) (options : json) (masterKey sessionKey : bytes)
    : result json :=
  let! created := er_create env options in
  match created with
  | None => Throw (plain_error (js "Registration was cancelled"))
  | Some credential =>
      let! prfOutput := created_prf env credential in
      let! prfKey := deriveMasterKeyFromPrf prfOutput in
      let! blob := wrapMasterKey (er_rnd env) prfKey masterKey in
      let! credentialId := encodeBase64URL (c_rawId credential) in
      let! _ := er_complete env credentialId blob in
      confirmation (er_confirm_rnd env) sessionKey
  end.

Definition completeRegistration (env : EnvRegister) (b : DeviceB) : DeviceB :=
  match b_masterKey b, b_sessionKey b, b_options b with
  | Some masterKey, Some sessionKey, Some options =>
      let b := b_update St_registering (b_error b) b in
      match existing_passkey env masterKey sessionKey with
      | Ok (Some m) =>
          let b := b_send m b in
          b_update St_success (b_error b) b
      | _ =>
          match new_passkey env options masterKey sessionKey with
          | Ok m => let b := b_send m b in b_update St_success (b_error b) b
          | Throw e => b_fail (err_message e) b
          end
      end
  | _, _, _ => b_update St_error (js "Enrollment state was lost. Please start over.") b
  end.
End pages.

(** ** Facts *)

(** Delivering messages, each as the text the other side sent. *)
Definition deliver `{Json} {D} (onmessage : jsstring → D → D) (ms : list json) (d : D) : D :=
  fold_left (λ d m, onmessage (JSON_stringify m) d) ms d.

Lemma is_byte_lxor x y : is_byte x → is_byte y → is_byte (Z.lxor x y).
Proof.
  unfold is_byte. intros Hx Hy. assert (0 <= Z.lxor x y) by (rewrite Z.lxor_nonneg; lia).
  split; [done|]. destruct (decide (Z.lxor x y = 0)) as [->|]; [lia|].
  apply (Z.log2_lt_pow2 _ 8); [lia|].
  pose proof (Z.log2_lxor x y ltac:(lia) ltac:(lia)).
  assert (∀ z, 0 <= z < 256 → Z.log2 z < 8).
  { intros z Hz. destruct (decide (z = 0)) as [->|]; [done|]. apply Z.log2_lt_pow2; lia. }
  pose proof (H1 x Hx). pose proof (H1 y Hy). lia.
Qed.

Section theory.
Context {W : WebCrypto} {HW : WebCryptoLaws W} {L : Locale} {HL : LocaleLaws L}
        {J : Json} {HJ : JsonLaws J}.

Lemma xorArrays_bytes a b : Forall is_byte a → Forall is_byte b → Forall is_byte (xorArrays a b).
Proof.
  intros Ha Hb. apply Forall_forall. intros x Hx. unfold xorArrays in Hx.
  apply elem_of_lookup_imap in Hx as (i & y & -> & Hy).
  assert (is_byte y) by (eapply Forall_lookup_1; [exact Ha|exact Hy]).
  destruct (b !! _) as [z|] eqn:E; [|done]. apply is_byte_lxor; [done|].
  eapply Forall_lookup_1; [exact Hb|exact E].
Qed.

Lemma spake2Init_bytes k p partyA : Forall is_byte (spake2Init k p partyA).2.
Proof. apply xorArrays_bytes; [apply export_public_bytes|apply sha256_bytes]. Qed.

Lemma json_parse_stringify (j : json) : json_parse (JSON_stringify j) = Ok j.
Proof. unfold json_parse. by rewrite JSON_parse_stringify. Qed.

(** Both sides derive the session key. *)
Lemma session_key a b p q :
  Forall (λ c, 0 <= c < 128) p → toUpperCase q = toUpperCase p → Forall (λ c, 0 <= c < 128) q →
  ∃ secret key, spake2Finish (spake2Init a p true).1 (spake2InitB b q).2 = Ok secret ∧
    spake2Finish (spake2InitB b q).1 (spake2Init a p true).2 = Ok secret ∧
    deriveKey secret (js "encryption-key") 32 = Ok key ∧ length key = 32%nat.
Proof.
  intros Hp Hpq Hq. destruct (spake2_agreement a b p q Hp Hpq Hq) as (secret & E1 & E2).
  destruct (hkdf_bits_length secret ENROLLMENT_HKDF_SALT (text_encode (js "encryption-key")) 32)
    as (key & Ek & Hl & _); [lia|].
  exists secret, key. split_and!; [done|done|exact Ek|exact Hl].
Qed.

(** An encrypted payload opens to its plaintext. *)
Lemma payload_roundtrip rnd key p :
  length key = 32%nat → length rnd = 12%nat → Forall is_byte rnd → Forall is_byte p →
  ∃ n c, (let! enc := encrypt rnd key p in let! n := encodeBase64 (nonce enc) in
          let! c := encodeBase64 (ciphertext enc) in Ok (M_payload n c)) = Ok (M_payload n c) ∧
         open_payload (Some key) (M_payload n c) = Ok p.
Proof.
  intros Hk Hr Hb Hp. destruct (encrypt_ok rnd key p Hk Hr Hp) as (c & Ee & Hc & Ed).
  destruct (encodeBase64_decodes rnd Hb) as (ns & En & Dn). destruct (encodeBase64_decodes c Hc) as (cs & Ec & Dc).
  exists ns, cs. rewrite Ee. cbn [rbind nonce ciphertext]. rewrite En. cbn [rbind]. rewrite Ec.
  split; [done|]. unfold open_payload.
  assert (string_field (js "nonce") (M_payload ns cs) = Ok ns) as -> by reflexivity.
  assert (string_field (js "ciphertext") (M_payload ns cs) = Ok cs) as -> by reflexivity.
  cbn [rbind]. rewrite Dn. cbn [rbind]. rewrite Dc. exact Ed.
Qed.

Lemma received_bytes : Forall is_byte (text_encode (js "received")).
Proof.
  assert (text_encode (js "received") = [114; 101; 99; 101; 105; 118; 101; 100]) as -> by reflexivity.
  repeat constructor; unfold is_byte; lia.
Qed.

Lemma decodes_received_ok : decodes_received (text_encode (js "received")) = true.
Proof. reflexivity. Qed.

Lemma type_of_message t k v rest : type_of (JObj ((js "type", JStr t) :: (k, v) :: rest)) = Ok (Some t).
Proof. reflexivity. Qed.

(** The first steps of both sides. *)
Lemma b_peer_connected env b m :
  b_second b = false → b_open b = true →
  encodeMessage (spake2InitB (eb_keyPair env) (eb_code env)).2 = Ok m →
  b_onmessage env (JSON_stringify (JObj [(js "type", JStr (js "peer_connected"))])) b
  = b_socket true (b_sent b ++ [M_handshake (js "spake2_b") m]) (b_update St_handshaking (b_error b) b).
Proof.
  intros Hs Ho Hm. unfold b_onmessage, b_onmessage_first. rewrite Hs, json_parse_stringify.
  cbn [rbind].
  assert (type_of (JObj [(js "type", JStr (js "peer_connected"))]) = Ok (Some (js "peer_connected")))
    as -> by reflexivity.
  cbn [rbind]. rewrite decide_False, decide_True, Hm by (discriminate || done).
  unfold b_send. cbn [b_open b_update]. rewrite Ho. done.
Qed.

Lemma b_spake2_a env b m other :
  b_second b = false → decodeBase64 m = Ok other →
  b_onmessage env (JSON_stringify (M_handshake (js "spake2_a") m)) b = b_phase false (Some other) b.
Proof.
  intros Hs Hm. unfold b_onmessage, b_onmessage_first. rewrite Hs, json_parse_stringify.
  cbn [rbind]. unfold M_handshake at 1. rewrite type_of_message. cbn [rbind].
  rewrite decide_False, decide_False, decide_True by (discriminate || done).
  assert (string_field (js "message") (M_handshake (js "spake2_a") m) = Ok m) as -> by reflexivity.
  cbn [rbind]. unfold decodeMessage. by rewrite Hm.
Qed.

Lemma b_payload env b key n c p :
  b_second b = true → b_sessionKey b = Some key → open_payload (Some key) (M_payload n c) = Ok p →
  b_onmessage env (JSON_stringify (M_payload n c)) b = b_keys (Some key) (Some p) (b_options b) b.
Proof.
  intros Hs Hk Hp. unfold b_onmessage, b_onmessage_second. rewrite Hs, json_parse_stringify.
  cbn [rbind]. unfold M_payload at 1. rewrite type_of_message. cbn [rbind].
  rewrite decide_False, decide_True by (discriminate || done). by rewrite Hk, Hp.
Qed.

Lemma a_spake2_b env a m other secret key text payload :
  decodeBase64 m = Ok other →
  spake2Finish (spake2Init (ea_keyPair env) (ea_code env) true).1 other = Ok secret →
  deriveKey secret (js "encryption-key") 32 = Ok key →
  encodeMessage (spake2Init (ea_keyPair env) (ea_code env) true).2 = Ok text →
  transfer env key = Ok payload → a_open a = true →
  a_onmessage env (JSON_stringify (M_handshake (js "spake2_b") m)) a
  = a_socket true (a_sent a ++ [M_handshake (js "spake2_a") text; payload])
      (a_update St_transferring (a_error a) (a_refs (Some key) (a_completed a) a)).
Proof.
  intros Hm Hf Hd Ht Hp Ho. unfold a_onmessage. rewrite json_parse_stringify. cbn [rbind].
  unfold M_handshake at 1. rewrite type_of_message. cbn [rbind].
  rewrite decide_False, decide_True by (discriminate || done). unfold a_handshake.
  assert (string_field (js "message") (M_handshake (js "spake2_b") m) = Ok m) as -> by reflexivity.
  cbn [rbind]. unfold decodeMessage. rewrite Hm. cbn [rbind].
  destruct (spake2Init (ea_keyPair env) (ea_code env) true) as [st msg]. cbn [fst snd] in *.
  rewrite Hf. cbn [rbind]. rewrite Hd. cbn [rbind]. rewrite Ht, Hp. unfold a_send. cbn.
  rewrite Ho. cbn. by rewrite <- app_assoc.
Qed.

Lemma a_confirmation env a key n c :
  a_sessionKey a = Some key →
  open_payload (Some key) (M_payload n c) = Ok (text_encode (js "received")) →
  a_onmessage env (JSON_stringify (M_payload n c)) a
  = a_close (a_update St_success (a_error a) (a_refs (Some key) true a)).
Proof.
  intros Hk Hp. unfold a_onmessage. rewrite json_parse_stringify. cbn [rbind].
  unfold M_payload at 1. rewrite type_of_message. cbn [rbind].
  rewrite decide_False, decide_False, decide_True by (discriminate || done).
  rewrite Hk, Hp, decodes_received_ok. done.
Qed.

(** The registration of Machine B succeeds with a new passkey whose PRF key is [prfKeyB]: there
    is no passkey yet, and the server completes it for a blob that opens to [masterKey]. *)
Record registers (env : EnvRegister) (prfKeyB masterKey : bytes) : Prop := {
  rg_existing : er_existing env = Ok None;
  rg_create : ∃ created prf, (∀ options, er_create env options = Ok (Some created)) ∧
    c_prf created = Some prf ∧ deriveMasterKeyFromPrf prf = Ok prfKeyB ∧
    Forall is_byte (c_rawId created);
  rg_complete i blob : openBlob prfKeyB blob = Ok masterKey → er_complete env i blob = Ok tt;
  rg_key : length prfKeyB = 32%nat;
  rg_rnd : length (er_rnd env) = 12%nat ∧ Forall is_byte (er_rnd env);
  rg_confirm : length (er_confirm_rnd env) = 12%nat ∧ Forall is_byte (er_confirm_rnd env);
}.

Lemma new_passkey_ok env prfKeyB masterKey options key :
  registers env prfKeyB masterKey → Forall is_byte masterKey → length key = 32%nat →
  ∃ n c, new_passkey env options masterKey key = Ok (M_payload n c) ∧
    open_payload (Some key) (M_payload n c) = Ok (text_encode (js "received")).
Proof.
  intros [_ (created & prf & Ec & Ep & Ed & Eb) Hok Hk [Hr Hrb] [Hcr Hcb]] Hm Hlen.
  destruct (openBlob_wrap (er_rnd env) prfKeyB masterKey Hk Hr Hrb Hm) as (blob & Ew & Eo).
  destruct (payload_roundtrip (er_confirm_rnd env) key (text_encode (js "received")) Hlen Hcr Hcb
              received_bytes) as (n & c & Em & Eopen).
  exists n, c. split; [|exact Eopen]. unfold new_passkey. rewrite Ec. cbn [rbind].
  unfold created_prf. rewrite Ep. cbn [rbind]. rewrite Ed. cbn [rbind]. rewrite Ew. cbn [rbind].
  rewrite encodeBase64URL_ok by done. cbn [rbind]. rewrite Hok by done. exact Em.
Qed.

(** What a registration that succeeds has asked of the server: to complete the credential that
    was created, with the master key wrapped under the key of its PRF output. *)
Lemma new_passkey_uploads env prfKeyB options masterKey key m :
  registers env prfKeyB masterKey → new_passkey env options masterKey key = Ok m →
  ∃ created i blob, er_create env options = Ok (Some created) ∧
    encodeBase64URL (c_rawId created) = Ok i ∧
    wrapMasterKey (er_rnd env) prfKeyB masterKey = Ok blob ∧ er_complete env i blob = Ok tt.
Proof.
  intros [_ (created & prf & Ec & Ep & Ed & _) _ _ _ _]. unfold new_passkey. rewrite Ec. cbn [rbind].
  unfold created_prf. rewrite Ep. cbn [rbind]. rewrite Ed. cbn [rbind].
  destruct (wrapMasterKey (er_rnd env) prfKeyB masterKey) as [blob|e]; [|done]. cbn [rbind].
  destruct (encodeBase64URL (c_rawId created)) as [i|e] eqn:Ei; [|done]. cbn [rbind].
  destruct (er_complete env i blob) as [[]|e] eqn:Eo; [|done]. intros _. by exists created, i, blob.
Qed.

(** Machine A's payload opens under the session key. *)
Lemma transfer_ok envA key prfKey masterKey blobs :
  ea_prfKey envA = Some prfKey → (∀ i, ea_getMasterKey envA i = Ok blobs) →
  unlockMasterKey prfKey blobs = Some masterKey → Forall is_byte masterKey →
  Forall is_byte (ea_rawId envA) → length (ea_rnd envA) = 12%nat → Forall is_byte (ea_rnd envA) →
  length key = 32%nat →
  ∃ n c, transfer envA key = Ok (M_payload n c) ∧ open_payload (Some key) (M_payload n c) = Ok masterKey.
Proof.
  intros Hk Hb Hu Hm Hr Hn Hnb Hlen.
  destruct (payload_roundtrip (ea_rnd envA) key masterKey Hlen Hn Hnb Hm) as (n & c & Ep & Eo).
  exists n, c. split; [|done]. unfold transfer. rewrite Hk, encodeBase64URL_ok by done.
  cbn [rbind]. rewrite Hb. cbn [rbind]. by rewrite Hu.
Qed.

(** The run of both pages, to its end: what the registration sends the server and what confirms it. *)
Lemma enrollment_run envA envB envR a b prfKey prfKeyB masterKey blobs options :
  ea_prfKey envA = Some prfKey → (∀ i, ea_getMasterKey envA i = Ok blobs) →
  unlockMasterKey prfKey blobs = Some masterKey → Forall is_byte masterKey →
  Forall is_byte (ea_rawId envA) → length (ea_rnd envA) = 12%nat → Forall is_byte (ea_rnd envA) →
  Forall (λ c, 0 <= c < 128) (ea_code envA) → Forall (λ c, 0 <= c < 128) (eb_code envB) →
  toUpperCase (eb_code envB) = toUpperCase (ea_code envA) →
  registers envR prfKeyB masterKey →
  a_open a = true → a_sent a = [] → b_open b = true → b_sent b = [] → b_second b = false →
  let b1 := deliver (b_onmessage envB) [JObj [(js "type", JStr (js "peer_connected"))]] b in
  let a1 := deliver (a_onmessage envA) (b_sent b1) a in
  let b2 := b_derived envB (deliver (b_onmessage envB) (take 1 (a_sent a1)) b1) in
  let b3 := deliver (b_onmessage envB) (drop 1 (a_sent a1)) b2 in
  let b4 := b_prefetched (Ok (JObj [(js "publicKey", options)])) b3 in
  let b5 := completeRegistration envR b4 in
  let a2 := deliver (a_onmessage envA) (drop 1 (b_sent b5)) a1 in
  b_masterKey b3 = Some masterKey ∧ b_status b4 = St_ready ∧ b_status b5 = St_success ∧
  a_status a2 = St_success ∧ a_completed a2 = true ∧
  ∃ key m, new_passkey envR options masterKey key = Ok m ∧ b_sent b5 = b_sent b1 ++ [m].
Proof.
  intros HAk HAb HAu Hm HAr HAn HAnb Hca Hcb Hcode HR HAo HAs HBo HBs HBp.
  intros b1 a1 b2 b3 b4 b5 a2.
  destruct (session_key (ea_keyPair envA) (eb_keyPair envB) _ _ Hca Hcode Hcb)
    as (secret & key & EA & EB & Ek & Hlen).
  destruct (encodeBase64_decodes _ (spake2Init_bytes (eb_keyPair envB) (eb_code envB) false))
    as (mb & Emb & Dmb).
  destruct (encodeBase64_decodes _ (spake2Init_bytes (ea_keyPair envA) (ea_code envA) true))
    as (ma & Ema & Dma).
  destruct (transfer_ok envA key prfKey masterKey blobs HAk HAb HAu Hm HAr HAn HAnb Hlen)
    as (n & c & Htr & Eo).
  destruct (new_passkey_ok envR prfKeyB masterKey options key HR Hm Hlen) as (n' & c' & En & Eo').
  assert (E1 : b1 = b_socket true [M_handshake (js "spake2_b") mb]
                      (b_update St_handshaking (b_error b) b)).
  { subst b1. unfold deliver. cbn [fold_left]. by rewrite (b_peer_connected envB b mb HBp HBo Emb), HBs. }
  assert (E2 : a1 = a_socket true [M_handshake (js "spake2_a") ma; M_payload n c]
                      (a_update St_transferring (a_error a) (a_refs (Some key) (a_completed a) a))).
  { subst a1. rewrite E1. unfold deliver. cbn [fold_left b_sent b_socket].
    by rewrite (a_spake2_b envA a mb _ secret key ma _ Dmb EA Ek Ema Htr HAo), HAs. }
  assert (E3 : b2 = b_phase true None (b_update St_waiting (b_error b)
                      (b_keys (Some key) (b_masterKey b) (b_options b) (b_phase false None b1)))).
  { subst b2. rewrite E2. unfold deliver. cbn [fold_left a_sent a_socket take].
    assert (H1 : b_second b1 = false) by by rewrite E1.
    rewrite (b_spake2_a envB b1 ma _ H1 Dma). unfold b_derived. cbn [b_deriving b_phase].
    rewrite EB. cbn [rbind]. rewrite Ek. by rewrite E1. }
  assert (E4 : b3 = b_keys (Some key) (Some masterKey) (b_options b2) b2).
  { subst b3. rewrite E2. unfold deliver. cbn [fold_left a_sent a_socket drop].
    by apply b_payload; [rewrite E3..|]. }
  assert (E5 : b4 = b_update St_ready (b_error b3) (b_keys (Some key) (Some masterKey) (Some options) b3)).
  { subst b4. unfold b_prefetched.
    assert (json_get (js "publicKey") (JObj [(js "publicKey", options)]) = Some options)
      as -> by reflexivity. by rewrite E4. }
  assert (E6 : b5 = b_update St_success (b_error b4) (b_socket true (b_sent b1 ++ [M_payload n' c'])
                      (b_update St_registering (b_error b4) b4))).
  { subst b5. unfold completeRegistration. rewrite E5. cbn [b_masterKey b_sessionKey b_options b_update b_keys].
    unfold existing_passkey. rewrite (rg_existing envR prfKeyB masterKey HR). cbn [rbind].
    rewrite En. unfold b_send. by rewrite E4, E3, E1. }
  assert (E7 : a2 = a_close (a_update St_success (a_error a1) (a_refs (Some key) true a1))).
  { subst a2. rewrite E6, E1. unfold deliver. cbn [fold_left b_sent b_socket b_update drop app].
    apply a_confirmation; [by rewrite E2|done]. }
  clearbody b1 a1 b2 b3 b4 b5 a2. subst. split_and!; [done..|]. by exists key, (M_payload n' c').
Qed.


(** A failure on one side reaches the other: when Machine A cannot produce the master key it
    ends in an error, its last message says why, and Machine B shows that reason; when B cannot
    open the payload or fetch the options it ends in an error that A shows likewise. *)
Theorem failures_are_relayed envA envB a b m other secret key text e :
  decodeBase64 m = Ok other →
  spake2Finish (spake2Init (ea_keyPair envA) (ea_code envA) true).1 other = Ok secret →
  deriveKey secret (js "encryption-key") 32 = Ok key →
  encodeMessage (spake2Init (ea_keyPair envA) (ea_code envA) true).2 = Ok text →
  transfer envA key = Throw e → err_message e ≠ [] → a_open a = true →
  let a1 := a_onmessage envA (JSON_stringify (M_handshake (js "spake2_b") m)) a in
  a_status a1 = St_error ∧ a_error a1 = err_message e ∧ a_open a1 = false ∧
  last (a_sent a1) = Some (M_error (err_message e)) ∧
  b_status (b_onmessage envB (JSON_stringify (M_error (err_message e))) b) = St_error ∧
  b_error (b_onmessage envB (JSON_stringify (M_error (err_message e))) b) = err_message e ∧
  (∀ message, message ≠ [] → b_open b = true →
     last (b_sent (b_fail message b)) = Some (M_error message) ∧
     a_status (a_onmessage envA (JSON_stringify (M_error message)) a) = St_error ∧
     a_error (a_onmessage envA (JSON_stringify (M_error message)) a) = message).
Proof.
  intros Hm Hf Hd Ht Hp He Ho.
  assert (Hem : ∀ msg, msg ≠ [] → error_message (M_error msg) = msg) by (intros [|c msg]; done).
  assert (Hty : ∀ msg, type_of (M_error msg) = Ok (Some (js "error"))) by done.
  assert (Hb : b_onmessage envB (JSON_stringify (M_error (err_message e))) b
               = b_update St_error (err_message e) b).
  { unfold b_onmessage, b_onmessage_first, b_onmessage_second. rewrite json_parse_stringify.
    cbn [rbind]. rewrite Hty. cbn [rbind]. rewrite !decide_True, Hem by done. by destruct (b_second b). }
  assert (Ha : ∀ msg, msg ≠ [] → a_onmessage envA (JSON_stringify (M_error msg)) a
               = a_close (a_update St_error msg a)).
  { intros msg Hmsg. unfold a_onmessage. rewrite json_parse_stringify. cbn [rbind].
    rewrite Hty. cbn [rbind]. rewrite decide_True, Hem by done. done. }
  cbn zeta. rewrite Hb. unfold a_onmessage at 1 2 3 4. rewrite json_parse_stringify. cbn [rbind].
  unfold M_handshake at 1 3 5 7. rewrite type_of_message. cbn [rbind].
  rewrite decide_False, decide_True by (discriminate || done). unfold a_handshake.
  assert (string_field (js "message") (M_handshake (js "spake2_b") m) = Ok m) as -> by reflexivity.
  cbn [rbind]. unfold decodeMessage. rewrite Hm. cbn [rbind].
  destruct (spake2Init (ea_keyPair envA) (ea_code envA) true) as [st msg]. cbn [fst snd] in *.
  rewrite Hf. cbn [rbind]. rewrite Hd. cbn [rbind]. rewrite Ht, Hp.
  unfold a_sendPeerError, a_send. cbn. rewrite Ho. cbn. rewrite last_snoc.
  split_and!; try done. intros message Hmsg Hbo. rewrite (Ha message Hmsg). cbn.
  unfold b_fail, b_send. cbn. rewrite Hbo. cbn. by rewrite last_snoc.
Qed.
End theory.

(** Cancelling on Machine A does not take: the handler of the closed socket knows nothing of
    the cancellation, so the close event that follows turns the idle page into an error, while
    Machine B's page stays idle. *)
Theorem cancel_reports_error a :
  a_status (a_handleCancel a) = St_idle ∧
  a_status (a_onclose (a_handleCancel a)) = St_error ∧
  a_error (a_onclose (a_handleCancel a)) = js "Connection closed unexpectedly" ∧
  ∀ b, b_status (b_onclose (b_handleCancel b)) = St_idle.
Proof. by split_and!. Qed.

Section findings.
Context {W : WebCrypto} {L : Locale} {J : Json} {HJ : JsonLaws J}.

(** The master key can be lost on the way: a payload that reaches Machine B before it has
    derived the session key is read by the handler of the first phase, which ignores it; B is
    then left waiting, without an error, and nothing is sent again. *)
Theorem early_payload_is_lost env n c b :
  b_second b = false →
  b_onmessage env (JSON_stringify (M_payload n c)) b = b ∧
  (∀ key, b_masterKey b = None → b_deriving b ≠ None →
     (let! s := spake2Finish (spake2InitB (eb_keyPair env) (eb_code env)).1
                  (default [] (b_deriving b)) in deriveKey s (js "encryption-key") 32) = Ok key →
     let b' := b_derived env (b_onmessage env (JSON_stringify (M_payload n c)) b) in
     b_status b' = St_waiting ∧ b_masterKey b' = None).
Proof.
  intros Hs.
  assert (E : b_onmessage env (JSON_stringify (M_payload n c)) b = b).
  { unfold b_onmessage, b_onmessage_first, json_parse. rewrite Hs, JSON_parse_stringify.
    cbn [rbind]. assert (type_of (M_payload n c) = Ok (Some (js "encrypted_payload"))) as -> by reflexivity.
    cbn [rbind]. by rewrite !decide_False by discriminate. }
  split; [exact E|]. intros key Hm Hd Hk. cbn zeta. rewrite E. unfold b_derived.
  destruct (b_deriving b) as [other|]; [|done]. change (default [] (Some other)) with other in Hk.
  rewrite Hk. done.
Qed.

(** A failed upload mints a second passkey: when the device has a passkey but adding its blob
    fails, the failure is taken for there being no passkey, and a new one is registered. *)
Theorem failed_upload_registers_new env rawId prfOut prfKey blob i e options masterKey key b m :
  er_existing env = Ok (Some (rawId, Some prfOut)) → deriveMasterKeyFromPrf prfOut = Ok prfKey →
  wrapMasterKey (er_rnd env) prfKey masterKey = Ok blob → encodeBase64URL rawId = Ok i →
  er_addBlob env i blob = Throw e →
  b_masterKey b = Some masterKey → b_sessionKey b = Some key → b_options b = Some options →
  new_passkey env options masterKey key = Ok m →
  b_status (completeRegistration env b) = St_success ∧
  b_error (completeRegistration env b) = b_error b.
Proof.
  intros Hx Hk Hw Hi He Hm Hs Ho Hn.
  assert (E : existing_passkey env masterKey key = Throw e).
  { unfold existing_passkey. rewrite Hx. cbn [rbind]. rewrite Hk. cbn [rbind]. rewrite Hw.
    cbn [rbind]. rewrite Hi. cbn [rbind]. by rewrite He. }
  unfold completeRegistration. rewrite Hm, Hs, Ho, E, Hn.
  unfold b_send. cbn. by destruct (b_open b).
Qed.
End findings.

(** *** The code field *)

Section code.
Context {L : Locale} {HL : LocaleLaws L}.

Lemma cleanCode_id s : Forall (λ c, c ≠ 45) s → cleanCode s = s.
Proof. apply filter_all. Qed.

(** The code field: whatever ASCII text is typed, the field shows its characters in upper case
    with a dash after the fourth; the code sent is those characters without any dash, and
    formatting what is shown changes nothing. *)
Theorem formatCode_stable s :
  Forall (λ c, 0 <= c < 128) s →
  cleanCode (formatCode s) = toUpperCase (cleanCode s) ∧
  formatCode (formatCode s) = formatCode s ∧
  (valid_code (formatCode s) = true → length (formatCode s) = 9%nat).
Proof.
  intros Hs. set (u := toUpperCase (cleanCode s)).
  assert (Ha : Forall (λ c, 0 <= c < 128) (cleanCode s)) by (by apply Forall_filter).
  assert (Hu : Forall (λ c, c ≠ 45) u).
  { subst u. rewrite toUpperCase_ascii by done. unfold ascii_upper. apply Forall_fmap.
    assert (Hn : Forall (λ c, c ≠ 45) (cleanCode s)).
    { apply Forall_forall. intros c Hc. by apply list_elem_of_filter in Hc as [? _]. }
    eapply Forall_impl; [exact Hn|]. intros c Hc. unfold compose. cbn.
    destruct ((97 <=? c) && (c <=? 122)) eqn:E; [|done]. zbool. lia. }
  assert (E : cleanCode (formatCode s) = u).
  { unfold formatCode. fold (cleanCode s). fold u. destruct (4 <? length u)%nat; [|by apply cleanCode_id].
    unfold cleanCode. rewrite !filter_app. assert (filter (λ c, c ≠ 45) (js "-") = []) as -> by reflexivity.
    rewrite app_nil_l, <- filter_app, take_drop. by apply cleanCode_id. }
  split_and!.
  - exact E.
  - assert (Hi : toUpperCase u = u) by (by apply toUpperCase_idemp).
    assert (Hf : ∀ x, formatCode x = let v := toUpperCase (cleanCode x) in
       if (4 <? length v)%nat then take 4 v ++ js "-" ++ drop 4 v else v) by done.
    rewrite (Hf (formatCode s)), E, Hi. by rewrite (Hf s).
  - unfold valid_code. rewrite E. intros H. zbool. destruct H as [H _].
    unfold formatCode. fold (cleanCode s). fold u. rewrite H. change (4 <? 8)%nat with true. cbn iota.
    rewrite !length_app, length_take, length_drop, H. done.
Qed.
End code.

(** The countdown: with the code's five minutes at most left, the field shows minutes and two
    digits of seconds, and it reads back as the seconds left. *)
Theorem formatTime_two_digits n :
  0 <= n →
  ∃ m s1 s2, formatTime n = m ++ [58; s1; s2] ∧ 48 <= s1 <= 53 ∧ 48 <= s2 <= 57 ∧
    m = of_int (n / 60) ∧ (s1 - 48) * 10 + (s2 - 48) = n mod 60.
Proof.
  intros Hn. pose proof (Z.mod_pos_bound n 60 ltac:(lia)) as Hm.
  assert (H : ∃ s1 s2, pad_start 2 48 (of_int (n mod 60)) = [s1; s2] ∧ 48 <= s1 <= 53 ∧
     48 <= s2 <= 57 ∧ (s1 - 48) * 10 + (s2 - 48) = n mod 60).
  { assert (Hall : forallb (λ k, match pad_start 2 48 (of_int (Z.of_nat k)) with
        | [s1; s2] => (48 <=? s1) && (s1 <=? 53) && (48 <=? s2) && (s2 <=? 57) &&
                      ((s1 - 48) * 10 + (s2 - 48) =? Z.of_nat k)
        | _ => false end) (seq 0 60) = true) by (vm_compute; reflexivity).
    rewrite forallb_forall in Hall. specialize (Hall (Z.to_nat (n mod 60))).
    rewrite Z2Nat.id in Hall by lia.
    destruct (pad_start 2 48 (of_int (n mod 60))) as [|s1 [|s2 [|]]];
      try (specialize (Hall ltac:(apply in_seq; lia)); done).
    specialize (Hall ltac:(apply in_seq; lia)). zbool. exists s1, s2. split; [done|]. lia. }
  destruct H as (s1 & s2 & E & H1 & H2 & H3). exists (of_int (n / 60)), s1, s2.
  unfold formatTime. rewrite E. done.
Qed.

(** ** Witnesses *)

#[local] Existing Instance toy_crypto.
#[local] Existing Instance tree_json_text.
#[local] Existing Instance ascii_locale.

Abbreviation demo_key :=
  (match deriveMasterKeyFromPrf (replicate 32 5) with Ok k => k | Throw _ => [] end).
Abbreviation demo_master := (replicate 32 9).
Abbreviation demo_a_blob :=
  (match wrapMasterKey (replicate 12 3) demo_key demo_master with Ok b => b | Throw _ => [] end).

Abbreviation demo_envA :=
  (@Build_EnvA toy_crypto (js "ABCD1234") 7 (Some demo_key) [1; 2] (λ _, Ok [demo_a_blob])
     (replicate 12 6)).
Definition demo_envB : @EnvB toy_crypto := {| eb_code := js "abcd1234"; eb_keyPair := 13 |}.
Abbreviation demo_envR :=
  {| er_existing := Ok None; er_addBlob := λ _ _, Ok tt;
     er_create := λ _, Ok (Some {| c_rawId := [4]; c_prf_enabled := true; c_prf := Some (replicate 32 5) |});
     er_get := λ _, Ok None; er_complete := λ _ _, Ok tt; er_rnd := replicate 12 1;
     er_confirm_rnd := replicate 12 2 |}.
Abbreviation demo_deviceA :=
  {| a_status := St_handshaking; a_error := []; a_sessionKey := None; a_completed := false;
     a_open := true; a_sent := [] |}.
Abbreviation demo_deviceB := (b_onopen (handleStart 0 (js "abcd1234") initial_b)).

