(* ===== verification/Accounts.v ===== *)
(** * Signing in, registering, pairing and the account pages ([pages/LoginPage.tsx],
    [pages/RegisterPage.tsx], [pages/PairPage.tsx], [pages/HostsPage.tsx],
    [components/HostForm.tsx], [pages/PasskeyManagementPage.tsx], the route guard of [App.tsx])

    A handler is a computation over the page: the browser, the authentication context, the
    calls of [lib/api.ts] it has made and its React state.  The server is the function [net];
    the authenticator and the random values are the arguments [env]. *)

From S2P Require Import Prelude Js Models ApiTypes Encoding Memory Crypto Api FrostWire Frost FrostWorker FrostClient.
#[local] Open Scope Z_scope.
#[local] Open Scope js_scope.

(** The functions of [lib/api.ts] these pages call, with their arguments. *)
Inductive ApiCall :=
| C_checkUsersExist
| C_loginBegin (email : jsstring)
| C_loginFinish (email : jsstring) (credential : json)
| C_registerBegin (email : jsstring)
| C_registerFinish (email : jsstring) (credential : json) (encryptedMasterKey : jsstring)
| C_updateSSHCAClientShare (encryptedShare : jsstring)
| C_pairExchange (code : jsstring) (hostId : option Z) (newHost : option (jsstring * jsstring))
| C_listHosts
| C_createHost (h : HostInput)
| C_updateHost (id : Z) (h : HostInput)
| C_deleteHost (id : Z)
| C_listPasskeys
| C_addPasskeyBegin
| C_addPasskeyFinish (credential : json)
| C_deletePasskey (id : jsstring).

Record Page := {
  pg_browser : Browser;
  pg_auth : AuthState;
  pg_calls : list ApiCall;
  pg_error : jsstring;
  pg_loading : bool;
  (** The last [navigate(...)] of the router. *)
  pg_route : option jsstring;
}.

Abbreviation PM := (SM Page).

Definition pg_set_browser (b : Browser) (p : Page) : Page :=
  {| pg_browser := b; pg_auth := pg_auth p; pg_calls := pg_calls p; pg_error := pg_error p;
     pg_loading := pg_loading p; pg_route := pg_route p |}.
Definition pg_set_auth (a : AuthState) (p : Page) : Page :=
  {| pg_browser := pg_browser p; pg_auth := a; pg_calls := pg_calls p; pg_error := pg_error p;
     pg_loading := pg_loading p; pg_route := pg_route p |}.
Definition pg_log (c : ApiCall) (p : Page) : Page :=
  {| pg_browser := pg_browser p; pg_auth := pg_auth p; pg_calls := pg_calls p ++ [c];
     pg_error := pg_error p; pg_loading := pg_loading p; pg_route := pg_route p |}.
Definition pg_ui (e : jsstring) (l : bool) (p : Page) : Page :=
  {| pg_browser := pg_browser p; pg_auth := pg_auth p; pg_calls := pg_calls p; pg_error := e;
     pg_loading := l; pg_route := pg_route p |}.
Definition pg_goto (r : jsstring) (p : Page) : Page :=
  {| pg_browser := pg_browser p; pg_auth := pg_auth p; pg_calls := pg_calls p;
     pg_error := pg_error p; pg_loading := pg_loading p; pg_route := Some r |}.

Definition setError (e : jsstring) : PM unit := λ p, (Ok tt, pg_ui e (pg_loading p) p).
Definition setLoading (l : bool) : PM unit := λ p, (Ok tt, pg_ui (pg_error p) l p).
Definition route_to (r : jsstring) : PM unit := λ p, (Ok tt, pg_goto r p).

(** [try { m } catch (err) { setError(err.message) } finally { setLoading(false) }]. *)
Definition guarded (m : PM unit) : PM unit :=
  let* _ := scatch m (λ e, setError (err_message e)) in setLoading false.

Definition in_browser {A} (m : BM A) : PM A := λ p,
  let '(r, b) := m (pg_browser p) in (r, pg_set_browser b p).

(** Property access: [undefined] is [None], a property of [null] throws. *)
Definition prop (k : jsstring) (j : json) : result (option json) :=
  match j with
  | JNull => Throw (JsError (js "TypeError")
               (js "Cannot read properties of null (reading '" ++ k ++ js "')"))
  | _ => Ok (json_get k j)
  end.

(** A property that is used as an object or a string; [undefined] throws at that use. *)
Definition prop_defined (k : jsstring) (j : json) : result json :=
  let! v := prop k j in
  match v with
  | Some v => Ok v
  | None => Throw (type_error "Cannot read properties of undefined")
  end.

Definition prop_string (k : jsstring) (j : json) : result jsstring :=
  let! v := prop_defined k j in
  match v with
  | JStr s => Ok s
  | _ => Throw (type_error "not a string")
  end.

Definition prop_array (k : jsstring) (j : json) : result (list json) :=
  let! v := prop_defined k j in
  match v with
  | JArr l => Ok l
  | _ => Throw (type_error "map is not a function")
  end.

(** [!v] is false; JSON has no NaN, and both zeros are falsy. *)
Definition json_truthy (v : option json) : bool :=
  match v with
  | None | Some JNull => false
  | Some (JBool b) => b
  | Some (JInt n) => negb (n =? 0)
  | Some (JFloat bits) => negb (Z.land bits (Z.ones 63) =? 0)
  | Some (JStr s) => negb (bool_decide (s = []))
  | Some (JArr _) | Some (JObj _) => true
  end.

Section pages.
Context {J : Json} (net : Request → result Response).

Definition run_call (c : ApiCall) : BM json :=
  match c with
  | C_checkUsersExist => checkUsersExist net
  | C_loginBegin email => loginBegin net email
  | C_loginFinish email credential => loginFinish net email credential
  | C_registerBegin email => registerBegin net email
  | C_registerFinish email credential k => registerFinish net email credential (Some k)
  | C_updateSSHCAClientShare s => let* _ := updateSSHCAClientShare net s in sret JNull
  | C_pairExchange code h n => pairExchange net code h n
  | C_listHosts => listHosts net
  | C_createHost h => createHost net h
  | C_updateHost i h => updateHost net i h
  | C_deleteHost i => deleteHost net i
  | C_listPasskeys => listPasskeys net
  | C_addPasskeyBegin => addPasskeyBegin net
  | C_addPasskeyFinish c => let* _ := addPasskeyFinish net c in sret JNull
  | C_deletePasskey i => deletePasskey net i
  end.

Definition call (c : ApiCall) : PM json := λ p, in_browser (run_call c) (pg_log c p).

(** [login(token, { id: 0, email, token })]: an absent token is stored as the text
    ["undefined"]. *)
Definition page_login (token : option jsstring) (email : jsstring) : PM unit :=
  let user := JObj ([(js "id", JInt 0); (js "email", JStr email)] ++
                    opt_field (js "token") (JStr <$> token)) in
  let* s := in_browser (auth_login (default (js "undefined") token) user) in
  λ p, (Ok tt, pg_set_auth {| auth_user := auth_user s; auth_token := token |} p).

(** ** [LoginPage.tsx] *)

Record EnvLogin := {
  el_supported : bool;
  (** [startAuthentication] of the WebAuthn package. *)
  el_startAuthentication : json → result json;
}.

Definition obj_put (k : jsstring) (v j : json) : json :=
  match j with JObj fs => JObj (obj_set k v fs) | _ => j end.

(** [credential.response.userHandle = encodeBase64URL(...)] when there is one. *)
Definition reencode_handle (credential : json) : result json :=
  let! response := prop_defined (js "response") credential in
  let! userHandle := prop (js "userHandle") response in
  match truthy (json_string userHandle) with
  | Some u =>
      let! e := encodeBase64URL (text_encode u) in
      Ok (obj_put (js "response") (obj_put (js "userHandle") (JStr e) response) credential)
  | None => Ok credential
  end.

Definition unsupported : jsstring :=
  js "WebAuthn is not supported. Please use HTTPS or localhost.".

Definition login_body (env : EnvLogin) (email : jsstring) : PM unit :=
  let* response := call (C_loginBegin email) in
  let* publicKey := slift (prop (js "publicKey") response) in
  let* credential := slift (el_startAuthentication env (default JNull publicKey)) in
  let* credential := slift (reencode_handle credential) in
  let* result := call (C_loginFinish email credential) in
  let* token := slift (prop (js "token") result) in
  let* _ := page_login (json_string token) email in
  route_to (js "/dashboard").

Definition handleLogin (env : EnvLogin) (email : jsstring) : PM unit :=
  let* _ := setError [] in
  let* _ := setLoading true in
  if negb (el_supported env) then
    let* _ := setError unsupported in setLoading false
  else guarded (login_body env email).

(** The mount effect: whether to point at the registration. *)
Definition login_mount : PM bool :=
  scatch (let* status := call C_checkUsersExist in
          let* e := slift (prop (js "exists") status) in
          sret (negb (json_truthy e)))
         (λ _, sret false).
End pages.

(** ** [RegisterPage.tsx] *)

Section register.
Context {W : WebCrypto} {J : Json} (net : Request → result Response).

(** What is passed to [navigator.credentials.create]; [co_options] holds the properties that
    are passed on as the server sent them. *)
Record CreationOptions := {
  co_challenge : bytes;
  co_user_id : bytes;
  co_exclude : option (list bytes);
  co_options : json;
  co_prf : bytes;
}.

(** The new credential; [None] is an optional method that is missing or returned nothing. *)
Record NewCredential := {
  nc_id : jsstring;
  nc_rawId : bytes;
  nc_attestationObject : bytes;
  nc_clientDataJSON : bytes;
  nc_transports : option (list jsstring);
  nc_publicKey : option bytes;
  nc_publicKeyAlgorithm : option Z;
  nc_authenticatorData : option bytes;
  nc_type : jsstring;
  nc_extensions : json;
  nc_prf_enabled : bool;
  nc_prf_first : bool;
  nc_attachment : option json;
}.

(** The platform: WebAuthn support, [create], [get] (challenge, relying party, credential,
    salt; the inner [None] is an answer without a PRF result), the buffer encoding of the
    WebAuthn package, the host name and the random values in the order they are drawn. *)
Record RegisterEnv := {
  rp_supported : bool;
  rp_create : CreationOptions → result (option NewCredential);
  rp_get : bytes → jsstring → bytes → bytes → result (option (option bytes));
  rp_bufferToBase64URL : bytes → jsstring;
  rp_hostname : jsstring;
  rp_masterKey : bytes;
  rp_challenge : bytes;
  rp_nonce : bytes;
  rp_share_nonce : bytes;
}.

Definition base64urlToBuffer (base64url : jsstring) : result bytes := decodeBase64URL base64url.

Definition creation_options (pubKey : json) : result CreationOptions :=
  let! c := prop_string (js "challenge") pubKey in
  let! challenge := base64urlToBuffer c in
  let! user := prop_defined (js "user") pubKey in
  let! u := prop_string (js "id") user in
  let! userId := base64urlToBuffer u in
  let! params := prop_array (js "pubKeyCredParams") pubKey in
  let! excluded := prop (js "excludeCredentials") pubKey in
  let! exclude :=
    match excluded with
    | Some (JArr cs) =>
        let! ids := array_map (λ c, let! i := prop_string (js "id") c in base64urlToBuffer i) cs in
        Ok (Some ids)
    | Some JNull | None => Ok None
    | Some _ => Throw (type_error "map is not a function")
    end in
  Ok {| co_challenge := challenge; co_user_id := userId; co_exclude := exclude;
        co_options := pubKey; co_prf := getPrfSalt |}.

(** The PRF output is always taken from an assertion, never from the creation. *)
Definition register_prf (env : RegisterEnv) (pubKey : json) (credential : NewCredential)
    : result (option bytes) :=
  if nc_prf_enabled credential || nc_prf_first credential then
    let! rp := prop_defined (js "rp") pubKey in
    let! rpId := prop (js "id") rp in
    let rpIdToUse := default (rp_hostname env) (truthy (json_string rpId)) in
    let! assertion := rp_get env (rp_challenge env) rpIdToUse (nc_rawId credential) getPrfSalt in
    match assertion with
    | None => Throw (plain_error (js "Failed to get PRF output from authenticator"))
    | Some first => Ok first
    end
  else Ok None.

Definition credentialJSON (env : RegisterEnv) (c : NewCredential) : json :=
  let b64 x := JStr (rp_bufferToBase64URL env x) in
  JObj ([(js "id", JStr (nc_id c));
         (js "rawId", b64 (nc_rawId c));
         (js "response", JObj (
            [(js "attestationObject", b64 (nc_attestationObject c));
             (js "clientDataJSON", b64 (nc_clientDataJSON c));
             (js "transports", JArr (JStr <$> default [] (nc_transports c)))] ++
            opt_field (js "publicKey") (b64 <$> nc_publicKey c) ++
            opt_field (js "publicKeyAlgorithm") (JInt <$> nc_publicKeyAlgorithm c) ++
            opt_field (js "authenticatorData") (b64 <$> nc_authenticatorData c)));
         (js "type", JStr (nc_type c));
         (js "clientExtensionResults", nc_extensions c)] ++
        opt_field (js "authenticatorAttachment") (nc_attachment c)).

Definition prf_required : js_error :=
  plain_error (js "WebAuthn PRF extension is required for registration. Your authenticator must support the PRF/hmac-secret extension.").

(** From the options to the blob: the credential and the wrapped master key. *)
Definition register_passkey (env : RegisterEnv) (pubKey : json)
    : result (NewCredential * jsstring) :=
  let! options := creation_options pubKey in
  let! created := rp_create env options in
  match created with
  | None => Throw (plain_error (js "Registration was cancelled"))
  | Some credential =>
      let masterKey := generateMasterKey (rp_masterKey env) in
      let! prfOutput := register_prf env pubKey credential in
      match prfOutput with
      | None => Throw prf_required
      | Some prfOutput =>
          let! prfKey := deriveMasterKeyFromPrf prfOutput in
          let! enc := encrypt (rp_nonce env) prfKey masterKey in
          let! combined := combineNonce enc in
          let! versioned := formatEncryptedMasterKey combined in
          let! encryptedMasterKey := encodeBase64 versioned in
          Ok (credential, encryptedMasterKey)
      end
  end.

(** The share the server issued, encrypted under the master key. *)
Definition encrypted_share (env : RegisterEnv) (clientShare : jsstring) : result jsstring :=
  let masterKey := generateMasterKey (rp_masterKey env) in
  let! clientShareBytes := decodeBase64 clientShare in
  let! enc := encrypt (rp_share_nonce env) masterKey clientShareBytes in
  let! encryptedShare := combineNonce enc in
  encodeBase64 encryptedShare.

Definition no_token : js_error :=
  plain_error (js "Registration succeeded but no token was returned").

Definition register_body (env : RegisterEnv) (email : jsstring) : PM unit :=
  let* response := call net (C_registerBegin email) in
  let* pubKey := slift (prop_defined (js "publicKey") response) in
  let* (credential, encryptedMasterKey) := slift (register_passkey env pubKey) in
  let* registerResponse :=
    call net (C_registerFinish email (credentialJSON env credential) encryptedMasterKey) in
  let* token := slift (prop (js "token") registerResponse) in
  match truthy (json_string token) with
  | None => sthrow no_token
  | Some token =>
      let* _ := page_login (Some token) email in
      let* _ :=
        match truthy (json_string (json_get (js "client_share") registerResponse)) with
        | Some clientShare =>
            let* s := slift (encrypted_share env clientShare) in
            let* _ := call net (C_updateSSHCAClientShare s) in sret tt
        | None => sret tt
        end in
      route_to (js "/dashboard")
  end.

Definition handleRegister (env : RegisterEnv) (email : jsstring) : PM unit :=
  let* _ := setError [] in
  let* _ := setLoading true in
  if negb (rp_supported env) then
    let* _ := setError unsupported in setLoading false
  else guarded (register_body env email).
End register.

(** ** [PairPage.tsx], [PasskeyManagementPage.tsx] and the route guard *)

Section account_pages.
Context {J : Json} (net : Request → result Response).

(** The fields of the pairing form. *)
Record PairForm := {
  pf_code : jsstring;
  pf_selectedHostId : option Z;
  pf_showNewHost : bool;
  pf_newHostLabel : jsstring;
  pf_newHostHostname : jsstring;
}.

(** The button is enabled. *)
Definition canPair (f : PairForm) : bool :=
  (length (pf_code f) =? 6)%nat &&
  (bool_decide (is_Some (pf_selectedHostId f)) || pf_showNewHost f).

(** A host id that is there and not zero. *)
Definition truthy_id (i : option Z) : option Z :=
  match i with Some n => if n =? 0 then None else Some n | None => None end.

(** [true]: paired, the navigation to the dashboard is scheduled. *)
Definition handlePair (f : PairForm) : PM bool :=
  let* _ := setError [] in
  let* _ := setLoading true in
  let* paired :=
    scatch
      (if pf_showNewHost f then
         let label := trim (pf_newHostLabel f) in
         let hostname := trim (pf_newHostHostname f) in
         if bool_decide (label = []) || bool_decide (hostname = []) then
           let* _ := setError (js "Label and hostname are required") in sret false
         else
           let* _ := call net (C_pairExchange (pf_code f) None (Some (label, hostname))) in sret true
       else
         match truthy_id (pf_selectedHostId f) with
         | Some h => let* _ := call net (C_pairExchange (pf_code f) (Some h) None) in sret true
         | None => let* _ := setError (js "Please select or create a host") in sret false
         end)
      (λ e, let* _ := setError (err_message e) in sret false) in
  let* _ := setLoading false in
  sret paired.

(** [None]: the list on screen stays. *)
Definition loadPasskeys : PM (option json) :=
  let* r := scatch (let* data := call net C_listPasskeys in sret (Some data)) (λ _, sret None) in
  let* _ := setLoading false in
  sret r.

(** [startRegistration] of the WebAuthn package.  The busy flag [adding] and, below,
    [deletingId] are reset however the handlers end; they are part of the page in
    [AccountViews]. *)
Definition handleAddPasskey (supported : bool) (startRegistration : json → result json)
    : PM (option json) :=
  let* _ := setError [] in
  if negb supported then let* _ := setError unsupported in sret None
  else
    scatch
      (let* response := call net C_addPasskeyBegin in
       let* publicKey := slift (prop (js "publicKey") response) in
       let* credential := slift (startRegistration (default JNull publicKey)) in
       let* _ := call net (C_addPasskeyFinish credential) in
       loadPasskeys)
      (λ e, let* _ := setError (err_message e) in sret None).

Definition handleDeletePasskey (deletingId : option jsstring) : PM (option json) :=
  match truthy deletingId with
  | None => sret None
  | Some i =>
      scatch (let* _ := call net (C_deletePasskey i) in loadPasskeys)
             (λ e, let* _ := setError (err_message e) in sret None)
  end.

(** Where [ProtectedRoute] sends a visitor; [None] shows the page. *)
Definition ProtectedRoute (b : Browser) : result (option jsstring) :=
  let! token := storage_get (localStorage b) (js "token") in
  Ok (match truthy token with Some _ => None | None => Some (js "/login") end).
End account_pages.

(** ** [HostsPage.tsx] and [HostForm.tsx]

    The page shows one form at a time, to create a host or to edit one.  What a handler awaits
    is its second half's argument. *)

Record HostsPage := {
  hosts : list Host;
  h_isLoading : bool;
  h_error : jsstring;
  isCreating : bool;
  editingHost : option Host;
  form_error : jsstring;
  form_isLoading : bool;
  h_calls : list ApiCall;
}.

Definition h_list (l : list Host) (loading : bool) (e : jsstring) (s : HostsPage) : HostsPage :=
  {| hosts := l; h_isLoading := loading; h_error := e; isCreating := isCreating s;
     editingHost := editingHost s; form_error := form_error s;
     form_isLoading := form_isLoading s; h_calls := h_calls s |}.
Definition h_open (creating : bool) (editing : option Host) (s : HostsPage) : HostsPage :=
  {| hosts := hosts s; h_isLoading := h_isLoading s; h_error := h_error s;
     isCreating := creating; editingHost := editing; form_error := form_error s;
     form_isLoading := form_isLoading s; h_calls := h_calls s |}.
Definition h_form (e : jsstring) (loading : bool) (s : HostsPage) : HostsPage :=
  {| hosts := hosts s; h_isLoading := h_isLoading s; h_error := h_error s;
     isCreating := isCreating s; editingHost := editingHost s; form_error := e;
     form_isLoading := loading; h_calls := h_calls s |}.
Definition h_log (c : ApiCall) (s : HostsPage) : HostsPage :=
  {| hosts := hosts s; h_isLoading := h_isLoading s; h_error := h_error s;
     isCreating := isCreating s; editingHost := editingHost s; form_error := form_error s;
     form_isLoading := form_isLoading s; h_calls := h_calls s ++ [c] |}.

Definition loadHosts_begin (s : HostsPage) : HostsPage :=
  h_log C_listHosts (h_list (hosts s) true (h_error s) s).

Definition loadHosts_finish (answer : result (list Host)) (s : HostsPage) : HostsPage :=
  match answer with
  | Ok data => h_list data false [] s
  | Throw e => h_list (hosts s) false (err_message e) s
  end.

Record HostFields := {
  hf_label : jsstring;
  hf_hostname : jsstring;
  hf_sshUser : jsstring;
  hf_sshPort : Z;
  hf_sshPrincipal : jsstring;
}.

(** The initial fields of the form. *)
Definition form_init (host : option Host) : HostFields :=
  match host with
  | Some h => {| hf_label := host_label h; hf_hostname := host_hostname h;
                 hf_sshUser := host_ssh_user h;
                 hf_sshPort := if host_ssh_port h =? 0 then 22 else host_ssh_port h;
                 hf_sshPrincipal := host_ssh_principal h |}
  | None => {| hf_label := []; hf_hostname := []; hf_sshUser := []; hf_sshPort := 22;
               hf_sshPrincipal := [] |}
  end.

(** The object handed to [onSubmit]. *)
Definition form_input (f : HostFields) : HostInput :=
  {| hi_label := Some (trim (hf_label f)); hi_hostname := Some (trim (hf_hostname f));
     hi_ssh_user := truthy (Some (trim (hf_sshUser f)));
     hi_ssh_port := truthy_id (Some (hf_sshPort f));
     hi_ssh_principal := truthy (Some (trim (hf_sshPrincipal f))) |}.

(** [handleCreate] or [handleUpdate] up to its [await]: [None] returns without a request. *)
Definition submit_call (editing : bool) (host : HostInput) (s : HostsPage) : option ApiCall :=
  if editing then (λ h, C_updateHost (host_id_ h) host) <$> editingHost s
  else Some (C_createHost host).

(** [handleSubmit] of the form up to the [await]. *)
Definition handleSubmit_begin (editing : bool) (f : HostFields) (s : HostsPage) : HostsPage :=
  let s := h_form [] true s in
  if bool_decide (trim (hf_label f) = []) then h_form (js "Label is required") false s
  else if bool_decide (trim (hf_hostname f) = []) then h_form (js "Hostname is required") false s
  else match submit_call editing (form_input f) s with
       | Some c => h_log c s
       | None => h_form (form_error s) false s
       end.

(** After the request settled. *)
Definition handleSubmit_finish (editing : bool) (answer : result json) (s : HostsPage) : HostsPage :=
  match answer with
  | Ok _ =>
      let s := if editing then h_open (isCreating s) None s else h_open false (editingHost s) s in
      let s := loadHosts_begin s in
      h_form (form_error s) false s
  | Throw e => h_form (err_message e) false s
  end.

Definition handleDelete_begin (id : Z) (s : HostsPage) : HostsPage := h_log (C_deleteHost id) s.

(** A failed deletion is an unhandled rejection: nothing changes. *)
Definition handleDelete_finish (answer : result json) (s : HostsPage) : HostsPage :=
  match answer with Ok _ => loadHosts_begin s | Throw _ => s end.

(** ** Facts *)

(** The server answers the call with [j], which leaves the browser as it is. *)
Definition answers `{Json} (net : Request → result Response) (c : ApiCall) (j : json) : Prop :=
  ∀ b, is_Some (localStorage b) → run_call net c b = (Ok j, b).

Lemma decodeBase64_bytes s bs : decodeBase64 s = Ok bs → Forall is_byte bs.
Proof. unfold decodeBase64. intros H. inv_bind. apply u8_from_bytes. Qed.

Section account_theory.
Context {W : WebCrypto} {HW : WebCryptoLaws W} {J : Json} (net : Request → result Response).

Lemma call_answers c j p :
  answers net c j → is_Some (localStorage (pg_browser p)) → call net c p = (Ok j, pg_log c p).
Proof. intros H Hs. unfold call, in_browser. rewrite H by done. by destruct p. Qed.

(** The page after [login]. *)
Lemma page_login_ok token email p m :
  localStorage (pg_browser p) = Some m →
  ∃ a b, page_login (Some token) email p = (Ok tt, pg_set_auth a (pg_set_browser b p)) ∧
    auth_token a = Some token ∧ storage_get (localStorage b) (js "token") = Ok (Some token) ∧
    is_Some (localStorage b).
Proof.
  intros Hm. unfold page_login, sbind, in_browser, auth_login, setItem, sbind.
  rewrite Hm. cbn [storage_set localStorage set_storage default sret auth_user].
  do 2 eexists. split; [reflexivity|]. split_and!; try done.
  cbn [localStorage set_storage storage_get]. rewrite lookup_insert_ne by done.
  by rewrite lookup_insert_eq.
Qed.

(** What registration makes of the authenticator's answers: a blob that this device unlocks. *)
Lemma register_passkey_ok env pubKey options cred prf :
  creation_options pubKey = Ok options → rp_create env options = Ok (Some cred) →
  register_prf env pubKey cred = Ok (Some prf) →
  length (rp_nonce env) = 12%nat → Forall is_byte (rp_nonce env) →
  Forall is_byte (rp_masterKey env) →
  ∃ prfKey blob, deriveMasterKeyFromPrf prf = Ok prfKey ∧
    register_passkey env pubKey = Ok (cred, blob) ∧
    openBlob prfKey blob = Ok (rp_masterKey env).
Proof.
  intros Ho Hc Hp Hn Hb Hm.
  destruct (hkdf_bits_length prf getPrfSalt (text_encode (js "master-key-derivation")) 32)
    as (prfKey & Ek & Hl & _); [lia|].
  destruct (openBlob_wrap (rp_nonce env) prfKey (rp_masterKey env) Hl Hn Hb Hm)
    as (blob & Ew & Eo).
  exists prfKey, blob. split_and!; [exact Ek| |exact Eo].
  unfold register_passkey. rewrite Ho. cbn [rbind]. rewrite Hc. cbn [rbind]. rewrite Hp.
  cbn [rbind]. unfold deriveMasterKeyFromPrf. change 256 with (32 * 8). rewrite Ek. cbn [rbind].
  unfold wrapMasterKey in Ew. unfold generateMasterKey.
  destruct (encrypt _ _ _) as [enc|]; [|done]. cbn [rbind] in *.
  destruct (combineNonce enc) as [cb|]; [|done]. cbn [rbind] in *.
  destruct (formatEncryptedMasterKey cb) as [fm|]; [|done]. cbn [rbind] in *. by rewrite Ew.
Qed.

(** The uploaded share opens under the master key. *)
Lemma encrypted_share_ok env clientShare share :
  decodeBase64 clientShare = Ok share →
  length (rp_masterKey env) = 32%nat →
  length (rp_share_nonce env) = 12%nat → Forall is_byte (rp_share_nonce env) →
  ∃ s e, encrypted_share env clientShare = Ok s ∧ decodeBase64 s = Ok e ∧
    decrypt (rp_masterKey env) (u8_slice e 0 12) (u8_slice_from e 12) = Ok share.
Proof.
  intros Hd Hm Hn Hb.
  destruct (encrypt_ok (rp_share_nonce env) (rp_masterKey env) share Hm Hn
              (decodeBase64_bytes _ _ Hd)) as (c & Ee & Hc & Ed).
  destruct (encodeBase64_decodes (rp_share_nonce env ++ c)) as (s & Es & Ds).
  { by apply Forall_app. }
  exists s, (rp_share_nonce env ++ c). unfold encrypted_share, generateMasterKey.
  rewrite Hd. cbn [rbind]. rewrite Ee. cbn [rbind]. rewrite combineNonce_ok by done.
  cbn [rbind]. split_and!; [done|done|]. unfold u8_slice, u8_slice_from.
  by rewrite drop_0, Nat.sub_0_r, take_app_exact, drop_app_exact.
Qed.

(** Initialising the worker with a share that opens sends the worker the share. *)
Lemma initWorker_sends c w config encrypted mk share g srv cli x :
  fc_client x = Some c → worker c = Some w →
  decodeBase64 (client_share config) = Ok encrypted →
  decrypt mk (u8_slice encrypted 0 12) (u8_slice_from encrypted 12) = Ok share →
  decodeBase64 (public_key config) = Ok g →
  decodeBase64 (server_verifying_share config) = Ok srv →
  decodeBase64 (client_verifying_share config) = Ok cli →
  ∃ c', fc_client (context_initWorker config config mk x).2 = Some c' ∧
    sent c' = sent c ++ [(w, M_init (Some share) (Some g) (Some srv) (Some cli) (Some (c_timeoutMs c)))].
Proof.
  intros Hx Hw Hs Hd Hg Hsrv Hcli. unfold context_initWorker. rewrite Hx, Hs.
  unfold initWithShare_config, initWithShare_begin. rewrite Hw, Hd.
  unfold initWithConfig_begin, sendToWorker. rewrite Hw, Hg, Hsrv, Hcli. cbn [worker set_reqs].
  eexists. split; [reflexivity|]. reflexivity.
Qed.

(** A registration in which everyone does their part: the server sends usable options, the
    authenticator creates [cred] and asserts it with the PRF output [prf], and the server
    accepts any blob and issues [token] and [clientShare]. *)
Record registration (env : RegisterEnv) (email token clientShare : jsstring)
    (cred : NewCredential) (prf : bytes) : Prop := {
  rg_supported : rp_supported env = true;
  rg_begin : ∃ begin pubKey options, answers net (C_registerBegin email) begin ∧
    prop_defined (js "publicKey") begin = Ok pubKey ∧ creation_options pubKey = Ok options ∧
    rp_create env options = Ok (Some cred) ∧ register_prf env pubKey cred = Ok (Some prf);
  rg_finish blob : answers net (C_registerFinish email (credentialJSON env cred) blob)
    (JObj [(js "token", JStr token); (js "client_share", JStr clientShare)]);
  rg_token : token ≠ [];
  rg_share : clientShare ≠ [];
  rg_masterKey : length (rp_masterKey env) = 32%nat ∧ Forall is_byte (rp_masterKey env);
  rg_nonce : length (rp_nonce env) = 12%nat ∧ Forall is_byte (rp_nonce env);
  rg_share_nonce : length (rp_share_nonce env) = 12%nat ∧ Forall is_byte (rp_share_nonce env);
}.

(** The run up to the upload of the share. *)
Lemma register_body_upload env email token clientShare cred prf share p m :
  registration env email token clientShare cred prf →
  decodeBase64 clientShare = Ok share → localStorage (pg_browser p) = Some m →
  ∃ prfKey blob s e p', deriveMasterKeyFromPrf prf = Ok prfKey ∧
    openBlob prfKey blob = Ok (rp_masterKey env) ∧
    decodeBase64 s = Ok e ∧
    decrypt (rp_masterKey env) (u8_slice e 0 12) (u8_slice_from e 12) = Ok share ∧
    register_body net env email p =
      (let* _ := (let* _ := call net (C_updateSSHCAClientShare s) in sret tt) in
       route_to (js "/dashboard")) p' ∧
    pg_calls p' = pg_calls p ++ [C_registerBegin email;
      C_registerFinish email (credentialJSON env cred) blob] ∧
    pg_route p' = pg_route p ∧ auth_token (pg_auth p') = Some token ∧
    storage_get (localStorage (pg_browser p')) (js "token") = Ok (Some token) ∧
    is_Some (localStorage (pg_browser p')) ∧ pg_error p' = pg_error p.
Proof.
  intros R Hs Hm. destruct (rg_begin _ _ _ _ _ _ R) as (begin & pubKey & options & Hb & Hp & Ho & Hc & Hf).
  destruct (rg_masterKey _ _ _ _ _ _ R) as [Hml Hmb]. destruct (rg_nonce _ _ _ _ _ _ R) as [Hnl Hnb].
  destruct (rg_share_nonce _ _ _ _ _ _ R) as [Hsl Hsb].
  destruct (register_passkey_ok env pubKey options cred prf Ho Hc Hf Hnl Hnb Hmb)
    as (prfKey & blob & Ek & Er & Eo).
  destruct (encrypted_share_ok env clientShare share Hs Hml Hsl Hsb) as (s & e & Es & De & Ed).
  set (p2 := pg_log (C_registerFinish email (credentialJSON env cred) blob) (pg_log (C_registerBegin email) p)).
  destruct (page_login_ok token email p2 m Hm) as (a & b & El & Ha & Hb' & Hb2).
  exists prfKey, blob, s, e. eexists. split_and!; [exact Ek|exact Eo|exact De|exact Ed| | | | | | |].
  { unfold register_body. unfold sbind at 1. rewrite (call_answers _ _ _ Hb) by by exists m.
    unfold sbind at 1, slift at 1. rewrite Hp. unfold sbind at 1, slift at 1. rewrite Er.
    unfold sbind at 1. rewrite (call_answers _ _ _ (rg_finish _ _ _ _ _ _ R blob)) by by exists m.
    fold p2. unfold sbind at 1, slift at 1. cbn [prop].
    assert (E1 : json_get (js "token") (JObj [(js "token", JStr token); (js "client_share", JStr clientShare)])
                 = Some (JStr token)) by reflexivity.
    assert (E2 : json_get (js "client_share") (JObj [(js "token", JStr token); (js "client_share", JStr clientShare)])
                 = Some (JStr clientShare)) by reflexivity.
    rewrite E1, E2. cbn [json_string].
    pose proof (rg_token _ _ _ _ _ _ R) as Ht. pose proof (rg_share _ _ _ _ _ _ R) as Hsh.
    destruct token as [|t0 t]; [done|]. destruct clientShare as [|c0 c]; [done|]. cbn [truthy].
    unfold sbind at 1. rewrite El. unfold sbind at 2, slift at 1. rewrite Es. reflexivity. }
  all: cbn [pg_calls pg_log pg_goto pg_route pg_auth pg_set_auth pg_set_browser pg_browser pg_error p2];
    try done.
  by rewrite <- !app_assoc.
Qed.

Lemma signed_in_route b token :
  storage_get (localStorage b) (js "token") = Ok (Some token) → token ≠ [] →
  ProtectedRoute b = Ok None.
Proof. intros Ht Hn. unfold ProtectedRoute. rewrite Ht. cbn [rbind]. by destruct token. Qed.

Lemma handleRegister_supported env email p :
  rp_supported env = true →
  handleRegister net env email p = guarded (register_body net env email) (pg_ui [] true p).
Proof. intros H. unfold handleRegister, setError, setLoading, sbind. by rewrite H. Qed.

Lemma call_calls c p r p' : call net c p = (r, p') →
  pg_calls p' = pg_calls p ++ [c] ∧ pg_route p' = pg_route p.
Proof. unfold call, in_browser. destruct (run_call net c _) as [r' b]. by intros [= <- <-]. Qed.

Lemma call_result c p :
  ∃ b, call net c p = ((run_call net c (pg_browser p)).1, pg_set_browser b (pg_log c p)).
Proof.
  unfold call, in_browser. change (pg_browser (pg_log c p)) with (pg_browser p).
  destruct (run_call net c (pg_browser p)) as [r b]. by exists b.
Qed.

Lemma page_login_calls t email p r p' : page_login t email p = (r, p') →
  pg_calls p' = pg_calls p ∧ pg_route p' = pg_route p.
Proof.
  unfold page_login, sbind, in_browser.
  destruct (auth_login _ _ (pg_browser p)) as [[a|e] b]; by intros [= <- <-].
Qed.

(** Calls are only ever added. *)
Definition grows {A} (m : PM A) : Prop := ∀ p, ∃ rest, pg_calls (m p).2 = pg_calls p ++ rest.

Lemma grows_still {A} (m : PM A) : (∀ p, pg_calls (m p).2 = pg_calls p) → grows m.
Proof. intros H p. exists []. by rewrite H, app_nil_r. Qed.

Lemma grows_bind {A B} (m : PM A) (k : A → PM B) : grows m → (∀ a, grows (k a)) → grows (sbind m k).
Proof.
  intros Hm Hk p. destruct (Hm p) as [r1 E1]. unfold sbind.
  destruct (m p) as [[a|e] p1]; cbn [snd] in *; [|by exists r1].
  destruct (Hk a p1) as [r2 E2]. exists (r1 ++ r2). by rewrite E2, E1, app_assoc.
Qed.

Lemma grows_call c : grows (call net c).
Proof.
  intros p. destruct (call net c p) as [r p'] eqn:E. apply call_calls in E as [E _]. by exists [c].
Qed.

Lemma grows_login t email : grows (page_login t email).
Proof.
  apply grows_still. intros p. destruct (page_login t email p) as [r p'] eqn:E.
  by apply page_login_calls in E as [E _].
Qed.

Lemma register_body_begins env email p :
  ∃ rest, pg_calls (register_body net env email p).2
    = (pg_calls p ++ [C_registerBegin email]) ++ rest.
Proof.
  unfold register_body, sbind at 1.
  destruct (call net (C_registerBegin email) p) as [[resp|e] p1] eqn:E;
    apply call_calls in E as [E _]; [|exists []; by rewrite app_nil_r].
  rewrite <- E. revert p1 E. intros p1 _. generalize p1.
  change (grows (let* pubKey := slift (prop_defined (js "publicKey") resp) in
    let* (credential, encryptedMasterKey) := slift (register_passkey env pubKey) in
    let* registerResponse :=
      call net (C_registerFinish email (credentialJSON env credential) encryptedMasterKey) in
    let* token := slift (prop (js "token") registerResponse) in
    match truthy (json_string token) with
    | None => sthrow no_token
    | Some token =>
        let* _ := page_login (Some token) email in
        let* _ :=
          match truthy (json_string (json_get (js "client_share") registerResponse)) with
          | Some clientShare =>
              let* s := slift (encrypted_share env clientShare) in
              let* _ := call net (C_updateSSHCAClientShare s) in sret tt
          | None => sret tt
          end in
        route_to (js "/dashboard")
    end)).
  repeat first
    [ apply grows_call | apply grows_login | apply grows_bind; [|intros ?]
    | match goal with |- context [match ?x with _ => _ end] => destruct x end
    | by apply grows_still ].
Qed.

(** What a guarded body logged stays logged. *)
Lemma guarded_calls (m : PM unit) p new :
  (∃ rest, pg_calls (m p).2 = new ++ rest) → ∃ rest, pg_calls (guarded m p).2 = new ++ rest.
Proof.
  intros [rest H]. exists rest. unfold guarded, scatch, sbind, setError, setLoading.
  destruct (m p) as [[[]|e] p']; exact H.
Qed.

(** An account that was just registered can sign: when the server and the authenticator do
    their part, [handleRegister] ends on the dashboard, signed in under the token issued,
    without an error; it has made exactly three calls.  The blob it stored with the passkey
    gives the terminal back the master key under the same PRF output, and a configuration that
    returns the uploaded share makes the signing client send its worker exactly the share the
    server issued. *)
Theorem registered_account_signs env email token clientShare cred prf share p m :
  registration env email token clientShare cred prf →
  (∀ s, answers net (C_updateSSHCAClientShare s) JNull) →
  decodeBase64 clientShare = Ok share → localStorage (pg_browser p) = Some m →
  ∃ prfKey blob s p', handleRegister net env email p = (Ok tt, p') ∧
    pg_calls p' = pg_calls p ++ [C_registerBegin email;
      C_registerFinish email (credentialJSON env cred) blob; C_updateSSHCAClientShare s] ∧
    pg_error p' = [] ∧ pg_loading p' = false ∧ pg_route p' = Some (js "/dashboard") ∧
    ProtectedRoute (pg_browser p') = Ok None ∧
    deriveMasterKeyFromPrf prf = Ok prfKey ∧
    unlockMasterKey prfKey [blob] = Some (rp_masterKey env) ∧
    ∀ c w config g srv cli x, fc_client x = Some c → worker c = Some w → client_share config = s →
      decodeBase64 (public_key config) = Ok g →
      decodeBase64 (server_verifying_share config) = Ok srv →
      decodeBase64 (client_verifying_share config) = Ok cli →
      ∃ c', fc_client (context_initWorker config config (rp_masterKey env) x).2 = Some c' ∧
        sent c' = sent c ++
          [(w, M_init (Some share) (Some g) (Some srv) (Some cli) (Some (c_timeoutMs c)))].
Proof.
  intros R Hu Hs Hm.
  destruct (register_body_upload env email token clientShare cred prf share (pg_ui [] true p) m R Hs Hm)
    as (prfKey & blob & s & e & p' & Ek & Eo & De & Ed & Eb & Ec & Er & Ea & Et & Ei & Ee).
  exists prfKey, blob, s.
  eexists. split_and!; [| | | | | | |by cbn [unlockMasterKey]; rewrite Eo|].
  - rewrite handleRegister_supported by apply R. unfold guarded, scatch, sbind. rewrite Eb.
    unfold sbind. rewrite (call_answers _ _ _ (Hu s)) by exact Ei. reflexivity.
  - cbn. by rewrite Ec, <- app_assoc.
  - exact Ee.
  - done.
  - done.
  - cbn. apply (signed_in_route _ token); [exact Et|apply R].
  - exact Ek.
  - intros c w config g srv cli x Hx Hw <- Hg Hsrv Hcli.
    by apply (initWorker_sends c w config e (rp_masterKey env) share).
Qed.

(** A failed upload of the share cannot be repaired from this page: the account exists and
    the visitor is signed in, but stays on the registration page with the error; the share and
    the master key are in nothing the page keeps, and registering again starts a new account. *)
Theorem failed_share_upload env email token clientShare cred prf share p m err :
  registration env email token clientShare cred prf →
  (∀ s b, is_Some (localStorage b) →
     run_call net (C_updateSSHCAClientShare s) b = (Throw err, b)) →
  decodeBase64 clientShare = Ok share → localStorage (pg_browser p) = Some m →
  let '(r, p') := handleRegister net env email p in
  r = Ok tt ∧ pg_error p' = err_message err ∧ pg_route p' = pg_route p ∧
  ProtectedRoute (pg_browser p') = Ok None ∧ auth_token (pg_auth p') = Some token ∧
  (∃ blob s, pg_calls p' = pg_calls p ++ [C_registerBegin email;
      C_registerFinish email (credentialJSON env cred) blob; C_updateSSHCAClientShare s]) ∧
  ∀ env' email', rp_supported env' = true →
    ∃ rest, pg_calls (handleRegister net env' email' p').2
      = pg_calls p' ++ C_registerBegin email' :: rest.
Proof.
  intros R Hu Hs Hm.
  destruct (register_body_upload env email token clientShare cred prf share (pg_ui [] true p) m R Hs Hm)
    as (prfKey & blob & s & e & p' & Ek & Eo & De & Ed & Eb & Ec & Er & Ea & Et & Ei & Ee).
  assert (E : handleRegister net env email p
              = (Ok tt, pg_ui (err_message err) false (pg_log (C_updateSSHCAClientShare s) p'))).
  { rewrite handleRegister_supported by apply R. unfold guarded, scatch, sbind. rewrite Eb.
    unfold sbind, call, in_browser. rewrite Hu by exact Ei. cbn. by destruct p'. }
  rewrite E. split_and!; [done|done|exact Er| |exact Ea| |].
  - apply (signed_in_route _ token); [exact Et|apply R].
  - exists blob, s. cbn. by rewrite Ec, <- app_assoc.
  - intros env' email' He. rewrite handleRegister_supported by done.
    match goal with |- context [guarded ?m ?q] =>
      destruct (guarded_calls m q _ (register_body_begins env' email' q)) as [rest Er'] end.
    exists rest. rewrite Er'. by rewrite <- app_assoc.
Qed.

(** What a registration hands over was wrapped under the key of an asserted PRF output. *)
Lemma register_passkey_inv env pubKey cred blob :
  length (rp_nonce env) = 12%nat → Forall is_byte (rp_nonce env) →
  Forall is_byte (rp_masterKey env) → register_passkey env pubKey = Ok (cred, blob) →
  ∃ prf key, register_prf env pubKey cred = Ok (Some prf) ∧
    deriveMasterKeyFromPrf prf = Ok key ∧ openBlob key blob = Ok (rp_masterKey env).
Proof.
  intros Hn Hb Hm H. pose proof H as H0. unfold register_passkey in H.
  destruct (creation_options pubKey) as [o|] eqn:Ho; [|done]. cbn [rbind] in H.
  destruct (rp_create env o) as [[c|]|] eqn:Hc; [|done..]. cbn [rbind] in H.
  destruct (register_prf env pubKey c) as [[prf|]|] eqn:Hp; [|done..].
  destruct (register_passkey_ok env pubKey o c prf Ho Hc Hp Hn Hb Hm) as (key & blob' & Ek & Er & Eo).
  rewrite Er in H0. injection H0 as -> ->. by exists prf, key.
Qed.

(** The calls a registration may have made when it stops. *)
Inductive register_calls (env : RegisterEnv) (email : jsstring) : list ApiCall → Prop :=
| RC_begin : register_calls env email [C_registerBegin email]
| RC_finish pubKey cred blob prf key :
    register_prf env pubKey cred = Ok (Some prf) → deriveMasterKeyFromPrf prf = Ok key →
    openBlob key blob = Ok (rp_masterKey env) →
    register_calls env email
      [C_registerBegin email; C_registerFinish email (credentialJSON env cred) blob]
| RC_upload pubKey cred blob prf key share e s :
    register_prf env pubKey cred = Ok (Some prf) → deriveMasterKeyFromPrf prf = Ok key →
    openBlob key blob = Ok (rp_masterKey env) → decodeBase64 s = Ok e →
    decrypt (rp_masterKey env) (u8_slice e 0 12) (u8_slice_from e 12) = Ok share →
    register_calls env email
      [C_registerBegin email; C_registerFinish email (credentialJSON env cred) blob;
       C_updateSSHCAClientShare s].

Lemma register_body_calls env email p r p' :
  length (rp_masterKey env) = 32%nat → Forall is_byte (rp_masterKey env) →
  length (rp_nonce env) = 12%nat → Forall is_byte (rp_nonce env) →
  length (rp_share_nonce env) = 12%nat → Forall is_byte (rp_share_nonce env) →
  register_body net env email p = (r, p') →
  ∃ new, pg_calls p' = pg_calls p ++ new ∧ register_calls env email new.
Proof.
  intros Hml Hmb Hnl Hnb Hsl Hsb. unfold register_body, sbind.
  destruct (call net (C_registerBegin email) p) as [[resp|e] p1] eqn:E1;
    apply call_calls in E1 as [C1 _]; [|intros [= <- <-]; eexists; split; [exact C1|constructor]].
  unfold slift at 1. destruct (prop_defined _ resp) as [pubKey|e];
    [|intros [= <- <-]; eexists; split; [exact C1|constructor]].
  unfold slift at 1. destruct (register_passkey env pubKey) as [[cred blob]|e] eqn:Ep;
    [|intros [= <- <-]; eexists; split; [exact C1|constructor]].
  destruct (register_passkey_inv env pubKey cred blob Hnl Hnb Hmb Ep) as (prf & key & Hp & Hk & Ho).
  set (cF := C_registerFinish email (credentialJSON env cred) blob).
  pose proof (RC_finish env email pubKey cred blob prf key Hp Hk Ho) as HF. fold cF in HF.
  destruct (call net cF p1) as [[rr|e] p2] eqn:E2;
    apply call_calls in E2 as [C2 _]; rewrite C1, <- app_assoc in C2; cbn [app] in C2;
    [|intros [= <- <-]; eexists; split; [exact C2|exact HF]].
  unfold slift at 1. destruct (prop _ rr) as [tok|e];
    [|intros [= <- <-]; eexists; split; [exact C2|exact HF]].
  destruct (truthy (json_string tok)) as [t|];
    [|intros [= <- <-]; eexists; split; [exact C2|exact HF]].
  destruct (page_login (Some t) email p2) as [[[]|e] p3] eqn:E3;
    apply page_login_calls in E3 as [C3 _]; rewrite C2 in C3;
    [|intros [= <- <-]; eexists; split; [exact C3|exact HF]].
  destruct (truthy (json_string (json_get (js "client_share") rr))) as [cs|];
    [|intros [= <- <-]; eexists; split; [exact C3|exact HF]].
  unfold slift at 1. destruct (encrypted_share env cs) as [s|e] eqn:Es;
    [|intros [= <- <-]; eexists; split; [exact C3|exact HF]].
  assert (Hd : ∃ share, decodeBase64 cs = Ok share).
  { unfold encrypted_share in Es. destruct (decodeBase64 cs); [by eexists|done]. }
  destruct Hd as [share Hd].
  destruct (encrypted_share_ok env cs share Hd Hml Hsl Hsb) as (s' & e' & Es' & De & Ed).
  rewrite Es in Es'. injection Es' as <-.
  destruct (call net (C_updateSSHCAClientShare s) p3) as [[u|e] p4] eqn:E4;
    apply call_calls in E4 as [C4 _]; rewrite C3, <- app_assoc in C4; cbn [app] in C4;
    intros [= <- <-]; eexists; (split; [exact C4|]);
    exact (RC_upload env email pubKey cred blob prf key share e' s Hp Hk Ho De Ed).
Qed.

(** C16: Registration uploads no secret in the clear, whatever the server and the authenticator
    answer and wherever it stops: it asks the server for options first; a credential is sent
    only after the authenticator asserted it with a PRF output, with a blob that the key of
    that output opens to the master key; a share is sent only after that, encrypted under the
    master key.  The handler never throws and always ends the loading state. *)
Theorem register_uploads_encrypted env email p :
  length (rp_masterKey env) = 32%nat → Forall is_byte (rp_masterKey env) →
  length (rp_nonce env) = 12%nat → Forall is_byte (rp_nonce env) →
  length (rp_share_nonce env) = 12%nat → Forall is_byte (rp_share_nonce env) →
  let '(r, p') := handleRegister net env email p in
  r = Ok tt ∧ pg_loading p' = false ∧
  ∃ new, pg_calls p' = pg_calls p ++ new ∧ (new = [] ∨ register_calls env email new).
Proof.
  intros Hml Hmb Hnl Hnb Hsl Hsb. unfold handleRegister, setError, setLoading, sbind.
  destruct (rp_supported env); cbn [negb].
  - unfold guarded, scatch, sbind, setError, setLoading.
    destruct (register_body net env email _) as [r p'] eqn:E.
    apply register_body_calls in E as (new & Hc & Hn); [|done..].
    destruct r as [[]|e]; (split_and!; [done|done|]; exists new; split; [exact Hc|by right]).
  - split_and!; [done|done|]. exists []. split; [by rewrite app_nil_r|by left].
Qed.

(** The answer 401 to whatever a call sends. *)
Definition rejects_all : Prop := ∀ r, ∃ resp, net r = Ok resp ∧ Api.status resp = 401.

Lemma fetchApi_401 endpoint options b m :
  rejects_all → has_window b = true → localStorage b = Some m →
  fetchApi net endpoint options b =
  (Throw (plain_error (js "Unauthorized")), signed_out m b).
Proof.
  intros H Hw Hm. unfold fetchApi, getToken, sbind. rewrite Hw, Hm. cbn [negb storage_get].
  destruct (H (fetchApi_request endpoint options (m !! js "token"))) as (resp & En & Es).
  unfold slift at 1. rewrite En. unfold fetchApi_response. rewrite Es.
  unfold removeItem, navigate, sbind, sthrow. cbn [Z.eqb Pos.eqb]. by rewrite Hm.
Qed.

(** The calls that do not go through [fetchApi]. *)
Definition direct_fetch (c : ApiCall) : bool :=
  match c with
  | C_loginFinish _ _ | C_registerFinish _ _ _ | C_addPasskeyFinish _ => true
  | _ => false
  end.

(** An expired token signs out everywhere: when the server answers 401, each call through
    [fetchApi] fails with the same error, and from then on the guard of every protected page
    sends the visitor to the login page, whatever else was stored.  The calls that use [fetch]
    directly fail too but leave the stored token, so the protected pages stay open. *)
Theorem expired_token_redirects c b m :
  rejects_all → has_window b = true → localStorage b = Some m →
  let '(r, b') := run_call net c b in
  is_ok r = false ∧
  (if direct_fetch c then b' = b
   else r = Throw (plain_error (js "Unauthorized")) ∧
        ProtectedRoute b' = Ok (Some (js "/login")) ∧ location_href b' = js "/login").
Proof.
  intros H Hw Hm.
  assert (Hg : ProtectedRoute (signed_out m b) = Ok (Some (js "/login"))).
  { unfold ProtectedRoute, signed_out. cbn [set_href set_storage localStorage storage_get rbind].
    by rewrite lookup_delete_ne, lookup_delete_eq by done. }
  destruct c; cbn [direct_fetch run_call];
    unfold checkUsersExist, loginBegin, registerBegin, updateSSHCAClientShare, Api.pairExchange,
      listHosts, createHost, updateHost, deleteHost, listPasskeys, addPasskeyBegin, deletePasskey,
      loginFinish, registerFinish, addPasskeyFinish, sbind, fetch_raw;
    try (rewrite (fetchApi_401 _ _ b m) by done; split_and!; [done|done|exact Hg|done]);
    unfold getToken; rewrite ?Hw, ?Hm; cbn [negb storage_get];
    match goal with |- context [net ?r] => destruct (H r) as (resp & En & Es) end;
    unfold slift at 1; rewrite En; unfold check_ok, response_ok; rewrite Es; cbn; done.
Qed.

(** The user handle reaches the server intact: when the assertion carries one, it is
    replaced by URL-safe text that decodes to the UTF-8 bytes of the handle, and no other
    property of the assertion or of its response changes; without one (or with an empty one)
    the assertion is sent as it is. *)
Theorem login_handle_roundtrip fields rs :
  assoc_get (js "response") fields = Some (JObj rs) →
  (∀ u, assoc_get (js "userHandle") rs = Some (JStr u) → Forall is_code_unit u) →
  match truthy (json_string (assoc_get (js "userHandle") rs)) with
  | Some u => ∃ e, Forall url_safe e ∧ decodeBase64URL e = Ok (text_encode u) ∧
      reencode_handle (JObj fields) =
      Ok (JObj (obj_set (js "response") (JObj (obj_set (js "userHandle") (JStr e) rs)) fields))
  | None => reencode_handle (JObj fields) = Ok (JObj fields)
  end.
Proof.
  intros Hr Hu. unfold reencode_handle, prop_defined, prop. cbn [rbind json_get]. rewrite Hr.
  cbn [rbind json_get].
  destruct (assoc_get (js "userHandle") rs) as [[| | | |u| |]|] eqn:E; try done.
  destruct u as [|c u]; [done|]. cbn [json_string truthy].
  destruct (encodeBase64URL_decodes (text_encode (c :: u))) as (e & Ee & Hs & Ed).
  { by apply text_encode_bytes, Hu. }
  exists e. by rewrite Ee.
Qed.

(** Signing in: when the server and the authenticator do their part, the handler ends on the
    dashboard, signed in under the token issued. *)
Theorem login_signs_in env email begin pk cred cred' token p m :
  el_supported env = true → answers net (C_loginBegin email) begin →
  prop (js "publicKey") begin = Ok (Some pk) → el_startAuthentication env pk = Ok cred →
  reencode_handle cred = Ok cred' →
  answers net (C_loginFinish email cred') (JObj [(js "token", JStr token)]) →
  token ≠ [] → localStorage (pg_browser p) = Some m →
  ∃ p', handleLogin net env email p = (Ok tt, p') ∧
    pg_calls p' = pg_calls p ++ [C_loginBegin email; C_loginFinish email cred'] ∧
    pg_error p' = [] ∧ pg_loading p' = false ∧ pg_route p' = Some (js "/dashboard") ∧
    auth_token (pg_auth p') = Some token ∧ ProtectedRoute (pg_browser p') = Ok None.
Proof.
  intros Hs Hb Hp Ha Hr Hf Ht Hm. set (p0 := pg_ui [] true p).
  set (p2 := pg_log (C_loginFinish email cred') (pg_log (C_loginBegin email) p0)).
  destruct (page_login_ok token email p2 m Hm) as (a & b & El & Hat & Hst & _).
  eexists. split.
  - unfold handleLogin, setError, setLoading. unfold sbind. rewrite Hs. cbn [negb].
    unfold guarded, scatch, sbind, login_body, sbind.
    match goal with |- context [call net (C_loginBegin email) ?q] => change q with p0 end.
    rewrite (call_answers _ _ _ Hb) by by exists m. unfold slift at 1. rewrite Hp.
    change (default JNull (Some pk)) with pk.
    unfold slift at 1. rewrite Ha. unfold slift at 1. rewrite Hr.
    rewrite (call_answers _ _ _ Hf) by by exists m. fold p2. unfold slift at 1. cbn [prop].
    assert (E : json_get (js "token") (JObj [(js "token", JStr token)]) = Some (JStr token)) by reflexivity.
    rewrite E. cbn [json_string]. rewrite El. reflexivity.
  - cbn. split_and!; try done; [by rewrite <- app_assoc|].
    by apply (signed_in_route _ token).
Qed.

(** A pairing is requested exactly from a complete form: with a new host its trimmed label
    and hostname are sent (both must be there), otherwise the selected host (zero counts as
    none); an incomplete form makes no request.  The page reports success only if the server
    accepted, an error otherwise, and always ends the loading state. *)
Theorem handlePair_spec f p :
  let '(r, p') := handlePair net f p in
  pg_loading p' = false ∧
  match (if pf_showNewHost f then
           if bool_decide (trim (pf_newHostLabel f) = []) || bool_decide (trim (pf_newHostHostname f) = [])
           then None
           else Some (C_pairExchange (pf_code f) None
                        (Some (trim (pf_newHostLabel f), trim (pf_newHostHostname f))))
         else (λ h, C_pairExchange (pf_code f) (Some h) None) <$> truthy_id (pf_selectedHostId f)) with
  | None => r = Ok false ∧ pg_calls p' = pg_calls p ∧ pg_error p' ≠ [] ∧ pg_browser p' = pg_browser p
  | Some c => pg_calls p' = pg_calls p ++ [c] ∧
      match (run_call net c (pg_browser p)).1 with
      | Ok _ => r = Ok true ∧ pg_error p' = []
      | Throw e => r = Ok false ∧ pg_error p' = err_message e
      end
  end.
Proof.
  unfold handlePair, setError, setLoading, sbind, scatch.
  set (p1 := pg_ui [] true (pg_ui [] (pg_loading p) p)).
  assert (Hc : ∀ c, ∃ b, call net c p1 =
    ((run_call net c (pg_browser p)).1, pg_set_browser b (pg_log c p1))) by (intros c; exact (call_result c p1)).
  destruct (pf_showNewHost f).
  - destruct (bool_decide _ || bool_decide _); [done|].
    destruct (Hc (C_pairExchange (pf_code f) None
      (Some (trim (pf_newHostLabel f), trim (pf_newHostHostname f))))) as [b E].
    match goal with |- context [call net ?c ?q] => change (call net c q) with (call net c p1) end.
    rewrite E. by destruct (run_call net _ (pg_browser p)).1.
  - destruct (truthy_id (pf_selectedHostId f)) as [h|]; [|done].
    destruct (Hc (C_pairExchange (pf_code f) (Some h) None)) as [b E].
    match goal with |- context [call net ?c ?q] => change (call net c q) with (call net c p1) end.
    rewrite E. cbn [fmap option_fmap option_map]. by destruct (run_call net _ (pg_browser p)).1.
Qed.
End account_theory.

(** ** Facts: hosts *)

(** The host a form asks for. *)
Definition form_valid (f : HostFields) : bool :=
  negb (bool_decide (trim (hf_label f) = [])) && negb (bool_decide (trim (hf_hostname f) = [])).

(** The host form on every branch: an incomplete form makes no request and says what is
    missing; a complete one makes exactly the creation, or the update of the host being
    edited, with the trimmed fields; if the server refuses, the form stays open with its
    message and the list is not reloaded; if it accepts, the form closes and the list is
    requested again. *)
Theorem host_form_spec editing f s :
  let s1 := handleSubmit_begin editing f s in
  if form_valid f then
    match (if editing then (λ h, C_updateHost (host_id_ h) (form_input f)) <$> editingHost s
           else Some (C_createHost (form_input f))) with
    | None => h_calls s1 = h_calls s ∧ form_isLoading s1 = false
    | Some c =>
        h_calls s1 = h_calls s ++ [c] ∧ form_isLoading s1 = true ∧ form_error s1 = [] ∧
        (∀ e, let s2 := handleSubmit_finish editing (Throw e) s1 in
           form_error s2 = err_message e ∧ h_calls s2 = h_calls s1 ∧ form_isLoading s2 = false ∧
           isCreating s2 = isCreating s ∧ editingHost s2 = editingHost s ∧ hosts s2 = hosts s) ∧
        (∀ j, let s2 := handleSubmit_finish editing (Ok j) s1 in
           h_calls s2 = h_calls s1 ++ [C_listHosts] ∧ form_isLoading s2 = false ∧
           (if editing then editingHost s2 = None else isCreating s2 = false) ∧
           ∀ l, hosts (loadHosts_finish (Ok l) s2) = l ∧
                h_error (loadHosts_finish (Ok l) s2) = [])
    end
  else h_calls s1 = h_calls s ∧ form_isLoading s1 = false ∧ form_error s1 ≠ [].
Proof.
  intros s1. unfold s1, handleSubmit_begin, form_valid, submit_call.
  destruct (bool_decide (trim (hf_label f) = [])); [done|].
  destruct (bool_decide (trim (hf_hostname f) = [])); [done|]. cbn [negb andb].
  destruct editing; cbn [editingHost h_form].
  - destruct (editingHost s) as [h|] eqn:E; cbn; [|done]. by split_and!.
  - cbn. by split_and!.
Qed.

(** A field of a host cannot be cleared: the form sends an emptied user name as no field at
    all, so the update request for the edited host is the same as one that never had a user. *)
Theorem emptied_user_not_sent (h : Host) (u : jsstring) :
  trim u = [] →
  let f := {| hf_label := host_label h; hf_hostname := host_hostname h; hf_sshUser := u;
              hf_sshPort := host_ssh_port h; hf_sshPrincipal := host_ssh_principal h |} in
  hi_ssh_user (form_input f) = None ∧
  assoc_get (js "ssh_user") (host_fields (form_input f)) = None.
Proof.
  intros Hu f. unfold f, form_input, host_fields. cbn [hi_ssh_user hf_sshUser]. rewrite Hu.
  split; [done|]. cbn [hi_ssh_port hi_ssh_principal hf_sshPort hf_sshPrincipal].
  by destruct (truthy_id (Some (host_ssh_port h))), (truthy (Some (trim (host_ssh_principal h)))).
Qed.

(** ** Witnesses *)

(** A response with the JSON text of [j]. *)
Definition json_response `{Json} (j : json) : Response :=
  {| status := 200; content_length := Some (js "9"); text := JSON_stringify j |}.

Lemma fetchApi_answers `{HJ : JsonLaws} net endpoint options (j : json) b :
  (∀ r, rq_url r = js "/api/v1" ++ endpoint → net r = Ok (json_response j)) →
  is_Some (localStorage b) → fetchApi net endpoint options b = (Ok j, b).
Proof.
  intros Hn [m Hm]. unfold fetchApi, getToken, sbind, slift. rewrite Hm.
  destruct (has_window b); cbn [negb storage_get]; rewrite Hn by reflexivity;
    unfold fetchApi_response, json_response; cbn [status Z.eqb Pos.eqb];
    change (response_ok _) with true; cbn [negb content_length text orb];
    rewrite !bool_decide_eq_false_2 by (intros E; vm_compute in E; discriminate E);
    cbn [orb]; unfold slift, json_parse; by rewrite JSON_parse_stringify.
Qed.

Lemma json_text_of `{HJ : JsonLaws} (j : json) :
  match JSON_stringify j with
  | [] => sret (S := Browser) (JObj [])
  | t => slift (json_parse t)
  end = sret j.
Proof.
  destruct (JSON_stringify_cons j) as (c & t & E). rewrite E, <- E. unfold json_parse.
  by rewrite JSON_parse_stringify.
Qed.

#[local] Existing Instance toy_crypto.
#[local] Existing Instance tree_json_text.

Definition demo_begin : json :=
  JObj [(js "publicKey", JObj [(js "challenge", JStr (js "AAAA"));
    (js "rp", JObj [(js "name", JStr (js "devsesh"))]);
    (js "user", JObj [(js "id", JStr (js "AQ"))]); (js "pubKeyCredParams", JArr [])])].

Definition demo_issued (share : jsstring) : json :=
  JObj [(js "token", JStr (js "t1")); (js "client_share", JStr share)].

(** A server that answers every registration with a share; [upload] is its answer to the share. *)
Definition demo_net (share : jsstring) (upload : Response) (r : Request) : result Response :=
  Ok (if decide (rq_url r = js "/api/v1/auth/register/begin") then json_response demo_begin
      else if decide (rq_url r = js "/api/v1/sshca/client-share") then upload
      else json_response (demo_issued share)).

Definition demo_credential : NewCredential :=
  {| nc_id := js "BA"; nc_rawId := [4]; nc_attestationObject := [5]; nc_clientDataJSON := [6];
     nc_transports := None; nc_publicKey := Some [7]; nc_publicKeyAlgorithm := Some (-8);
     nc_authenticatorData := None; nc_type := js "public-key"; nc_extensions := JObj [];
     nc_prf_enabled := true; nc_prf_first := false; nc_attachment := None |}.

Definition demo_register_env : RegisterEnv :=
  {| rp_supported := true; rp_create := λ _, Ok (Some demo_credential);
     rp_get := λ _ _ _ _, Ok (Some (Some (replicate 32 5)));
     rp_bufferToBase64URL := λ _, js "x"; rp_hostname := js "h";
     rp_masterKey := replicate 32 9; rp_challenge := replicate 32 1;
     rp_nonce := replicate 12 2; rp_share_nonce := replicate 12 3 |}.

Definition demo_page : Page :=
  {| pg_browser := demo_browser; pg_auth := {| auth_user := None; auth_token := None |};
     pg_calls := []; pg_error := []; pg_loading := false; pg_route := None |}.

Lemma demo_registration share upload :
  share ≠ [] →
  registration (demo_net share upload) demo_register_env (js "a@b") (js "t1") share
    demo_credential (replicate 32 5).
Proof.
  intros Hshare.
  assert (Hb : ∀ n x, is_byte x → length (replicate n x) = n ∧ Forall is_byte (replicate n x)).
  { intros n x Hx. split; [apply length_replicate|by apply Forall_replicate]. }
  split.
  - reflexivity.
  - exists demo_begin. do 2 eexists. split_and!.
    + intros b Hs. unfold run_call, registerBegin.
      apply (fetchApi_answers (HJ := tree_json_laws)); [|exact Hs].
      intros r Hr. unfold demo_net. by rewrite decide_True by exact Hr.
    + reflexivity.
    + vm_compute. reflexivity.
    + reflexivity.
    + reflexivity.
  - intros blob b Hs. unfold run_call, registerFinish, fetch_raw, check_ok, sbind. unfold slift at 1. unfold demo_net.
    cbn [rq_url]. rewrite decide_False, decide_False by (by vm_compute).
    change (response_ok _) with true. cbn iota. unfold json_response. cbn [text].
    by rewrite (json_text_of (HJ := tree_json_laws) (demo_issued share)).
  - discriminate.
  - exact Hshare.
  - by apply Hb.
  - by apply Hb.
  - by apply Hb.
Qed.

Lemma demo_upload share s : answers (demo_net share (json_response JNull)) (C_updateSSHCAClientShare s) JNull.
Proof.
  intros b Hs. unfold run_call, updateSSHCAClientShare, sbind.
  rewrite (fetchApi_answers (HJ := tree_json_laws) _ _ _ JNull); [reflexivity| |exact Hs].
  intros r Hr. unfold demo_net. rewrite decide_False, decide_True; [done|exact Hr|].
  rewrite Hr. by vm_compute.
Qed.

Lemma registered_account_signs_witness :
  ∃ p', handleRegister (demo_net (js "AQID") (json_response JNull)) demo_register_env (js "a@b") demo_page
    = (Ok tt, p') ∧ pg_route p' = Some (js "/dashboard").
Proof.
  destruct (registered_account_signs (HW := toy_crypto_laws) (demo_net (js "AQID") (json_response JNull))
    demo_register_env (js "a@b") (js "t1") (js "AQID") demo_credential (replicate 32 5) [1; 2; 3]
    demo_page {[ js "token" := js "t0"; js "theme" := js "dark" ]} (demo_registration (js "AQID") _ ltac:(discriminate)))
    as (k & blob & s & p' & E & _ & _ & _ & Er & _).
  - apply demo_upload.
  - vm_compute. reflexivity.
  - reflexivity.
  - exists p'. by split.
Defined.

Lemma failed_share_upload_witness :
  let '(r, p') := handleRegister
    (demo_net (js "AQID") {| status := 500; content_length := None; text := js "db" |})
    demo_register_env (js "a@b") demo_page in
  r = Ok tt ∧ pg_error p' = js "db".
Proof.
  pose proof (failed_share_upload (HW := toy_crypto_laws)
    (demo_net (js "AQID") {| status := 500; content_length := None; text := js "db" |})
    demo_register_env (js "a@b") (js "t1") (js "AQID") demo_credential (replicate 32 5) [1; 2; 3]
    demo_page {[ js "token" := js "t0"; js "theme" := js "dark" ]} (plain_error (js "db"))
    (demo_registration (js "AQID") _ ltac:(discriminate))) as H.
  destruct (handleRegister _ _ _ _) as [r p']. destruct H as (H1 & H2 & _).
  - intros s b [m Hm]. unfold run_call, updateSSHCAClientShare, fetchApi, getToken, sbind, slift.
    rewrite Hm. unfold demo_net. cbn [storage_get negb].
    destruct (has_window b); cbn [negb]; rewrite decide_False, decide_True by (by vm_compute); reflexivity.
  - vm_compute. reflexivity.
  - reflexivity.
  - by split.
Defined.

Lemma register_uploads_encrypted_witness :
  pg_loading (handleRegister (demo_net (js "AQID") (json_response JNull)) demo_register_env (js "a@b") demo_page).2
  = false.
Proof.
  pose proof (register_uploads_encrypted (HW := toy_crypto_laws) (demo_net (js "AQID") (json_response JNull))
    demo_register_env (js "a@b") demo_page) as H.
  destruct (handleRegister _ _ _ _) as [r p'].
  apply H; try reflexivity; apply Forall_replicate; unfold is_byte; lia.
Defined.

Lemma expired_token_redirects_witness :
  let net := λ _ : Request, Ok {| status := 401; content_length := None; text := [] |} in
  ProtectedRoute (run_call net C_listHosts demo_browser).2 = Ok (Some (js "/login")).
Proof.
  intros net.
  pose proof (expired_token_redirects net C_listHosts demo_browser
    {[ js "token" := js "t0"; js "theme" := js "dark" ]}) as H.
  destruct (run_call net C_listHosts demo_browser) as [r b'].
  apply H; [intros r'; by eexists|reflexivity|reflexivity].
Defined.

Lemma login_handle_roundtrip_witness :
  ∃ e, decodeBase64URL e = Ok (text_encode (js "u1")) ∧
    reencode_handle (JObj [(js "response", JObj [(js "userHandle", JStr (js "u1"))])])
    = Ok (JObj [(js "response", JObj [(js "userHandle", JStr e)])]).
Proof.
  pose proof (login_handle_roundtrip [(js "response", JObj [(js "userHandle", JStr (js "u1"))])]
    [(js "userHandle", JStr (js "u1"))] eq_refl) as H.
  destruct H as (e & _ & Ed & Er); [|by exists e].
  intros u [= <-]. repeat constructor; lia.
Defined.

Lemma emptied_user_not_sent_witness :
  let h := {| host_id_ := 1; host_label := js "a"; host_hostname := js "b";
              host_ssh_user := js "root"; host_ssh_port := 22; host_ssh_principal := [];
              host_user_id := 1; host_created_at := []; host_updated_at := [] |} in
  hi_ssh_user (form_input {| hf_label := js "a"; hf_hostname := js "b"; hf_sshUser := js " ";
    hf_sshPort := 22; hf_sshPrincipal := [] |}) = None.
Proof. intros h. by apply (emptied_user_not_sent h (js " ")). Defined.
