(* ===== verification/PasskeyAuth.v ===== *)
(** * Proving a passkey before enrolling another ([handleSubmit] of [pages/AddPasskeyPage.tsx])

    Machine A asks the server for a challenge, has the authenticator sign it, sends the
    assertion back and derives the PRF key; only then is the enrollment socket opened, whose
    messages [Enrollment.v] models.  The computation runs over the log of its requests; the
    server is [av_fetch] and the authenticator [av_get]. *)

From S2P Require Import Prelude Js Models ApiTypes Encoding Crypto Api FrostWire Frost FrostWorker FrostClient Accounts Enrollment.
#[local] Open Scope Z_scope.
#[local] Open Scope js_scope.

(** What is passed to [navigator.credentials.get]; [go_options] holds the properties that are
    passed on as the server sent them. *)
Record GetOptions := {
  go_challenge : bytes;
  go_allowCredentials : option (list bytes);
  go_prf : PrfExtension;
  go_options : json;
}.

(** The assertion: [as_extensions] is the JSON of its extension results, [as_prf_first] the PRF
    output among them. *)
Record PasskeyAssertion := {
  as_id : jsstring;
  as_rawId : bytes;
  as_clientDataJSON : bytes;
  as_authenticatorData : bytes;
  as_signature : bytes;
  as_userHandle : option bytes;
  as_extensions : json;
  as_prf_first : option bytes;
}.

Record AuthEnv := {
  av_fetch : Request → result Response;
  av_get : GetOptions → result (option PasskeyAssertion);
  (** [bufferToBase64URLString] of the WebAuthn package. *)
  av_bufferToBase64URL : bytes → jsstring;
}.

(** Computations over the log of the requests. *)
Abbreviation AM := (SM (list Request)).

Section auth.
Context {W : WebCrypto} {J : Json}.

Definition fetch (env : AuthEnv) (rq : Request) : AM Response := λ log,
  (av_fetch env rq, log ++ [rq]).

(** [fetch(path, { method: 'POST', headers, body })]. *)
Definition auth_post (path token : jsstring) (body : option jsstring) : Request :=
  {| rq_url := path; rq_method := js "POST";
     rq_headers := [(js "Content-Type", js "application/json");
                    (js "Authorization", js "Bearer " ++ token)];
     rq_body := body |}.

Definition begin_request (token : jsstring) : Request :=
  auth_post (js "/api/v1/auth/passkeys/auth-begin") token None.

(** From [options] to the argument of [get]: the credentials first, then the challenge. *)
Definition get_options (options : option json) : result GetOptions :=
  match options with
  | None => Throw (type_error "Cannot read properties of undefined (reading 'publicKey')")
  | Some opts =>
      let! pkOpts := prop_defined (js "publicKey") opts in
      let! allowed := prop (js "allowCredentials") pkOpts in
      let! mapped :=
        match allowed with
        | Some (JArr cs) =>
            let! ids := array_map (λ c, let! i := prop_string (js "id") c in decodeBase64URL i) cs in
            Ok (Some ids)
        | Some JNull | None => Ok None
        | Some _ => Throw (type_error "map is not a function")
        end in
      let! c := prop_string (js "challenge") pkOpts in
      let! challenge := decodeBase64URL c in
      let! prf := buildPrfGetExtension (default [] mapped) getPrfSalt in
      Ok {| go_challenge := challenge; go_allowCredentials := mapped; go_prf := prf;
            go_options := pkOpts |}
  end.

(** The user handle is encoded as raw bytes. *)
Definition credJSON (env : AuthEnv) (a : PasskeyAssertion) : result json :=
  let b64 x := JStr (av_bufferToBase64URL env x) in
  let! userHandle := match as_userHandle a with
                     | Some h => let! s := encodeBase64URL h in Ok (JStr s)
                     | None => Ok JNull
                     end in
  Ok (JObj [(js "id", JStr (as_id a));
            (js "rawId", b64 (as_rawId a));
            (js "response", JObj
               [(js "clientDataJSON", b64 (as_clientDataJSON a));
                (js "authenticatorData", b64 (as_authenticatorData a));
                (js "signature", b64 (as_signature a));
                (js "userHandle", userHandle)]);
            (js "type", JStr (js "public-key"));
            (js "clientExtensionResults", as_extensions a)]).

Definition finish_request (token : jsstring) (sessKey : option json) (cred : json) : Request :=
  auth_post (js "/api/v1/auth/passkeys/auth-finish") token
    (stringify (opt_field (js "session_key") sessKey ++ [(js "credential", cred)])).

(** The PRF key; an empty output counts as none. *)
Definition prf_key (a : PasskeyAssertion) : result (option bytes) :=
  match as_prf_first a with
  | Some (b :: p) => let! k := deriveMasterKeyFromPrf (b :: p) in Ok (Some k)
  | Some [] | None => Ok None
  end.

(** From the first request to the PRF key, with the raw id of the passkey. *)
Definition authenticate (env : AuthEnv) (token : jsstring) : AM (option bytes * bytes) :=
  let* beginResp := fetch env (begin_request token) in
  if negb (response_ok beginResp) then
    sthrow (plain_error (js "Failed to get authentication options"))
  else
  let* body := slift (json_parse (text beginResp)) in
  let* authOptions := slift (prop (js "options") body) in
  let* sessKey := slift (prop (js "sessionKey") body) in
  let* options := slift (get_options authOptions) in
  let* assertion := slift (av_get env options) in
  match assertion with
  | None => sthrow (plain_error (js "No credential returned"))
  | Some a =>
      let* cred := slift (credJSON env a) in
      let* finishResp := fetch env (finish_request token sessKey cred) in
      if negb (response_ok finishResp) then
        sthrow (plain_error (js "Authentication verification failed"))
      else
      let* k := slift (prf_key a) in
      sret (k, as_rawId a)
  end.

(** The socket that is opened, with what its handlers close over. *)
Record Enrolling := {
  en_url : jsstring;
  en_code : jsstring;
  en_prfKey : option bytes;
  en_rawId : bytes;
}.

(** [handleSubmit] up to the socket: the machine, its requests, the socket. *)
Definition handleSubmit (env : AuthEnv) (b : Browser) (code : jsstring) (supported : bool)
    (token : option jsstring) (a : DeviceA) : DeviceA * list Request * option Enrolling :=
  match handleSubmit_begin code supported token a with
  | (None, a) => (a, [], None)
  | (Some (clean, t), a) =>
      match authenticate env t [] with
      | (Throw e, log) => (a_update St_error (err_message e) a, log, None)
      | (Ok (k, raw), log) =>
          let a := a_update St_connecting (a_error a) a in
          match getEnrollmentWebSocketURL clean (Some t) b with
          | Throw e => (a_update St_error (err_message e) a, log, None)
          | Ok url => (a, log, Some {| en_url := url; en_code := clean; en_prfKey := k; en_rawId := raw |})
          end
      end
  end.
End auth.

(** ** Facts *)

Section auth_theory.
Context {W : WebCrypto} {HW : WebCryptoLaws W} {J : Json} {HJ : JsonLaws J}.

(** What a completed authentication went through. *)
Record authenticated (env : AuthEnv) (token : jsstring) (log : list Request)
    (k : option bytes) (raw : bytes) : Prop := {
  ad_trace : ∃ beginResp body authOptions sessKey options a cred finishResp,
    av_fetch env (begin_request token) = Ok beginResp ∧ response_ok beginResp = true ∧
    JSON_parse (text beginResp) = Some body ∧
    prop (js "options") body = Ok authOptions ∧ prop (js "sessionKey") body = Ok sessKey ∧
    get_options authOptions = Ok options ∧ av_get env options = Ok (Some a) ∧
    credJSON env a = Ok cred ∧
    av_fetch env (finish_request token sessKey cred) = Ok finishResp ∧ response_ok finishResp = true ∧
    log = [begin_request token; finish_request token sessKey cred] ∧
    prf_key a = Ok k ∧ raw = as_rawId a;
}.

Lemma authenticate_inv env token k raw log :
  authenticate env token [] = (Ok (k, raw), log) → authenticated env token log k raw.
Proof.
  intros H. unfold authenticate in H.
  apply sbind_ok_inv in H as (beginResp & l1 & H1 & H). unfold fetch in H1.
  destruct (response_ok beginResp) eqn:Eb; [|done]. cbn [negb] in H.
  apply sbind_ok_inv in H as (body & l2 & H2 & H).
  apply sbind_ok_inv in H as (authOptions & l3 & H3 & H).
  apply sbind_ok_inv in H as (sessKey & l4 & H4 & H).
  apply sbind_ok_inv in H as (options & l5 & H5 & H).
  apply sbind_ok_inv in H as ([a|] & l6 & H6 & H); [|done].
  apply sbind_ok_inv in H as (cred & l7 & H7 & H).
  apply sbind_ok_inv in H as (finishResp & l8 & H8 & H). unfold fetch in H8.
  destruct (response_ok finishResp) eqn:Ef; [|done]. cbn [negb] in H.
  apply sbind_ok_inv in H as (k' & l9 & H9 & H).
  unfold slift in *. injection H as <- <- <-. injection H1 as H1 <-. injection H2 as H2 <-.
  injection H3 as H3 <-. injection H4 as H4 <-. injection H5 as H5 <-. injection H6 as H6 <-.
  injection H7 as H7 <-. injection H8 as H8 <-. injection H9 as H9 <-.
  unfold json_parse in H2. destruct (JSON_parse (text beginResp)) as [j|] eqn:Ej; [|done].
  injection H2 as ->. split. by exists beginResp, body, authOptions, sessKey, options, a, cred, finishResp.
Qed.

Lemma handleSubmit_begin_code code supported token a c t a' :
  handleSubmit_begin code supported token a = (Some (c, t), a') →
  valid_code code = true ∧ supported = true ∧ truthy token = Some t ∧ c = cleanCode code.
Proof.
  unfold handleSubmit_begin. destruct (valid_code code); [|done]. destruct supported; [|done].
  cbn [negb]. destruct (truthy token) as [t'|]; [|done]. by intros [= <- <- _].
Qed.


(** The user handle survives its way to the server: what the body of the last request holds
    is url-safe base64 without padding, and decodes to the authenticator's bytes, whatever they
    are; the session key it returns is the server's. *)
Theorem assertion_roundtrip env token sessKey a cred h :
  as_userHandle a = Some h → Forall is_byte h → credJSON env a = Ok cred →
  ∃ body response s,
    rq_body (finish_request token sessKey cred) = Some body ∧
    JSON_parse body = Some (JObj (opt_field (js "session_key") sessKey ++ [(js "credential", cred)])) ∧
    json_get (js "response") cred = Some response ∧
    json_get (js "userHandle") response = Some (JStr s) ∧
    Forall url_safe s ∧ decodeBase64URL s = Ok h.
Proof.
  intros Hh Hb Hc. unfold credJSON in Hc. rewrite Hh in Hc.
  destruct (encodeBase64URL_decodes h Hb) as (s & Es & Hs & Ds). rewrite Es in Hc.
  cbn [rbind] in Hc. injection Hc as <-. do 2 eexists. exists s.
  split_and!; [reflexivity|apply JSON_parse_stringify|reflexivity|reflexivity|done|done].
Qed.

(** Both requests are answered and accepted, the authenticator answering with [a]. *)
Record accepts (env : AuthEnv) (token : jsstring) (a : PasskeyAssertion) : Prop := {
  ac_trace : ∃ beginResp body authOptions sessKey options cred finishResp,
    av_fetch env (begin_request token) = Ok beginResp ∧ response_ok beginResp = true ∧
    JSON_parse (text beginResp) = Some body ∧
    prop (js "options") body = Ok authOptions ∧ prop (js "sessionKey") body = Ok sessKey ∧
    get_options authOptions = Ok options ∧ av_get env options = Ok (Some a) ∧
    credJSON env a = Ok cred ∧
    av_fetch env (finish_request token sessKey cred) = Ok finishResp ∧ response_ok finishResp = true;
}.

Lemma authenticate_ok env token a k :
  accepts env token a → prf_key a = Ok k →
  ∃ log, authenticate env token [] = (Ok (k, as_rawId a), log).
Proof.
  intros [(r1 & body & o & sk & opts & cred & r2 & H1 & H2 & H3 & H4 & H5 & H6 & H7 & H8 & H9 & H10)] Hk.
  unfold authenticate, sbind, fetch at 1. rewrite H1. cbv beta iota. rewrite H2. cbn [negb].
  unfold slift, json_parse. rewrite H3, H4, H5, H6, H7, H8. unfold fetch. rewrite H9, H10. cbn [negb].
  rewrite Hk. by eexists.
Qed.

(** An authenticator without PRF is noticed late: the socket is opened all the same, and only
    when Machine B's message arrives does the transfer fail, with the peer told why; with a PRF
    output the socket's handlers hold the key derived from it. *)
Theorem prf_decides_transfer env b code token t a0 a :
  valid_code code = true → truthy token = Some t → accepts env t a0 →
  is_ok (getEnrollmentWebSocketURL (cleanCode code) (Some t) b) = true →
  ∃ a' log s, handleSubmit env b code true token a = (a', log, Some s) ∧ en_rawId s = as_rawId a0 ∧
    match default [] (as_prf_first a0) with
    | [] => ∀ envA key, ea_prfKey envA = en_prfKey s →
        transfer envA key = Throw (plain_error (js "No PRF key available for decrypting master key"))
    | prf => ∃ k, en_prfKey s = Some k ∧ deriveMasterKeyFromPrf prf = Ok k
    end.
Proof.
  intros Hv Ht Hacc Hurl.
  assert (Hk : ∃ k, prf_key a0 = Ok k ∧ match default [] (as_prf_first a0) with
                 | [] => k = None
                 | prf => ∃ k', k = Some k' ∧ deriveMasterKeyFromPrf prf = Ok k' end).
  { unfold prf_key. destruct (as_prf_first a0) as [[|x l]|]; cbn [default from_option Datatypes.id];
      [by eexists| |by eexists].
    destruct (hkdf_bits_length (x :: l) getPrfSalt (text_encode (js "master-key-derivation")) 32)
      as (k' & Ek & _); [lia|].
    unfold deriveMasterKeyFromPrf. change 256 with (32 * 8). rewrite Ek. eexists. split; [done|].
    by exists k'. }
  destruct Hk as (k & Hk & Hm). destruct (authenticate_ok env t a0 k Hacc Hk) as [log E].
  unfold handleSubmit, handleSubmit_begin. rewrite Hv, Ht. cbn [negb]. rewrite E.
  destruct (getEnrollmentWebSocketURL _ _ b) as [url|]; [|done].
  do 3 eexists. split; [reflexivity|]. split; [done|]. cbn [en_prfKey].
  destruct (default [] (as_prf_first a0)); [subst k|exact Hm].
  intros envA key HA. unfold transfer. by rewrite HA.
Qed.
End auth_theory.

(** ** Witnesses *)

Definition demo_options : json :=
  JObj [(js "publicKey", JObj [(js "challenge", JStr (js "AQID"));
                               (js "allowCredentials", JArr [JObj [(js "id", JStr (js "BAUG"))]])])].

Definition demo_assertion (prf : option bytes) : PasskeyAssertion :=
  {| as_id := js "BAUG"; as_rawId := [4; 5; 6]; as_clientDataJSON := [1]; as_authenticatorData := [2];
     as_signature := [3]; as_userHandle := Some [200; 0; 255]; as_extensions := JObj [];
     as_prf_first := prf |}.

(** A server that hands out [demo_options] under the session key ["k"] and accepts anything. *)
Definition demo_auth (prf : option bytes) : AuthEnv :=
  {| av_fetch _ := Ok {| status := 200; content_length := None;
       text := JSON_stringify (Json := tree_json_text)
                 (JObj [(js "options", demo_options); (js "sessionKey", JStr (js "k"))]) |};
     av_get _ := Ok (Some (demo_assertion prf));
     av_bufferToBase64URL b := b |}.

Lemma demo_accepts prf : accepts (J := tree_json_text) (demo_auth prf) (js "t0") (demo_assertion prf).
Proof.
  split. eexists _, _, _, _, _, _, _.
  split_and!; [reflexivity|reflexivity|apply JSON_parse_stringify|reflexivity|reflexivity
              |reflexivity|reflexivity|reflexivity|reflexivity|reflexivity].
Qed.

Lemma assertion_roundtrip_witness :
  ∃ cred response s, credJSON (demo_auth None) (demo_assertion None) = Ok cred ∧
    json_get (js "response") cred = Some response ∧
    json_get (js "userHandle") response = Some (JStr s) ∧ decodeBase64URL s = Ok [200; 0; 255].
Proof.
  destruct (assertion_roundtrip (J := tree_json_text) (HJ := tree_json_laws) (demo_auth None) (js "t0") None
              (demo_assertion None) (default JNull (ok_value (credJSON (demo_auth None) (demo_assertion None))))
              [200; 0; 255]) as (body & response & s & _ & _ & H1 & H2 & _ & H3);
    [reflexivity|repeat constructor; unfold is_byte; lia|reflexivity|].
  eexists _, response, s. split_and!; [reflexivity|exact H1|exact H2|exact H3].
Defined.

Definition idle_a : DeviceA :=
  {| a_status := St_idle; a_error := []; a_sessionKey := None; a_completed := false; a_open := false;
     a_sent := [] |}.

Lemma prf_decides_transfer_witness :
  ∃ a' log s,
    handleSubmit (J := tree_json_text) (W := toy_crypto) (demo_auth None) demo_browser (js "ABCD-1234") true
      (Some (js "t0")) idle_a = (a', log, Some s) ∧ en_rawId s = [4; 5; 6].
Proof.
  destruct (prf_decides_transfer (J := tree_json_text) (HW := toy_crypto_laws) (demo_auth None) demo_browser
              (js "ABCD-1234") (Some (js "t0")) (js "t0") (demo_assertion None) idle_a)
    as (a' & log & s & H1 & H2 & _);
    [reflexivity|reflexivity|exact (demo_accepts None)|reflexivity|].
  exists a', log, s. split; [exact H1|exact H2].
Defined.
