(* ===== verification/Overlay.v ===== *)
(** * The quick keys overlay ([components/QuickKeysOverlay.tsx])

    Its three tabs: sending a saved or preset key, building a macro step by step, and managing
    the saved keys.  The list, its changes and the encoder are those of [QuickKeysHook] and
    [QuickKeys]; the last section puts them together. *)

From S2P Require Import Prelude Js Models ApiTypes Api QuickKeys QuickKeysHook.
#[local] Open Scope Z_scope.
#[local] Open Scope js_scope.

(** ["abc...z"] and ["0"] to ["9"], one string each. *)
Definition single_keys (from : Z) (n : nat) : list jsstring := (λ c, [c]) <$> seqZ from (Z.of_nat n).

Definition BASE_KEYS : list jsstring :=
  single_keys 97 26 ++ single_keys 48 10 ++
  [js "escape"; js "tab"; js "up"; js "down"; js "left"; js "right"; js "home"; js "end";
   js "page up"; js "page down"] ++
  imap (λ i _, js "f" ++ of_int (Z.of_nat i + 1)) (replicate 12 tt).

Inductive Tab := T_send | T_builder | T_manage.

(** The overlay itself: whether it is open, its tab, and the specs handed to [onSend]. *)
Record OverlayState := { ov_isOpen : bool; ov_tab : Tab; ov_sent : list json }.

Definition setTab (t : Tab) (o : OverlayState) : OverlayState :=
  {| ov_isOpen := ov_isOpen o; ov_tab := t; ov_sent := ov_sent o |}.

(** [onSend(spec); onClose()]. *)
Definition overlay_send (spec : json) (o : OverlayState) : OverlayState :=
  {| ov_isOpen := false; ov_tab := ov_tab o; ov_sent := ov_sent o ++ [spec] |}.

(** ** The send tab *)

Section send.
Context {J : Json}.

Definition send_saved (k : QuickKey) (o : OverlayState) : OverlayState :=
  overlay_send (parseSpec (qk_spec k)) o.

Definition send_preset (p : PresetQuickKey) (o : OverlayState) : OverlayState :=
  overlay_send (JArr (step_json <$> preset_spec p)) o.
End send.

(** ** The builder *)

Inductive EditMode := M_combo | M_literal.

Record Builder := {
  bd_name : jsstring;
  bd_displayToken : jsstring;
  bd_steps : list QuickKeyStep;
  bd_pin : bool;
  bd_saving : bool;
  bd_editMode : EditMode;
  bd_ctrl : bool; bd_alt : bool; bd_shift : bool;
  bd_baseKey : jsstring;
  bd_literalText : jsstring;
  bd_literalEnter : bool;
}.

Definition builder_initial : Builder :=
  {| bd_name := []; bd_displayToken := []; bd_steps := []; bd_pin := false; bd_saving := false;
     bd_editMode := M_combo; bd_ctrl := false; bd_alt := false; bd_shift := false;
     bd_baseKey := js "c"; bd_literalText := []; bd_literalEnter := false |}.

Definition bd_texts (n t : jsstring) (b : Builder) : Builder :=
  {| bd_name := n; bd_displayToken := t; bd_steps := bd_steps b; bd_pin := bd_pin b;
     bd_saving := bd_saving b; bd_editMode := bd_editMode b; bd_ctrl := bd_ctrl b;
     bd_alt := bd_alt b; bd_shift := bd_shift b; bd_baseKey := bd_baseKey b;
     bd_literalText := bd_literalText b; bd_literalEnter := bd_literalEnter b |}.
Definition bd_set_steps (l : list QuickKeyStep) (b : Builder) : Builder :=
  {| bd_name := bd_name b; bd_displayToken := bd_displayToken b; bd_steps := l; bd_pin := bd_pin b;
     bd_saving := bd_saving b; bd_editMode := bd_editMode b; bd_ctrl := bd_ctrl b;
     bd_alt := bd_alt b; bd_shift := bd_shift b; bd_baseKey := bd_baseKey b;
     bd_literalText := bd_literalText b; bd_literalEnter := bd_literalEnter b |}.
Definition bd_set_saving (s : bool) (b : Builder) : Builder :=
  {| bd_name := bd_name b; bd_displayToken := bd_displayToken b; bd_steps := bd_steps b;
     bd_pin := bd_pin b; bd_saving := s; bd_editMode := bd_editMode b; bd_ctrl := bd_ctrl b;
     bd_alt := bd_alt b; bd_shift := bd_shift b; bd_baseKey := bd_baseKey b;
     bd_literalText := bd_literalText b; bd_literalEnter := bd_literalEnter b |}.
Definition bd_edit (m : EditMode) (c a s : bool) (k text : jsstring) (enter : bool) (b : Builder) : Builder :=
  {| bd_name := bd_name b; bd_displayToken := bd_displayToken b; bd_steps := bd_steps b;
     bd_pin := bd_pin b; bd_saving := bd_saving b; bd_editMode := m; bd_ctrl := c;
     bd_alt := a; bd_shift := s; bd_baseKey := k; bd_literalText := text; bd_literalEnter := enter |}.

(** The step the editor describes. *)
Definition edited_step (b : Builder) : QuickKeyStep :=
  match bd_editMode b with
  | M_combo => QuickKeyComboStep (bd_ctrl b) (bd_alt b) (bd_shift b) (bd_baseKey b)
  | M_literal => QuickKeyLiteralStep (bd_literalText b) (bd_literalEnter b)
  end.

Definition addStep (b : Builder) : Builder := bd_set_steps (bd_steps b ++ [edited_step b]) b.

(** [prev.filter((_, i) => i !== index)]. *)
Definition removeStep (index : nat) (b : Builder) : Builder :=
  bd_set_steps (delete index (bd_steps b)) b.

(** [e.target.value.slice(0, 20)] of the token field. *)
Definition setToken (value : jsstring) (b : Builder) : Builder :=
  bd_texts (bd_name b) (take 20 value) b.

Definition can_save (b : Builder) : bool :=
  negb (bool_decide (trim (bd_name b) = []) || bool_decide (trim (bd_displayToken b) = [])
        || (length (bd_steps b) =? 0)%nat).

(** [handleSave] up to its [await]: the arguments of [onCreate]. *)
Definition handleSave_begin (b : Builder)
    : option (jsstring * jsstring * list QuickKeyStep * bool) * Builder :=
  if can_save b then
    (Some (trim (bd_name b), trim (bd_displayToken b), bd_steps b, bd_pin b), bd_set_saving true b)
  else (None, b).

(** After [onCreate] settled; [true] closes the builder ([onClose], which shows the manage
    tab). *)
Definition handleSave_finish {A} (answer : result A) (b : Builder) : bool * Builder :=
  match answer with
  | Ok _ => (true, bd_set_saving false (bd_set_steps [] (bd_texts [] [] b)))
  | Throw _ => (false, bd_set_saving false b)
  end.

(** The modifiers' names, each with its [+]. *)
Definition describeStep (s : QuickKeyStep) : jsstring :=
  match s with
  | QuickKeyLiteralStep text enter =>
      [34] ++ text ++ [34] ++ (if enter then js " + Enter" else [])
  | QuickKeyComboStep ctrl alt shift key =>
      let mods := (if ctrl then [js "Ctrl"] else []) ++ (if alt then [js "Alt"] else []) ++
                  (if shift then [js "Shift"] else []) in
      concat ((λ m, m ++ js "+") <$> mods) ++ key
  end.

(** ** The manage tab *)

(** The argument of [onReorder], if it is called; [down] is the direction. *)
Definition moveItem (fromIndex : nat) (down : bool) (quickKeys : list QuickKey) : option (list Z) :=
  let toIndex := Z.of_nat fromIndex + (if down then 1 else -1) in
  if (toIndex <? 0) || (Z.of_nat (length quickKeys) <=? toIndex) then None
  else
    let ids := key_ids quickKeys in
    match ids !! fromIndex, ids !! Z.to_nat toIndex with
    | Some tmp, Some other => Some (<[Z.to_nat toIndex := tmp]> (<[fromIndex := other]> ids))
    | _, _ => None
    end.

Record Manage := { mg_editingId : option Z; mg_editName : jsstring; mg_editToken : jsstring }.

Definition startEdit (k : QuickKey) : Manage :=
  {| mg_editingId := Some (qk_id k); mg_editName := qk_name k; mg_editToken := qk_display_token k |}.

(** The fields handed to [onUpdate]. *)
Definition saveEdit_begin (m : Manage) : QuickKeyPatch :=
  {| qp_name := Some (mg_editName m); qp_display_token := Some (mg_editToken m);
     qp_spec := None; qp_pinned := None; qp_sort_order := None |}.

(** A rejection leaves the row in its editor. *)
Definition saveEdit_finish (answer : result unit) (m : Manage) : Manage :=
  match answer with
  | Ok _ => {| mg_editingId := None; mg_editName := mg_editName m; mg_editToken := mg_editToken m |}
  | Throw _ => m
  end.

(** ** Facts: what the builder offers *)

(** A combination and the one a terminal takes it for: the modifiers the encoding drops, and
    ctrl+i, which is the tab. *)
Definition Combo : Type := bool * bool * bool * jsstring.

Definition indistinct (c : Combo) : Combo :=
  let '(ctrl, alt, shift, key) := c in
  if bool_decide (key = js "escape") then (false, alt, false, key)
  else if bool_decide (key = js "tab") then
    (if shift then (false, false, true, key) else (false, alt, false, key))
  else if bool_decide (key ∈ xterm_keys) then (ctrl, alt, shift, key)
  else if is_lower_letter key then
    (if ctrl then
       (if bool_decide (key = js "i") then (false, alt, false, js "tab") else (true, alt, false, key))
     else (false, alt, shift, key))
  else (false, alt, false, key).

Definition all_combos : list Combo :=
  c ← [true; false]; a ← [true; false]; s ← [true; false]; k ← BASE_KEYS; [(c, a, s, k)].

Definition combo_step (c : Combo) : QuickKeyStep :=
  let '(ctrl, alt, shift, key) := c in QuickKeyComboStep ctrl alt shift key.

Lemma elem_of_all_combos c a s k : (c, a, s, k) ∈ all_combos ↔ k ∈ BASE_KEYS.
Proof.
  unfold all_combos. repeat setoid_rewrite list_elem_of_bind. split.
  - intros (c' & Hc & _). repeat (destruct Hc as (? & Hc & ?)).
    apply list_elem_of_singleton in Hc. by injection Hc as -> -> -> ->.
  - intros Hk. assert (Hb : ∀ b, b ∈ [true; false]) by (intros []; set_solver).
    exists c. split; [|done]. exists a. split; [|done]. exists s. split; [|done].
    exists k. split; [by apply list_elem_of_singleton|done].
Qed.

(** The bytes of a combination, in the ASCII locale. *)
Definition combo_bytes (c : Combo) : result bytes := @encodeStep ascii_locale (combo_step c).

(** How a terminal reads such bytes: the keys of [xterm_decode], tab and escape, and a character
    or control code, each possibly after an escape byte for alt. *)
Definition read_char (alt : bool) (c : Z) : option Combo :=
  if c =? 9 then Some (false, alt, false, js "tab")
  else if c =? 27 then Some (false, alt, false, js "escape")
  else if (1 <=? c) && (c <=? 26) then Some (true, alt, false, [c + 96])
  else if (97 <=? c) && (c <=? 122) || (48 <=? c) && (c <=? 57) then Some (false, alt, false, [c])
  else if (65 <=? c) && (c <=? 90) then Some (false, alt, true, [c + 32])
  else None.

Definition terminal_reads (bs : bytes) : option Combo :=
  match bs with
  | [27; 91; 90] => Some (false, false, true, js "tab")
  | [c] => read_char false c
  | [27; c] => read_char true c
  | _ => (λ r : jsstring * (bool * bool * bool), (r.2, r.1)) <$> xterm_decode bs
  end.

Lemma all_combos_checked :
  forallb (λ c, match combo_bytes c with
                | Ok bs => bool_decide (terminal_reads bs = Some (indistinct c))
                           && bool_decide (combo_bytes (indistinct c) = Ok bs)
                | Throw _ => false
                end) all_combos = true.
Proof. vm_compute. reflexivity. Qed.

Lemma BASE_KEYS_ascii : Forall (Forall (λ c, 0 <= c < 128)) BASE_KEYS.
Proof.
  assert (H : forallb (forallb (λ c, (0 <=? c) && (c <? 128))) BASE_KEYS = true) by (vm_compute; reflexivity).
  apply Forall_forall. intros k Hk. rewrite forallb_forall in H.
  specialize (H k (proj1 (list_elem_of_In _ _) Hk)).
  apply Forall_forall. intros c Hc. rewrite forallb_forall in H.
  specialize (H c (proj1 (list_elem_of_In _ _) Hc)). zbool. lia.
Qed.

(** On ASCII keys the encoding does not depend on the locale. *)
Lemma encodeStep_ascii {L : Locale} {HL : LocaleLaws L} c a s k :
  Forall (λ c, 0 <= c < 128) k →
  encodeStep (QuickKeyComboStep c a s k) = combo_bytes (c, a, s, k).
Proof.
  intros Hk. unfold combo_bytes, combo_step, encodeStep.
  rewrite (toLowerCase_ascii k Hk). change (@toLowerCase ascii_locale k) with (ascii_lower k).
  assert (Hl : Forall (λ c, 0 <= c < 128) (ascii_lower k)).
  { unfold ascii_lower. apply Forall_fmap. eapply Forall_impl; [exact Hk|].
    intros x Hx. unfold compose. cbn beta in *. case_if; zbool; lia. }
  unfold encodeCombo. rewrite !(toUpperCase_ascii _ Hl). reflexivity.
Qed.

Lemma indistinct_base c a s k :
  k ∈ BASE_KEYS → ∃ c' a' s' k', indistinct (c, a, s, k) = (c', a', s', k') ∧ k' ∈ BASE_KEYS.
Proof.
  intros Hk. assert (Ht : js "tab" ∈ BASE_KEYS) by (apply list_elem_of_In; vm_compute; tauto).
  unfold indistinct. repeat case_bool_decide; repeat case_if; do 4 eexists; by split.
Qed.

(** What the builder offers can be told apart exactly up to the modifiers a terminal does
    not have: whatever key of the list and modifiers are chosen, the step encodes to bytes that
    a terminal reads as the combination [indistinct] gives, and two choices send the same bytes
    only if [indistinct] makes them equal: ctrl is dropped on digits, escape and tab, shift on
    digits, escape and control letters, alt on a shifted tab, and ctrl+i is the tab. *)
Theorem builder_combos_distinct {L : Locale} {HL : LocaleLaws L} c a s k c' a' s' k' :
  k ∈ BASE_KEYS → k' ∈ BASE_KEYS →
  ∃ bs, encodeStep (QuickKeyComboStep c a s k) = Ok bs ∧
    terminal_reads bs = Some (indistinct (c, a, s, k)) ∧
    (encodeStep (QuickKeyComboStep c' a' s' k') = Ok bs ↔
     indistinct (c, a, s, k) = indistinct (c', a', s', k')).
Proof.
  intros Hk Hk'. pose proof BASE_KEYS_ascii as HA. rewrite Forall_forall in HA.
  rewrite !encodeStep_ascii by (by apply HA).
  assert (H : ∀ x, x ∈ all_combos → ∃ bs, combo_bytes x = Ok bs ∧
    terminal_reads bs = Some (indistinct x) ∧ combo_bytes (indistinct x) = Ok bs).
  { intros x Hx. pose proof all_combos_checked as Hc. rewrite forallb_forall in Hc.
    specialize (Hc x (proj1 (list_elem_of_In _ _) Hx)).
    destruct (combo_bytes x) as [bs|]; [|done]. exists bs.
    apply andb_true_iff in Hc as [H1%bool_decide_eq_true H2%bool_decide_eq_true]. done. }
  destruct (H (c, a, s, k)) as (bs & E & R & N); [by apply elem_of_all_combos|].
  destruct (H (c', a', s', k')) as (bs' & E' & R' & N'); [by apply elem_of_all_combos|].
  exists bs. split_and!; [done|done|]. split.
  - intros Eq. assert (bs' = bs) as -> by congruence. congruence.
  - intros Eq. congruence.
Qed.

(** ** Facts: building, saving and sending *)

Section builder_facts.
Context {J : Json} {HJ : JsonLaws J}.

(** What is built is what is sent: a complete draft is saved under its trimmed texts, and
    the saved key, once the server has stored its spec, hands the terminal exactly the steps
    of the draft; saving empties the draft, a failed save keeps it, and an incomplete draft is
    never saved. *)
Theorem built_key_is_sent b now iso captured created o :
  match handleSave_begin b with
  | (Some (n, t, steps, pin), b1) =>
      n = trim (bd_name b) ∧ n ≠ [] ∧ t = trim (bd_displayToken b) ∧ t ≠ [] ∧
      steps = bd_steps b ∧ steps ≠ [] ∧ pin = bd_pin b ∧
      (qk_spec created = qk_spec (create_temp now iso n t steps pin captured) →
       let o' := send_saved created o in
       ov_isOpen o' = false ∧ ∃ spec, ov_sent o' = ov_sent o ++ [JArr spec] ∧ omap json_step spec = steps) ∧
      (∀ k : QuickKey, handleSave_finish (Ok k) b1 =
         (true, bd_set_steps [] (bd_texts [] [] (bd_set_saving false b)))) ∧
      (∀ e, handleSave_finish (Throw e : result QuickKey) b1 = (false, bd_set_saving false b))
  | (None, b1) => b1 = b ∧ (trim (bd_name b) = [] ∨ trim (bd_displayToken b) = [] ∨ bd_steps b = [])
  end.
Proof.
  unfold handleSave_begin, can_save.
  destruct (decide (trim (bd_name b) = [])) as [En|En];
    [rewrite bool_decide_eq_true_2 by done; cbn; by auto|rewrite bool_decide_eq_false_2 by done].
  destruct (decide (trim (bd_displayToken b) = [])) as [Et|Et];
    [rewrite bool_decide_eq_true_2 by done; cbn; by auto|rewrite bool_decide_eq_false_2 by done].
  destruct (bd_steps b) as [|st sts] eqn:Es; cbn; [by auto|].
  split_and!; try done.
  intros Hc. cbn [create_temp qk_spec] in Hc. split; [done|]. unfold send_saved. rewrite Hc.
  exists (step_json <$> (st :: sts)). split.
  - unfold stringify_spec, parseSpec. by rewrite JSON_parse_stringify.
  - clear. induction (st :: sts) as [|x l IH]; [done|].
    rewrite fmap_cons. cbn [omap list_omap]. by rewrite json_step_json, IH.
Qed.
End builder_facts.

(** ** Facts: moving a key *)

Lemma moveItem_swap l1 a b l2 :
  moveItem (length l1) true (l1 ++ a :: b :: l2) = Some (key_ids (l1 ++ b :: a :: l2)) ∧
  moveItem (S (length l1)) false (l1 ++ a :: b :: l2) = Some (key_ids (l1 ++ b :: a :: l2)).
Proof.
  assert (L0 : key_ids (l1 ++ a :: b :: l2) !! length l1 = Some (qk_id a)).
  { unfold key_ids. rewrite list_lookup_fmap, list_lookup_middle; done. }
  assert (L1 : key_ids (l1 ++ a :: b :: l2) !! S (length l1) = Some (qk_id b)).
  { unfold key_ids. rewrite list_lookup_fmap, (cons_middle a), app_assoc.
    rewrite list_lookup_middle; [done|]. rewrite length_app. simpl. lia. }
  assert (Hs : ∀ (ids : list Z) x y r, ids = (qk_id <$> l1) ++ x :: y :: r →
    <[length l1 := y]> (<[S (length l1) := x]> ids) = (qk_id <$> l1) ++ y :: x :: r).
  { intros ids x y r ->. rewrite <- (length_fmap qk_id l1).
    rewrite insert_app_r_alt by lia. replace (S _ - _)%nat with 1%nat by lia. simpl.
    rewrite insert_app_r_alt by lia. by rewrite Nat.sub_diag. }
  assert (E : key_ids (l1 ++ b :: a :: l2) = (qk_id <$> l1) ++ qk_id b :: qk_id a :: (qk_id <$> l2)).
  { unfold key_ids. by rewrite fmap_app, !fmap_cons. }
  unfold moveItem. rewrite E, !length_app. cbn [length]. split.
  - replace (_ || _) with false by (symmetry; zbool; lia).
    replace (Z.to_nat (Z.of_nat (length l1) + 1)) with (S (length l1)) by lia.
    rewrite L0, L1. f_equal. rewrite list_insert_insert_ne by lia. apply Hs.
    unfold key_ids. by rewrite fmap_app, !fmap_cons.
  - replace (_ || _) with false by (symmetry; zbool; lia).
    replace (Z.to_nat (Z.of_nat (S (length l1)) + -1)) with (length l1) by lia.
    rewrite L0, L1. f_equal. apply Hs. unfold key_ids. by rewrite fmap_app, !fmap_cons.
Qed.

Lemma moveItem_ids i down l l' : key_ids l = key_ids l' → moveItem i down l = moveItem i down l'.
Proof.
  intros E. unfold moveItem. rewrite E. assert (length l = length l') as ->; [|done].
  apply (f_equal length) in E. unfold key_ids in E. by rewrite !length_fmap in E.
Qed.

(** Moving a key by one: on a list of distinct keys the button moves exactly that key past
    its neighbour, on screen as in the positions sent to the server; the neighbour's button
    makes the same change, moving back restores the order, and the outermost buttons do
    nothing. *)
Theorem move_item_reorders l1 a b l2 :
  let keys := l1 ++ a :: b :: l2 in
  NoDup (key_ids keys) →
  ∃ ids, moveItem (length l1) true keys = Some ids ∧ moveItem (S (length l1)) false keys = Some ids ∧
    key_ids (reorder_begin ids keys) = key_ids (l1 ++ b :: a :: l2) ∧
    reorder_requests ids keys = imap (λ i id, (id, Z.of_nat i)) (key_ids (l1 ++ b :: a :: l2)) ∧
    moveItem (S (length l1)) false (reorder_begin ids keys) = Some (key_ids keys) ∧
    moveItem 0 false keys = None ∧ moveItem (length keys - 1) true keys = None.
Proof.
  intros keys Hn. destruct (moveItem_swap l1 a b l2) as [M1 M2].
  assert (Hp : key_ids (l1 ++ b :: a :: l2) ≡ₚ key_ids keys).
  { unfold key_ids, keys. by rewrite (perm_swap a b l2). }
  assert (Er : key_ids (reorder_begin (key_ids (l1 ++ b :: a :: l2)) keys) = key_ids (l1 ++ b :: a :: l2)).
  { rewrite reorder_begin_ids. rewrite filter_all, filter_none, app_nil_r; [done| |].
    - apply Forall_forall. intros i Hi. intros Hx. apply Hx. by rewrite Hp.
    - apply Forall_forall. intros i Hi. by rewrite <- Hp. }
  exists (key_ids (l1 ++ b :: a :: l2)). split_and!; [exact M1|exact M2|exact Er| | | |].
  - unfold reorder_requests. f_equal. apply filter_all, Forall_forall. intros i Hi.
    apply keyMap_get_is_Some. by rewrite <- Hp.
  - rewrite (moveItem_ids _ _ (reorder_begin _ _) (l1 ++ b :: a :: l2) Er).
    apply (moveItem_swap l1 b a l2).
  - done.
  - unfold moveItem. replace (_ || _) with true; [done|]. symmetry. unfold keys. rewrite !length_app.
    cbn [length]. zbool. right. lia.
Qed.

(** ** Witnesses *)

Lemma builder_combos_witness :
  @encodeStep ascii_locale (QuickKeyComboStep true false false (js "5"))
  = @encodeStep ascii_locale (QuickKeyComboStep false false false (js "5")).
Proof.
  assert (H5 : js "5" ∈ BASE_KEYS) by (apply list_elem_of_In; vm_compute; tauto).
  destruct (builder_combos_distinct (HL := ascii_locale_laws) true false false (js "5")
              false false false (js "5") H5 H5) as (bs & E & _ & Iff).
  rewrite E. symmetry. apply Iff. reflexivity.
Defined.

#[local] Existing Instance tree_json_text.

Definition demo_builder : Builder :=
  addStep (bd_edit M_literal false false false (js "c") (js "ls") true
    (setToken (js "ls") (bd_texts (js " List ") [] builder_initial))).

Definition demo_saved (i : Z) (spec : jsstring) : QuickKey :=
  {| qk_id := i; qk_user_id := 1; qk_name := js "k"; qk_display_token := js "k"; qk_spec := spec;
     qk_pinned := false; qk_sort_order := i; qk_created_at := []; qk_updated_at := [] |}.

Lemma built_key_is_sent_witness :
  (handleSave_begin demo_builder).1 = Some (js "List", js "ls", [QuickKeyLiteralStep (js "ls") true], false) ∧
  bd_steps demo_builder ≠ [].
Proof.
  pose proof (built_key_is_sent (HJ := tree_json_laws) demo_builder 5 [] []
    (demo_saved 1 []) {| ov_isOpen := true; ov_tab := T_send; ov_sent := [] |}) as H.
  assert (E : handleSave_begin demo_builder =
    (Some (js "List", js "ls", [QuickKeyLiteralStep (js "ls") true], false),
     bd_set_saving true demo_builder)) by reflexivity.
  rewrite E in H. rewrite E. split; [reflexivity|]. destruct H as (_ & _ & _ & _ & <- & Hs & _).
  exact Hs.
Defined.

Lemma move_item_witness :
  key_ids (reorder_begin [1; 3; 2] (demo_saved 1 [] :: demo_saved 2 [] :: [demo_saved 3 []]))
  = [1; 3; 2].
Proof.
  destruct (move_item_reorders [demo_saved 1 []] (demo_saved 2 []) (demo_saved 3 []) [])
    as (ids & E & _ & Er & _).
  - repeat constructor; set_solver.
  - vm_compute in E. injection E as <-. exact Er.
Defined.
