(* ===== verification/Chrome.v ===== *)
(** * The session top bar and the dialogs ([components/SessionTopBar.tsx],
    [components/WebAuthnDialog.tsx], [components/PasswordDialog.tsx],
    [components/CAPublicKeyDownload.tsx], [components/WorkerStatusIndicator.tsx],
    [hooks/useVisualViewport.ts], the download handler of [pages/DashboardPage.tsx])

    Lengths the browser reports are in 64ths of a pixel, its own unit of layout. *)

From S2P Require Import Prelude Js Models ApiTypes SessionList Encoding Memory Crypto Api FrostWire Frost FrostWorker FrostClient Enrollment.
#[local] Open Scope Z_scope.
#[local] Open Scope js_scope.

(** ** The pills of the top bar *)

(** The loop of [measureOverflow]: half a pixel is 32 units. *)
Fixpoint count_fitting (availRight : Z) (rights : list Z) (count : nat) : nat :=
  match rights with
  | [] => count
  | r :: rights => if r <=? availRight + 32 then count_fitting availRight rights (S count) else count
  end.

(** The left edge and width of the region and the right edges of the measured pills; [None]
    while the elements are not there. *)
Definition measureOverflow (m : option (Z * Z * list Z)) (visibleCount : nat) : nat :=
  match m with
  | None => visibleCount
  | Some (x, width, rights) => count_fitting (x + width) rights 0
  end.

Definition visible_pills {A} (pinnedKeys : list A) (visibleCount : nat) : list A :=
  take visibleCount pinnedKeys.

(** The number behind [+]; [None] shows no indicator. *)
Definition overflow_count {A} (pinnedKeys : list A) (visibleCount : nat) : option nat :=
  if (visibleCount <? length pinnedKeys)%nat then Some (length pinnedKeys - visibleCount)%nat else None.

(** [(n / d).toFixed(1)] for a quotient a double holds exactly: the nearest tenth, the larger
    one of two. *)
Definition toFixed1 (n d : Z) : jsstring :=
  let tenths := (20 * n + d) / (2 * d) in
  of_int (tenths / 10) ++ js "." ++ of_int (tenths mod 10).

Definition formatBytes (n : Z) : jsstring :=
  if n <? 1024 then of_int n ++ js " B"
  else if n <? 1024 * 1024 then toFixed1 n 1024 ++ js " KB"
  else toFixed1 n (1024 * 1024) ++ js " MB".

(** [height] of the hook: the visual viewport's, or the window's without one. *)
Definition visual_viewport_height (visualViewport : option Z) (innerHeight : Z) : Z :=
  default innerHeight visualViewport.

(** ** The dialog that asks for the passkey *)

Record WebAuthnDialog := {
  wd_localError : option jsstring;
  wd_authInProgress : bool;
  wd_authSucceeded : bool;
  (** Calls of [onAuthenticate] and [onCancel]. *)
  wd_authentications : nat;
  wd_cancels : nat;
}.

Definition dialog_initial : WebAuthnDialog :=
  {| wd_localError := None; wd_authInProgress := false; wd_authSucceeded := false;
     wd_authentications := 0; wd_cancels := 0 |}.

(** [handleAuthenticate] up to its [await]. *)
Definition handleAuthenticate_begin (d : WebAuthnDialog) : WebAuthnDialog :=
  {| wd_localError := None; wd_authInProgress := true; wd_authSucceeded := false;
     wd_authentications := S (wd_authentications d); wd_cancels := wd_cancels d |}.

Definition handleAuthenticate_finish (answer : result unit) (d : WebAuthnDialog) : WebAuthnDialog :=
  {| wd_localError := match answer with Ok _ => wd_localError d | Throw e => Some (err_message e) end;
     wd_authInProgress := false;
     wd_authSucceeded := match answer with Ok _ => true | Throw _ => wd_authSucceeded d end;
     wd_authentications := wd_authentications d; wd_cancels := wd_cancels d |}.

Definition call_onCancel (d : WebAuthnDialog) : WebAuthnDialog :=
  {| wd_localError := wd_localError d; wd_authInProgress := wd_authInProgress d;
     wd_authSucceeded := wd_authSucceeded d; wd_authentications := wd_authentications d;
     wd_cancels := S (wd_cancels d) |}.

Definition handleOpenChange (open : bool) (d : WebAuthnDialog) : WebAuthnDialog :=
  if negb open && wd_authInProgress d then d
  else if negb open && wd_authSucceeded d then
    {| wd_localError := wd_localError d; wd_authInProgress := wd_authInProgress d;
       wd_authSucceeded := false; wd_authentications := wd_authentications d;
       wd_cancels := wd_cancels d |}
  else if negb open then call_onCancel d
  else d.

Inductive DialogEvent :=
| DE_authenticate
| DE_settled (answer : result unit)
| DE_open_change (open : bool)
| DE_cancel_button.

Definition dialog_step (d : WebAuthnDialog) (e : DialogEvent) : WebAuthnDialog :=
  match e with
  | DE_authenticate => handleAuthenticate_begin d
  | DE_settled a => if wd_authInProgress d then handleAuthenticate_finish a d else d
  | DE_open_change b => handleOpenChange b d
  | DE_cancel_button => call_onCancel d
  end.

(** ** The password dialog *)

Record PasswordDialog := { pd_password : jsstring; pd_error : jsstring }.

(** The second component is the argument of [onSubmit], if it is called. *)
Definition password_submit (d : PasswordDialog) : PasswordDialog * option jsstring :=
  if bool_decide (trim (pd_password d) = [])
  then ({| pd_password := pd_password d; pd_error := js "Password is required" |}, None)
  else ({| pd_password := []; pd_error := [] |}, Some (pd_password d)).

Definition password_cancel (d : PasswordDialog) : PasswordDialog :=
  {| pd_password := []; pd_error := [] |}.

(** ** The key of the certificate authority *)

(** [s.split(c)] for one character. *)
Fixpoint split_on (c : Z) (s : jsstring) : list jsstring :=
  match s with
  | [] => [[]]
  | x :: s =>
      if x =? c then [] :: split_on c s
      else match split_on c s with
           | w :: ws => (x :: w) :: ws
           | [] => [[x]]
           end
  end.

Section ca.
Context (sha256 : bytes → bytes).

Definition openssh_fingerprint (openSSHKey : jsstring) : result jsstring :=
  match split_on 32 openSSHKey with
  | _ :: part :: _ =>
      let! wireFormat := atob part in
      let wireBytes := store_chars (u8_new (length wireFormat)) 0 wireFormat in
      let hash := sha256 wireBytes in
      let! base64 := btoa hash in
      Ok (js "SHA256:" ++ strip_end 61 base64)
  | _ => Ok (js "Invalid key format")
  end.

Record CAPublicKey := {
  ca_publicKey : jsstring;
  ca_fingerprint : jsstring;
  ca_error : jsstring;
  ca_isLoading : bool;
}.

Definition not_configured : jsstring :=
  js "SSH CA not configured. Register with a passkey that supports PRF.".

(** What a failure shows. *)
Definition ca_failure (e : js_error) : jsstring :=
  if contains (js "404") (err_message e) then not_configured else err_message e.

(** [loadPublicKey] after the answer; [public_key] of an answer that has none reads
    [undefined], whose [split] throws after the key was set. *)
Definition loadPublicKey (answer : result json) (s : CAPublicKey) : CAPublicKey :=
  match (let! response := answer in
         match response with
         | JNull => Throw (type_error "Cannot read properties of null (reading 'public_key')")
         | _ => Ok (json_string (json_get (js "public_key") response))
         end) with
  | Throw e => {| ca_publicKey := ca_publicKey s; ca_fingerprint := ca_fingerprint s;
                  ca_error := ca_failure e; ca_isLoading := false |}
  | Ok None => {| ca_publicKey := []; ca_fingerprint := ca_fingerprint s;
                  ca_error := js "Cannot read properties of undefined (reading 'split')";
                  ca_isLoading := false |}
  | Ok (Some k) =>
      match openssh_fingerprint k with
      | Ok f => {| ca_publicKey := k; ca_fingerprint := f; ca_error := ca_error s; ca_isLoading := false |}
      | Throw e => {| ca_publicKey := k; ca_fingerprint := ca_fingerprint s;
                      ca_error := ca_failure e; ca_isLoading := false |}
      end
  end.
End ca.

(** The content of the file the button saves; nothing before there is a key. *)
Definition handleDownload (s : CAPublicKey) : option jsstring :=
  if bool_decide (ca_publicKey s = []) then None else Some (ca_publicKey s).

(** The dashboard's download: a file with the key, or an alert. *)
Inductive Download := D_file (content : option jsstring) | D_alert (message : jsstring).

Definition handleDownloadCAKey (answer : result json) : Download :=
  match answer with
  | Ok JNull => D_alert (js "Failed to download CA key")
  | Ok response => D_file (json_string (json_get (js "public_key") response))
  | Throw e => D_alert (if contains (js "404") (err_message e) then not_configured
                        else js "Failed to download CA key")
  end.

(** ** The worker's indicator *)

(** [formatTime], whose argument is documented to be in seconds. *)
Definition indicator_formatTime (seconds : Z) : jsstring :=
  of_int (seconds / 60) ++ js ":" ++ pad_start 2 48 (of_int (seconds mod 60)).

Definition WorkerStatusIndicator (x : FrostContext) : jsstring :=
  if fc_isActive x then js "Worker Active - " ++ indicator_formatTime (fc_remainingTime x)
  else js "Worker Inactive".

(** ** Facts *)

Lemma count_fitting_add avail rights n : count_fitting avail rights n = (n + count_fitting avail rights 0)%nat.
Proof.
  revert n. induction rights as [|r rights IH]; intros n; simpl; [lia|].
  case_if; [|lia]. rewrite IH, (IH 1%nat). lia.
Qed.

(** The top bar shows exactly the pills that fit: with the pills laid out from left to right,
    a pill is shown if and only if its right edge is within half a pixel of the region's, the
    shown ones are a prefix of the pinned keys, and the number behind the plus sign is the
    number of the others, so no key is lost from view and count. *)
Theorem overflow_exact {A} (keys : list A) x width rights old :
  length rights = length keys → StronglySorted Z.le rights →
  let n := measureOverflow (Some (x, width, rights)) old in
  (∀ i r, rights !! i = Some r → (i < n)%nat ↔ r <= x + width + 32) ∧
  (length (visible_pills keys n) + default 0 (overflow_count keys n) = length keys)%nat ∧
  (overflow_count keys n = None ↔ visible_pills keys n = keys).
Proof.
  intros Hl Hs n.
  assert (Hn : (n <= length rights)%nat ∧
    ∀ i r, rights !! i = Some r → (i < n)%nat ↔ r <= x + width + 32).
  { unfold n, measureOverflow. clear n Hl. induction Hs as [|r rights Hs IH Hr]; simpl; [done|].
    destruct IH as [IH1 IH2]. destruct (r <=? x + width + 32) eqn:E; zbool.
    - rewrite count_fitting_add. split; [lia|]. intros [|i] q Hq; simpl in Hq; simplify_eq; [lia|].
      rewrite <- (IH2 i q Hq). lia.
    - split; [lia|]. intros [|i] q Hq; simpl in Hq; simplify_eq; [lia|].
      rewrite Forall_forall in Hr. pose proof (Hr q (list_elem_of_lookup_2 _ _ _ Hq)). lia. }
  destruct Hn as [Hn Hi]. split; [exact Hi|]. unfold visible_pills, overflow_count.
  destruct (n <? length keys)%nat eqn:E; zbool.
  - split; [rewrite length_take; simpl; lia|]. split; [done|]. intros Ht.
    apply (f_equal length) in Ht. rewrite length_take in Ht. lia.
  - rewrite take_ge by lia. simpl. split; [lia|done].
Qed.

(** The size of the clipboard buffer is right to the digit shown: the tenths printed are
    within half a tenth of the exact number of kilobytes or megabytes, and below a kilobyte the
    count is exact. *)
Theorem formatBytes_exact n :
  0 <= n →
  (n < 1024 ∧ formatBytes n = of_int n ++ js " B") ∨
  ∃ t d unit, formatBytes n = of_int (t / 10) ++ js "." ++ of_int (t mod 10) ++ unit ∧
    (d = 1024 ∧ unit = js " KB" ∧ n < 1024 * 1024 ∨ d = 1024 * 1024 ∧ unit = js " MB" ∧ 1024 * 1024 <= n) ∧
    2 * Z.abs (t * d - 10 * n) <= d ∧ 0 <= t mod 10 < 10.
Proof.
  intros Hn. unfold formatBytes, toFixed1.
  assert (Hr : ∀ d, 0 < d → 2 * Z.abs ((20 * n + d) / (2 * d) * d - 10 * n) <= d).
  { intros d Hd. pose proof (Z.div_mod (20 * n + d) (2 * d) ltac:(lia)).
    pose proof (Z.mod_pos_bound (20 * n + d) (2 * d) ltac:(lia)). nia. }
  destruct (n <? 1024) eqn:E1; zbool; [by left|]. right.
  destruct (n <? 1024 * 1024) eqn:E2; zbool.
  - exists ((20 * n + 1024) / (2 * 1024)), 1024, (js " KB"). rewrite <- !app_assoc.
    split_and!; [done|by left|by apply Hr|apply Z.mod_pos_bound; lia..].
  - exists ((20 * n + 1024 * 1024) / (2 * (1024 * 1024))), (1024 * 1024), (js " MB"). rewrite <- !app_assoc.
    split_and!; [done|by right|by apply Hr|apply Z.mod_pos_bound; lia..].
Qed.

(** Just below a megabyte the kilobytes are rounded up to 1024. *)
Example formatBytes_boundary : formatBytes 1048575 = js "1024.0 KB".
Proof. vm_compute. reflexivity. Qed.

(** ** Facts: the dialogs *)

(** Requests to close, and errors of an authentication that is over. *)
Definition close_attempts (e : DialogEvent) : Prop :=
  match e with DE_open_change _ => True | _ => False end.

(** The authentication is not interrupted, and its success counts once: while the passkey
    is being asked for, no request to close the dialog reaches [onCancel]; after a success the
    next such request is taken for the dialog's own closing and dropped, however much later it
    comes; after a failure, or once it was dropped, a request to close cancels. *)
Theorem dialog_close d es :
  Forall close_attempts es →
  let asking := run dialog_step (handleAuthenticate_begin d) es in
  wd_cancels asking = wd_cancels d ∧ wd_authInProgress asking = true ∧
  (let done_ := dialog_step asking (DE_settled (Ok tt)) in
   wd_cancels (dialog_step done_ (DE_open_change false)) = wd_cancels d ∧
   wd_cancels (dialog_step (dialog_step done_ (DE_open_change false)) (DE_open_change false)) = S (wd_cancels d)) ∧
  ∀ e, let failed := dialog_step asking (DE_settled (Throw e)) in
    wd_localError failed = Some (err_message e) ∧
    wd_cancels (dialog_step failed (DE_open_change false)) = S (wd_cancels d).
Proof.
  intros Hes asking.
  assert (E : asking = handleAuthenticate_begin d).
  { unfold asking. clear asking. induction Hes as [|e es He _ IH]; [done|].
    destruct e as [| |[]|]; try done; exact IH. }
  rewrite E. done.
Qed.

(** ** Facts: the key of the certificate authority *)

Lemma split_on_word c w s :
  Forall (λ x, x ≠ c) w →
  split_on c (w ++ c :: s) = w :: split_on c s ∧ split_on c w = [w].
Proof.
  intros Hw. induction Hw as [|x w Hx _ [IH1 IH2]]; simpl.
  - by rewrite Z.eqb_refl.
  - by rewrite (proj2 (Z.eqb_neq _ _) Hx), IH1, IH2.
Qed.

Lemma wire_bytes pk : Forall is_byte pk →
  ∃ w, formatOpenSSHWire pk = Ok w ∧ Forall is_byte w.
Proof.
  intros Hp. rewrite formatOpenSSHWire_ok. eexists. split; [done|].
  apply Forall_app; split; [apply uint32_be_bytes|]. apply Forall_app; split.
  - apply text_encode_bytes.
    assert (E : js "ssh-ed25519" = [115; 115; 104; 45; 101; 100; 50; 53; 53; 49; 57]) by reflexivity.
    rewrite E. repeat constructor; unfold is_code_unit; lia.
  - apply Forall_app; split; [apply uint32_be_bytes|done].
Qed.

(** The fingerprint shown is the library's: for the OpenSSH text of a public key, whatever
    its comment, the component's own parsing gives the fingerprint that [lib/crypto/ssh.ts]
    computes from the raw key. *)
Theorem fingerprints_agree sha256 pk comment text :
  Forall is_byte pk → formatOpenSSHKey pk comment = Ok text →
  openssh_fingerprint sha256 text = computeFingerprint sha256 pk.
Proof.
  intros Hp Ht. destruct (wire_bytes pk Hp) as (w & Ew & Hw).
  unfold formatOpenSSHKey in Ht. rewrite Ew in Ht. cbn [rbind] in Ht.
  rewrite btoa_bytes in Ht by done. cbn [rbind] in Ht.
  set (b := b64_body w ++ b64_padding (length w)) in Ht.
  assert (Et : text = js "ssh-ed25519" ++ 32 :: b ++ 32 :: comment).
  { assert (E : ∀ u v : jsstring, Ok u = Ok v → v = u) by congruence. exact (E _ _ Ht). }
  assert (Hb : Forall (λ x, x ≠ 32) b).
  { unfold b. apply Forall_app. split.
    - eapply Forall_impl; [by apply b64_body_alphabet|]. intros x Hx ->.
      apply alphabet_not_space in Hx. done.
    - rewrite padding_replicate. by apply Forall_replicate. }
  assert (Hn : Forall (λ x, x ≠ 32) (js "ssh-ed25519")).
  { assert (E : js "ssh-ed25519" = [115; 115; 104; 45; 101; 100; 50; 53; 53; 49; 57]) by reflexivity.
    rewrite E. repeat constructor; lia. }
  unfold openssh_fingerprint.
  rewrite Et, (proj1 (split_on_word _ _ _ Hn)), (proj1 (split_on_word _ _ _ Hb)).
  unfold b. rewrite atob_padded by done. cbn [rbind].
  assert (Es : store_chars (u8_new (length w)) 0 w = w).
  { pose proof (store_chars_spec [] w) as E. cbn [app length] in E. unfold u8_new. rewrite E.
    by apply u8_from_id. }
  rewrite Es. unfold computeFingerprint. by rewrite Ew.
Qed.

(** The advice for a missing certificate authority is shown only for an empty answer: a 404
    whose text does not itself contain the digits 404 is reported as it is by the component,
    and as a general failure by the dashboard. *)
Theorem missing_ca_not_recognised `{Json} (net : Request → result Response) b m t :
  has_window b = true → localStorage b = Some m →
  (∀ r, net r = Ok {| Api.status := 404; content_length := None; text := t |}) →
  let '(answer, b') := getSSHCAPublicKey net b in
  b' = b ∧
  (t = [] → ∀ sha s, ca_error (loadPublicKey sha answer s) = not_configured ∧
                     handleDownloadCAKey answer = D_alert not_configured) ∧
  (t ≠ [] → contains (js "404") t = false → ∀ sha s,
     ca_error (loadPublicKey sha answer s) = t ∧
     handleDownloadCAKey answer = D_alert (js "Failed to download CA key")).
Proof.
  intros Hw Hm Hn. unfold getSSHCAPublicKey, fetchApi, getToken, sbind. rewrite Hw, Hm.
  cbn [negb storage_get]. unfold slift at 1. rewrite Hn. unfold fetchApi_response.
  cbn [Api.status Z.eqb Pos.eqb text]. change (response_ok _) with false. cbn [negb].
  unfold sthrow. split; [done|]. split.
  - intros -> sha s.
    assert (E : contains (js "404") (js "HTTP error " ++ of_int 404) = true) by (vm_compute; reflexivity).
    unfold loadPublicKey, handleDownloadCAKey, ca_failure. cbn [rbind err_message plain_error ca_error].
    by rewrite E.
  - intros Ht Hc sha s. destruct t as [|c t]; [done|].
    unfold loadPublicKey, handleDownloadCAKey, ca_failure. cbn [rbind err_message plain_error ca_error].
    by rewrite Hc.
Qed.

(** ** Facts: the indicator *)

(** The indicator counts milliseconds as seconds: right after the worker was initialised
    with the default timeout of thirty minutes it shows thirty thousand minutes. *)
Theorem indicator_shows_milliseconds c x :
  fc_client x = Some (set_worker (Some 1) true (Some (c_now c)) c) →
  c_timeoutMs c = 30 * 60 * 1000 →
  WorkerStatusIndicator (context_poll x) = js "Worker Active - 30000:00" ∧
  getRemainingTime (set_worker (Some 1) true (Some (c_now c)) c) = 1800 * 1000.
Proof.
  intros Hx Ht. unfold context_poll. rewrite Hx.
  assert (E : getRemainingTime (set_worker (Some 1) true (Some (c_now c)) c) = 1800 * 1000).
  { unfold getRemainingTime, isActive. cbn [set_worker initTime isInitialized worker c_timeoutMs c_now].
    rewrite bool_decide_eq_true_2 by by eexists. cbn [andb]. lia. }
  unfold WorkerStatusIndicator. cbn [fc_isActive fc_remainingTime]. rewrite E. split; [|done].
  unfold isActive. cbn [set_worker isInitialized worker]. rewrite bool_decide_eq_true_2 by by eexists.
  vm_compute. reflexivity.
Qed.

(** ** Witnesses *)

Lemma overflow_exact_witness :
  let keys := [1; 2; 3]%nat in
  measureOverflow (Some (0, 200, [90; 190; 290])) 0 = 2%nat ∧
  (length (visible_pills keys 2) + default 0 (overflow_count keys 2) = 3)%nat.
Proof.
  destruct (overflow_exact [1; 2; 3]%nat 0 200 [90; 190; 290] 0) as (_ & H & _);
    [reflexivity| |split; [reflexivity|exact H]].
  repeat first [lia | constructor].
Defined.

Lemma formatBytes_witness :
  ∃ t, 2 * Z.abs (t * 1024 - 10 * 1536) <= 1024 ∧ formatBytes 1536 = of_int (t / 10) ++ js "." ++ of_int (t mod 10) ++ js " KB".
Proof.
  destruct (formatBytes_exact 1536) as [[H _]|(t & d & u & E & Hd & Ht & _)]; [lia|lia|].
  destruct Hd as [(-> & -> & _)|(_ & _ & Hd)]; [by exists t|lia].
Defined.

Lemma dialog_close_witness :
  wd_cancels (run dialog_step (handleAuthenticate_begin dialog_initial) [DE_open_change false; DE_open_change false]) = 0%nat.
Proof.
  apply (dialog_close dialog_initial [DE_open_change false; DE_open_change false]).
  by repeat constructor.
Defined.

Lemma fingerprints_agree_witness :
  ∃ text, formatOpenSSHKey (replicate 32 7) (js "me@box") = Ok text ∧
    openssh_fingerprint (λ b, take 32 b) text = computeFingerprint (λ b, take 32 b) (replicate 32 7).
Proof.
  eexists. split; [reflexivity|].
  apply (fingerprints_agree (λ b, take 32 b) (replicate 32 7) (js "me@box")); [|reflexivity].
  apply Forall_replicate. unfold is_byte. lia.
Defined.

Lemma missing_ca_witness :
  let net := λ _ : Request, Ok {| Api.status := 404; content_length := None; text := js "SSH CA not found" |} in
  handleDownloadCAKey (getSSHCAPublicKey net demo_browser).1 = D_alert (js "Failed to download CA key").
Proof.
  intros net.
  pose proof (missing_ca_not_recognised net demo_browser
    {[ js "token" := js "t0"; js "theme" := js "dark" ]} (js "SSH CA not found")) as H.
  destruct (getSSHCAPublicKey net demo_browser) as [answer b'].
  destruct H as (_ & _ & H); [reflexivity|reflexivity|intros r; reflexivity|].
  destruct (H ltac:(done) ltac:(vm_compute; reflexivity) (λ b, b)
              {| ca_publicKey := []; ca_fingerprint := []; ca_error := []; ca_isLoading := true |}) as [_ E].
  exact E.
Defined.

Lemma indicator_witness :
  let c := initial_client 0 in
  WorkerStatusIndicator (context_poll {| fc_client := Some (set_worker (Some 1) true (Some (c_now c)) c);
    fc_isActive := false; fc_remainingTime := 0 |}) = js "Worker Active - 30000:00".
Proof.
  intros c.
  destruct (indicator_shows_milliseconds c {| fc_client := Some (set_worker (Some 1) true (Some (c_now c)) c);
    fc_isActive := false; fc_remainingTime := 0 |}) as [H _]; [reflexivity|reflexivity|exact H].
Defined.
