(* ===== verification/SessionStore.v ===== *)
(** * The session list as a store ([pages/DashboardPage.tsx], [pages/SessionDetailPage.tsx])

    Both pages keep the sessions as an array that their feed handler edits in place.  What they
    promise is a store keyed by the session's id; [ListPage] is that promise as an interface,
    with the dashboard and the session page as its two instances. *)

From stdpp Require Import sorting.
From S2P Require Import Prelude Js Models ApiTypes Tags SessionList.
#[local] Open Scope Z_scope.
#[local] Open Scope js_scope.

(** [loadSessions] once [listSessions] has settled: [data ?? []], and nothing on a failure. *)
Definition loadSessions_finish (answer : result (option (list Session))) : list Session :=
  match answer with
  | Ok (Some data) => data
  | Ok None | Throw _ => []
  end.

(** ** The interface *)

(** A page with a list of sessions: its rows, its feed handler, the answer of [loadSessions],
    the session an update carries for its list, and whether an event takes it off the list. *)
Class ListPage (P : Type) := {
  rows : P → list Session;
  receive : SessionUpdate → P → P;
  reload : result (option (list Session)) → P → P;
  carried : SessionUpdate → option Session;
  removes : SessionEvent → bool;
}.
#[global] Hint Mode ListPage ! : typeclass_instances.

Class ListPageLaws (P : Type) `{!ListPage P} : Prop := {
  rows_receive u (p : P) :
    rows (receive u p) =
    match carried (P := P) u with
    | None => rows p
    | Some s => if removes (P := P) (event u) then remove_id (ApiTypes.id s) (rows p)
                else upsert s (rows p)
    end;
  rows_reload a (p : P) : rows (reload a p) = loadSessions_finish a;
}.

(** ** Its instances *)

#[export] Instance dashboard_page : ListPage (list Session) :=
  {| rows l := l;
     receive := Dashboard_handleUpdate;
     reload a _ := loadSessions_finish a;
     carried := update_session;
     removes e := bool_decide (e = EvEnd) || bool_decide (e = EvOther (js "delete")) |}.

#[export] Instance dashboard_page_laws : ListPageLaws (list Session).
Proof. by split. Qed.

(** A session page for the route [i]. *)
Record RoutedDetail (i : option jsstring) := { routed : Detail }.
Arguments routed {i}.

Definition detail_reload (a : result (option (list Session))) (d : Detail) : Detail :=
  {| d_session := d_session d; d_sessions := loadSessions_finish a; d_clipboard := d_clipboard d |}.

#[export] Instance detail_page i : ListPage (RoutedDetail i) :=
  {| rows d := d_sessions (routed d);
     receive u d := {| routed := Detail_handleUpdate i u (routed d) |};
     reload a d := {| routed := detail_reload a (routed d) |};
     carried u := if bool_decide (event u = EvClipboard) then None else update_session u;
     removes e := bool_decide (e = EvEnd) |}.

#[export] Instance detail_page_laws i : ListPageLaws (RoutedDetail i).
Proof.
  split; [|done]. intros u [d]. cbn. unfold Detail_handleUpdate. case_bool_decide.
  - by destruct (clipboardBufferFor _ _).
  - by destruct (update_session u).
Qed.

(** ** The specification: a finite map *)

Abbreviation Store := (gmap jsstring Session).

Definition store_of (l : list Session) : Store := list_to_map ((λ s, (ApiTypes.id s, s)) <$> l).

Inductive StoreEvent :=
| SE_update (u : SessionUpdate)
| SE_load (answer : result (option (list Session))).

Definition page_step {P} `{!ListPage P} (p : P) (e : StoreEvent) : P :=
  match e with SE_update u => receive u p | SE_load a => reload a p end.

(** What the page promises of an event. *)
Definition store_step (P : Type) `{!ListPage P} (m : Store) (e : StoreEvent) : Store :=
  match e with
  | SE_update u =>
      match carried (P := P) u with
      | None => m
      | Some s => if removes (P := P) (event u) then delete (ApiTypes.id s) m
                  else <[ApiTypes.id s := s]> m
      end
  | SE_load a => store_of (loadSessions_finish a)
  end.

(** The server lists each session once. *)
Definition listed_once (e : StoreEvent) : Prop :=
  match e with SE_update _ => True | SE_load a => NoDup (ids_of (loadSessions_finish a)) end.

(** ** Facts *)

Lemma store_keys l : ((λ s, (ApiTypes.id s, s)) <$> l).*1 = ids_of l.
Proof. unfold ids_of. rewrite <- list_fmap_compose. done. Qed.

Lemma store_of_spec l i s :
  NoDup (ids_of l) → store_of l !! i = Some s ↔ s ∈ l ∧ ApiTypes.id s = i.
Proof.
  intros Hn. unfold store_of.
  rewrite <- elem_of_list_to_map by (by rewrite store_keys).
  rewrite list_elem_of_fmap. naive_solver.
Qed.

Lemma store_of_upsert s l :
  NoDup (ids_of l) → NoDup (ids_of (upsert s l)) ∧ store_of (upsert s l) = <[ApiTypes.id s := s]> (store_of l).
Proof.
  intros Hn. assert (Hu : NoDup (ids_of (upsert s l))).
  { rewrite ids_upsert. unfold has_id. case_bool_decide; [done|]. by apply NoDup_cons. }
  split; [done|]. apply map_eq. intros i. apply option_eq. intros x.
  rewrite store_of_spec, lookup_insert_Some, store_of_spec, upsert_elem by done. naive_solver.
Qed.

Lemma store_of_remove i l :
  NoDup (ids_of l) → NoDup (ids_of (remove_id i l)) ∧ store_of (remove_id i l) = delete i (store_of l).
Proof.
  intros Hn. assert (Hu : NoDup (ids_of (remove_id i l))).
  { rewrite ids_remove. by apply NoDup_filter. }
  split; [done|]. apply map_eq. intros j. apply option_eq. intros x.
  rewrite store_of_spec, lookup_delete_Some, store_of_spec, remove_id_elem by done. naive_solver.
Qed.

(** Two lists of the same store are the same up to order. *)
Lemma store_of_perm l l' :
  NoDup (ids_of l) → NoDup (ids_of l') → store_of l = store_of l' → l ≡ₚ l'.
Proof.
  intros Hl Hl' E.
  assert (Hs : ∀ k, ((λ s, (ApiTypes.id s, s)) <$> k).*2 = k).
  { intros k. rewrite <- list_fmap_compose. apply list_fmap_id. }
  rewrite <- (Hs l), <- (Hs l'). apply fmap_Permutation.
  rewrite <- (map_to_list_to_map (M := gmap jsstring) ((λ s, (ApiTypes.id s, s)) <$> l)) by (by rewrite store_keys).
  rewrite <- (map_to_list_to_map (M := gmap jsstring) ((λ s, (ApiTypes.id s, s)) <$> l')) by (by rewrite store_keys).
  unfold store_of in E. by rewrite E.
Qed.

Section list_page.
Context {P : Type} `{!ListPage P} {HP : ListPageLaws P}.

Lemma page_step_refines (p : P) e :
  listed_once e → NoDup (ids_of (rows p)) →
  NoDup (ids_of (rows (page_step p e))) ∧
  store_of (rows (page_step p e)) = store_step P (store_of (rows p)) e.
Proof.
  intros He Hn. destruct e as [u|a]; simpl.
  - rewrite rows_receive. destruct (carried u) as [s|]; [|done].
    case_if; [by apply store_of_remove|by apply store_of_upsert].
  - by rewrite rows_reload.
Qed.

Lemma run_refines (p : P) es :
  Forall listed_once es → NoDup (ids_of (rows p)) →
  NoDup (ids_of (rows (run page_step p es))) ∧
  store_of (rows (run page_step p es)) = run (store_step P) (store_of (rows p)) es.
Proof.
  intros Hes. revert p. induction Hes as [|e es He _ IH]; intros p Hn; [done|].
  destruct (page_step_refines p e He Hn) as [Hn' E]. simpl. rewrite <- E. by apply IH.
Qed.
End list_page.

(** C30: The list of a page implements a store: whatever updates and answers arrive, the array
    never holds an id twice, and its rows are exactly those of the finite map on which each
    update is one insertion or one deletion and each answer a replacement. This holds of any
    page that keeps the interface, hence of the dashboard and of the session page's strip. *)
Theorem feed_refines_store {P} `{!ListPage P} {HP : ListPageLaws P} (p : P) es :
  Forall listed_once es → NoDup (ids_of (rows p)) →
  let p' := run page_step p es in
  let m := run (store_step P) (store_of (rows p)) es in
  NoDup (ids_of (rows p')) ∧ store_of (rows p') = m ∧
  (∀ i s, m !! i = Some s ↔ s ∈ rows p' ∧ ApiTypes.id s = i) ∧
  length (rows p') = size m.
Proof.
  intros Hes Hn p' m. destruct (run_refines p es Hes Hn) as [Hn' E]. fold p' in Hn', E.
  split_and!; [done|done| |].
  - intros i s. unfold m. rewrite <- E. by apply store_of_spec.
  - unfold m. rewrite <- E. unfold store_of. rewrite map_size_list_to_map by (by rewrite store_keys).
    by rewrite length_fmap.
Qed.

(** What both pages treat alike. *)
Definition common_event (e : StoreEvent) : Prop :=
  match e with
  | SE_update u => event u ≠ EvOther (js "delete") ∧
                   (event u = EvClipboard → update_session u = None)
  | SE_load _ => True
  end.

Lemma common_step i m e : common_event e →
  store_step (list Session) m e = store_step (RoutedDetail i) m e.
Proof.
  destruct e as [u|a]; [|done]. intros [Hd Hc]. cbn.
  destruct (bool_decide (event u = EvClipboard)) eqn:E.
  - apply bool_decide_eq_true in E. by rewrite Hc.
  - destruct (update_session u) as [s|]; [|done].
    by rewrite (bool_decide_eq_false_2 (event u = EvOther _)), orb_false_r.
Qed.

(** C31: The strip of the session page agrees with the dashboard: from the same sessions, after
    the same answers and updates (none of them a deletion, which only the dashboard knows, or a
    clipboard push that carries a session), both hold the same sessions; and if their positions
    are distinct both show them in the same order. *)
Theorem strip_agrees_with_dashboard i (dash : list Session) (d : RoutedDetail i) es :
  Forall listed_once es → Forall common_event es →
  NoDup (ids_of dash) → dash ≡ₚ rows d →
  let dash' := run page_step dash es in
  let strip' := rows (run page_step d es) in
  dash' ≡ₚ strip' ∧
  (NoDup ((λ s, default 0 (seq s)) <$> dash') → sortBySeq dash' = sortBySeq strip').
Proof.
  intros Hl Hc Hn Hp dash' strip'.
  assert (Hn2 : NoDup (ids_of (rows d))) by (unfold ids_of in *; by rewrite <- Hp).
  assert (Hn1 : NoDup (ids_of (rows dash))) by exact Hn.
  destruct (run_refines (P := list Session) dash es Hl Hn1) as [H1 E1].
  destruct (run_refines d es Hl Hn2) as [H2 E2].
  assert (Em : store_of dash = store_of (rows d)).
  { apply map_eq. intros j. apply option_eq. intros x.
    rewrite !store_of_spec by done. by rewrite Hp. }
  assert (Es : run (store_step (list Session)) (store_of dash) es =
               run (store_step (RoutedDetail i)) (store_of (rows d)) es).
  { rewrite Em. generalize (store_of (rows d)). clear -Hc.
    induction Hc as [|e es He _ IH]; intros m; [done|]. simpl. by rewrite (common_step i), IH. }
  assert (Hperm : dash' ≡ₚ strip').
  { apply store_of_perm; [done|done|]. unfold strip'. rewrite E2, <- Es. exact E1. }
  split; [done|]. intros Hseq.
  destruct (sort_seq_sorted dash') as [P1 S1]. destruct (sort_seq_sorted strip') as [P2 S2].
  eapply StronglySorted_unique_strong; [|exact S1|exact S2|by rewrite P1, P2].
  intros x y Hx Hy Hxy Hyx. rewrite P1 in Hx. rewrite P2, <- Hperm in Hy.
  apply list_elem_of_lookup in Hx as [n1 Hx]. apply list_elem_of_lookup in Hy as [n2 Hy].
  assert (n1 = n2) as ->; [|congruence].
  apply (NoDup_lookup _ _ _ (default 0 (seq x)) Hseq); rewrite list_lookup_fmap, ?Hx, ?Hy; [done|].
  apply (f_equal Some). cbv beta in *. lia.
Qed.

(** ** Witnesses *)

Definition demo_feed : list StoreEvent :=
  [SE_load (Ok (Some demo_list)); SE_update demo_update;
   SE_update {| event := EvEnd; session_id := js "a"; session := Some (session_at (js "a") 0);
                clipboard := None |}].

Lemma demo_feed_listed : Forall listed_once demo_feed.
Proof. do 3 (constructor; [first [exact demo_list_NoDup|done]|]). constructor. Qed.

Lemma feed_refines_store_witness :
  let p' := run page_step ([] : list Session) demo_feed in
  ids_of (rows p') = [js "d"; js "b"; js "c"] ∧ NoDup (ids_of (rows p')).
Proof.
  split; [reflexivity|].
  apply (feed_refines_store ([] : list Session) demo_feed demo_feed_listed).
  apply NoDup_nil_2.
Defined.

Lemma strip_agrees_witness :
  run page_step ([] : list Session) demo_feed ≡ₚ
  rows (run page_step {| routed := {| d_session := None; d_sessions := []; d_clipboard := None |} |}
          (demo_feed : list StoreEvent) : RoutedDetail (Some (js "b"))).
Proof.
  apply (strip_agrees_with_dashboard (Some (js "b")) []
           {| routed := {| d_session := None; d_sessions := []; d_clipboard := None |} |}
           demo_feed demo_feed_listed); [repeat constructor; done|apply NoDup_nil_2|done].
Defined.
