(* ===== verification/DetailPage.v ===== *)
(** * The session page over time ([pages/SessionDetailPage.tsx])

    The page as a machine: the route can change while answers are under way, and nothing
    cancels them.  Requests, clipboard writes and timers in flight are lists; an answer names
    its request by its place.  The reductions of the shown data are those of [SessionList];
    reordering the strip is the dashboard's ([SessionList.handleReorder]). *)

From S2P Require Import Prelude Js Models ApiTypes Tags SessionList SessionStore.
#[local] Open Scope Z_scope.
#[local] Open Scope js_scope.

Record DetailPage := {
  (** The route's parameter. *)
  dp_id : jsstring;
  dp_detail : Detail;
  dp_loading : bool;
  dp_error : jsstring;
  (** In flight: [getSession(id)]; [listSessions()]; [updateSessionTags(id, tags)] with the
      tags captured for a rollback; [writeClipboard(text)]. *)
  dp_loads : list jsstring;
  dp_lists : nat;
  dp_saves : list (jsstring * list jsstring * option (list jsstring));
  dp_writes : list jsstring;
  (** Every text handed to the OS clipboard. *)
  dp_written : list jsstring;
  (** The dismissals that are scheduled, and the time. *)
  dp_timers : list Z;
  dp_now : Z;
}.

Definition dp_set_detail (d : Detail) (p : DetailPage) : DetailPage :=
  {| dp_id := dp_id p; dp_detail := d; dp_loading := dp_loading p; dp_error := dp_error p;
     dp_loads := dp_loads p; dp_lists := dp_lists p; dp_saves := dp_saves p;
     dp_writes := dp_writes p; dp_written := dp_written p; dp_timers := dp_timers p;
     dp_now := dp_now p |}.
Definition dp_set_load (loading : bool) (error : jsstring) (loads : list jsstring) (p : DetailPage) : DetailPage :=
  {| dp_id := dp_id p; dp_detail := dp_detail p; dp_loading := loading; dp_error := error;
     dp_loads := loads; dp_lists := dp_lists p; dp_saves := dp_saves p;
     dp_writes := dp_writes p; dp_written := dp_written p; dp_timers := dp_timers p;
     dp_now := dp_now p |}.
Definition dp_set_lists (n : nat) (p : DetailPage) : DetailPage :=
  {| dp_id := dp_id p; dp_detail := dp_detail p; dp_loading := dp_loading p; dp_error := dp_error p;
     dp_loads := dp_loads p; dp_lists := n; dp_saves := dp_saves p;
     dp_writes := dp_writes p; dp_written := dp_written p; dp_timers := dp_timers p;
     dp_now := dp_now p |}.
Definition dp_set_saves (l : list (jsstring * list jsstring * option (list jsstring)))
    (p : DetailPage) : DetailPage :=
  {| dp_id := dp_id p; dp_detail := dp_detail p; dp_loading := dp_loading p; dp_error := dp_error p;
     dp_loads := dp_loads p; dp_lists := dp_lists p; dp_saves := l;
     dp_writes := dp_writes p; dp_written := dp_written p; dp_timers := dp_timers p;
     dp_now := dp_now p |}.
Definition dp_set_clipboard (writes written : list jsstring) (timers : list Z) (now : Z)
    (p : DetailPage) : DetailPage :=
  {| dp_id := dp_id p; dp_detail := dp_detail p; dp_loading := dp_loading p; dp_error := dp_error p;
     dp_loads := dp_loads p; dp_lists := dp_lists p; dp_saves := dp_saves p;
     dp_writes := writes; dp_written := written; dp_timers := timers; dp_now := now |}.
Definition dp_set_id (i : jsstring) (p : DetailPage) : DetailPage :=
  {| dp_id := i; dp_detail := dp_detail p; dp_loading := dp_loading p; dp_error := dp_error p;
     dp_loads := dp_loads p; dp_lists := dp_lists p; dp_saves := dp_saves p;
     dp_writes := dp_writes p; dp_written := dp_written p; dp_timers := dp_timers p;
     dp_now := dp_now p |}.

Definition set_session (s : option Session) (d : Detail) : Detail :=
  {| d_session := s; d_sessions := d_sessions d; d_clipboard := d_clipboard d |}.

(** ** The handlers *)

(** [loadSession] up to its [await]. *)
Definition loadSession_begin (p : DetailPage) : DetailPage :=
  match dp_id p with
  | [] => p
  | i => dp_set_load (dp_loading p) (dp_error p) (dp_loads p ++ [i]) p
  end.

(** Its rest, when the [n]th request settles: whatever the route is by then. *)
Definition loadSession_finish (n : nat) (answer : result Session) (p : DetailPage) : DetailPage :=
  match dp_loads p !! n with
  | None => p
  | Some _ =>
      let rest := delete n (dp_loads p) in
      match answer with
      | Ok data => dp_set_load false (dp_error p) rest (dp_set_detail (set_session (Some data) (dp_detail p)) p)
      | Throw e => dp_set_load false (err_message e) rest p
      end
  end.

(** The mount effects. *)
Definition detail_mount (i : jsstring) : DetailPage :=
  loadSession_begin
    {| dp_id := i; dp_detail := {| d_session := None; d_sessions := []; d_clipboard := None |};
       dp_loading := true; dp_error := []; dp_loads := []; dp_lists := 1; dp_saves := [];
       dp_writes := []; dp_written := []; dp_timers := []; dp_now := 0 |}.

(** A change of the route's parameter runs the load effect again. *)
Definition route_change (i : jsstring) (p : DetailPage) : DetailPage :=
  if decide (i = dp_id p) then p else loadSession_begin (dp_set_id i p).

Definition detail_loadSessions_finish (answer : result (option (list Session))) (p : DetailPage) : DetailPage :=
  match dp_lists p with
  | O => p
  | S n => dp_set_lists n (dp_set_detail (detail_reload answer (dp_detail p)) p)
  end.

Definition detail_update (u : SessionUpdate) (p : DetailPage) : DetailPage :=
  dp_set_detail (Detail_handleUpdate (Some (dp_id p)) u (dp_detail p)) p.

(** [handleCopyClipboard]: the write starts in the gesture. *)
Definition handleCopyClipboard (p : DetailPage) : DetailPage :=
  match d_clipboard (dp_detail p) with
  | None => p
  | Some c => dp_set_clipboard (dp_writes p ++ [cb_text c]) (dp_written p ++ [cb_text c])
                (dp_timers p) (dp_now p) p
  end.

Definition DISMISS_MS : Z := 1200.

(** The write settled: "Copied" is shown and its dismissal scheduled, or the error is shown. *)
Definition write_settled (n : nat) (ok : bool) (p : DetailPage) : DetailPage :=
  match dp_writes p !! n with
  | None => p
  | Some _ =>
      dp_set_clipboard (delete n (dp_writes p)) (dp_written p)
        (if ok then dp_timers p ++ [dp_now p + DISMISS_MS] else dp_timers p) (dp_now p)
        (dp_set_detail (clipboard_written ok (dp_detail p)) p)
  end.

(** Time passes; every due dismissal runs [setClipboard(null)]. *)
Definition detail_tick (dt : Z) (p : DetailPage) : DetailPage :=
  let now := dp_now p + Z.max 0 dt in
  let due := filter (λ t, t <= now) (dp_timers p) in
  let p := dp_set_clipboard (dp_writes p) (dp_written p) (filter (λ t, ¬ t <= now) (dp_timers p)) now p in
  match due with
  | [] => p
  | _ => dp_set_detail (clipboard_dismiss (dp_detail p)) p
  end.

(** [handleTagsChange]: saved under the route's id, with the shown session's tags for a
    rollback. *)
Definition detail_tags (new : list jsstring) (p : DetailPage) : DetailPage :=
  match dp_id p with
  | [] => p
  | i =>
      let currentTags := s ← d_session (dp_detail p); tags s in
      dp_set_saves (dp_saves p ++ [(i, new, currentTags)])
        (dp_set_detail (handleTagsChange_begin i new (dp_detail p)) p)
  end.

Definition detail_tags_finish (n : nat) (answer : result (list jsstring)) (p : DetailPage) : DetailPage :=
  match dp_saves p !! n with
  | None => p
  | Some (i, _, currentTags) =>
      dp_set_saves (delete n (dp_saves p))
        (dp_set_detail (handleTagsChange_finish i currentTags answer (dp_detail p)).2 p)
  end.

(** What the page shows. *)
Inductive Screen := Sc_loading | Sc_error (message : jsstring) | Sc_session (s : Session).

Definition screen (p : DetailPage) : Screen :=
  if dp_loading p then Sc_loading
  else match dp_error p, d_session (dp_detail p) with
  | [], Some s => Sc_session s
  | [], None => Sc_error (js "Session not found")
  | e, _ => Sc_error e
  end.

Inductive DetailEvent :=
| DP_route (i : jsstring)
| DP_load_answer (n : nat) (answer : result Session)
| DP_list_answer (answer : result (option (list Session)))
| DP_update (u : SessionUpdate)
| DP_copy
| DP_write_settled (n : nat) (ok : bool)
| DP_dismiss
| DP_tick (dt : Z)
| DP_tags (new : list jsstring)
| DP_tags_answer (n : nat) (answer : result (list jsstring)).

Definition detail_step (p : DetailPage) (e : DetailEvent) : DetailPage :=
  match e with
  | DP_route i => route_change i p
  | DP_load_answer n a => loadSession_finish n a p
  | DP_list_answer a => detail_loadSessions_finish a p
  | DP_update u => detail_update u p
  | DP_copy => handleCopyClipboard p
  | DP_write_settled n ok => write_settled n ok p
  | DP_dismiss => dp_set_detail (clipboard_dismiss (dp_detail p)) p
  | DP_tick dt => detail_tick dt p
  | DP_tags new => detail_tags new p
  | DP_tags_answer n a => detail_tags_finish n a p
  end.

(** ** Facts: the shown session *)

(** The server answers honestly and in time: a load's answer is the requested session, or an
    error with a text, and arrives while the route is still the requested one; an update
    carries the session it names. *)
Definition timely (p : DetailPage) (e : DetailEvent) : Prop :=
  match e with
  | DP_route i => i ≠ []
  | DP_load_answer n a =>
      dp_loads p !! n = Some (dp_id p) ∧
      match a with Ok s => ApiTypes.id s = dp_id p | Throw e => err_message e ≠ [] end
  | DP_update u => ∀ s, session u = Some s → ApiTypes.id s ≠ [] → ApiTypes.id s = session_id u
  | _ => True
  end.

Fixpoint all_timely (p : DetailPage) (es : list DetailEvent) : Prop :=
  match es with
  | [] => True
  | e :: es => timely p e ∧ all_timely (detail_step p e) es
  end.

(** The session of the page, if any, is the route's, unless its load is still under way or an
    error is shown. *)
Definition shows_route (p : DetailPage) : Prop :=
  dp_id p ≠ [] ∧
  (dp_id p ∈ dp_loads p ∨ dp_error p ≠ [] ∨
   ∃ s, d_session (dp_detail p) = Some s ∧ ApiTypes.id s = dp_id p).

Lemma apply_tags_session i t d s :
  d_session d = Some s →
  ∃ s', d_session (apply_tags i t d) = Some s' ∧ ApiTypes.id s' = ApiTypes.id s.
Proof.
  intros H. unfold apply_tags. cbn. rewrite H. cbn. eexists. split; [reflexivity|].
  by case_decide.
Qed.

Lemma update_session_id i u d s :
  (∀ s, session u = Some s → ApiTypes.id s ≠ [] → ApiTypes.id s = session_id u) →
  d_session d = Some s → ApiTypes.id s = i →
  ∃ s', d_session (Detail_handleUpdate (Some i) u d) = Some s' ∧ ApiTypes.id s' = i.
Proof.
  intros Hu Hs Hi. unfold Detail_handleUpdate. case_bool_decide.
  { destruct (clipboardBufferFor _ _); by exists s. }
  destruct (update_session u) as [x|] eqn:E; [|by exists s]. cbn.
  case_bool_decide as Ei; [|by exists s]. exists x. split; [done|].
  unfold update_session in E. destruct (session u) as [y|]; [|done].
  specialize (Hu y eq_refl). destruct (ApiTypes.id y) eqn:Ey; [done|]. injection E as ->.
  rewrite Ey, Hu by done. by injection Ei.
Qed.

Lemma detail_step_id p e :
  dp_id (detail_step p e) = match e with DP_route i => i | _ => dp_id p end.
Proof.
  destruct e as [i|n a|a|u| |n ok| |dt|new|n a]; cbn; try done.
  - unfold route_change, loadSession_begin. case_decide; [done|]. by destruct i.
  - unfold loadSession_finish. destruct (dp_loads p !! n); [|done]. by destruct a.
  - unfold detail_loadSessions_finish. by destruct (dp_lists p).
  - unfold handleCopyClipboard. by destruct (d_clipboard _).
  - unfold write_settled. by destruct (dp_writes p !! n).
  - unfold detail_tick. by destruct (filter _ _).
  - unfold detail_tags. by destruct (dp_id p) eqn:E; cbn; rewrite ?E.
  - unfold detail_tags_finish. destruct (dp_saves p !! n) as [[[]]|]; done.
Qed.

Lemma shows_route_step p e : timely p e → shows_route p → shows_route (detail_step p e).
Proof.
  intros He [Hi H]. unfold shows_route. rewrite detail_step_id.
  destruct e as [i|n a|a|u| |n ok| |dt|new|n a]; cbn in He |- *; (split; [done|]); try done.
  - unfold route_change. case_decide as E; [by rewrite E|]. left. unfold loadSession_begin.
    destruct i; [done|]. cbn. apply elem_of_app. right. apply list_elem_of_here.
  - destruct He as [Hn Ha]. unfold loadSession_finish. rewrite Hn. right.
    destruct a as [s|e]; cbn; [right; by exists s|by left].
  - unfold detail_loadSessions_finish. by destruct (dp_lists p).
  - destruct H as [H|[H|(s & Hs & E)]]; [by left|by right; left|]. right. right. cbn.
    by eapply update_session_id.
  - unfold handleCopyClipboard. by destruct (d_clipboard _).
  - unfold write_settled. by destruct (dp_writes p !! n).
  - unfold detail_tick. by destruct (filter _ _).
  - unfold detail_tags. destruct (dp_id p) as [|c i] eqn:E; [done|]. cbn.
    destruct H as [H|[H|(s & Hs & Es)]]; [by left|by right; left|]. right. right.
    destruct (apply_tags_session (c :: i) (Some new) _ _ Hs) as (s' & H1 & H2).
    exists s'. split; [exact H1|congruence].
  - unfold detail_tags_finish. destruct (dp_saves p !! n) as [[[i new] cur]|]; [|done]. cbn.
    destruct H as [H|[H|(s & Hs & Es)]]; [by left|by right; left|]. right. right.
    destruct a as [saved|e]; cbn [handleTagsChange_finish snd];
      [destruct (apply_tags_session i (Some saved) _ _ Hs) as (s' & H1 & H2)
      |destruct (apply_tags_session i cur _ _ Hs) as (s' & H1 & H2)];
      exists s'; (split; [exact H1|congruence]).
Qed.

(** C34: The page shows the session of its address: as long as every load is answered before the
    route changes, then whatever else happens (route changes, updates of any session, list
    answers, tag edits, clipboard pushes, timers), once nothing is being loaded the page shows
    the route's session or an error. *)
Theorem detail_shows_route i es :
  i ≠ [] → all_timely (detail_mount i) es →
  let p := run detail_step (detail_mount i) es in
  shows_route p ∧
  (dp_id p ∉ dp_loads p → ∀ s, screen p = Sc_session s → ApiTypes.id s = dp_id p).
Proof.
  intros Hi Ht p. assert (H : shows_route p).
  { assert (H0 : shows_route (detail_mount i)).
    { split; [by destruct i|]. left. destruct i; [done|]. apply list_elem_of_here. }
    revert H0 Ht. unfold p. generalize (detail_mount i). clear p.
    induction es as [|e es IH]; intros q Hq; simpl; [done|]. intros [He Hes].
    apply IH; [by apply shows_route_step|done]. }
  split; [done|]. intros Hl s. unfold screen. destruct (dp_loading p); [done|].
  destruct H as [_ [H|[H|(x & Hx & E)]]]; [done| |].
  - by destruct (dp_error p).
  - rewrite Hx. destruct (dp_error p); [|done]. by intros [= <-].
Qed.

(** A late answer shows the wrong session: when the user goes on to another session before
    the first is loaded and the answers arrive in the other order, the page at the second
    address shows the first session, and if the first load fails late the second page is
    replaced by its error; nothing is under way that would correct it. *)
Theorem late_load_overwrites a b sa sb e :
  a ≠ [] → b ≠ [] → a ≠ b → err_message e ≠ [] →
  let routed := run detail_step (detail_mount a) [DP_route b; DP_load_answer 1 (Ok sb)] in
  let late := detail_step routed (DP_load_answer 0 (Ok sa)) in
  let failed := detail_step routed (DP_load_answer 0 (Throw e)) in
  screen routed = Sc_session sb ∧
  dp_id late = b ∧ screen late = Sc_session sa ∧ dp_loads late = [] ∧
  screen failed = Sc_error (err_message e) ∧ dp_loads failed = [].
Proof.
  intros Ha Hb Hab He. destruct a as [|x a], b as [|y b]; try done.
  cbn [run foldl detail_step detail_mount loadSession_begin dp_id]. unfold route_change.
  cbn [dp_set_load dp_id]. rewrite decide_False by done. cbn.
  split_and!; try done. by destruct (err_message e).
Qed.

(** Tags are saved for the address, not for the session on screen: after a route change,
    until the new session is loaded, an edit of the old session's tags is sent under the new
    session's id, and the old session on screen does not change. *)
Theorem tags_saved_under_route p s b new :
  dp_id p ≠ b → b ≠ [] → d_session (dp_detail p) = Some s → ApiTypes.id s = dp_id p →
  let p' := run detail_step p [DP_route b; DP_tags new] in
  d_session (dp_detail p') = Some s ∧
  last (dp_saves p') = Some (b, new, tags s).
Proof.
  intros Hne Hb Hs Hi p'. unfold p'. cbn [run foldl detail_step]. unfold route_change.
  rewrite decide_False by done. unfold loadSession_begin. destruct b as [|y b]; [done|].
  cbn [dp_set_id dp_id dp_set_load]. unfold detail_tags. cbn.
  rewrite Hs. cbn. rewrite decide_False by congruence. split; [done|]. by rewrite last_snoc.
Qed.

(** ** Facts: the clipboard *)

Definition is_copy (e : DetailEvent) : bool := match e with DP_copy => true | _ => false end.

(** The text was pushed for the session the page was at when it arrived. *)
Definition pushed (i : jsstring) (es : list DetailEvent) (t : jsstring) : Prop :=
  ∃ es1 u es2, es = es1 ++ DP_update u :: es2 ∧ event u = EvClipboard ∧
    session_id u = dp_id (run detail_step (detail_mount i) es1) ∧ t = default [] (clipboard u).

Lemma pushed_snoc i es e t : pushed i es t → pushed i (es ++ [e]) t.
Proof.
  intros (es1 & u & es2 & -> & H). exists es1, u, (es2 ++ [e]). split; [|done].
  by rewrite <- app_assoc.
Qed.

(** What a step does to the buffer's text and to the clipboard. *)
Lemma detail_step_clipboard p e :
  (∀ c, d_clipboard (dp_detail (detail_step p e)) = Some c →
     (∃ c0, d_clipboard (dp_detail p) = Some c0 ∧ cb_text c = cb_text c0) ∨
     ∃ u, e = DP_update u ∧ event u = EvClipboard ∧ session_id u = dp_id p ∧
          cb_text c = default [] (clipboard u)) ∧
  dp_written (detail_step p e) =
    dp_written p ++ match d_clipboard (dp_detail p) with
                    | Some c => if is_copy e then [cb_text c] else []
                    | None => [] end.
Proof.
  assert (Hnil : ∀ o : option ClipboardBuffer, dp_written p = dp_written p ++ match o with Some _ => [] | None => [] end).
  { intros o. destruct o; by rewrite app_nil_r. }
  destruct e as [i|n a|a|u| |n ok| |dt|new|n a]; cbn [detail_step is_copy].
  - unfold route_change, loadSession_begin. case_decide; [split; [by eauto|apply Hnil]|].
    destruct i; (split; [by eauto|apply Hnil]).
  - unfold loadSession_finish. destruct (dp_loads p !! n); [destruct a|]; (split; [by eauto|apply Hnil]).
  - unfold detail_loadSessions_finish. destruct (dp_lists p); (split; [by eauto|apply Hnil]).
  - split; [|apply Hnil]. intros c. cbn. unfold Detail_handleUpdate, clipboardBufferFor.
    case_bool_decide as Eu; cbn [negb orb].
    + case_bool_decide as Ei; cbn [negb]; [|by eauto]. intros [= <-]. right. by exists u.
    + destruct (update_session u); by eauto.
  - unfold handleCopyClipboard. destruct (d_clipboard (dp_detail p)) as [c|] eqn:E; cbn.
    + split; [by rewrite E; eauto|done].
    + split; [by rewrite E|by rewrite app_nil_r].
  - unfold write_settled. destruct (dp_writes p !! n); (split; [|apply Hnil]); [|by eauto].
    intros c. cbn. destruct (d_clipboard (dp_detail p)) as [c0|]; [|done].
    intros [= <-]. left. by exists c0.
  - by split; [|apply Hnil].
  - unfold detail_tick. destruct (filter _ _); (split; [by eauto|apply Hnil]).
  - unfold detail_tags. destruct (dp_id p); (split; [by eauto|apply Hnil]).
  - unfold detail_tags_finish. destruct (dp_saves p !! n) as [[[i new] cur]|]; [|split; [by eauto|apply Hnil]].
    destruct a; (split; [by eauto|apply Hnil]).
Qed.

Lemma clipboard_inv i es (p := run detail_step (detail_mount i) es) :
  Forall (pushed i es) (dp_written p) ∧
  (length (dp_written p) <= length (filter (λ e, is_copy e = true) es))%nat ∧
  (∀ c, d_clipboard (dp_detail p) = Some c → pushed i es (cb_text c)).
Proof.
  unfold p. clear p.
  induction es as [|e es IH] using rev_ind.
  { destruct i; (split_and!; [by apply Forall_nil|simpl; lia|done]). }
  destruct IH as (Hw & Hl & Hc). rewrite run_app. cbn [run foldl]. set (p := run detail_step _ es) in *.
  change (foldl detail_step (detail_mount i) es) with p.
  destruct (detail_step_clipboard p e) as [Hb Hw']. rewrite Hw'. split_and!.
  - apply Forall_app. split; [eapply Forall_impl; [exact Hw|intros; by apply pushed_snoc]|].
    destruct (d_clipboard (dp_detail p)) as [c|]; [|done]. destruct (is_copy e); [|done].
    constructor; [|done]. by apply pushed_snoc, Hc.
  - rewrite filter_app, !length_app. destruct (is_copy e) eqn:E.
    + rewrite filter_cons_True by done. simpl. destruct (d_clipboard _); simpl; lia.
    + rewrite filter_cons_False by (by rewrite E). destruct (d_clipboard _); simpl; lia.
  - intros c Hcb. destruct (Hb c Hcb) as [(c0 & H1 & ->)|(u & -> & H1 & H2 & ->)].
    + by apply pushed_snoc, Hc.
    + exists es, u, []. split_and!; done.
Qed.

(** The OS clipboard is only written by a gesture, with what was pushed for this page:
    whatever arrives, each text written was pushed by [devsesh copy] for the session the page
    was at when the push came, and there are at most as many writes as gestures. *)
Theorem clipboard_only_by_gesture i es :
  let p := run detail_step (detail_mount i) es in
  Forall (pushed i es) (dp_written p) ∧
  (length (dp_written p) <= length (filter (λ e, is_copy e = true) es))%nat.
Proof.
  intros p. destruct (clipboard_inv i es) as (H1 & H2 & _). by split.
Qed.

(** The dismissal of a copied buffer takes a newer one with it: a push that arrives within
    1.2 seconds of a copy is removed by the first buffer's timer without having been copied. *)
Theorem dismissal_drops_newer p c u dt :
  d_clipboard (dp_detail p) = Some c → dp_writes p = [] → dp_timers p = [] →
  event u = EvClipboard → session_id u = dp_id p → 0 <= dt < DISMISS_MS →
  let copied := run detail_step p [DP_copy; DP_write_settled 0 true; DP_tick dt; DP_update u] in
  let later := detail_step copied (DP_tick (DISMISS_MS - dt)) in
  (∃ c', d_clipboard (dp_detail copied) = Some c' ∧ cb_text c' = default [] (clipboard u) ∧
         cb_status c' = cb_ready) ∧
  d_clipboard (dp_detail later) = None ∧ dp_written later = dp_written p ++ [cb_text c].
Proof.
  intros Hc Hw Ht Hu Hi Hdt.
  set (p1 := run detail_step p [DP_copy; DP_write_settled 0 true]).
  assert (E1 : p1 = dp_set_clipboard [] (dp_written p ++ [cb_text c]) [dp_now p + DISMISS_MS] (dp_now p)
                      (dp_set_detail (clipboard_written true (dp_detail p)) p)).
  { unfold p1. cbn [run foldl detail_step]. unfold handleCopyClipboard. rewrite Hc, Hw, Ht. done. }
  assert (E2 : detail_step p1 (DP_tick dt) =
               dp_set_clipboard [] (dp_written p ++ [cb_text c]) [dp_now p + DISMISS_MS] (dp_now p + dt)
                 (dp_set_detail (clipboard_written true (dp_detail p)) p)).
  { rewrite E1. cbn [detail_step]. unfold detail_tick. cbn [dp_set_clipboard dp_timers dp_now dp_set_detail].
    rewrite filter_cons_False, filter_cons_True by lia. cbn [filter list_filter].
    rewrite Z.max_r by lia. done. }
  intros copied. assert (E3 : copied = detail_update u (detail_step p1 (DP_tick dt))) by reflexivity.
  assert (Eb : clipboardBufferFor u (dp_id p) = Some {| cb_text := default [] (clipboard u);
    cb_bytes := Z.of_nat (length (text_encode (default [] (clipboard u)))); cb_status := cb_ready |}).
  { unfold clipboardBufferFor. by rewrite !bool_decide_eq_true_2. }
  rewrite E2 in E3. unfold detail_update, Detail_handleUpdate in E3.
  cbn [dp_id dp_set_clipboard dp_set_detail dp_detail from_option Datatypes.id] in E3.
  rewrite (bool_decide_eq_true_2 (event u = _)), Eb in E3 by done. rewrite E3.
  cbn [detail_step dp_detail dp_set_detail d_clipboard]. split; [by eexists|].
  unfold detail_tick. cbn [dp_set_clipboard dp_timers dp_now dp_set_detail].
  rewrite filter_cons_True by lia. done.
Qed.

(** ** Facts: the list *)

(** A list answer loses what the feed brought before it: a session that started after the
    server made up the list, but was reported before the answer arrived, is gone from the strip
    once the answer is in. *)
Theorem late_list_loses_update p u s l :
  (0 < dp_lists p)%nat → update_session u = Some s → event u ≠ EvEnd → event u ≠ EvClipboard →
  NoDup (ids_of (d_sessions (dp_detail p))) → ApiTypes.id s ∉ ids_of l →
  let reported := detail_step p (DP_update u) in
  let answered := detail_step reported (DP_list_answer (Ok (Some l))) in
  s ∈ d_sessions (dp_detail reported) ∧ s ∉ d_sessions (dp_detail answered).
Proof.
  intros Hn Hu He Hc Hd Hl. cbn [detail_step]. unfold detail_loadSessions_finish.
  cbn [detail_update dp_set_detail dp_lists dp_detail]. unfold Detail_handleUpdate.
  rewrite bool_decide_eq_false_2, Hu by done. cbn [d_sessions].
  rewrite bool_decide_eq_false_2 by done. split; [apply upsert_elem; [done|by left]|].
  destruct (dp_lists p); [lia|]. cbn. intros H. apply Hl, elem_of_ids. eauto.
Qed.

(** ** Witnesses *)

Definition sess (i : jsstring) : Session := blank_session i.

Definition ping (i : jsstring) : SessionUpdate :=
  {| event := EvPing; session_id := i; session := Some (sess i); clipboard := None |}.

Definition push (i text : jsstring) : SessionUpdate :=
  {| event := EvClipboard; session_id := i; session := None; clipboard := Some text |}.

Lemma detail_shows_route_witness :
  let es := [DP_load_answer 0 (Ok (sess (js "a"))); DP_update (ping (js "b")); DP_route (js "b");
             DP_update (ping (js "a")); DP_load_answer 0 (Ok (sess (js "b")))] in
  let p := run detail_step (detail_mount (js "a")) es in
  screen p = Sc_session (sess (js "b")) ∧ shows_route p.
Proof.
  split; [reflexivity|].
  apply (detail_shows_route (js "a")
    [DP_load_answer 0 (Ok (sess (js "a"))); DP_update (ping (js "b")); DP_route (js "b");
     DP_update (ping (js "a")); DP_load_answer 0 (Ok (sess (js "b")))]); [done|].
  cbn [all_timely timely]. split_and!; try reflexivity; try done.
  - intros s [= <-] _. reflexivity.
  - intros s [= <-] _. reflexivity.
Defined.

Lemma late_load_witness :
  screen (detail_step
    (run detail_step (detail_mount (js "a")) [DP_route (js "b"); DP_load_answer 1 (Ok (sess (js "b")))])
    (DP_load_answer 0 (Ok (sess (js "a"))))) = Sc_session (sess (js "a")).
Proof.
  destruct (late_load_overwrites (js "a") (js "b") (sess (js "a")) (sess (js "b"))
              (plain_error (js "gone"))) as (_ & _ & H & _); [done..|exact H].
Defined.

(** The page of [a], loaded. *)
Definition on_a : DetailPage :=
  run detail_step (detail_mount (js "a")) [DP_load_answer 0 (Ok (sess (js "a")))].

Lemma tags_saved_under_route_witness :
  last (dp_saves (run detail_step on_a [DP_route (js "b"); DP_tags [js "web"]])) =
    Some (js "b", [js "web"], None).
Proof.
  destruct (tags_saved_under_route on_a (sess (js "a")) (js "b") [js "web"]) as [_ H];
    [done..|exact H].
Defined.

Lemma dismissal_witness :
  let p := detail_step on_a (DP_update (push (js "a") (js "one"))) in
  d_clipboard (dp_detail (run detail_step p
    [DP_copy; DP_write_settled 0 true; DP_tick 500; DP_update (push (js "a") (js "two")); DP_tick 700])) = None.
Proof.
  destruct (dismissal_drops_newer (detail_step on_a (DP_update (push (js "a") (js "one"))))
    {| cb_text := js "one"; cb_bytes := 3; cb_status := cb_ready |} (push (js "a") (js "two")) 500)
    as (_ & H & _); [reflexivity|reflexivity..|unfold DISMISS_MS; lia|exact H].
Defined.

Lemma late_list_witness :
  sess (js "n") ∉ d_sessions (dp_detail (run detail_step on_a
    [DP_update (ping (js "n")); DP_list_answer (Ok (Some [sess (js "a")]))])).
Proof.
  destruct (late_list_loses_update on_a (ping (js "n")) (sess (js "n")) [sess (js "a")]) as [_ H];
    [vm_compute; lia|reflexivity|done|done|apply NoDup_nil_2| |exact H].
  vm_compute. intros H. inversion H as [|? ? ? H']; subst; inversion H'.
Defined.
