(* ===== verification/Restart.v ===== *)
(** * Restarting a session from the dashboard ([handleRestartSession] of
    [pages/DashboardPage.tsx], the restart intent of [pages/SessionDetailPage.tsx])

    The dashboard navigates with an intent in the history state; the session page reads it once
    at its mount, scrubs it from the history entry and hands it to its terminal, whose first
    attach runs the start command ([SshTerminal.attach_effect]). *)

From S2P Require Import Prelude Js Models ApiTypes Api SshClient SshTerminal SessionList SessionStore.
#[local] Open Scope Z_scope.
#[local] Open Scope js_scope.

(** An entry of the session history: its path and the [restart] of its state. *)
Record Entry := { en_path : jsstring; en_restart : option bool }.

(** [navigate(`/sessions/${sessionId}`, { state: { restart: true } })]. *)
Definition handleRestartSession (sessionId : jsstring) : Entry :=
  {| en_path := js "/sessions/" ++ sessionId; en_restart := Some true |}.

(** The mount of the session page: [restartOnMount], and the entry after the scrubbing
    effect. *)
Definition restart_mount (e : Entry) : bool * Entry :=
  let restartOnMount := default false (en_restart e) in
  (restartOnMount,
   if restartOnMount then {| en_path := en_path e; en_restart := None |} else e).

(** The intents of [n] loads of the page from one entry: a reload keeps the entry. *)
Fixpoint loads (n : nat) (e : Entry) : list bool :=
  match n with
  | O => []
  | S n => (restart_mount e).1 :: loads n (restart_mount e).2
  end.

(** ** The dashboard's removal of stale sessions *)

(** The alert of a success, and whether the list is loaded again. *)
Definition handleDeleteStale (answer : result Z) : option jsstring * bool :=
  match answer with
  | Ok deleted => (Some (js "Deleted " ++ of_int deleted ++ js " stale session(s)"), true)
  | Throw _ => (None, false)
  end.

(** ** Facts *)

Lemma loads_scrubbed n p : loads n {| en_path := p; en_restart := None |} = replicate n false.
Proof. induction n as [|n IH]; [done|]. simpl. by rewrite IH. Qed.

(** What the attach effect of a connected terminal runs. *)
Lemma attach_effect_runs o t h :
  host t = Some h → statusRef (refs t) = connected →
  let cmd := if pendingRestart (refs t) then startCommand (sessionName t) else attachCommand (sessionName t) in
  calls (window (attach_effect o t)) = calls (window t) ++ [sshExec (of_int (host_id_ h)) cmd].
Proof.
  intros Hh Hs. unfold attach_effect, hostKey. rewrite Hh. cbn [key_of].
  destruct (of_int (host_id_ h)) as [|c k] eqn:E; [by apply of_int_nonempty in E|].
  rewrite decide_True by done. cbn zeta. by rewrite wasm_call_window.
Qed.

(** A restart happens once: the page opened by the dashboard's Restart runs the start command
    for the session at its first attach, and every reload of that page, however often, only
    attaches. *)
Theorem restart_runs_once i n o t h :
  host t = Some h → statusRef (refs t) = connected →
  ∃ rest, loads (S n) (handleRestartSession i) = true :: rest ∧ rest = replicate n false ∧
    (∀ flag, flag ∈ loads (S n) (handleRestartSession i) → pendingRestart (refs t) = flag →
       calls (window (attach_effect o t)) = calls (window t) ++
         [sshExec (of_int (host_id_ h))
            (if flag then startCommand (sessionName t) else attachCommand (sessionName t))]).
Proof.
  intros Hh Hs. exists (replicate n false). split_and!; [|done|].
  - simpl. by rewrite loads_scrubbed.
  - intros flag _ Hp. rewrite <- Hp. by apply attach_effect_runs.
Qed.

(** A pending restart is not bound to its session: when the page moves to another session
    before the terminal is connected, the first attach starts that other session instead of the
    one whose restart was asked for. *)
Theorem restart_starts_other_session o t h s' :
  mountedRef (refs t) = true → pendingRestart (refs t) = true →
  registered (window t) = Some (instance (client t)) →
  let moved := SshTerminal.step t (o, E_render (Some h) s') in
  let up := report (set_client (client moved) (window moved) moved) (connected, None) in
  calls (window (attach_effect o up)) =
    calls (window t) ++ [sshExec (of_int (host_id_ h)) (startCommand s')].
Proof.
  intros Hm Hp Hr moved up.
  assert (Em : moved = set_props (Some h) s' t) by (unfold moved; cbn; by rewrite Hm).
  destruct (report_connected_fields moved (window moved)) as (R1 & _ & R3 & R4 & R5 & R6);
    [by rewrite Em|]. fold up in R1, R3, R4, R5, R6. rewrite Em in R3, R4, R5, R6.
  rewrite (attach_effect_runs o up h) by done. rewrite R4, R5, R6. cbn. by rewrite Hp.
Qed.

(** ** Witnesses *)

Lemma restart_runs_once_witness :
  calls (window (attach_effect no_reports demo_open)) =
    calls (window demo_open) ++ [sshExec (js "1") (js "tmux attach -t 'a'")].
Proof.
  destruct (restart_runs_once (js "s1") 3 no_reports demo_open (demo_host 1))
    as (rest & _ & _ & H); [reflexivity|reflexivity|].
  apply (H false); [by do 1 right; left|reflexivity].
Defined.

Lemma restart_starts_other_session_witness :
  let t := set_refs (with_exec false true (refs demo_open)) demo_open in
  let moved := SshTerminal.step t (no_reports, E_render (Some (demo_host 1)) (js "b")) in
  calls (window (attach_effect no_reports
    (report (set_client (client moved) (window moved) moved) (connected, None)))) =
  calls (window demo_open) ++ [sshExec (js "1") (js "devsesh start 'b'")].
Proof.
  apply (restart_starts_other_session no_reports
    (set_refs (with_exec false true (refs demo_open)) demo_open) (demo_host 1) (js "b")); reflexivity.
Defined.
