(* ===== verification/SessionView.v ===== *)
(** * What the session pages show ([pages/DashboardPage.tsx], [components/SessionDetailPanel.tsx],
    [components/TagChips.tsx], [pages/SessionDetailPage.tsx])

    The rendered pages as data: the texts, the marks and what each control does; class names
    and layout are left out.  The theorems relate what is on screen to the session store and
    to the keyboard. *)

From S2P Require Import Prelude Js Models ApiTypes Tags SessionList SessionStore DetailPage Restart.
#[local] Open Scope Z_scope.
#[local] Open Scope js_scope.

(** [s || "-"]. *)
Definition or_dash (s : option jsstring) : jsstring :=
  match s with Some ((_ :: _) as t) => t | _ => js "-" end.

(** [session.host?.label || session.host?.hostname || "-"]. *)
Definition host_text (h : option Host) : jsstring :=
  match h with
  | Some h => match host_label h with
              | [] => or_dash (Some (host_hostname h))
              | l => l
              end
  | None => js "-"
  end.

(** The chips; nothing for no tags. *)
Definition TagChips (tags : option (list jsstring)) : list jsstring := default [] tags.

(** [`/sessions/${id}`]. *)
Definition session_path (i : jsstring) : jsstring := js "/sessions/" ++ i.

Section texts.
Context {J : Json} {L : Locale}.
Context (parse_date : jsstring → option Z) (locale_date : jsstring → jsstring).
Context (float_text : Z → jsstring) (now : Z).
(** [JSON.stringify(value, null, 2)]. *)
Context (json_indented : json → jsstring).

(** ** The dashboard *)

(** What the table and the cards say about a session. *)
Record SessionText := {
  x_name : jsstring;
  x_tags : list jsstring;
  x_status : jsstring;
  x_host : jsstring;
  x_started : jsstring;
  x_lastPing : jsstring;
  x_active : bool;
  x_metadata : jsstring;
}.

Definition session_text (s : Session) : SessionText :=
  {| x_name := or_dash (Some (name s));
     x_tags := TagChips (tags s);
     x_status := or_dash (statusMetadata float_text (metadata s));
     x_host := host_text (host s);
     x_started := formatDate locale_date (started_at s);
     x_lastPing := formatRelativeTime parse_date locale_date now (last_ping_at s);
     x_active := isActive parse_date now s;
     x_metadata := parseMetadata float_text (metadata s) |}.

(** A row with its controls: where it leads, the entry its Restart opens and the session its
    Delete deletes; whether it is being dragged or dropped on. *)
Record TableRow := {
  tr_id : jsstring;
  tr_link : jsstring;
  tr_text : SessionText;
  tr_restart : Entry;
  tr_delete : jsstring;
  tr_dragging : bool;
  tr_over : bool;
}.

Definition table_row (dnd : DragState) (s : Session) : TableRow :=
  let i := ApiTypes.id s in
  {| tr_id := i; tr_link := session_path i; tr_text := session_text s;
     tr_restart := handleRestartSession i; tr_delete := i;
     tr_dragging := bool_decide (draggingId dnd = Some i);
     tr_over := bool_decide (overId dnd = Some i) |}.

Record Card := {
  cd_id : jsstring;
  cd_link : jsstring;
  cd_text : SessionText;
  cd_restart : Entry;
  cd_delete : jsstring;
  cd_dragging : bool;
}.

(** [sessionById.get(sid)] on the map of the ordered sessions. *)
Definition sessionById (ordered : list Session) (sid : jsstring) : option Session :=
  find (λ s, bool_decide (ApiTypes.id s = sid)) (reverse ordered).

Definition card (dragging : option jsstring) (s : Session) : Card :=
  let i := ApiTypes.id s in
  {| cd_id := i; cd_link := session_path i; cd_text := session_text s;
     cd_restart := handleRestartSession i; cd_delete := i;
     cd_dragging := bool_decide (dragging = Some i) |}.

(** The order the pointer hook keeps decides; an id that is not listed any more has no card. *)
Definition cards (order : list jsstring) (dragging : option jsstring) (ordered : list Session)
    : list Card :=
  omap (λ sid, card dragging <$> sessionById ordered sid) order.

Inductive DashboardScreen :=
| DS_loading
(** The filter's "n of m", the session being started, the table (or the note that there are
    no sessions) and the cards. *)
| DS_page (summary : option (nat * nat)) (starting : option jsstring)
    (table : option (list TableRow)) (mobile : list Card).

Definition filter_summary (selected : list jsstring) (shown total : nat) : option (nat * nat) :=
  match selected with [] => None | _ => Some (shown, total) end.

Definition dashboard_screen (loading : bool) (sessions : list Session) (h : TagFilterState)
    (creating : option jsstring) (dnd : DragState) (order : list jsstring)
    (dragging : option jsstring) : DashboardScreen :=
  if loading then DS_loading
  else
  let orderedSessions := sortBySeq sessions in
  let tagFilter := useTagFilter h orderedSessions in
  let visibleSessions := tf_visible tagFilter in
  DS_page (filter_summary (tf_selected tagFilter) (length visibleSessions) (length sessions))
    creating
    (match sessions with [] => None | _ => Some (table_row dnd <$> visibleSessions) end)
    (cards order dragging orderedSessions).

(** ** The details of a session *)

Definition formatJson (j : option jsstring) : jsstring :=
  match j with
  | Some ((_ :: _) as text) =>
      match JSON_parse text with
      | Some v => json_indented v
      | None => text
      end
  | _ => js "-"
  end.

(** [value ? formatDate(value) : "-"]. *)
Definition date_or_dash (d : option jsstring) : jsstring :=
  match d with Some ((_ :: _) as t) => formatDate locale_date t | _ => js "-" end.

(** The Tags field: the editor with the session's tags, or the chips. *)
Inductive TagsField :=
| TF_editor (tags suggestions : list jsstring)
| TF_chips (tags : list jsstring)
| TF_none.

Record Details := {
  dt_header : option bool;
  dt_restart : bool;
  dt_name : jsstring;
  dt_tags : TagsField;
  dt_status : jsstring;
  dt_host : jsstring;
  dt_hash : jsstring;
  dt_started : jsstring;
  dt_lastPing : jsstring;
  dt_ended : jsstring;
  dt_userId : Z;
  dt_activity : bool;
  dt_metadata : jsstring;
}.

Definition SessionDetails (showHeader canRestart canEdit : bool) (suggestions : list jsstring)
    (s : Session) : Details :=
  let active := isActive parse_date now s in
  {| dt_header := if showHeader then Some active else None;
     dt_restart := canRestart;
     dt_name := or_dash (Some (name s));
     dt_tags := if canEdit then TF_editor (default [] (tags s)) suggestions
                else match default [] (tags s) with
                     | [] => TF_none
                     | _ => TF_chips (TagChips (tags s))
                     end;
     dt_status := or_dash (statusMetadata float_text (metadata s));
     dt_host := host_text (host s);
     dt_hash := ApiTypes.id s;
     dt_started := formatDate locale_date (started_at s);
     dt_lastPing := date_or_dash (last_ping_at s);
     dt_ended := date_or_dash (ended_at s);
     dt_userId := user_id s;
     dt_activity := active;
     dt_metadata := formatJson (metadata s) |}.

(** ** The side panel *)

Inductive PanelTab := tab_sessions | tab_details.

Record PanelItem := {
  it_index : nat;
  it_id : jsstring;
  it_name : jsstring;
  it_status : jsstring;
  it_tags : list jsstring;
  it_active : bool;
  it_current : bool;
  it_dragging : bool;
  it_over : bool;
}.

(** [session.name || session.id]. *)
Definition name_or_id (s : Session) : jsstring :=
  match name s with [] => ApiTypes.id s | n => n end.

Definition SessionListItem (index : nat) (currentId : jsstring) (dnd : DragState) (s : Session)
    : PanelItem :=
  {| it_index := index; it_id := ApiTypes.id s; it_name := name_or_id s;
     it_status := or_dash (statusMetadata float_text (metadata s));
     it_tags := TagChips (tags s);
     it_active := isActive parse_date now s;
     it_current := bool_decide (ApiTypes.id s = currentId);
     it_dragging := bool_decide (draggingId dnd = Some (ApiTypes.id s));
     it_over := bool_decide (overId dnd = Some (ApiTypes.id s)) |}.

(** No list but a note when there are no sessions. *)
Definition SessionsList (currentId : jsstring) (dnd : DragState) (sessions : list Session)
    : option (list PanelItem) :=
  match sessions with
  | [] => None
  | _ => Some (imap (λ i s, SessionListItem (i + 1) currentId dnd s) sessions)
  end.

Inductive Panel :=
| P_sessions (summary : option (nat * nat)) (items : option (list PanelItem))
| P_details (d : Details).

Definition SessionDetailPanel (activeTab : PanelTab) (s : Session) (sessions : list Session)
    (total : nat) (available selected : list jsstring) (dnd : DragState) : Panel :=
  match activeTab with
  | tab_sessions =>
      P_sessions (filter_summary selected (length sessions) total)
        (SessionsList (ApiTypes.id s) dnd sessions)
  | tab_details => P_details (SessionDetails false true true available s)
  end.

(** ** The session page *)

Inductive PageScreen :=
| PS_loading
| PS_error (text : jsstring)
(** The bar's title with the label of the connection button, the panel, the terminal with its
    host and session name. *)
| PS_session (bar : option (jsstring * jsstring)) (panel : option Panel)
    (terminal : option (Host * jsstring)).

Definition connect_label (status : ConnectionStatus) : jsstring :=
  match status with
  | disconnected | error_status => js "Connect"
  | _ => js "Disconnect"
  end.

Definition detail_screen (p : DetailPage) (h : TagFilterState) (activeTab : PanelTab)
    (panelOpen : bool) (status : ConnectionStatus) (dnd : DragState) : PageScreen :=
  if dp_loading p then PS_loading
  else
  match dp_error p, d_session (dp_detail p) with
  | (_ :: _) as e, _ => PS_error e
  | [], None => PS_error (js "Session not found")
  | [], Some s =>
      let orderedSessions := sortBySeq (d_sessions (dp_detail p)) in
      let tagFilter := useTagFilter h orderedSessions in
      PS_session
        ((λ _, (name_or_id s, connect_label status)) <$> host s)
        (match host s with
         | Some _ =>
             if panelOpen then
               Some (SessionDetailPanel activeTab s (tf_visible tagFilter) (length orderedSessions)
                       (tf_tags tagFilter) (tf_selected tagFilter) dnd)
             else None
         | None => None
         end)
        ((λ h, (h, name_or_id s)) <$> host s)
  end.
End texts.

(** ** Facts *)

Section facts.
Context {J : Json} {L : Locale} {HL : LocaleLaws L}.
Context (parse_date : jsstring → option Z) (locale_date : jsstring → jsstring).
Context (float_text : Z → jsstring) (now : Z).

(** One of the session's tags is among the stored selection, case aside. *)
Definition selected_by (sel : list jsstring) (s : Session) : Prop :=
  ∃ t, t ∈ sessionTags s ∧ toLowerCase t ∈ toLowerCase <$> sel.

(** What the filter lets through of a store: the sessions the selection matches, or all of
    them when it matches none. *)
Definition shown (sel : list jsstring) (m : Store) (s : Session) : Prop :=
  selected_by sel s ∨ ∀ i s', m !! i = Some s' → ¬ selected_by sel s'.

Lemma nothing_selected h l :
  tf_selected (useTagFilter h l) = [] ↔ ∀ s, s ∈ l → ¬ selected_by (stored h) s.
Proof.
  cbn [useTagFilter tf_selected]. split.
  - intros E s Hs (t & Ht & Hl). destruct (allTags_complete l s t Hs Ht) as (u & Hu & Eu).
    apply same_true in Eu. apply (not_elem_of_nil u). rewrite <- E.
    apply elem_of_effectiveFilter. by rewrite Eu.
  - intros Hn. destruct (effectiveFilter (stored h) (allTags l)) as [|a sel] eqn:E; [done|].
    assert (Ha : a ∈ effectiveFilter (stored h) (allTags l)) by (rewrite E; by left).
    apply elem_of_effectiveFilter in Ha as [Ha Hl].
    destruct (allTags_sound _ _ Ha) as (s & Hs & Ht). destruct (Hn s Hs). by exists a.
Qed.

Lemma visible_shown h l s :
  s ∈ tf_visible (useTagFilter h l) ↔
  s ∈ l ∧ (selected_by (stored h) s ∨ ∀ s', s' ∈ l → ¬ selected_by (stored h) s').
Proof.
  destruct (decide (tf_selected (useTagFilter h l) = [])) as [E|E].
  - assert (Ev : tf_visible (useTagFilter h l) = l).
    { cbn [useTagFilter tf_visible tf_selected] in *. by rewrite E. }
    rewrite Ev. pose proof (proj1 (nothing_selected h l) E). naive_solver.
  - rewrite useTagFilter_visible by done. fold (selected_by (stored h) s).
    assert (Hx : ¬ ∀ s', s' ∈ l → ¬ selected_by (stored h) s').
    { intros Hn. by apply E, nothing_selected. }
    naive_solver.
Qed.

(** The visible sessions are a selection from the list, in its order. *)
Lemma visible_sublist h l : tf_visible (useTagFilter h l) `sublist_of` l.
Proof.
  cbn [useTagFilter tf_visible]. unfold filterByTags. case_if; [done|]. apply sublist_filter.
Qed.

Lemma StronglySorted_sublist {A} (R : A → A → Prop) l k :
  l `sublist_of` k → StronglySorted R k → StronglySorted R l.
Proof.
  induction 1 as [|x l k Hs IH|x l k Hs IH]; intros H; [done| |].
  - apply StronglySorted_inv in H as [H Hx]. constructor; [by apply IH|].
    rewrite Forall_forall in Hx |- *. intros y Hy. apply Hx. by eapply elem_of_sublist.
  - apply StronglySorted_inv in H as [H _]. by apply IH.
Qed.

Abbreviation row := (table_row parse_date locale_date float_text now).
Abbreviation mobile_card := (card parse_date locale_date float_text now).
Abbreviation screen_of := (dashboard_screen parse_date locale_date float_text now).

(** The cards in the order of a list of the sessions are the cards of that list. *)
Lemma cards_of_ids dragging ordered l :
  NoDup (ids_of ordered) → l ⊆ ordered →
  cards parse_date locale_date float_text now (ids_of l) dragging ordered
  = mobile_card dragging <$> l.
Proof.
  intros Hn Hl. induction l as [|s l IH]; [done|]. unfold cards, ids_of in *.
  cbn [fmap list_fmap omap list_omap]. unfold sessionById at 1.
  rewrite (find_id_last (ApiTypes.id s) ordered s); [|done|apply Hl; by left|done].
  cbn [fmap option_fmap option_map]. f_equal. apply IH. intros x Hx. apply Hl. by right.
Qed.

(** What is on screen of a list without repetitions. *)
Lemma dashboard_screen_spec l h creating dnd order dragging :
  NoDup (ids_of l) →
  ∃ vis, NoDup (ids_of vis) ∧
    (∀ s, s ∈ vis ↔ s ∈ l ∧ (selected_by (stored h) s ∨ ∀ s', s' ∈ l → ¬ selected_by (stored h) s')) ∧
    StronglySorted (λ a b, default 0 (seq a) <= default 0 (seq b)) vis ∧
    ∃ summary mobile,
      screen_of false l h creating dnd order dragging =
      DS_page summary creating (match l with [] => None | _ => Some (row dnd <$> vis) end) mobile ∧
      match summary with
      | Some (a, b) => a = length vis ∧ b = length l
      | None => length vis = length l
      end ∧
      (order = ids_of vis → mobile = mobile_card dragging <$> vis).
Proof.
  intros Hn. destruct (sort_seq_sorted l) as [Hp Hs].
  set (ordered := sortBySeq l) in *.
  assert (Hno : NoDup (ids_of ordered)) by (unfold ids_of in *; by rewrite Hp).
  pose proof (visible_sublist h ordered) as Hsub.
  set (vis := tf_visible (useTagFilter h ordered)) in *. exists vis. split_and!.
  - unfold ids_of. eapply sublist_NoDup; [exact Hno|]. by apply fmap_sublist.
  - intros s. unfold vis. rewrite visible_shown. setoid_rewrite Hp. done.
  - by eapply StronglySorted_sublist.
  - eexists _, _. split; [reflexivity|]. fold ordered. fold vis. split.
    + unfold filter_summary.
      destruct (tf_selected (useTagFilter h ordered)) as [|x sel] eqn:E; [|done].
      assert (Ev : vis = ordered).
      { unfold vis. cbn [useTagFilter tf_visible tf_selected] in *. by rewrite E. }
      rewrite Ev. by apply Permutation_length.
    + intros ->. apply cards_of_ids; [exact Hno|]. by apply sublist_subseteq.
Qed.

(** C32: The dashboard shows its store: after whatever updates and answers, the table has one
    row for each session of the finite map they amount to that the tag filter lets through (the
    sessions with a selected tag, or all when no session has one), in the user's order, with
    that session's texts and controls; there is no table only when there are no sessions; the
    filter's "n of m" counts both; and when the mobile order is the table's, the cards are those
    same sessions with the same texts. *)
Theorem dashboard_shows_store es h creating dnd order dragging :
  Forall listed_once es →
  let l := run page_step ([] : list Session) es in
  let m := run (store_step (list Session)) ∅ es in
  ∃ vis summary mobile,
    screen_of false l h creating dnd order dragging =
    DS_page summary creating (if decide (m = ∅) then None else Some (row dnd <$> vis)) mobile ∧
    NoDup (ids_of vis) ∧
    (∀ s, s ∈ vis ↔ m !! ApiTypes.id s = Some s ∧ shown (stored h) m s) ∧
    StronglySorted (λ a b, default 0 (seq a) <= default 0 (seq b)) vis ∧
    match summary with
    | Some (a, b) => a = length vis ∧ b = size m
    | None => length vis = size m
    end ∧
    (order = ids_of vis →
       mobile = mobile_card dragging <$> vis ∧ cd_text <$> mobile = tr_text <$> (row dnd <$> vis)).
Proof.
  intros Hes l m. assert (HE : NoDup (ids_of l) ∧ store_of l = m).
  { pose proof (run_refines ([] : list Session) es Hes (NoDup_nil_2)) as H.
    exact H. }
  clearbody l m. destruct HE as [Hn E].
  assert (Hm : ∀ i s, m !! i = Some s ↔ s ∈ l ∧ ApiTypes.id s = i)
    by (intros i s; rewrite <- E; by apply store_of_spec).
  assert (Hsz : length l = size m).
  { rewrite <- E. unfold store_of. rewrite map_size_list_to_map by (by rewrite store_keys).
    by rewrite length_fmap. }
  assert (Ht : ∀ k : list TableRow, match l with [] => None | _ => Some k end
             = if decide (m = ∅) then None else Some k).
  { intros k. destruct l as [|s l']; case_decide as Em; try done.
    by rewrite Em, map_size_empty in Hsz. }
  destruct (dashboard_screen_spec l h creating dnd order dragging Hn)
    as (vis & Hnv & Hv & Hs & summary & mobile & Escr & Hsum & Hmob).
  exists vis, summary, mobile. rewrite Escr, Ht. split_and!; [done | exact Hnv | | exact Hs | | ].
  - intros s. rewrite Hv, Hm. unfold shown. setoid_rewrite Hm. naive_solver.
  - destruct summary as [[a b]|]; congruence.
  - intros Ho. rewrite (Hmob Ho). split; [done|]. by rewrite <- !list_fmap_compose.
Qed.

(** *** The numbers of the panel and the keyboard *)

Abbreviation items_of := (SessionsList parse_date float_text now).

Lemma items_lookup current dnd sessions items k :
  items_of current dnd sessions = Some items →
  items !! k = (λ s, SessionListItem parse_date float_text now (k + 1) current dnd s) <$> sessions !! k.
Proof.
  unfold SessionsList. destruct sessions as [|s l]; [done|]. intros E.
  assert (E' : items = imap (λ i s, SessionListItem parse_date float_text now (i + 1) current dnd s) (s :: l))
    by congruence.
  by rewrite E', list_lookup_imap.
Qed.

(** Ctrl and a digit lead where the panel says: for the sessions the panel lists, the
    shortcut goes to the row with that number, stays where it is on the current row, and does
    nothing when no row has the number. *)
Theorem shortcut_matches_number e sessions current dnd items n :
  items_of current dnd sessions = Some items →
  ctrlKey e = true → altKey e = false → metaKey e = false → shiftKey e = false →
  (1 <= n <= 9)%nat → code e = js "Digit" ++ [48 + Z.of_nat n] →
  digit_target e sessions (Some current) =
  match find (λ it, (it_index it =? n)%nat) items with
  | Some it => if it_current it then None else Some (it_id it)
  | None => None
  end.
Proof.
  intros Hi Hc Ha Hm Hs Hn Hcode.
  assert (Hf : find (λ it, (it_index it =? n)%nat) items = items !! (n - 1)%nat).
  { assert (Hidx : ∀ k it, items !! k = Some it → it_index it = (k + 1)%nat).
    { intros k it H. rewrite (items_lookup _ _ _ _ k Hi) in H.
      destruct (sessions !! k); cbn in H; [|done]. by simplify_eq. }
    clear -Hidx Hn. destruct n as [|n]; [lia|]. clear Hn.
    replace (S n - 1)%nat with n by lia.
    assert (H : ∀ l b, (∀ k it, l !! k = Some it → it_index it = (b + k + 1)%nat) →
              ∀ j, find (λ it, (it_index it =? b + j + 1)%nat) l = l !! j).
    { clear. intros l. induction l as [|x l IH]; intros b Hb j; [done|]. cbn [find].
      rewrite (Hb 0%nat x eq_refl). destruct j as [|j].
      - by rewrite Nat.eqb_refl.
      - rewrite (proj2 (Nat.eqb_neq _ _)) by lia. cbn [lookup list_lookup].
        replace (b + S j + 1)%nat with (S b + j + 1)%nat by lia. apply IH.
        intros k it Hk. rewrite (Hb (S k) it Hk). lia. }
    replace (S n) with (0 + n + 1)%nat by lia. apply H. exact Hidx. }
  rewrite Hf, (items_lookup _ _ _ _ _ Hi). unfold digit_target. rewrite Hc, Ha, Hm, Hs, Hcode.
  assert (Hd : drop 5 (js "Digit" ++ [48 + Z.of_nat n]) = [48 + Z.of_nat n]) by reflexivity.
  assert (Ht : take 5 (js "Digit" ++ [48 + Z.of_nat n]) = js "Digit") by reflexivity.
  rewrite Hd, Ht, bool_decide_eq_true_2 by done.
  assert (H1 : (49 <=? 48 + Z.of_nat n) = true) by (apply Z.leb_le; lia).
  assert (H2 : (48 + Z.of_nat n <=? 57) = true) by (apply Z.leb_le; lia).
  rewrite H1, H2. cbn [negb orb andb].
  replace (Z.to_nat (48 + Z.of_nat n - 49)) with (n - 1)%nat by lia.
  destruct (sessions !! (n - 1)%nat) as [x|]; cbn [fmap option_fmap option_map]; [|done].
  cbn [SessionListItem it_current it_id].
  destruct (decide (ApiTypes.id x = current)) as [->|Hne].
  - by rewrite decide_True, bool_decide_eq_true_2.
  - rewrite decide_False, bool_decide_eq_false_2 by congruence. done.
Qed.

(** The session page draws no terminal for a session without a host, and its panel counts all
    the sessions it holds. *)
Lemma detail_screen_hostless p h tab isopen status dnd s ji :
  dp_loading p = false → dp_error p = [] → d_session (dp_detail p) = Some s → host s = None →
  detail_screen parse_date locale_date float_text now ji p h tab isopen status dnd
  = PS_session None None None.
Proof. intros Hl He Hs Hh. unfold detail_screen. by rewrite Hl, He, Hs, Hh. Qed.
End facts.

(** ** Witnesses *)

Abbreviation demo_screen :=
  (dashboard_screen (λ _, None) (λ s, s) (λ _, []) 0 false).

Lemma dashboard_shows_store_witness :
  let l := run page_step ([] : list Session) demo_feed in
  ∃ vis summary mobile,
    demo_screen l (useTagFilter_init (Some ∅)) None drag_idle [] None =
    DS_page summary None (Some (table_row (λ _, None) (λ s, s) (λ _, []) 0 drag_idle <$> vis)) mobile.
Proof.
  destruct (dashboard_shows_store (λ _, None) (λ s, s) (λ _, []) 0 demo_feed
    (useTagFilter_init (Some ∅)) None drag_idle [] None demo_feed_listed)
    as (vis & summary & mobile & E & _).
  exists vis, summary, mobile. exact E.
Defined.

Lemma shortcut_witness :
  digit_target {| ev_type := js "keydown"; code := js "Digit2"; metaKey := false; ctrlKey := true;
                  shiftKey := false; altKey := false |} demo_list (Some (js "a")) =
  match find (λ it, (it_index it =? 2)%nat)
    (imap (λ i s, SessionListItem (λ _, None) (λ _, []) 0 (i + 1) (js "a") drag_idle s) demo_list) with
  | Some it => if it_current it then None else Some (it_id it)
  | None => None
  end.
Proof.
  apply (shortcut_matches_number (λ _, None) (λ s, s) (λ _, []) 0 _ demo_list (js "a") drag_idle); try done.
  lia.
Defined.
