(* ===== verification/SessionCreate.v ===== *)
(** * Creating a session ([components/NewSessionButton.tsx], [components/SessionCreator.tsx],
    [pages/NewSessionPage.tsx], the creation handlers of [pages/DashboardPage.tsx])

    The dialog chooses a host and a name; the creator runs the start command in an
    [SSHTerminal] ([SshTerminal.v]), watches the feed ([SessionUpdates.v]) for the session and
    reports it, or a timeout, to its parent.  The page and the creator each subscribe to the
    feed, so an update reaches them as two events.  Times are milliseconds. *)

From S2P Require Import Prelude Js Models ApiTypes Tags SessionList.
#[local] Open Scope Z_scope.
#[local] Open Scope js_scope.

(** ** The dialog

    [None] of [nd_hostId] is the empty selection. *)

Record NewSessionDialog := {
  nd_hosts : option (list Host);
  nd_hostId : option Z;
  nd_name : jsstring;
  nd_error : jsstring;
}.

Definition dialog_open (defaultHostId : option Z) : NewSessionDialog :=
  {| nd_hosts := None; nd_hostId := defaultHostId; nd_name := []; nd_error := [] |}.

(** The answer of [listHosts], dropped once the dialog is closed ([cancelled]). *)
Definition hosts_loaded (cancelled : bool) (defaultHostId : option Z) (answer : result (list Host))
    (d : NewSessionDialog) : NewSessionDialog :=
  if cancelled then d
  else match answer with
  | Ok h =>
      {| nd_hosts := Some h;
         nd_hostId := match nd_hostId d with
                      | Some cur => Some cur
                      | None => match defaultHostId with
                                | Some i => Some i
                                | None => host_id_ <$> head h
                                end
                      end;
         nd_name := nd_name d; nd_error := nd_error d |}
  | Throw _ => {| nd_hosts := nd_hosts d; nd_hostId := nd_hostId d; nd_name := nd_name d;
                  nd_error := js "Failed to load hosts" |}
  end.

Definition select_host (value : option Z) (d : NewSessionDialog) : NewSessionDialog :=
  {| nd_hosts := nd_hosts d; nd_hostId := value; nd_name := nd_name d; nd_error := nd_error d |}.

Definition type_name (value : jsstring) (d : NewSessionDialog) : NewSessionDialog :=
  {| nd_hosts := nd_hosts d; nd_hostId := nd_hostId d; nd_name := value; nd_error := nd_error d |}.

Definition nd_fail (message : jsstring) (d : NewSessionDialog) : NewSessionDialog :=
  {| nd_hosts := nd_hosts d; nd_hostId := nd_hostId d; nd_name := nd_name d; nd_error := message |}.

(** [handleSubmit]: the arguments of [onSubmit], if it is called. *)
Definition dialog_submit (d : NewSessionDialog) : option (Host * jsstring) * NewSessionDialog :=
  let trimmed := trim (nd_name d) in
  if bool_decide (trimmed = []) then (None, nd_fail (js "Session name is required") d)
  else match (h ← nd_hosts d; snd <$> list_find (λ x, Some (host_id_ x) = nd_hostId d) h) with
  | None => (None, nd_fail (js "Select a host") d)
  | Some host => (Some (host, trimmed), d)
  end.

(** ** The creator *)

Definition CREATE_TIMEOUT_MS : Z := 60000.

Definition timed_out_message : jsstring := js "Timed out waiting for the session to start".

Record Creator := {
  cr_host : Host;
  cr_name : jsstring;
  cr_done : bool;
  cr_now : Z;
  (** When its timer fires; [None] once it fired. *)
  cr_deadline : option Z;
  (** The calls of [onCreated] and of [onError]. *)
  cr_created : list Session;
  cr_errors : list jsstring;
}.

Definition creator_mount (host : Host) (nm : jsstring) (now : Z) : Creator :=
  {| cr_host := host; cr_name := nm; cr_done := false; cr_now := now;
     cr_deadline := Some (now + CREATE_TIMEOUT_MS); cr_created := []; cr_errors := [] |}.

(** [handleUpdate]. *)
Definition creator_update (u : SessionUpdate) (c : Creator) : Creator :=
  if cr_done c then c
  else if matchesNewSession u (host_id_ (cr_host c)) (cr_name c) then
    {| cr_host := cr_host c; cr_name := cr_name c; cr_done := true; cr_now := cr_now c;
       cr_deadline := cr_deadline c; cr_errors := cr_errors c;
       cr_created := cr_created c ++ match session u with Some s => [s] | None => [] end |}
  else c.

(** The timer's callback. *)
Definition creator_timeout (c : Creator) : Creator :=
  {| cr_host := cr_host c; cr_name := cr_name c; cr_done := true; cr_now := cr_now c;
     cr_deadline := None; cr_created := cr_created c;
     cr_errors := if cr_done c then cr_errors c else cr_errors c ++ [timed_out_message] |}.

(** Time passes; a due timer fires. *)
Definition creator_wait (dt : Z) (c : Creator) : Creator :=
  {| cr_host := cr_host c; cr_name := cr_name c; cr_done := cr_done c;
     cr_now := cr_now c + Z.max 0 dt; cr_deadline := cr_deadline c;
     cr_created := cr_created c; cr_errors := cr_errors c |}.

Definition creator_tick (dt : Z) (c : Creator) : Creator :=
  let c := creator_wait dt c in
  match cr_deadline c with
  | Some d => if d <=? cr_now c then creator_timeout c else c
  | None => c
  end.

(** A render with other [host] and [name]: the effect of the timer depends on [onError] only. *)
Definition creator_props (host : Host) (nm : jsstring) (c : Creator) : Creator :=
  {| cr_host := host; cr_name := nm; cr_done := cr_done c; cr_now := cr_now c;
     cr_deadline := cr_deadline c; cr_created := cr_created c; cr_errors := cr_errors c |}.

Inductive CreatorEvent :=
| CE_update (u : SessionUpdate)
| CE_tick (dt : Z)
| CE_props (host : Host) (nm : jsstring).

Definition creator_step (c : Creator) (e : CreatorEvent) : Creator :=
  match e with
  | CE_update u => creator_update u c
  | CE_tick dt => creator_tick dt c
  | CE_props h n => creator_props h n c
  end.

(** ** The dashboard's hidden creation

    [creating] and the creator are one: it is mounted while [creating] is set. *)

Record DashboardCreate := {
  dc_sessions : list Session;
  dc_creator : option Creator;
  dc_alerts : list jsstring;
  dc_now : Z;
}.

Definition dc_set (c : option Creator) (alerts : list jsstring) (d : DashboardCreate) : DashboardCreate :=
  {| dc_sessions := dc_sessions d; dc_creator := c; dc_alerts := alerts; dc_now := dc_now d |}.

(** [handleCreated] and [handleCreateError]: what the creator reported is acted on, and it is
    unmounted. *)
Definition dc_settle (c : Creator) (d : DashboardCreate) : DashboardCreate :=
  match cr_created c, cr_errors c with
  | [], [] => dc_set (Some c) (dc_alerts d) d
  | _ :: _, _ => dc_set None (dc_alerts d) d
  | [], e :: _ => dc_set None (dc_alerts d ++ [js "Failed to start session: " ++ e]) d
  end.

(** [handleNewSession]: [setCreating] mounts the creator, or gives the mounted one new
    properties. *)
Definition handleNewSession (host : Host) (nm : jsstring) (d : DashboardCreate) : DashboardCreate :=
  dc_set (Some (match dc_creator d with
                | Some c => creator_props host nm c
                | None => creator_mount host nm (dc_now d)
                end)) (dc_alerts d) d.

Inductive DashboardEvent :=
| D_new (host : Host) (nm : jsstring)
| D_page_update (u : SessionUpdate)
| D_creator_update (u : SessionUpdate)
| D_tick (dt : Z).

Definition dashboard_step (d : DashboardCreate) (e : DashboardEvent) : DashboardCreate :=
  match e with
  | D_new h n => handleNewSession h n d
  | D_page_update u =>
      {| dc_sessions := Dashboard_handleUpdate u (dc_sessions d); dc_creator := dc_creator d;
         dc_alerts := dc_alerts d; dc_now := dc_now d |}
  | D_creator_update u =>
      match dc_creator d with
      | Some c => dc_settle (creator_update u c) d
      | None => d
      end
  | D_tick dt =>
      let d' := {| dc_sessions := dc_sessions d; dc_creator := dc_creator d;
                   dc_alerts := dc_alerts d; dc_now := dc_now d + Z.max 0 dt |} in
      match dc_creator d with
      | Some c => dc_settle (creator_tick dt c) d'
      | None => d'
      end
  end.

(** ** [NewSessionPage.tsx] *)

(** The page: the creator while it is on screen, the error, and the navigations
    ([replace] ones are marked). *)
Record NewSessionPage := {
  ns_creator : option Creator;
  ns_error : jsstring;
  ns_routes : list (jsstring * bool);
}.

(** The page for the history state: without a host or a name there is nothing to create. *)
Definition newSession_mount (state : option (option Host * option jsstring)) (now : Z) : NewSessionPage :=
  match default (None, None) state with
  | (Some host, Some (c :: nm)) =>
      {| ns_creator := Some (creator_mount host (c :: nm) now); ns_error := []; ns_routes := [] |}
  | _ => {| ns_creator := None; ns_error := []; ns_routes := [(js "/dashboard", true)] |}
  end.

(** [handleCreated] and [handleError] after a step of the creator; an error takes it off the
    screen. *)
Definition newSession_settle (c : Creator) (p : NewSessionPage) : NewSessionPage :=
  match cr_created c, cr_errors c with
  | s :: _, _ =>
      {| ns_creator := None; ns_error := ns_error p;
         ns_routes := ns_routes p ++ [(js "/sessions/" ++ ApiTypes.id s, true)] |}
  | [], e :: _ => {| ns_creator := None; ns_error := e; ns_routes := ns_routes p |}
  | [], [] => {| ns_creator := Some c; ns_error := ns_error p; ns_routes := ns_routes p |}
  end.

Definition newSession_step (p : NewSessionPage) (e : CreatorEvent) : NewSessionPage :=
  match ns_creator p with
  | Some c => newSession_settle (creator_step c e) p
  | None => p
  end.

(** ** Facts: the dialog *)

(** The dialog after the hosts arrived and a name was typed. *)
Definition filled (default_ : option Z) (hs : list Host) (nm : jsstring) : NewSessionDialog :=
  type_name nm (hosts_loaded false default_ (Ok hs) (dialog_open default_)).

(** The target of a new session: with hosts to choose from, the dialog submits the trimmed
    name and the default host, or the first host when there is no default; but a default host
    that is not in the list (the host of a session whose host was removed) leaves no target, and
    the dialog asks to select a host although its list shows one. *)
Theorem dialog_target default_ (hs : list Host) h0 nm :
  head hs = Some h0 → trim nm ≠ [] →
  match default_ with
  | None => (dialog_submit (filled default_ hs nm)).1 = Some (h0, trim nm)
  | Some i =>
      (∃ h, h ∈ hs ∧ host_id_ h = i ∧ (dialog_submit (filled default_ hs nm)).1 = Some (h, trim nm)) ∨
      (i ∉ host_id_ <$> hs ∧ (dialog_submit (filled default_ hs nm)).1 = None ∧
       nd_error (dialog_submit (filled default_ hs nm)).2 = js "Select a host")
  end.
Proof.
  intros Hh Hn. unfold dialog_submit, filled, type_name, hosts_loaded, dialog_open.
  cbn [nd_hosts nd_hostId nd_name mbind option_bind]. rewrite bool_decide_eq_false_2 by done.
  destruct default_ as [i|].
  - destruct (list_find _ hs) as [[n h]|] eqn:E; cbn [fmap option_fmap option_map snd fst].
    + apply list_find_Some in E as (El & Ei & _). left. exists h. split_and!; [|by injection Ei|done].
      by eapply list_elem_of_lookup_2.
    + right. apply list_find_None in E. split_and!; [|done|done].
      intros (h & -> & Hin)%list_elem_of_fmap. rewrite Forall_forall in E. by apply (E h).
  - destruct hs as [|h hs]; [done|]. injection Hh as ->. simpl. by rewrite decide_True.
Qed.

(** ** Facts: the creator *)

Definition elapsed (es : list CreatorEvent) : Z :=
  foldr (λ e t, match e with CE_tick dt => Z.max 0 dt + t | _ => t end) 0 es.

Lemma elapsed_cons e es : elapsed (e :: es) = elapsed [e] + elapsed es.
Proof. destruct e; simpl; lia. Qed.

Definition same_props (e : CreatorEvent) : Prop :=
  match e with CE_props _ _ => False | _ => True end.

(** Reported at most once, exactly when it is done; the timer runs until it fires at its
    time. *)
Record creator_ok (host : Host) (nm : jsstring) (t0 : Z) (c : Creator) : Prop := {
  co_props : cr_host c = host ∧ cr_name c = nm;
  co_once : (length (cr_created c) + length (cr_errors c) = if cr_done c then 1 else 0)%nat;
  co_match : Forall (λ s, host_id s = host_id_ host ∧ name s = nm) (cr_created c);
  co_timer : match cr_deadline c with
             | Some d => d = t0 + CREATE_TIMEOUT_MS ∧ cr_now c < d ∧ cr_errors c = []
             | None => cr_done c = true ∧ t0 + CREATE_TIMEOUT_MS <= cr_now c
             end;
}.

Lemma matches_session u h n : matchesNewSession u h n = true →
  ∃ s, session u = Some s ∧ host_id s = h ∧ name s = n.
Proof.
  unfold matchesNewSession. case_if; [done|]. destruct (session u) as [s|]; [|done].
  rewrite andb_true_iff, bool_decide_eq_true. zbool. intros [<- <-]. by exists s.
Qed.

Lemma creator_step_ok host nm t0 c e :
  same_props e → creator_ok host nm t0 c → creator_ok host nm t0 (creator_step c e).
Proof.
  intros He [[Hh Hn] Ho Hm Ht]. destruct e as [u|dt|h n]; [| |done]; cbn [creator_step].
  - unfold creator_update. destruct (cr_done c) eqn:Ed; [by split; rewrite ?Ed|].
    destruct (matchesNewSession _ _ _) eqn:E; [|by split; rewrite ?Ed].
    apply matches_session in E as (s & Es & E1 & E2). rewrite Es.
    split; cbn; [done| |apply Forall_app; split; [done|]|].
    + rewrite length_app. simpl. lia.
    + constructor; [|done]. by rewrite E1, E2, Hh, Hn.
    + destruct (cr_deadline c); [done|]. by destruct Ht.
  - unfold creator_tick, creator_timeout, creator_wait. cbn [cr_deadline cr_now cr_done].
    destruct (cr_deadline c) as [d|] eqn:Ec.
    + destruct Ht as (-> & Hlt & He'). case_if; zbool; split; cbn.
      all: rewrite ?Ec; try done; try lia.
      destruct (cr_done c); [lia|]. rewrite length_app. simpl. lia.
    + destruct Ht as [Hd Hle]. split; cbn; rewrite ?Ec; [done|done|done|]. split; [done|lia].
Qed.

Lemma creator_tick_early dt c t :
  cr_deadline c = Some t → cr_now c + Z.max 0 dt < t → creator_tick dt c = creator_wait dt c.
Proof.
  intros Hd Ht. unfold creator_tick. cbn [creator_wait cr_deadline cr_now].
  by rewrite Hd, (proj2 (Z.leb_gt _ _)).
Qed.

Lemma creator_tick_due dt c t :
  cr_deadline c = Some t → t <= cr_now c + Z.max 0 dt →
  creator_tick dt c = creator_timeout (creator_wait dt c).
Proof.
  intros Hd Ht. unfold creator_tick. cbn [creator_wait cr_deadline cr_now].
  by rewrite Hd, (proj2 (Z.leb_le _ _)).
Qed.

Lemma creator_now_step c e : same_props e →
  cr_now (creator_step c e) = cr_now c + elapsed [e].
Proof.
  destruct e as [u|dt|h n]; intros He; [| |done]; cbn.
  - unfold creator_update. repeat case_if; cbn; lia.
  - unfold creator_tick, creator_wait. cbn. destruct (cr_deadline c); cbn; [case_if; cbn; lia|lia].
Qed.

Lemma creator_run host nm t0 c es : Forall same_props es → creator_ok host nm t0 c →
  creator_ok host nm t0 (run creator_step c es) ∧
  cr_now (run creator_step c es) = cr_now c + elapsed es.
Proof.
  intros Hes. revert c. induction Hes as [|e es He _ IH]; intros c Hc; [split; [done|simpl; lia]|].
  destruct (IH (creator_step c e)) as [H1 H2]; [by apply creator_step_ok|]. split; [done|].
  change (run creator_step c (e :: es)) with (run creator_step (creator_step c e) es).
  rewrite H2, creator_now_step by done. destruct e; simpl; lia.
Qed.

Lemma creator_mount_ok host nm now : creator_ok host nm now (creator_mount host nm now).
Proof. split; cbn; try done. unfold CREATE_TIMEOUT_MS. split_and!; [done|lia|done]. Qed.

(** A creation ends, once: the creator reports at most one of a session and a timeout,
    however many updates keep coming; a session it reports runs on the chosen host under the
    chosen name; a timeout is never reported before a minute has passed, and after a minute
    something has been reported. *)
Theorem creation_settles host nm now es :
  Forall same_props es →
  let c := run creator_step (creator_mount host nm now) es in
  let reports := (length (cr_created c) + length (cr_errors c))%nat in
  (reports <= 1)%nat ∧
  Forall (λ s, host_id s = host_id_ host ∧ name s = nm) (cr_created c) ∧
  (elapsed es < CREATE_TIMEOUT_MS → cr_errors c = []) ∧
  (CREATE_TIMEOUT_MS <= elapsed es → reports = 1%nat).
Proof.
  intros Hes c reports. destruct (creator_run host nm now _ es Hes (creator_mount_ok host nm now))
    as [[_ Ho Hm Ht] Hn]. fold c in Ho, Hm, Ht, Hn. cbn in Hn. unfold reports.
  rewrite Ho. split_and!; [destruct (cr_done c); lia|done| |].
  - intros He. destruct (cr_deadline c); [tauto|lia].
  - intros He. destruct (cr_deadline c) as [d|]; [lia|]. destruct Ht as [-> _]. done.
Qed.

(** ** Facts: the dashboard *)

(** What may happen on the dashboard while it waits: its own updates, time, and updates for the
    creator that are not the awaited session. *)
Definition waits_for (host : Host) (nm : jsstring) (e : DashboardEvent) : Prop :=
  match e with
  | D_new _ _ => False
  | D_page_update _ => True
  | D_creator_update u => matchesNewSession u (host_id_ host) nm = false
  | D_tick _ => True
  end.

Definition dashboard_elapsed (es : list DashboardEvent) : Z :=
  foldr (λ e t, match e with D_tick dt => Z.max 0 dt + t | _ => t end) 0 es.

(** A creator that has reported nothing and whose timer is not due. *)
Definition waiting (host : Host) (nm : jsstring) (left_ : Z) (c : Creator) : Prop :=
  cr_host c = host ∧ cr_name c = nm ∧ cr_done c = false ∧ cr_created c = [] ∧ cr_errors c = [] ∧
  cr_deadline c = Some (cr_now c + left_) ∧ 0 < left_.

Lemma dashboard_waits_step host nm e d c left_ :
  waits_for host nm e → dc_creator d = Some c → waiting host nm left_ c →
  dashboard_elapsed [e] < left_ →
  dc_alerts (dashboard_step d e) = dc_alerts d ∧
  ∃ c', dc_creator (dashboard_step d e) = Some c' ∧
    waiting host nm (left_ - dashboard_elapsed [e]) c'.
Proof.
  intros He Hc (Hh & Hn & Hd & Hcr & Her & Hdl & H0) Hl.
  destruct e as [h n|u|u|dt]; [done| | |]; simpl in He, Hl |- *; rewrite ?Hc.
  - split; [done|]. exists c. rewrite Z.sub_0_r. done.
  - unfold creator_update. rewrite Hd, Hh, Hn, He. unfold dc_settle. rewrite Hcr, Her.
    split; [done|]. exists c. rewrite Z.sub_0_r. done.
  - rewrite (creator_tick_early _ _ _ Hdl) by lia. unfold dc_settle, creator_wait.
    cbn [cr_created cr_errors]. rewrite Hcr, Her. split; [done|].
    eexists. split; [reflexivity|]. unfold waiting. cbn. rewrite Hdl.
    split_and!; try done; [f_equal; lia|lia].
Qed.

Lemma dashboard_waits host nm es : Forall (waits_for host nm) es → ∀ d c left_,
  dc_creator d = Some c → waiting host nm left_ c → dashboard_elapsed es < left_ →
  let d' := run dashboard_step d es in
  dc_alerts d' = dc_alerts d ∧
  ∃ c', dc_creator d' = Some c' ∧ waiting host nm (left_ - dashboard_elapsed es) c'.
Proof.
  induction 1 as [|e es He _ IH]; intros d c l Hc Hw Hl.
  { split; [done|]. exists c. by rewrite Z.sub_0_r. }
  assert (Hs : dashboard_elapsed (e :: es) = dashboard_elapsed [e] + dashboard_elapsed es)
    by (destruct e; simpl; lia).
  assert (Hpos : 0 <= dashboard_elapsed es) by (clear; induction es as [|[]]; simpl in *; lia).
  rewrite Hs in *.
  destruct (dashboard_waits_step _ _ _ _ _ l He Hc Hw) as (Ha & c1 & Hc1 & Hw1); [lia|].
  destruct (IH _ _ _ Hc1 Hw1) as (Ha' & c' & Hc' & Hw'); [lia|].
  change (run dashboard_step d (e :: es)) with (run dashboard_step (dashboard_step d e) es).
  split; [by rewrite Ha'|]. exists c'. by rewrite Z.sub_add_distr.
Qed.

Lemma upsert_In s l : s ∈ upsert s l.
Proof.
  unfold upsert, has_id. case_bool_decide as E; [|apply list_elem_of_here].
  apply list_elem_of_fmap in E as (x & Ex & Hx). apply list_elem_of_fmap. exists x.
  by rewrite decide_True by done.
Qed.

(** A session created from the dashboard drops into its list: while the creator waits
    (whatever else the dashboard receives, for less than a minute) there is no alert, and when
    the server reports the session to the page and to the creator, in either order, the session
    is in the list, the creator is gone and nobody is alarmed. *)
Theorem created_session_listed d host nm es u s reports :
  dc_creator d = None → Forall (waits_for host nm) es →
  dashboard_elapsed es < CREATE_TIMEOUT_MS →
  matchesNewSession u (host_id_ host) nm = true → session u = Some s → ApiTypes.id s ≠ [] →
  event u ≠ EvOther (js "delete") →
  reports ≡ₚ [D_page_update u; D_creator_update u] →
  let d' := run dashboard_step d (D_new host nm :: es ++ reports) in
  s ∈ dc_sessions d' ∧ dc_creator d' = None ∧ dc_alerts d' = dc_alerts d.
Proof.
  intros Hd Hes Ht Hm Hs Hi Hdel Hr d'. unfold d'. clear d'.
  change (D_new host nm :: es ++ reports) with ([D_new host nm] ++ es ++ reports).
  rewrite !run_app. simpl. unfold handleNewSession. rewrite Hd.
  destruct (dashboard_waits host nm es Hes (dc_set (Some (creator_mount host nm (dc_now d))) (dc_alerts d) d)
                (creator_mount host nm (dc_now d)) CREATE_TIMEOUT_MS)
    as (Ha & c & Hc & Hw); [reflexivity| |exact Ht|].
  { unfold waiting, creator_mount. cbn. unfold CREATE_TIMEOUT_MS. split_and!; done. }
  cbn [dc_alerts dc_set] in Ha. set (w := run dashboard_step _ es) in *.
  destruct Hw as (Hh & Hn & Hdn & Hcr & Her & _ & _).
  assert (Hend : event u ≠ EvEnd).
  { unfold matchesNewSession in Hm. intros E. by rewrite E in Hm. }
  assert (Hup : ∀ l, Dashboard_handleUpdate u l = upsert s l).
  { intros l. unfold Dashboard_handleUpdate, update_session. rewrite Hs.
    destruct (ApiTypes.id s) as [|x y] eqn:Ei; [done|].
    rewrite !bool_decide_eq_false_2 by done. done. }
  assert (Hcu : cr_created (creator_update u c) = [s]).
  { unfold creator_update. rewrite Hdn, Hh, Hn, Hm, Hs. cbn. by rewrite Hcr. }
  rewrite <- Ha.
  symmetry in Hr. apply Permutation_length_2_inv in Hr as [-> | ->]; cbn [run foldl dashboard_step dc_creator];
    rewrite Hc; unfold dc_settle; rewrite Hcu; cbn; rewrite Hup.
  all: split_and!; [apply upsert_In|done|done].
Qed.

(** A second creation inherits the first one's clock: started while the first is still
    waiting, it gets new properties but no new timer, and is reported as timed out when a minute
    has passed since the first one, before its own minute is over. *)
Theorem second_creation_inherits_timeout d host nm host' nm' t1 t2 :
  dc_creator d = None → 0 <= t1 < CREATE_TIMEOUT_MS → 0 <= t2 < CREATE_TIMEOUT_MS →
  CREATE_TIMEOUT_MS <= t1 + t2 →
  let alone := run dashboard_step d [D_new host' nm'; D_tick t2] in
  let second := run dashboard_step d [D_new host nm; D_tick t1; D_new host' nm'; D_tick t2] in
  dc_alerts alone = dc_alerts d ∧ is_Some (dc_creator alone) ∧
  dc_alerts second = dc_alerts d ++ [js "Failed to start session: " ++ timed_out_message] ∧
  dc_creator second = None.
Proof.
  intros Hd H1 H2 H12.
  set (c0 := creator_mount host nm (dc_now d)). set (c0' := creator_mount host' nm' (dc_now d)).
  assert (E1 : creator_tick t2 c0' = creator_wait t2 c0').
  { eapply creator_tick_early; [reflexivity|]. cbn [c0' creator_mount cr_now]. lia. }
  assert (E2 : creator_tick t1 c0 = creator_wait t1 c0).
  { eapply creator_tick_early; [reflexivity|]. cbn [c0 creator_mount cr_now]. lia. }
  set (c1 := creator_props host' nm' (creator_wait t1 c0)).
  assert (E3 : creator_tick t2 c1 = creator_timeout (creator_wait t2 c1)).
  { eapply creator_tick_due; [reflexivity|]. cbn [c1 c0 creator_mount creator_wait creator_props cr_now]. lia. }
  cbn [run foldl dashboard_step]. unfold handleNewSession. rewrite Hd.
  cbn [dc_set dc_creator]. fold c0 c0'. rewrite E1, E2.
  cbn [dc_settle creator_wait c0 c0' creator_mount cr_created cr_errors dc_set dc_creator dc_alerts].
  change (creator_props host' nm' _) with c1. rewrite E3. cbn.
  split_and!; [done|by eexists|done|done].
Qed.

(** ** Facts: the page *)

(** How the page of a creation can look: waiting, given up, or moved on to the session. *)
Inductive page_outcome (host : Host) (nm : jsstring) (t0 t : Z) : NewSessionPage → Prop :=
| po_waiting c :
    creator_ok host nm t0 c → cr_done c = false → cr_now c = t →
    page_outcome host nm t0 t {| ns_creator := Some c; ns_error := []; ns_routes := [] |}
| po_failed :
    t0 + CREATE_TIMEOUT_MS <= t →
    page_outcome host nm t0 t {| ns_creator := None; ns_error := timed_out_message; ns_routes := [] |}
| po_landed s :
    host_id s = host_id_ host → name s = nm →
    page_outcome host nm t0 t
      {| ns_creator := None; ns_error := []; ns_routes := [(js "/sessions/" ++ ApiTypes.id s, true)] |}.

Lemma timeout_message_step c e :
  cr_errors c = [] → cr_errors (creator_step c e) = [] ∨ cr_errors (creator_step c e) = [timed_out_message].
Proof.
  intros He. destruct e as [u|dt|h n]; cbn [creator_step creator_props cr_errors]; [| |by left].
  - left. unfold creator_update. repeat case_if; done.
  - unfold creator_tick. cbn [creator_wait cr_deadline]. destruct (cr_deadline c); [|by left].
    case_if; cbn; rewrite He; destruct (cr_done c); auto.
Qed.

Lemma page_outcome_step host nm t0 t p e :
  same_props e → page_outcome host nm t0 t p →
  page_outcome host nm t0 (t + elapsed [e]) (newSession_step p e).
Proof.
  intros He [c Hok Hd Ht| Ht | s Hs1 Hs2]; cbn [newSession_step ns_creator].
  - assert (He0 : cr_errors c = []).
    { destruct Hok as [_ Ho _ _]. rewrite Hd in Ho. destruct (cr_errors c); [done|simpl in Ho; lia]. }
    destruct (timeout_message_step c e He0) as [E|E];
      pose proof (creator_step_ok _ _ _ _ _ He Hok) as Hok';
      pose proof (creator_now_step c e He) as Hnow; rewrite Ht in Hnow;
      unfold newSession_settle; cbn [ns_error ns_routes]; rewrite E;
      pose proof Hok' as [Hp Ho Hm Htm]; rewrite E in Ho;
      destruct (cr_created (creator_step c e)) as [|s rest] eqn:Ec.
    + apply po_waiting; [done| |done]. destruct (cr_done (creator_step c e)); [done|done].
    + apply Forall_cons_1 in Hm as [[H1 H2] _]. by apply po_landed.
    + apply po_failed. destruct (cr_deadline (creator_step c e)) as [d|]; [|lia].
      destruct Htm as (_ & _ & Hx). by rewrite E in Hx.
    + exfalso. simpl in Ho. destruct (cr_done (creator_step c e)); lia.
  - apply po_failed. destruct e; simpl; lia.
  - by apply po_landed.
Qed.

(** The page does not wait for more than a minute. *)
Lemma page_outcome_over host nm t0 t p :
  page_outcome host nm t0 t p → t0 + CREATE_TIMEOUT_MS <= t → ns_creator p = None.
Proof.
  intros [c [_ Ho _ Htm] Hd Hc| |] Ht; [exfalso|done|done].
  destruct (cr_deadline c) as [d|]; [lia|]. destruct Htm as [Hx _]. by rewrite Hd in Hx.
Qed.

(** The creation page shows one outcome: until the session is reported it waits, for a
    minute at most; then it has either replaced itself by the page of a session that runs on the
    chosen host under the chosen name, or shows the timeout; and it never leaves a page for a
    session it did not create in the history. *)
Theorem new_session_lands host nm now es :
  nm ≠ [] → Forall same_props es →
  let p := run newSession_step (newSession_mount (Some (Some host, Some nm)) now) es in
  page_outcome host nm now (now + elapsed es) p ∧
  (CREATE_TIMEOUT_MS <= elapsed es → ns_creator p = None).
Proof.
  intros Hnm Hes p.
  assert (H : ∀ t q, page_outcome host nm now t q →
                page_outcome host nm now (t + elapsed es) (run newSession_step q es)).
  { clear p. induction Hes as [|e es He _ IH]; intros t q Hq; [cbn; by rewrite Z.add_0_r|].
    rewrite elapsed_cons, Z.add_assoc.
    apply IH. by apply page_outcome_step. }
  assert (Hp : page_outcome host nm now (now + elapsed es) p).
  { apply H. unfold newSession_mount. destruct nm as [|x nm]; [done|]. simpl.
    apply po_waiting; [apply creator_mount_ok|done|done]. }
  split; [done|]. intros Ht. apply (page_outcome_over host nm now _ p Hp). lia.
Qed.

(** Without a host and a name the creation page goes back to the dashboard at once and
    starts nothing. *)
Theorem new_session_needs_state state now :
  (∀ h c nm, state ≠ Some (Some h, Some (c :: nm))) →
  newSession_mount state now =
    {| ns_creator := None; ns_error := []; ns_routes := [(js "/dashboard", true)] |}.
Proof.
  intros H. unfold newSession_mount. destruct state as [[[h|] [[|c nm]|]]|]; try done.
  by destruct (H h c nm).
Qed.

(** ** Witnesses *)

Definition demo_host (i : Z) : Host :=
  {| host_id_ := i; host_label := js "box"; host_hostname := js "box"; host_ssh_user := [];
     host_ssh_port := 22; host_ssh_principal := []; host_user_id := 1; host_created_at := [];
     host_updated_at := [] |}.

(** The session the server reports for the host [1] and the name [w]. *)
Definition demo_session : Session :=
  {| id := js "s1"; user_id := 1; host_id := 1; host := None; name := js "w"; started_at := [];
     last_ping_at := None; last_activity_at := None; ended_at := None; metadata := None;
     seq := None; tags := None |}.

Definition demo_update : SessionUpdate :=
  {| event := EvStart; session_id := js "s1"; session := Some demo_session; clipboard := None |}.

Definition demo_dashboard : DashboardCreate :=
  {| dc_sessions := [blank_session (js "s0")]; dc_creator := None; dc_alerts := []; dc_now := 0 |}.

Lemma dialog_target_witness :
  (dialog_submit (filled None [demo_host 1] (js " w "))).1 = Some (demo_host 1, js "w") ∧
  nd_error (dialog_submit (filled (Some 9) [demo_host 1] (js " w "))).2 = js "Select a host".
Proof.
  split.
  - apply (dialog_target None [demo_host 1] (demo_host 1) (js " w ")); [reflexivity|vm_compute; done].
  - destruct (dialog_target (Some 9) [demo_host 1] (demo_host 1) (js " w ")) as [(h & Hin & Hi & _)|(_ & _ & E)];
      [reflexivity|vm_compute; done| |exact E].
    exfalso. apply list_elem_of_singleton in Hin as ->. done.
Defined.

Lemma creation_settles_witness :
  let c := run creator_step (creator_mount (demo_host 1) (js "w") 0)
             [CE_tick 500; CE_update demo_update; CE_update demo_update; CE_tick 60000] in
  cr_created c = [demo_session] ∧ (length (cr_created c) + length (cr_errors c) = 1)%nat.
Proof.
  split; [reflexivity|].
  destruct (creation_settles (demo_host 1) (js "w") 0
              [CE_tick 500; CE_update demo_update; CE_update demo_update; CE_tick 60000])
    as (_ & _ & _ & H); [by repeat constructor|]. apply H. done.
Defined.

Lemma created_session_listed_witness :
  demo_session ∈ dc_sessions (run dashboard_step demo_dashboard
    (D_new (demo_host 1) (js "w") :: [D_tick 500] ++ [D_creator_update demo_update; D_page_update demo_update])).
Proof.
  apply (created_session_listed demo_dashboard (demo_host 1) (js "w") [D_tick 500] demo_update demo_session);
    [done|by repeat constructor|done|done|done|done|done|].
  apply perm_swap.
Defined.

Lemma second_creation_witness :
  dc_alerts (run dashboard_step demo_dashboard
    [D_new (demo_host 1) (js "a"); D_tick 59000; D_new (demo_host 1) (js "b"); D_tick 1000]) =
  [js "Failed to start session: " ++ timed_out_message].
Proof.
  apply (second_creation_inherits_timeout demo_dashboard (demo_host 1) (js "a") (demo_host 1) (js "b") 59000 1000);
    unfold CREATE_TIMEOUT_MS; [done|lia..].
Defined.

Lemma new_session_lands_witness :
  ns_routes (run newSession_step (newSession_mount (Some (Some (demo_host 1), Some (js "w"))) 0)
    [CE_update demo_update]) = [(js "/sessions/s1", true)] ∧
  page_outcome (demo_host 1) (js "w") 0 0 (run newSession_step
    (newSession_mount (Some (Some (demo_host 1), Some (js "w"))) 0) [CE_update demo_update]).
Proof.
  split; [reflexivity|].
  apply (new_session_lands (demo_host 1) (js "w") 0 [CE_update demo_update]); [done|by repeat constructor].
Defined.

Lemma new_session_needs_state_witness :
  ns_routes (newSession_mount (Some (Some (demo_host 1), None)) 0) = [(js "/dashboard", true)].
Proof. rewrite (new_session_needs_state (Some (Some (demo_host 1), None)) 0); [done|done]. Defined.
