(* ===== verification/Unlock.v ===== *)
(** * From the passkey to the certificate

    The unlock of a terminal runs through four parts: [handleWebAuthnAuth] of
    [components/SSHTerminal.tsx], [initWorker], [requestCert] and [ensureAlive] of
    [contexts/FROSTContext.tsx], the client of [lib/frost-client.ts] and its worker.  Here
    the awaits of the first are answered by the other three, composed as in [Signing]. *)

From S2P Require Import Prelude Js Memory Models ApiTypes Encoding Crypto Api FrostWire Frost FrostWorker WorkerProtocol FrostClient Signing SshClient SshTerminal.
#[local] Open Scope Z_scope.
#[local] Open Scope js_scope.

Section context.
Context {NF : NobleFrost} {W : WebCrypto}.

(** A worker that was dropped is spawned anew, with nothing of the old one. *)
Definition respawn (s : System) : System :=
  match worker (fst s) with
  | None => (spawnWorker (fst s), initial_world (c_now (fst s)))
  | Some _ => s
  end.

(** [initWorker]: the configuration is fetched here and again in [initWithShare]; [None]:
    still waiting for the worker. *)
Definition initWorker (config config' : SSHCAConfig) (masterKey : bytes) (s : System)
    : option (result unit) * System :=
  match decodeBase64 (client_share config) with
  | Throw e => (Some (Throw e), s)
  | Ok encryptedShare => initWithShare encryptedShare masterKey config' (respawn s)
  end.

(** [requestCert] up to the settlement of the promise, with the key pair that the flow
    generates and the messages the server sends; [None]: still waiting, or waiting for the
    request already in progress. *)
Definition requestCert (b : Browser) (token : option jsstring)
    (rnd userPrivateKey userPublicKey : bytes) (rs : list WSResponse) (hostId : Z) (s : System)
    : list action * option (result CertificateResult) * System :=
  match requestCertificate token (fst s) with
  | (Throw e, c) => ([], Some (Throw e), (c, snd s))
  | (Ok (_, false), c) => ([], None, (c, snd s))
  | (Ok (_, true), c) =>
      match buildWebSocketURL (getSSHCASigningWebSocketURL b) (default [] token) with
      | Throw e =>
          ([], FrostClient.settled (cert_step cert_start (CE_construct_failed e)),
           (certificate_settled c, snd s))
      | Ok _ =>
          let '(acts, o, s) :=
            sign rnd (handleSigningFlow hostId userPrivateKey userPublicKey) rs (c, snd s) in
          match o with
          | None => (acts, None, s)
          | Some r =>
              let done := match r with Ok r => CE_flow_done r | Throw e => CE_flow_failed e end in
              (acts, FrostClient.settled (run cert_step cert_start [CE_open; done]),
               (certificate_settled (fst s), snd s))
          end
      end
  end.

(** The await of the request [r], posted since [c0], when [ms] pass after the worker had its
    chance to answer. *)
Definition await_reply (r ms : Z) (c0 c1 : Client) (w : World) : ReqState * System :=
  let s := pump c0 c1 w in
  let c := request_timeout r (set_now (c_now (fst s) + Z.max 0 ms) (fst s)) in
  (default R_pending (reqs c !! r), (c, snd s)).

(** [ensureAlive]; [None]: still waiting. *)
Definition ensureAlive (ms : Z) (s : System) : option bool * System :=
  match ensureAlive_begin (fst s) with
  | (None, c) => (Some false, (c, snd s))
  | (Some r, c) =>
      match await_reply r ms (fst s) c (snd s) with
      | (R_pending, s) => (None, s)
      | (a, s) => let '(alive, c) := ensureAlive_finish a (fst s) in (Some alive, (c, snd s))
      end
  end.

(** ** Facts *)

Lemma initial_live t0 : live (initial_world t0).
Proof. split; [exact (reachable_inv t0 []) | done]. Qed.

Lemma respawn_live s :
  (worker (fst s) ≠ None → live (snd s)) →
  ∃ i, worker (fst (respawn s)) = Some i ∧ live (snd (respawn s)).
Proof.
  destruct s as [c w]. unfold respawn. cbn [fst snd]. destruct (worker c) as [i|] eqn:E; intros H.
  - exists i. split; [exact E | by apply H].
  - exists (next_id c). split; [done | apply initial_live].
Qed.

Lemma pump_cert c0 c1 w : certRequestPromise (fst (pump c0 c1 w)) = certRequestPromise c1.
Proof.
  unfold pump. cbn [fst]. generalize (drop (length (posted w))
    (posted (run FrostWorker.step w (E_message <$> (drop (length (sent c0)) (sent c1)).*2)))).
  intros l. revert c1. induction l as [|r l IH]; intros c1; [done|]. cbn [foldl]. rewrite IH.
  unfold handleWorkerMessage, settle, clearTimeout. by repeat case_match.
Qed.

(** A reply of the worker, or its absence, leaves the request for a certificate alone. *)
Lemma initWithShare_cert encryptedShare masterKey config s :
  certRequestPromise (fst (initWithShare encryptedShare masterKey config s).2)
  = certRequestPromise (fst s).
Proof.
  destruct s as [c w]. unfold initWithShare. cbn [fst snd].
  set (c0 := initWithShare_begin c).
  assert (H0 : certRequestPromise c0 = certRequestPromise c)
    by (unfold c0, initWithShare_begin; by case_match).
  assert (H1 : certRequestPromise (initWithShare_config encryptedShare masterKey config c0).2
               = certRequestPromise c).
  { unfold initWithShare_config, initWithConfig_begin, sendToWorker. rewrite <- H0.
    by repeat (case_match; simplify_eq/=). }
  destruct (initWithShare_config _ _ _ c0) as [[r|e] c1]; cbn [snd] in H1; [|exact H1].
  pose proof (pump_cert c0 c1 w) as H2. rewrite H1 in H2.
  destruct (pump c0 c1 w) as [c2 w2]. cbn [fst] in *.
  destruct (reqs c2 !! r) as [[|a|e]|]; [exact H2| |exact H2..].
  unfold initWithConfig_finish. by destruct a.
Qed.

(** The unlock by a given master key: the worker, an old one or a new one, takes the share. *)
Lemma initWorker_ok config config' masterKey encryptedShare keys s :
  decodeBase64 (client_share config) = Ok encryptedShare →
  opens masterKey encryptedShare config' keys → (worker (fst s) ≠ None → live (snd s)) →
  ∃ i c w, initWorker config config' masterKey s = (Some (Ok tt), (c, w)) ∧
    worker c = Some i ∧ isActive c = true ∧ certRequestPromise c = certRequestPromise (fst s) ∧
    live w ∧ ∃ g, pr_signer (protocol_of w) = Some g ∧ sg_keys g = keys.
Proof.
  intros He Ho Hl. unfold initWorker. rewrite He.
  destruct (respawn_live s Hl) as (i & Hi & Hw).
  pose proof (initWithShare_cert encryptedShare masterKey config' (respawn s)) as Hc.
  assert (Hc' : certRequestPromise (fst (respawn s)) = certRequestPromise (fst s))
    by (unfold respawn; by case_match). rewrite Hc' in Hc.
  destruct (respawn s) as [c0 w0]. cbn [fst snd] in Hi, Hw.
  destruct (initWithShare_ok encryptedShare masterKey config' keys c0 w0 i Ho Hi Hw)
    as (c & w & E & H1 & H2 & H3 & H4).
  rewrite E in Hc |- *. exists i, c, w. split_and!; try done. by eexists.
Qed.

(** An active client with a worker that has its keys: an honest exchange gives the server's
    certificate, and the promise is cleared. *)
Lemma requestCert_ok b t e hostId keys x c w i g :
  t ≠ [] → encodeURIComponent t = Ok e → certRequestPromise c = None →
  honest keys x → worker c = Some i → isActive c = true → live w →
  pr_signer (protocol_of w) = Some g → sg_keys g = keys →
  ∃ s, requestCert b (Some t) (ex_random x) (ex_privateKey x) (ex_publicKey x) (honest_server x)
         hostId (c, w)
       = (honest_actions hostId x, Some (Ok (issued x)), s) ∧ certRequestPromise (fst s) = None ∧
    pr_signer (protocol_of (snd s)) = Some {| sg_keys := keys; sg_since := FrostWorker.now w; sg_round1 := None |}.
Proof.
  intros Ht He Hp Hh Hi Ha Hw Hg Hk. unfold requestCert, requestCertificate. cbn [fst snd].
  rewrite Ha, Hp. cbn [negb]. destruct t as [|u t]; [done|]. cbn [truthy default].
  unfold buildWebSocketURL. change (Datatypes.id (u :: t)) with (u :: t). rewrite He. cbn [rbind].
  set (c1 := set_cert _ _).
  destruct (sign_honest hostId keys x c1 w i g Hh Hi Hw Hg Hk) as (c2 & w2 & E & Hs & _).
  rewrite E. eexists. split; [reflexivity|]. by split.
Qed.

(** *** The liveness check *)

(** A closed worker posts nothing. *)
Lemma pump_closed c0 c1 w : closed w = true → pump c0 c1 w = (c1, w).
Proof.
  intros Hc. unfold pump.
  assert (E : ∀ es, run FrostWorker.step w es = w).
  { induction es as [|e es IH] using rev_ind; [done|]. rewrite run_app, IH.
    unfold run. cbn [foldl]. unfold FrostWorker.step. by rewrite Hc. }
  rewrite E, drop_all. done.
Qed.

(** A request to a closed worker is rejected when its time is over. *)
Lemma await_dead m t ms c w i :
  worker c = Some i → closed w = true → timer_delay t <= ms →
  let '(r, c1) := sendToWorker m t c in
  ∃ c2, await_reply r ms c c1 w = (R_rejected timed_out, (c2, w)) ∧ worker c2 = Some i ∧
        isInitialized c2 = isInitialized c ∧ certRequestPromise c2 = certRequestPromise c.
Proof.
  intros Hi Hc Hms. destruct (sendToWorker m t c) as [r c1] eqn:E.
  unfold await_reply. rewrite (pump_closed c c1 w Hc). cbn [fst snd].
  unfold sendToWorker in E. rewrite Hi in E. injection E as <- <-.
  set (r := next_id c). set (c2 := set_now _ _).
  assert (Hr : reqs c2 !! r = Some R_pending) by apply lookup_insert_eq.
  assert (Ht : req_timers c2 !! r = Some (c_now c + timer_delay t)) by apply lookup_insert_eq.
  rewrite (request_timeout_fire c2 r _ Ht);
    [|change (c_now c2) with (c_now c + Z.max 0 ms); lia|exact Hr].
  unfold settle, clearTimeout. cbn [set_pending set_reqs reqs]. rewrite Hr.
  cbn [set_reqs reqs]. rewrite lookup_insert_eq. eexists. split; [reflexivity|]. done.
Qed.

(** A request to a live worker takes its answer, whatever time passes then. *)
Lemma await_live m t ms c w i :
  worker c = Some i → live w →
  let '(r, c1) := sendToWorker m t c in
  ∃ c2, await_reply r ms c c1 w
        = (settlement (answer m (protocol_of w)).2, (c2, FrostWorker.step w (E_message m))) ∧
        worker c2 = Some i ∧ isInitialized c2 = isInitialized c ∧
        certRequestPromise c2 = certRequestPromise c.
Proof.
  intros Hi Hw. set (resp := (answer m (protocol_of w)).2).
  destruct (response_settles c m t resp i Hi) as (Hr & Ht & _ & _ & _ & Hs).
  destruct (pump_one c (sendToWorker m t c).2 i m w Hs Hw) as (Hp & _ & _). fold resp in Hp.
  assert (Hk : let c1 := handleWorkerMessage resp (sendToWorker m t c).2 in
    worker c1 = Some i ∧ isInitialized c1 = isInitialized c ∧
    certRequestPromise c1 = certRequestPromise c).
  { unfold sendToWorker. rewrite Hi.
    unfold handleWorkerMessage, settle, clearTimeout. by repeat case_match. }
  destruct (sendToWorker m t c) as [r c1]. cbn [fst snd] in *.
  unfold await_reply. rewrite Hp. cbn [fst snd].
  set (c2 := handleWorkerMessage resp c1) in *. clearbody c2.
  unfold request_timeout. cbn [set_now req_timers]. rewrite Ht. cbn [set_now reqs]. rewrite Hr.
  eexists. split; [reflexivity|]. exact Hk.
Qed.

(** The request for the status of [ensureAlive] of an active client. *)
Lemma ensureAlive_begin_active c i :
  worker c = Some i → isInitialized c = true →
  ensureAlive_begin c = (Some (sendToWorker M_status 2500 c).1, (sendToWorker M_status 2500 c).2).
Proof.
  intros Hi Hn. unfold ensureAlive_begin, isActive. rewrite Hn, Hi.
  rewrite bool_decide_eq_true_2 by eauto. cbn [andb]. by destruct (sendToWorker _ _ _).
Qed.

Lemma ensureAlive_closed ms c w i :
  worker c = Some i → isInitialized c = true → closed w = true → 2500 <= ms →
  ∃ c', ensureAlive ms (c, w) = (Some false, (c', w)) ∧ worker c' = None ∧
        isActive c' = false ∧ certRequestPromise c' = certRequestPromise c.
Proof.
  intros Hi Hn Hc Hms. unfold ensureAlive. cbn [fst snd]. rewrite (ensureAlive_begin_active c i Hi Hn).
  pose proof (await_dead M_status 2500 ms c w i Hi Hc Hms) as H.
  destruct (sendToWorker M_status 2500 c) as [r c1]. cbn [fst snd].
  destruct H as (c2 & -> & _ & _ & H). cbn [ensureAlive_finish fst snd]. eexists. by split.
Qed.

Lemma ensureAlive_open ms c w i :
  worker c = Some i → isInitialized c = true → live w →
  ∃ c' w', ensureAlive ms (c, w) = (Some true, (c', w')) ∧ worker c' = Some i ∧
           isActive c' = true ∧ protocol_of w' = protocol_of w ∧ live w' ∧
           certRequestPromise c' = certRequestPromise c.
Proof.
  intros Hi Hn Hw. unfold ensureAlive. cbn [fst snd]. rewrite (ensureAlive_begin_active c i Hi Hn).
  pose proof (await_live M_status 2500 ms c w i Hi Hw) as H.
  destruct (onmessage_simulates M_status w (proj1 Hw)) as [Hp _].
  assert (Es : FrostWorker.step w (E_message M_status) = onmessage M_status w)
    by (unfold FrostWorker.step; by rewrite (proj2 Hw)).
  destruct (sendToWorker M_status 2500 c) as [r c1]. cbn [fst snd answer] in *.
  destruct H as (c2 & -> & H1 & H2 & Hcp). rewrite Es.
  assert (Hset : settlement (answer_status (protocol_of w)) = R_resolved (answer_status (protocol_of w)))
    by (unfold answer_status; by case_match).
  rewrite Hset. cbn [ensureAlive_finish fst snd]. eexists _, _. split; [reflexivity|].
  split_and!; [exact H1 | | exact Hp | split; [by apply onmessage_inv; apply Hw|] | exact Hcp].
  - unfold isActive. rewrite H1, H2, Hn. by rewrite bool_decide_eq_true_2 by eauto.
  - change (pr_closed (protocol_of (onmessage M_status w)) = false). rewrite Hp. apply Hw.
Qed.

(** The liveness check tells the truth: an active client is told that its worker is alive
    exactly when the worker has not closed, within the 2.5 seconds of its request; a living
    worker is left as it was, and a dead one is dropped, so that the client is not active. *)
Theorem ensureAlive_exact ms c w i :
  worker c = Some i → isInitialized c = true → worker_inv w → 2500 <= ms →
  ∃ c' w', ensureAlive ms (c, w) = (Some (negb (closed w)), (c', w')) ∧
    isActive c' = negb (closed w) ∧ worker c' = (if closed w then None else Some i) ∧
    protocol_of w' = protocol_of w.
Proof.
  intros Hi Hn Hw Hms. destruct (closed w) eqn:Hc; cbn [negb].
  - destruct (ensureAlive_closed ms c w i Hi Hn Hc Hms) as (c' & E & H1 & H2 & _).
    by exists c', w.
  - destruct (ensureAlive_open ms c w i Hi Hn (conj Hw Hc)) as (c' & w' & E & H1 & H2 & H3 & _).
    by exists c', w'.
Qed.

(** A dead worker is replaced: after the check has found it closed, the next unlock spawns
    a worker, hands it the share, and the client is active again; the new worker holds the keys
    of this unlock and no nonces, whatever the old one had. *)
Theorem dead_worker_replaced ms c w i config config' masterKey encryptedShare keys :
  worker c = Some i → isInitialized c = true → closed w = true → 2500 <= ms →
  decodeBase64 (client_share config) = Ok encryptedShare →
  opens masterKey encryptedShare config' keys →
  let '(alive, s) := ensureAlive ms (c, w) in
  alive = Some false ∧
  ∃ c' w', initWorker config config' masterKey s = (Some (Ok tt), (c', w')) ∧
    isActive c' = true ∧ closed w' = false ∧
    ∃ since, pr_signer (protocol_of w') =
             Some {| sg_keys := keys; sg_since := since; sg_round1 := None |}.
Proof.
  intros Hi Hn Hc Hms Hes Ho.
  destruct (ensureAlive_closed ms c w i Hi Hn Hc Hms) as (c1 & -> & Hd & _). split; [done|].
  unfold initWorker, respawn. cbn [fst snd]. rewrite Hes, Hd.
  destruct (initWithShare_ok encryptedShare masterKey config' keys (spawnWorker c1)
              (initial_world (c_now c1)) (next_id c1) Ho eq_refl (initial_live _))
    as (c2 & w2 & -> & _ & Ha & [_ Hw] & Hsg).
  exists c2, w2. eauto.
Qed.
End context.

(** ** The whole ceremony *)

Section ceremony.
Context {NF : NobleFrost} {W : WebCrypto} {HW : WebCryptoLaws W} {J : Json}.

(** The awaits of the handler settle as the client and its worker settle them. *)
Definition served (aw : Awaits) (masterKey : bytes) (hostId : Z)
    (inited : option (result unit)) (requested : option (result CertificateResult)) : Prop :=
  (∀ r, inited = Some r → aw_initWorker aw masterKey = r) ∧
  (∀ r, requested = Some r → aw_requestCert aw hostId = r).

(** The worker's half: it gets the share and signs in one exchange. *)
Lemma worker_certifies b t e config config' masterKey encryptedShare keys hostId x s :
  decodeBase64 (client_share config) = Ok encryptedShare →
  opens masterKey encryptedShare config' keys → honest keys x →
  (worker (fst s) ≠ None → live (snd s)) → certRequestPromise (fst s) = None →
  t ≠ [] → encodeURIComponent t = Ok e →
  ∃ s1 s2 since, initWorker config config' masterKey s = (Some (Ok tt), s1) ∧
    requestCert b (Some t) (ex_random x) (ex_privateKey x) (ex_publicKey x) (honest_server x) hostId s1
    = (honest_actions hostId x, Some (Ok (issued x)), s2) ∧
    pr_signer (protocol_of (snd s2)) = Some {| sg_keys := keys; sg_since := since; sg_round1 := None |}.
Proof.
  intros Hes Ho Hh Hl Hcert Ht He.
  destruct (initWorker_ok config config' masterKey encryptedShare keys s Hes Ho Hl)
    as (i & c & w & -> & Hi & Ha & Hp & Hw & g & Hg & Hgk). rewrite Hcert in Hp.
  destruct (requestCert_ok b t e hostId keys x c w i g) as (s2 & Es & _ & Hs2); try done.
  by eexists _, s2, _.
Qed.

(** The terminal's half: what the program is given when both awaits succeed. *)
Lemma terminal_resolves aw hostId prfKey blobs masterKey x :
  reaches_blobs aw prfKey blobs → unlockMasterKey prfKey blobs = Some masterKey →
  aw_initWorker aw masterKey = Ok tt → aw_requestCert aw hostId = Ok (issued x) →
  Forall is_byte (ex_privateKey x) →
  ∃ key, decodeBase64 key = Ok (ex_privateKey x) ∧
    ∀ o v, let v' := SshTerminal.step v (o, E_unlock (handleWebAuthnAuth aw hostId)) in
      calls (window v') = calls (window v) ++ [sshResolveCertificate (tx_certificate x) key] ∧
      showWebAuthnDialog (ui v') = false ∧ webAuthnAuthenticating (ui v') = false.
Proof.
  intros Hr Hu Hinit Hreq Hpk. rewrite (handleWebAuthnAuth_reaches aw hostId prfKey blobs Hr), Hu, Hinit.
  cbn [at_stage]. rewrite Hreq. cbn [rbind issued userPrivateKey].
  rewrite encodeBase64_ok by done. cbn [rbind at_stage fst snd].
  eexists. split; [by apply decode_base64_body|].
  intros o v. cbn [SshTerminal.step unlock_finish].
  set (call := sshResolveCertificate _ _).
  split_and!; [|done..]. change (window (set_ui _ ?t)) with (window t). by rewrite wasm_call_window.
Qed.

(** C1: From the passkey to the certificate: when one of the passkey's blobs holds the master
    key wrapped under this device's PRF key, wherever it stands among the blobs of the other
    devices, and that master key opens the share of the configuration, the unlock unwraps the
    key, hands the share to the worker (a new one if the old one was dropped), signs with it in
    one exchange with the server, and gives the program the certificate of the server with the
    private key of the flow; the dialog closes, and the worker keeps its keys and no nonces. *)
Theorem passkey_to_certificate aw hostId prfKey rnd masterKey blob blobs
    config config' encryptedShare keys x b t e s :
  reaches_blobs aw prfKey blobs →
  length prfKey = 32%nat → length rnd = 12%nat → Forall is_byte rnd → Forall is_byte masterKey →
  wrapMasterKey rnd prfKey masterKey = Ok blob → blob ∈ blobs →
  (∀ b mk, b ∈ blobs → openBlob prfKey b = Ok mk → mk = masterKey) →
  decodeBase64 (client_share config) = Ok encryptedShare →
  opens masterKey encryptedShare config' keys → honest keys x → Forall is_byte (ex_privateKey x) →
  (worker (fst s) ≠ None → live (snd s)) → certRequestPromise (fst s) = None →
  t ≠ [] → encodeURIComponent t = Ok e →
  let '(inited, s1) := initWorker config config' masterKey s in
  let '(acts, requested, s2) := requestCert b (Some t) (ex_random x) (ex_privateKey x)
                                  (ex_publicKey x) (honest_server x) hostId s1 in
  served aw masterKey hostId inited requested →
  acts = honest_actions hostId x ∧
  (∃ since, pr_signer (protocol_of (snd s2)) =
            Some {| sg_keys := keys; sg_since := since; sg_round1 := None |}) ∧
  ∃ key, decodeBase64 key = Ok (ex_privateKey x) ∧
    ∀ o v, let v' := SshTerminal.step v (o, E_unlock (handleWebAuthnAuth aw hostId)) in
      calls (window v') = calls (window v) ++ [sshResolveCertificate (tx_certificate x) key] ∧
      showWebAuthnDialog (ui v') = false ∧ webAuthnAuthenticating (ui v') = false.
Proof.
  intros Hr Hk Hn Hb Hm Hwr Hin Hauth Hes Ho Hh Hpk Hl Hcert Ht He.
  destruct (worker_certifies b t e config config' masterKey encryptedShare keys hostId x s)
    as (s1 & s2 & since & -> & -> & Hs2); try done.
  intros [Hinit Hreq]. split; [done|]. split; [by exists since|].
  apply (terminal_resolves aw hostId prfKey blobs masterKey); auto.
  by apply (unlockMasterKey_wrapped rnd prfKey masterKey blob blobs).
Qed.
End ceremony.

(** ** Witnesses *)

#[local] Existing Instance toy_crypto.
#[local] Existing Instance tree_json_text.

Definition unlock_config : SSHCAConfig :=
  {| public_key := public_key demo_config; client_share := text_of demo_encrypted;
     server_verifying_share := server_verifying_share demo_config;
     client_verifying_share := client_verifying_share demo_config |}.

(** A client whose worker was dropped. *)
Definition dropped_system : System :=
  ((ensureAlive_finish (R_rejected timed_out)
      (initWithConfig_finish FrostWorker.ready (initial_client 0)).2).2, initial_world 0).

Definition demo_unlock : option (result unit) * System :=
  initWorker unlock_config unlock_config demo_master dropped_system.
Definition demo_request : list action * option (result CertificateResult) * System :=
  requestCert demo_browser (Some (js "t"))
    (ex_random demo_exchange) (ex_privateKey demo_exchange) (ex_publicKey demo_exchange)
    (honest_server demo_exchange) 3 demo_unlock.2.

Definition unlock_prf_key : bytes :=
  match deriveMasterKeyFromPrf (replicate 32 5) with Ok k => k | Throw _ => [] end.
Definition unlock_blob : jsstring :=
  match wrapMasterKey (replicate 12 3) unlock_prf_key demo_master with
  | Ok b => b | Throw _ => [] end.
Definition unlock_user : jsstring := JSON_stringify (JObj [(js "email", JStr (js "a@b"))]).
Definition unlock_awaits : Awaits :=
  {| aw_user := Ok (Some unlock_user);
     aw_loginBegin := λ _, Ok (JObj [(js "publicKey", JObj [(js "challenge", JStr (js "AAAA"))])]);
     aw_get := λ _, Ok (Some {| rawId := [1; 2; 3]; prf_first := Some (replicate 32 5) |});
     aw_getMasterKey := λ _, Ok [js "AQ=="; unlock_blob];
     aw_initWorker := λ _, default (Throw timed_out) demo_unlock.1;
     aw_requestCert := λ _, default (Throw timed_out) demo_request.1.2 |}.

Lemma unlock_reaches : reaches_blobs unlock_awaits unlock_prf_key [js "AQ=="; unlock_blob].
Proof.
  exists (Some unlock_user). do 7 eexists. split_and!; try (vm_compute; reflexivity). discriminate.
Qed.

Lemma unlock_opens : opens demo_master demo_encrypted unlock_config demo_keys.
Proof. destruct demo_opens as [H1 H2 H3 H4]. by split. Qed.

Lemma passkey_to_certificate_witness :
  demo_request.1.1 = honest_actions 3 demo_exchange ∧
  ∃ key, decodeBase64 key = Ok [1] ∧
    ∀ o v, calls (window (SshTerminal.step v (o, E_unlock (handleWebAuthnAuth unlock_awaits 3))))
           = calls (window v) ++ [sshResolveCertificate (js "AAAA") key].
Proof.
  assert (B1 : Forall is_byte (replicate 12 3)) by by apply Forall_replicate.
  assert (B2 : Forall is_byte demo_master) by by apply Forall_replicate.
  assert (B3 : Forall is_byte (ex_privateKey demo_exchange)) by (repeat constructor; lia).
  assert (A : ∀ b mk, b ∈ [js "AQ=="; unlock_blob] → openBlob unlock_prf_key b = Ok mk →
                      mk = demo_master).
  { intros b mk Hb. apply elem_of_cons in Hb as [->|Hb]; [vm_compute; discriminate|].
    apply list_elem_of_singleton in Hb as ->. vm_compute. congruence. }
  assert (M : worker (fst dropped_system) ≠ None → live (snd dropped_system)) by by intros [].
  assert (I : unlock_blob ∈ [js "AQ=="; unlock_blob]) by (right; left).
  pose proof (passkey_to_certificate (HW := toy_crypto_laws) unlock_awaits 3 unlock_prf_key
    (replicate 12 3) demo_master unlock_blob [js "AQ=="; unlock_blob] unlock_config unlock_config
    demo_encrypted demo_keys demo_exchange demo_browser (js "t") (js "t") dropped_system
    unlock_reaches ltac:(vm_compute; reflexivity) eq_refl B1 B2 ltac:(vm_compute; reflexivity) I A
    ltac:(vm_compute; reflexivity) unlock_opens demo_honest B3 M eq_refl ltac:(discriminate)
    ltac:(vm_compute; reflexivity)) as H.
  destruct (initWorker unlock_config unlock_config demo_master dropped_system)
    as [inited s1] eqn:E1.
  assert (F1 : demo_unlock = (inited, s1)) by exact E1.
  destruct (requestCert demo_browser (Some (js "t")) _ _ _ _ 3 s1)
    as [[acts requested] s2] eqn:E2.
  assert (F2 : demo_request = (acts, requested, s2)) by (unfold demo_request; rewrite F1; exact E2).
  rewrite F2.
  destruct H as (Ha & _ & key & Hk & Ho).
  { split; intros r Hr; unfold unlock_awaits; cbn [aw_initWorker aw_requestCert].
    - rewrite F1, Hr. reflexivity.
    - rewrite F2, Hr. reflexivity. }
  split; [exact Ha|]. exists key. split; [exact Hk|]. intros o v. exact (proj1 (Ho o v)).
Defined.

Lemma ensureAlive_exact_witness :
  ∃ c' w', ensureAlive 2500 ((initWithConfig_finish FrostWorker.ready (initial_client 0)).2,
                             FrostWorker.step (initial_world 0) (E_message M_terminate))
           = (Some false, (c', w')) ∧ isActive c' = false ∧ worker c' = None.
Proof.
  destruct (ensureAlive_exact 2500 (initWithConfig_finish FrostWorker.ready (initial_client 0)).2
    (FrostWorker.step (initial_world 0) (E_message M_terminate)) 1)
    as (c' & w' & E & H1 & H2 & _).
  - reflexivity.
  - reflexivity.
  - exact (reachable_inv 0 [E_message M_terminate]).
  - lia.
  - exists c', w'. split; [exact E|]. split; [exact H1|exact H2].
Defined.

Lemma dead_worker_replaced_witness :
  let '(alive, s) := ensureAlive 2500 ((initWithConfig_finish FrostWorker.ready (initial_client 0)).2,
                             FrostWorker.step (initial_world 0) (E_message M_terminate)) in
  alive = Some false ∧
  ∃ c' w', initWorker unlock_config unlock_config demo_master s = (Some (Ok tt), (c', w')) ∧
    isActive c' = true.
Proof.
  pose proof (dead_worker_replaced 2500 (initWithConfig_finish FrostWorker.ready (initial_client 0)).2
    (FrostWorker.step (initial_world 0) (E_message M_terminate)) 1 unlock_config unlock_config
    demo_master demo_encrypted demo_keys eq_refl eq_refl eq_refl ltac:(lia)) as H.
  destruct (ensureAlive _ _) as [alive s].
  destruct H as (Ha & c' & w' & E & H1 & _); [vm_compute; reflexivity | exact unlock_opens |].
  split; [exact Ha|]. by exists c', w'.
Defined.
