(* ===== verification/KeysView.v ===== *)
(** * What the top bar and the quick keys overlay show ([components/SessionTopBar.tsx],
    [components/QuickKeysOverlay.tsx])

    As in [SessionView], a rendered component is data: its texts, its marks and what each
    control hands over; class names and layout are left out.  The theorems follow a pinned key
    from its stored text to the bytes that the terminal types. *)

From S2P Require Import Prelude Js Models ApiTypes Api QuickKeys QuickKeysHook Overlay SessionList FrostClient Chrome SshClient SshTerminal.
#[local] Open Scope Z_scope.
#[local] Open Scope js_scope.

(** ** The top bar *)

Inductive ClipboardView := CV_copied | CV_failed | CV_ready (text : jsstring).

Definition ClipboardPill (c : ClipboardBuffer) : ClipboardView :=
  match cb_status c with
  | cb_copied => CV_copied
  | cb_error => CV_failed
  | cb_ready => CV_ready (js "Clipboard ready " ++ [183] ++ js " " ++ formatBytes (cb_bytes c))
  end.

(** What a clipboard pill's Copy or Retry button does is [onCopy]; a copied buffer has none. *)
Definition can_copy (v : ClipboardView) : bool :=
  match v with CV_copied => false | _ => true end.

Definition STATUS_LABELS (s : ConnectionStatus) : jsstring :=
  match s with
  | disconnected => js "Disconnected"
  | connecting => js "Connecting..."
  | authenticating => js "Authenticating..."
  | connected => js "Connected"
  | error_status => js "Error"
  end.

Inductive StatusColor := red | yellow | green.

Definition STATUS_COLORS (s : ConnectionStatus) : StatusColor :=
  match s with
  | disconnected | error_status => red
  | connecting | authenticating => yellow
  | connected => green
  end.

(** [statusError || "Connection error"]. *)
Definition error_text (statusError : option jsstring) : jsstring :=
  default (js "Connection error") (truthy statusError).

(** The bar's own state: whether the error is shown, and the number of pills that fit. *)
Record BarState := { br_showError : bool; br_visibleCount : nat }.

Definition bar_initial {A} (pinnedKeys : list A) : BarState :=
  {| br_showError := false; br_visibleCount := length pinnedKeys |}.

Definition bar_measure (m : option (Z * Z * list Z)) (b : BarState) : BarState :=
  {| br_showError := br_showError b; br_visibleCount := measureOverflow m (br_visibleCount b) |}.

(** The label of an error toggles its text; the text's button closes it. *)
Definition toggle_error (b : BarState) : BarState :=
  {| br_showError := negb (br_showError b); br_visibleCount := br_visibleCount b |}.
Definition dismiss_error (b : BarState) : BarState :=
  {| br_showError := false; br_visibleCount := br_visibleCount b |}.

Record TopBar := {
  tb_name : jsstring;
  tb_color : StatusColor;
  tb_label : jsstring;
  (** The tooltip of the label, which is a button then. *)
  tb_error : option jsstring;
  tb_popover : option jsstring;
  tb_clipboard : option ClipboardView;
  (** The hidden row that is measured, the pills with the spec each sends, the number behind
      the plus sign. *)
  tb_measured : list jsstring;
  tb_pills : list (jsstring * json);
  tb_more : option nat;
  (** The last button connects, or disconnects. *)
  tb_connects : bool;
}.

Definition SessionTopBar (sessionName : jsstring) (status : ConnectionStatus)
    (statusError : option jsstring) (pinnedKeys : list (jsstring * json))
    (clipboard : option ClipboardBuffer) (b : BarState) : TopBar :=
  let error := match status with error_status => Some (error_text statusError) | _ => None end in
  {| tb_name := sessionName;
     tb_color := STATUS_COLORS status;
     tb_label := STATUS_LABELS status;
     tb_error := error;
     tb_popover := if br_showError b then error else None;
     tb_clipboard := ClipboardPill <$> clipboard;
     tb_measured := pinnedKeys.*1;
     tb_pills := visible_pills pinnedKeys (br_visibleCount b);
     tb_more := overflow_count pinnedKeys (br_visibleCount b);
     tb_connects := match status with disconnected | error_status => true | _ => false end |}.

(** ** The overlay *)

(** A button of the send tab: its text and the spec it sends. *)
Record SendTab := {
  st_saved : option (list (jsstring * json));
  st_presets : list (jsstring * json);
}.

(** The draft of the builder with what the editor of a step shows. *)
Inductive StepEditor :=
| SE_combo (ctrl alt shift : bool) (baseKey : jsstring) (options : list jsstring)
| SE_literal (text : jsstring) (enter : bool).

Record BuilderTab := {
  bt_name : jsstring;
  bt_token : jsstring;
  bt_editor : StepEditor;
  (** The number of the steps and their descriptions. *)
  bt_steps : option (nat * list jsstring);
  bt_preview : jsstring;
  bt_pin : bool;
  bt_save : jsstring;
  bt_save_disabled : bool;
}.

Inductive ManageRow :=
| MR_editing (name token : jsstring)
| MR_key (name token pin : jsstring) (up_disabled down_disabled : bool).

Inductive OverlayView :=
| OV_closed
| OV_send (s : SendTab)
| OV_builder (b : BuilderTab)
| OV_manage (rows : option (list ManageRow)).

Section overlay.
Context {J : Json} {L : Locale}.

Definition send_tab (quickKeys : list QuickKey) : SendTab :=
  {| st_saved := match quickKeys with
                 | [] => None
                 | _ => Some ((λ k, (qk_display_token k, parseSpec (qk_spec k))) <$> quickKeys)
                 end;
     st_presets := (λ p, (preset_display_token p, JArr (step_json <$> preset_spec p)))
                   <$> PRESET_QUICK_KEYS |}.

(** Rendering throws if the preview does. *)
Definition builder_tab (b : Builder) : result BuilderTab :=
  let! preview := match bd_steps b with [] => Ok [] | steps => previewSpec steps end in
  Ok {| bt_name := bd_name b;
        bt_token := bd_displayToken b;
        bt_editor := match bd_editMode b with
                     | M_combo => SE_combo (bd_ctrl b) (bd_alt b) (bd_shift b) (bd_baseKey b) BASE_KEYS
                     | M_literal => SE_literal (bd_literalText b) (bd_literalEnter b)
                     end;
        bt_steps := match bd_steps b with
                    | [] => None
                    | steps => Some (length steps, describeStep <$> steps)
                    end;
        bt_preview := match preview with [] => js "(empty)" | p => p end;
        bt_pin := bd_pin b;
        bt_save := if bd_saving b then js "Saving..." else js "Save";
        bt_save_disabled := bd_saving b || negb (can_save b) |}.

Definition manage_row (m : Manage) (count i : nat) (k : QuickKey) : ManageRow :=
  if bool_decide (mg_editingId m = Some (qk_id k))
  then MR_editing (mg_editName m) (mg_editToken m)
  else MR_key (qk_name k) (qk_display_token k) (if qk_pinned k then js "Unpin" else js "Pin")
         (i =? 0)%nat (Z.of_nat i =? Z.of_nat count - 1).

Definition manage_tab (m : Manage) (quickKeys : list QuickKey) : option (list ManageRow) :=
  match quickKeys with
  | [] => None
  | _ => Some (imap (manage_row m (length quickKeys)) quickKeys)
  end.

Definition QuickKeysOverlay (o : OverlayState) (quickKeys : list QuickKey) (b : Builder)
    (m : Manage) : result OverlayView :=
  if negb (ov_isOpen o) then Ok OV_closed
  else match ov_tab o with
  | T_send => Ok (OV_send (send_tab quickKeys))
  | T_builder => let! v := builder_tab b in Ok (OV_builder v)
  | T_manage => Ok (OV_manage (manage_tab m quickKeys))
  end.

(** ** Pressing *)

(** The steps of a spec that came from JSON; [None]: it is not a list of steps, which the
    page hands over unchecked. *)
Definition steps_of (spec : json) : option (list QuickKeyStep) :=
  match spec with JArr l => mapM json_step l | _ => None end.

(** [onSendKey] and [onSend] of the session page. *)
Definition press (spec : json) (t : Term) : option (result unit * Term) :=
  (λ steps, sendKeys steps t) <$> steps_of spec.
End overlay.

(** ** Facts: the bar *)

Section facts.
Context {J : Json} {HJ : JsonLaws J} {L : Locale} {HL : LocaleLaws L}.

Lemma mapM_json_step steps : mapM json_step (step_json <$> steps) = Some steps.
Proof.
  apply mapM_Some. induction steps as [|s steps IH]; [constructor|].
  rewrite fmap_cons. constructor; [apply json_step_json | exact IH].
Qed.

Lemma steps_of_saved steps : steps_of (parseSpec (stringify_spec steps)) = Some steps.
Proof.
  unfold parseSpec, stringify_spec. rewrite JSON_parse_stringify. apply mapM_json_step.
Qed.

(** A key with well-formed steps, saved as the page saves them. *)
Definition saves (k : QuickKey) (steps : list QuickKeyStep) : Prop :=
  qk_spec k = stringify_spec steps ∧ Forall step_wf steps.

(** Pressing it types the encodings of its steps, one after the other, and nothing else. *)
Lemma press_types k steps t :
  saves k steps → functions (window t) = true →
  ∃ parts t', Forall2 (λ s p, encodeStep s = Ok p) steps parts ∧
    press (parseSpec (qk_spec k)) t = Some (Ok tt, t') ∧
    calls (window t') = calls (window t) ++ [sshSendInput (concat parts)] ∧
    refs t' = refs t ∧ ui t' = ui t.
Proof.
  intros [-> Hwf] Hf. unfold press. rewrite steps_of_saved. cbn [fmap option_fmap option_map].
  destruct (encodeSpec_concat steps Hwf) as (parts & H2 & E & _). unfold sendKeys. rewrite E.
  eexists parts, _. split_and!; [exact H2 | reflexivity | | done | done].
  cbn [set_client window]. unfold sendInput. by rewrite Hf.
Qed.

Lemma pinned_keys_elem l k :
  k ∈ l → qk_pinned k = true →
  (qk_display_token k, parseSpec (qk_spec k)) ∈ pinned_keys l.
Proof.
  intros Hk Hp. unfold pinned_keys. apply list_elem_of_fmap. exists k. split; [done|].
  rewrite array_sort_perm. by apply list_elem_of_filter.
Qed.


(** The pills stand in the order of [sort_order], and keys of equal order in that of the
    list. *)
Theorem pills_ordered l :
  ∃ ks, pinned_keys l = (λ k, (qk_display_token k, parseSpec (qk_spec k))) <$> ks ∧
    ks ≡ₚ filter (λ k, qk_pinned k = true) l ∧
    StronglySorted (λ a b, qk_sort_order a <= qk_sort_order b) ks ∧
    ∀ n, filter (λ k, qk_sort_order k = n) ks
         = filter (λ k, qk_sort_order k = n) (filter (λ k, qk_pinned k = true) l).
Proof.
  eexists. split; [reflexivity|]. split_and!.
  - apply array_sort_perm.
  - set (ks := filter _ l). pose proof (array_sort_sorted
      (λ a b, qk_sort_order a - qk_sort_order b) ltac:(lia) ltac:(lia) ks) as H.
    induction H as [|a ks' _ IH Ha]; constructor; [exact IH|].
    eapply Forall_impl; [exact Ha|]. intros b Hb. cbn beta in Hb. lia.
  - intros n. apply array_sort_stable. intros a b -> ->. lia.
Qed.

(** ** Facts: the overlay *)

(** The Save button is enabled exactly when pressing it saves. *)
Theorem save_button_exact b v :
  builder_tab b = Ok v →
  bt_save_disabled v = false ↔ bd_saving b = false ∧ is_Some (handleSave_begin b).1.
Proof.
  unfold builder_tab. destruct (match bd_steps b with [] => _ | _ => _ end) as [p|e]; [|done].
  cbn [rbind]. intros [= <-]. cbn [bt_save_disabled]. unfold handleSave_begin.
  destruct (bd_saving b), (can_save b); cbn; split; (done || (intros [? []]; done) || by eauto).
Qed.

(** The arrows of a row are enabled exactly when pressing them moves the key. *)
Theorem arrows_exact m l i k rows name token pin up down :
  l !! i = Some k → manage_tab m l = Some rows → rows !! i = Some (MR_key name token pin up down) →
  (up = false ↔ is_Some (moveItem i false l)) ∧ (down = false ↔ is_Some (moveItem i true l)).
Proof.
  intros Hi Hr Hrow. pose proof (lookup_lt_Some _ _ _ Hi) as Hlt.
  assert (Hl : rows = imap (manage_row m (length l)) l) by (destruct l; [done|]; cbn in Hr |- *; congruence).
  subst rows. rewrite list_lookup_imap, Hi in Hrow. cbn in Hrow. unfold manage_row in Hrow.
  case_bool_decide; [done|]. injection Hrow as <- <- <- Hu Hd. subst up down. unfold moveItem.
  assert (Hids : ∀ j, (j < length l)%nat → is_Some (key_ids l !! j)).
  { intros j Hj. apply lookup_lt_is_Some. unfold key_ids. by rewrite length_fmap. }
  destruct (Hids i Hlt) as [x Ex]. rewrite Ex.
  split; destruct (_ || _) eqn:E; zbool; split; try (by intros [? ?]); try lia; intros _;
    match goal with |- context [key_ids l !! ?j] => destruct (Hids j ltac:(lia)) as [y ->] end; eauto.
Qed.
End facts.

(** ** Witness *)

#[local] Existing Instance tree_json_text.
#[local] Existing Instance ascii_locale.

Definition pinned_macro : QuickKey :=
  {| qk_id := 1; qk_user_id := 1; qk_name := js "Detach"; qk_display_token := js "^B d";
     qk_spec := stringify_spec demo_macro; qk_pinned := true; qk_sort_order := 0;
     qk_created_at := []; qk_updated_at := [] |}.

