(* ===== verification/Routes.v ===== *)
(** * The pages and the way to them ([App.tsx])

    The routing table, the guard of the pages that need a login, and where the links of the
    pages lead.  The router is the environment: an interface with its documented ranking. *)

From S2P Require Import Prelude Js Models ApiTypes Api Accounts Tags SessionList SessionStore DetailPage Restart SessionView Chrome.
#[local] Open Scope Z_scope.
#[local] Open Scope js_scope.

(** ** The router *)

Definition pattern_segments (q : jsstring) : list jsstring := filter (λ s, s ≠ []) (split_on 47 q).

(** A segment of a pattern that starts with a colon takes any segment; others compare without
    case. *)
Definition dynamic (p : jsstring) : bool := match p with 58 :: _ => true | _ => false end.

Definition segment_fits (p s : jsstring) : bool :=
  dynamic p || bool_decide (ascii_lower p = ascii_lower s).

Fixpoint segments_fit (ps ss : list jsstring) : bool :=
  match ps, ss with
  | [], [] => true
  | p :: ps, s :: ss => segment_fits p s && segments_fit ps ss
  | _, _ => false
  end.

Definition fits (q : jsstring) (ss : list jsstring) : bool := segments_fit (pattern_segments q) ss.

Definition dynamics (q : jsstring) : nat := length (filter (λ p, dynamic p = true) (pattern_segments q)).

(** What the dynamic segments took. *)
Definition params (q : jsstring) (ss : list jsstring) : list (jsstring * jsstring) :=
  omap (λ ps : jsstring * jsstring, if dynamic ps.1 then Some (drop 1 ps.1, ps.2) else None)
    (zip (pattern_segments q) ss).

(** A path of plain segments, which the browser does not rewrite. *)
Definition plain_segment (s : jsstring) : Prop := s ≠ [] ∧ Forall (λ c, uri_unreserved c = true) s.

Definition path_of (ss : list jsstring) : jsstring :=
  match ss with [] => [47] | _ => concat ((λ s, 47 :: s) <$> ss) end.

(** [<Routes>]: the pattern chosen for a path and its parameters. *)
Class Router := { choose : list jsstring → jsstring → option (jsstring * list (jsstring * jsstring)) }.

(** A pattern of the list is chosen; of those that fit a plain path, the one with the fewest
    dynamic segments. *)
Class RouterLaws (R : Router) := {
  choose_in l p q ps : choose l p = Some (q, ps) → q ∈ l;
  choose_best l ss q :
    Forall plain_segment ss → q ∈ l → fits q ss = true →
    (∀ q', q' ∈ l → fits q' ss = true → q' = q ∨ (dynamics q < dynamics q')%nat) →
    choose l (path_of ss) = Some (q, params q ss);
}.

(** ** The table *)

Inductive Page :=
| LoginPage | RegisterPage | PairPage | RegisterPasskeyPage
| DashboardPage | NewSessionPage
| SessionDetailPage (id : option jsstring)
| SettingsPage | PasskeyManagementPage | AddPasskeyPage | HostsPage.

Definition public (p : Page) : bool :=
  match p with LoginPage | RegisterPage | PairPage | RegisterPasskeyPage => true | _ => false end.

Inductive Element :=
| Navigate (to : jsstring)
| Open (p : Page)
| Protected (p : list (jsstring * jsstring) → Page).

(** [useParams().id]. *)
Definition param (k : jsstring) (ps : list (jsstring * jsstring)) : option jsstring := assoc_get k ps.

Definition App_routes : list (jsstring * Element) :=
  [(js "/", Navigate (js "/dashboard"));
   (js "/login", Open LoginPage);
   (js "/register", Open RegisterPage);
   (js "/pair", Open PairPage);
   (js "/passkeys/enroll", Open RegisterPasskeyPage);
   (js "/dashboard", Protected (λ _, DashboardPage));
   (js "/sessions/new", Protected (λ _, NewSessionPage));
   (js "/sessions/:id", Protected (λ ps, SessionDetailPage (param (js "id") ps)));
   (js "/settings", Protected (λ _, SettingsPage));
   (js "/settings/passkeys", Protected (λ _, PasskeyManagementPage));
   (js "/passkeys/add", Protected (λ _, AddPasskeyPage));
   (js "/hosts", Protected (λ _, HostsPage))].

(** The path of a link, without its query. *)
Fixpoint pathname (url : jsstring) : jsstring :=
  match url with
  | [] => []
  | c :: url => if (c =? 63) || (c =? 35) then [] else c :: pathname url
  end.

(** What is on screen in the end; [S_loop]: more than [n] redirections. *)
Inductive Shown := S_page (p : Page) | S_blank | S_crash (e : js_error) | S_loop.

Fixpoint visit `{Router} (n : nat) (b : Browser) (url : jsstring) : Shown :=
  match n with
  | O => S_loop
  | S n =>
      match choose App_routes.*1 (pathname url) with
      | None => S_blank
      | Some (q, ps) =>
          match assoc_get q App_routes with
          | None => S_blank
          | Some (Navigate to) => visit n b to
          | Some (Open p) => S_page p
          | Some (Protected p) =>
              match ProtectedRoute b with
              | Ok None => S_page (p ps)
              | Ok (Some to) => visit n b to
              | Throw e => S_crash e
              end
          end
      end
  end.

(** ** Facts *)

Section facts.
Context {R : Router} {HR : RouterLaws R}.

(** The best pattern for a path of the table, found by looking at all of them. *)
Lemma choose_routes ss q :
  Forall plain_segment ss → q ∈ App_routes.*1 → fits q ss = true →
  forallb (λ q', negb (fits q' ss) || bool_decide (q' = q) || (dynamics q <? dynamics q')%nat)
    App_routes.*1 = true →
  choose App_routes.*1 (path_of ss) = Some (q, params q ss).
Proof.
  intros Hs Hq Hf Hb. apply choose_best; [exact Hs | exact Hq | exact Hf |]. intros q' Hq' Hf'.
  rewrite forallb_forall in Hb. specialize (Hb q' (proj1 (list_elem_of_In _ _) Hq')).
  rewrite Hf' in Hb. cbn [negb orb] in Hb. apply orb_true_iff in Hb as [Hb|Hb].
  - left. by apply bool_decide_eq_true in Hb.
  - right. by apply Nat.ltb_lt.
Qed.

Lemma choose_login : choose App_routes.*1 (js "/login") = Some (js "/login", []).
Proof.
  apply (choose_routes [js "login"]); [|apply list_elem_of_In; vm_compute; tauto|vm_compute; reflexivity..].
  repeat constructor. discriminate.
Qed.

Lemma choose_dashboard : choose App_routes.*1 (js "/dashboard") = Some (js "/dashboard", []).
Proof.
  apply (choose_routes [js "dashboard"]);
    [|apply list_elem_of_In; vm_compute; tauto|vm_compute; reflexivity..].
  repeat constructor. discriminate.
Qed.

Lemma choose_session i :
  plain_segment i → ascii_lower i ≠ js "new" →
  choose App_routes.*1 (js "/sessions/" ++ i) = Some (js "/sessions/:id", [(js "id", i)]).
Proof.
  intros Hi Hn.
  assert (E : js "/sessions/" ++ i = path_of [js "sessions"; i]) by (cbn; by rewrite app_nil_r).
  rewrite E. apply (choose_routes [js "sessions"; i]).
  - repeat constructor; try discriminate; apply Hi.
  - apply list_elem_of_In; vm_compute; tauto.
  - reflexivity.
  - assert (En : fits (js "/sessions/new") [js "sessions"; i]
                 = bool_decide (js "new" = ascii_lower i)).
    { change (segment_fits (js "new") i && true = bool_decide (js "new" = ascii_lower i)).
      by rewrite andb_true_r. }
    rewrite bool_decide_eq_false_2 in En by congruence.
    cbn [App_routes fmap list_fmap fst forallb]. rewrite En. reflexivity.
Qed.

Lemma assoc_get_Some {V} k (l : list (jsstring * V)) v : assoc_get k l = Some v → (k, v) ∈ l.
Proof.
  induction l as [|[k' v'] l IH]; [done|]. cbn [assoc_get]. case_decide as E.
  - intros [= ->]. subst. left.
  - intros H. right. by apply IH.
Qed.

Lemma visit_S n b url :
  visit (S n) b url =
  match choose App_routes.*1 (pathname url) with
  | None => S_blank
  | Some (q, ps) =>
      match assoc_get q App_routes with
      | None => S_blank
      | Some (Navigate to) => visit n b to
      | Some (Open p) => S_page p
      | Some (Protected p) =>
          match ProtectedRoute b with
          | Ok None => S_page (p ps)
          | Ok (Some to) => visit n b to
          | Throw e => S_crash e
          end
      end
  end.
Proof. reflexivity. Qed.

Lemma visit_login n b : visit (S n) b (js "/login") = S_page LoginPage.
Proof.
  rewrite visit_S. change (pathname (js "/login")) with (js "/login"). by rewrite choose_login.
Qed.

Definition guard (b : Browser) : Shown :=
  match ProtectedRoute b with
  | Ok None => S_page DashboardPage
  | Ok (Some _) => S_page LoginPage
  | Throw e => S_crash e
  end.

Lemma ProtectedRoute_to b to : ProtectedRoute b = Ok (Some to) → to = js "/login".
Proof.
  unfold ProtectedRoute. intros H. destruct (storage_get _ _) as [t|]; [|discriminate H].
  cbn [rbind] in H. destruct (truthy t); congruence.
Qed.

Lemma visit_dashboard n b : visit (S (S n)) b (js "/dashboard") = guard b.
Proof.
  rewrite visit_S.
  change (pathname (js "/dashboard")) with (js "/dashboard"). rewrite choose_dashboard.
  change (assoc_get (js "/dashboard") App_routes) with (Some (Protected (λ _, DashboardPage))).
  unfold guard. destruct (ProtectedRoute b) as [[to|]|e] eqn:E; [|done|done].
  rewrite (ProtectedRoute_to b to E). apply visit_login.
Qed.

(** Where any address ends: at a page of the table, possibly through the login page; two
    redirections are enough. *)
Lemma visit_cases b url :
  visit 3 b url = S_blank ∨
  (∃ p, visit 3 b url = S_page p ∧ public p = true) ∨
  visit 3 b url = guard b ∨
  (∃ p, ProtectedRoute b = Ok None ∧ visit 3 b url = S_page p) ∨
  (∃ e, ProtectedRoute b = Throw e ∧ visit 3 b url = S_crash e).
Proof.
  rewrite visit_S.
  destruct (choose App_routes.*1 (pathname url)) as [[q ps]|]; [|by left].
  destruct (assoc_get q App_routes) as [el|] eqn:Eq; [|by left]. right.
  destruct el as [to|p|p].
  - right; left. apply assoc_get_Some in Eq. unfold App_routes in Eq.
    repeat (apply elem_of_cons in Eq as [Eq|Eq];
            [first [discriminate Eq | (assert (to = js "/dashboard") as -> by congruence; apply visit_dashboard)]|]).
    by apply not_elem_of_nil in Eq.
  - left. exists p. split; [done|]. apply assoc_get_Some in Eq. unfold App_routes in Eq.
    repeat (apply elem_of_cons in Eq as [Eq|Eq]; [first [discriminate Eq | by injection Eq as _ ->]|]).
    by apply not_elem_of_nil in Eq.
  - destruct (ProtectedRoute b) as [[to|]|e] eqn:Ep.
    + left. exists LoginPage. rewrite (ProtectedRoute_to b to Ep). split; [apply visit_login|done].
    + right; right; left. by eexists.
    + right; right; right. by eexists.
Qed.

(** A visit that has ended is not changed by more redirections. *)
Lemma visit_settled n b url : visit n b url ≠ S_loop → visit (S n) b url = visit n b url.
Proof.
  revert url. induction n as [|n IH]; intros url H; [done|]. rewrite visit_S. rewrite visit_S in H |- *.
  destruct (choose App_routes.*1 (pathname url)) as [[q ps]|]; [|done].
  destruct (assoc_get q App_routes) as [[to|p|p]|]; [by apply IH|done| |done].
  destruct (ProtectedRoute b) as [[to|]|e]; [by apply IH|done..].
Qed.

(** C20: Navigation ends: from every address, whatever the storage holds, the chain of redirections
    and guards stops after at most two hops, so that more rounds than the three the model allows
    would change nothing; and it stops at a page that anyone may see, at nothing, at a page of the
    account for a visitor whom the guard lets through, or at the error of the guard. *)
Theorem navigation_ends b url n :
  (3 <= n)%nat →
  visit n b url = visit 3 b url ∧
  (visit n b url = S_blank ∨ (∃ p, visit n b url = S_page p ∧ (public p = true ∨ ProtectedRoute b = Ok None)) ∨
   ∃ e, visit n b url = S_crash e ∧ ProtectedRoute b = Throw e).
Proof.
  intros Hn.
  assert (H : visit 3 b url = S_blank ∨
    (∃ p, visit 3 b url = S_page p ∧ (public p = true ∨ ProtectedRoute b = Ok None)) ∨
    ∃ e, visit 3 b url = S_crash e ∧ ProtectedRoute b = Throw e).
  { destruct (visit_cases b url) as [H|[(p & H & Hp)|[H|[(p & Hb & H)|(e & Hb & H)]]]]; [by left| | | |].
    - right; left. eauto.
    - rewrite H. unfold guard. destruct (ProtectedRoute b) as [[to|]|e] eqn:Eb; eauto 6.
    - right; left. eauto.
    - right; right. eauto. }
  assert (E : ∀ k, visit (3 + k) b url = visit 3 b url).
  { induction k as [|k IH]; [done|]. rewrite Nat.add_succ_r, visit_settled; [exact IH|].
    rewrite IH. destruct H as [->|[(p & -> & _)|(e & -> & _)]]; done. }
  replace n with (3 + (n - 3))%nat by lia. rewrite E. by split.
Qed.

(** C19: A visitor who is not signed in sees no page of the account: whatever address is opened,
    the redirections end, and what is shown is the login, one of the other public pages, or
    nothing; and the address of every other page ends at the login. *)
Theorem unsigned_sees_public b url :
  ProtectedRoute b = Ok (Some (js "/login")) →
  (visit 3 b url = S_blank ∨ ∃ p, visit 3 b url = S_page p ∧ public p = true) ∧
  ∀ q ps p, choose App_routes.*1 (pathname url) = Some (q, ps) →
    assoc_get q App_routes = Some (Protected p) → visit 3 b url = S_page LoginPage.
Proof.
  intros Hb. split.
  - destruct (visit_cases b url) as [H|[H|[H|[(p & H & _)|(e & H & _)]]]];
      [by left | by right | right | congruence..].
    exists LoginPage. split; [|done]. rewrite H. unfold guard. by rewrite Hb.
  - intros q ps p Hc He.
    rewrite visit_S, Hc, He, Hb. apply visit_login.
Qed.

Lemma visit_session n b i :
  ProtectedRoute b = Ok None → plain_segment i → ascii_lower i ≠ js "new" →
  visit (S n) b (session_path i) = S_page (SessionDetailPage (Some i)).
Proof.
  intros Hb Hi Hn. rewrite visit_S. unfold session_path.
  assert (Hp : pathname (js "/sessions/" ++ i) = js "/sessions/" ++ i).
  { destruct Hi as [_ Hi]. assert (H : Forall (λ c, c ≠ 63 ∧ c ≠ 35) (js "/sessions/" ++ i)).
    { apply Forall_app. split.
      - assert (E : js "/sessions/" = [47; 115; 101; 115; 115; 105; 111; 110; 115; 47]) by reflexivity.
        rewrite E. repeat constructor; lia.
      - eapply Forall_impl; [exact Hi|]. intros c Hc. split; intros ->; discriminate Hc. }
    induction H as [|c l [H1 H2] _ IH]; [done|]. cbn [pathname].
    rewrite (proj2 (Z.eqb_neq _ _) H1), (proj2 (Z.eqb_neq _ _) H2). cbn [orb]. by rewrite IH. }
  rewrite Hp, choose_session by done.
  change (assoc_get (js "/sessions/:id") App_routes)
    with (Some (Protected (λ ps, SessionDetailPage (param (js "id") ps)))).
  rewrite Hb. reflexivity.
Qed.
End facts.

Section links.
Context {R : Router} {HR : RouterLaws R} {L : Locale}.
Context (parse_date : jsstring → option Z) (locale_date : jsstring → jsstring).
Context (float_text : Z → jsstring) (now : Z).

(** The links of the dashboard: each row and each card leads to its session, plainly and with a
    restart. *)
Lemma dashboard_links loading sessions h creating dnd order dragging summary starting table mobile :
  dashboard_screen parse_date locale_date float_text now loading sessions h creating dnd order
    dragging = DS_page summary starting table mobile →
  (∀ r, r ∈ default [] table →
     tr_link r = session_path (tr_id r) ∧ tr_restart r = handleRestartSession (tr_id r)) ∧
  (∀ c, c ∈ mobile →
     cd_link c = session_path (cd_id c) ∧ cd_restart c = handleRestartSession (cd_id c)).
Proof.
  unfold dashboard_screen. destruct loading; [done|]. intros [= _ _ Ht Hm]. split.
  - intros r Hr. destruct sessions as [|s0 l]; subst table; [by apply not_elem_of_nil in Hr|].
    cbn [default] in Hr. by apply list_elem_of_fmap in Hr as (s & -> & _).
  - intros c Hc. subst mobile. unfold cards in Hc. apply list_elem_of_omap in Hc as (i & _ & E).
    destruct (sessionById _ i) as [s|]; [|done]. by injection E as <-.
Qed.

(** Every session on the dashboard can be opened: for a visitor who is signed in, the link
    of each row of the table and of each card leads to the session page of that session, which
    loads it; so does the row's Restart, and the page then has the intent to restart. *)
Theorem session_links_open b loading sessions h creating dnd order dragging summary starting
    table mobile :
  ProtectedRoute b = Ok None →
  dashboard_screen parse_date locale_date float_text now loading sessions h creating dnd order
    dragging = DS_page summary starting table mobile →
  let opens i url :=
    plain_segment i → ascii_lower i ≠ js "new" →
    visit 3 b url = S_page (SessionDetailPage (Some i)) ∧ dp_loads (detail_mount i) = [i] in
  (∀ r, r ∈ default [] table →
     opens (tr_id r) (tr_link r) ∧ opens (tr_id r) (en_path (tr_restart r)) ∧
     (restart_mount (tr_restart r)).1 = true) ∧
  (∀ c, c ∈ mobile →
     opens (cd_id c) (cd_link c) ∧ opens (cd_id c) (en_path (cd_restart c)) ∧
     (restart_mount (cd_restart c)).1 = true).
Proof.
  intros Hb Hd opens.
  assert (Ho : ∀ i, opens i (session_path i)).
  { intros i Hi Hn. split; [by apply visit_session|]. destruct i; [by destruct Hi|done]. }
  destruct (dashboard_links _ _ _ _ _ _ _ _ _ _ _ Hd) as [Ht Hm]. split.
  - intros r Hr. destruct (Ht r Hr) as [-> ->]. split_and!; [apply Ho | apply Ho | done].
  - intros c Hc. destruct (Hm c Hc) as [-> ->]. split_and!; [apply Ho | apply Ho | done].
Qed.
End links.

(** ** Witnesses *)

(** A router with these laws: the fitting patterns, those with fewer dynamic segments first. *)
Definition by_dynamics (a b : jsstring) : Z := Z.of_nat (dynamics a) - Z.of_nat (dynamics b).

Definition ranked (l : list jsstring) (ss : list jsstring) : list jsstring :=
  array_sort by_dynamics (filter (λ q, fits q ss = true) l).

#[export] Instance ranking_router : Router :=
  {| choose l p :=
       let ss := pattern_segments p in
       (λ q, (q, params q ss)) <$> head (ranked l ss) |}.

Lemma split_path ss :
  Forall plain_segment ss → split_on 47 (concat ((λ s, 47 :: s) <$> ss)) = [] :: ss.
Proof.
  intros Hs. destruct Hs as [|s ss Hs Hss]; [done|].
  assert (Hw : ∀ w, plain_segment w → Forall (λ c, c ≠ 47) w).
  { intros w [_ Hw]. eapply Forall_impl; [exact Hw|]. intros c Hc ->. discriminate Hc. }
  cbn [fmap list_fmap concat app split_on Z.eqb Pos.eqb]. f_equal.
  revert s Hs. induction Hss as [|s' ss Hs' _ IH]; intros s Hs.
  - cbn [fmap list_fmap concat]. rewrite app_nil_r. by apply (split_on_word 47 s []), Hw.
  - cbn [fmap list_fmap concat app].
    rewrite (proj1 (split_on_word 47 s _ (Hw s Hs))). f_equal. by apply IH.
Qed.

Lemma segments_path ss : Forall plain_segment ss → pattern_segments (path_of ss) = ss.
Proof.
  intros Hs. destruct ss as [|s ss]; [done|]. unfold pattern_segments, path_of.
  rewrite split_path by done. rewrite filter_cons_False by (intros H; by apply H).
  apply filter_all. eapply Forall_impl; [exact Hs|]. by intros w [Hw _].
Qed.

#[export] Instance ranking_laws : RouterLaws ranking_router.
Proof.
  assert (Hin : ∀ l ss q, q ∈ ranked l ss ↔ fits q ss = true ∧ q ∈ l).
  { intros l ss q. unfold ranked. by rewrite array_sort_perm, list_elem_of_filter. }
  split.
  - intros l p q ps. cbn. destruct (ranked l (pattern_segments p)) as [|x xs] eqn:E; [done|].
    intros [= <- _]. apply (Hin l (pattern_segments p)). rewrite E. by left.
  - intros l ss q Hs Hq Hf Hbest. cbn. rewrite segments_path by done.
    destruct (ranked l ss) as [|x xs] eqn:E.
    { assert (H : q ∈ ranked l ss) by by apply Hin. rewrite E in H. by apply not_elem_of_nil in H. }
    assert (Hx : x ∈ ranked l ss) by (rewrite E; by left). apply Hin in Hx as [Fx Lx].
    destruct (Hbest x Lx Fx) as [->|Hlt]; [done|]. exfalso.
    pose proof (array_sort_sorted by_dynamics ltac:(unfold by_dynamics; lia)
      ltac:(unfold by_dynamics; lia) (filter (λ q, fits q ss = true) l)) as HS.
    fold (ranked l ss) in HS. rewrite E in HS. apply StronglySorted_inv in HS as [_ HS].
    assert (H : q ∈ x :: xs) by (rewrite <- E; by apply Hin).
    apply elem_of_cons in H as [->|H]; [lia|].
    rewrite Forall_forall in HS. specialize (HS q H). unfold by_dynamics in HS. lia.
Qed.

Definition signed_in_browser : Browser :=
  {| has_window := true; localStorage := Some {[ js "token" := js "t" ]};
     location_protocol := js "https:"; location_host := js "h"; location_href := [] |}.
Definition signed_out_browser : Browser := set_storage (Some ∅) signed_in_browser.

Lemma unsigned_sees_public_witness :
  visit 3 signed_out_browser (js "/sessions/a1") = S_page LoginPage ∧
  visit 3 signed_out_browser (js "/sessions/new?x") = S_page LoginPage.
Proof.
  assert (Hb : ProtectedRoute signed_out_browser = Ok (Some (js "/login"))) by reflexivity.
  split.
  - eapply (unsigned_sees_public signed_out_browser (js "/sessions/a1") Hb);
      vm_compute; reflexivity.
  - eapply (unsigned_sees_public signed_out_browser (js "/sessions/new?x") Hb);
      vm_compute; reflexivity.
Defined.

#[local] Existing Instance ascii_locale.

Definition one_session : Session := with_seq (blank_session (js "a1")) 0.

Lemma session_links_open_witness :
  visit 3 signed_in_browser (js "/sessions/a1") = S_page (SessionDetailPage (Some (js "a1"))).
Proof.
  destruct (dashboard_screen (λ _, None) (λ s, s) (λ _, []) 0 false [one_session]
    (useTagFilter_init None) None drag_idle [js "a1"] None)
    as [|summary starting table mobile] eqn:E; [discriminate E|].
  destruct (session_links_open (λ _, None) (λ s, s) (λ _, []) 0 signed_in_browser false [one_session]
    (useTagFilter_init None) None drag_idle [js "a1"] None
    summary starting table mobile eq_refl E) as [_ H].
  assert (Em : mobile = [card (λ _, None) (λ s, s) (λ _, []) 0 None one_session])
    by (vm_compute in E; injection E as _ _ _ <-; reflexivity).
  destruct (H (card (λ _, None) (λ s, s) (λ _, []) 0 None one_session)) as ([Hv _] & _ & _).
  - rewrite Em. left.
  - split; [discriminate|]. repeat constructor.
  - vm_compute. discriminate.
  - exact Hv.
Defined.

Lemma navigation_ends_witness :
  visit 9 signed_out_browser (js "/nowhere") = visit 3 signed_out_browser (js "/nowhere").
Proof. apply (navigation_ends (R := ranking_router) signed_out_browser (js "/nowhere") 9). lia. Defined.
