(* ===== verification/TagWidgets.v ===== *)
(** * The tag editor and the filter's dropdown ([components/TagEditor.tsx],
    [components/TagFilter.tsx]) on the session page

    The editor works on the tags that the page shows and hands complete lists to the page's
    [handleTagsChange] ([DetailPage]); here the two are one machine.  The rendered widgets are
    data, as in [SessionView]. *)

From S2P Require Import Prelude Js Models ApiTypes Tags SessionList SessionStore DetailPage.
#[local] Open Scope Z_scope.
#[local] Open Scope js_scope.

(** ** The editor *)

Record TagEditor := { te_draft : jsstring; te_error : option jsstring }.

Definition editor_initial : TagEditor := {| te_draft := []; te_error := None |}.

(** The page with its editor. *)
Record TagPage := { tp_page : DetailPage; tp_editor : TagEditor }.

(** The tags handed to the editor. *)
Definition page_tags (p : DetailPage) : list jsstring :=
  match d_session (dp_detail p) with Some s => sessionTags s | None => [] end.

Definition save_failed : jsstring := js "Could not save tags. Try again.".

Definition set_draft (d : jsstring) (e : option jsstring) (w : TagPage) : TagPage :=
  {| tp_page := tp_page w; tp_editor := {| te_draft := d; te_error := e |} |}.

(** [commit] up to the [await]. *)
Definition commit (next : list jsstring) (w : TagPage) : TagPage :=
  {| tp_page := detail_tags next (tp_page w);
     tp_editor := {| te_draft := te_draft (tp_editor w); te_error := None |} |}.

(** Its rest, when the [n]th save settles. *)
Definition commit_settled (n : nat) (answer : result (list jsstring)) (w : TagPage) : TagPage :=
  {| tp_page := detail_tags_finish n answer (tp_page w);
     tp_editor := match dp_saves (tp_page w) !! n, answer with
                  | Some _, Throw _ => {| te_draft := te_draft (tp_editor w); te_error := Some save_failed |}
                  | _, _ => tp_editor w
                  end |}.

Section editor.
Context {L : Locale}.

Definition add (w : TagPage) : TagPage :=
  let tags := page_tags (tp_page w) in
  match checkNewTag (te_draft (tp_editor w)) tags with
  | TagError e => set_draft (te_draft (tp_editor w)) (Some e) w
  | TagOk tag => commit (tags ++ [tag]) (set_draft [] (te_error (tp_editor w)) w)
  end.

Definition remove (tag : jsstring) (w : TagPage) : TagPage :=
  commit (TagEditor_remove tag (page_tags (tp_page w))) w.

(** What the user and the network do to the two. *)
Inductive TagEvent :=
| TE_type (value : jsstring)
| TE_enter
| TE_remove (tag : jsstring)
| TE_saved (n : nat) (answer : result (list jsstring))
| TE_page (e : DetailEvent).

Definition tag_step (w : TagPage) (e : TagEvent) : TagPage :=
  match e with
  | TE_type v => set_draft v None w
  | TE_enter => add w
  | TE_remove t => remove t w
  | TE_saved n a => commit_settled n a w
  | TE_page e => {| tp_page := detail_step (tp_page w) e; tp_editor := tp_editor w |}
  end.

(** [unused]: the options offered while typing. *)
Definition unused (suggestions tags : list jsstring) : list jsstring :=
  filter (λ s, existsb (λ t, same t s) tags = false) suggestions.

Record TagEditorView := {
  tv_chips : list jsstring;
  tv_draft : jsstring;
  tv_options : list jsstring;
  tv_error : option jsstring;
}.

Definition tag_editor_view (suggestions : list jsstring) (w : TagPage) : TagEditorView :=
  let tags := page_tags (tp_page w) in
  {| tv_chips := tags; tv_draft := te_draft (tp_editor w); tv_options := unused suggestions tags;
     tv_error := te_error (tp_editor w) |}.

(** ** The dropdown of the filter *)

Inductive FilterEvent :=
| FE_button
(** A mouse press, outside the widget or not; a key. *)
| FE_press (outside : bool)
| FE_key (key : jsstring)
| FE_toggle (tag : jsstring)
| FE_clear.

Context {J : Json}.

(** Whether it is open, and the hook's state. *)
Definition filter_step (s : bool * TagFilterState) (available : list jsstring) (e : FilterEvent)
    : bool * TagFilterState :=
  let '(open, h) := s in
  let selected := effectiveFilter (stored h) available in
  match e with
  | FE_button => (negb open, h)
  | FE_press outside => (open && negb outside, h)
  | FE_key k => (open && negb (bool_decide (k = js "Escape")), h)
  | FE_toggle tag => if open then (open, setSelected (TagFilter_toggle selected tag) h) else s
  | FE_clear => if open then (open, setSelected [] h) else s
  end.

Inductive FilterPanel :=
| FP_closed
| FP_empty
| FP_options (options : list (jsstring * bool)).

Record TagFilterWidget := {
  fw_count : option nat;
  fw_panel : FilterPanel;
  fw_clear : bool;
}.

Definition tag_filter_view (open : bool) (tags selected : list jsstring) : TagFilterWidget :=
  {| fw_count := match selected with [] => None | _ => Some (length selected) end;
     fw_panel := if open then
                   match tags with
                   | [] => FP_empty
                   | _ => FP_options ((λ t, (t, TagFilter_isOn selected t)) <$> tags)
                   end
                 else FP_closed;
     fw_clear := open && negb (bool_decide (selected = [])) |}.
End editor.

(** ** Facts: editing *)

Section editing.
Context {L : Locale}.

(** A page that shows a session of its route with valid tags, the row of the strip in
    agreement, and no save under way. *)
Record settled_page (p : DetailPage) (s : Session) : Prop := {
  sp_id : dp_id p ≠ [];
  sp_session : d_session (dp_detail p) = Some s;
  sp_route : ApiTypes.id s = dp_id p;
  sp_row : ∀ r, r ∈ d_sessions (dp_detail p) → ApiTypes.id r = dp_id p → tags r = tags s;
  sp_valid : valid_tags (sessionTags s);
  sp_saves : dp_saves p = [];
}.

Lemma detail_tags_begin p s new :
  dp_id p ≠ [] → d_session (dp_detail p) = Some s → ApiTypes.id s = dp_id p →
  detail_tags new p =
    dp_set_saves (dp_saves p ++ [(dp_id p, new, tags s)])
      (dp_set_detail (handleTagsChange_begin (dp_id p) new (dp_detail p)) p) ∧
  d_session (dp_detail (detail_tags new p)) = Some (with_tags s (Some new)).
Proof.
  intros Hi Hs Hr. unfold detail_tags. destruct (dp_id p) as [|c i] eqn:E; [done|].
  rewrite Hs. cbn [mbind option_bind]. split; [done|].
  cbn. rewrite Hs. cbn. by rewrite decide_True.
Qed.

(** A save of an edit of a settled page: the server's list is shown, or the page is as before. *)
Lemma save_settles p s new saved e :
  settled_page p s →
  let p1 := detail_tags new p in
  let ok := detail_tags_finish 0 (Ok saved) p1 in
  let failed := detail_tags_finish 0 (Throw e) p1 in
  d_session (dp_detail ok) = Some (with_tags s (Some saved)) ∧ dp_saves ok = [] ∧
  dp_detail failed = dp_detail p ∧ dp_saves failed = [] ∧ screen failed = screen p.
Proof.
  intros [Hi Hs Hr Hrow _ Hn] p1. destruct (detail_tags_begin p s new Hi Hs Hr) as [E _].
  destruct (handleTagsChange_rollback (dp_id p) new (tags s) e saved (dp_detail p)) as [Hf Hok].
  - intros x Hx _. congruence.
  - exact Hrow.
  - unfold p1. rewrite E, Hn. unfold detail_tags_finish. cbn [dp_set_saves dp_saves app lookup list_lookup].
    cbn [dp_set_saves dp_set_detail dp_detail]. rewrite Hf, Hok. cbn. rewrite Hs. cbn.
    rewrite decide_True by done. by split_and!.
Qed.

(** C36: What is typed is saved, or the editor says why not: pressing Enter on a page at rest
    either leaves the page alone and shows why the text is no tag, or empties the field, shows
    the session with the tag added and sends the server that list, which is valid; when the
    server answers, its list is shown; when the save fails, the page is as it was before, and
    the editor says so. *)
Theorem typed_tag_saved_or_reported p s ed :
  settled_page p s →
  let w := {| tp_page := p; tp_editor := ed |} in
  let w1 := tag_step w TE_enter in
  (∃ why, checkNewTag (te_draft ed) (sessionTags s) = TagError why ∧ tp_page w1 = p ∧
     tp_editor w1 = {| te_draft := te_draft ed; te_error := Some why |}) ∨
  (∃ t, let new := sessionTags s ++ [t] in
     t = trim (te_draft ed) ∧ valid_tags new ∧
     tp_editor w1 = editor_initial ∧ page_tags (tp_page w1) = new ∧
     dp_saves (tp_page w1) = [(dp_id p, new, tags s)] ∧
     (∀ saved, let w2 := tag_step w1 (TE_saved 0 (Ok saved)) in
        page_tags (tp_page w2) = saved ∧ dp_saves (tp_page w2) = [] ∧ te_error (tp_editor w2) = None) ∧
     (∀ e, let w2 := tag_step w1 (TE_saved 0 (Throw e)) in
        dp_detail (tp_page w2) = dp_detail p ∧ screen (tp_page w2) = screen p ∧
        dp_saves (tp_page w2) = [] ∧ te_error (tp_editor w2) = Some save_failed)).
Proof.
  intros Hp w w1. pose proof Hp as [Hi Hs Hr _ Hv Hn].
  assert (Et : page_tags p = sessionTags s) by (unfold page_tags; by rewrite Hs).
  unfold w1, w. cbn [tag_step]. unfold add. cbn [tp_page tp_editor]. rewrite Et.
  destruct (checkNewTag (te_draft ed) (sessionTags s)) as [t|why] eqn:E; [right|left; by exists why].
  exists t. set (new := sessionTags s ++ [t]). pose proof (proj1 (checkNewTag_spec _ _ _) E) as (-> & Htag & Hnew & Hlt).
  destruct (detail_tags_begin p s new Hi Hs Hr) as [Eb Es].
  unfold commit. cbn [set_draft tp_page tp_editor te_draft]. fold new. split_and!; try done.
  - destruct Hv as [Hall _ Hd]. unfold new. split.
    + apply Forall_app. split; [done|]. by constructor.
    + rewrite length_app. cbn. lia.
    + rewrite fmap_app. apply NoDup_app. split_and!; [done| |apply NoDup_singleton].
      by intros x Hx ->%list_elem_of_singleton.
  - unfold page_tags. by rewrite Es.
  - rewrite Eb. cbn [dp_set_saves dp_saves]. by rewrite Hn.
  - intros saved. destruct (save_settles p s new saved (plain_error []) Hp) as (H1 & H2 & _).
    cbn [tag_step commit_settled tp_page tp_editor]. split_and!; [|exact H2|].
    + unfold page_tags. by rewrite H1.
    + by destruct (dp_saves _ !! 0%nat).
  - intros e. destruct (save_settles p s new [] e Hp) as (_ & _ & H1 & H2 & H3).
    cbn [tag_step commit_settled tp_page tp_editor]. split_and!; [exact H1 | exact H3 | exact H2 |].
    rewrite Eb. cbn [dp_set_saves dp_saves]. by rewrite Hn.
Qed.

(** Two saves that fail leave a tag that was never saved: when a second tag is added before
    the first save has failed, the second failure puts back the list that the first edit had
    shown, so the first tag stays on screen although the server has neither. *)
Theorem double_failure_keeps_tag p s t u e e' :
  settled_page p s →
  let tags1 := sessionTags s ++ [t] in
  let p1 := detail_tags (tags1 ++ [u]) (detail_tags tags1 p) in
  let failed := detail_tags_finish 0 (Throw e') (detail_tags_finish 0 (Throw e) p1) in
  dp_saves failed = [] ∧ page_tags failed = tags1.
Proof.
  intros [Hi Hs Hr _ _ Hn] tags1.
  destruct (detail_tags_begin p s tags1 Hi Hs Hr) as [E1 S1].
  assert (D1 : dp_id (detail_tags tags1 p) = dp_id p) by (by rewrite E1).
  destruct (detail_tags_begin (detail_tags tags1 p) (with_tags s (Some tags1)) (tags1 ++ [u]))
    as [E2 S2]; [by rewrite D1 | exact S1 | rewrite D1; exact Hr |].
  cbn zeta. rewrite E2. unfold detail_tags_finish at 2.
  assert (Sv : dp_saves (detail_tags tags1 p) = [(dp_id p, tags1, tags s)]).
  { rewrite E1. cbn. by rewrite Hn. }
  rewrite Sv, D1. cbn [dp_set_saves dp_saves app lookup list_lookup].
  unfold detail_tags_finish. cbn. split; [done|].
  unfold page_tags. cbn. rewrite S1. cbn.
  destruct (decide (ApiTypes.id s = dp_id p)) as [_|]; [|done]. cbn.
  destruct (decide (ApiTypes.id s = dp_id p)) as [_|]; [|done]. cbn.
  by destruct (decide (ApiTypes.id s = dp_id p)).
Qed.

(** What the field offers can be entered: a tag of another session that the editor offers is
    accepted as it stands, as long as there is room and the other sessions' tags are valid. *)
Theorem offered_tags_accepted (sessions : list Session) existing t :
  Forall (λ s, valid_tags (sessionTags s)) sessions → (length existing < MAX_TAGS)%nat →
  t ∈ unused (allTags sessions) existing → checkNewTag t existing = TagOk t.
Proof.
  intros Hv Hlt [Hu Ht]%list_elem_of_filter. apply existsb_same_false in Hu.
  destruct (allTags_sound _ _ Ht) as (s & Hs & Hts). rewrite Forall_forall in Hv.
  destruct (Hv s Hs) as [Hall _ _]. rewrite Forall_forall in Hall. specialize (Hall t Hts).
  apply checkNewTag_spec. split_and!; try done. symmetry. apply vt_trimmed. exact Hall.
Qed.

(** ** Facts: the dropdown *)

Lemma filter_iff_in {A} (P Q : A → Prop) `{∀ x, Decision (P x), ∀ x, Decision (Q x)} (l : list A) :
  (∀ x, x ∈ l → P x ↔ Q x) → filter P l = filter Q l.
Proof.
  induction l as [|x l IH]; intros Hl; [done|]. rewrite !filter_cons, IH.
  - pose proof (Hl x ltac:(left)) as Hx. repeat case_decide; tauto.
  - intros y Hy. apply Hl. by right.
Qed.

(** The count on the button is the number of ticked boxes, and of the selected tags: the
    dropdown ticks exactly the tags that filter. *)
Theorem count_is_ticked tags sel :
  let selected := effectiveFilter sel tags in
  filter (λ t, TagFilter_isOn selected t = true) tags = selected ∧
  default 0%nat (fw_count (tag_filter_view true tags selected)) =
    length (filter (λ t, TagFilter_isOn selected t = true) tags).
Proof.
  intros selected.
  assert (E : filter (λ t, TagFilter_isOn selected t = true) tags = selected).
  { unfold selected at 2, effectiveFilter. apply filter_iff_in. intros t Ht.
    unfold TagFilter_isOn. rewrite Is_true_true, !existsb_same. split.
    - intros (a & -> & Ha)%list_elem_of_fmap. by apply elem_of_effectiveFilter in Ha as [_ Ha].
    - intros Hl. apply list_elem_of_fmap_2. by apply elem_of_effectiveFilter. }
  split; [exact E|]. rewrite E. unfold tag_filter_view. cbn [fw_count]. by destruct selected.
Qed.
End editing.

(** ** Witness *)

#[local] Existing Instance ascii_locale.

Definition tagged_session : Session := with_tags (blank_session (js "a1")) (Some [js "web"]).
Definition tagged_page : DetailPage :=
  run detail_step (detail_mount (js "a1")) [DP_load_answer 0 (Ok tagged_session)].

Lemma tagged_page_settled : settled_page tagged_page tagged_session.
Proof.
  split; [discriminate | reflexivity | reflexivity | by intros r ?%not_elem_of_nil | | reflexivity].
  split; [|simpl; unfold MAX_TAGS; lia|apply NoDup_singleton].
  repeat constructor; try done; simpl; unfold MAX_TAG_LENGTH; lia.
Qed.

Lemma typed_tag_witness :
  let w := {| tp_page := tagged_page; tp_editor := {| te_draft := js " api "; te_error := None |} |} in
  let w1 := tag_step w TE_enter in
  page_tags (tp_page w1) = [js "web"; js "api"] ∧
  te_error (tp_editor (tag_step w1 (TE_saved 0 (Throw (plain_error (js "x")))))) = Some save_failed.
Proof.
  destruct (typed_tag_saved_or_reported tagged_page tagged_session
    {| te_draft := js " api "; te_error := None |} tagged_page_settled)
    as [(why & E & _)|(t & Et & _ & _ & Hp & _ & _ & Hf)]; [discriminate E|].
  split.
  - rewrite Hp, Et. reflexivity.
  - apply (Hf (plain_error (js "x"))).
Defined.
