(* ===== verification/EnrollView.v ===== *)
(** * What the enrollment pages show ([pages/RegisterPasskeyPage.tsx], [pages/AddPasskeyPage.tsx])

    The screens of the two devices as data, as in [SessionView], and the code on its way from
    the one to the other: what the new device shows, typed into the old one key by key, is the
    code that the old one submits. *)

From S2P Require Import Prelude Js Models Encoding Crypto Api Enrollment.
#[local] Open Scope Z_scope.
#[local] Open Scope js_scope.

(** ** The new device *)

Record EnrollProgress := {
  ep_code : jsstring;
  ep_expires : option jsstring;
  ep_text : jsstring;
  (** The buttons that create the passkey and that cancel. *)
  ep_create : bool;
  ep_cancel : bool;
}.

Inductive RegisterScreen :=
| RS_start
| RS_progress (p : EnrollProgress)
| RS_nothing.

(** [`${code.slice(0, 4)}-${code.slice(4)}`]. *)
Definition shown_code (code : jsstring) : jsstring := take 4 code ++ js "-" ++ drop 4 code.

Definition register_progress (b : DeviceB) : bool :=
  match b_status b with
  | St_waiting | St_handshaking | St_ready | St_registering | St_error | St_success => true
  | _ => false
  end.

Definition progress_text (b : DeviceB) : jsstring :=
  match b_status b with
  | St_waiting => js "Waiting for other device to connect..."
  | St_handshaking => js "Performing key exchange..."
  | St_ready => js "Connected. Tap below to create your passkey on this device."
  | St_registering => js "Creating passkey..."
  | St_success => js "Passkey registered successfully!"
  | St_error => b_error b
  | _ => []
  end.

(** [expiresAt && timeLeft > 0 && status !== "success"]; a date is always truthy. *)
Definition expiry_text (b : DeviceB) : option jsstring :=
  match b_expiresAt b with
  | Some _ => if (0 <? b_timeLeft b) && negb (bool_decide (b_status b = St_success))
              then Some (js "Expires in: " ++ formatTime (b_timeLeft b)) else None
  | None => None
  end.

Definition register_screen (b : DeviceB) : RegisterScreen :=
  if bool_decide (b_status b = St_idle) then RS_start
  else if register_progress b then
    RS_progress
      {| ep_code := shown_code (b_code b); ep_expires := expiry_text b; ep_text := progress_text b;
         ep_create := bool_decide (b_status b = St_ready);
         ep_cancel := negb (bool_decide (b_status b = St_success)) |}
  else RS_nothing.

(** ** The device that is signed in *)

Record AddScreen := {
  as_code : jsstring;
  as_code_disabled : bool;
  as_error : option jsstring;
  as_progress : option jsstring;
  as_success : bool;
  (** The submit button's text with whether it is disabled, and the cancel button. *)
  as_submit : option (jsstring * bool);
  as_cancel : bool;
}.

Definition isIdleOrError (s : Status) : bool :=
  match s with St_idle | St_error => true | _ => false end.

Definition isInProgress (s : Status) : bool :=
  match s with
  | St_authenticating | St_connecting | St_handshaking | St_transferring => true
  | _ => false
  end.

Definition add_progress (s : Status) : jsstring :=
  match s with
  | St_authenticating => js "Verifying your identity..."
  | St_connecting => js "Connecting to other device..."
  | St_handshaking => js "Performing key exchange..."
  | St_transferring => js "Transferring master key..."
  | _ => []
  end.

Definition add_screen (code : jsstring) (a : DeviceA) : AddScreen :=
  let s := a_status a in
  let busy := negb (isIdleOrError s) && negb (bool_decide (s = St_success)) in
  {| as_code := code; as_code_disabled := negb (isIdleOrError s);
     as_error := truthy (Some (a_error a));
     as_progress := if busy then Some (add_progress s) else None;
     as_success := bool_decide (s = St_success);
     as_submit := if isIdleOrError s
                  then Some (if bool_decide (s = St_error) then js "Retry" else js "Link Device",
                             isInProgress s)
                  else None;
     as_cancel := busy |}.

(** ** Typing the code *)

Section typing.
Context {L : Locale}.

(** One key in the code field of nine characters: [handleCodeChange] on the field's new value;
    the browser takes no character beyond [maxLength]. *)
Definition type_key (field : jsstring) (c : Z) : jsstring :=
  if (length field <? 9)%nat then formatCode (field ++ [c]) else field.

Definition type_text (s : jsstring) : jsstring := foldl type_key [] s.
End typing.

(** ** Facts *)

Section facts.
Context {L : Locale} {HL : LocaleLaws L}.

Abbreviation ascii s := (Forall (λ c, 0 <= c < 128) s).

(** What the field shows, in terms of the code's characters. *)
Definition display (u : jsstring) : jsstring := if (4 <? length u)%nat then shown_code u else u.

Lemma formatCode_display s : formatCode s = display (toUpperCase (cleanCode s)).
Proof. done. Qed.

Lemma length_display u : length (display u) = if (4 <? length u)%nat then S (length u) else length u.
Proof.
  unfold display, shown_code. destruct (4 <? length u)%nat eqn:E; [|done]. zbool.
  rewrite !length_app, length_take, length_drop. change (length (js "-")) with 1%nat. lia.
Qed.

Lemma cleanCode_app s t : cleanCode (s ++ t) = cleanCode s ++ cleanCode t.
Proof. apply filter_app. Qed.

Lemma ascii_clean s : ascii s → ascii (cleanCode s).
Proof. apply Forall_filter. Qed.

Lemma upper_app s t :
  ascii s → ascii t → toUpperCase (s ++ t) = toUpperCase s ++ toUpperCase t.
Proof.
  intros Hs Ht. rewrite !toUpperCase_ascii by (done || by apply Forall_app).
  unfold ascii_upper. apply fmap_app.
Qed.

Lemma upper_length s : ascii s → length (toUpperCase s) = length s.
Proof. intros Hs. rewrite toUpperCase_ascii by done. apply length_fmap. Qed.

Lemma upper_ascii s : ascii s → ascii (toUpperCase s).
Proof.
  intros Hs. rewrite toUpperCase_ascii by done. unfold ascii_upper. apply Forall_fmap.
  eapply Forall_impl; [exact Hs|]. intros c Hc. unfold compose. cbn beta in *.
  case_match eqn:E; zbool; lia.
Qed.

(** A key pressed in a field that shows the characters [cleanCode s] in upper case. *)
Lemma type_key_display s c :
  ascii s → 0 <= c < 128 → (length (cleanCode (s ++ [c])) <= 8)%nat →
  type_key (formatCode s) c = formatCode (s ++ [c]).
Proof.
  intros Hs Hc Hl. set (u := cleanCode s).
  assert (Hu : ascii u) by by apply ascii_clean.
  destruct (formatCode_stable s Hs) as (Hclean & Hidem & _). fold u in Hclean.
  assert (Hadd : formatCode (formatCode s ++ [c]) = formatCode (s ++ [c])).
  { rewrite (formatCode_display (formatCode s ++ [c])), (formatCode_display (s ++ [c])).
    rewrite !cleanCode_app, Hclean. fold u.
    assert (Hcc : ascii (cleanCode [c])) by (apply ascii_clean, Forall_singleton; lia).
    rewrite !upper_app by (done || by apply upper_ascii). by rewrite toUpperCase_idemp. }
  unfold type_key. destruct (length (formatCode s) <? 9)%nat eqn:E; [exact Hadd|]. zbool.
  destruct (decide (c = 45)) as [->|Hne].
  - rewrite (formatCode_display (s ++ [45])), cleanCode_app, formatCode_display. fold u.
    change (cleanCode [45]) with ([] : jsstring). by rewrite app_nil_r.
  - exfalso. rewrite cleanCode_app, length_app in Hl. fold u in Hl.
    assert (E1 : length (cleanCode [c]) = 1%nat).
    { unfold cleanCode. by rewrite filter_cons_True. }
    rewrite E1 in Hl. rewrite formatCode_display in E. fold u in E.
    rewrite length_display, (upper_length u Hu) in E. destruct (4 <? length u)%nat; lia.
Qed.

Lemma type_text_format s :
  ascii s → (length (cleanCode s) <= 8)%nat → type_text s = formatCode s.
Proof.
  unfold type_text. induction s as [|c s IH] using rev_ind; intros Hs Hl; [by rewrite formatCode_display, toUpperCase_ascii|].
  apply Forall_app in Hs as [Hs Hc]. apply Forall_cons in Hc as [Hc _].
  rewrite foldl_snoc, IH; [apply type_key_display; [exact Hs | exact Hc | exact Hl] | exact Hs |].
  rewrite cleanCode_app, length_app in Hl. lia.
Qed.

Lemma shown_code_clean code :
  Forall (λ c, code_char c = true) code → ascii (shown_code code) ∧ cleanCode (shown_code code) = code.
Proof.
  intros Hc.
  assert (Ha : ∀ l, Forall (λ c, code_char c = true) l → ascii l ∧ Forall (λ c, c ≠ 45) l).
  { intros l Hl. split; (eapply Forall_impl; [exact Hl|]; intros c H; unfold code_char in H; zbool; lia). }
  unfold shown_code. rewrite !cleanCode_app. change (cleanCode (js "-")) with ([] : jsstring).
  rewrite app_nil_l, <- cleanCode_app, take_drop. split.
  - destruct (Ha (take 4 code)) as [H1 _]; [by apply Forall_take|].
    destruct (Ha (drop 4 code)) as [H2 _]; [by apply Forall_drop|].
    apply Forall_app; split; [exact H1|]. apply Forall_app; split; [|exact H2].
    change (js "-") with [45]. repeat constructor; lia.
  - by apply cleanCode_id, Ha.
Qed.

(** C15: The code goes over: when the new device shows the server's code of eight letters and
    digits, typing it into the other device key by key, as shown or without the dash, in either
    case, fills the field with what is shown, and submitting sends exactly the server's code. *)
Theorem shown_code_can_be_typed b p s token a :
  register_screen b = RS_progress p →
  length (b_code b) = 8%nat → Forall (λ c, code_char c = true) (b_code b) →
  ascii s → toUpperCase (cleanCode s) = cleanCode (ep_code p) → token ≠ [] →
  type_text s = ep_code p ∧
  (handleSubmit_begin (type_text s) true (Some token) a).1 = Some (b_code b, token).
Proof.
  intros Hb Hlen Hc Hs Hu Ht.
  assert (Ep : ep_code p = shown_code (b_code b)).
  { unfold register_screen in Hb. case_bool_decide; [done|]. destruct (register_progress b); [|done].
    by injection Hb as <-. }
  destruct (shown_code_clean (b_code b) Hc) as [_ Hclean]. rewrite Ep, Hclean in Hu.
  assert (Hlc : length (cleanCode s) = 8%nat).
  { rewrite <- Hlen, <- Hu. symmetry. by apply upper_length, ascii_clean. }
  assert (Et : type_text s = ep_code p).
  { rewrite type_text_format by (done || lia). rewrite formatCode_display, Hu, Ep.
    unfold display. by rewrite Hlen. }
  split; [exact Et|]. rewrite Et, Ep. unfold handleSubmit_begin, valid_code.
  rewrite Hclean, Hlen. cbn [negb a_refs a_update].
  assert (Hv : forallb code_char (b_code b) = true).
  { apply forallb_forall. intros c H. rewrite Forall_forall in Hc. apply Hc. by apply list_elem_of_In. }
  rewrite Hv. cbn [Nat.eqb andb negb]. destruct token as [|c token]; [done|]. done.
Qed.

(** The submit button of the signed-in device is never disabled: while it is on screen nothing
    is in progress; and exactly then the field can be edited. *)
Theorem submit_always_enabled code a text disabled :
  as_submit (add_screen code a) = Some (text, disabled) →
  disabled = false ∧ as_code_disabled (add_screen code a) = false ∧ as_cancel (add_screen code a) = false.
Proof. unfold add_screen. cbn. destruct (a_status a); cbn; by intros [= <- <-]. Qed.
End facts.

(** ** Witness *)

#[local] Existing Instance ascii_locale.

Definition idle_a : DeviceA :=
  {| a_status := St_idle; a_error := []; a_sessionKey := None; a_completed := false;
     a_open := false; a_sent := [] |}.

Lemma shown_code_witness :
  type_text (js "ab1d-2fgh") = js "AB1D-2FGH" ∧
  (handleSubmit_begin (type_text (js "ab1d-2fgh")) true (Some (js "t")) idle_a).1
  = Some (js "AB1D2FGH", js "t").
Proof.
  pose proof (shown_code_can_be_typed (HL := ascii_locale_laws)
    (b_clock (js "AB1D2FGH") None 300 false (b_update St_waiting [] initial_b)) _
    (js "ab1d-2fgh") (js "t") idle_a eq_refl eq_refl) as H.
  apply H; [by repeat constructor | by repeat constructor | by vm_compute | discriminate].
Defined.
