(* ===== verification/AccountViews.v ===== *)
(** * What the account pages show ([pages/HostsPage.tsx], [components/HostForm.tsx],
    [pages/PairPage.tsx], [pages/PasskeyManagementPage.tsx], [pages/LoginPage.tsx],
    [pages/RegisterPage.tsx], [pages/SettingsPage.tsx], [components/NewSessionButton.tsx])

    The screens as data, as in [SessionView]: the texts and controls that depend on the state.
    The passkey page is a machine here, because its dialog and its requests overlap. *)

From S2P Require Import Prelude Js Models ApiTypes Api Accounts Themes SessionCreate.
#[local] Open Scope Z_scope.
#[local] Open Scope js_scope.

(** [error && ...]: a text that is shown unless it is empty. *)
Definition shown_error (e : jsstring) : option jsstring := truthy (Some e).

(** ** The hosts *)

(** The state of a form: each open form has its own. *)
Record HostForm := { fm_fields : HostFields; fm_isLoading : bool; fm_error : jsstring }.

(** A form when it opens. *)
Definition form_open (host : option Host) : HostForm :=
  {| fm_fields := form_init host; fm_isLoading := false; fm_error := [] |}.

Record HostFormView := {
  fv_fields : HostFields;
  fv_disabled : bool;
  fv_error : option jsstring;
  fv_submit : jsstring;
}.

Definition host_form_view (submitLabel : jsstring) (f : HostForm) : HostFormView :=
  {| fv_fields := fm_fields f; fv_disabled := fm_isLoading f;
     fv_error := shown_error (fm_error f);
     fv_submit := if fm_isLoading f then js "Saving..." else submitLabel |}.

(** A row of the table or a card: its texts, the host its Edit opens and the id its Delete
    deletes. *)
Record HostRow := {
  hr_label : jsstring;
  hr_hostname : jsstring;
  hr_created : jsstring;
  hr_edit : Host;
  hr_delete : Z;
}.

Inductive HostsScreen :=
| HS_loading
(** The Add button, the error, the form of a new host, the rows (or the note that there are
    none) and the form of the host being edited. *)
| HS_page (add : bool) (error : option jsstring) (create : option HostFormView)
    (rows : option (list HostRow)) (edit : option HostFormView).

Section screens.
Context (locale_day : jsstring → jsstring).

Definition host_row (h : Host) : HostRow :=
  {| hr_label := host_label h; hr_hostname := host_hostname h;
     hr_created := locale_day (host_created_at h); hr_edit := h; hr_delete := host_id_ h |}.

Definition hosts_screen (s : HostsPage) (createForm editForm : HostForm) : HostsScreen :=
  if h_isLoading s then HS_loading
  else
  HS_page (negb (isCreating s)) (shown_error (h_error s))
    (if isCreating s then Some (host_form_view (js "Create Host") createForm) else None)
    (match hosts s with
     | [] => if isCreating s then Some [] else None
     | l => Some (host_row <$> l)
     end)
    ((λ _, host_form_view (js "Update Host") editForm) <$> editingHost s).

(** The Edit of a row, and the form that opens. *)
Definition press_edit (r : HostRow) (s : HostsPage) : HostsPage * HostForm :=
  (h_open (isCreating s) (Some (hr_edit r)) s, form_open (Some (hr_edit r))).

(** ** Pairing *)

Inductive PairHost :=
| PH_select (value : option Z) (options : list (Z * jsstring))
| PH_new (label hostname : jsstring).

Record PairScreen := {
  ps_code : jsstring;
  ps_host : PairHost;
  ps_error : option jsstring;
  ps_success : bool;
  ps_submit : jsstring;
  ps_disabled : bool;
}.

Definition pair_screen (hosts : list Host) (f : PairForm) (error : jsstring) (success loading : bool)
    : PairScreen :=
  {| ps_code := pf_code f;
     ps_host := if pf_showNewHost f then PH_new (pf_newHostLabel f) (pf_newHostHostname f)
                else PH_select (truthy_id (pf_selectedHostId f))
                       ((λ h, (host_id_ h, host_label h ++ js " (" ++ host_hostname h ++ js ")"))
                        <$> hosts);
     ps_error := shown_error error; ps_success := success;
     ps_submit := if loading then js "Pairing..." else js "Pair Device";
     ps_disabled := loading || success || negb (canPair f) |}.

(** "Create New Host", and "Use Existing Host", which empties the fields. *)
Definition show_new_host (f : PairForm) : PairForm :=
  {| pf_code := pf_code f; pf_selectedHostId := pf_selectedHostId f; pf_showNewHost := true;
     pf_newHostLabel := pf_newHostLabel f; pf_newHostHostname := pf_newHostHostname f |}.
Definition use_existing_host (f : PairForm) : PairForm :=
  {| pf_code := pf_code f; pf_selectedHostId := pf_selectedHostId f; pf_showNewHost := false;
     pf_newHostLabel := []; pf_newHostHostname := [] |}.

(** ** The passkeys *)

Record Passkey := { pk_id : jsstring; pk_created_at : jsstring }.

Record PasskeyPage := {
  kp_passkeys : list Passkey;
  kp_loading : bool;
  kp_adding : bool;
  kp_deletingId : option jsstring;
  kp_error : jsstring;
  kp_supported : bool;
  (** Deletions requested so far, with the list that was on screen when each was chosen. *)
  kp_deleted : list (jsstring * list Passkey);
  kp_chosen : list Passkey;
}.

Definition kp_list (l : list Passkey) (loading : bool) (p : PasskeyPage) : PasskeyPage :=
  {| kp_passkeys := l; kp_loading := loading; kp_adding := kp_adding p;
     kp_deletingId := kp_deletingId p; kp_error := kp_error p; kp_supported := kp_supported p;
     kp_deleted := kp_deleted p; kp_chosen := kp_chosen p |}.
Definition kp_busy (adding : bool) (error : jsstring) (p : PasskeyPage) : PasskeyPage :=
  {| kp_passkeys := kp_passkeys p; kp_loading := kp_loading p; kp_adding := adding;
     kp_deletingId := kp_deletingId p; kp_error := error; kp_supported := kp_supported p;
     kp_deleted := kp_deleted p; kp_chosen := kp_chosen p |}.
Definition kp_dialog (i : option jsstring) (chosen : list Passkey) (p : PasskeyPage) : PasskeyPage :=
  {| kp_passkeys := kp_passkeys p; kp_loading := kp_loading p; kp_adding := kp_adding p;
     kp_deletingId := i; kp_error := kp_error p; kp_supported := kp_supported p;
     kp_deleted := kp_deleted p; kp_chosen := chosen |}.
Definition kp_request (i : jsstring) (p : PasskeyPage) : PasskeyPage :=
  {| kp_passkeys := kp_passkeys p; kp_loading := kp_loading p; kp_adding := kp_adding p;
     kp_deletingId := kp_deletingId p; kp_error := kp_error p; kp_supported := kp_supported p;
     kp_deleted := kp_deleted p ++ [(i, kp_chosen p)]; kp_chosen := kp_chosen p |}.

Definition passkeys_mount (supported : bool) : PasskeyPage :=
  {| kp_passkeys := []; kp_loading := true; kp_adding := false; kp_deletingId := None;
     kp_error := []; kp_supported := supported; kp_deleted := []; kp_chosen := [] |}.

Record PasskeyRow := { kr_text : jsstring; kr_created : jsstring; kr_delete : jsstring; kr_disabled : bool }.

Inductive PasskeyScreen :=
| KS_loading
| KS_page (unsupported : bool) (error : option jsstring) (rows : option (list PasskeyRow))
    (add : jsstring) (add_disabled : bool) (dialog : bool).

(** [formatDate] of the page is the locale's. *)
Definition passkey_row (count : nat) (k : Passkey) : PasskeyRow :=
  {| kr_text := take 8 (pk_id k) ++ js "..."; kr_created := js "Created: " ++ locale_day (pk_created_at k);
     kr_delete := pk_id k; kr_disabled := (count <=? 1)%nat |}.

Definition passkey_screen (p : PasskeyPage) : PasskeyScreen :=
  if kp_loading p then KS_loading
  else
  KS_page (negb (kp_supported p)) (shown_error (kp_error p))
    (match kp_passkeys p with
     | [] => None
     | l => Some (passkey_row (length l) <$> l)
     end)
    (if kp_adding p then js "Adding..." else js "Add Passkey")
    (kp_adding p || negb (kp_supported p))
    (bool_decide (is_Some (truthy (kp_deletingId p)))).

(** The handlers: a row's Delete, when it is enabled, and the dialog's two ways out;
    [KE_delete] is its Delete, whose handler requests the deletion before the dialog closes;
    the rest are the requests' answers. *)
Inductive PasskeyEvent :=
| KE_listed (answer : result (list Passkey))
| KE_choose (row : PasskeyRow)
| KE_close
| KE_delete
| KE_delete_settled (answer : result unit)
| KE_add
| KE_add_settled (answer : result unit).

Definition passkey_step (p : PasskeyPage) (e : PasskeyEvent) : PasskeyPage :=
  match e with
  | KE_listed (Ok l) => kp_list l false p
  | KE_listed (Throw _) => kp_list (kp_passkeys p) false p
  | KE_choose r =>
      match passkey_screen p with
      | KS_page _ _ (Some rows) _ _ _ =>
          if existsb (λ r', bool_decide (kr_delete r' = kr_delete r) && negb (kr_disabled r')) rows
          then kp_dialog (Some (kr_delete r)) (kp_passkeys p) p else p
      | _ => p
      end
  | KE_close => kp_dialog None (kp_chosen p) p
  | KE_delete =>
      match truthy (kp_deletingId p) with
      | Some i => kp_dialog None (kp_chosen p) (kp_request i p)
      | None => p
      end
  | KE_delete_settled (Ok _) => kp_dialog None (kp_chosen p) p
  | KE_delete_settled (Throw e) => kp_dialog None (kp_chosen p) (kp_busy (kp_adding p) (err_message e) p)
  | KE_add =>
      if kp_loading p || kp_adding p || negb (kp_supported p) then p else kp_busy true [] p
  | KE_add_settled (Ok _) => kp_busy false (kp_error p) p
  | KE_add_settled (Throw e) => kp_busy false (err_message e) p
  end.

(** ** Signing in and registering *)

Record SignScreen := {
  ss_unsupported : bool;
  ss_error : option jsstring;
  ss_submit : jsstring;
  ss_disabled : bool;
  (** The link to the other page. *)
  ss_link : option jsstring;
}.

Definition login_screen (supported : bool) (error : jsstring) (loading noUsers : bool) : SignScreen :=
  {| ss_unsupported := negb supported; ss_error := shown_error error;
     ss_submit := if loading then js "Signing in..." else js "Sign in with Passkey";
     ss_disabled := loading || negb supported;
     ss_link := if noUsers then Some (js "/register") else None |}.

Definition register_account_screen (supported : bool) (error : jsstring) (loading : bool) : SignScreen :=
  {| ss_unsupported := negb supported; ss_error := shown_error error;
     ss_submit := if loading then js "Creating account..." else js "Create Account with Passkey";
     ss_disabled := loading || negb supported; ss_link := Some (js "/login") |}.

(** ** The settings *)

Record ThemeOption := {
  to_id : jsstring;
  to_label : jsstring;
  to_swatch : list jsstring;
  to_selected : bool;
}.

Definition settings_screen (theme : jsstring) : list ThemeOption :=
  (λ t, {| to_id := theme_id t; to_label := label t; to_swatch := swatch t;
           to_selected := bool_decide (theme_id t = theme) |}) <$> THEME_LIST.

(** ** The dialog of a new session *)

Inductive HostOption := HO_loading | HO_none | HO_host (id : Z) (text : jsstring).

Record DialogView := {
  dv_options : list HostOption;
  dv_select_disabled : bool;
  dv_name : jsstring;
  dv_error : option jsstring;
  dv_create_disabled : bool;
}.

Definition new_session_view (d : NewSessionDialog) : DialogView :=
  {| dv_options :=
       match nd_hosts d with
       | None => [HO_loading]
       | Some [] => [HO_none]
       | Some hs => (λ h, HO_host (host_id_ h)
                            (match host_label h with [] => host_hostname h | l => l end)) <$> hs
       end;
     dv_select_disabled := negb (bool_decide (is_Some (nd_hosts d)));
     dv_name := nd_name d; dv_error := shown_error (nd_error d);
     dv_create_disabled := match nd_hosts d with None | Some [] => true | _ => false end |}.
End screens.

(** ** Facts *)

Section facts.
Context (locale_day : jsstring → jsstring).

(** A deletion, asked for or under way, was chosen from a list of at least two. *)
Definition one_is_left (i : jsstring) (l : list Passkey) : Prop :=
  i ∈ pk_id <$> l ∧ (2 <= length l)%nat.

Lemma choosable p unsup err rows add dis dialog i :
  passkey_screen locale_day p = KS_page unsup err (Some rows) add dis dialog →
  existsb (λ r, bool_decide (kr_delete r = i) && negb (kr_disabled r)) rows = true →
  one_is_left i (kp_passkeys p).
Proof.
  unfold passkey_screen. destruct (kp_loading p); [done|].
  destruct (kp_passkeys p) as [|k l] eqn:E; [done|]. intros H.
  assert (Hrows : rows = passkey_row locale_day (length (k :: l)) <$> (k :: l)) by congruence.
  subst rows. intros (r & Hr & Hi)%existsb_exists. apply list_elem_of_In, list_elem_of_fmap in Hr as (k' & -> & Hk).
  apply andb_true_iff in Hi as [Hi%bool_decide_eq_true Hd]. unfold passkey_row in Hi, Hd.
  cbn [kr_delete kr_disabled] in Hi, Hd. apply negb_true_iff, Nat.leb_gt in Hd. split; [|lia].
  rewrite <- Hi. by apply list_elem_of_fmap_2.
Qed.

(** The page keeps to its note that an account needs a passkey: whatever the user does and
    in whatever order the server answers, each deletion that the page requests names a passkey
    of the list that was on screen when it was chosen, and that list had another one. *)
Theorem only_passkey_kept supported es :
  let p := run (passkey_step locale_day) (passkeys_mount supported) es in
  Forall (λ d, one_is_left d.1 d.2) (kp_deleted p).
Proof.
  intros p.
  assert (H : Forall (λ d, one_is_left d.1 d.2) (kp_deleted p) ∧
              (∀ i, truthy (kp_deletingId p) = Some i → one_is_left i (kp_chosen p))); [|apply H].
  unfold p. apply run_invariant; [by split|]. clear p. intros p e [Hd Hi].
  destruct e as [[l|e]|r| | |[u|e]| |[u|e]]; cbn [passkey_step]; try done.
  - destruct (passkey_screen locale_day p) as [|unsup err [rows|] add dis dialog] eqn:E; [done| |done].
    destruct (existsb _ rows) eqn:Ex; [|done]. split; [exact Hd|].
    cbn [kp_dialog kp_deletingId kp_chosen]. intros i Hr.
    pose proof (choosable p unsup err rows add dis dialog _ E Ex) as Ho.
    assert (i = kr_delete r) as -> by (destruct (kr_delete r); cbn in Hr; congruence). exact Ho.
  - destruct (truthy (kp_deletingId p)) as [i|] eqn:E; [|by split; [|rewrite E]].
    split; [|done]. cbn [kp_dialog kp_request kp_deleted].
    apply Forall_app. split; [exact Hd|]. apply Forall_singleton. cbn. by apply Hi.
  - by destruct (_ || _).
Qed.

(** The Edit of a row opens that host: the form holds its values, and submitting it as it is
    asks to update that host, with the label and hostname it has. *)
Theorem edit_updates_row s createForm editForm add err create rows edit r :
  hosts_screen locale_day s createForm editForm = HS_page add err create (Some rows) edit →
  r ∈ rows → trim (hr_label r) = hr_label r → hr_label r ≠ [] →
  trim (hr_hostname r) = hr_hostname r → hr_hostname r ≠ [] →
  let '(s1, f) := press_edit r s in
  ∃ input, h_calls (handleSubmit_begin true (fm_fields f) s1)
           = h_calls s ++ [C_updateHost (hr_delete r) input] ∧
    hi_label input = Some (hr_label r) ∧ hi_hostname input = Some (hr_hostname r).
Proof.
  intros Hs Hr Hl Hln Hh Hhn. unfold hosts_screen in Hs. destruct (h_isLoading s); [done|].
  assert (Hrows : match hosts s with [] => if isCreating s then Some [] else None
                  | l => Some (host_row locale_day <$> l) end = Some rows) by congruence.
  clear Hs. assert (∃ h, r = host_row locale_day h) as [h ->].
  { destruct (hosts s) as [|h0 l].
    - destruct (isCreating s); [|done]. injection Hrows as <-. by apply not_elem_of_nil in Hr.
    - assert (rows = host_row locale_day <$> h0 :: l) as -> by congruence.
      apply list_elem_of_fmap in Hr as (h & -> & _). by exists h. }
  cbn [host_row hr_label hr_hostname hr_edit hr_delete press_edit] in *.
  unfold handleSubmit_begin. cbn [form_open fm_fields form_init hf_label hf_hostname].
  rewrite Hl, Hh, !bool_decide_eq_false_2 by done.
  eexists. split; [reflexivity|]. unfold form_input.
  cbn [hi_label hi_hostname hf_label hf_hostname]. by rewrite Hl, Hh.
Qed.

(** The dialog of the Add and the pairing form: the button is enabled exactly when nothing is
    under way and the form can be sent. *)
Theorem pair_button_exact hosts f error success loading :
  ps_disabled (pair_screen hosts f error success loading) = false ↔
  loading = false ∧ success = false ∧ length (pf_code f) = 6%nat ∧
  (is_Some (pf_selectedHostId f) ∨ pf_showNewHost f = true).
Proof.
  cbn [pair_screen ps_disabled]. unfold canPair.
  destruct loading, success; cbn [orb]; [naive_solver..|].
  rewrite negb_false_iff, andb_true_iff, orb_true_iff, bool_decide_eq_true, Nat.eqb_eq. naive_solver.
Qed.
End facts.

(** Exactly one theme is marked, the one in force. *)
Theorem one_theme_selected t :
  t ∈ theme_id <$> THEME_LIST →
  filter (λ o, to_selected o = true) (settings_screen t)
  = filter (λ o, to_id o = t) (settings_screen t) ∧
  length (filter (λ o, to_selected o = true) (settings_screen t)) = 1%nat.
Proof.
  intros Ht. split.
  - unfold settings_screen. generalize THEME_LIST. intros l. induction l as [|x l IH]; [done|].
    rewrite fmap_cons, !filter_cons, IH. cbn [to_selected to_id].
    destruct (decide (theme_id x = t)) as [E|E].
    + by rewrite bool_decide_eq_true_2, decide_True.
    + by rewrite bool_decide_eq_false_2, decide_False.
  - assert (H : forallb (λ u, (length (filter (λ o, to_selected o = true) (settings_screen u)) =? 1)%nat)
                  (theme_id <$> THEME_LIST) = true) by (vm_compute; reflexivity).
    rewrite forallb_forall in H. apply Nat.eqb_eq, H. by apply list_elem_of_In.
Qed.
