(* ===== verification/ServiceWorker.v ===== *)
(** * The service worker ([public/sw.js])

    The cache that makes the application installable and gives it a shell without a network:
    one version of the worker from its installation on, as a machine over the cache storage and
    the requests under way.  A response is opaque; whether its status is in the two hundreds
    and whether the cache accepts it are the environment's. *)

From S2P Require Import Prelude Js SessionList.
#[local] Open Scope Z_scope.
#[local] Open Scope js_scope.

(** ** Requests and caches *)

(** An address as [URL] splits it; the fragment does not reach a cache. *)
Record Url := { u_origin : jsstring; u_pathname : jsstring; u_search : jsstring }.

#[export] Instance Url_eq_dec : EqDecision Url.
Proof. solve_decision. Defined.

#[export] Instance Url_countable : Countable Url.
Proof.
  refine (inj_countable' (λ u, (u_origin u, u_pathname u, u_search u))
    (λ t, {| u_origin := t.1.1; u_pathname := t.1.2; u_search := t.2 |}) _).
  by intros [].
Defined.

Record Request := { req_method : jsstring; req_url : Url; req_navigate : bool }.

Definition CACHE_VERSION : jsstring := js "devsesh-v3".
Definition APP_SHELL : jsstring := js "/index.html".

Definition isStaticAsset (u : Url) : bool :=
  is_prefix (js "/assets/") (u_pathname u) || is_prefix (js "/icons/") (u_pathname u) ||
  is_prefix (js "/fonts/") (u_pathname u) || bool_decide (u_pathname u = js "/manifest.webmanifest").

(** The paths the worker never touches. *)
Definition is_api (u : Url) : bool :=
  is_prefix (js "/api/") (u_pathname u) || is_prefix (js "/ws") (u_pathname u).

Section worker.
Context {Response : Type} (response_ok storable : Response → bool).

(** [caches]: the named caches in the order of their creation. *)
Abbreviation Caches := (list (jsstring * gmap Url Response)).

(** [caches.open]: creates the cache when it is missing. *)
Definition caches_open (name : jsstring) (cs : Caches) : Caches :=
  if decide (name ∈ cs.*1) then cs else cs ++ [(name, ∅)].

(** [cache.put] into the cache of that name. *)
Definition cache_put (name : jsstring) (u : Url) (r : Response) (cs : Caches) : Caches :=
  (λ c, if decide (c.1 = name) then (c.1, <[u := r]> c.2) else c) <$> cs.

(** [caches.match]: the first cache that has the address. *)
Definition caches_match (u : Url) (cs : Caches) : option Response :=
  head (omap (λ c, c.2 !! u) cs).

Definition caches_delete (name : jsstring) (cs : Caches) : Caches := filter (λ c, c.1 ≠ name) cs.

(** ** The worker *)

Inductive Phase := Parsed | Installed | Active | Redundant.

(** What is under way: the [fetch] of a navigation or of an asset, and the storing of an
    answer. *)
Inductive Flight :=
| FL_navigate
| FL_asset (u : Url)
| FL_put (u : Url) (r : Response).

Record Worker := {
  sw_phase : Phase;
  sw_caches : Caches;
  (** Numbered by position; [None] when over. *)
  sw_flights : list (option Flight);
}.

Definition sw_initial (cs : Caches) : Worker :=
  {| sw_phase := Parsed; sw_caches := cs; sw_flights := [] |}.

Definition set_sw_caches (cs : Caches) (w : Worker) : Worker :=
  {| sw_phase := sw_phase w; sw_caches := cs; sw_flights := sw_flights w |}.
Definition set_flight (i : nat) (f : option Flight) (w : Worker) : Worker :=
  {| sw_phase := sw_phase w; sw_caches := sw_caches w; sw_flights := <[i := f]> (sw_flights w) |}.
Definition take_off (f : Flight) (w : Worker) : Worker :=
  {| sw_phase := sw_phase w; sw_caches := sw_caches w; sw_flights := sw_flights w ++ [Some f] |}.

Context (origin : jsstring).

Definition own (path : jsstring) : Url := {| u_origin := origin; u_pathname := path; u_search := [] |}.

(** [cache.addAll([APP_SHELL, "/"])] with the two answers: it fails, and stores nothing, unless
    both are good. *)
Definition addAll (shell root : option Response) (cs : Caches) : option Caches :=
  match shell, root with
  | Some s, Some r =>
      if response_ok s && storable s && response_ok r && storable r
      then Some (cache_put CACHE_VERSION (own (js "/")) r
                   (cache_put CACHE_VERSION (own APP_SHELL) s cs))
      else None
  | _, _ => None
  end.

(** The "install" handler; a worker whose installation fails is thrown away. *)
Definition on_install (shell root : option Response) (w : Worker) : Worker :=
  let cs := caches_open CACHE_VERSION (sw_caches w) in
  match addAll shell root cs with
  | Some cs => {| sw_phase := Installed; sw_caches := cs; sw_flights := sw_flights w |}
  | None => {| sw_phase := Redundant; sw_caches := cs; sw_flights := sw_flights w |}
  end.

(** The "activate" handler: every other cache goes. *)
Definition on_activate (w : Worker) : Worker :=
  let keys := filter (λ k, k ≠ CACHE_VERSION) (sw_caches w).*1 in
  {| sw_phase := Active; sw_caches := foldr caches_delete (sw_caches w) keys;
     sw_flights := sw_flights w |}.

(** What the page gets: left to the browser, an answer, or a network error. *)
Inductive Reply := R_network | R_response (r : Response) | R_failed.

(** The "fetch" handler up to its [fetch]; [None]: the reply comes when that settles. *)
Definition on_fetch (req : Request) (w : Worker) : option Reply * Worker :=
  let url := req_url req in
  if negb (bool_decide (req_method req = js "GET")) then (Some R_network, w)
  else if is_api url then (Some R_network, w)
  else if negb (bool_decide (u_origin url = origin)) then (Some R_network, w)
  else if req_navigate req then (None, take_off FL_navigate w)
  else if isStaticAsset url then
    match caches_match url (sw_caches w) with
    | Some cached => (Some (R_response cached), w)
    | None => (None, take_off (FL_asset url) w)
    end
  else (Some R_network, w).

(** The shell, or what is stored for the root. *)
Definition offline_reply (cs : Caches) : Reply :=
  match caches_match (own APP_SHELL) cs with
  | Some r => R_response r
  | None => match caches_match (own (js "/")) cs with Some r => R_response r | None => R_failed end
  end.

(** A [fetch] settles, with an answer or without; the copy of an answer is being stored. *)
Definition on_settle (i : nat) (net : option Response) (w : Worker) : option Reply * Worker :=
  match sw_flights w !! i with
  | Some (Some FL_navigate) =>
      match net with
      | Some res => (Some (R_response res), set_flight i (Some (FL_put (own APP_SHELL) res)) w)
      | None => (Some (offline_reply (sw_caches w)), set_flight i None w)
      end
  | Some (Some (FL_asset u)) =>
      match net with
      | Some res => (Some (R_response res), set_flight i (Some (FL_put u res)) w)
      | None => (Some R_failed, set_flight i None w)
      end
  | _ => (None, w)
  end.

(** The storing: the cache is opened, and takes the answer if it is one that can be stored. *)
Definition on_put (i : nat) (w : Worker) : Worker :=
  match sw_flights w !! i with
  | Some (Some (FL_put u r)) =>
      let cs := caches_open CACHE_VERSION (sw_caches w) in
      set_flight i None
        (set_sw_caches (if storable r then cache_put CACHE_VERSION u r cs else cs) w)
  | _ => w
  end.

Inductive SwEvent :=
| SW_install (shell root : option Response)
| SW_activate
| SW_fetch (req : Request)
| SW_settle (i : nat) (net : option Response)
| SW_put (i : nat).

(** The browser sends a worker its events in the order of its life; requests only when it is
    active. *)
Definition sw_step (w : Worker) (e : SwEvent) : Worker :=
  match e, sw_phase w with
  | SW_install s r, Parsed => on_install s r w
  | SW_activate, Installed => on_activate w
  | SW_fetch req, Active => (on_fetch req w).2
  | SW_settle i net, _ => (on_settle i net w).2
  | SW_put i, _ => on_put i w
  | _, _ => w
  end.
End worker.

#[export] Instance Phase_eq_dec : EqDecision Phase.
Proof. solve_decision. Defined.

(** ** Facts: the cache storage *)

Section facts.
Context {Response : Type} (response_ok storable : Response → bool) (origin : jsstring).

Abbreviation Caches := (list (jsstring * gmap Url Response)).
Abbreviation step := (sw_step response_ok storable origin).
Abbreviation shell := (own origin APP_SHELL).

Lemma caches_open_other name (cs : Caches) :
  name ∉ cs.*1 → caches_open name cs = cs ++ [(name, ∅)].
Proof. intros H. unfold caches_open. by rewrite decide_False. Qed.

Lemma caches_open_one name (m : gmap Url Response) : caches_open name [(name, m)] = [(name, m)].
Proof. unfold caches_open. rewrite decide_True; [done|]. by left. Qed.

Lemma cache_put_other name u r (cs : Caches) :
  name ∉ cs.*1 → cache_put name u r cs = cs.
Proof.
  induction cs as [|c cs IH]; [done|]. rewrite fmap_cons, not_elem_of_cons. intros [Hc Hcs].
  unfold cache_put in *. rewrite fmap_cons, (IH Hcs), decide_False; [done|congruence].
Qed.

Lemma cache_put_last name u r (cs : Caches) m :
  name ∉ cs.*1 → cache_put name u r (cs ++ [(name, m)]) = cs ++ [(name, <[u := r]> m)].
Proof.
  intros H. unfold cache_put. rewrite fmap_app. f_equal; [by apply (cache_put_other name u r)|].
  cbn. by rewrite decide_True.
Qed.

Lemma cache_put_one name u r (m : gmap Url Response) :
  cache_put name u r [(name, m)] = [(name, <[u := r]> m)].
Proof. apply (cache_put_last name u r []). by intros ?%not_elem_of_nil. Qed.

Lemma caches_match_one name u (m : gmap Url Response) : caches_match u [(name, m)] = m !! u.
Proof. unfold caches_match. cbn. by destruct (m !! u). Qed.

(** Deleting every other cache leaves the worker's own. *)
Lemma activate_caches (cs : Caches) m :
  CACHE_VERSION ∉ cs.*1 →
  foldr caches_delete (cs ++ [(CACHE_VERSION, m)])
    (filter (λ k, k ≠ CACHE_VERSION) (cs ++ [(CACHE_VERSION, m)]).*1) = [(CACHE_VERSION, m)].
Proof.
  intros H.
  assert (Hdel : ∀ ks (l : Caches), foldr caches_delete l ks = filter (λ c, c.1 ∉ ks) l).
  { induction ks as [|k ks IH]; intros l; cbn [foldr].
    - symmetry. apply filter_all. apply Forall_forall. intros c _. apply not_elem_of_nil.
    - rewrite IH. unfold caches_delete. rewrite list_filter_filter. apply list_filter_iff.
      intros c. rewrite not_elem_of_cons. tauto. }
  rewrite Hdel, filter_app, filter_none.
  - rewrite filter_cons_True; [done|]. cbn [fst]. intros [Hk _]%list_elem_of_filter. by apply Hk.
  - apply Forall_forall. intros c Hc Hn. apply Hn. apply list_elem_of_filter. split.
    + intros E. apply H. rewrite <- E. by apply list_elem_of_fmap_2.
    + rewrite fmap_app, elem_of_app. left. by apply list_elem_of_fmap_2.
Qed.

(** ** Facts: what is stored *)

(** The addresses that the worker may have something for. *)
Definition cache_key (u : Url) : Prop :=
  u = shell ∨ u = own origin (js "/") ∨
  (u_origin u = origin ∧ isStaticAsset u = true ∧ is_api u = false).

(** Where a stored answer comes from: the installation, a navigation, or a request for that
    asset. *)
Definition stored_by (es : list (SwEvent (Response := Response))) (u : Url) (r : Response) : Prop :=
  (∃ s t, SW_install (Some s) (Some t) ∈ es ∧
     ((u = shell ∧ r = s) ∨ (u = own origin (js "/") ∧ r = t))) ∨
  (∃ i, SW_settle i (Some r) ∈ es ∧
     (u = shell ∨ ∃ req, SW_fetch req ∈ es ∧ req_url req = u ∧ req_method req = js "GET" ∧
        isStaticAsset u = true)).

Definition flight_key (es : list (SwEvent (Response := Response))) (f : Flight) : Prop :=
  match f with
  | FL_navigate => True
  | FL_asset u => cache_key u ∧
      ∃ req, SW_fetch req ∈ es ∧ req_url req = u ∧ req_method req = js "GET" ∧ isStaticAsset u = true
  | FL_put u r => cache_key u ∧ stored_by es u r
  end.

Record sw_inv (es : list SwEvent) (w : Worker (Response := Response)) : Prop := {
  si_flights f : Some f ∈ sw_flights w → flight_key es f;
  si_stored u r c : c ∈ sw_caches w → c.1 = CACHE_VERSION → c.2 !! u = Some r →
    cache_key u ∧ stored_by es u r;
  si_idle : sw_phase w ≠ Active → sw_flights w = [];
  si_parsed : sw_phase w = Parsed → CACHE_VERSION ∉ (sw_caches w).*1;
  si_installed : sw_phase w = Installed →
    ∃ cs m, sw_caches w = cs ++ [(CACHE_VERSION, m)] ∧ (CACHE_VERSION ∉ cs.*1) ∧
      is_Some (m !! shell);
  si_active : sw_phase w = Active →
    ∃ m, sw_caches w = [(CACHE_VERSION, m)] ∧ is_Some (m !! shell);
}.

Lemma stored_by_mono es es' u r : es ⊆ es' → stored_by es u r → stored_by es' u r.
Proof.
  intros Hs [(s & t & Hi & H)|(i & Hi & H)]; [left|right]; [by eauto 10|].
  exists i. split; [by apply Hs|]. destruct H as [->|(req & Hr & H)]; [by left|]. right. eauto.
Qed.

Lemma sw_inv_mono es es' w : es ⊆ es' → sw_inv es w → sw_inv es' w.
Proof.
  intros Hs [Hf Hst Hi Hp Hin Ha]. split; [|intros u r c Hc Hv Hu|done..].
  - intros f Hin'. specialize (Hf f Hin'). destruct f as [|u|u r]; [done| |].
    + destruct Hf as (Hk & req & Hr & H). split; [done|]. eauto.
    + destruct Hf as [Hk H]. split; [done|]. by eapply stored_by_mono.
  - destruct (Hst u r c Hc Hv Hu). split; [done|]. by eapply stored_by_mono.
Qed.

(** Only an active worker has something under way. *)
Lemma flight_active es w i f : sw_inv es w → sw_flights w !! i = Some f → sw_phase w = Active.
Proof.
  intros Hw Hi. destruct (decide (sw_phase w = Active)) as [|Hn]; [done|].
  by rewrite (si_idle _ _ Hw Hn) in Hi.
Qed.

(** A change of the flights alone, of an active worker. *)
Lemma sw_inv_flights es w fs :
  sw_phase w = Active → sw_inv es w →
  (∀ f, Some f ∈ fs → Some f ∈ sw_flights w ∨ flight_key es f) →
  sw_inv es {| sw_phase := sw_phase w; sw_caches := sw_caches w; sw_flights := fs |}.
Proof.
  intros E [Hf Hst Hi Hp Hin Ha] H. split; cbn; try done.
  intros f Hff. destruct (H f Hff); [by apply Hf|done].
Qed.

Lemma insert_elem {A} (l : list A) i x y : y ∈ <[i := x]> l → y = x ∨ y ∈ l.
Proof.
  intros [j Hj]%list_elem_of_lookup. apply list_lookup_insert_Some in Hj as [(_ & -> & _)|[_ Hj]];
    [by left|right; by eapply list_elem_of_lookup_2].
Qed.

Lemma sw_inv_set_flight es w i f :
  sw_phase w = Active → sw_inv es w → (∀ g, f = Some g → flight_key es g) →
  sw_inv es (set_flight i f w).
Proof.
  intros E Hw H. apply sw_inv_flights; [done..|].
  intros g [Hg|Hg]%insert_elem; [right; by apply H|by left].
Qed.

Lemma cache_key_shell : cache_key shell.
Proof. by left. Qed.

Lemma on_install_inv es w s r :
  sw_phase w = Parsed → sw_inv es w → SW_install s r ∈ es →
  sw_inv es (on_install response_ok storable origin s r w).
Proof.
  intros E [Hf Hst Hi Hp Hin Ha] He. specialize (Hp E). specialize (Hi ltac:(by rewrite E)).
  unfold on_install. rewrite caches_open_other by done. unfold addAll.
  assert (Hold : ∀ m u a c, c ∈ sw_caches w ++ [(CACHE_VERSION, m)] → c.1 = CACHE_VERSION →
                   c.2 !! u = Some a → m !! u = Some a).
  { intros m u a c [Hc| ->%list_elem_of_singleton]%elem_of_app Hv Hu; [|done].
    exfalso. apply Hp. rewrite <- Hv. by apply list_elem_of_fmap_2. }
  assert (Hfail : sw_inv es {| sw_phase := Redundant; sw_caches := sw_caches w ++ [(CACHE_VERSION, ∅)];
                               sw_flights := sw_flights w |}).
  { split; cbn; try done. intros u a c Hc Hv Hu. by specialize (Hold _ _ _ _ Hc Hv Hu). }
  destruct s as [s|]; [|exact Hfail]. destruct r as [r|]; [|exact Hfail].
  destruct (_ && _ && _ && _); [|exact Hfail]. rewrite !cache_put_last by done.
  split; cbn [sw_flights sw_caches sw_phase]; try done.
  - intros u a c Hc Hv Hu. specialize (Hold _ _ _ _ Hc Hv Hu).
    apply lookup_insert_Some in Hold as [[<- <-]|[_ Hold]].
    + split; [right; by left|]. left. exists s, r. by auto.
    + apply lookup_insert_Some in Hold as [[<- <-]|[_ Hold]]; [|done].
      split; [apply cache_key_shell|]. left. exists s, r. by auto.
  - intros _. eexists _, _. split_and!; [done..|]. rewrite lookup_insert_is_Some.
    destruct (decide (own origin (js "/") = shell)); [by left|right; split; [done|]].
    by rewrite lookup_insert_eq.
Qed.

Lemma on_activate_inv es w :
  sw_phase w = Installed → sw_inv es w → sw_inv es (on_activate w).
Proof.
  intros E [Hf Hst Hi Hp Hin Ha]. destruct (Hin E) as (cs & m & Hc & Hn & Hm).
  unfold on_activate. rewrite Hc, activate_caches by done. split; cbn [sw_flights sw_caches sw_phase]; try done.
  - intros u r c Hcc Hv Hu. apply (Hst u r c); [|done..].
    apply list_elem_of_singleton in Hcc as ->. rewrite Hc. apply elem_of_app. right. by left.
  - intros _. by exists m.
Qed.

(** A request that the worker takes over is a same-origin GET outside the API. *)
Lemma on_fetch_taken req (w : Worker (Response := Response)) o w' f :
  on_fetch origin req w = (o, w') → sw_flights w' = sw_flights w ++ [Some f] →
  req_method req = js "GET" ∧ is_api (req_url req) = false ∧ u_origin (req_url req) = origin ∧
  w' = take_off f w ∧
  ((f = FL_navigate ∧ req_navigate req = true) ∨
   (f = FL_asset (req_url req) ∧ isStaticAsset (req_url req) = true ∧
    caches_match (req_url req) (sw_caches w) = None)).
Proof.
  assert (Hsame : sw_flights w = sw_flights w ++ [Some f] → False).
  { intros H. apply (f_equal length) in H. rewrite length_app in H. cbn in H. lia. }
  unfold on_fetch. case_bool_decide as Hg; cbn [negb]; [|intros [= _ <-] H; by destruct (Hsame H)].
  destruct (is_api (req_url req)); [intros [= _ <-] H; by destruct (Hsame H)|].
  case_bool_decide as Ho; cbn [negb]; [|intros [= _ <-] H; by destruct (Hsame H)].
  destruct (req_navigate req) eqn:En.
  - intros [= _ <-] H. cbn in H. apply app_inv_head in H. assert (f = FL_navigate) as -> by congruence.
    split_and!; auto.
  - destruct (isStaticAsset (req_url req)) eqn:Ea; [|intros [= _ <-] H; by destruct (Hsame H)].
    destruct (caches_match (req_url req) (sw_caches w)) eqn:Em;
      [intros [= _ <-] H; by destruct (Hsame H)|].
    intros [= _ <-] H. cbn in H. apply app_inv_head in H.
    assert (f = FL_asset (req_url req)) as -> by congruence. split_and!; auto.
Qed.

(** It does nothing else. *)
Lemma on_fetch_state req (w : Worker (Response := Response)) :
  (on_fetch origin req w).2 = w ∨ ∃ f, (on_fetch origin req w).2 = take_off f w.
Proof.
  unfold on_fetch. repeat case_match; cbn [snd]; eauto.
Qed.

Lemma on_fetch_inv es w req :
  sw_phase w = Active → sw_inv es w → SW_fetch req ∈ es → sw_inv es (on_fetch origin req w).2.
Proof.
  intros E Hw He. destruct (on_fetch origin req w) as [o w'] eqn:Ef. cbn [snd].
  pose proof (on_fetch_state req w) as Hs. rewrite Ef in Hs. cbn [snd] in Hs. destruct Hs as [->|[f ->]]; [done|].
  destruct (on_fetch_taken req w o (take_off f w) f Ef eq_refl) as (Hg & Hapi & Ho & _ & H).
  apply sw_inv_flights; [done..|]. intros g [Hgf|Hgf%list_elem_of_singleton]%elem_of_app; [by left|].
  right. assert (g = f) as -> by congruence. destruct H as [[-> _]|(-> & Ha & _)]; [done|].
  split; [right; right; done|]. by exists req.
Qed.

Lemma on_settle_inv es w i net :
  sw_inv es w → SW_settle i net ∈ es → sw_inv es (on_settle origin i net w).2.
Proof.
  intros Hw He. unfold on_settle. destruct (sw_flights w !! i) as [[f|]|] eqn:Ei; [|done..].
  assert (Hin : Some f ∈ sw_flights w) by by eapply list_elem_of_lookup_2.
  pose proof (flight_active _ _ _ _ Hw Ei) as E.
  pose proof (si_flights _ _ Hw f Hin) as Hk.
  destruct f as [|u|u r]; [| |done]; destruct net as [res|]; cbn [snd];
    (apply sw_inv_set_flight; [done..|]; intros g [= <-]).
  - split; [apply cache_key_shell|]. right. exists i. split; [done|]. by left.
  - destruct Hk as [Hk (req & Hr & Hu & Hg & Ha)]. split; [done|]. right. exists i. split; [done|].
    right. by exists req.
Qed.

Lemma on_put_inv es w i : sw_inv es w → sw_inv es (on_put storable i w).
Proof.
  intros Hw. unfold on_put. destruct (sw_flights w !! i) as [[[| |u r]|]|] eqn:Ei; [done..| |done|done].
  assert (Hin : Some (FL_put u r) ∈ sw_flights w) by by eapply list_elem_of_lookup_2.
  pose proof (flight_active _ _ _ _ Hw Ei) as E.
  destruct (si_active _ _ Hw E) as (m & Hc & Hm). rewrite Hc, caches_open_one.
  apply sw_inv_set_flight; [done| |done].
  destruct (storable r); [|by rewrite <- Hc; destruct w].
  destruct (si_flights _ _ Hw _ Hin) as [Hk Hby]. destruct Hw as [Hf Hst Hi Hp Hinst Ha].
  rewrite cache_put_one. split; cbn [sw_flights sw_caches sw_phase set_sw_caches]; [done| |done|congruence..|].
  - intros u' r' c ->%list_elem_of_singleton _ Hu. cbn [snd] in Hu.
    apply lookup_insert_Some in Hu as [[<- <-]|[_ Hu]]; [done|].
    apply (Hst u' r' (CACHE_VERSION, m)); [rewrite Hc; by left|done..].
  - intros _. eexists. split; [done|]. apply lookup_insert_is_Some'. by right.
Qed.

Lemma sw_step_inv es w e : sw_inv es w → e ∈ es → sw_inv es (step w e).
Proof.
  intros Hw He. destruct e as [s r| |req|i net|i]; cbn [sw_step].
  - destruct (sw_phase w) eqn:E; try done. by apply on_install_inv.
  - destruct (sw_phase w) eqn:E; try done. by apply on_activate_inv.
  - destruct (sw_phase w) eqn:E; try done. by apply on_fetch_inv.
  - destruct (sw_phase w); by apply on_settle_inv.
  - destruct (sw_phase w); by apply on_put_inv.
Qed.

(** Every state of a worker that starts without a cache of its own version. *)
Lemma sw_reachable (cs : Caches) es :
  CACHE_VERSION ∉ cs.*1 → sw_inv es (run step (sw_initial cs) es).
Proof.
  intros Hcs. induction es as [|e es IH] using rev_ind.
  - split; cbn [sw_initial sw_flights sw_caches sw_phase]; try done; [by intros f ?%not_elem_of_nil|].
    intros u r c Hc Hv. exfalso. apply Hcs. rewrite <- Hv. by apply list_elem_of_fmap_2.
  - rewrite run_app. cbn [run foldl]. apply sw_step_inv.
    + eapply sw_inv_mono; [|exact IH]. set_solver.
    + set_solver.
Qed.

(** ** Facts: what pages get *)

Lemma own_shell_not_api u : cache_key u → is_api u = false.
Proof. by intros [->|[->|(_ & _ & H)]]. Qed.


(** The reply of a navigation under way, when its fetch fails. *)
Lemma offline_reply_active es w :
  sw_inv es w → sw_phase w = Active →
  ∃ r, offline_reply origin (sw_caches w) = R_response r ∧ stored_by es shell r ∧
    caches_match shell (sw_caches w) = Some r.
Proof.
  intros Hw E. destruct (si_active _ _ Hw E) as (m & Hc & r & Hr). exists r.
  unfold offline_reply. rewrite Hc, caches_match_one, Hr. split_and!; [done| |done].
  apply (si_stored _ _ Hw shell r (CACHE_VERSION, m)); [rewrite Hc; by left|done..].
Qed.

(** The storing of an answer, in an active worker. *)
Lemma on_put_active es w i u r :
  sw_inv es w → sw_flights w !! i = Some (Some (FL_put u r)) → storable r = true →
  caches_match u (sw_caches (on_put storable i w)) = Some r.
Proof.
  intros Hw Hi Hs. pose proof (flight_active _ _ _ _ Hw Hi) as E.
  destruct (si_active _ _ Hw E) as (m & Hc & _).
  unfold on_put. rewrite Hi, Hs, Hc, caches_open_one, cache_put_one. cbn [set_flight set_sw_caches sw_caches].
  rewrite caches_match_one. apply lookup_insert_eq.
Qed.


(** *** Assets are answered by the first answer *)

(** An active worker that has [r] for [u], with nothing under way for [u]. *)
Record asset_kept (u : Url) (r : Response) (w : Worker (Response := Response)) : Prop := {
  ak_active : sw_phase w = Active;
  ak_cache : ∃ m, sw_caches w = [(CACHE_VERSION, m)] ∧ m !! u = Some r;
  ak_flights f : Some f ∈ sw_flights w → f ≠ FL_asset u ∧ ∀ r', f ≠ FL_put u r';
}.

Lemma asset_kept_flight u r w i f :
  asset_kept u r w → (∀ g, f = Some g → g ≠ FL_asset u ∧ ∀ r', g ≠ FL_put u r') →
  asset_kept u r (set_flight i f w).
Proof.
  intros [Ha Hc Hf] H. split; [done..|]. intros g [Hg|Hg]%insert_elem; [by apply H|by apply Hf].
Qed.

Lemma asset_kept_step u r w e : u ≠ shell → asset_kept u r w → asset_kept u r (step w e).
Proof.
  intros Hu Hk. pose proof Hk as [Ha (m & Hc & Hr) Hf].
  destruct e as [s t| |req|i net|i]; cbn [sw_step]; rewrite ?Ha; [done..| | |].
  - destruct (on_fetch origin req w) as [o w'] eqn:Ef. cbn [snd].
    pose proof (on_fetch_state req w) as Hs. rewrite Ef in Hs. cbn [snd] in Hs.
    destruct Hs as [->|[f ->]]; [done|].
    destruct (on_fetch_taken req w o _ f Ef eq_refl) as (_ & _ & _ & _ & H).
    split; [done|by exists m|]. intros g [Hg|Hg%list_elem_of_singleton]%elem_of_app; [by apply Hf|].
    assert (g = f) as -> by congruence. destruct H as [[-> _]|(-> & _ & Hm)]; [done|].
    split; [|done]. intros [= E]. rewrite E, Hc, caches_match_one in Hm. congruence.
  - unfold on_settle. destruct (sw_flights w !! i) as [[f|]|] eqn:Ei; [|done..].
    assert (Hin : Some f ∈ sw_flights w) by by eapply list_elem_of_lookup_2.
    destruct (Hf f Hin) as [Hfu _].
    destruct f as [|v|v a]; [| |done]; destruct net; cbn [snd]; (apply asset_kept_flight; [done|]);
      intros g [= <-]; (split; [done|congruence]).
  - unfold on_put. destruct (sw_flights w !! i) as [[[| |v a]|]|] eqn:Ei; [done..| |done|done].
    assert (Hin : Some (FL_put v a) ∈ sw_flights w) by by eapply list_elem_of_lookup_2.
    destruct (Hf _ Hin) as [_ Hfu]. rewrite Hc, caches_open_one.
    apply asset_kept_flight; [|done]. split; [done| |exact Hf].
    destruct (storable a); [|by exists m]. rewrite cache_put_one. eexists. split; [done|].
    rewrite lookup_insert_ne; [exact Hr|]. intros ->. by apply (Hfu a).
Qed.

(** What an asset was first answered is what it is answered for ever: once the answer of the
    only request for it is stored, every later request gets that answer, whatever the network
    would say; nothing asks whether the status was good, so an error that met the first request
    stays until the version changes. *)
Theorem first_asset_answer_stays (cs : Caches) es i u r req es' :
  CACHE_VERSION ∉ cs.*1 →
  let w := run step (sw_initial cs) es in
  sw_flights w !! i = Some (Some (FL_asset u)) → u ≠ shell → storable r = true →
  (∀ j f, j ≠ i → sw_flights w !! j = Some (Some f) → f ≠ FL_asset u ∧ ∀ r', f ≠ FL_put u r') →
  req_method req = js "GET" → req_url req = u → req_navigate req = false →
  let w' := run step (run step w [SW_settle i (Some r); SW_put i]) es' in
  on_fetch origin req w' = (Some (R_response r), w').
Proof.
  intros Hcs w Hi Hu Hst Hothers Hget Hurl Hnav w'.
  pose proof (sw_reachable cs es Hcs) as Hw. fold w in Hw.
  pose proof (flight_active _ _ _ _ Hw Hi) as Ea.
  destruct (si_flights _ _ Hw _ (list_elem_of_lookup_2 _ _ _ Hi)) as [Hkey (q & _ & Eq & _ & Hasset)].
  assert (Hlt : (i < length (sw_flights w))%nat) by by eapply lookup_lt_Some.
  destruct (si_active _ _ Hw Ea) as (m & Hc & _).
  assert (Hk : asset_kept u r (run step w [SW_settle i (Some r); SW_put i])).
  { unfold run. cbn [foldl sw_step]. unfold on_settle. rewrite Hi. cbn [snd]. unfold on_put. cbn [set_flight sw_flights sw_caches].
    rewrite list_lookup_insert_eq, Hst, Hc, caches_open_one, cache_put_one by done.
    split; cbn [set_flight set_sw_caches sw_phase sw_caches sw_flights]; [done| |].
    - eexists. split; [done|]. apply lookup_insert_eq.
    - intros f [j Hj]%list_elem_of_lookup. rewrite list_insert_insert_eq in Hj.
      apply list_lookup_insert_Some in Hj as [(_ & [=] & _)|[Hne Hj]]. by apply (Hothers j). }
  assert (Hk' : asset_kept u r w').
  { unfold w'. apply run_invariant; [exact Hk|]. intros x e. by apply asset_kept_step. }
  destruct Hk' as [_ (m' & Hc' & Hr') _].
  assert (Hown : u_origin u = origin) by (by destruct Hkey as [->|[->|(H & _)]]).
  unfold on_fetch. rewrite Hget, Hurl, (own_shell_not_api u Hkey), Hown, Hnav, Hasset, Hc', caches_match_one, Hr'.
  by rewrite !bool_decide_eq_true_2.
Qed.
End facts.

(** ** Witnesses *)

(** A response is its status; the cache takes all but partial content. *)
Definition good_status (s : Z) : bool := (200 <=? s) && (s <=? 299).
Definition not_partial (s : Z) : bool := negb (s =? 206).

Definition here : jsstring := js "https://d.example".
Definition page_request : Request :=
  {| req_method := js "GET"; req_url := own here (js "/dashboard"); req_navigate := true |}.
Definition asset_request : Request :=
  {| req_method := js "GET"; req_url := own here (js "/assets/a.js"); req_navigate := false |}.

(** An installed worker is asked for a page and for an asset. *)
Definition worker_asked : list (SwEvent (Response := Z)) :=
  [SW_install (Some 200) (Some 201); SW_activate; SW_fetch page_request; SW_fetch asset_request].

Definition worker_after (es : list SwEvent) : Worker :=
  run (sw_step good_status not_partial here) (sw_initial [(js "devsesh-v2", ∅)]) es.

Lemma no_own_cache : CACHE_VERSION ∉ [(js "devsesh-v2", (∅ : gmap Url Z))].*1.
Proof. intros H%list_elem_of_singleton. discriminate H. Qed.



Lemma flights_asked :
  sw_flights (worker_after worker_asked)
  = [Some FL_navigate; Some (FL_asset (own here (js "/assets/a.js")))].
Proof. reflexivity. Qed.

(** A gateway's error for an asset is kept: the asset is answered with it when the server is
    back. *)
Lemma asset_error_kept :
  let w := run (sw_step good_status not_partial here) (worker_after worker_asked)
             [SW_settle 1 (Some 502); SW_put 1] in
  on_fetch here asset_request w = (Some (R_response 502), w).
Proof.
  apply (first_asset_answer_stays good_status not_partial here [(js "devsesh-v2", ∅)] worker_asked 1
    (own here (js "/assets/a.js")) 502 asset_request [] no_own_cache);
    [fold (worker_after worker_asked); by rewrite flights_asked | discriminate | reflexivity | | reflexivity..].
  fold (worker_after worker_asked). rewrite flights_asked.
  intros [|[|j]] f Hj Hf; [|done|by destruct j].
  change (Some (Some FL_navigate) = Some (Some f)) in Hf.
  assert (f = FL_navigate) as -> by congruence. done.
Qed.
