(* ===== verification/Devices.v ===== *)
(** * Two devices of one account

    The parts of the key management run one after the other: a user registers on one device
    ([pages/RegisterPage.tsx]), enrolls a second one from it ([pages/AddPasskeyPage.tsx],
    [pages/RegisterPasskeyPage.tsx]), and opens a terminal on the second
    ([components/SSHTerminal.tsx], [contexts/FROSTContext.tsx], [lib/frost-client.ts]).  What
    passes between the parts is what the server keeps: the blobs with the wrapped master key
    and the encrypted share. *)

From S2P Require Import Prelude Js Models ApiTypes Encoding Crypto Api Accounts Enrollment FrostWire Frost FrostWorker WorkerProtocol FrostClient Signing SshClient SshTerminal Unlock.
#[local] Open Scope Z_scope.
#[local] Open Scope js_scope.

Section devices.
Context {NF : NobleFrost} {W : WebCrypto} {L : Locale} {J : Json}.

(** The enrollment with every message delivered: what the existing device and the new one come
    to, when the user of the new one completes the registration. *)
Definition enroll (envA : EnvA) (envB : EnvB) (envR : EnvRegister) (options : json)
    (a : DeviceA) (b : DeviceB) : DeviceA * DeviceB :=
  let b1 := deliver (b_onmessage envB) [JObj [(js "type", JStr (js "peer_connected"))]] b in
  let a1 := deliver (a_onmessage envA) (b_sent b1) a in
  let b2 := b_derived envB (deliver (b_onmessage envB) (take 1 (a_sent a1)) b1) in
  let b3 := deliver (b_onmessage envB) (drop 1 (a_sent a1)) b2 in
  let b4 := b_prefetched (Ok (JObj [(js "publicKey", options)])) b3 in
  let b5 := completeRegistration envR b4 in
  (deliver (a_onmessage envA) (drop 1 (b_sent b5)) a1, b5).

(** The unlock of a terminal with an honest server. *)
Definition certify (config config' : SSHCAConfig) (masterKey : bytes) (browser : Browser)
    (token : jsstring) (x : Exchange) (hostId : Z) (s : System)
    : option (result unit) * option (result CertificateResult) :=
  let '(inited, s1) := initWorker config config' masterKey s in
  let '(_, requested, _) := requestCert browser (Some token) (ex_random x) (ex_privateKey x)
                              (ex_publicKey x) (honest_server x) hostId s1 in
  (inited, requested).
End devices.

Section facts.
Context {NF : NobleFrost} {W : WebCrypto} {HW : WebCryptoLaws W} {L : Locale} {HL : LocaleLaws L}
  {J : Json} {HJ : JsonLaws J} (net : Request → result Response).

(** Two pages that can enroll: the same code in either case, sockets that are open and unused,
    random values of the right size. *)
Record enrolling (envA : EnvA) (envB : EnvB) (a : DeviceA) (b : DeviceB) : Prop := {
  en_rawId : Forall is_byte (ea_rawId envA);
  en_rnd : length (ea_rnd envA) = 12%nat ∧ Forall is_byte (ea_rnd envA);
  en_codeA : Forall (λ c, 0 <= c < 128) (ea_code envA);
  en_codeB : Forall (λ c, 0 <= c < 128) (eb_code envB);
  en_same : toUpperCase (eb_code envB) = toUpperCase (ea_code envA);
  en_a : a_open a = true ∧ a_sent a = [];
  en_b : b_open b = true ∧ b_sent b = [] ∧ b_second b = false;
}.

(** A terminal that can sign: the server's configuration has the uploaded share [s] and the
    public parts of the keys of [share], its side of the exchange is honest, and the token can
    be sent; the worker, if there is one, lives. *)
Record can_sign (share : bytes) (s : jsstring) (config config' : SSHCAConfig)
    (x : Exchange) (token : jsstring) (sys : System) : Prop := {
  cs_uploaded : client_share config = s;
  cs_keys : ∃ keys, k_share keys = share ∧ honest keys x ∧
    decodeBase64 (public_key config') = Ok (k_group keys) ∧
    decodeBase64 (server_verifying_share config') = Ok (k_server keys) ∧
    decodeBase64 (client_verifying_share config') = Ok (k_client keys);
  cs_key : Forall is_byte (ex_privateKey x);
  cs_worker : worker (fst sys) ≠ None → live (snd sys);
  cs_pending : certRequestPromise (fst sys) = None;
  cs_token : token ≠ [] ∧ ∃ e, encodeURIComponent token = Ok e;
}.

Lemma certify_ok config config' masterKey browser token x hostId sys share s e :
  decodeBase64 s = Ok e →
  decrypt masterKey (u8_slice e 0 12) (u8_slice_from e 12) = Ok share →
  can_sign share s config config' x token sys →
  certify config config' masterKey browser token x hostId sys = (Some (Ok tt), Some (Ok (issued x))).
Proof.
  intros He Hd [Hs (keys & Hk & Hh & Hg & Hsv & Hc) _ Hw Hp (Ht & e' & He')]. subst s share.
  destruct (worker_certifies browser token e' config config' masterKey e keys hostId x sys)
    as (s1 & s2 & since & E1 & E2 & _); try done.
  unfold certify. by rewrite E1, E2.
Qed.

(** What the registration leaves with the server, on a page that is signed in. *)
Lemma registration_leaves env email token clientShare cred prf share p m :
  registration net env email token clientShare cred prf →
  (∀ s, answers net (C_updateSSHCAClientShare s) JNull) →
  decodeBase64 clientShare = Ok share → localStorage (pg_browser p) = Some m →
  ∃ prfKey blob s e p', handleRegister net env email p = (Ok tt, p') ∧
    pg_calls p' = pg_calls p ++ [C_registerBegin email;
      C_registerFinish email (credentialJSON env cred) blob; C_updateSSHCAClientShare s] ∧
    deriveMasterKeyFromPrf prf = Ok prfKey ∧ unlockMasterKey prfKey [blob] = Some (rp_masterKey env) ∧
    decodeBase64 s = Ok e ∧
    decrypt (rp_masterKey env) (u8_slice e 0 12) (u8_slice_from e 12) = Ok share.
Proof.
  intros R Hu Hs Hm.
  destruct (register_body_upload net env email token clientShare cred prf share (pg_ui [] true p) m R Hs Hm)
    as (prfKey & blob & s & e & p' & Ek & Eo & De & Ed & Eb & Ec & _ & _ & _ & Ei & _).
  exists prfKey, blob, s, e. eexists. split_and!; [| |exact Ek|by cbn [unlockMasterKey]; rewrite Eo|done..].
  - rewrite handleRegister_supported by apply R. unfold guarded, scatch, sbind. rewrite Eb.
    unfold sbind. rewrite (call_answers _ _ _ _ (Hu s)) by exact Ei. reflexivity.
  - cbn. by rewrite Ec, <- app_assoc.
Qed.

End facts.

(** ** Witness *)

#[local] Existing Instance toy_crypto.
#[local] Existing Instance tree_json_text.
#[local] Existing Instance ascii_locale.

(** What the server's configuration has after the upload of [s]. *)
Definition uploaded_config (s : jsstring) : SSHCAConfig :=
  {| public_key := public_key demo_config; client_share := s;
     server_verifying_share := server_verifying_share demo_config;
     client_verifying_share := client_verifying_share demo_config |}.

(** The existing device, whose passkey has the key [prfKey] and the blob [blob]. *)
Definition first_device (prfKey : bytes) (blob : jsstring) : EnvA :=
  {| ea_code := js "ABCD1234"; ea_keyPair := (7 : PrivateKey); ea_prfKey := Some prfKey;
     ea_rawId := [1; 2]; ea_getMasterKey := λ _, Ok [blob]; ea_rnd := replicate 12 6 |}.

(** The terminal of the new device: its passkey, its blob, and the awaits of [certify]. *)
Definition second_terminal (blob : jsstring)
    (c : option (result unit) * option (result CertificateResult)) : Awaits :=
  {| aw_user := Ok (Some unlock_user);
     aw_loginBegin := λ _, Ok (JObj [(js "publicKey", JObj [(js "challenge", JStr (js "AAAA"))])]);
     aw_get := λ _, Ok (Some {| rawId := [1; 2; 3]; prf_first := Some (replicate 32 5) |});
     aw_getMasterKey := λ _, Ok [blob];
     aw_initWorker := λ _, default (Throw timed_out) c.1;
     aw_requestCert := λ _, default (Throw timed_out) c.2 |}.

Lemma second_reaches blob c : reaches_blobs (second_terminal blob c) unlock_prf_key [blob].
Proof.
  exists (Some unlock_user). do 7 eexists. split_and!; try reflexivity; try (vm_compute; reflexivity).
  discriminate.
Qed.

Lemma demo_enrolling prfKey blob :
  enrolling (first_device prfKey blob) demo_envB demo_deviceA demo_deviceB.
Proof.
  split.
  - repeat constructor; lia.
  - split; [done|by apply Forall_replicate].
  - apply (bool_decide_unpack (Forall (λ c, 0 <= c < 128) (js "ABCD1234"))). vm_compute. exact I.
  - apply (bool_decide_unpack (Forall (λ c, 0 <= c < 128) (js "abcd1234"))). vm_compute. exact I.
  - vm_compute. reflexivity.
  - by split.
  - by split_and!.
Qed.

Lemma demo_registers masterKey : registers demo_envR unlock_prf_key masterKey.
Proof.
  split; [reflexivity| |done|vm_compute; reflexivity|split; [reflexivity|by apply Forall_replicate]..].
  exists {| c_rawId := [4]; c_prf_enabled := true; c_prf := Some (replicate 32 5) |}, (replicate 32 5).
  split_and!; [done|reflexivity|vm_compute; reflexivity|repeat constructor; lia].
Qed.

Lemma demo_can_sign s :
  can_sign demo_share s (uploaded_config s) (uploaded_config s) demo_exchange (js "t") dropped_system.
Proof.
  split; [reflexivity| |repeat constructor; lia|by intros []|reflexivity|].
  - exists demo_keys. destruct demo_opens as [_ H2 H3 H4]. split_and!; [done|exact demo_honest|done..].
  - split; [discriminate|]. exists (js "t"). vm_compute. reflexivity.
Qed.

