(* ===== verification/UnlockDialog.v ===== *)
(** * The dialogs over the terminal ([components/WebAuthnDialog.tsx] and
    [components/PasswordDialog.tsx] inside [components/SSHTerminal.tsx])

    The dialog of [Chrome] and the terminal of [SshTerminal] keep their own state of the same
    authentication: the terminal in React state, the dialog in refs.  Here they run together.
    The alert dialog under them is a package: which callbacks a press runs, and in what order,
    is an interface with its documented answer. *)

From S2P Require Import Prelude Js Models ApiTypes Api FrostClient SshClient SshTerminal Chrome.
#[local] Open Scope Z_scope.
#[local] Open Scope js_scope.

(** ** The alert dialog *)

Inductive Gesture := G_cancel | G_action | G_escape.

(** The [onClick] of its two buttons, and [onOpenChange]. *)
Inductive Callback := CB_cancel | CB_action | CB_open_change (open : bool).

Class AlertDialogPrimitive := { callbacks : Gesture → list Callback }.

(** Both buttons close the dialog after their [onClick]; so does the Escape key. *)
Class AlertDialogLaws (A : AlertDialogPrimitive) := {
  callbacks_cancel : callbacks G_cancel = [CB_cancel; CB_open_change false];
  callbacks_action : callbacks G_action = [CB_action; CB_open_change false];
  callbacks_escape : callbacks G_escape = [CB_open_change false];
}.

(** ** Terminal and dialog *)

Record Unlocking := { ul_term : Term; ul_dialog : WebAuthnDialog }.

(** [error || localError], shown unless empty. *)
Definition displayError (s : Unlocking) : option jsstring :=
  match truthy (webAuthnError (ui (ul_term s))) with
  | Some e => Some e
  | None => truthy (wd_localError (ul_dialog s))
  end.

Record DialogScreen := {
  dg_error : option jsstring;
  (** Whether both buttons are disabled, and the text of the second. *)
  dg_disabled : bool;
  dg_action : jsstring;
}.

(** [None]: closed. *)
Definition dialog_screen (s : Unlocking) : option DialogScreen :=
  let u := ui (ul_term s) in
  if showWebAuthnDialog u then
    Some {| dg_error := displayError s; dg_disabled := webAuthnAuthenticating u;
            dg_action := if webAuthnAuthenticating u then js "Authenticating..." else js "Authenticate" |}
  else None.

(** [onCancel] of the dialog is [handleWebAuthnCancel] of the terminal. *)
Definition cancel_unlock (o : Oracle) (s : Unlocking) : Unlocking :=
  {| ul_term := step (ul_term s) (o, E_webauthn_cancel); ul_dialog := call_onCancel (ul_dialog s) |}.

(** [onOpenChange], with the [onCancel] that it may call. *)
Definition open_change (o : Oracle) (open : bool) (s : Unlocking) : Unlocking :=
  let d := handleOpenChange open (ul_dialog s) in
  {| ul_term := if (wd_cancels d =? wd_cancels (ul_dialog s))%nat then ul_term s
                else step (ul_term s) (o, E_webauthn_cancel);
     ul_dialog := d |}.

Definition callback (o : Oracle) (s : Unlocking) (cb : Callback) : Unlocking :=
  match cb with
  | CB_cancel => cancel_unlock o s
  | CB_action => {| ul_term := step (ul_term s) (o, E_unlock_start);
                    ul_dialog := handleAuthenticate_begin (ul_dialog s) |}
  | CB_open_change b => open_change o b s
  end.

(** A press on the open dialog of a mounted terminal; disabled buttons do nothing. *)
Definition pressable (g : Gesture) (s : Unlocking) : bool :=
  mountedRef (refs (ul_term s)) &&
  match dialog_screen s, g with
  | Some _, G_escape => true
  | Some v, _ => negb (dg_disabled v)
  | None, _ => false
  end.

Definition press_dialog `{AlertDialogPrimitive} (o : Oracle) (g : Gesture) (s : Unlocking) : Unlocking :=
  if pressable g s then foldl (callback o) s (callbacks g) else s.

(** [handleWebAuthnAuth] ends: it catches everything, so the dialog's [await] never throws. *)
Definition unlock_settles (o : Oracle) (u : UnlockOutcome) (s : Unlocking) : Unlocking :=
  if wd_authInProgress (ul_dialog s) then
    {| ul_term := step (ul_term s) (o, E_unlock u);
       ul_dialog := handleAuthenticate_finish (Ok tt) (ul_dialog s) |}
  else s.

(** The events of the terminal that come from the dialog. *)
Definition dialogs_own (e : Event) : bool :=
  match e with E_webauthn_cancel | E_unlock_start | E_unlock _ => true | _ => false end.

Inductive UnlockEvent :=
| UD_press (g : Gesture)
| UD_settled (u : UnlockOutcome)
| UD_term (e : Event).

Definition unlock_step `{AlertDialogPrimitive} (s : Unlocking) (oe : Oracle * UnlockEvent) : Unlocking :=
  let '(o, e) := oe in
  match e with
  | UD_press g => press_dialog o g s
  | UD_settled u => unlock_settles o u s
  | UD_term e => if dialogs_own e then s
                 else {| ul_term := step (ul_term s) (o, e); ul_dialog := ul_dialog s |}
  end.

Definition unlock_mounted (t : Term) : Unlocking := {| ul_term := t; ul_dialog := dialog_initial |}.

(** ** The password dialog over the terminal *)

Record Prompting := { pw_term : Term; pw_dialog : PasswordDialog }.

Record PasswordScreen := {
  ps_username : jsstring;
  ps_password : jsstring;
  ps_error : option jsstring;
}.

Definition password_screen (s : Prompting) : option PasswordScreen :=
  if showPasswordDialog (ui (pw_term s)) then
    Some {| ps_username := default (js "root") (truthy (host_ssh_user <$> host (pw_term s)));
            ps_password := pd_password (pw_dialog s);
            ps_error := truthy (Some (pd_error (pw_dialog s))) |}
  else None.

(** What the user does in the open dialog, and the other events of the terminal. *)
Inductive PromptEvent :=
| PW_type (value : jsstring)
| PW_submit
| PW_cancel
| PW_term (e : Event).

Definition prompts_own (e : Event) : bool :=
  match e with E_password_submit _ | E_password_cancel => true | _ => false end.

Definition prompt_step (s : Prompting) (oe : Oracle * PromptEvent) : Prompting :=
  let '(o, e) := oe in
  let t := pw_term s in
  let open := mountedRef (refs t) && showPasswordDialog (ui t) in
  match e with
  | PW_type v => if open then {| pw_term := t; pw_dialog := {| pd_password := v; pd_error := pd_error (pw_dialog s) |} |}
                 else s
  | PW_submit =>
      if open then
        let '(d, p) := password_submit (pw_dialog s) in
        {| pw_term := match p with Some p => step t (o, E_password_submit p) | None => t end;
           pw_dialog := d |}
      else s
  | PW_cancel => if open then {| pw_term := step t (o, E_password_cancel);
                                 pw_dialog := password_cancel (pw_dialog s) |}
                 else s
  | PW_term e => if prompts_own e then s
                 else {| pw_term := step t (o, e); pw_dialog := pw_dialog s |}
  end.

Definition prompt_mounted (t : Term) : Prompting :=
  {| pw_term := t; pw_dialog := {| pd_password := []; pd_error := [] |} |}.

(** ** Facts: what the terminal leaves alone *)

(** The terminal's flag of an authentication under way. *)
Definition asking (t : Term) : bool := webAuthnAuthenticating (ui t).

(** What only the dialogs and the requests for them change. *)
Definition flags (t : Term) : bool * bool := (showPasswordDialog (ui t), asking t).

Lemma on_status_flags s e t : flags (on_status s e t) = flags t.
Proof.
  unfold on_status, maybeReconnect, put_link, put_status, flags, asking.
  destruct s; repeat case_match; cbn in *; congruence.
Qed.

Lemma report_flags t r : flags (report t r) = flags t.
Proof. unfold report, status_report. case_bool_decide; [|done]. by rewrite on_status_flags. Qed.

Lemma wasm_call_flags o c t : flags (wasm_call o c t) = flags t.
Proof.
  unfold wasm_call. generalize (o c). intros l.
  change (flags t) with (flags (set_client (client t) (log_call c (window t)) t)).
  generalize (set_client (client t) (log_call c (window t)) t). clear.
  induction l as [|r l IH]; intros t; [done|]. cbn [fold_left]. by rewrite IH, report_flags.
Qed.

Lemma doConnect_flags o h t : flags (doConnect o h t).2 = flags t.
Proof.
  unfold doConnect. destruct h as [h|]; [|done]. destruct (negb _); [done|].
  destruct (connect _ _ _ _ _) as [[call|e] c]; cbn [snd]; [by rewrite wasm_call_flags|done].
Qed.

Lemma client_disconnect_flags o k t : flags (client_disconnect o k t) = flags t.
Proof.
  unfold client_disconnect. destruct k; [done|]. destruct (functions _); [|done].
  change (flags (wasm_call o (disconnect (z :: k)) t) = flags t). apply wasm_call_flags.
Qed.

Lemma set_refs_flags r t : flags (set_refs r t) = flags t.
Proof. done. Qed.
Lemma put_link_flags s u a t : flags (put_link s u a t) = flags t.
Proof. done. Qed.
Lemma put_status_flags s t : flags (put_status s t) = flags t.
Proof. done. Qed.
Lemma set_client_flags c w t : flags (set_client c w t) = flags t.
Proof. done. Qed.

Create Rewrite HintDb flags.
#[local] Hint Rewrite wasm_call_flags doConnect_flags client_disconnect_flags set_refs_flags
  put_link_flags put_status_flags set_client_flags : flags.

Lemma recover_begin_flags t : flags (recover_begin t) = flags t.
Proof. unfold recover_begin. by destruct (_ || _). Qed.

Lemma recover_finish_flags o h a t : flags (recover_finish o h a t).2 = flags t.
Proof.
  unfold recover_finish. destruct (negb _); [done|]. destruct (_ && _); [done|].
  autorewrite with flags. by destruct a.
Qed.

Lemma doRestart_flags o t : flags (doRestart o t).2 = flags t.
Proof.
  unfold doRestart. destruct (hostKey t); [done|].
  destruct (decide _); cbn [snd]; by autorewrite with flags.
Qed.

Lemma commit_flags o t : flags (commit o t) = flags t.
Proof.
  unfold commit, connect_effect, attach_effect, unmount. destruct (negb _); [done|].
  set (t1 := set_refs (with_life true _ _) _).
  assert (E1 : flags t1 = flags t) by done.
  assert (Ec : ∀ r t2, (if connect_deps_changed (committed t) (deps t)
                        then if negb (ready (ui t1)) then (Ok tt, t1) else doConnect o (host t1) t1
                        else (Ok tt, t1)) = (r, t2) → flags t2 = flags t).
  { intros r t2 H. destruct (connect_deps_changed _ _), (negb (ready (ui t1)));
      try (injection H as _ <-; exact E1).
    rewrite <- E1. pose proof (doConnect_flags o (host t1) t1) as Hd. by rewrite H in Hd. }
  destruct (if connect_deps_changed _ _ then _ else _) as [r t2]. specialize (Ec r t2 eq_refl).
  destruct r as [u|e]; [|exact Ec]. destruct (attach_deps_changed _ _); [|exact Ec].
  destruct (hostKey t2); [exact Ec|]. destruct (decide _); [|exact Ec].
  by autorewrite with flags.
Qed.

Lemma certificate_finish_flags o a t : flags (certificate_finish o a t) = flags t.
Proof. unfold certificate_finish. case_match; by autorewrite with flags. Qed.

(** The other events: those of the password dialog change its flag, the rest none. *)
Lemma step_flags t o e :
  dialogs_own e = false →
  match e with
  | E_password_request => asking (step t (o, e)) = asking t
  | E_password_submit _ | E_password_cancel =>
      flags (step t (o, e)) = (if mountedRef (refs t) then false else showPasswordDialog (ui t), asking t)
  | _ => flags (step t (o, e)) = flags t
  end.
Proof.
  destruct e; cbn [dialogs_own step]; try done; intros _;
    try (destruct (_ && _); [|done]); try (destruct (mountedRef _); [|done]);
    rewrite ?report_flags, ?commit_flags, ?recover_begin_flags, ?doRestart_flags,
      ?certificate_finish_flags; try done.
  - destruct (init _ _ _) as [[[u|e] c] w]; done.
  - destruct (reconnectTimeout _) as [[due h]|]; [|done]. destruct (due <=? _); [|done].
    unfold retry_fires. destruct (_ || _); [done|]. by autorewrite with flags.
  - unfold recoverOnFocus. destruct (decide _); [done|]. apply recover_begin_flags.
  - destruct (recovering t !! i); [|done]. by rewrite recover_finish_flags.
  - by autorewrite with flags.
  - unfold doDisconnect. cbn zeta. by autorewrite with flags.
  - by case_bool_decide.
  - unfold handlePasswordSubmit. cbn zeta.
    match goal with |- context [set_ui _ ?x] =>
      change (flags (set_ui _ x)) with (false, (flags x).2) end.
    by rewrite wasm_call_flags.
  - unfold handlePasswordCancel. cbn zeta. autorewrite with flags.
    match goal with |- context [set_ui (setShowPasswordDialog false (ui ?x)) ?x] =>
      change (flags (set_ui (setShowPasswordDialog false (ui x)) x)) with (false, (flags x).2) end.
    by autorewrite with flags.
  - by case_bool_decide.
  - destruct answer as [[]|]; done.
Qed.

(** Only the dialog's own events touch the flag. *)
Lemma step_asking t o e : dialogs_own e = false → asking (step t (o, e)) = asking t.
Proof.
  intros He. pose proof (step_flags t o e He) as H.
  change (asking ?x) with (flags x).2. destruct e; try done; by rewrite H.
Qed.

(** ** Facts: one authentication in two places *)

(** The dialog's ref says what the terminal's state says. *)
Definition agree (s : Unlocking) : Prop :=
  wd_authInProgress (ul_dialog s) = asking (ul_term s).

Lemma cancel_asking t o : asking (step t (o, E_webauthn_cancel)) = asking t.
Proof.
  cbn [step]. destruct (mountedRef _); [|done]. unfold handleWebAuthnCancel.
  change (asking ?x) with (flags x).2. by rewrite wasm_call_flags.
Qed.

Lemma cancel_agree o s : agree s → agree (cancel_unlock o s).
Proof. unfold agree, cancel_unlock. cbn [ul_term ul_dialog]. by rewrite cancel_asking. Qed.

Lemma handleOpenChange_asking b d : wd_authInProgress (handleOpenChange b d) = wd_authInProgress d.
Proof. unfold handleOpenChange. by repeat case_match. Qed.

Lemma open_change_agree o b s : agree s → agree (open_change o b s).
Proof.
  unfold agree, open_change. cbn [ul_term ul_dialog]. intros H. rewrite handleOpenChange_asking.
  case_match; [done|]. by rewrite cancel_asking.
Qed.

Lemma unlock_asking t o u : asking (step t (o, E_unlock u)) = false.
Proof. cbn [step]. unfold unlock_finish. by destruct u. Qed.

Section dialog.
Context `{HA : AlertDialogLaws}.

Lemma press_agree o g s : agree s → agree (press_dialog o g s).
Proof.
  intros Hs. unfold press_dialog. destruct (pressable g s) eqn:Hp; [|done].
  apply andb_true_iff in Hp as [Hm _].
  destruct g; rewrite ?callbacks_cancel, ?callbacks_action, ?callbacks_escape; cbn [foldl callback].
  - by apply open_change_agree, cancel_agree.
  - apply open_change_agree. unfold agree. cbn [ul_term ul_dialog step]. by rewrite Hm.
  - by apply open_change_agree.
Qed.

Lemma unlock_step_agree s oe : agree s → agree (unlock_step s oe).
Proof.
  intros Hs. destruct oe as [o [g|u|e]]; cbn [unlock_step]; [by apply press_agree| |].
  - unfold unlock_settles. destruct (wd_authInProgress _); [|done].
    unfold agree. cbn [ul_term ul_dialog]. by rewrite unlock_asking.
  - destruct (dialogs_own e) eqn:He; [done|]. unfold agree. cbn [ul_term ul_dialog].
    rewrite step_asking by done. exact Hs.
Qed.

(** A press while the passkey is being asked for. *)
Lemma press_while_asking o g s :
  agree s → wd_authInProgress (ul_dialog s) = true → press_dialog o g s = s.
Proof.
  intros Hs Hp. unfold press_dialog, pressable, dialog_screen.
  destruct (mountedRef _); [|done]. destruct (showWebAuthnDialog _); [|done]. cbn [andb dg_disabled].
  unfold agree in Hs. rewrite Hp in Hs. unfold asking in Hs. rewrite <- Hs.
  destruct g; [done..|]. rewrite callbacks_escape. cbn [foldl callback].
  unfold open_change, handleOpenChange. rewrite Hp. cbn [negb andb]. rewrite Nat.eqb_refl. by destruct s.
Qed.

(** C17: An unlock that was begun runs to its end, and its end is what the user sees: on every
    run of the page, while the passkey is asked for nothing pressed in the dialog changes
    terminal or dialog, so the program's request is not rejected under it; when it ends well the
    dialog is closed and the program has been given the certificate; when the device has to be
    set up first, the dialog is closed and the browser sent there; when it fails, the dialog is
    as open as it was, shows the failure, and its buttons work again. *)
Theorem unlock_runs_to_its_end t es o :
  asking t = false →
  let s := run unlock_step (unlock_mounted t) es in
  wd_authInProgress (ul_dialog s) = true →
  (∀ o' g, press_dialog o' g s = s) ∧
  (∀ certificate key, let s' := unlock_settles o (U_resolved certificate key) s in
     dialog_screen s' = None ∧
     calls (window (ul_term s')) = calls (window (ul_term s)) ++ [sshResolveCertificate certificate key]) ∧
  (let s' := unlock_settles o U_needs_provision s in
     dialog_screen s' = None ∧
     location_href (browser (ul_term s')) = js "/passkeys/enroll?reason=ssh-provision" ∧
     calls (window (ul_term s')) = calls (window (ul_term s))) ∧
  (∀ stage e, (err_name e ≠ [] ∨ err_message e ≠ []) →
     let s' := unlock_settles o (U_failed stage e) s in
     calls (window (ul_term s')) = calls (window (ul_term s)) ∧
     match dialog_screen s with
     | None => dialog_screen s' = None
     | Some _ => ∃ text, text ≠ [] ∧ dialog_screen s' =
         Some {| dg_error := Some text; dg_disabled := false; dg_action := js "Authenticate" |}
     end).
Proof.
  intros Ht s Hp.
  assert (Hs : agree s).
  { apply (run_invariant unlock_step agree); [done|]. intros x e. apply unlock_step_agree. }
  clearbody s. unfold unlock_settles. rewrite Hp. split; [|split; [|split]].
  - intros o' g. by apply press_while_asking.
  - intros c k. cbn [ul_term step unlock_finish]. split; [done|].
    match goal with |- context [window (set_ui _ ?x)] => change (window (set_ui _ x)) with (window x) end.
    by rewrite wasm_call_window.
  - cbn [ul_term step unlock_finish]. by destruct (browser (ul_term s)).
  - intros stage e He. cbn [ul_term step unlock_finish]. split; [done|].
    set (message := match stage with S_derive_decrypt => _ | _ => _ end).
    assert (Hne : message ≠ []).
    { assert (Hd : match err_name e with [] => err_message e | n => n ++ js ": " ++ err_message e end ≠ []).
      { destruct (err_name e); [by destruct He|done]. }
      unfold message. destruct stage; try exact Hd. destruct (bool_decide _); [discriminate|exact Hd]. }
    clearbody message. unfold dialog_screen, displayError. cbn [ul_term ui set_ui set_dialogs
      showWebAuthnDialog webAuthnAuthenticating webAuthnError].
    destruct (showWebAuthnDialog (ui (ul_term s))); [|done].
    exists message. split; [done|]. by destruct message.
Qed.

(** A dialog that can be pressed. *)
Definition on_screen (s : Unlocking) : Prop :=
  mountedRef (refs (ul_term s)) = true ∧ showWebAuthnDialog (ui (ul_term s)) = true.

Lemma escape_pressable s : on_screen s → pressable G_escape s = true.
Proof. intros [Hm Hd]. unfold pressable, dialog_screen. by rewrite Hm, Hd. Qed.

Lemma cancel_effect t o :
  mountedRef (refs t) = true →
  let t' := step t (o, E_webauthn_cancel) in
  calls (window t') = calls (window t) ++ [sshRejectCertificate] ∧ mountedRef (refs t') = true.
Proof.
  intros Hm. cbn [step]. rewrite Hm. unfold handleWebAuthnCancel. rewrite wasm_call_window. split; [done|].
  match goal with |- mountedRef (refs ?x) = true =>
    assert (Hc : core x = core (set_client (client t) (log_call sshRejectCertificate (window t)) t)) end.
  { rewrite wasm_call_core. done. }
  unfold core in Hc. cbn [set_client refs] in Hc. congruence.
Qed.

(** A failure counts as a success: after an unlock that failed, with its error on screen, the
    first press of Escape does nothing at all, because the dialog takes it for its own closing;
    only the second one cancels. *)
Theorem failed_unlock_drops_close s o o1 o2 stage e :
  on_screen s → wd_authInProgress (ul_dialog s) = true →
  let s1 := unlock_settles o (U_failed stage e) s in
  let s2 := press_dialog o1 G_escape s1 in
  let s3 := press_dialog o2 G_escape s2 in
  ul_term s2 = ul_term s1 ∧ on_screen s2 ∧
  calls (window (ul_term s3)) = calls (window (ul_term s)) ++ [sshRejectCertificate].
Proof.
  intros [Hm Hd] Hp s1 s2 s3.
  assert (H1 : on_screen s1).
  { unfold s1, unlock_settles. rewrite Hp. by split. }
  assert (E1 : wd_authInProgress (ul_dialog s1) = false ∧ wd_authSucceeded (ul_dialog s1) = true).
  { unfold s1, unlock_settles. by rewrite Hp. }
  assert (Ec : calls (window (ul_term s1)) = calls (window (ul_term s))).
  { unfold s1, unlock_settles. by rewrite Hp. }
  assert (E2 : ul_term s2 = ul_term s1 ∧ wd_authInProgress (ul_dialog s2) = false ∧
               wd_authSucceeded (ul_dialog s2) = false).
  { unfold s2, press_dialog. rewrite (escape_pressable s1 H1), callbacks_escape.
    cbn [foldl callback open_change ul_term ul_dialog]. unfold handleOpenChange.
    destruct E1 as [-> ->]. cbn [negb andb wd_cancels]. by rewrite Nat.eqb_refl. }
  destruct E2 as (Et & Ei & Es).
  assert (H2 : on_screen s2) by (unfold on_screen; rewrite Et; exact H1).
  split_and!; [exact Et | exact H2 |].
  unfold s3, press_dialog. rewrite (escape_pressable s2 H2), callbacks_escape.
  cbn [foldl callback open_change ul_term ul_dialog]. unfold handleOpenChange.
  rewrite Ei, Es. cbn [negb andb call_onCancel wd_cancels].
  rewrite (proj2 (Nat.eqb_neq _ _)) by lia.
  destruct (cancel_effect (ul_term s2) o2 (proj1 H2)) as [-> _]. by rewrite Et, Ec.
Qed.

(** "Use Password Instead" cancels twice: its own press and the closing of the dialog each
    reject the program's request, unless a settled unlock has the second one dropped. *)
Theorem cancel_rejects_twice s o :
  on_screen s → agree s → wd_authInProgress (ul_dialog s) = false →
  calls (window (ul_term (press_dialog o G_cancel s))) = calls (window (ul_term s)) ++
    (if wd_authSucceeded (ul_dialog s) then [sshRejectCertificate]
     else [sshRejectCertificate; sshRejectCertificate]).
Proof.
  intros [Hm Hd] Ha Hp. unfold press_dialog, pressable, dialog_screen.
  unfold agree, asking in Ha. rewrite Hp in Ha. rewrite Hm, Hd, <- Ha, callbacks_cancel.
  cbn [andb negb dg_disabled foldl callback]. unfold open_change, cancel_unlock.
  cbn [ul_term ul_dialog]. unfold handleOpenChange. cbn [call_onCancel wd_authInProgress wd_authSucceeded].
  destruct (cancel_effect (ul_term s) o Hm) as [E1 M1].
  rewrite Hp. destruct (wd_authSucceeded (ul_dialog s)); cbn [negb andb wd_cancels call_onCancel].
  - by rewrite Nat.eqb_refl.
  - rewrite (proj2 (Nat.eqb_neq _ _)) by lia.
    destruct (cancel_effect _ o M1) as [E2 _]. by rewrite E2, E1, <- app_assoc.
Qed.
End dialog.

(** ** Facts: the password *)

(** Nothing but the dialog itself closes it. *)
Lemma step_keeps_prompt t o e :
  prompts_own e = false → showPasswordDialog (ui t) = true →
  showPasswordDialog (ui (step t (o, e))) = true.
Proof.
  intros He Ht. change (showPasswordDialog (ui ?x)) with (flags x).1 in *.
  destruct (dialogs_own e) eqn:Hd.
  - destruct e; try done; cbn [step].
    + destruct (mountedRef _); [|done]. unfold handleWebAuthnCancel. by rewrite wasm_call_flags.
    + by destruct (mountedRef _).
    + destruct outcome; [|done..]. cbn [unlock_finish].
      match goal with |- context [set_ui _ ?x] => change (flags (set_ui _ x)).1 with (flags x).1 end.
      by rewrite wasm_call_flags.
  - pose proof (step_flags t o e Hd) as H. destruct e; try done; try (by rewrite H).
    cbn [step]. by case_bool_decide.
Qed.

(** A password that was typed is in the dialog only as long as the dialog is on screen. *)
Definition password_shown (s : Prompting) : Prop :=
  showPasswordDialog (ui (pw_term s)) = true ∨ pd_password (pw_dialog s) = [].

Lemma prompt_step_shown s oe : password_shown s → password_shown (prompt_step s oe).
Proof.
  intros Hs. destruct oe as [o [v| | |e]]; cbn [prompt_step].
  - destruct (_ && _) eqn:Ho; [|done]. left. by apply andb_true_iff in Ho as [_ Ho].
  - destruct (_ && _) eqn:Ho; [|done]. apply andb_true_iff in Ho as [_ Ho]. unfold password_submit.
    case_bool_decide; [by left|by right].
  - destruct (_ && _); [|done]. by right.
  - destruct (prompts_own e) eqn:He; [done|]. destruct Hs as [Hs|Hs]; [|by right].
    left. by apply step_keeps_prompt.
Qed.

Lemma password_call t o p :
  mountedRef (refs t) = true →
  calls (window (step t (o, E_password_submit p))) = calls (window t) ++ [sshResolvePassword p].
Proof.
  intros Hm. cbn [step]. rewrite Hm. unfold handlePasswordSubmit. cbn zeta.
  match goal with |- context [set_ui _ ?x] => change (window (set_ui _ x)) with (window x) end.
  by rewrite wasm_call_window.
Qed.

(** C18: A password goes to the program and stays nowhere: on every run of the page the dialog
    holds a password only while it is on screen; submitting one that is not blank hands the
    program exactly what was typed, once, closes the dialog and empties it; a blank one is
    refused with a message and nothing is handed over; cancelling closes and empties it too. *)
Theorem password_handed_over_once t es o :
  showPasswordDialog (ui t) = false →
  let s := run prompt_step (prompt_mounted t) es in
  (password_screen s = None → pd_password (pw_dialog s) = []) ∧
  (∀ v, password_screen s = Some v → mountedRef (refs (pw_term s)) = true →
     let s1 := prompt_step s (o, PW_submit) in
     let s2 := prompt_step s (o, PW_cancel) in
     (if bool_decide (trim (ps_password v) = []) then
        pw_term s1 = pw_term s ∧
        password_screen s1 = Some {| ps_username := ps_username v; ps_password := ps_password v;
                                     ps_error := Some (js "Password is required") |}
      else
        password_screen s1 = None ∧ pd_password (pw_dialog s1) = [] ∧
        calls (window (pw_term s1)) = calls (window (pw_term s)) ++ [sshResolvePassword (ps_password v)]) ∧
     password_screen s2 = None ∧ pd_password (pw_dialog s2) = []).
Proof.
  intros Ht s.
  assert (Hs : password_shown s).
  { apply (run_invariant prompt_step password_shown); [by right|]. intros x e. apply prompt_step_shown. }
  clearbody s. unfold password_screen. split.
  - destruct (showPasswordDialog (ui (pw_term s))) eqn:E; [done|]. intros _. unfold password_shown in Hs.
    rewrite E in Hs. by destruct Hs.
  - intros v Hv Hm. destruct (showPasswordDialog (ui (pw_term s))) eqn:Ed; [|done]. injection Hv as <-.
    cbn [ps_password ps_username].
    pose proof (step_flags (pw_term s) o E_password_cancel eq_refl) as Hc. cbn iota in Hc.
    assert (Hf : ∀ p, flags (step (pw_term s) (o, E_password_submit p)) = (false, asking (pw_term s))).
    { intros p. pose proof (step_flags (pw_term s) o (E_password_submit p) eq_refl) as H. cbn iota in H.
      by rewrite H, Hm. }
    assert (Hp : ∀ x, showPasswordDialog (ui x) = (flags x).1) by done.
    cbn [prompt_step]. rewrite Hm, Ed. cbn [andb pw_term pw_dialog password_cancel pd_password].
    rewrite (Hp (step _ (o, E_password_cancel))), Hc, Hm. cbn [fst]. split; [|done].
    unfold password_submit. case_bool_decide as Hb; cbn [pw_term pw_dialog pd_password pd_error].
    + by rewrite Ed.
    + rewrite Hp, Hf. cbn [fst]. split_and!; [done..|]. by apply password_call.
Qed.

(** ** Witness *)

(** The package as documented. *)
#[export] Instance alert_dialog : AlertDialogPrimitive :=
  {| callbacks g := match g with
                    | G_cancel => [CB_cancel; CB_open_change false]
                    | G_action => [CB_action; CB_open_change false]
                    | G_escape => [CB_open_change false]
                    end |}.

#[export] Instance alert_dialog_laws : AlertDialogLaws alert_dialog.
Proof. by split. Qed.

(** An open terminal whose worker is gone when the certificate is asked for, and whose user
    presses Authenticate. *)
Definition silent : Oracle := λ _, [].
Definition asked_to_unlock : list (Oracle * UnlockEvent) :=
  [(silent, UD_term (E_certificate_alive (Ok false))); (silent, UD_press G_action)].

Lemma unlock_runs_witness :
  let s := run unlock_step (unlock_mounted demo_open) asked_to_unlock in
  press_dialog silent G_escape s = s ∧
  calls (window (ul_term (unlock_settles silent (U_resolved (js "c") (js "k")) s)))
  = calls (window (ul_term s)) ++ [sshResolveCertificate (js "c") (js "k")].
Proof.
  destruct (unlock_runs_to_its_end (A := alert_dialog) demo_open asked_to_unlock silent eq_refl eq_refl)
    as (Hpress & Hok & _).
  split; [apply Hpress | apply (proj2 (Hok (js "c") (js "k")))].
Defined.

(** The failure that swallows Escape does happen. *)
Lemma failed_unlock_reached :
  on_screen (run unlock_step (unlock_mounted demo_open) asked_to_unlock) ∧
  wd_authInProgress (ul_dialog (run unlock_step (unlock_mounted demo_open) asked_to_unlock)) = true.
Proof. by split; [split|]. Qed.

(** A password prompt with a typed password. *)
Lemma password_witness :
  let s := run prompt_step (prompt_mounted demo_open)
             [(silent, PW_term E_password_request); (silent, PW_type (js "hunter 2"))] in
  pd_password (pw_dialog (prompt_step s (silent, PW_submit))) = [] ∧
  calls (window (pw_term (prompt_step s (silent, PW_submit))))
  = calls (window (pw_term s)) ++ [sshResolvePassword (js "hunter 2")].
Proof.
  destruct (password_handed_over_once demo_open
    [(silent, PW_term E_password_request); (silent, PW_type (js "hunter 2"))] silent eq_refl) as [_ H].
  specialize (H {| ps_username := js "me"; ps_password := js "hunter 2"; ps_error := None |}
    ltac:(vm_compute; reflexivity) ltac:(vm_compute; reflexivity)).
  cbn zeta in H. destruct H as [H _].
  rewrite bool_decide_eq_false_2 in H by (vm_compute; discriminate).
  destruct H as (_ & H1 & H2). split; [exact H1|exact H2].
Defined.
