(* ===== verification/Lock.v ===== *)
(** * Locking the share: termination and logout

    [terminate] of [lib/frost-client.ts] and of [contexts/FROSTContext.tsx] run by the client and
    its worker, as [Signing] and [Unlock] run the rest; and the whole tab, of which [logout] of
    [contexts/AuthContext.tsx] changes only a part: the storage and the context of the user. *)

From S2P Require Import Prelude Js Memory Models ApiTypes Api Accounts FrostWire Frost FrostWorker WorkerProtocol FrostClient Signing Unlock.
#[local] Open Scope Z_scope.
#[local] Open Scope js_scope.

Section terminate.
Context {NF : NobleFrost}.

(** [terminate] of the client when [ms] pass after the worker had its chance to answer; [None]:
    still waiting.  The request may be refused: the worker is dropped all the same. *)
Definition terminate (ms : Z) (s : System) : option (result unit) * System :=
  match terminate_begin (fst s) with
  | (None, c) => (Some (Ok tt), (c, snd s))
  | (Some r, c) =>
      match await_reply r ms (fst s) c (snd s) with
      | (R_pending, s) => (None, s)
      | (_, s) => let '(a, c) := terminate_finish (fst s) in (Some a, (c, snd s))
      end
  end.

(** ** Facts *)

(** A worker that is closed has nothing left. *)
Lemma closed_cleared t0 es :
  let w := run step (initial_world t0) es in
  closed w = true → pr_signer (protocol_of w) = None.
Proof.
  intros w. subst w. induction es as [|e es IH] using rev_ind; [done|].
  rewrite run_app. pose proof (reachable_inv t0 es) as I.
  set (w := run step (initial_world t0) es) in *. change (run step w [e]) with (step w e).
  unfold step. destruct (closed w) eqn:Hc; [intros _; exact (IH eq_refl)|]. destruct e as [m|ms|t].
  - destruct (onmessage_simulates m w I) as [Hp _]. intros H.
    change (closed (onmessage m w)) with (pr_closed (protocol_of (onmessage m w))) in H.
    rewrite Hp in H |- *.
    assert (Ho : m ≠ M_terminate → pr_closed (answer m (protocol_of w)).1 = false)
      by (intros Hm; by rewrite answer_open).
    destruct m; try done; rewrite Ho in H; done.
  - cbn [closed]. congruence.
  - destruct (timers w !! t) as [due|]; [|congruence].
    destruct (due <=? now w); [|congruence]. intros _. by rewrite terminate_finished.
Qed.

(** A worker that is up or dead, asked to terminate: the request settles, and with it the
    client drops its worker. *)
Lemma terminate_drops ms c w i :
  worker c = Some i → worker_inv w → 5000 <= ms →
  ∃ c', terminate ms (c, w) = (Some (Ok tt), (c', FrostWorker.step w (E_message M_terminate))) ∧
        worker c' = None ∧ isInitialized c' = false ∧ initTime c' = None ∧
        certRequestPromise c' = certRequestPromise c.
Proof.
  intros Hi Hw Hms. unfold terminate, terminate_begin. cbn [fst snd]. rewrite Hi.
  destruct (closed w) eqn:Hc.
  - pose proof (await_dead M_terminate 5000 ms c w i Hi Hc Hms) as H.
    destruct (sendToWorker M_terminate 5000 c) as [r c1].
    destruct H as (c2 & -> & H1 & _ & H2). cbn [fst snd]. unfold terminate_finish. rewrite H1.
    unfold FrostWorker.step. rewrite Hc. eexists. by split.
  - pose proof (await_live M_terminate 5000 ms c w i Hi (conj Hw Hc)) as H.
    destruct (sendToWorker M_terminate 5000 c) as [r c1]. cbn [answer snd settlement] in H.
    destruct H as (c2 & -> & H1 & _ & H2). cbn [fst snd]. unfold terminate_finish. rewrite H1.
    eexists. by split.
Qed.

(** C8: Terminating erases the share: whatever the worker went through, [terminate] ends, within
    the five seconds of its request, without an error; the worker is closed and holds no keys and
    no nonces, and every buffer that it still held is all zeros; the client has no worker, is not
    active, shows no time left, and refuses to request a certificate until the next unlock. *)
Theorem termination_erases_share ms c i t0 es token :
  worker c = Some i → 5000 <= ms →
  let w := run step (initial_world t0) es in
  ∃ c' w', terminate ms (c, w) = (Some (Ok tt), (c', w')) ∧
    closed w' = true ∧ pr_signer (protocol_of w') = None ∧
    (closed w = false → ∀ a, Some a ∈ refs (ws w) → zeroed (store w') a) ∧
    worker c' = None ∧ isActive c' = false ∧ getRemainingTime c' = 0 ∧
    requestCertificate token c' = (Throw (plain_error (js "FROST client not initialized")), c').
Proof.
  intros Hi Hms w.
  destruct (terminate_drops ms c w i Hi (reachable_inv t0 es) Hms) as (c' & E & H1 & H2 & H3 & _).
  assert (Ha : isActive c' = false) by (unfold isActive; by rewrite H2).
  exists c', (FrostWorker.step w (E_message M_terminate)). split; [exact E|].
  assert (Hs : FrostWorker.step w (E_message M_terminate) = if closed w then w else handleTerminate w)
    by done.
  rewrite Hs. split_and!; [| | | exact H1 | exact Ha | |].
  - destruct (closed w) eqn:Hc; [exact Hc | by apply handleTerminate_ws].
  - destruct (closed w) eqn:Hc; [by apply closed_cleared | by rewrite terminate_finished].
  - intros -> a. apply handleTerminate_zeroes.
  - unfold getRemainingTime. by rewrite H3.
  - unfold requestCertificate. by rewrite Ha.
Qed.
End terminate.

(** ** The tab *)

(** What outlives a change of the page in a tab: the browser's storage, the context of the user
    and the FROST client with its worker. *)
Record Tab := { tab_browser : Browser; tab_auth : AuthState; tab_frost : System }.

(** [login] and [logout] of the context of the user; the FROST context is not told. *)
Definition in_tab (m : BM AuthState) (t : Tab) : result unit * Tab :=
  match m (tab_browser t) with
  | (Ok a, b) => (Ok tt, {| tab_browser := b; tab_auth := a; tab_frost := tab_frost t |})
  | (Throw e, b) => (Throw e, {| tab_browser := b; tab_auth := tab_auth t; tab_frost := tab_frost t |})
  end.

Section tab.
Context {NF : NobleFrost} {J : Json}.

Definition login (newToken : jsstring) (newUser : json) : Tab → result unit * Tab :=
  in_tab (auth_login newToken newUser).

Definition logout : Tab → result unit * Tab := in_tab auth_logout.

(** [terminate] of the FROST context, where the tab has one. *)
Definition tab_terminate (ms : Z) (t : Tab) : option (result unit) * Tab :=
  let '(r, s) := terminate ms (tab_frost t) in
  (r, {| tab_browser := tab_browser t; tab_auth := tab_auth t; tab_frost := s |}).

Lemma logout_ok t m :
  localStorage (tab_browser t) = Some m →
  logout t = (Ok tt,
    {| tab_browser := set_storage (Some (delete (js "user") (delete (js "token") m))) (tab_browser t);
       tab_auth := {| auth_user := None; auth_token := None |}; tab_frost := tab_frost t |}).
Proof.
  intros Hm. unfold logout, in_tab, auth_logout, removeItem, sbind. rewrite Hm. reflexivity.
Qed.

Lemma login_ok token user t m :
  localStorage (tab_browser t) = Some m →
  login token user t = (Ok tt,
    {| tab_browser := set_storage (Some (<[js "user" := JSON_stringify user]> (<[js "token" := token]> m)))
                        (tab_browser t);
       tab_auth := {| auth_user := Some user; auth_token := Some token |}; tab_frost := tab_frost t |}).
Proof.
  intros Hm. unfold login, in_tab, auth_login, setItem, sbind. rewrite Hm. reflexivity.
Qed.

(** Logging out closes the pages of the account and keeps the unlocked share: the next user who
    signs in within the tab finds the client active, and its worker holds the same keys. *)
Theorem logout_keeps_share t m token user :
  localStorage (tab_browser t) = Some m → token ≠ [] →
  let t1 := (logout t).2 in
  let t2 := (login token user t1).2 in
  ProtectedRoute (tab_browser t1) = Ok (Some (js "/login")) ∧
  isAuthenticated (tab_auth t1) = false ∧
  ProtectedRoute (tab_browser t2) = Ok None ∧ auth_token (tab_auth t2) = Some token ∧
  tab_frost t2 = tab_frost t.
Proof.
  intros Hm Ht t1 t2. subst t2 t1. rewrite (logout_ok t m Hm). cbn [snd].
  rewrite (login_ok token user _ (delete (js "user") (delete (js "token") m))) by reflexivity.
  cbn [snd tab_browser tab_auth]. split_and!; try done.
  - unfold ProtectedRoute. cbn [set_storage localStorage storage_get rbind].
    rewrite lookup_delete_ne by done. by rewrite lookup_delete_eq.
  - unfold ProtectedRoute. cbn [set_storage localStorage storage_get rbind].
    rewrite lookup_insert_ne by done. rewrite lookup_insert_eq. by destruct token.
Qed.

(** Terminating first is what locks the tab: then the next user has to unlock. *)
Theorem terminated_logout_locks ms t m i t0 es token user :
  localStorage (tab_browser t) = Some m → token ≠ [] → 5000 <= ms →
  worker (fst (tab_frost t)) = Some i → snd (tab_frost t) = run step (initial_world t0) es →
  let t' := (login token user (logout (tab_terminate ms t).2).2).2 in
  isActive (fst (tab_frost t')) = false ∧ pr_signer (protocol_of (snd (tab_frost t'))) = None.
Proof.
  intros Hm Ht Hms Hi Hw t'. destruct t as [b a [c w]]. cbn [fst snd tab_frost tab_browser] in *. subst w.
  destruct (terminate_drops ms c _ i Hi (reachable_inv t0 es) Hms) as (c' & E & H1 & H2 & _).
  subst t'. unfold tab_terminate. cbn [tab_frost tab_browser tab_auth]. rewrite E. cbn [snd].
  rewrite (logout_ok _ m) by exact Hm. cbn [snd].
  rewrite (login_ok token user _ (delete (js "user") (delete (js "token") m))) by reflexivity.
  cbn [snd tab_frost fst].
  split; [unfold isActive; by rewrite H2|].
  unfold step. destruct (closed _) eqn:Hc; [by apply closed_cleared|].
  change (onmessage M_terminate ?w) with (handleTerminate w). by rewrite terminate_finished.
Qed.
End tab.

(** ** Witness *)

Definition unlocked : list Event :=
  [E_message (M_init (Some [1; 2]) (Some [3]) (Some [4]) (Some [5]) None)].

Lemma termination_erases_share_witness :
  let w := run (step (NF := toy_noble)) (initial_world 0) unlocked in
  ∃ a c' w', share (ws w) = Some a ∧ store w !! a = Some [1; 2] ∧
    terminate (NF := toy_noble) 5000 (initial_client 0, w) = (Some (Ok tt), (c', w')) ∧
    zeroed (store w') a ∧ worker c' = None ∧ isActive c' = false.
Proof.
  destruct (termination_erases_share (NF := toy_noble) 5000 (initial_client 0) 1 0 unlocked None)
    as (c' & w' & E & _ & _ & H1 & H2 & H3 & _); [reflexivity | lia |].
  intros w. fold w in E, H1.
  assert (Ha : share (ws w) = Some 4%nat) by (vm_compute; reflexivity).
  assert (Hc : closed w = false) by (vm_compute; reflexivity).
  exists 4%nat, c', w'. split; [exact Ha|]. split; [vm_compute; reflexivity|]. split; [exact E|].
  split; [|split; [exact H2|exact H3]].
  apply H1; [exact Hc|]. unfold refs. rewrite Ha. left.
Defined.
