(* ===== verification/Idle.v ===== *)
(** * The FROST provider and an idle tab ([contexts/FROSTContext.tsx])

    The provider mounts a client with its worker, looks at the client every second, and answers
    the terminal.  [FrostClient] has its flags, [Unlock] and [Lock] what the client and its worker
    do together; here they are one machine, and time passes for both of them: the worker closes
    itself after its timeout, and the tab learns of it when the terminal next needs a
    certificate. *)

From S2P Require Import Prelude Js Memory Models ApiTypes Encoding Crypto Api FrostWire Frost FrostWorker WorkerProtocol FrostClient Signing SshClient SshTerminal Unlock Lock Chrome.
#[local] Open Scope Z_scope.
#[local] Open Scope js_scope.

(** The context's values and the worker its client talks to. *)
Record Provider := { pv_context : FrostContext; pv_world : World }.

Definition provider (active : bool) (remaining : Z) (s : System) : Provider :=
  {| pv_context := {| fc_client := Some (fst s); fc_isActive := active; fc_remainingTime := remaining |};
     pv_world := snd s |}.

(** The provider before its mount effect, and after it. *)
Definition provider_initial : FrostContext :=
  {| fc_client := None; fc_isActive := false; fc_remainingTime := 0 |}.
Definition provider_mount (t0 : Z) : Provider :=
  provider (fc_isActive provider_initial) (fc_remainingTime provider_initial)
    (initial_client t0, initial_world t0).

(** The interval of one second. *)
Definition provider_poll (p : Provider) : Provider :=
  {| pv_context := context_poll (pv_context p); pv_world := pv_world p |}.

Section provider.
Context {NF : NobleFrost} {W : WebCrypto}.

(** Time passes while no request is under way: the worker's timer fires if it is due, and what
    the worker posts reaches the client. *)
Definition idle (ms : Z) (s : System) : System :=
  let c := set_now (c_now (fst s) + Z.max 0 ms) (fst s) in
  let w := FrostWorker.step (snd s) (FrostWorker.E_time ms) in
  let w' := match inactivityTimer (ws w) with
            | Some t => FrostWorker.step w (E_timer t)
            | None => w
            end in
  (foldl (λ c r, handleWorkerMessage r c) c (drop (length (posted w)) (posted w')), w').

(** An operation of the client in the provider; what it leaves of the flags is the second
    argument of [k]. *)
Definition with_client {A} (none : A) (k : System → FrostContext → A * Provider) (p : Provider)
    : A * Provider :=
  match fc_client (pv_context p) with
  | None => (none, p)
  | Some c => k (c, pv_world p) (pv_context p)
  end.

Definition provider_idle (ms : Z) (p : Provider) : Provider :=
  (with_client tt (λ s x, (tt, provider (fc_isActive x) (fc_remainingTime x) (idle ms s))) p).2.

Definition client_not_initialized : js_error := plain_error (js "Client not initialized").

(** [initWorker], with the two answers of the configuration; [None]: still waiting. *)
Definition provider_initWorker (config config' : SSHCAConfig) (masterKey : bytes)
    : Provider → option (result unit) * Provider :=
  with_client (Some (Throw client_not_initialized)) (λ s x,
    let '(r, s) := Unlock.initWorker config config' masterKey s in
    let active := match r with Some (Ok _) => true | _ => fc_isActive x end in
    (r, provider active (fc_remainingTime x) s)).

Definition provider_requestCert (b : Browser) (token : option jsstring)
    (rnd userPrivateKey userPublicKey : bytes) (rs : list WSResponse) (hostId : Z)
    : Provider → (list action * option (result CertificateResult)) * Provider :=
  with_client ([], Some (Throw client_not_initialized)) (λ s x,
    let '(acts, r, s) := Unlock.requestCert b token rnd userPrivateKey userPublicKey rs hostId s in
    ((acts, r), provider (fc_isActive x) (fc_remainingTime x) s)).

Definition provider_ensureAlive (ms : Z) : Provider → option bool * Provider :=
  with_client (Some false) (λ s x,
    let '(alive, s) := Unlock.ensureAlive ms s in
    let x' := match alive with Some a => context_ensureAlive_finish a x | None => x end in
    (alive, provider (fc_isActive x') (fc_remainingTime x') s)).

(** [terminate]; an error of the client leaves the flags. *)
Definition provider_terminate (ms : Z) (p : Provider) : option (result unit) * Provider :=
  match fc_client (pv_context p) with
  | None => (Some (Ok tt), {| pv_context := context_terminate_finish (pv_context p); pv_world := pv_world p |})
  | Some c =>
      let '(r, s) := Lock.terminate ms (c, pv_world p) in
      let x := match r with
               | Some (Ok _) => context_terminate_finish (pv_context p)
               | _ => pv_context p
               end in
      (r, provider (fc_isActive x) (fc_remainingTime x) s)
  end.

(** The cleanup of the mount effect: the client is terminated, its errors are only logged, and
    the flags are not looked at any more. *)
Definition provider_unmount (ms : Z) (p : Provider) : Provider :=
  (with_client tt (λ s x, (tt, provider (fc_isActive x) (fc_remainingTime x) (Lock.terminate ms s).2)) p).2.

(** *** The terminal's request ([handleCertificateRequest] of [components/SSHTerminal.tsx])

    Its two awaits are answered by the provider; [ms] is how long the liveness check may take. *)
Definition handleCertificateRequest (ms : Z) (o : Oracle) (b : Browser) (token : option jsstring)
    (rnd userPrivateKey userPublicKey : bytes) (rs : list WSResponse) (hostId : Z)
    (p : Provider) (t : Term) : list action * Term * Provider :=
  match provider_ensureAlive ms p with
  | (None, p) => ([], t, p)
  | (Some alive, p) =>
      let '(t, go) := certificate_alive (Ok alive) t in
      if go then
        match provider_requestCert b token rnd userPrivateKey userPublicKey rs hostId p with
        | ((acts, None), p) => (acts, t, p)
        | ((acts, Some r), p) => (acts, certificate_finish o r t, p)
        end
      else ([], t, p)
  end.

(** ** Facts *)

(** The worker's timeout is over, counted from its last operation. *)
Definition expires (w : World) (ms : Z) : Prop :=
  ∃ ts, initTimestamp (ws w) = Some ts ∧ ts + timer_delay (timeoutMs (ws w)) <= FrostWorker.now w + ms.

(** A client that waits for nothing does not hear the worker. *)
Lemma unheard r c : pendingResolve c = None → pendingReject c = None → handleWorkerMessage r c = c.
Proof. intros H1 H2. unfold handleWorkerMessage. rewrite H1, H2. by destruct r. Qed.

Lemma idle_live ms c w :
  live w → is_Some (share (ws w)) → 0 <= ms → pendingResolve c = None → pendingReject c = None →
  let s := idle ms (c, w) in
  fst s = set_now (c_now c + ms) c ∧ worker_inv (snd s) ∧
  (expires w ms → closed (snd s) = true ∧ pr_signer (protocol_of (snd s)) = None ∧
     (∀ a, Some a ∈ FrostWorker.refs (ws w) → zeroed (store (snd s)) a)) ∧
  (¬ expires w ms → closed (snd s) = false ∧ pr_signer (protocol_of (snd s)) = pr_signer (protocol_of w)).
Proof.
  intros [Hw Hc] Hs Hms H1 H2 s.
  destruct (inactivity_expiry w Hw Hc Hs) as (t & ts & _ & Ets & H).
  destruct (H ms Hms) as (Et1 & Ep1 & Hx). unfold s, idle. cbn [fst snd].
  rewrite Et1. set (w1 := FrostWorker.step w (FrostWorker.E_time ms)) in *.
  set (w' := FrostWorker.step w1 (E_timer t)) in *.
  assert (Hi : worker_inv w') by (by do 2 apply worker_step_inv).
  assert (Hf : ∀ l c, pendingResolve c = None → pendingReject c = None →
             foldl (λ c r, handleWorkerMessage r c) c l = c).
  { induction l as [|r l IH]; intros c' G1 G2; [done|]. cbn [foldl]. rewrite unheard by done. by apply IH. }
  rewrite Hf by done. rewrite Z.max_r by done.
  split; [done|]. split; [exact Hi|].
  assert (Hexp : expires w ms ↔ (ts + timer_delay (timeoutMs (ws w)) <=? FrostWorker.now w + ms) = true).
  { rewrite Z.leb_le. unfold expires. rewrite Ets. split; [by intros (? & [= <-] & ?)|by eauto]. }
  rewrite Hexp. destruct (_ <=? _).
  - split; [|done]. intros _. destruct Hx as (G1 & G2 & G3 & _). split; [exact G1|]. split; [|exact G3].
    unfold protocol_of, signer_of, worker_keys. cbn [pr_signer]. unfold FrostWorker.refs in G2.
    apply Forall_cons in G2 as [-> _]. done.
  - split; [done|]. intros _. destruct Hx as (-> & G1 & G2 & G3). split; [exact G3|].
    unfold protocol_of. cbn [pr_signer]. by rewrite G1, G2.
Qed.
End provider.

Section requests.
Context {NF : NobleFrost} {W : WebCrypto}.

(** The terminal's request when the check answers at once. *)
Lemma request_dead wait o b token rnd sk pk rs hostId act rem c w i t :
  worker c = Some i → isInitialized c = true → closed w = true → 2500 <= wait →
  ∃ c', handleCertificateRequest wait o b token rnd sk pk rs hostId (provider act rem (c, w)) t
        = ([], set_ui (setShowWebAuthnDialog true (ui t)) t, provider false rem (c', w)) ∧
        ensureAlive wait (c, w) = (Some false, (c', w)).
Proof.
  intros Hi Hn Hc Hw. destruct (ensureAlive_closed wait c w i Hi Hn Hc Hw) as (c' & E & _).
  exists c'. split; [|exact E]. unfold handleCertificateRequest, provider_ensureAlive, with_client.
  cbn [provider pv_context fc_client pv_world fst snd]. by rewrite E.
Qed.

Lemma request_live wait o b token e rnd hostId act rem keys x c w i g t :
  worker c = Some i → isInitialized c = true → live w → certRequestPromise c = None →
  pr_signer (protocol_of w) = Some g → sg_keys g = keys → honest keys x → rnd = ex_random x →
  Forall is_byte (ex_privateKey x) → token ≠ [] → encodeURIComponent token = Ok e →
  ∃ key s, decodeBase64 key = Ok (ex_privateKey x) ∧
    handleCertificateRequest wait o b (Some token) rnd (ex_privateKey x) (ex_publicKey x)
      (honest_server x) hostId (provider act rem (c, w)) t
    = (honest_actions hostId x, wasm_call o (sshResolveCertificate (tx_certificate x) key) t,
       provider true rem s) ∧ certRequestPromise (fst s) = None.
Proof.
  intros Hi Hn Hw Hp Hg Hk Hx -> Hsk Ht He.
  destruct (ensureAlive_open wait c w i Hi Hn Hw) as (c1 & w1 & E & F1 & F2 & F3 & F4 & F5).
  assert (Hp1 : certRequestPromise c1 = None) by congruence.
  assert (Hg1 : pr_signer (protocol_of w1) = Some g) by by rewrite F3.
  destruct (requestCert_ok b token e hostId keys x c1 w1 i g Ht He Hp1 Hx F1 F2 F4 Hg1 Hk)
    as (s & Es & G1 & _).
  exists (b64_body (ex_privateKey x) ++ b64_padding (length (ex_privateKey x))), s. split; [apply decode_base64_body; exact Hsk|].
  split; [|exact G1]. unfold handleCertificateRequest, provider_ensureAlive, with_client.
  cbn [provider pv_context fc_client pv_world fst snd]. rewrite E.
  cbn [fst snd provider certificate_alive]. unfold provider_requestCert, with_client.
  cbn [provider pv_context fc_client pv_world fst snd context_ensureAlive_finish fc_isActive fc_remainingTime].
  rewrite Es. unfold certificate_finish. cbn [rbind issued userPrivateKey certificate].
  rewrite encodeBase64_ok by done. reflexivity.
Qed.

(** C9: A tab that was left alone: when the terminal asks for a certificate after some time without
    an operation, and the worker's timeout is not over, the liveness check passes and an honest
    exchange hands the program the server's certificate; when it is over, the worker has closed
    itself with the share zeroed, nothing is signed and nothing reaches the program: the check
    fails within 2.5 seconds, the terminal shows the passkey dialog, the provider knows that it is
    inactive, and the next unlock starts a new worker with the keys. *)
Theorem idle_tab_asks_again ms wait o b token e hostId act rem c w i g t
    config config' masterKey encryptedShare keys x :
  worker c = Some i → isInitialized c = true → pendingResolve c = None → pendingReject c = None →
  certRequestPromise c = None →
  live w → pr_signer (protocol_of w) = Some g → sg_keys g = keys → 0 <= ms → 2500 <= wait →
  honest keys x → Forall is_byte (ex_privateKey x) → token ≠ [] → encodeURIComponent token = Ok e →
  decodeBase64 (client_share config) = Ok encryptedShare →
  opens masterKey encryptedShare config' keys →
  let p1 := provider_idle ms (provider act rem (c, w)) in
  let '(acts, t', p2) :=
    handleCertificateRequest wait o b (Some token) (ex_random x) (ex_privateKey x) (ex_publicKey x)
      (honest_server x) hostId p1 t in
  (¬ expires w ms →
     acts = honest_actions hostId x ∧ fc_isActive (pv_context p2) = true ∧
     ∃ key, decodeBase64 key = Ok (ex_privateKey x) ∧
       calls (window t') = calls (window t) ++ [sshResolveCertificate (tx_certificate x) key]) ∧
  (expires w ms →
     closed (pv_world p1) = true ∧ pr_signer (protocol_of (pv_world p1)) = None ∧
     (∀ a, Some a ∈ FrostWorker.refs (ws w) → zeroed (store (pv_world p1)) a) ∧
     acts = [] ∧ window t' = window t ∧ showWebAuthnDialog (ui t') = true ∧
     fc_isActive (pv_context p2) = false ∧
     ∃ p3, provider_initWorker config config' masterKey p2 = (Some (Ok tt), p3) ∧
       fc_isActive (pv_context p3) = true ∧ closed (pv_world p3) = false ∧
       ∃ since, pr_signer (protocol_of (pv_world p3)) =
                Some {| sg_keys := keys; sg_since := since; sg_round1 := None |}).
Proof.
  intros Hi Hn H1 H2 Hp Hw Hg Hk Hms Hwait Hx Hsk Ht He Hes Ho.
  assert (Hs : is_Some (share (ws w))).
  { unfold protocol_of, signer_of, worker_keys in Hg. cbn [pr_signer] in Hg.
    destruct (share (ws w)); [by eexists|done]. }
  destruct (idle_live ms c w Hw Hs Hms H1 H2) as (E1 & Hinv & Hexp & Hnot).
  unfold provider_idle, with_client. cbn [provider pv_context fc_client pv_world fst snd fc_isActive fc_remainingTime].
  destruct (idle ms (c, w)) as [c1 w1]. cbn [fst snd] in E1, Hinv, Hexp, Hnot.
  assert (Hc1 : worker c1 = Some i ∧ isInitialized c1 = true ∧ certRequestPromise c1 = None) by by rewrite E1.
  destruct Hc1 as (G1 & G2 & G3).
  destruct (decide (closed w1 = true)) as [Hc|Hc].
  - destruct (request_dead wait o b (Some token) (ex_random x) (ex_privateKey x) (ex_publicKey x)
      (honest_server x) hostId act rem c1 w1 i t G1 G2 Hc Hwait) as (c2 & E & Ealive). rewrite E.
    split; [intros Hne; destruct (Hnot Hne); congruence|]. intros Hx'.
    destruct (Hexp Hx') as (_ & F2 & F3).
    split_and!; [exact Hc|exact F2|exact F3|done..|].
    pose proof (dead_worker_replaced wait c1 w1 i config config' masterKey encryptedShare keys G1 G2 Hc
      Hwait Hes Ho) as Hr. rewrite Ealive in Hr. destruct Hr as (_ & c3 & w3 & E3 & _ & F4 & F5).
    unfold provider_initWorker, with_client. cbn [provider pv_context fc_client pv_world fst snd].
    rewrite E3. eexists. split; [reflexivity|]. split; [done|]. split; [exact F4|exact F5].
  - assert (Hc' : closed w1 = false) by by destruct (closed w1).
    assert (Hl : live w1) by by split.
    assert (Hne : ¬ expires w ms) by (intros Hx'; by destruct (Hexp Hx')).
    destruct (Hnot Hne) as [_ Hs1].
    assert (Hg1 : pr_signer (protocol_of w1) = Some g) by congruence.
    destruct (request_live wait o b token e (ex_random x) hostId act rem keys x c1 w1 i g t
      G1 G2 Hl G3 Hg1 Hk Hx eq_refl Hsk Ht He) as (key & s & Hkey & E & _). rewrite E.
    split; [|done]. intros _. split; [done|]. split; [done|]. exists key. split; [exact Hkey|].
    by rewrite wasm_call_window.
Qed.

(** The provider's poll does not notice: the client is told nothing when its worker closes
    itself, so until the next check the poll finds it active and the indicator says so. *)
Theorem idle_worker_looks_active ms act rem c w i :
  worker c = Some i → isInitialized c = true → pendingResolve c = None → pendingReject c = None →
  live w → is_Some (share (ws w)) → 0 <= ms → expires w ms →
  let p := provider_poll (provider_idle ms (provider act rem (c, w))) in
  closed (pv_world p) = true ∧ fc_isActive (pv_context p) = true ∧
  ∃ time, WorkerStatusIndicator (pv_context p) = js "Worker Active - " ++ time.
Proof.
  intros Hi Hn H1 H2 Hw Hs Hms Hexp.
  destruct (idle_live ms c w Hw Hs Hms H1 H2) as (E1 & _ & He & _).
  unfold provider_poll, provider_idle, with_client.
  cbn [provider pv_context fc_client pv_world fst snd fc_isActive fc_remainingTime].
  destruct (idle ms (c, w)) as [c1 w1]. cbn [fst snd] in E1, He. destruct (He Hexp) as (Hc & _).
  assert (Ha : isActive c1 = true).
  { rewrite E1. unfold isActive. cbn [set_now isInitialized worker]. rewrite Hn, Hi. by apply bool_decide_eq_true_2. }
  unfold context_poll. cbn [provider pv_context fc_client fst fc_isActive]. rewrite Ha.
  split; [exact Hc|]. split; [done|]. unfold WorkerStatusIndicator. cbn [fc_isActive].
  eexists. reflexivity.
Qed.

(** The worker's last word passes for an answer: when the worker closes itself just before the
    check's request reaches it, its [terminated] settles that request, and the check reports a
    closed worker as alive. *)
Theorem last_word_passes_for_status c i :
  worker c = Some i → isActive c = true →
  let '(asked, c1) := ensureAlive_begin c in
  let c2 := handleWorkerMessage terminated c1 in
  ∃ r, asked = Some r ∧ reqs c2 !! r = Some (R_resolved terminated) ∧
       (ensureAlive_finish (R_resolved terminated) c2).1 = true.
Proof.
  intros Hi Ha. unfold ensureAlive_begin. rewrite Ha.
  destruct (response_settles c M_status 2500 terminated i Hi) as (Hr & _).
  destruct (sendToWorker M_status 2500 c) as [r c1]. exists r. by split.
Qed.
End requests.

(** ** Witnesses *)

#[local] Existing Instance toy_crypto.

(** A tab that was just unlocked. *)
Lemma demo_unlocked_live : live (snd demo_unlock.2).
Proof.
  destruct (initWorker_ok unlock_config unlock_config demo_master demo_encrypted demo_keys dropped_system)
    as (i & c & w & E & _ & _ & _ & Hw & _); [vm_compute; reflexivity|exact unlock_opens|by intros []|].
  assert (F : demo_unlock = (Some (Ok tt), (c, w))) by exact E. rewrite F. exact Hw.
Qed.

Definition demo_signer : Signer := {| sg_keys := demo_keys; sg_since := 0; sg_round1 := None |}.

Lemma demo_expires ms : expires (snd demo_unlock.2) ms ↔ 1800000 <= ms.
Proof.
  unfold expires. replace (initTimestamp _) with (Some 0) by (vm_compute; reflexivity).
  replace (timeoutMs _) with 1800000 by (vm_compute; reflexivity).
  replace (FrostWorker.now _) with 0 by (vm_compute; reflexivity).
  change (timer_delay 1800000) with 1800000. split; [by intros (? & [= <-] & ?)|intros H].
  exists 0. split; [done|lia].
Qed.

Lemma idle_tab_witness :
  let request ms := handleCertificateRequest 2500 no_reports demo_browser (Some (js "t"))
    (ex_random demo_exchange) (ex_privateKey demo_exchange) (ex_publicKey demo_exchange)
    (honest_server demo_exchange) 3 (provider_idle ms (provider true 0 (fst demo_unlock.2, snd demo_unlock.2)))
    demo_mounted in
  (request 1000).1.1 = honest_actions 3 demo_exchange ∧
  (request 1800000).1.1 = [] ∧ showWebAuthnDialog (ui (request 1800000).1.2) = true.
Proof.
  intros request.
  assert (Hsk : Forall is_byte (ex_privateKey demo_exchange)) by (repeat constructor; lia).
  assert (H : ∀ ms, 0 <= ms → let '(acts, t', p2) := request ms in
    (¬ expires (snd demo_unlock.2) ms → acts = honest_actions 3 demo_exchange) ∧
    (expires (snd demo_unlock.2) ms → acts = [] ∧ showWebAuthnDialog (ui t') = true)).
  { intros ms Hms.
    pose proof (idle_tab_asks_again ms 2500 no_reports demo_browser (js "t") (js "t") 3 true 0
      (fst demo_unlock.2) (snd demo_unlock.2) 2 demo_signer demo_mounted unlock_config unlock_config
      demo_master demo_encrypted demo_keys demo_exchange
      ltac:(vm_compute; reflexivity) ltac:(vm_compute; reflexivity) ltac:(vm_compute; reflexivity)
      ltac:(vm_compute; reflexivity) ltac:(vm_compute; reflexivity) demo_unlocked_live
      ltac:(vm_compute; reflexivity) eq_refl Hms ltac:(lia) demo_honest Hsk ltac:(discriminate)
      ltac:(vm_compute; reflexivity) ltac:(vm_compute; reflexivity) unlock_opens) as H.
    cbn zeta in H. unfold request. destruct (handleCertificateRequest _ _ _ _ _ _ _ _ _ _ _) as [[acts t'] p2].
    destruct H as [Ha Hb]. split; [intros Hx; apply (Ha Hx)|]. intros Hx. split; apply (Hb Hx). }
  split; [|split].
  - pose proof (H 1000 ltac:(lia)) as H1. destruct (request 1000) as [[acts t'] p2].
    apply H1. rewrite demo_expires. lia.
  - pose proof (H 1800000 ltac:(lia)) as H1. destruct (request 1800000) as [[acts t'] p2].
    apply H1. rewrite demo_expires. lia.
  - pose proof (H 1800000 ltac:(lia)) as H1. destruct (request 1800000) as [[acts t'] p2].
    apply H1. rewrite demo_expires. lia.
Defined.

Lemma idle_worker_looks_active_witness :
  fc_isActive (pv_context (provider_poll (provider_idle 1800000
    (provider true 0 (fst demo_unlock.2, snd demo_unlock.2))))) = true.
Proof.
  destruct (idle_worker_looks_active 1800000 true 0 (fst demo_unlock.2) (snd demo_unlock.2) 2)
    as (_ & H & _); [vm_compute; reflexivity..|exact demo_unlocked_live| |lia|apply demo_expires; lia|exact H].
  vm_compute. by eexists.
Defined.
