(* ===== verification/Creation.v ===== *)
(** * A new session, from the button to its page

    [components/NewSessionButton.tsx] hands a host and a name to the page it is on; the session
    page ([handleNewSession] of [pages/SessionDetailPage.tsx]) navigates with them to
    [pages/NewSessionPage.tsx], whose [components/SessionCreator.tsx] runs an [SSHTerminal] that
    starts the session.  [SessionCreate] has the dialog and the creator's clock, [SshTerminal] the
    terminal; here they run together. *)

From S2P Require Import Prelude Js Models ApiTypes Api Accounts SshClient SshTerminal SessionList SessionCreate Restart Routes.
#[local] Open Scope Z_scope.
#[local] Open Scope js_scope.

(** ** The button

    [None] while its dialog is closed. *)

Definition Button : Type := option NewSessionDialog.

Inductive ButtonEvent :=
| NB_press
| NB_hosts (answer : result (list Host))
| NB_select (value : option Z)
| NB_name (value : jsstring)
| NB_submit
| NB_cancel.

(** The button after an event, and the arguments of [onCreate] when it is called. *)
Definition button_step (defaultHostId : option Z) (b : Button) (e : ButtonEvent)
    : Button * option (Host * jsstring) :=
  match b, e with
  | None, NB_press => (Some (dialog_open defaultHostId), None)
  | None, _ => (None, None)
  | Some d, NB_press => (Some d, None)
  | Some d, NB_hosts a => (Some (hosts_loaded false defaultHostId a d), None)
  | Some d, NB_select v => (Some (select_host v d), None)
  | Some d, NB_name v => (Some (type_name v d), None)
  | Some d, NB_submit =>
      match dialog_submit d with
      | (Some target, _) => (None, Some target)
      | (None, d) => (Some d, None)
      end
  | Some _, NB_cancel => (None, None)
  end.

(** The history entry of the creation page. *)
Record CreateEntry := { ce_path : jsstring; ce_state : option (option Host * option jsstring) }.

(** [handleNewSession] of the session page. *)
Definition handleNewSession (host : Host) (name : jsstring) : CreateEntry :=
  {| ce_path := js "/sessions/new"; ce_state := Some (Some host, Some name) |}.

(** ** The page with its terminal *)

(** The terminal a creator renders: its first attach starts the session. *)
Definition creator_terminal (i : nat) (c : Creator) (b : Browser) (w : Window) : Term :=
  mounted_term i (Some (cr_host c)) (cr_name c) true b w (cr_now c).

(** [cp_terminal] is the terminal, on screen or unmounted; [None]: there never was one. *)
Record CreationPage := { cp_page : SessionCreate.NewSessionPage; cp_terminal : option Term }.

Definition creation_mount (e : CreateEntry) (now : Z) (i : nat) (b : Browser) (w : Window)
    : CreationPage :=
  let p := newSession_mount (ce_state e) now in
  {| cp_page := p; cp_terminal := (λ c, creator_terminal i c b w) <$> ns_creator p |}.

Inductive CreationEvent :=
| CP_creator (o : Oracle) (e : CreatorEvent)
| CP_terminal (o : Oracle) (e : Event).

(** An event of the creator may take it, and its terminal, off the screen. *)
Definition creation_step (s : CreationPage) (e : CreationEvent) : CreationPage :=
  match e with
  | CP_creator o e =>
      let p := newSession_step (cp_page s) e in
      {| cp_page := p;
         cp_terminal := match ns_creator p with
                        | Some _ => cp_terminal s
                        | None => (λ t, SshTerminal.step t (o, E_unmount)) <$> cp_terminal s
                        end |}
  | CP_terminal o e =>
      {| cp_page := cp_page s; cp_terminal := (λ t, SshTerminal.step t (o, e)) <$> cp_terminal s |}
  end.

(** What the page shows: its title, the word beside it, and the error in the place of the
    creator. *)
Inductive CreationScreen := CS_nothing | CS_page (title word : jsstring) (failure : option jsstring).

Definition creation_word (error : jsstring) (status : ConnectionStatus) : jsstring :=
  match error with
  | _ :: _ => js "Error"
  | [] => match status with
          | connected => js "Starting session" ++ [8230]
          | _ => js "Connecting" ++ [8230]
          end
  end.

Definition creation_screen (e : CreateEntry) (s : CreationPage) : CreationScreen :=
  match default (None, None) (ce_state e) with
  | (Some _, Some (_ :: _ as name)) =>
      CS_page name
        (creation_word (ns_error (cp_page s))
           (match cp_terminal s with Some t => status (ui t) | None => connecting end))
        (match ns_error (cp_page s) with [] => None | m => Some m end)
  | _ => CS_nothing
  end.

(** ** Facts: the commands of a creation's terminal *)

Definition exec_of (c : WasmCall) : option (jsstring * jsstring) :=
  match c with sshExec k cmd => Some (k, cmd) | _ => None end.

(** The commands run so far, with the keys of their connections. *)
Definition execs (w : Window) : list (jsstring * jsstring) := omap exec_of (calls w).

(** What decides what an attach runs. *)
Definition intent (t : Term) : option Host * jsstring * bool :=
  (SshTerminal.host t, sessionName t, pendingRestart (refs t)).

Lemma core_intent t t' : core t = core t' → intent t = intent t'.
Proof. unfold core, intent. congruence. Qed.

Lemma wasm_call_intent o c t : intent (wasm_call o c t) = intent t.
Proof. by rewrite (core_intent _ _ (wasm_call_core o c t)). Qed.

Lemma doConnect_intent o h t : intent (doConnect o h t).2 = intent t.
Proof.
  unfold doConnect. destruct h as [h|]; [|done]. destruct (negb _); [done|].
  destruct (connect _ _ _ _ _) as [r c]. cbn zeta. destruct r; cbn [snd]; [|done].
  by rewrite wasm_call_intent.
Qed.

Lemma client_disconnect_intent o k t : intent (client_disconnect o k t) = intent t.
Proof.
  unfold client_disconnect. destruct k as [|c k]; [done|]. destruct (functions _); [|done].
  exact (wasm_call_intent o (disconnect (c :: k)) t).
Qed.

Lemma adds_execs (Q : WasmCall → Prop) t t' :
  adds Q t t' → (∀ c, Q c → exec_of c = None) → execs (window t') = execs (window t).
Proof.
  intros (l & El & Hl) HQ. unfold execs. rewrite El, omap_app.
  assert (E : omap exec_of l = []).
  { clear El. induction Hl as [|c k Hc _ IH]; [done|]. cbn [omap list_omap]. by rewrite (HQ c Hc). }
  by rewrite E, app_nil_r.
Qed.

(** The events that may run a command, and the render that may change what an attach runs. *)
Definition quiet (e : Event) : Prop :=
  match e with E_commit | E_restart | E_render _ _ => False | _ => True end.

Lemma quiet_execs o e t : quiet e → execs (window (SshTerminal.step t (o, e))) = execs (window t).
Proof.
  intros Hq. apply (adds_execs (may_call e)); [apply step_adds|].
  intros c Hc. destruct c; try done. destruct e; cbn in Hc, Hq; tauto.
Qed.

Lemma quiet_intent o e t : quiet e → intent (SshTerminal.step t (o, e)) = intent t.
Proof.
  intros Hq. assert (Hr : intent (recover_begin t) = intent t)
    by (unfold recover_begin; by repeat case_match).
  destruct e; try done; cbn [SshTerminal.step]; try (by repeat case_match).
  - by rewrite (core_intent _ _ (report_core t (s, err))).
  - destruct (reconnectTimeout _) as [[due h]|]; [|done]. destruct (due <=? _); [|done].
    unfold retry_fires. destruct (_ || _); [done|]. by rewrite doConnect_intent.
  - destruct (mountedRef _); [|done]. unfold recoverOnFocus. by case_decide.
  - destruct (recovering t !! i) as [h|]; [|done]. unfold recover_finish.
    destruct (negb _); [done|]. destruct (_ && _); [done|]. cbn zeta. rewrite doConnect_intent.
    change (intent (put_link _ _ _ ?t)) with (intent t). rewrite client_disconnect_intent.
    by destruct alive.
  - by rewrite doConnect_intent.
  - destruct (mountedRef _); [|done]. exact (client_disconnect_intent o _ (put_link _ true _ t)).
  - destruct (mountedRef _); [|done]. exact (wasm_call_intent o (sshResolvePassword password) t).
  - destruct (mountedRef _); [|done]. unfold handlePasswordCancel. cbn zeta.
    etransitivity; [exact (client_disconnect_intent o _ _)|].
    exact (wasm_call_intent o sshRejectPassword _).
  - by destruct answer as [[]|].
  - unfold certificate_finish, rbind. repeat case_match; simplify_eq; try done.
    by rewrite wasm_call_intent.
  - destruct (mountedRef _); [|done]. exact (wasm_call_intent o sshRejectCertificate _).
  - unfold unlock_finish. destruct outcome as [cert key| |]; [|done..].
    exact (wasm_call_intent o (sshResolveCertificate cert key) t).
Qed.

(** The command that starts the session on its host, and the one that attaches to it. *)
Definition starts (h : Host) (nm : jsstring) : jsstring * jsstring :=
  (of_int (host_id_ h), startCommand nm).
Definition attaches (h : Host) (nm : jsstring) : jsstring * jsstring :=
  (of_int (host_id_ h), attachCommand nm).

(** The commands of a creation: none yet, or the start first and then starts and attachments of
    the same session on the same host. *)
Definition creates (h : Host) (nm : jsstring) (l : list (jsstring * jsstring)) : Prop :=
  match l with
  | [] => True
  | x :: rest => x = starts h nm ∧ Forall (λ y, y = starts h nm ∨ y = attaches h nm) rest
  end.

(** A terminal that is to create [nm] on [h] and ran nothing since [before], or has begun. *)
Definition creating (h : Host) (nm : jsstring) (before : list (jsstring * jsstring)) (t : Term) : Prop :=
  SshTerminal.host t = Some h ∧ sessionName t = nm ∧
  ∃ l, execs (window t) = before ++ l ∧ creates h nm l ∧ (l = [] → pendingRestart (refs t) = true).

Lemma creates_snoc h nm l x :
  creates h nm l → (x = starts h nm ∨ l ≠ [] ∧ x = attaches h nm) → creates h nm (l ++ [x]).
Proof.
  intros Hl Hx. destruct l as [|y l]; cbn in *.
  - destruct Hx as [->|[[] _]]; done.
  - destruct Hl as [-> Hl]. split; [done|]. apply Forall_app. split; [exact Hl|].
    apply Forall_singleton. tauto.
Qed.

(** A step that runs nothing and changes nothing an attach depends on. *)
Lemma creating_same h nm before t t' :
  intent t' = intent t → execs (window t') = execs (window t) →
  creating h nm before t → creating h nm before t'.
Proof.
  unfold intent, creating. intros [= -> -> ->] ->. done.
Qed.

Lemma creating_restart h nm before t r :
  creating h nm before t →
  creating h nm before (set_refs (with_exec r true (refs t)) t).
Proof. intros (Hh & Hn & l & He & Hc & _). by repeat (split || eexists). Qed.

(** A command of the terminal: a start, or an attach when it is not to start first. *)
Lemma creating_exec o h nm before t r p k cmd :
  creating h nm before t → hostKey t = k →
  (cmd = startCommand nm ∨ pendingRestart (refs t) = false ∧ cmd = attachCommand nm) →
  creating h nm before (wasm_call o (sshExec k cmd) (set_refs (with_exec r p (refs t)) t)).
Proof.
  intros (Hh & Hn & l & He & Hc & Hp) <- Hcmd. unfold hostKey. rewrite Hh. cbn [key_of].
  set (u := set_refs _ t).
  assert (Hi : intent (wasm_call o (sshExec (of_int (host_id_ h)) cmd) u) = (Some h, nm, p))
    by (rewrite wasm_call_intent; unfold intent; cbn; congruence).
  unfold creating. injection Hi as E1 E2 _. rewrite E1, E2. split_and!; [done..|].
  exists (l ++ [(of_int (host_id_ h), cmd)]). split_and!; [| |by destruct l].
  - unfold execs. rewrite wasm_call_window. cbn [log_call calls]. rewrite omap_app, app_assoc.
    f_equal. exact He.
  - apply creates_snoc; [exact Hc|]. destruct Hcmd as [->|[Hf ->]]; [by left|right].
    split; [|done]. intros ->. rewrite Hp in Hf; done.
Qed.

Lemma creating_connect o h0 h nm before t :
  creating h nm before t → creating h nm before (doConnect o h0 t).2.
Proof.
  intros H. eapply creating_same; [apply doConnect_intent | | exact H].
  eapply (adds_execs is_connect); [by apply doConnect_adds|]. by intros [].
Qed.

Lemma creating_unmount h nm before t : creating h nm before t → creating h nm before (unmount t).
Proof.
  intros H. apply (creating_same h nm before t); [reflexivity | | exact H].
  eapply (adds_execs (λ c, c = sshDisconnectPending)); [by apply unmount_adds|]. by intros ? ->.
Qed.

Lemma creating_attach o h nm before t :
  creating h nm before t → creating h nm before (attach_effect o t).
Proof.
  intros H. pose proof H as (_ & Hn & _). unfold attach_effect.
  destruct (hostKey t) as [|c k] eqn:Ek; [done|]. case_decide; [|done]. cbn zeta.
  change (sessionName (set_refs _ t)) with (sessionName t). rewrite Hn.
  apply creating_exec; [exact H | exact Ek |]. destruct (pendingRestart _); auto.
Qed.

Lemma creating_commit o h nm before t :
  creating h nm before t → creating h nm before (commit o t).
Proof.
  intros H. unfold commit. destruct (negb _); [done|]. cbn zeta.
  set (t1 := set_refs _ _). assert (H1 : creating h nm before t1) by exact H.
  destruct (if connect_deps_changed _ _ then _ else _) as [r t2] eqn:E.
  assert (H2 : creating h nm before t2).
  { destruct (connect_deps_changed _ _); [|congruence]. unfold connect_effect in E.
    destruct (negb _); [congruence|]. replace t2 with (doConnect o (SshTerminal.host t1) t1).2
      by by rewrite E. by apply creating_connect. }
  destruct r; [|by apply creating_unmount].
  destruct (attach_deps_changed _ _); [by apply creating_attach | done].
Qed.

(** The creator renders its terminal with the same host and name every time. *)
Definition same_target (h : Host) (nm : jsstring) (e : Event) : Prop :=
  match e with E_render h' s => h' = Some h ∧ s = nm | _ => True end.

Lemma creating_step o e h nm before t :
  same_target h nm e → creating h nm before t → creating h nm before (SshTerminal.step t (o, e)).
Proof.
  intros Hs H. destruct e; try (eapply creating_same; [by apply quiet_intent | by apply quiet_execs | exact H]).
  - destruct Hs as [-> ->]. cbn [SshTerminal.step]. destruct (mountedRef _); [|exact H].
    destruct H as (_ & _ & H). exact (conj eq_refl (conj eq_refl H)).
  - by apply creating_commit.
  - cbn [SshTerminal.step]. destruct (mountedRef _); [|exact H]. pose proof H as (_ & Hn & _).
    unfold doRestart. destruct (hostKey t) as [|c k] eqn:Ek; [exact H|]. case_decide; cbn zeta.
    + change (sessionName (set_refs _ t)) with (sessionName t). rewrite Hn.
      apply creating_exec; [exact H | exact Ek | by left].
    + apply creating_connect.
      exact (creating_restart h nm before t (hasExecuted (refs t)) H).
Qed.

(** ** Facts: the page *)

(** Events of one creation: the page gives the creator, and the creator its terminal, the same
    host and name at every render. *)
Definition steady (h : Host) (nm : jsstring) (e : CreationEvent) : Prop :=
  match e with
  | CP_creator _ e => same_props e
  | CP_terminal _ e => same_target h nm e
  end.

Definition creator_events (es : list CreationEvent) : list CreatorEvent :=
  omap (λ e, match e with CP_creator _ e => Some e | CP_terminal _ _ => None end) es.

(** The terminal of a creation: it runs nothing but the commands of the creation, and it is gone
    when the creator is. *)
Definition terminal_of (h : Host) (nm : jsstring) (w : Window) (s : CreationPage) : Prop :=
  ∃ t, cp_terminal s = Some t ∧ creating h nm (execs w) t ∧
    (ns_creator (cp_page s) = None → mountedRef (refs t) = false).

Lemma unmounted_after o t : mountedRef (refs (SshTerminal.step t (o, E_unmount))) = false.
Proof. cbn [SshTerminal.step]. by destruct (mountedRef (refs t)) eqn:E. Qed.

Lemma terminal_of_step h nm w s e :
  steady h nm e → terminal_of h nm w s → terminal_of h nm w (creation_step s e).
Proof.
  intros He (t & Ht & Hc & Hm). unfold terminal_of. destruct e as [o e|o e]; cbn [creation_step cp_page cp_terminal].
  - rewrite Ht. destruct (ns_creator (newSession_step (cp_page s) e)) eqn:En.
    + exists t. split_and!; [done|done|done].
    + eexists. split_and!; [reflexivity|by apply creating_step|intros _; apply unmounted_after].
  - rewrite Ht. eexists. split_and!; [reflexivity|by apply creating_step|].
    intros Hn. apply term_step_unmounted. by apply Hm.
Qed.

Lemma creation_run h nm now t0 w s es :
  Forall (steady h nm) es → page_outcome h nm now t0 (cp_page s) → terminal_of h nm w s →
  page_outcome h nm now (t0 + elapsed (creator_events es)) (cp_page (run creation_step s es)) ∧
  terminal_of h nm w (run creation_step s es).
Proof.
  intros Hes. revert t0 s. induction Hes as [|e es He _ IH]; intros t0 s Hp Ht.
  { cbn. by rewrite Z.add_0_r. }
  pose proof (terminal_of_step h nm w s e He Ht) as Ht'.
  change (run creation_step s (e :: es)) with (run creation_step (creation_step s e) es).
  destruct e as [o e|o e].
  - change (creator_events (CP_creator o e :: es)) with (e :: creator_events es).
    rewrite elapsed_cons, Z.add_assoc. apply IH; [by apply page_outcome_step | exact Ht'].
  - by apply IH.
Qed.

Section page.
Context {R : Router} {HR : RouterLaws R}.

Lemma visit_new b : ProtectedRoute b = Ok None → visit 3 b (js "/sessions/new") = S_page NewSessionPage.
Proof.
  intros Hb. rewrite visit_S. change (pathname (js "/sessions/new")) with (path_of [js "sessions"; js "new"]).
  rewrite (choose_routes [js "sessions"; js "new"] (js "/sessions/new"));
    [|repeat constructor; discriminate|apply list_elem_of_In; vm_compute; tauto|vm_compute; reflexivity..].
  change (assoc_get (js "/sessions/new") App_routes) with (Some (Protected (λ _, NewSessionPage))).
  by rewrite Hb.
Qed.

Lemma dialog_submit_target d h nm d' :
  dialog_submit d = (Some (h, nm), d') → nm = trim (nd_name d) ∧ nm ≠ [] ∧ ∃ hs, nd_hosts d = Some hs ∧ h ∈ hs.
Proof.
  unfold dialog_submit. case_bool_decide as Hn; [done|].
  destruct (nd_hosts d) as [hs|] eqn:Eh; cbn [mbind option_bind]; [|done].
  destruct (list_find _ hs) as [[j x]|] eqn:El; cbn [fmap option_fmap option_map snd]; [|done].
  intros [= <- <- <-]. apply list_find_Some in El as (El & _). split_and!; [done|done|].
  exists hs. split; [done|]. by eapply list_elem_of_lookup_2.
Qed.

(** C25: From the button to the session: when a user who is signed in submits the dialog, it closes
    and hands over a host of its list and the trimmed name; the address it navigates to shows the
    creation page; and on that page, whatever the program, the connection, the feed and the clock
    do, the first command run is the start of that session on that host, and every later one is
    again that start or an attachment to that session; the page waits for a minute at most, and
    then shows its timeout or has moved to a session of that host with that name, where the
    session page opens it; once it stopped waiting its terminal is unmounted. *)
Theorem creation_starts_its_session b default_ d button host nm now i w es :
  ProtectedRoute b = Ok None →
  button_step default_ (Some d) NB_submit = (button, Some (host, nm)) →
  Forall (steady host nm) es →
  let e := handleNewSession host nm in
  let s := run creation_step (creation_mount e now i b w) es in
  button = None ∧ (∃ hs, nd_hosts d = Some hs ∧ host ∈ hs) ∧ nm = trim (nd_name d) ∧
  visit 3 b (ce_path e) = S_page NewSessionPage ∧
  page_outcome host nm now (now + elapsed (creator_events es)) (cp_page s) ∧
  (CREATE_TIMEOUT_MS <= elapsed (creator_events es) → ns_creator (cp_page s) = None) ∧
  (∃ t l, cp_terminal s = Some t ∧ execs (window t) = execs w ++ l ∧ creates host nm l ∧
     (ns_creator (cp_page s) = None → mountedRef (refs t) = false)) ∧
  ∀ url r rest, ns_routes (cp_page s) = (url, r) :: rest →
    rest = [] ∧ ∃ x, host_id x = host_id_ host ∧ name x = nm ∧
    url = js "/sessions/" ++ ApiTypes.id x ∧
    (plain_segment (ApiTypes.id x) → ascii_lower (ApiTypes.id x) ≠ js "new" →
     visit 3 b url = S_page (SessionDetailPage (Some (ApiTypes.id x)))).
Proof.
  intros Hb Hd Hes e s. cbn [button_step] in Hd.
  destruct (dialog_submit d) as [[[h' nm']|] d'] eqn:Ed; [|done]. injection Hd as <- -> ->.
  destruct (dialog_submit_target d host nm d' Ed) as (Hn & Hne & Hin).
  assert (Hp0 : page_outcome host nm now now (cp_page (creation_mount e now i b w)) ∧
                terminal_of host nm w (creation_mount e now i b w)).
  { unfold creation_mount, e, handleNewSession, newSession_mount, terminal_of. cbn [ce_state default cp_page cp_terminal].
    destruct nm as [|c nm]; [done|]. split; [by apply po_waiting; [apply creator_mount_ok|..]|].
    eexists. split; [reflexivity|]. split; [|done]. split; [done|]. split; [done|].
    exists []. by rewrite app_nil_r. }
  destruct Hp0 as [Hp0 Ht0].
  destruct (creation_run host nm now now w _ es Hes Hp0 Ht0) as [Hp (t & Ht & (_ & _ & l & Hl & Hc & _) & Hm)].
  fold s in Hp, Ht, Hm. split_and!; [done|exact Hin|exact Hn|by apply visit_new|exact Hp| | |].
  - intros Hlong. by apply (page_outcome_over host nm now (now + elapsed (creator_events es))); [|lia].
  - by exists t, l.
  - intros url r rest Hu. destruct Hp as [| |x H1 H2]; [done..|]. injection Hu as <- <- <-.
    split; [done|]. exists x. split_and!; [done..|]. intros Hx Hnew. by apply visit_session.
Qed.
End page.

(** ** A second creation on the dashboard

    The dashboard renders one creator without a key, so the terminal of the first creation is
    rendered again with the target of the second. *)

(** When the first session has been started on the connection, the second one is only attached
    to: no start is run for it, and nothing creates it. *)
Theorem second_creation_never_starts o o' h h' nm' t token :
  settled t h token → nm' ≠ sessionName t → host_id_ h' = host_id_ h →
  host_ssh_user h' = host_ssh_user h →
  let t' := run SshTerminal.step t [(o, E_render (Some h') nm'); (o', E_commit)] in
  execs (window t') = execs (window t) ++ [attaches h' nm'].
Proof.
  intros Hs Hn Hi Hu t'. unfold execs, t'.
  rewrite (proj1 (switch_session o o' h h' nm' t token Hs Hn) Hi Hu), omap_app. reflexivity.
Qed.

(** ** Witness *)

Definition demo_dialog : NewSessionDialog := filled None [SessionCreate.demo_host 1] (js " w ").

(** The program loads, connects, the session starts and is reported. *)
Definition demo_creation : list CreationEvent :=
  [CP_terminal no_reports (E_init loaded); CP_terminal no_reports E_commit;
   CP_terminal no_reports (E_report connected None); CP_terminal no_reports E_commit;
   CP_creator no_reports (CE_tick 800); CP_creator no_reports (CE_update demo_update)].

Lemma creation_starts_its_session_witness :
  let e := handleNewSession (SessionCreate.demo_host 1) (js "w") in
  let s := run creation_step (creation_mount e 0 1 signed_in_browser initial_window) demo_creation in
  visit 3 signed_in_browser (ce_path e) = S_page NewSessionPage ∧
  (∃ t, cp_terminal s = Some t ∧ execs (window t) = [(js "1", js "devsesh start 'w'")] ∧
        mountedRef (refs t) = false) ∧
  visit 3 signed_in_browser (js "/sessions/s1") = S_page (SessionDetailPage (Some (js "s1"))).
Proof.
  pose proof (creation_starts_its_session (R := ranking_router) signed_in_browser None demo_dialog None
    (SessionCreate.demo_host 1) (js "w") 0 1 initial_window demo_creation) as H.
  destruct H as (_ & _ & _ & Hv & _ & _ & (t & l & Ht & _ & _ & Hm) & Hr).
  - reflexivity.
  - vm_compute. reflexivity.
  - by repeat constructor.
  - split; [exact Hv|]. split.
    + exists t. split; [exact Ht|]. split; [|by apply Hm].
      assert (E : (λ t, execs (window t)) <$> cp_terminal
        (run creation_step (creation_mount (handleNewSession (SessionCreate.demo_host 1) (js "w")) 0 1
           signed_in_browser initial_window) demo_creation)
        = Some [(js "1", js "devsesh start 'w'")]) by (vm_compute; reflexivity).
      rewrite Ht in E. by injection E.
    + destruct (Hr (js "/sessions/s1") true []) as (_ & x & _ & _ & Hu & Hx); [vm_compute; reflexivity|].
      change (js "/sessions/s1") with (js "/sessions/" ++ js "s1") in Hu at 1.
      apply app_inv_head in Hu. rewrite <- Hu in Hx. apply Hx; [|vm_compute; discriminate].
      split; [discriminate|]. vm_compute. by repeat constructor.
Defined.

(** The first creation of the dashboard, once its session runs. *)
Abbreviation first_creation :=
  (run SshTerminal.step
     (mounted_term 0 (Some (SessionCreate.demo_host 1)) (js "a") true signed_in_browser initial_window 0)
     [(no_reports, E_init loaded); (no_reports, E_commit); (no_reports, E_report connected None);
      (no_reports, E_commit)]).

Lemma second_creation_never_starts_witness :
  execs (window (run SshTerminal.step first_creation
    [(no_reports, E_render (Some (SessionCreate.demo_host 1)) (js "b")); (no_reports, E_commit)]))
  = [(js "1", js "devsesh start 'a'"); (js "1", js "tmux attach -t 'b'")].
Proof.
  assert (Hs : settled first_creation (SessionCreate.demo_host 1) (js "t")).
  { split; try reflexivity. split_and!; [reflexivity..|discriminate]. }
  exact (second_creation_never_starts no_reports no_reports (SessionCreate.demo_host 1)
    (SessionCreate.demo_host 1) (js "b") first_creation (js "t") Hs ltac:(discriminate) eq_refl eq_refl).
Defined.
