(* ===== verification/SessionPage.v ===== *)
(** * The session page with its terminal ([pages/SessionDetailPage.tsx])

    [DetailPage] has what the page shows and its requests, [SshTerminal] the terminal; here the
    page renders the terminal of the session it shows, moves it to another session, restarts the
    session through it and takes it off the screen.  A terminal that was taken off goes on hearing
    the answers it waits for, so the page keeps them all: the newest is the one on screen. *)

From S2P Require Import Prelude Js Models ApiTypes Api Tags SessionList SshClient SshTerminal DetailPage Restart SessionView Creation.
#[local] Open Scope Z_scope.
#[local] Open Scope js_scope.

(** The terminal the page renders, if any: its host and session name. *)
Definition page_terminal (p : DetailPage) : option (Host * jsstring) :=
  match screen p with
  | Sc_session s => (λ h, (h, name_or_id s)) <$> ApiTypes.host s
  | _ => None
  end.

Record SessionPage := {
  sp_detail : DetailPage;
  (** [restartOnMount.current]. *)
  sp_restart : bool;
  (** The page is on screen: the user has not left it and no effect has thrown. *)
  sp_live : bool;
  (** The page renders a terminal: the first of [sp_terms], which are newest first. *)
  sp_shown : bool;
  sp_terms : list Term;
  (** What the terminals share, and the number of the next [SSHClient]. *)
  sp_window : Window;
  sp_browser : Browser;
  sp_next : nat;
  (** [status] and [statusError], as the terminal last reported them. *)
  sp_status : ConnectionStatus * option jsstring;
  sp_filter : TagFilterState;
  sp_panelOpen : bool;
  sp_showOverlay : bool;
  sp_topBarHeight : Z;
}.

Definition sp_set_detail (d : DetailPage) (s : SessionPage) : SessionPage :=
  {| sp_detail := d; sp_restart := sp_restart s; sp_live := sp_live s; sp_shown := sp_shown s;
     sp_terms := sp_terms s; sp_window := sp_window s; sp_browser := sp_browser s;
     sp_next := sp_next s; sp_status := sp_status s; sp_filter := sp_filter s;
     sp_panelOpen := sp_panelOpen s; sp_showOverlay := sp_showOverlay s;
     sp_topBarHeight := sp_topBarHeight s |}.
Definition sp_set_life (live shown : bool) (s : SessionPage) : SessionPage :=
  {| sp_detail := sp_detail s; sp_restart := sp_restart s; sp_live := live; sp_shown := shown;
     sp_terms := sp_terms s; sp_window := sp_window s; sp_browser := sp_browser s;
     sp_next := sp_next s; sp_status := sp_status s; sp_filter := sp_filter s;
     sp_panelOpen := sp_panelOpen s; sp_showOverlay := sp_showOverlay s;
     sp_topBarHeight := sp_topBarHeight s |}.
Definition sp_set_terms (l : list Term) (w : Window) (b : Browser) (next : nat)
    (status : ConnectionStatus * option jsstring) (s : SessionPage) : SessionPage :=
  {| sp_detail := sp_detail s; sp_restart := sp_restart s; sp_live := sp_live s;
     sp_shown := sp_shown s; sp_terms := l; sp_window := w; sp_browser := b;
     sp_next := next; sp_status := status; sp_filter := sp_filter s;
     sp_panelOpen := sp_panelOpen s; sp_showOverlay := sp_showOverlay s;
     sp_topBarHeight := sp_topBarHeight s |}.
Definition sp_set_view (filter : TagFilterState) (panel overlay : bool) (bar : Z) (b : Browser)
    (s : SessionPage) : SessionPage :=
  {| sp_detail := sp_detail s; sp_restart := sp_restart s; sp_live := sp_live s;
     sp_shown := sp_shown s; sp_terms := sp_terms s; sp_window := sp_window s; sp_browser := b;
     sp_next := sp_next s; sp_status := sp_status s; sp_filter := filter;
     sp_panelOpen := panel; sp_showOverlay := overlay; sp_topBarHeight := bar |}.

(** A terminal as it finds what it shares with the others. *)
Definition at_page (s : SessionPage) (t : Term) : Term :=
  set_env (sp_browser s) (committed t) (now t) (set_client (client t) (sp_window s) t).

(** An event of the [k]th terminal.  Its effects report the status of the render they belong to;
    when one throws, React takes the whole page off the screen. *)
Definition terminal_step (k : nat) (o : Oracle) (e : Event) (s : SessionPage) : SessionPage :=
  match sp_terms s !! k with
  | None => s
  | Some t =>
      let t' := SshTerminal.step (at_page s t) (o, e) in
      let on_screen := sp_live s && sp_shown s && (k =? 0)%nat in
      let reported :=
        match e with
        | E_commit => if on_screen then (status (ui t), statusError (ui t)) else sp_status s
        | _ => sp_status s
        end in
      let s' := sp_set_terms (<[k := t']> (sp_terms s)) (window t') (browser t') (sp_next s) reported s in
      if on_screen then sp_set_life (mountedRef (refs t')) (sp_shown s) s' else s'
  end.

(** React brings the terminal in line with what the page renders: it mounts one, gives it new
    props, or unmounts it.  The oracle is not asked. *)
Definition page_render (s : SessionPage) : SessionPage :=
  match sp_shown s, page_terminal (sp_detail s) with
  | true, Some (h, nm) => terminal_step 0 no_reports (E_render (Some h) nm) s
  | true, None => terminal_step 0 no_reports E_unmount (sp_set_life (sp_live s) false s)
  | false, Some (h, nm) =>
      let t := mounted_term (sp_next s) (Some h) nm (sp_restart s) (sp_browser s) (sp_window s)
                 (dp_now (sp_detail s)) in
      sp_set_life (sp_live s) true
        (sp_set_terms (t :: sp_terms s) (sp_window s) (sp_browser s) (S (sp_next s))
           (disconnected, None) s)
  | false, None => s
  end.

(** The page opened from a history entry; [next] numbers the [SSHClient]s of the tab. *)
Definition session_mount (e : Entry) (i : jsstring) (next : nat) (b : Browser) (w : Window)
    : SessionPage :=
  {| sp_detail := detail_mount i; sp_restart := (restart_mount e).1; sp_live := true;
     sp_shown := false; sp_terms := []; sp_window := w; sp_browser := b; sp_next := next;
     sp_status := (disconnected, None); sp_filter := useTagFilter_init (localStorage b);
     sp_panelOpen := panel_init (localStorage b); sp_showOverlay := false; sp_topBarHeight := 40 |}.

(** ** The machine *)

Inductive PageEvent :=
(** An answer, an update, a timer, a gesture or the browser's back and forward. *)
| SP_detail (e : DetailEvent)
(** A row of the Sessions tab, and a key on the window. *)
| SP_select (i : jsstring)
| SP_key (e : KeyEvent)
| SP_filter (next : list jsstring)
| SP_panel
| SP_overlay (isopen : bool)
(** The height of the top bar, measured or observed. *)
| SP_bar (height : Z)
(** The button that connects or disconnects, and the one that restarts. *)
| SP_connection (o : Oracle)
| SP_restart_press (o : Oracle)
(** What only concerns the [k]th terminal. *)
| SP_terminal (k : nat) (o : Oracle) (e : Event)
| SP_leave.

(** What the page does to its terminal through its props and its handle. *)
Definition page_only (e : Event) : bool :=
  match e with
  | E_render _ _ | E_unmount | E_connect | E_disconnect | E_restart => true
  | _ => false
  end.

Section page.
Context {L : Locale}.
(** [isStandalone()]. *)
Context (standalone : bool).

(** [visibleSessions], which the key handler reads. *)
Definition visible_sessions (s : SessionPage) : list Session :=
  tf_visible (useTagFilter (sp_filter s) (sortBySeq (d_sessions (dp_detail (sp_detail s))))).

(** What an event means for the page without its terminal; selecting a session is a
    navigation. *)
Definition detail_event (s : SessionPage) (e : PageEvent) : option DetailEvent :=
  match e with
  | SP_detail e => Some e
  | SP_select i => Some (DP_route i)
  | SP_key e =>
      if standalone then DP_route <$> digit_target e (visible_sessions s) (Some (dp_id (sp_detail s)))
      else None
  | _ => None
  end.


Definition control_step (s : SessionPage) (e : PageEvent) : SessionPage :=
  match e with
  | SP_filter next =>
      let h := setSelected next {| stored := stored (sp_filter s); local_storage := localStorage (sp_browser s) |} in
      sp_set_view h (sp_panelOpen s) (sp_showOverlay s) (sp_topBarHeight s)
        (set_storage (local_storage h) (sp_browser s)) s
  | SP_panel =>
      let '(isopen, st) := togglePanel (sp_panelOpen s) (localStorage (sp_browser s)) in
      sp_set_view (sp_filter s) isopen (sp_showOverlay s) (sp_topBarHeight s)
        (set_storage st (sp_browser s)) s
  | SP_overlay isopen =>
      sp_set_view (sp_filter s) (sp_panelOpen s) isopen (sp_topBarHeight s) (sp_browser s) s
  | SP_bar height =>
      if sp_shown s then
        sp_set_view (sp_filter s) (sp_panelOpen s) (sp_showOverlay s) height (sp_browser s) s
      else s
  | SP_connection o =>
      if sp_shown s then
        terminal_step 0 o (match (sp_status s).1 with
                           | disconnected | error_status => E_connect
                           | _ => E_disconnect
                           end) s
      else s
  | SP_restart_press o => if sp_shown s then terminal_step 0 o E_restart s else s
  | SP_leave => sp_set_life false false
                  (if sp_shown s then terminal_step 0 no_reports E_unmount (sp_set_life true false s) else s)
  | _ => s
  end.

(** Terminals go on when the page is gone. *)
Definition session_step (s : SessionPage) (e : PageEvent) : SessionPage :=
  match e with
  | SP_terminal k o e => if page_only e then s else terminal_step k o e s
  | _ =>
      if negb (sp_live s) then s else
      match detail_event s e with
      | Some d => page_render (sp_set_detail (detail_step (sp_detail s) d) s)
      | None => control_step s e
      end
  end.
End page.

(** ** Facts: the commands of one terminal *)

(** A command a terminal may run: for its own session, and a start only when one was asked for. *)
Definition own_command (asked : bool) (t : Term) (x : jsstring * jsstring) : Prop :=
  ∃ h, SshTerminal.host t = Some h ∧
    (x = attaches h (sessionName t) ∨ asked || pendingRestart (refs t) = true ∧ x = starts h (sessionName t)).

(** A pending restart of [t] waits, or is the first command run. *)
Definition starts_first (t t' : Term) (l : list (jsstring * jsstring)) : Prop :=
  pendingRestart (refs t) = true →
  (l = [] → pendingRestart (refs t') = true) ∧
  ∀ x, head l = Some x → ∃ h, x = starts h (sessionName t).

(** From [t] to [t'] the target stays, no restart comes up unasked, only own commands run, and a
    pending restart comes first. *)
Definition attends (asked : bool) (t t' : Term) : Prop :=
  SshTerminal.host t' = SshTerminal.host t ∧ sessionName t' = sessionName t ∧
  (pendingRestart (refs t') = true → asked || pendingRestart (refs t) = true) ∧
  ∃ l, execs (window t') = execs (window t) ++ l ∧ Forall (own_command asked t) l ∧
    starts_first t t' l.

Lemma attends_quiet asked t t' :
  intent t' = intent t → execs (window t') = execs (window t) → attends asked t t'.
Proof.
  unfold intent. intros [= E1 E2 E3] E4. split_and!; [done..|by rewrite E3; intros ->; rewrite orb_true_r|].
  exists []. rewrite app_nil_r. split_and!; [done..|]. intros Hp. split; [congruence|done].
Qed.

Lemma attends_trans asked t1 t2 t3 : attends asked t1 t2 → attends asked t2 t3 → attends asked t1 t3.
Proof.
  intros (A1 & A2 & A3 & l1 & A4 & A5 & A6) (B1 & B2 & B3 & l2 & B4 & B5 & B6).
  assert (Hp : asked || pendingRestart (refs t2) = true → asked || pendingRestart (refs t1) = true).
  { destruct asked; [done|exact A3]. }
  split_and!; [congruence..|by intros H; apply Hp, B3|].
  exists (l1 ++ l2). rewrite B4, A4, app_assoc. split; [done|]. split.
  - apply Forall_app. split; [done|].
    eapply Forall_impl; [exact B5|]. intros x (h & Hh & Hx). exists h. rewrite <- A1, <- A2.
    split; [exact Hh|]. destruct Hx as [Hx|[Ha Hx]]; [by left|right; split; [by apply Hp|exact Hx]].
  - intros Ht. destruct (A6 Ht) as [C1 C2]. destruct l1 as [|y l1]; [|split; [done|exact C2]].
    destruct (B6 (C1 eq_refl)) as [D1 D2]. split; [exact D1|]. by rewrite <- A2.
Qed.

(** A call that is not a command. *)
Lemma attends_adds (Q : WasmCall → Prop) asked t t' :
  intent t' = intent t → adds Q t t' → (∀ c, Q c → exec_of c = None) → attends asked t t'.
Proof. intros Hi Ha HQ. apply attends_quiet; [exact Hi|by eapply adds_execs]. Qed.

Lemma attends_connect asked o h t : attends asked t (doConnect o h t).2.
Proof.
  apply (attends_adds is_connect); [apply doConnect_intent|by apply doConnect_adds|by intros []].
Qed.

Lemma attends_unmount asked t : attends asked t (unmount t).
Proof.
  apply (attends_adds (λ c, c = sshDisconnectPending)); [done|by apply unmount_adds|by intros ? ->].
Qed.

(** The command of an attach or of a restart: [r] and [p] are what becomes of the refs. *)
Lemma attends_exec asked o h t r p cmd :
  SshTerminal.host t = Some h → (p = true → asked || pendingRestart (refs t) = true) →
  (pendingRestart (refs t) = false ∧ cmd = attachCommand (sessionName t) ∨
   asked || pendingRestart (refs t) = true ∧ cmd = startCommand (sessionName t)) →
  attends asked t (wasm_call o (sshExec (of_int (host_id_ h)) cmd) (set_refs (with_exec r p (refs t)) t)).
Proof.
  intros Hh Hp Hcmd. set (u := set_refs _ t). set (c := sshExec _ _).
  pose proof (wasm_call_intent o c u) as Hi. unfold intent in Hi. injection Hi as E1 E2 E3.
  split_and!; [exact E1|exact E2|by rewrite E3|].
  exists [(of_int (host_id_ h), cmd)]. split_and!.
  - unfold execs. rewrite wasm_call_window. cbn [log_call calls]. by rewrite omap_app.
  - apply Forall_singleton. exists h. split; [exact Hh|]. unfold attaches, starts.
    destruct Hcmd as [[_ ->]|[Ha ->]]; [by left|by right].
  - intros Ht. split; [done|]. intros x [= <-]. exists h.
    destruct Hcmd as [[Hf _]|[_ ->]]; [congruence|done].
Qed.

Lemma attends_attach asked o t : attends asked t (attach_effect o t).
Proof.
  unfold attach_effect, hostKey. destruct (SshTerminal.host t) as [h|] eqn:Hh; [|by apply attends_quiet].
  cbn [key_of]. destruct (of_int (host_id_ h)) as [|c k] eqn:Ek; [by apply attends_quiet|].
  case_decide; [|by apply attends_quiet]. rewrite <- Ek. cbn zeta.
  apply attends_exec; [exact Hh|done|]. change (sessionName (set_refs _ t)) with (sessionName t).
  destruct (pendingRestart (refs t)); [right; by rewrite orb_true_r|by left].
Qed.

Lemma attends_commit asked o t : attends asked t (commit o t).
Proof.
  unfold commit. destruct (negb _); [by apply attends_quiet|]. cbn zeta. set (t1 := set_refs _ _).
  assert (H1 : attends asked t t1) by by apply attends_quiet.
  destruct (if connect_deps_changed _ _ then _ else _) as [r t2] eqn:E.
  assert (H2 : attends asked t t2).
  { destruct (connect_deps_changed _ _); [|injection E as _ <-; exact H1].
    unfold connect_effect in E. destruct (negb _); [injection E as _ <-; exact H1|].
    eapply attends_trans; [exact H1|]. replace t2 with (doConnect o (SshTerminal.host t1) t1).2
      by by rewrite E. apply attends_connect. }
  eapply attends_trans; [exact H2|]. destruct r; [|apply attends_unmount].
  destruct (attach_deps_changed _ _); [apply attends_attach|by apply attends_quiet].
Qed.

Lemma attends_restart o t : attends true t (doRestart o t).2.
Proof.
  unfold doRestart, hostKey. destruct (SshTerminal.host t) as [h|] eqn:Hh; [|by apply attends_quiet].
  cbn [key_of]. destruct (of_int (host_id_ h)) as [|c k] eqn:Ek; [by apply attends_quiet|].
  case_decide; cbn zeta.
  - rewrite <- Ek. change (sessionName (set_refs _ t)) with (sessionName t). apply attends_exec; [exact Hh|done|by right].
  - eapply attends_trans; [|apply attends_connect].
    split_and!; [done..|]. exists []. rewrite app_nil_r. by split_and!.
Qed.

Definition asks (e : Event) : bool := match e with E_restart => true | _ => false end.

(** Every event but a render. *)
Lemma attends_step o e t :
  match e with E_render _ _ => False | _ => True end → attends (asks e) t (SshTerminal.step t (o, e)).
Proof.
  intros He. destruct e; try (by apply attends_quiet; [apply quiet_intent|apply quiet_execs]); try done.
  - apply attends_commit.
  - cbn [SshTerminal.step asks]. destruct (mountedRef _); [apply attends_restart|by apply attends_quiet].
Qed.

(** ** Facts: the page *)

Definition is_restart (e : PageEvent) : bool := match e with SP_restart_press _ => true | _ => false end.

(** The page and its terminals agree: the one on screen is mounted and has the target of the
    session shown, the others are unmounted, and only an asked restart is pending. *)
Record coherent (asked : bool) (s : SessionPage) : Prop := {
  co_shown : sp_live s = true → sp_shown s = true →
    ∃ t rest h, sp_terms s = t :: rest ∧ mountedRef (refs t) = true ∧
      SshTerminal.host t = Some h ∧ page_terminal (sp_detail s) = Some (h, sessionName t);
  co_gone : ∀ k t, sp_terms s !! k = Some t → sp_live s && sp_shown s && (k =? 0)%nat = false →
    mountedRef (refs t) = false;
  co_asked : ∀ k t, sp_terms s !! k = Some t → pendingRestart (refs t) = true → asked = true;
  co_restart : sp_restart s = true → asked = true;
}.

(** A command of the page: for the session on screen. *)
Definition page_command (asked : bool) (s : SessionPage) (x : jsstring * jsstring) : Prop :=
  ∃ h nm, sp_live s = true ∧ page_terminal (sp_detail s) = Some (h, nm) ∧
    (x = attaches h nm ∨ asked = true ∧ x = starts h nm).

(** The terminal on screen, if any, still has to start its session. *)
Definition fresh (s : SessionPage) : Prop :=
  ∀ t rest, sp_live s = true → sp_shown s = true → sp_terms s = t :: rest →
    pendingRestart (refs t) = true.

(** On a page opened to restart, [l] begins with a start. *)
Definition restarts_first (s s' : SessionPage) (l : list (jsstring * jsstring)) : Prop :=
  sp_restart s = true → fresh s →
  (l = [] → fresh s') ∧ ∀ x, head l = Some x → ∃ h nm, x = starts h nm.

(** What a step keeps and runs. *)
Definition page_runs (asked : bool) (s s' : SessionPage) : Prop :=
  coherent asked s' ∧ sp_restart s' = sp_restart s ∧
  ∃ l, execs (sp_window s') = execs (sp_window s) ++ l ∧ Forall (page_command asked s) l ∧
    restarts_first s s' l.

Lemma page_runs_quiet asked s s' :
  coherent asked s' → sp_restart s' = sp_restart s →
  execs (sp_window s') = execs (sp_window s) → (sp_restart s = true → fresh s → fresh s') →
  page_runs asked s s'.
Proof.
  intros H Er E Hf. split; [exact H|]. split; [exact Er|]. exists []. rewrite app_nil_r.
  split_and!; [done..|]. intros Hr Hs. split; [|done]. intros _. by apply Hf.
Qed.

Lemma coherent_mono a b s : (a = true → b = true) → coherent a s → coherent b s.
Proof. intros Hab [H1 H2 H3 H4]. split; [exact H1|exact H2|eauto..]. Qed.

(** A terminal that is not on screen runs nothing and stays unmounted. *)
Lemma unmounted_quiet t o e :
  mountedRef (refs t) = false →
  mountedRef (refs (SshTerminal.step t (o, e))) = false ∧
  execs (window (SshTerminal.step t (o, e))) = execs (window t).
Proof.
  intros Hm. destruct (term_step_unmounted t o e Hm) as [H Ha]. split; [exact H|].
  eapply (adds_execs is_certificate); [exact Ha|by intros []].
Qed.

Definition not_of_page (e : Event) : Prop :=
  match e with E_render _ _ | E_unmount => False | _ => True end.

(** An event of the terminal on screen that is neither a render nor its unmounting. *)
Lemma shown_step_runs a o e s t rest :
  not_of_page e → (asks e = true → a = true) → coherent a s →
  sp_live s = true → sp_shown s = true → sp_terms s = t :: rest →
  page_runs a s (terminal_step 0 o e s).
Proof.
  intros He Ha H El Es Et. destruct (co_shown a s H El Es) as (t0 & rest0 & h & Et0 & Hm & Hh & Ht).
  rewrite Et in Et0. injection Et0 as <- <-. unfold terminal_step. rewrite Et. cbn [lookup list_lookup].
  destruct (attends_step o e (at_page s t)) as (T1 & T2 & T3 & l & T4 & T5 & T6); [by destruct e|].
  cbn zeta. set (t' := SshTerminal.step (at_page s t) (o, e)) in *. clearbody t'.
  assert (Hq : asks e || pendingRestart (refs t) = true → a = true).
  { intros Hp. apply orb_true_iff in Hp as [Hp|Hp]; [by apply Ha|].
    apply (co_asked a s H 0 t); [by rewrite Et|exact Hp]. }
  rewrite El, Es. cbn [andb Nat.eqb]. split; [|split; [done|]].
  - split; cbn [sp_set_life sp_set_terms sp_live sp_shown sp_terms sp_detail sp_restart insert list_insert].
    + intros Hm' _. exists t', rest, h. cbn in T1, T2. rewrite T1, T2. done.
    + intros [|j] u; cbn [lookup list_lookup].
      * intros [= <-]. by rewrite !andb_true_r.
      * intros Hj _. apply (co_gone a s H (S j)); [by rewrite Et|by rewrite andb_false_r].
    + intros [|j] u; cbn [lookup list_lookup].
      * intros [= <-] Hp. by apply Hq, T3.
      * intros Hj. apply (co_asked a s H (S j)). by rewrite Et.
    + apply (co_restart a s H).
  - exists l. split; [exact T4|]. split.
    + eapply Forall_impl; [exact T5|].
      intros x (h' & Hh' & Hx). cbn in Hh', Hx. exists h, (sessionName t).
      split_and!; [done..|]. replace h' with h in Hx by congruence.
      destruct Hx as [Hx|[Hp Hx]]; [by left|right]. split; [by apply Hq|exact Hx].
    + intros _ Hf. destruct (T6 (Hf t rest El Es Et)) as [C1 C2]. split.
      * intros Hl u r _ _ [= <- _]. by apply C1.
      * intros x Hx. destruct (C2 x Hx) as (h' & ->). by eexists _, _.
Qed.

(** An event of a terminal that is off the screen. *)
Lemma hidden_step_runs a k o e s t :
  coherent a s → sp_terms s !! k = Some t → sp_live s && sp_shown s && (k =? 0)%nat = false →
  not_of_page e → (asks e = true → a = true) → page_runs a s (terminal_step k o e s).
Proof.
  intros H Ek Eon He Ha. unfold terminal_step. rewrite Ek, Eon. cbn zeta.
  destruct (unmounted_quiet (at_page s t) o e) as [Hm Hx]; [exact (co_gone a s H k t Ek Eon)|].
  destruct (attends_step o e (at_page s t)) as (_ & _ & T3 & _); [by destruct e|].
  set (t' := SshTerminal.step (at_page s t) (o, e)) in *. clearbody t'.
  apply page_runs_quiet; [|done|exact Hx|].
  - split; cbn [sp_set_terms sp_live sp_shown sp_terms sp_detail sp_restart].
    + intros El Es. destruct (co_shown a s H El Es) as (t0 & rest & h & Et & H').
      rewrite El, Es in Eon. destruct k as [|k]; [done|]. rewrite Et. cbn. by exists t0, (<[k:=t']> rest), h.
    + intros j u Hj Hoff. apply list_lookup_insert_Some in Hj as [(<- & <- & _)|[_ Hj]]; [exact Hm|].
      by apply (co_gone a s H j).
    + intros j u Hj. apply list_lookup_insert_Some in Hj as [(<- & <- & _)|[_ Hj]]; [|by apply (co_asked a s H j)].
      intros Hp. apply T3, orb_true_iff in Hp as [Hp|Hp]; [by apply Ha|by apply (co_asked a s H k t)].
    + apply (co_restart a s H).
  - intros _ Hf u rest El Es. cbn [sp_set_terms sp_terms sp_live sp_shown] in *.
    rewrite El, Es in Eon. destruct k as [|k]; [done|]. destruct (sp_terms s) as [|v l'] eqn:Ev; [done|].
    cbn [insert list_insert]. intros [= <- _]. by apply (Hf v l').
Qed.

Lemma terminal_step_runs a k o e s :
  not_of_page e → (asks e = true → a = true) → coherent a s → page_runs a s (terminal_step k o e s).
Proof.
  intros He Ha H. destruct (sp_terms s !! k) as [t|] eqn:Ek;
    [|unfold terminal_step; rewrite Ek; by apply page_runs_quiet].
  destruct (sp_live s && sp_shown s && (k =? 0)%nat) eqn:Eon; [|by apply (hidden_step_runs a k o e s t)].
  apply andb_true_iff in Eon as [Eon Ek0]. apply andb_true_iff in Eon as [El Es].
  apply Nat.eqb_eq in Ek0 as ->. destruct (sp_terms s) as [|v rest] eqn:Et; [done|].
  by apply (shown_step_runs a o e s v rest).
Qed.

(** Taking the terminal on screen off it. *)
Lemma take_off_coherent a live s :
  coherent a s → sp_live s = true → sp_shown s = true →
  let s' := terminal_step 0 no_reports E_unmount (sp_set_life live false s) in
  coherent a s' ∧ execs (sp_window s') = execs (sp_window s) ∧ sp_shown s' = false ∧ sp_live s' = live ∧
  sp_restart s' = sp_restart s.
Proof.
  intros H El Es. destruct (co_shown a s H El Es) as (t & rest & h & Et & Hm & Hh & Ht).
  unfold terminal_step. cbn [sp_set_life sp_terms]. rewrite Et. cbn [lookup list_lookup].
  cbn [sp_live sp_shown]. rewrite andb_false_r. cbn zeta.
  destruct (attends_step no_reports E_unmount (at_page s t) I) as (_ & _ & T3 & _).
  pose proof (quiet_execs no_reports E_unmount (at_page s t) I) as Hx.
  pose proof (unmounted_after no_reports (at_page s t)) as Hu.
  change (at_page _ t) with (at_page s t).
  set (t' := SshTerminal.step (at_page s t) (no_reports, E_unmount)) in *. clearbody t'.
  split; [|by split_and!; [exact Hx|..]].
  split; cbn [sp_set_terms sp_live sp_shown sp_terms sp_detail sp_restart insert list_insert].
  - done.
  - intros [|j] u; cbn [lookup list_lookup]; [by intros [= <-]|].
    intros Hj _. apply (co_gone a s H (S j)); [by rewrite Et|by rewrite andb_false_r].
  - intros [|j] u; cbn [lookup list_lookup].
    + intros [= <-] Hp. apply (co_asked a s H 0 t); [by rewrite Et|by apply T3].
    + intros Hj. apply (co_asked a s H (S j)). by rewrite Et.
  - apply (co_restart a s H).
Qed.

Lemma terminal_step_detail k o e d s :
  terminal_step k o e (sp_set_detail d s) = sp_set_detail d (terminal_step k o e s).
Proof.
  unfold terminal_step. cbn [sp_set_detail sp_terms sp_live sp_shown].
  destruct (sp_terms s !! k) as [t|]; [|done]. cbn zeta.
  change (at_page (sp_set_detail d s) t) with (at_page s t).
  by destruct (sp_live s && sp_shown s && (k =? 0)%nat).
Qed.

Lemma coherent_hidden a d s :
  sp_shown s = false → coherent a s → coherent a (sp_set_detail d s).
Proof. intros Hs [H1 H2 H3 H4]. split; [|exact H2|exact H3|exact H4]. cbn. congruence. Qed.

(** A render after the page's data changed runs nothing and brings the terminal in line. *)
Lemma page_render_runs a d s :
  coherent a s → sp_live s = true →
  page_runs a s (page_render (sp_set_detail d s)).
Proof.
  intros H El.
  enough (Hg : let s' := page_render (sp_set_detail d s) in
    coherent a s' ∧ sp_restart s' = sp_restart s ∧ execs (sp_window s') = execs (sp_window s) ∧
    (sp_restart s = true → fresh s → fresh s')).
  { destruct Hg as (G1 & G2 & G3 & G4). by apply page_runs_quiet. }
  unfold page_render. cbn [sp_set_detail sp_shown sp_detail]. cbn zeta.
  destruct (sp_shown s) eqn:Es; destruct (page_terminal d) as [[h nm]|] eqn:Ed.
  - destruct (co_shown a s H El Es) as (t & rest & h0 & Et & Hm & Hh & Ht).
    unfold terminal_step. cbn [sp_set_detail sp_terms sp_live sp_shown]. rewrite Et, El, Es.
    cbn [lookup list_lookup andb Nat.eqb]. cbn zeta. cbn [SshTerminal.step].
    change (mountedRef (refs (at_page (sp_set_detail d s) t))) with (mountedRef (refs t)).
    rewrite Hm. split; [|split; [done|split; [done|]]].
    2: { intros _ Hf u r _ _. cbn [sp_set_life sp_set_terms sp_terms insert list_insert].
         intros [= <- _]. by apply (Hf t rest). }
    split; cbn [sp_set_life sp_set_terms sp_set_detail sp_live sp_shown sp_terms sp_detail sp_restart
                insert list_insert].
    + intros _ _. eexists _, rest, h. by split_and!.
    + intros [|j] u; cbn [lookup list_lookup].
      * intros [= <-]. cbn. by rewrite Hm.
      * intros Hj _. apply (co_gone a s H (S j)); [by rewrite Et|by rewrite andb_false_r].
    + intros [|j] u; cbn [lookup list_lookup].
      * intros [= <-] Hp. apply (co_asked a s H 0 t); [by rewrite Et|exact Hp].
      * intros Hj. apply (co_asked a s H (S j)). by rewrite Et.
    + apply (co_restart a s H).
  - change (sp_set_life (sp_live (sp_set_detail d s)) false (sp_set_detail d s))
      with (sp_set_detail d (sp_set_life (sp_live s) false s)).
    rewrite terminal_step_detail. destruct (take_off_coherent a (sp_live s) s H El Es) as (Hc & Hx & Hs & _ & Hr).
    split; [by apply coherent_hidden|]. split; [exact Hr|]. split; [exact Hx|].
    intros _ _ u r _ Hsh. cbn [sp_set_detail sp_shown] in Hsh. congruence.
  - split; [|split; [done|split; [done|]]].
    2: { intros Hr _ u r _ _. cbn [sp_set_life sp_set_terms sp_terms]. by intros [= <- _]. }
    split; cbn [sp_set_life sp_set_terms sp_set_detail sp_live sp_shown sp_terms sp_detail sp_restart
                sp_next sp_window sp_browser].
    + intros _ _. eexists _, (sp_terms s), h. by split_and!.
    + intros [|j] u; cbn [lookup list_lookup]; rewrite El; [done|].
      intros Hj _. apply (co_gone a s H j); [exact Hj|]. by rewrite Es, andb_false_r.
    + intros [|j] u; cbn [lookup list_lookup]; [|apply (co_asked a s H j)].
      intros [= <-]. apply (co_restart a s H).
    + apply (co_restart a s H).
  - split; [by apply coherent_hidden|]. split; [done|]. split; [done|].
    intros _ _ u r _ Hsh. cbn [sp_set_detail sp_shown] in Hsh. congruence.
Qed.

Section page_facts.
Context {L : Locale}.
Context (standalone : bool).

Abbreviation step_of := (session_step standalone).

Lemma view_runs a f panel overlay bar b s :
  coherent a s → page_runs a s (sp_set_view f panel overlay bar b s).
Proof. intros H. apply page_runs_quiet; [|done..]. destruct H as [H1 H2 H3 H4]. by split. Qed.

(** Once its terminal is off the screen, the page can go. *)
Lemma left_coherent a s : coherent a s → sp_shown s = false → coherent a (sp_set_life false false s).
Proof.
  intros [H1 H2 H3 H4] Es. split; cbn [sp_set_life sp_live sp_shown]; [done| |exact H3|exact H4].
  intros k t Hk _. apply (H2 k t Hk). by rewrite Es, andb_false_r.
Qed.

Lemma leave_runs a s :
  coherent a s → sp_live s = true → page_runs a s (control_step s SP_leave).
Proof.
  intros H El. cbn [control_step]. destruct (sp_shown s) eqn:Es.
  - destruct (take_off_coherent a true s H El Es) as (Hc & Hx & Hs & _ & Hr).
    apply page_runs_quiet; [by apply left_coherent|exact Hr|exact Hx|done].
  - apply page_runs_quiet; [by apply left_coherent|done..].
Qed.

Lemma session_step_runs a s e :
  coherent a s → page_runs (a || is_restart e) s (step_of s e).
Proof.
  intros H0. set (b := a || is_restart e).
  assert (Hr : is_restart e = true → b = true) by (unfold b; intros ->; apply orb_true_r).
  assert (H : coherent b s) by (eapply coherent_mono; [|exact H0]; unfold b; by intros ->).
  clearbody b. clear H0. unfold session_step.
  destruct e as [d|i|k|next| |isopen|height|o|o|k o e|];
    try (destruct (sp_live s) eqn:El; cbn [negb]; [|by apply page_runs_quiet]);
    cbn [detail_event].
  - by apply page_render_runs.
  - by apply page_render_runs.
  - assert (Hk : page_runs b s s) by by apply page_runs_quiet.
    destruct standalone; [|exact Hk]. destruct (digit_target _ _ _) as [i|]; [|exact Hk].
    cbn [fmap option_fmap option_map].
    by apply page_render_runs.
  - by apply view_runs.
  - cbn [control_step]. destruct (togglePanel _ _). by apply view_runs.
  - by apply view_runs.
  - cbn [control_step]. destruct (sp_shown s); [by apply view_runs|by apply page_runs_quiet].
  - cbn [control_step]. destruct (sp_shown s); [|by apply page_runs_quiet].
    apply terminal_step_runs; [by destruct (sp_status s).1|by destruct (sp_status s).1|exact H].
  - cbn [control_step]. destruct (sp_shown s); [|by apply page_runs_quiet].
    apply terminal_step_runs; [done|intros _; by apply Hr|exact H].
  - destruct (page_only e) eqn:Ep; [by apply page_runs_quiet|].
    apply terminal_step_runs; [by destruct e|by destruct e|exact H].
  - by apply leave_runs.
Qed.

Lemma session_run a s es :
  coherent a s → fresh s →
  coherent (a || existsb is_restart es) (run step_of s es) ∧
  sp_restart (run step_of s es) = sp_restart s ∧
  ∃ l, execs (sp_window (run step_of s es)) = execs (sp_window s) ++ l ∧
    Forall (λ x, ∃ es1 e es2, es = es1 ++ e :: es2 ∧
      page_command (a || existsb is_restart (es1 ++ [e])) (run step_of s es1) x) l ∧
    restarts_first s (run step_of s es) l.
Proof.
  intros H Hf. induction es as [|e es IH] using rev_ind.
  { split; [by rewrite orb_false_r|]. split; [done|]. exists []. by rewrite app_nil_r. }
  destruct IH as [Hc (Hr & l & El & Hl & Hfirst)]. rewrite run_app. cbn [run foldl].
  destruct (session_step_runs _ _ e Hc) as (Hc' & Hr' & k & Ek & Hk & Hfirst').
  rewrite existsb_app. cbn [existsb]. rewrite orb_false_r, orb_assoc.
  change (foldl step_of s es) with (run step_of s es).
  split; [exact Hc'|]. split; [congruence|]. exists (l ++ k).
  rewrite Ek, El, app_assoc. split; [done|]. split.
  - apply Forall_app. split; (eapply Forall_impl; [eassumption|]).
    + intros x (es1 & e1 & es2 & -> & Hx). exists es1, e1, (es2 ++ [e]).
      split; [by rewrite <- app_assoc|exact Hx].
    + intros x Hx. exists es, e, []. split; [done|]. rewrite existsb_app. cbn [existsb].
      by rewrite orb_false_r, orb_assoc.
  - intros Hrs _. destruct (Hfirst Hrs Hf) as [F1 F2]. destruct l as [|y l]; [|split; [done|exact F2]].
    exact (Hfirst' (eq_trans Hr Hrs) (F1 eq_refl)).
Qed.

(** What the page shows changes by the page's own events only. *)
Lemma terminal_step_keeps_detail k o e s : sp_detail (terminal_step k o e s) = sp_detail s.
Proof.
  unfold terminal_step. destruct (sp_terms s !! k); [|done]. cbn zeta.
  by destruct (sp_live s && sp_shown s && (k =? 0)%nat).
Qed.

Lemma page_render_detail s : sp_detail (page_render s) = sp_detail s.
Proof.
  unfold page_render. destruct (sp_shown s), (page_terminal (sp_detail s)) as [[h nm]|]; try done;
    by rewrite terminal_step_keeps_detail.
Qed.

(** The event of the page's data, if any. *)
Definition data_event (s : SessionPage) (e : PageEvent) : option DetailEvent :=
  if sp_live s then detail_event standalone s e else None.

Lemma session_step_detail s e :
  sp_detail (step_of s e) =
  match data_event s e with Some d => detail_step (sp_detail s) d | None => sp_detail s end.
Proof.
  unfold session_step, data_event.
  destruct e as [d|i|k|next| |isopen|height|o|o|k o e|];
    try (destruct (sp_live s); cbn [negb]; [|done]); cbn [detail_event control_step];
    try by rewrite page_render_detail.
  - destruct standalone; [|done]. destruct (digit_target _ _ _) as [i|]; [|done].
    cbn [fmap option_fmap option_map]. by rewrite page_render_detail.
  - done.
  - by destruct (togglePanel _ _).
  - done.
  - by destruct (sp_shown s).
  - destruct (sp_shown s); [|done]. by rewrite terminal_step_keeps_detail.
  - destruct (sp_shown s); [|done]. by rewrite terminal_step_keeps_detail.
  - destruct (page_only e); [by destruct (sp_live s)|]. rewrite terminal_step_keeps_detail. by destruct (sp_live s).
  - destruct (sp_shown s); [|done]. cbn [sp_set_life sp_detail]. by rewrite terminal_step_keeps_detail.
Qed.

(** The server answers honestly and in time ([timely]), as long as the page is there. *)
Fixpoint all_honest (s : SessionPage) (es : list PageEvent) : Prop :=
  match es with
  | [] => True
  | e :: es =>
      match data_event s e with Some d => timely (sp_detail s) d | None => True end ∧
      all_honest (step_of s e) es
  end.

Lemma honest_shows_route s es1 es2 :
  shows_route (sp_detail s) → all_honest s (es1 ++ es2) →
  shows_route (sp_detail (run step_of s es1)).
Proof.
  revert s. induction es1 as [|e es1 IH]; intros s Hs Hh; [exact Hs|]. destruct Hh as [He Hh].
  apply IH; [|exact Hh]. rewrite session_step_detail.
  destruct (data_event s e); [by apply shows_route_step|exact Hs].
Qed.

Lemma shown_is_route p s :
  shows_route p → screen p = Sc_session s → dp_id p ∉ dp_loads p → ApiTypes.id s = dp_id p.
Proof.
  intros [_ H] Hs Hl. unfold screen in Hs. destruct (dp_loading p); [done|].
  destruct (dp_error p); [|done]. destruct H as [H|[H|(x & Hx & E)]]; [done|done|].
  rewrite Hx in Hs. congruence.
Qed.

Lemma session_mount_coherent e i next b w :
  coherent (restart_mount e).1 (session_mount e i next b w).
Proof. by split. Qed.

End page_facts.

(** ** Facts: moving to another session *)

(** The page shows a session and loads nothing. *)
Record at_rest (p : DetailPage) : Prop := {
  ar_loading : dp_loading p = false;
  ar_error : dp_error p = [];
  ar_loads : dp_loads p = [];
}.

(** Selecting a session and its answer, in the page's data. *)
Lemma select_detail p i x :
  at_rest p → i ≠ [] → i ≠ dp_id p →
  let routed := detail_step p (DP_route i) in
  let p' := detail_step routed (DP_load_answer 0 (Ok x)) in
  page_terminal routed = page_terminal p ∧ at_rest p' ∧ screen p' = Sc_session x ∧ dp_id p' = i.
Proof.
  intros [H1 H2 H3] Hi Hne. cbn [detail_step]. unfold route_change. rewrite decide_False by done.
  unfold loadSession_begin. destruct i as [|c i]; [done|]. cbn [dp_set_id dp_id dp_set_load dp_loads].
  rewrite H3. unfold page_terminal, screen, loadSession_finish.
  cbn [app lookup list_lookup dp_loads dp_set_load dp_loading dp_error dp_set_detail dp_detail
       dp_set_id d_session set_session dp_id Nat.eq_dec delete list_delete].
  rewrite H1, H2. done.
Qed.

Lemma terminal_step_window k o e s t :
  sp_terms s !! k = Some t →
  sp_window (terminal_step k o e s) = window (SshTerminal.step (at_page s t) (o, e)).
Proof.
  intros Ht. unfold terminal_step. rewrite Ht. cbn zeta.
  by destruct (sp_live s && sp_shown s && (k =? 0)%nat).
Qed.

(** The page with [t] on screen, which has what it shares with the others. *)
Record leads (s : SessionPage) (t : Term) (rest : list Term) : Prop := {
  ld_live : sp_live s = true;
  ld_shown : sp_shown s = true;
  ld_terms : sp_terms s = t :: rest;
  ld_sync : at_page s t = t;
}.

Lemma leads_step o e s t rest :
  leads s t rest → mountedRef (refs (SshTerminal.step t (o, e))) = true →
  let s' := terminal_step 0 o e s in
  leads s' (SshTerminal.step t (o, e)) rest ∧ sp_next s' = sp_next s ∧
  sp_window s' = window (SshTerminal.step t (o, e)).
Proof.
  intros [H1 H2 H3 H4] Hm. unfold terminal_step. rewrite H3. cbn [lookup list_lookup]. cbn zeta.
  rewrite H4. set (t' := SshTerminal.step t (o, e)) in *. clearbody t'. rewrite H1, H2.
  cbn [andb Nat.eqb]. rewrite Hm. split; [|done]. split; [done..|]. by destruct t'.
Qed.

Lemma leads_terminal {L : Locale} standalone s t rest o e :
  page_only e = false → leads s t rest → mountedRef (refs (SshTerminal.step t (o, e))) = true →
  leads (session_step standalone s (SP_terminal 0 o e)) (SshTerminal.step t (o, e)) rest.
Proof.
  intros He H Hm. unfold session_step. rewrite He. by apply (leads_step o e s t rest H Hm).
Qed.

Lemma set_props_same t h : SshTerminal.host t = Some h → set_props (Some h) (sessionName t) t = t.
Proof. intros <-. by destruct t. Qed.

(** A render that keeps a terminal gives it its props. *)
Lemma leads_render s t rest d h nm :
  leads s t rest → mountedRef (refs t) = true → page_terminal d = Some (h, nm) →
  let s' := page_render (sp_set_detail d s) in
  leads s' (set_props (Some h) nm t) rest ∧ sp_next s' = sp_next s ∧ sp_window s' = window t.
Proof.
  intros H Hm Hd. unfold page_render. cbn [sp_set_detail sp_shown sp_detail].
  rewrite (ld_shown _ _ _ H), Hd.
  assert (H' : leads (sp_set_detail d s) t rest) by by destruct H.
  assert (E : SshTerminal.step t (no_reports, E_render (Some h) nm) = set_props (Some h) nm t).
  { cbn [SshTerminal.step]. by rewrite Hm. }
  assert (Hm' : mountedRef (refs (SshTerminal.step t (no_reports, E_render (Some h) nm))) = true) by by rewrite E.
  destruct (leads_step no_reports (E_render (Some h) nm) _ t rest H' Hm') as (H1 & H2 & H3).
  rewrite E in H1, H3. done.
Qed.

Section select_facts.
Context {L : Locale}.
Context (standalone : bool).
Abbreviation step_of := (session_step standalone).

(** Selecting a session, up to the effects of the terminal. *)
Lemma select_leads s t rest h i x h' :
  leads s t rest → mountedRef (refs t) = true → SshTerminal.host t = Some h →
  page_terminal (sp_detail s) = Some (h, sessionName t) → at_rest (sp_detail s) →
  i ≠ [] → i ≠ dp_id (sp_detail s) → ApiTypes.host x = Some h' →
  let s' := run step_of s [SP_select i; SP_detail (DP_load_answer 0 (Ok x))] in
  leads s' (set_props (Some h') (name_or_id x) t) rest ∧ sp_next s' = sp_next s ∧
  screen (sp_detail s') = Sc_session x.
Proof.
  intros H Hm Hh Ht Hr Hi Hne Hx. cbn [run foldl].
  destruct (select_detail (sp_detail s) i x Hr Hi Hne) as (E1 & _ & E3 & _).
  set (routed := detail_step (sp_detail s) (DP_route i)) in *.
  destruct (leads_render s t rest routed h (sessionName t) H Hm) as (H1 & H2 & H3); [by rewrite E1|].
  rewrite (set_props_same t h Hh) in H1.
  assert (Es : step_of s (SP_select i) = page_render (sp_set_detail routed s)).
  { unfold session_step. by rewrite (ld_live _ _ _ H). }
  rewrite Es. set (s1 := page_render (sp_set_detail routed s)) in *.
  assert (Ed : sp_detail s1 = routed) by by (unfold s1; rewrite page_render_detail).
  clearbody s1. clear Es. unfold session_step. rewrite (ld_live _ _ _ H1). cbn [negb detail_event].
  rewrite Ed. set (p' := detail_step routed _) in *.
  assert (Ep : page_terminal p' = Some (h', name_or_id x)).
  { unfold page_terminal. by rewrite E3, Hx. }
  destruct (leads_render s1 t rest p' h' (name_or_id x) H1 Hm Ep) as (F1 & F2 & _).
  split; [exact F1|]. split; [congruence|]. by rewrite page_render_detail.
Qed.


(** Selecting a session without a host takes the terminal off the screen. *)
Lemma select_hostless s t rest i x :
  leads s t rest → at_rest (sp_detail s) → i ≠ [] → i ≠ dp_id (sp_detail s) →
  mountedRef (refs t) = true → SshTerminal.host t ≠ None →
  page_terminal (sp_detail s) = (λ h, (h, sessionName t)) <$> SshTerminal.host t →
  ApiTypes.host x = None →
  let s' := run step_of s [SP_select i; SP_detail (DP_load_answer 0 (Ok x))] in
  sp_live s' = true ∧ sp_shown s' = false ∧ at_rest (sp_detail s') ∧ dp_id (sp_detail s') = i ∧
  sp_restart s' = sp_restart s ∧ page_terminal (sp_detail s') = None.
Proof.
  intros H Hr Hi Hne Hm Hh Ht Hx. destruct (SshTerminal.host t) as [h|] eqn:Eh; [|done].
  cbn [fmap option_fmap option_map] in Ht. cbn [run foldl].
  destruct (select_detail (sp_detail s) i x Hr Hi Hne) as (E1 & E2 & E3 & E4).
  set (routed := detail_step (sp_detail s) (DP_route i)) in *.
  destruct (leads_render s t rest routed h (sessionName t) H Hm) as (H1 & _); [by rewrite E1|].
  rewrite (set_props_same t h Eh) in H1.
  assert (Es : step_of s (SP_select i) = page_render (sp_set_detail routed s)).
  { unfold session_step. by rewrite (ld_live _ _ _ H). }
  rewrite Es. set (s1 := page_render (sp_set_detail routed s)) in *.
  assert (Ed : sp_detail s1 = routed) by by (unfold s1; rewrite page_render_detail).
  assert (Er : sp_restart s1 = sp_restart s).
  { unfold s1, page_render. cbn [sp_set_detail sp_shown sp_detail].
    rewrite (ld_shown _ _ _ H), E1, Ht. unfold terminal_step. cbn [sp_set_detail sp_terms].
    rewrite (ld_terms _ _ _ H). cbn [lookup list_lookup]. cbn zeta. by case_match. }
  clearbody s1. clear Es. unfold session_step. rewrite (ld_live _ _ _ H1). cbn [negb detail_event].
  rewrite Ed. set (p' := detail_step routed _) in *.
  assert (Ep : page_terminal p' = None) by (unfold page_terminal; by rewrite E3, Hx).
  unfold page_render. cbn [sp_set_detail sp_shown sp_detail]. rewrite (ld_shown _ _ _ H1), Ep.
  unfold terminal_step. cbn [sp_set_life sp_set_detail sp_terms]. rewrite (ld_terms _ _ _ H1).
  cbn [lookup list_lookup]. cbn zeta. cbn [sp_set_life sp_live sp_shown].
  rewrite andb_false_r. cbn [andb sp_set_terms sp_live sp_shown sp_detail sp_set_detail sp_set_life sp_restart].
  rewrite (ld_live _ _ _ H1). done.
Qed.

(** A restart asked for once is run again for another session: [restartOnMount] is never
    cleared, so when the page leaves the restarted session for one without a host and then goes on
    to a third, the new terminal's first attach starts the third session. *)
Theorem restart_starts_third_session s t rest h b xb c xc hc o u :
  leads s t rest → sp_restart s = true → at_rest (sp_detail s) → mountedRef (refs t) = true →
  SshTerminal.host t = Some h → page_terminal (sp_detail s) = Some (h, sessionName t) →
  b ≠ [] → b ≠ dp_id (sp_detail s) → ApiTypes.host xb = None →
  c ≠ [] → c ≠ b → ApiTypes.host xc = Some hc →
  let s' := run step_of s [SP_select b; SP_detail (DP_load_answer 0 (Ok xb));
                           SP_select c; SP_detail (DP_load_answer 0 (Ok xc))] in
  intent <$> head (sp_terms s') = Some (Some hc, name_or_id xc, true) ∧
  (intent u = (Some hc, name_or_id xc, true) → statusRef (refs u) = connected →
   execs (window (attach_effect o u)) = execs (window u) ++ [starts hc (name_or_id xc)]).
Proof.
  intros H Hrs Hr Hm Hh Ht Hb Hbn Hxb Hc Hcb Hxc s'. split.
  - destruct (select_hostless s t rest b xb H Hr Hb Hbn Hm) as (L1 & L2 & L3 & L4 & L5 & L6); [by rewrite Hh|by rewrite Hh|done|].
    set (s1 := run step_of s [SP_select b; SP_detail (DP_load_answer 0 (Ok xb))]) in *.
    assert (Es : s' = run step_of s1 [SP_select c; SP_detail (DP_load_answer 0 (Ok xc))]) by done.
    rewrite Es. clearbody s1. clear s' Es. cbn [run foldl].
    assert (Hne : c ≠ dp_id (sp_detail s1)) by congruence.
    destruct (select_detail (sp_detail s1) c xc L3 Hc Hne) as (E1 & _ & E3 & _).
    set (routed := detail_step (sp_detail s1) (DP_route c)) in *.
    unfold session_step at 2. rewrite L1. cbn [negb detail_event]. fold routed.
    set (s2 := page_render (sp_set_detail routed s1)).
    assert (E2 : s2 = sp_set_detail routed s1).
    { unfold s2, page_render. cbn [sp_set_detail sp_shown sp_detail]. by rewrite L2, E1, L6. }
    rewrite E2. unfold session_step. cbn [sp_set_detail sp_live]. rewrite L1. cbn [negb detail_event sp_detail].
    change (sp_detail (sp_set_detail routed s1)) with routed.
    set (p' := detail_step routed _) in *.
    assert (Ep : page_terminal p' = Some (hc, name_or_id xc)) by (unfold page_terminal; by rewrite E3, Hxc).
    clearbody p'. unfold page_render. cbn [sp_set_detail sp_shown sp_detail]. rewrite L2, Ep.
    cbn [sp_set_life sp_set_terms sp_terms head fmap option_fmap option_map sp_restart sp_set_detail].
    unfold intent. cbn. by rewrite L5, Hrs.
  - intros Hu Hst. injection Hu as U1 U2 U3. unfold execs.
    rewrite (attach_effect_runs o u hc U1 Hst), U3, U2, omap_app. done.
Qed.
End select_facts.

(** ** Witnesses *)

Definition hosted (i : jsstring) (h : option Host) : Session :=
  let s := blank_session i in
  {| ApiTypes.id := ApiTypes.id s; user_id := user_id s; host_id := host_id s; ApiTypes.host := h;
     name := name s; started_at := started_at s; last_ping_at := last_ping_at s;
     last_activity_at := last_activity_at s; ended_at := ended_at s; metadata := metadata s;
     seq := seq s; tags := tags s |}.

Definition demo_entry (restart : option bool) : Entry :=
  {| en_path := js "/sessions/a"; en_restart := restart |}.

(** The session is loaded, its terminal connects and attaches. *)
Definition demo_opening : list PageEvent :=
  [SP_detail (DP_load_answer 0 (Ok (hosted (js "a") (Some (demo_host 1)))));
   SP_terminal 0 no_reports (E_init loaded); SP_terminal 0 no_reports E_commit;
   SP_terminal 0 no_reports (E_report connected None); SP_terminal 0 no_reports E_commit].

Definition demo_page (restart : option bool) : SessionPage :=
  run (session_step false) (session_mount (demo_entry restart) (js "a") 0 demo_browser initial_window)
    demo_opening.


(** The terminal of that page. *)
Definition demo_term (restart : bool) : Term :=
  run SshTerminal.step
    (mounted_term 0 (Some (demo_host 1)) (js "a") restart demo_browser initial_window 0)
    [(no_reports, E_init loaded); (no_reports, E_commit); (no_reports, E_report connected None);
     (no_reports, E_commit)].

Lemma demo_leads restart :
  leads (demo_page restart) (demo_term (default false restart)) [].
Proof.
  unfold demo_page, demo_term, demo_opening. cbn [run foldl].
  do 4 (apply leads_terminal; [reflexivity| |by destruct restart as [[]|]]).
  by destruct restart as [[]|].
Qed.

Lemma demo_at_rest restart : at_rest (sp_detail (demo_page restart)).
Proof. destruct restart as [[]|]; split; reflexivity. Qed.


Lemma restart_starts_third_witness :
  let s' := run (session_step false) (demo_page (Some true))
    [SP_select (js "b"); SP_detail (DP_load_answer 0 (Ok (hosted (js "b") None)));
     SP_select (js "c"); SP_detail (DP_load_answer 0 (Ok (hosted (js "c") (Some (demo_host 1)))))] in
  intent <$> head (sp_terms s') = Some (Some (demo_host 1), js "c", true).
Proof.
  destruct (restart_starts_third_session false (demo_page (Some true)) (demo_term true) []
    (demo_host 1) (js "b") (hosted (js "b") None) (js "c") (hosted (js "c") (Some (demo_host 1)))
    (demo_host 1) no_reports demo_mounted) as [H _];
    [apply (demo_leads (Some true))|reflexivity|apply demo_at_rest|reflexivity..|discriminate|discriminate|reflexivity
    |discriminate|discriminate|reflexivity|exact H].
Defined.
