(* ===== verification/Opening.v ===== *)
(** * From the dashboard to the shell

    A row of [pages/DashboardPage.tsx] leads through the routing table of [App.tsx] to
    [pages/SessionDetailPage.tsx], which loads the session and mounts
    [components/SSHTerminal.tsx], which loads the program, connects and attaches.  The parts are
    [SessionView], [Routes] and [SessionPage]; here one opening goes through all of them. *)

From S2P Require Import Prelude Js Models ApiTypes Api Accounts Tags SessionList SshClient SshTerminal DetailPage Restart SessionView Routes Creation SessionPage.
#[local] Open Scope Z_scope.
#[local] Open Scope js_scope.

(** ** Facts: the first connection of a terminal *)

(** The program can be started, or runs already. *)
Definition comes_up (l : Loading) (i : nat) (w : Window) : Prop :=
  (init l (new_client i) w).1.1 = Ok tt.

Lemma init_up l i w :
  comes_up l i w →
  ∃ c w', init l (new_client i) w = (Ok tt, c, w') ∧ wasmReady c = true ∧ instance c = i ∧
    registered w' = Some i ∧ functions w' = true ∧ calls w' = calls w.
Proof.
  unfold comes_up, init, setupCallbacks. intros H.
  destruct (goInstance w).
  - destruct (functions w) eqn:Ef; [|done]. eexists _, _. by split_and!.
  - destruct (l_wasm_exec l); [|done]. destruct (l_sshclient l); [|done].
    destruct (l_wasm l); [|done]. eexists _, _. by split_and!.
Qed.

(** What the user does not see: the program is loaded, connects and reports. *)
Definition first_connection (l : Loading) : list (Oracle * Event) :=
  [(no_reports, E_init l); (no_reports, E_commit); (no_reports, E_report connected None);
   (no_reports, E_commit)].

Lemma step_commit o t : SshTerminal.step t (o, E_commit) = commit o t.
Proof. reflexivity. Qed.

(** The effects of a terminal that has just connected. *)
Lemma commit_attaches u h :
  mountedRef (refs u) = true → SshTerminal.host u = Some h → statusRef (refs u) = connected →
  connect_deps_changed (committed u) (deps u) = false →
  attach_deps_changed (committed u) (deps u) = true →
  let cmd := if pendingRestart (refs u) then startCommand (sessionName u)
             else attachCommand (sessionName u) in
  calls (window (commit no_reports u)) = calls (window u) ++ [sshExec (of_int (host_id_ h)) cmd] ∧
  mountedRef (refs (commit no_reports u)) = true.
Proof.
  intros H1 H2 H3 H4 H5. unfold commit. rewrite H1, H4, H5. cbn [negb]. cbv zeta. cbn iota.
  set (v := set_refs _ _).
  split; [by apply (attach_effect_runs no_reports v h)|].
  unfold attach_effect. destruct (hostKey v); [done|]. by rewrite decide_True.
Qed.

Section connection.
Context (i : nat) (h : Host) (nm : jsstring) (restart : bool) (b : Browser) (w : Window) (t0 : Z).
Context (l : Loading) (token : jsstring).
Context (Hup : comes_up l i w) (Htok : (getToken b).1 = Ok (Some token)) (Hne : token ≠ []).

(** The effects after the program was loaded. *)
Lemma loaded_terminal :
  let t := SshTerminal.step (mounted_term i (Some h) nm restart b w t0) (no_reports, E_init l) in
  connectable t token ∧ registered (window t) = Some (instance (client t)) ∧ calls (window t) = calls w ∧
  functions (window t) = true ∧ browser t = b ∧ ready (ui t) = true ∧ status (ui t) = disconnected ∧
  statusError (ui t) = None ∧ SshTerminal.host t = Some h ∧ sessionName t = nm ∧
  pendingRestart (refs t) = restart ∧ mountedRef (refs t) = true ∧
  committed t = committed (mounted_term i (Some h) nm restart b w t0).
Proof.
  destruct (init_up l i w Hup) as (c & w' & E & H1 & H2 & H3 & H4 & H5).
  cbn [SshTerminal.step]. change (client (mounted_term i (Some h) nm restart b w t0)) with (new_client i).
  change (window (mounted_term i (Some h) nm restart b w t0)) with w. rewrite E.
  cbv zeta. split; [by split_and!|]. split_and!; try done. cbn. by rewrite H3, H2.
Qed.

(** The command of the first attach: the start of the session when a restart was asked for. *)
Definition first_command : jsstring := if restart then startCommand nm else attachCommand nm.

(** The terminal after [n] of the events. *)
Definition opened (n : nat) : Term :=
  run SshTerminal.step (mounted_term i (Some h) nm restart b w t0) (take n (first_connection l)).

Lemma opened_S n oe :
  first_connection l !! n = Some oe → opened (S n) = SshTerminal.step (opened n) oe.
Proof. intros H. unfold opened, run. by rewrite (take_S_r _ _ _ H), foldl_app. Qed.

Lemma opened_all n : opened (4 + n) = opened 4.
Proof. unfold opened. by rewrite !take_ge by (cbn; lia). Qed.

(** The first effects connect. *)
Lemma connected_terminal :
  ∃ t, opened 2 = wasm_call no_reports (connect_call b h token) (connecting_state no_reports h token t) ∧
    calls (window t) = calls w ∧ registered (window t) = Some (instance (client t)) ∧
    connectable t token ∧ SshTerminal.host t = Some h ∧ sessionName t = nm ∧ pendingRestart (refs t) = restart ∧
    committed t = {| d_ready := true; d_host := Some (host_id_ h); d_user := Some (host_ssh_user h);
                     d_status := disconnected; d_session := nm; d_hostKey := of_int (host_id_ h) |} ∧
    ready (ui t) = true.
Proof.
  destruct loaded_terminal as (H1 & H2 & H3 & _ & H5 & H6 & H7 & _ & H9 & H10 & H11 & H12 & H13).
  set (t := SshTerminal.step _ (no_reports, E_init l)) in *.
  assert (E : opened 2 = commit no_reports t) by exact (opened_S 1 _ eq_refl). rewrite E. clearbody t. clear E.
  assert (Ed : deps t = {| d_ready := true; d_host := Some (host_id_ h); d_user := Some (host_ssh_user h);
                     d_status := disconnected; d_session := nm; d_hostKey := of_int (host_id_ h) |}).
  { unfold deps, hostKey. by rewrite H6, H7, H9, H10. }
  unfold commit. rewrite H12, Ed, H13. cbn [negb]. cbv zeta.
  unfold connect_deps_changed at 1. cbn [mounted_term committed d_ready d_host d_user].
  rewrite bool_decide_eq_false_2 by done. cbn [negb].
  set (u := set_refs _ (set_env _ _ _ _)).
  assert (Hu : connectable u token) by by destruct H1 as (? & ? & ? & ?).
  assert (Er : connect_effect no_reports u = (Ok tt, wasm_call no_reports (connect_call b h token)
                                               (connecting_state no_reports h token u))).
  { unfold connect_effect. change (ready (ui u)) with (ready (ui t)). rewrite H6. cbn [negb].
    change (SshTerminal.host u) with (SshTerminal.host t). rewrite H9.
    rewrite (doConnect_connectable no_reports h token u Hu).
    change (browser u) with (browser t). by rewrite H5. }
  rewrite Er. unfold attach_deps_changed. cbn [d_status d_session d_hostKey].
  rewrite bool_decide_eq_true_2 by done. exists u. by split_and!.
Qed.

(** The report of the connection. *)
Lemma reported_terminal :
  let u := opened 3 in
  calls (window u) = calls w ++ [connect_call b h token] ∧
  mountedRef (refs u) = true ∧ SshTerminal.host u = Some h ∧ statusRef (refs u) = connected ∧
  pendingRestart (refs u) = restart ∧ sessionName u = nm ∧ status (ui u) = connected ∧
  statusError (ui u) = None ∧ connect_deps_changed (committed u) (deps u) = false ∧
  attach_deps_changed (committed u) (deps u) = true.
Proof.
  destruct connected_terminal as (t & E & H1 & H2 & H3 & H4 & H5 & H6 & H7 & H8).
  assert (Eu : opened 3 = report (opened 2) (connected, None)) by exact (opened_S 2 _ eq_refl).
  rewrite Eu, E. clear Eu E. set (c := connect_call b h token).
  change (wasm_call no_reports c (connecting_state no_reports h token t))
    with (let s := connecting_state no_reports h token t in set_client (client s) (log_call c (window s)) s).
  cbv zeta. unfold report, status_report. cbn [fst snd].
  rewrite bool_decide_eq_true_2 by exact H2. cbn. rewrite H1, H4, H5, H6, H7.
  split_and!; try done; [apply H3|].
  unfold connect_deps_changed, deps. cbn. by rewrite H4, H8, bool_decide_eq_true_2.
Qed.

(** The terminal that hears of the connection attaches, or starts the session. *)
Lemma opening_attaches :
  calls (window (opened 4)) = calls w ++ [connect_call b h token; sshExec (of_int (host_id_ h)) first_command] ∧
  status (ui (opened 3)) = connected ∧ statusError (ui (opened 3)) = None ∧
  ∀ n, mountedRef (refs (opened n)) = true.
Proof.
  destruct reported_terminal as (H1 & H2 & H3 & H4 & H5 & H6 & H7 & H8 & H9 & H10).
  destruct loaded_terminal as (_ & _ & _ & _ & _ & _ & _ & _ & _ & _ & _ & H12 & _).
  destruct connected_terminal as (t & E & _ & _ & H13 & _).
  destruct (commit_attaches (opened 3) h H2 H3 H4 H9 H10) as [G1 G2].
  rewrite <- step_commit, <- (opened_S 3 _ eq_refl) in G1, G2.
  rewrite H1, H5, H6, <- app_assoc in G1.
  split; [exact G1|]. split; [exact H7|]. split; [exact H8|]. intros n.
  assert (Hn : (n = 0 ∨ n = 1 ∨ n = 2 ∨ n = 3 ∨ n = 4 + (n - 4))%nat) by lia.
  destruct Hn as [->|[->|[->|[->| ->]]]].
  - reflexivity.
  - rewrite (opened_S 0 _ eq_refl). exact H12.
  - rewrite E. apply H13.
  - exact H2.
  - by rewrite opened_all.
Qed.
End connection.

(** ** Facts: the page *)

(** What happens on a page whose session is answered. *)
Definition opening (l : Loading) (x : Session) : list PageEvent :=
  SP_detail (DP_load_answer 0 (Ok x)) :: ((λ oe, SP_terminal 0 oe.1 oe.2) <$> first_connection l).

Lemma signed_in_token b :
  ProtectedRoute b = Ok None → has_window b = true →
  ∃ token, (getToken b).1 = Ok (Some token) ∧ token ≠ [].
Proof.
  unfold ProtectedRoute, getToken. intros H ->. cbn [negb fst].
  destruct (storage_get (localStorage b) (js "token")) as [[[|c k]|]|]; try done. by exists (c :: k).
Qed.

Section page.
Context {L : Locale}.
Context (standalone : bool).

(** A page just opened and answered. *)
Lemma answered_page e i next b w x h :
  i ≠ [] → ApiTypes.host x = Some h →
  let s := session_step standalone (session_mount e i next b w) (SP_detail (DP_load_answer 0 (Ok x))) in
  leads s (mounted_term next (Some h) (name_or_id x) (restart_mount e).1 b w 0) [] ∧
  screen (sp_detail s) = Sc_session x.
Proof.
  intros Hi Hx. unfold session_step. cbn [session_mount sp_live negb detail_event sp_detail].
  set (p := detail_step _ _).
  assert (Hp : screen p = Sc_session x ∧ dp_now p = 0).
  { subst p. unfold detail_mount, loadSession_begin. cbn [dp_id]. destruct i as [|c i]; done. }
  destruct Hp as [Hp Hn]. clearbody p. rewrite page_render_detail. cbn [sp_set_detail sp_detail].
  split; [|exact Hp]. unfold page_render, page_terminal. cbn [sp_set_detail sp_shown sp_detail].
  rewrite Hp, Hx. cbn [fmap option_fmap option_map]. rewrite Hn. by split.
Qed.

(** A commit of the terminal on screen reports the status of its render to the page. *)
Lemma leads_reports o s t rest :
  leads s t rest →
  let s' := session_step standalone s (SP_terminal 0 o E_commit) in
  sp_status s' = (status (ui t), statusError (ui t)) ∧ sp_window s' = window (SshTerminal.step t (o, E_commit)).
Proof.
  intros [H1 H2 H3 H4]. unfold session_step. cbn [page_only]. unfold terminal_step.
  rewrite H3. cbn [lookup list_lookup]. cbn zeta. rewrite H4, H1, H2. done.
Qed.

(** The page is opened, its session answered, its program loaded and the connection reported:
    it attaches to the session, or starts it when the entry says so, and shows that it is
    connected. *)
Lemma page_opens e i next b w x h l token :
  i ≠ [] → ApiTypes.host x = Some h → comes_up l next w →
  (getToken b).1 = Ok (Some token) → token ≠ [] →
  let s := run (session_step standalone) (session_mount e i next b w) (opening l x) in
  screen (sp_detail s) = Sc_session x ∧ sp_status s = (connected, None) ∧
  calls (sp_window s) = calls w ++ [connect_call b h token;
    sshExec (of_int (host_id_ h))
      (if (restart_mount e).1 then startCommand (name_or_id x) else attachCommand (name_or_id x))].
Proof.
  intros Hi Hx Hup Htok Hne.
  set (r := (restart_mount e).1).
  pose proof (opening_attaches next h (name_or_id x) r b w 0 l token Hup Htok Hne) as (O1 & O2 & O3 & O4).
  destruct (answered_page e i next b w x h Hi Hx) as [L0 S0]. fold r in L0.
  unfold opening, first_connection. cbn [fmap list_fmap fst snd run foldl].
  set (s0 := session_step _ _ _) in *. clearbody s0.
  set (o := opened next h (name_or_id x) r b w 0 l) in *.
  assert (E0 : mounted_term next (Some h) (name_or_id x) r b w 0 = o 0%nat) by done.
  pose proof (opened_S next h (name_or_id x) r b w 0 l) as ES. fold o in ES.
  pose proof (ES 0%nat _ eq_refl) as E1. pose proof (ES 1%nat _ eq_refl) as E2.
  pose proof (ES 2%nat _ eq_refl) as E3. pose proof (ES 3%nat _ eq_refl) as E4. clear ES.
  rewrite E0 in L0. clearbody o.
  pose proof (leads_terminal standalone s0 _ [] no_reports (E_init l) eq_refl L0) as L1.
  rewrite <- E1 in L1. specialize (L1 (O4 1%nat)).
  pose proof (leads_terminal standalone _ _ [] no_reports E_commit eq_refl L1) as L2.
  rewrite <- E2 in L2. specialize (L2 (O4 2%nat)).
  pose proof (leads_terminal standalone _ _ [] no_reports (E_report connected None) eq_refl L2) as L3.
  rewrite <- E3 in L3. specialize (L3 (O4 3%nat)).
  destruct (leads_reports no_reports _ _ [] L3) as [Q1 Q2]. rewrite O2, O3 in Q1. apply (f_equal calls) in Q2. rewrite <- E4, O1 in Q2.
  split; [|by split].
  unfold session_step. cbn [page_only]. by rewrite !terminal_step_keeps_detail.
Qed.
End page.

(** ** Facts: the dashboard *)

Section dashboard.
Context {R : Router} {HR : RouterLaws R} {L : Locale}.
Context (parse_date : jsstring → option Z) (locale_date : jsstring → jsstring).
Context (float_text : Z → jsstring) (clock : Z) (standalone : bool).

(** The entry of a link without state. *)
Definition link_entry (url : jsstring) : Entry := {| en_path := url; en_restart := None |}.

End dashboard.

(** ** Witness *)

#[local] Existing Instance ascii_locale.
#[local] Existing Instance ranking_router.

