(* ===== verification/PageViews.v ===== *)
(** * The rest of what the pages show

    The menu of the dashboard ([pages/DashboardPage.tsx]) with what its entries do, the download
    of the CA key ([components/CAPublicKeyDownload.tsx]), the terminal with its two dialogs
    ([components/SSHTerminal.tsx]), and the sheet of the session page
    ([pages/SessionDetailPage.tsx]). *)

From S2P Require Import Prelude Js Models ApiTypes Api Accounts Encoding SshClient SshTerminal TerminalView SessionList SessionView SessionCreate Chrome UnlockDialog Routes Lock.
#[local] Open Scope Z_scope.
#[local] Open Scope js_scope.

(** ** The menu of the dashboard *)

Inductive MenuTarget := MT_to (path : jsstring) | MT_download | MT_delete_stale | MT_logout.

Definition actions : list (jsstring * MenuTarget) :=
  [(js "Hosts", MT_to (js "/hosts"));
   (js "Settings", MT_to (js "/settings"));
   (js "Download CA Key", MT_download);
   (js "Remove Stale Sessions", MT_delete_stale);
   (js "Logout", MT_logout);
   (js "Add Passkey", MT_to (js "/passkeys/add"))].

(** The buttons in a row, or the sheet that the menu button opens; each entry of the sheet
    closes it. *)
Record Menu := { mn_buttons : list (jsstring * MenuTarget); mn_sheet : option (list (jsstring * MenuTarget)) }.

Definition dashboard_menu (sheet_open : bool) : Menu :=
  {| mn_buttons := actions; mn_sheet := if sheet_open then Some actions else None |}.

(** What a press of an entry came to: another page, a file or an alert, the alert of the removal
    with a reload of the list, or the tab after a logout. *)
Inductive MenuOutcome :=
| MO_shows (page : Shown)
| MO_download (d : Download)
| MO_removed (alert : option jsstring) (reload : bool)
| MO_logged_out (answer : result unit) (t : Tab).

Definition press_menu `{Router} `{Json} (download : result json) (removed : result Z) (t : Tab)
    (target : MenuTarget) : MenuOutcome :=
  match target with
  | MT_to path => MO_shows (visit 3 (tab_browser t) path)
  | MT_download => MO_download (handleDownloadCAKey download)
  | MT_delete_stale => let '(a, r) := Restart.handleDeleteStale removed in MO_removed a r
  | MT_logout => let '(a, t) := logout t in MO_logged_out a t
  end.

(** ** The CA key *)

Inductive CAScreen := CA_loading | CA_error (message : jsstring) | CA_key (fingerprint : jsstring).

Definition ca_screen (s : CAPublicKey) : CAScreen :=
  if ca_isLoading s then CA_loading
  else match ca_error s with
       | [] => CA_key (ca_fingerprint s)
       | e => CA_error e
       end.

(** [handleCopyFingerprint]: the text written to the clipboard. *)
Definition handleCopyFingerprint (s : CAPublicKey) : option jsstring :=
  match ca_fingerprint s with [] => None | f => Some f end.

Definition ca_initial : CAPublicKey :=
  {| ca_publicKey := []; ca_fingerprint := []; ca_error := []; ca_isLoading := true |}.

(** ** The terminal *)

(** The notice while the program loads, the height of the surface ([None] fills the page), and
    the dialogs. *)
Record TerminalScreen := {
  ts_loading : bool;
  ts_surface_hidden : bool;
  ts_height : option Z;
  ts_password : option PasswordScreen;
  ts_unlock : option DialogScreen;
}.

Definition terminal_screen (viewportHeight topBarHeight : Z) (t : Term) (pd : PasswordDialog)
    (wd : WebAuthnDialog) : TerminalScreen :=
  {| ts_loading := loading (ui t); ts_surface_hidden := loading (ui t);
     ts_height := if 0 <? viewportHeight then Some (viewportHeight - topBarHeight) else None;
     ts_password := password_screen {| pw_term := t; pw_dialog := pd |};
     ts_unlock := dialog_screen {| ul_term := t; ul_dialog := wd |} |}.

(** ** The sheet of the session page *)

(** The connection button of the sheet, with the handle's method it calls, the default host of
    the new-session button, and the details. *)
Record SheetScreen := {
  sh_button : jsstring;
  sh_calls : SshTerminal.Event;
  sh_new_session : Z;
  sh_details : Details;
}.

Section sheet.
Context {J : Json} {L : Locale} (parse_date : jsstring → option Z) (locale_date : jsstring → jsstring).
Context (float_text : Z → jsstring) (now : Z) (json_indented : json → jsstring).

Definition session_sheet (status : ConnectionStatus) (suggestions : list jsstring) (s : Session)
    : SheetScreen :=
  {| sh_button := match status with
                  | disconnected | error_status => js "Connect"
                  | _ => js "Disconnect"
                  end;
     sh_calls := match status with disconnected | error_status => E_connect | _ => E_disconnect end;
     sh_new_session := host_id s;
     sh_details := SessionDetails parse_date locale_date float_text now json_indented
                     true true true suggestions s |}.
End sheet.

(** ** Facts *)

Section menu.
Context {R : Router} {HR : RouterLaws R} {J : Json}.

(** The pages of the menu. *)
Definition menu_page (path : jsstring) : option Page :=
  if bool_decide (path = js "/hosts") then Some HostsPage
  else if bool_decide (path = js "/settings") then Some SettingsPage
  else if bool_decide (path = js "/passkeys/add") then Some AddPasskeyPage else None.

(** A fixed address of the table opens its page for a visitor who is signed in. *)
Lemma visit_fixed b ss q p :
  ProtectedRoute b = Ok None → Forall plain_segment ss → q = path_of ss → pathname q = q →
  q ∈ App_routes.*1 → fits q ss = true → params q ss = [] →
  forallb (λ q', negb (fits q' ss) || bool_decide (q' = q) || (dynamics q <? dynamics q')%nat)
    App_routes.*1 = true →
  assoc_get q App_routes = Some (Protected (λ _, p)) → visit 3 b q = S_page p.
Proof.
  intros Hb Hs Hq Hn Hin Hf Hp Hbest Ha. rewrite visit_S, Hn.
  pose proof (choose_routes ss q Hs Hin Hf Hbest) as Hc. rewrite <- Hq, Hp in Hc.
  by rewrite Hc, Ha, Hb.
Qed.

(** Every entry of the menu does what it says, in the row of buttons and in the sheet alike: for
    a user who is signed in the links open the pages of the account, and after the logout every
    page of the menu is the login. *)
Theorem menu_entries download removed t m label target sheet_open :
  ProtectedRoute (tab_browser t) = Ok None → localStorage (tab_browser t) = Some m →
  (label, target) ∈ mn_buttons (dashboard_menu sheet_open) ∨
  (∃ l, mn_sheet (dashboard_menu sheet_open) = Some l ∧ (label, target) ∈ l) →
  match target with
  | MT_to path => ∃ p, menu_page path = Some p ∧ public p = false ∧
      press_menu download removed t target = MO_shows (S_page p)
  | MT_logout => ∃ t', press_menu download removed t target = MO_logged_out (Ok tt) t' ∧
      ProtectedRoute (tab_browser t') = Ok (Some (js "/login")) ∧ tab_frost t' = tab_frost t
  | _ => True
  end.
Proof.
  intros Hb Hm Hin. assert (Ha : (label, target) ∈ actions).
  { destruct Hin as [Hin|(l & Hl & Hin)]; [exact Hin|].
    cbn in Hl. destruct sheet_open; [by injection Hl as <-|done]. }
  unfold actions in Ha.
  repeat (apply elem_of_cons in Ha as [Ha|Ha]; [assert (E : target = snd (label, target)) by done;
    rewrite Ha in E; cbn [snd] in E; clear Ha Hin; subst target|]); [..|by apply not_elem_of_nil in Ha]; try done.
  - exists HostsPage. split_and!; [vm_compute; reflexivity|done|]. cbn [press_menu]. f_equal.
    apply (visit_fixed _ [js "hosts"]); [exact Hb|..]; try (vm_compute; reflexivity).
    + repeat constructor; discriminate.
    + apply list_elem_of_In; vm_compute; tauto.
  - exists SettingsPage. split_and!; [vm_compute; reflexivity|done|]. cbn [press_menu]. f_equal.
    apply (visit_fixed _ [js "settings"]); [exact Hb|..]; try (vm_compute; reflexivity).
    + repeat constructor; discriminate.
    + apply list_elem_of_In; vm_compute; tauto.
  - cbn [press_menu]. rewrite (logout_ok t m Hm). eexists. split; [reflexivity|]. split; [|done].
    unfold ProtectedRoute. cbn [tab_browser set_storage localStorage storage_get rbind].
    rewrite lookup_delete_ne by done. by rewrite lookup_delete_eq.
  - exists AddPasskeyPage. split_and!; [vm_compute; reflexivity|done|]. cbn [press_menu]. f_equal.
    apply (visit_fixed _ [js "passkeys"; js "add"]); [exact Hb|..]; try (vm_compute; reflexivity).
    + repeat constructor; discriminate.
    + apply list_elem_of_In; vm_compute; tauto.
Qed.
End menu.

(** The CA key: when the server answers with the OpenSSH text of a key, the card shows the
    fingerprint that the library computes from the key, the copy button copies what is shown,
    and the file is that text; an error shows its message, and offers neither. *)
Theorem ca_card_shows_key sha256 pk comment text :
  Forall is_byte pk → formatOpenSSHKey pk comment = Ok text → text ≠ [] →
  match computeFingerprint sha256 pk with
  | Ok f =>
      let s := loadPublicKey sha256 (Ok (JObj [(js "public_key", JStr text)])) ca_initial in
      ca_screen s = CA_key f ∧ handleDownload s = Some text ∧
      (f ≠ [] → handleCopyFingerprint s = Some f)
  | Throw e => True
  end.
Proof.
  intros Hp Ht Hn. pose proof (fingerprints_agree sha256 pk comment text Hp Ht) as Hf.
  destruct (computeFingerprint sha256 pk) as [f|e]; [|done]. cbn zeta.
  assert (E : loadPublicKey sha256 (Ok (JObj [(js "public_key", JStr text)])) ca_initial
              = {| ca_publicKey := text; ca_fingerprint := f; ca_error := []; ca_isLoading := false |}).
  { unfold loadPublicKey. cbn [rbind].
    assert (Hk : json_string (json_get (js "public_key") (JObj [(js "public_key", JStr text)])) = Some text)
      by reflexivity.
    by rewrite Hk, Hf. }
  rewrite E. split_and!; [done| |].
  - unfold handleDownload. cbn [ca_publicKey]. by rewrite bool_decide_eq_false_2.
  - intros Hfn. unfold handleCopyFingerprint. cbn [ca_fingerprint]. by destruct f.
Qed.

Theorem ca_card_error sha256 e :
  err_message e ≠ [] →
  ca_screen (loadPublicKey sha256 (Throw e) ca_initial) = CA_error (ca_failure e) ∧
  handleDownload (loadPublicKey sha256 (Throw e) ca_initial) = None.
Proof.
  intros He. split; [|done]. unfold ca_screen, loadPublicKey. cbn [rbind ca_isLoading ca_error].
  unfold ca_failure. destruct (contains _ _); [done|]. by destruct (err_message e).
Qed.

(** What the terminal shows: its surface is hidden while the program loads and otherwise takes
    what the bar leaves of the visual viewport; each dialog is there when its flag is set. *)
Theorem terminal_screen_exact vh bar t pd wd :
  let s := terminal_screen vh bar t pd wd in
  ts_surface_hidden s = ts_loading s ∧
  (∀ h, ts_height s = Some h → 0 < vh ∧ h + bar = vh) ∧
  (is_Some (ts_password s) ↔ showPasswordDialog (ui t) = true) ∧
  (is_Some (ts_unlock s) ↔ showWebAuthnDialog (ui t) = true).
Proof.
  cbn zeta. unfold terminal_screen, password_screen, dialog_screen.
  cbn [ts_surface_hidden ts_loading ts_height ts_password ts_unlock pw_term ul_term].
  split_and!; [done| | |].
  - intros h. destruct (0 <? vh) eqn:E; [|done]. intros [= <-]. zbool. lia.
  - destruct (showPasswordDialog (ui t)); split; try done; by intros [].
  - destruct (showWebAuthnDialog (ui t)); split; try done; by intros [].
Qed.
