(* ===== verification/Layout.v ===== *)
(** * The layout over time

    The measured top bar of [components/SessionTopBar.tsx] with its observers, the hook
    [hooks/useVisualViewport.ts], and the surface of [components/SSHTerminal.tsx] under that
    hook, the height of the bar and the loading state.  [Chrome] counts the pills that fit and
    [TerminalView] fits the grid; here are the effects that run the one and the other, in a browser
    that has [ResizeObserver]. *)

From S2P Require Import Prelude Js Models ApiTypes SessionList SshClient TerminalView Chrome KeysView.
#[local] Open Scope Z_scope.
#[local] Open Scope js_scope.

(** ** The pills of the bar *)

(** The left edge and width of the region, and the right edges of the measured pills. *)
Abbreviation BarLayout := (Z * Z * list Z)%type.

Record Measured := {
  ms_keys : list (jsstring * json);
  ms_bar : BarState;
  (** What the browser has laid out for these keys. *)
  ms_layout : BarLayout;
  ms_mounted : bool;
  (** The effect keyed on the keys has still to run. *)
  ms_effect : bool;
  (** The observer is connected; it has a notification to deliver. *)
  ms_observing : bool;
  ms_notify : bool;
}.

Definition ms_set (b : BarState) (effect observing notify : bool) (m : Measured) : Measured :=
  {| ms_keys := ms_keys m; ms_bar := b; ms_layout := ms_layout m; ms_mounted := ms_mounted m;
     ms_effect := effect; ms_observing := observing; ms_notify := notify |}.

(** [measureOverflow] on the elements of the bar, which are there while it is mounted. *)
Definition measure (m : Measured) : BarState :=
  bar_measure (if ms_mounted m then Some (ms_layout m) else None) (ms_bar m).

Definition measured_mount (keys : list (jsstring * json)) (l : BarLayout) : Measured :=
  {| ms_keys := keys; ms_bar := bar_initial keys; ms_layout := l; ms_mounted := true;
     ms_effect := true; ms_observing := false; ms_notify := false |}.

Inductive MeasureEvent :=
(** A render with other keys, laid out. *)
| ME_keys (keys : list (jsstring * json)) (l : BarLayout)
| ME_effect
(** The region or the hidden row changed its size. *)
| ME_layout (l : BarLayout)
| ME_notified
| ME_fonts
| ME_toggle_error
| ME_dismiss_error
| ME_unmount.

(** An observer that starts reports the sizes it finds. *)
Definition measure_step (m : Measured) (e : MeasureEvent) : Measured :=
  if negb (ms_mounted m) then m else
  match e with
  | ME_keys keys l =>
      {| ms_keys := keys; ms_bar := ms_bar m; ms_layout := l; ms_mounted := true;
         ms_effect := true; ms_observing := ms_observing m; ms_notify := ms_notify m |}
  | ME_effect => if ms_effect m then ms_set (measure m) false true true m else m
  | ME_layout l =>
      {| ms_keys := ms_keys m; ms_bar := ms_bar m; ms_layout := l; ms_mounted := true;
         ms_effect := ms_effect m; ms_observing := ms_observing m;
         ms_notify := ms_notify m || ms_observing m |}
  | ME_notified =>
      if ms_notify m then ms_set (measure m) (ms_effect m) (ms_observing m) false m else m
  | ME_fonts => ms_set (measure m) (ms_effect m) (ms_observing m) (ms_notify m) m
  | ME_toggle_error => ms_set (toggle_error (ms_bar m)) (ms_effect m) (ms_observing m) (ms_notify m) m
  | ME_dismiss_error => ms_set (dismiss_error (ms_bar m)) (ms_effect m) (ms_observing m) (ms_notify m) m
  | ME_unmount =>
      {| ms_keys := ms_keys m; ms_bar := ms_bar m; ms_layout := ms_layout m; ms_mounted := false;
         ms_effect := false; ms_observing := false; ms_notify := false |}
  end.

(** ** The visual viewport *)

(** The browser's heights ([None]: no visual viewport), the state of the hook, and whether an
    event of the viewport is still to be fired. *)
Record Viewport := {
  vp_visual : option Z;
  vp_inner : Z;
  vp_height : Z;
  vp_listening : bool;
  vp_fire : bool;
}.

Definition vp_update (v : Viewport) : Viewport :=
  {| vp_visual := vp_visual v; vp_inner := vp_inner v;
     vp_height := visual_viewport_height (vp_visual v) (vp_inner v);
     vp_listening := vp_listening v; vp_fire := vp_fire v |}.

(** The mount effect. *)
Definition viewport_mount (visual : option Z) (inner : Z) : Viewport :=
  vp_update {| vp_visual := visual; vp_inner := inner; vp_height := 0;
               vp_listening := bool_decide (is_Some visual); vp_fire := false |}.

Inductive ViewportEvent :=
(** The keyboard opens or closes, the page zooms. *)
| VV_change (h : Z)
(** The "resize" or the "scroll" event. *)
| VV_fire
| VV_window (inner : Z)
| VV_unmount.

Definition viewport_step (v : Viewport) (e : ViewportEvent) : Viewport :=
  match e with
  | VV_change h =>
      match vp_visual v with
      | Some _ => {| vp_visual := Some h; vp_inner := vp_inner v; vp_height := vp_height v;
                     vp_listening := vp_listening v; vp_fire := true |}
      | None => v
      end
  | VV_fire =>
      let v' := {| vp_visual := vp_visual v; vp_inner := vp_inner v; vp_height := vp_height v;
                   vp_listening := vp_listening v; vp_fire := false |} in
      if vp_listening v then vp_update v' else v'
  | VV_window inner =>
      {| vp_visual := vp_visual v; vp_inner := inner; vp_height := vp_height v;
         vp_listening := vp_listening v; vp_fire := vp_fire v |}
  | VV_unmount =>
      {| vp_visual := vp_visual v; vp_inner := vp_inner v; vp_height := vp_height v;
         vp_listening := false; vp_fire := vp_fire v |}
  end.

(** ** Facts *)

(** Nothing left to run for the bar. *)
Definition bar_at_rest (m : Measured) : Prop :=
  ms_mounted m = true ∧ ms_effect m = false ∧ ms_notify m = false.

Definition fits_now (m : Measured) : Prop :=
  br_visibleCount (ms_bar m) = measureOverflow (Some (ms_layout m)) 0.

(** An observer runs once the effect has; what was measured last is what is laid out, unless
    something is left to run. *)
Definition bar_inv (m : Measured) : Prop :=
  ms_mounted m = true →
  (ms_observing m = false → ms_effect m = true) ∧
  (ms_effect m = false → ms_notify m = false → fits_now m).

Lemma measure_fits m :
  ms_mounted m = true → br_visibleCount (measure m) = measureOverflow (Some (ms_layout m)) 0.
Proof. intros Hm. unfold measure. rewrite Hm. by destruct (ms_layout m) as [[x w] rs]. Qed.

Lemma bar_inv_step m e : bar_inv m → bar_inv (measure_step m e).
Proof.
  unfold bar_inv. intros H. unfold measure_step. destruct (ms_mounted m) eqn:Hm; cbn [negb]; [|by rewrite Hm].
  destruct (H eq_refl) as [Ho Hf].
  destruct e as [keys l| |l| | | | |]; unfold fits_now; cbn [ms_mounted ms_effect ms_observing ms_notify].
  - intros _. split; [done|discriminate].
  - destruct (ms_effect m) eqn:E; [|by rewrite Hm, E]. cbn. intros _. split; [done|discriminate].
  - intros _. split; [exact Ho|]. intros He Hn. apply orb_false_iff in Hn as [_ Hn].
    rewrite (Ho Hn) in He. discriminate He.
  - destruct (ms_notify m) eqn:E; [|by rewrite Hm, E]. cbn. intros _. split; [exact Ho|].
    intros _ _. by apply measure_fits.
  - cbn. intros _. split; [exact Ho|]. intros _ _. by apply measure_fits.
  - cbn. intros _. split; [exact Ho | exact Hf].
  - cbn. intros _. split; [exact Ho | exact Hf].
  - discriminate.
Qed.

Lemma measured_reachable keys l es : bar_inv (run measure_step (measured_mount keys l) es).
Proof.
  apply (run_invariant _ bar_inv); [|exact bar_inv_step].
  intros _. split; [done|discriminate].
Qed.

(** C38: The bar shows what fits: whatever happened to the keys, the layout, the fonts and the
    observer, when nothing is left to run the pills on screen are exactly those of the pinned keys
    whose right edge, as laid out now, lies within half a pixel of the region's, in their order;
    the number behind the plus sign counts the others, and is absent when there are none. *)
Theorem bar_shows_what_fits keys l es x width rights name status err clip :
  let m := run measure_step (measured_mount keys l) es in
  bar_at_rest m → ms_layout m = (x, width, rights) →
  length rights = length (ms_keys m) → StronglySorted Z.le rights →
  let bar := SessionTopBar name status err (ms_keys m) clip (ms_bar m) in
  (∀ i k r, ms_keys m !! i = Some k → rights !! i = Some r →
     tb_pills bar !! i = if r <=? x + width + 32 then Some k else None) ∧
  (length (tb_pills bar) + default 0 (tb_more bar) = length (ms_keys m))%nat ∧
  (tb_more bar = None ↔ tb_pills bar = ms_keys m).
Proof.
  intros m (Hm & He & Hn) Hl Hlen Hs bar.
  destruct (measured_reachable keys l es Hm) as [_ Hf]. fold m in Hf. specialize (Hf He Hn).
  unfold fits_now in Hf. rewrite Hl in Hf.
  destruct (overflow_exact (ms_keys m) x width rights 0 Hlen Hs) as (Hi & Hsum & Hall).
  unfold bar, SessionTopBar. cbn [tb_pills tb_more]. rewrite Hf. split_and!; [|exact Hsum|exact Hall].
  intros i k r Hk Hr. unfold visible_pills. specialize (Hi i r Hr).
  destruct (r <=? x + width + 32) eqn:E; zbool.
  - rewrite lookup_take_lt by tauto. exact Hk.
  - apply lookup_take_ge. lia.
Qed.

(** The hook follows the visual viewport: while it is mounted, and no event is still to be
    fired, its height is the present one; without a visual viewport it stays at the height of
    the window when it was mounted. *)
Theorem viewport_followed visual inner es :
  let v := run viewport_step (viewport_mount visual inner) es in
  match visual with
  | Some _ => ∃ h, vp_visual v = Some h ∧
      (vp_listening v = true → vp_fire v = false → vp_height v = h) ∧
      (VV_unmount ∉ es → vp_listening v = true)
  | None => vp_height v = inner ∧ vp_visual v = None
  end.
Proof.
  destruct visual as [h0|]; intros v.
  - assert (H : ∀ es, let v := run viewport_step (viewport_mount (Some h0) inner) es in
      ∃ h, vp_visual v = Some h ∧ (vp_listening v = true → vp_fire v = false → vp_height v = h) ∧
      (VV_unmount ∉ es → vp_listening v = true)); [|by apply H].
    clear v es. intros es. induction es as [|e es IH] using rev_ind; [by exists h0|]. cbn zeta in *.
    rewrite run_app. set (v := run viewport_step _ es) in *.
    change (run viewport_step v [e]) with (viewport_step v e).
    destruct IH as (h & Hv & Hh & Hl).
    assert (Hl' : VV_unmount ∉ es ++ [e] → vp_listening v = true) by (rewrite not_elem_of_app; tauto).
    destruct e as [k| |i|]; cbn [viewport_step].
    + rewrite Hv. exists k. by split_and!.
    + exists h. destruct (vp_listening v) eqn:E; [|by split_and!]. cbn. rewrite Hv. by split_and!.
    + by exists h.
    + exists h. split_and!; [done..|]. intros H. exfalso. apply H.
      apply elem_of_app. right. by apply list_elem_of_singleton.
  - assert (H : vp_height v = inner ∧ vp_visual v = None ∧ vp_listening v = false).
    { apply (run_invariant _ (λ v, vp_height v = inner ∧ vp_visual v = None ∧ vp_listening v = false));
        [done|].
      intros w e (H1 & H2 & H3). destruct e; cbn [viewport_step]; rewrite ?H2, ?H3; done. }
    by destruct H as (? & ? & _).
Qed.

(** ** The surface of the terminal *)

(** The terminal with its own hook of the viewport, the height of the bar its parent gives it,
    and the loading state; [sf_committed] is what the fit effect last ran for, [sf_attach] the
    timer of the attach effect. *)
Record Surface := {
  sf_viewport : Viewport;
  sf_topBarHeight : Z;
  sf_loading : bool;
  sf_committed : Z * Z * bool;
  sf_attach : option Z;
  sf_view : View;
}.

Definition sf_set_view (v : View) (s : Surface) : Surface :=
  {| sf_viewport := sf_viewport s; sf_topBarHeight := sf_topBarHeight s; sf_loading := sf_loading s;
     sf_committed := sf_committed s; sf_attach := sf_attach s; sf_view := v |}.
Definition sf_set_attach (a : option Z) (s : Surface) : Surface :=
  {| sf_viewport := sf_viewport s; sf_topBarHeight := sf_topBarHeight s; sf_loading := sf_loading s;
     sf_committed := sf_committed s; sf_attach := a; sf_view := sf_view s |}.

(** The dependencies of the fit effect. *)
Definition fit_deps (s : Surface) : Z * Z * bool :=
  (vp_height (sf_viewport s), sf_topBarHeight s, sf_loading s).

(** The style of the container. *)
Definition surface_height (s : Surface) : option Z :=
  container_height (vp_height (sf_viewport s)) (sf_topBarHeight s).

Definition ATTACH_DELAY : Z := 300.

Section surface.
Context (propose : option Size → option Grid).

Definition surface_mount (visual : option Z) (inner topBarHeight : Z) (i : nat) (c : Size)
    (w : Window) (t0 : Z) : Surface :=
  {| sf_viewport := viewport_mount visual inner; sf_topBarHeight := topBarHeight; sf_loading := true;
     sf_committed := (0, topBarHeight, true); sf_attach := None;
     sf_view := initial_view propose i c w t0 |}.

Inductive SurfaceEvent :=
| SF_viewport (e : ViewportEvent)
| SF_bar (h : Z)
(** [init] resolves: the program runs. *)
| SF_loaded
| SF_commit
(** The attach effect, for a connected session or not, and its timer. *)
| SF_attached (connected : bool)
| SF_attach_timer
| SF_view (e : ViewEvent).

(** The events of the view that are the surface's own. *)
Definition surfaces_own (e : ViewEvent) : bool :=
  match e with VE_layout | VE_program true => true | _ => false end.

Definition surface_step (s : Surface) (e : SurfaceEvent) : Surface :=
  match e with
  | SF_viewport e =>
      {| sf_viewport := viewport_step (sf_viewport s) e; sf_topBarHeight := sf_topBarHeight s;
         sf_loading := sf_loading s; sf_committed := sf_committed s; sf_attach := sf_attach s;
         sf_view := sf_view s |}
  | SF_bar h =>
      {| sf_viewport := sf_viewport s; sf_topBarHeight := h; sf_loading := sf_loading s;
         sf_committed := sf_committed s; sf_attach := sf_attach s; sf_view := sf_view s |}
  | SF_loaded =>
      {| sf_viewport := sf_viewport s; sf_topBarHeight := sf_topBarHeight s; sf_loading := false;
         sf_committed := sf_committed s; sf_attach := sf_attach s;
         sf_view := view_step propose (sf_view s) (VE_program true) |}
  | SF_commit =>
      if bool_decide (fit_deps s = sf_committed s) then s
      else {| sf_viewport := sf_viewport s; sf_topBarHeight := sf_topBarHeight s;
              sf_loading := sf_loading s; sf_committed := fit_deps s; sf_attach := sf_attach s;
              sf_view := view_step propose (sf_view s) VE_layout |}
  | SF_attached up =>
      sf_set_attach (if up then Some (v_now (sf_view s) + ATTACH_DELAY) else None) s
  | SF_attach_timer =>
      match sf_attach s with
      | Some d => if d <=? v_now (sf_view s)
                  then sf_set_attach None (sf_set_view (refit propose (sf_view s)) s) else s
      | None => s
      end
  | SF_view VE_unmount => sf_set_attach None (sf_set_view (view_step propose (sf_view s) VE_unmount) s)
  | SF_view e => if surfaces_own e then s else sf_set_view (view_step propose (sf_view s) e) s
  end.

(** *** The grid at rest *)

(** The observer has seen every size the container had. *)
Definition grid_inv (v : View) : Prop :=
  v_mounted v = true → observer_timer v = None →
  ∀ g, propose (container v) = Some g → grid v = g.

Lemma refit_keeps v :
  v_mounted (refit propose v) = v_mounted v ∧ container (refit propose v) = container v ∧
  effect_timer (refit propose v) = effect_timer v ∧ observer_timer (refit propose v) = observer_timer v ∧
  functions (program (refit propose v)) = functions (program v) ∧
  ∀ g, propose (container v) = Some g → grid (refit propose v) = g.
Proof.
  unfold refit, fit. destruct (propose (container v)) as [g0|] eqn:E; unfold resize; cbn [set_fit
    container grid program v_mounted effect_timer observer_timer];
    (split_and!; [done..| |]); try (by destruct (functions (program v)) eqn:F); congruence.
Qed.

Lemma grid_inv_refit v : grid_inv (refit propose v).
Proof.
  intros _ _ g. destruct (refit_keeps v) as (_ & -> & _ & _ & _ & H). apply H.
Qed.

Lemma grid_inv_same v v' :
  v_mounted v' = v_mounted v → container v' = container v → observer_timer v' = observer_timer v →
  grid v' = grid v → grid_inv v → grid_inv v'.
Proof. unfold grid_inv. by intros -> -> -> ->. Qed.

Lemma grid_inv_step v e : grid_inv v → grid_inv (view_step propose v e).
Proof.
  intros H. destruct e as [c| | |ms| | |d| |d|up|]; cbn [view_step].
  - destruct (v_mounted v); [|exact H]. intros _ Ho. discriminate Ho.
  - destruct (v_mounted v) eqn:E; [|exact H]. by apply (grid_inv_same v).
  - apply grid_inv_refit.
  - by apply (grid_inv_same v).
  - case_if; [apply grid_inv_refit | exact H].
  - case_if; [apply grid_inv_refit | exact H].
  - unfold output_callback. case_if; [by apply (grid_inv_same v) | exact H].
  - unfold emit_output. destruct (deferred v); [exact H | by apply (grid_inv_same v)].
  - destruct (v_mounted v); [by apply (grid_inv_same v) | exact H].
  - by apply (grid_inv_same v).
  - destruct (v_mounted v); [|exact H]. intros Hm. discriminate Hm.
Qed.

(** *** The size that the program was told *)

(** A fit of the effect is to come, or the program has the size of the grid. *)
Definition told_or_due (v : View) : Prop :=
  effect_timer v ≠ None ∨ last (told v) = Some (grid v).

Lemma refit_told_last v :
  functions (program v) = true → last (told (refit propose v)) = Some (grid (refit propose v)).
Proof. intros Hf. destruct (refit_told propose v Hf) as [-> ->]. apply last_snoc. Qed.

(** The effect's timer ends only by firing, while the terminal is on the page. *)
Lemma effect_timer_step v e :
  v_mounted (view_step propose v e) = true → effect_timer v ≠ None → e ≠ VE_effect_timer →
  effect_timer (view_step propose v e) ≠ None.
Proof.
  intros Hm Ht He. destruct e as [c| | |ms| | |d| |d|up|]; cbn [view_step] in *; try done.
  - by destruct (v_mounted v).
  - by destruct (v_mounted v).
  - by destruct (refit_keeps v) as (_ & _ & -> & _).
  - case_if; [|done].
    by destruct (refit_keeps (set_fit_timers (effect_timer v) None v)) as (_ & _ & -> & _).
  - unfold output_callback. by case_if.
  - unfold emit_output. by destruct (deferred v).
  - by destruct (v_mounted v).
  - destruct (v_mounted v) eqn:E; [discriminate Hm | exact Ht].
Qed.

Lemma told_or_due_step v e :
  functions (program v) = true → v_mounted (view_step propose v e) = true →
  told_or_due v → told_or_due (view_step propose v e).
Proof.
  intros Hf Hm H. destruct (step_agrees propose v e Hf) as [[Hg Ht]|Ht].
  - destruct H as [H|H]; [|right; by rewrite Hg, Ht]. 
    assert (e = VE_effect_timer ∨ e ≠ VE_effect_timer) as [->|He]
      by (destruct e; first [by left | by right]).
    + cbn [view_step]. case_if; [|by left]. right. by apply refit_told_last.
    + left. by apply effect_timer_step.
  - right. by rewrite Ht, last_snoc.
Qed.

(** The invariant of the surface, as long as the program does not exit. *)
Record surface_inv (s : Surface) : Prop := {
  si_grid : grid_inv (sf_view s);
  si_loading : (sf_committed s).2 = false → sf_loading s = false;
  si_running : sf_loading s = false → functions (program (sf_view s)) = true;
  si_told : v_mounted (sf_view s) = true → (sf_committed s).2 = false → told_or_due (sf_view s);
}.

(** A step of the view that keeps the invariant. *)
Lemma surface_inv_view s v a :
  surface_inv s → grid_inv v →
  (functions (program (sf_view s)) = true → functions (program v) = true) →
  (functions (program (sf_view s)) = true → v_mounted v = true →
   (v_mounted (sf_view s) = true → told_or_due (sf_view s)) → told_or_due v) →
  surface_inv (sf_set_attach a (sf_set_view v s)).
Proof.
  intros [Hg Hl Hr Ht] Hv Hf Hd. split; cbn; [exact Hv | exact Hl | |].
  - intros H. by apply Hf, Hr.
  - intros Hm Hc. apply Hd; [by apply Hr, Hl | exact Hm |]. intros Hm'. by apply Ht.
Qed.

Lemma view_step_mounted v e : v_mounted (view_step propose v e) = true → v_mounted v = true.
Proof.
  destruct e as [c| | |ms| | |d| |d|up|]; cbn [view_step]; try done.
  - destruct (v_mounted v) eqn:E; [done|congruence].
  - destruct (v_mounted v) eqn:E; [done|congruence].
  - by destruct (refit_keeps v) as (-> & _).
  - case_if; [|done]. by destruct (refit_keeps (set_fit_timers None (observer_timer v) v)) as (-> & _).
  - case_if; [|done]. by destruct (refit_keeps (set_fit_timers (effect_timer v) None v)) as (-> & _).
  - unfold output_callback. by case_if.
  - unfold emit_output. by destruct (deferred v).
  - destruct (v_mounted v) eqn:E; [done|congruence].
  - destruct (v_mounted v) eqn:E; [done|congruence].
Qed.

Lemma surface_inv_event s e a :
  surface_inv s → e ≠ VE_program false →
  surface_inv (sf_set_attach a (sf_set_view (view_step propose (sf_view s) e) s)).
Proof.
  intros H He. apply surface_inv_view; [exact H | by apply grid_inv_step, H | |].
  - intros Hf. by apply step_functions.
  - intros Hf Hm Hd. apply told_or_due_step; [exact Hf | exact Hm |].
    apply Hd. by eapply view_step_mounted.
Qed.

Lemma surface_inv_step s e :
  e ≠ SF_view (VE_program false) → surface_inv s → surface_inv (surface_step s e).
Proof.
  intros He H. pose proof H as [Hg Hl Hr Ht].
  destruct e as [e|h| | |up| |e]; cbn [surface_step]; try by split.
  - case_bool_decide; [exact H|]. split; cbn [sf_view sf_loading sf_committed fit_deps snd view_step].
    + by apply (grid_inv_step _ VE_layout).
    + done.
    + intros E. destruct (v_mounted (sf_view s)); by apply Hr.
    + destruct (v_mounted (sf_view s)) eqn:E; [|by rewrite E]. intros _ _. by left.
  - destruct (sf_attach s) as [d|]; [|exact H]. destruct (d <=? _); [|exact H].
    destruct (refit_keeps (sf_view s)) as (_ & _ & _ & _ & Hf & _).
    apply surface_inv_view; [exact H | apply grid_inv_refit | by rewrite Hf |].
    intros Hfun _ _. right. by apply refit_told_last.
  - assert (Hv : surface_inv (sf_set_view (view_step propose (sf_view s) e) s))
      by exact (surface_inv_event s e (sf_attach s) H ltac:(congruence)).
    destruct e as [c| | |ms| | |d| |d|[]|]; cbn [surfaces_own]; try exact H; try exact Hv.
    exact (surface_inv_event s VE_unmount None H ltac:(congruence)).
Qed.

End surface.

(** ** Witnesses *)

Definition demo_keys : list (jsstring * json) :=
  [(js "a", JNull); (js "b", JNull); (js "c", JNull)].

(** Two keys fit, then the region grows. *)
Definition demo_measures : list MeasureEvent :=
  [ME_effect; ME_notified; ME_layout (0, 300 * 64, [90 * 64; 190 * 64; 290 * 64]); ME_notified].

Lemma bar_shows_what_fits_witness :
  let m := run measure_step (measured_mount demo_keys (0, 200 * 64, [90 * 64; 190 * 64; 290 * 64]))
             demo_measures in
  tb_pills (SessionTopBar (js "s") connected None (ms_keys m) None (ms_bar m)) !! 2%nat
  = Some (js "c", JNull).
Proof.
  destruct (bar_shows_what_fits demo_keys (0, 200 * 64, [90 * 64; 190 * 64; 290 * 64]) demo_measures
              0 (300 * 64) [90 * 64; 190 * 64; 290 * 64] (js "s") connected None None) as (H & _).
  - by split_and!.
  - reflexivity.
  - reflexivity.
  - repeat constructor; lia.
  - intros m. etransitivity; [exact (H 2%nat (js "c", JNull) (290 * 64) eq_refl eq_refl)|]. reflexivity.
Defined.

(** The program loads and the first fit is told; then the keyboard opens. *)
Definition demo_surface : list SurfaceEvent :=
  [SF_loaded; SF_commit; SF_view (VE_time 50); SF_view VE_effect_timer;
   SF_viewport (VV_change 400); SF_viewport VV_fire; SF_commit;
   SF_view (VE_container {| width := 800; height := 360 |}); SF_view (VE_time 50);
   SF_view VE_effect_timer; SF_view VE_observer_timer].

